(* ===== verification/_CoqProject ===== *)
-Q . S2P
Prelude.v
RingBuffer.v
Serial.v
Timer.v
Transmit.v
Kernel.v
Scheduler.v
Delay.v
Ipc.v
Semaphore.v
Boot.v
Tasks.v
Sleep.v
Lock.v
Mem.v
MemLayout.v
MemHeap.v
Buffers.v
Crc.v
Flash.v
Fonts.v
Display.v
Panel.v
State.v
Invariant.v
Infrared.v
Master.v
Pages.v
Buttons.v
UartTask.v
System.v
Settings.v
Registration.v
Line.v
