(* ===== verification/Prelude.v ===== *)
(** * Verification of the universal infrared remote module firmware

    The repository holds the firmware of a module that controls air conditioners by
    infrared: an STM32F1 under RT-Thread that talks to a hub over UART 1 (Modbus frames),
    to an infrared code-library chip over UART 2, shows a menu on an ST7567 display and
    reads three keys. Paths below are under src/infrared_module/.

    ** The program and its model

    - Prelude.v: machine integers with their wrap-around ([u8], [u16], [u32], [s16]), the
      state-and-fault monad [prog] (a C function is a function from the state to a result
      and a new state, or a [fault]: an access outside an object, a call through an empty
      pointer, a loop out of fuel, a failing assertion, a wait nobody ends), bounds-checked
      arrays, the precondition calculi [wp] and [wlp], and the two walks over programs
      [preserves] (an invariant) and [along] (a relation between the states before and after;
      [keeps] for an observation left alone), with their hint databases.
    - RingBuffer.v: rt-thread/components/drivers/src/ringbuffer.c.
    - Serial.v: the receive path of drivers/drv_usart.c and
      rt-thread/components/drivers/serial/serial.c for a port opened with
      RT_DEVICE_FLAG_DMA_RX: the idle-line interrupt, the FIFO on top of the circular
      transfer, reading. The DMA channel is the bytes it stores.
    - Transmit.v: opening and writing a port (rt-thread/src/device.c, serial.c), down to the
      data register of drv_usart.c ([serial_open] is [rt_serial_open], for its flags;
      [serial_write] is [rt_device_write] of a port).
    - Timer.v, Kernel.v, Ipc.v: threads, delays, the tick and the semaphores of RT-Thread
      (rt-thread/src/scheduler.c, thread.c, timer.c, clock.c, ipc.c; [__rt_ffs] of
      libcpu/arm/cortex-m3/cpuport.c; the start in components.c). Timer.v has the list of
      timers on a counter that wraps around, against deadlines in unbounded time
      ([timers_rep]); Kernel.v the state, as threads with their status words, a queue for
      each priority, the bit map and the semaphores, and all operations on threads; Ipc.v
      the operations on semaphores, whose lists threads wait in.
    - Scheduler.v, Delay.v, Semaphore.v, Boot.v, Tasks.v, Sleep.v, Lock.v: what they do.
      Scheduler.v says what queues, bit map and the lists of the semaphores have to do with
      each other ([queues]) and which thread [rt_schedule] picks; Delay.v has the
      specification, a set of tasks that can run, a list of deadlines and the semaphores
      ([tasking], [implements]), and the delays; Semaphore.v what taking and releasing do to
      it ([take_effect], [release_effect]), Boot.v the start, Tasks.v everything tasks and
      ticks do, in any order ([event], [effects]). Sleep.v follows a task that sleeps
      ([dozing]), Lock.v the tasks that take the semaphore of the heap ([users], [line_up]).
    - Mem.v, MemLayout.v, MemHeap.v: the heap of rt-thread/src/mem.c. Mem.v has the
      operations as they are, on the bytes of the managed memory: a block header is twelve
      bytes in front of the block, [heap] holds the statics. MemLayout.v says how a list of
      blocks is laid out in these bytes ([laid]) and what each operation makes of the list
      ([coalesce], [carve], [alloc]). MemHeap.v is the contract: [heap_rep h bs] (the heap
      holds the blocks [bs]) and the store of disjoint blocks ([heap_step]) that it refines.
      Buffers.v is the contract the way C code uses it: a block on loan ([lent]).
    - Crc.v: the checksums of applications/main.c and applications/crc_32.c.
    - Flash.v: drivers/drv_flash_f1.c over the loops of the HAL's flash driver, and the two
      wrappers of applications/Uart/module.c. What one half-word program and one page erase
      do to the array is an interface ([FlashHw], laws [FlashHwOk]): registers of the part,
      with its documented behaviour, which neither programs nor erases while the LOCK bit is
      set; [stm32f1_flash] is a device that satisfies the laws.
    - Fonts.v, Display.v: applications/Oled1309/st7567/ (fonts as data, frame buffer, lines,
      circles, text, and the bit-banged wire as a trace of pin events). Panel.v is the
      display controller at the other end of the wire, the specification of what is shown.
    - State.v, Invariant.v: the globals and statics of the three tasks as one record [fw],
      with a trace of device and pin writes, and the invariant [fw_inv] of this record.
    - Infrared.v: applications/Uart/infrared.c, the frames for the chip.
    - Master.v: applications/Uart/module.c, registers, requests and replies for the hub; a
      reply is put together in blocks of the heap of Mem.v.
    - Pages.v: applications/Oled1309/OledPage.c and Oled1309.c: pages, key call-backs, the
      page stack, the display task.
    - Buttons.v: applications/Button/ButtonTask.c, the key task.
    - UartTask.v: applications/Uart/Uart.c: both receive interrupts, the settings in flash,
      the switch input, start-up and one turn of the communication task's loop.
    - System.v: applications/main.c: start-up of the three tasks, then receive interrupts
      and turns of the tasks' loops in any order ([action], [perform]).
    - Settings.v, Registration.v: what holds over every reachable state for the settings in
      flash and for the registration with a hub that stays silent. The latter follows the
      timers, the monitor and the hub event ([link], a function of the state) through a turn
      and counts the turns left ([patience]).
    - Line.v: the tasks of System.v over the driver of Serial.v, a port for each line.

    A function of the source is a definition of the same name where Rocq allows it; the
    turn of a task's endless loop is a definition ending in _turn, what the task does before
    the loop one ending in _init, and a branch of a long body has a definition of its own
    (for [UartTaskEntry]: [hub_message], [chip_message], [save_settings], [locate_event],
    [second_event], [five_second_event], [ten_second_event]). Automatic arrays are lists
    passed along; the static and automatic variables that live across turns are fields of
    [uart_task] and [oled_task]. A block of the heap is borrowed as a list of the bytes
    behind its pointer and written back when it is freed; no two blocks overlap, which is
    what makes this right and what MemHeap.v proves.

    ** What the theorems show

    - The whole: from power-on, with any flash contents, whatever the pins read, in whatever
      order the tasks take their turns and whatever comes in on the lines within the bounds
      of [System.allowed] (messages of at most 100 bytes, a match reply with a brand code of
      at most four digits), no fault occurs, the state's invariant holds, and no access
      leaves its object but the four kinds named below ([System.firmware_safe]). What
      happens outside these bounds is proved too ([long_message_overruns],
      [save_page_brand_digits]).
    - The hub: which messages are accepted, what is answered to which request, byte for
      byte, and that the heap is divided afterwards as before ([hub_input_accepts],
      [corrupted_byte_rejected], [read_request_answered], [control_write_echoed],
      [other_requests_ignored], [registration_frame]). A hub that says nothing is asked
      again within 874 turns ([silent_hub_registration]).
    - The chip: every sender writes the frame that a decoder of the protocol understands
      ([senders_understood], [control_frame]), the one-key match ([match_reply_saves]), the
      repeated control command and the debounced switch.
    - Settings: what is written to flash is read back, after a restart too
      ([settings_flash_roundtrip], [settings_survive_restart]), and in any run a power cycle
      finds brand code and mode, and the address unless the check of the settings, which
      does not look at them, takes it away ([settings_survive_power_cycle]).
    - The lines: a burst reaches the firmware's call-back as it came in, up to the 255 bytes
      that the driver can count ([bursts_delivered]); the firmware over the driver does on
      bursts what it does on these messages ([lines_refine_messages]), so that the theorems
      on [perform_all] hold for bursts, and a request on the wire is answered on the wire,
      byte for byte ([request_echoed_on_line]).
    - The kernel: from its start on, queues, bit map, timer list and semaphores do what the
      set of tasks with deadlines does ([kernel_refines_tasking]); a delay of n milliseconds ends at the
      n-th tick, on a counter that wraps around, also when ticks come in between the two
      halves of the delay, and the thread that runs then is at least as urgent
      ([sleep_wakes_on_time]). Of the tasks that call for the heap one at a time gets past
      its semaphore, the others wait in line ([heap_lock_excludes]): that is why the
      operations of Mem.v can be single steps, with the semaphore reduced to its count.
    - Display and keys: the panel shows the frame buffer, lines and text set exactly their
      pixels, the menu navigates as its table says, a press is classified by its length.
    - Memory: the heap refines a store of disjoint blocks, and freeing a block undoes its
      allocation, but for the maximum of the memory in use; the ring buffer refines a bounded
      queue, with forced puts that may cost what was held.
    - Where the code does not do what it means to, a theorem states what it does instead
      ([reply_result_lost], [settings_check_blind], [bounce_repeats_short],
      [refused_message_executed], [put_force_newest], [malloc_null_exactly], [malloc_size_wraps]).

    ** Accesses that leave their object

    A load or store outside its array is the fault [OutOfBounds], but for four accesses of
    the code that leave their object whenever they are reached. These go on in the model with
    the memory found there, and are put on record: [lcd_over] has the positions that
    [ST7567_UpdateScreen] reads behind the frame buffer (132 bytes, [lcd_beyond]), [fw_over]
    the ten bytes that [initModuleInfo] reads 24 bytes from the start of the twelve-byte
    [module_info], and clears ([fw_beyond]), and the eight bytes that [codeDataRecvResult]
    copies from the address of a four-byte pointer (the stack, [Layout]). What these bytes
    hold is arbitrary. That the ten bytes cleared belong to none of the variables of the
    model is an assumption on the placement of variables in memory; it is used by every
    theorem that goes through start-up.

    ** Fuel

    A loop without a bound in the source takes fuel, and every theorem about it proves that
    the fuel given is enough (running out would be a fault). A line has at most 128 points
    after clamping ([LINE_FUEL]); a circle of radius r at most r + 1 steps ([circle_fuel]);
    a string ends within its array, whose length is the fuel; the flash is written four
    bytes a step, with the length of the data as fuel; the heap's two searches visit a block
    a step, a block takes sixteen bytes, and the fuel is the length of the memory; a round of
    [rt_timer_check] takes a timer out of the list, whose length is the fuel, and a round of
    [rt_ipc_list_resume_all] a thread.

    ** What is not modelled

    - Preemption inside a turn: a turn of a task and a receive interrupt are single steps.
      On the device an interrupt, or the communication task (priority 18) over the display
      and key tasks (20 and 21), can come in between two accesses of a turn.
    - Tasks over the kernel: the files from State.v on take a delay as an event of the trace
      and do not say which task is next; the kernel's files do not say what a thread does
      between its calls. The end of a thread, the thread that runs soft timers (there are
      none), stacks, the switch of contexts, the lists of objects, and IPC other than
      semaphores that exist from the start are left out. [main] has the highest priority, so all three
      threads, whose stacks come from the heap too, exist before a task takes its first
      step; [power_on] starts there, with a heap that may hold any blocks, and from then on
      the model's heap is used by module.c alone.
    - The rest of the serial driver (configuration, reception by interrupts, sending by DMA,
      closing) and the pin driver: device writes and pin writes are events of the trace,
      pin levels are inputs.
      [GpioInit], [debugPrint] and real_time.c touch only these.
    - The hooks of mem.c, which nobody installs, and its shell commands;
      [rt_ringbuffer_create] and [rt_ringbuffer_destroy].
    - The network stacks, file systems, HAL drivers and RT-Thread components that the
      repository ships and this firmware does not link. *)
From stdpp Require Export base numbers list option.
From Stdlib Require Export ZArith Lia.

#[global] Open Scope Z_scope.

(** lia also decides goals with division and remainder by constants. *)
Ltac Zify.zify_post_hook ::= Z.to_euclidean_division_equations.

(** ** Machine integers: unsigned and signed wrap-around *)

Definition u8 (x : Z) : Z := x mod 256.
Definition u16 (x : Z) : Z := x mod 65536.
Definition u32 (x : Z) : Z := x mod 4294967296.
Definition s16 (x : Z) : Z := (x + 32768) mod 65536 - 32768.

Definition is_u8 (x : Z) : Prop := 0 ≤ x < 256.
Definition is_u16 (x : Z) : Prop := 0 ≤ x < 65536.
Definition is_u32 (x : Z) : Prop := 0 ≤ x < 4294967296.

#[export] Instance is_u8_dec x : Decision (is_u8 x).
Proof. unfold is_u8. apply _. Defined.
#[export] Instance is_u16_dec x : Decision (is_u16 x).
Proof. unfold is_u16. apply _. Defined.
#[export] Instance is_u32_dec x : Decision (is_u32 x).
Proof. unfold is_u32. apply _. Defined.

(** Truth values of the source: [NO] and [YES] of typedef.h. *)
Definition NO : Z := 0.
Definition YES : Z := 1.

(** ** Faults and state-passing programs *)

(** What a C function of the model can run into: an access outside an object,
    a call through a function pointer that holds no function, a loop that does
    not end within its fuel, a failing RT_ASSERT, a wait for a semaphore that
    nobody else would release. *)
Inductive fault : Set :=
  | OutOfBounds
  | WildCall
  | NoFuel
  | AssertFailed
  | Blocked.

Inductive outcome (A : Type) : Type :=
  | Ok (a : A)
  | Fault (f : fault).
Arguments Ok {A} a.
Arguments Fault {A} f.

#[export] Instance outcome_ret : MRet outcome := λ A, Ok.
#[export] Instance outcome_bind : MBind outcome := λ A B k m,
  match m with Ok a => k a | Fault f => Fault f end.
#[export] Instance fault_eq_dec : EqDecision fault.
Proof. solve_decision. Defined.
#[export] Instance outcome_eq_dec {A} `{EqDecision A} : EqDecision (outcome A).
Proof. solve_decision. Defined.

Definition prog (S A : Type) : Type := S → outcome (A * S).

#[export] Instance prog_ret S : MRet (prog S) := λ A a s, Ok (a, s).
#[export] Instance prog_bind S : MBind (prog S) := λ A B k m s,
  match m s with Ok (a, s') => k a s' | Fault f => Fault f end.

Section prog.
Context {S : Type}.

Definition lift {A} (o : outcome A) : prog S A := λ s,
  match o with Ok a => Ok (a, s) | Fault f => Fault f end.
Definition gets {A} (f : S → A) : prog S A := λ s, Ok (f s, s).
Definition reads {A} (f : S → outcome A) : prog S A := λ s, lift (f s) s.
Definition modify (f : S → S) : prog S unit := λ s, Ok (tt, f s).
Definition fail {A} (f : fault) : prog S A := λ _, Fault f.

Definition rt_assert (b : bool) : prog S unit := if b then mret tt else fail AssertFailed.

(** [when b m]: an [if] without an [else] branch. *)
Definition when (b : bool) (m : prog S unit) : prog S unit :=
  if b then m else mret tt.

(** [for (i = a; i < b; i++) body], the counter not modified by the body. *)
Fixpoint for_loop (n : nat) (i : Z) (body : Z → prog S unit) : prog S unit :=
  match n with
  | O => mret tt
  | Datatypes.S n => body i;; for_loop n (i + 1) body
  end.
Definition for_range (a b : Z) (body : Z → prog S unit) : prog S unit :=
  for_loop (Z.to_nat (b - a)) a body.

(** [while (cond) body] with fuel. *)
Fixpoint while_loop (fuel : nat) (cond : S → bool) (body : prog S unit) : prog S unit :=
  match fuel with
  | O => fail NoFuel
  | Datatypes.S fuel => λ s,
      if cond s then (body;; while_loop fuel cond body) s else Ok (tt, s)
  end.
End prog.

(** ** Record update: [r <| f := v |>] *)

(** [Eta R] is the record's constructor applied to its own projections; an
    update of the projection [p] replaces that one argument. *)
Class Eta (R : Type) := eta : R → R.
Class Upd {R T : Type} (proj : R → T) := upd : (T → T) → R → R.
Arguments upd {R T} proj {_} f r : simpl never.

Ltac solve_upd :=
  lazymatch goal with
  | |- @Upd ?R ?T ?p =>
    unfold Upd; let f := fresh "f" in let r := fresh "r" in intros f r;
    let inst := constr:(_ : Eta R) in
    let e := eval hnf in inst in
    let e := eval cbv beta in (e r) in
    let e := eval pattern (p r) in e in
    lazymatch e with ?g _ =>
      let e := eval cbv beta in (g (f (p r))) in exact e
    end
  end.
#[export] Hint Extern 1 (Upd _) => solve_upd : typeclass_instances.

Notation "r <| p := v |>" := (upd p (λ _, v) r)
  (at level 12, left associativity).

(** Running a program on one component of the state. *)
Definition zoom {S T A} (proj : S → T) `{!Upd proj} (m : prog T A) : prog S A := λ s,
  match m (proj s) with
  | Ok (a, t) => Ok (a, s <| proj := t |>)
  | Fault f => Fault f
  end.

(** ** Arrays: bounds-checked loads, stores and block copies *)

Definition zlen {A} (l : list A) : Z := Z.of_nat (length l).
Definition zeros (n : nat) : list Z := replicate n 0.

Definition load {A} (l : list A) (i : Z) : outcome A :=
  if decide (0 ≤ i) then
    match l !! Z.to_nat i with Some v => Ok v | None => Fault OutOfBounds end
  else Fault OutOfBounds.

Definition store {A} (l : list A) (i : Z) (v : A) : outcome (list A) :=
  if decide (0 ≤ i < zlen l) then Ok (<[Z.to_nat i := v]> l) else Fault OutOfBounds.

(** A run of assignments [data[i] = v]. *)
Fixpoint stores {A} (l : list A) (ws : list (Z * A)) : outcome (list A) :=
  match ws with
  | [] => Ok l
  | (i, v) :: ws => l ← store l i v; stores l ws
  end.

(** [memcpy] out of and into an array. *)
Definition load_bytes {A} (l : list A) (i n : Z) : outcome (list A) :=
  if decide (0 ≤ i ∧ 0 ≤ n ∧ i + n ≤ zlen l)
  then Ok (take (Z.to_nat n) (drop (Z.to_nat i) l)) else Fault OutOfBounds.
Definition store_bytes {A} (l : list A) (i : Z) (bs : list A) : outcome (list A) :=
  if decide (0 ≤ i ∧ i + zlen bs ≤ zlen l)
  then Ok (take (Z.to_nat i) l ++ bs ++ drop (Z.to_nat i + length bs) l)
  else Fault OutOfBounds.

(** Little-endian representation of an [n]-byte unsigned integer. *)
Fixpoint le_bytes (n : nat) (x : Z) : list Z :=
  match n with
  | O => []
  | S n => u8 x :: le_bytes n (Z.shiftr x 8)
  end.
Fixpoint le_value (bs : list Z) : Z :=
  match bs with
  | [] => 0
  | b :: bs => Z.lor b (Z.shiftl (le_value bs) 8)
  end.

(** ** Weakest preconditions: total correctness of programs *)

Definition wp {S A} (m : prog S A) (Q : A → S → Prop) (s : S) : Prop :=
  match m s with Ok (a, s') => Q a s' | Fault _ => False end.

Definition owp {A} (o : outcome A) (Q : A → Prop) : Prop :=
  match o with Ok a => Q a | Fault _ => False end.

Section wp.
Context {S : Type}.
Implicit Types s : S.

Lemma wp_ok {A} (m : prog S A) Q s :
  wp m Q s ↔ ∃ a s', m s = Ok (a, s') ∧ Q a s'.
Proof.
  unfold wp. destruct (m s) as [[a s']|f]; split; [eauto| | done |].
  - by intros (? & ? & [= <- <-] & ?).
  - by intros (? & ? & ? & ?).
Qed.
Lemma wp_run {A} (m : prog S A) Q s a s' : m s = Ok (a, s') → Q a s' → wp m Q s.
Proof. unfold wp. by intros ->. Qed.

Lemma wp_ret {A} (a : A) Q s : wp (mret a) Q s = Q a s.
Proof. done. Qed.

Lemma wp_bind {A B} (m : prog S A) (k : A → prog S B) Q s :
  wp (m ≫= k) Q s = wp m (λ a s', wp (k a) Q s') s.
Proof. unfold wp, mbind, prog_bind. by destruct (m s) as [[a s']|f]. Qed.

Lemma wp_mono {A} (m : prog S A) (Q Q' : A → S → Prop) s :
  wp m Q s → (∀ a s', Q a s' → Q' a s') → wp m Q' s.
Proof. unfold wp. destruct (m s) as [[a s']|f]; auto. Qed.

Lemma wp_lift {A} (o : outcome A) Q s : wp (lift o) Q s = owp o (λ a, Q a s).
Proof. unfold wp, lift. by destruct o. Qed.

Lemma wp_gets {A} (f : S → A) Q s : wp (gets f) Q s = Q (f s) s.
Proof. done. Qed.

Lemma wp_reads {A} (f : S → outcome A) Q s : wp (reads f) Q s = owp (f s) (λ a, Q a s).
Proof. apply wp_lift. Qed.

Lemma wp_modify (f : S → S) Q s : wp (modify f) Q s = Q tt (f s).
Proof. done. Qed.

Lemma wp_when (b : bool) (m : prog S unit) Q s :
  (b = true → wp m Q s) → (b = false → Q tt s) → wp (when b m) Q s.
Proof. destruct b; intros Ht Hf; [by apply Ht | by apply Hf]. Qed.

Lemma wp_for_loop (I : Z → S → Prop) n a body s :
  I a s →
  (∀ i s, a ≤ i < a + Z.of_nat n → I i s → wp (body i) (λ _, I (i + 1)) s) →
  wp (for_loop n a body) (λ _, I (a + Z.of_nat n)) s.
Proof.
  revert a s. induction n as [|n IH]; intros a s Ha Hbody; cbn.
  - unfold wp. cbn. by rewrite Z.add_0_r.
  - rewrite wp_bind. eapply wp_mono; [apply Hbody; [lia|done]|].
    intros ? s' Hs'. replace (a + Z.of_nat (Datatypes.S n)) with (a + 1 + Z.of_nat n) by lia.
    apply IH; [done|]. intros i s'' Hi. apply Hbody. lia.
Qed.

(** The rule for counted loops: an invariant indexed by the counter. *)
Lemma wp_for_range (I : Z → S → Prop) a b body s :
  a ≤ b → I a s →
  (∀ i s, a ≤ i < b → I i s → wp (body i) (λ _, I (i + 1)) s) →
  wp (for_range a b body) (λ _, I b) s.
Proof.
  intros Hab Ha Hbody. unfold for_range.
  eapply wp_mono; [apply (wp_for_loop I); [done|]|].
  - intros i s' Hi. apply Hbody. lia.
  - intros ? s'. cbn beta. by replace (a + Z.of_nat (Z.to_nat (b - a))) with b by lia.
Qed.

(** The rule for [while]: the invariant is indexed by a variant that the body
    decreases, and the fuel covers the variant. *)
Lemma wp_while (I : nat → S → Prop) (cond : S → bool) (body : prog S unit) fuel n s Q :
  (n < fuel)%nat → I n s →
  (∀ n s, I n s → cond s = true → wp body (λ _ s', ∃ n', (n' < n)%nat ∧ I n' s') s) →
  (∀ n s, I n s → cond s = false → Q tt s) →
  wp (while_loop fuel cond body) Q s.
Proof.
  intros Hn HI Hbody HQ. revert n s Hn HI.
  induction fuel as [|fuel IH]; intros n s Hn HI; [lia|].
  unfold wp. cbn. destruct (cond s) eqn:Hc.
  - change (wp (body ≫= λ _, while_loop fuel cond body) Q s). rewrite wp_bind.
    eapply wp_mono; [by apply (Hbody n)|]. intros ? s' (n' & Hn' & HI').
    apply (IH n'); [lia|done].
  - eauto.
Qed.
End wp.

Lemma wp_zoom {S T A} (proj : S → T) `{!Upd proj} (m : prog T A) Q s :
  wp (zoom proj m) Q s = wp m (λ a t, Q a (s <| proj := t |>)) (proj s).
Proof. unfold wp, zoom. by destruct (m (proj s)) as [[a t]|f]. Qed.

Lemma owp_bind {A B} (o : outcome A) (k : A → outcome B) Q :
  owp (o ≫= k) Q = owp o (λ a, owp (k a) Q).
Proof. by destruct o. Qed.

Lemma owp_mono {A} (o : outcome A) (Q Q' : A → Prop) :
  owp o Q → (∀ a, Q a → Q' a) → owp o Q'.
Proof. destruct o; cbn; auto. Qed.

(** ** Lemmas on arrays *)

Lemma zlen_insert {A} (l : list A) i x : zlen (<[i := x]> l) = zlen l.
Proof. unfold zlen. by rewrite length_insert. Qed.

Lemma load_ok {A} (l : list A) i v :
  0 ≤ i → l !! Z.to_nat i = Some v → load l i = Ok v.
Proof. intros Hi Hl. unfold load. by rewrite decide_True, Hl by lia. Qed.

Lemma load_in {A} (l : list A) i :
  0 ≤ i < zlen l → ∃ v, load l i = Ok v ∧ l !! Z.to_nat i = Some v.
Proof.
  intros Hi. destruct (lookup_lt_is_Some_2 l (Z.to_nat i)) as [v Hv].
  { unfold zlen in Hi. lia. }
  exists v. split; [|done]. apply load_ok; [lia|done].
Qed.

Lemma load_out {A} (l : list A) i : zlen l ≤ i → load l i = Fault OutOfBounds.
Proof.
  unfold zlen, load. intros Hi. case_decide; [|done].
  by rewrite lookup_ge_None_2 by lia.
Qed.

Lemma store_in {A} (l : list A) i v :
  0 ≤ i < zlen l → store l i v = Ok (<[Z.to_nat i := v]> l).
Proof. intros. unfold store. by rewrite decide_True. Qed.

Lemma store_out {A} (l : list A) i v : zlen l ≤ i → store l i v = Fault OutOfBounds.
Proof. intros. unfold store. by rewrite decide_False by lia. Qed.

Lemma store_zlen {A} (l l' : list A) i v : store l i v = Ok l' → zlen l' = zlen l.
Proof. unfold store. case_decide; intros [= <-]. apply zlen_insert. Qed.

Lemma load_bytes_in {A} (l : list A) i n :
  0 ≤ i → 0 ≤ n → i + n ≤ zlen l →
  load_bytes l i n = Ok (take (Z.to_nat n) (drop (Z.to_nat i) l)).
Proof. intros. unfold load_bytes. by rewrite decide_True by lia. Qed.

Lemma store_bytes_in {A} (l : list A) i bs :
  0 ≤ i → i + zlen bs ≤ zlen l →
  store_bytes l i bs =
    Ok (take (Z.to_nat i) l ++ bs ++ drop (Z.to_nat i + length bs) l).
Proof. intros. unfold store_bytes. by rewrite decide_True by lia. Qed.

Lemma store_bytes_out {A} (l : list A) i bs :
  0 ≤ i → zlen l < i + zlen bs → store_bytes l i bs = Fault OutOfBounds.
Proof. intros. unfold store_bytes. by rewrite decide_False by lia. Qed.

Lemma store_bytes_zlen {A} (l l' : list A) i bs :
  store_bytes l i bs = Ok l' → zlen l' = zlen l.
Proof.
  unfold store_bytes, zlen. case_decide as H; intros [= <-].
  rewrite !length_app, length_take, length_drop. unfold zlen in *. lia.
Qed.

(** ** Arrays byte by byte *)

(** The byte at a position, 0 outside. *)
Definition byte (l : list Z) (i : Z) : Z := nth (Z.to_nat i) l 0.

Lemma byte_app l1 l2 i : 0 ≤ i →
  byte (l1 ++ l2) i = if decide (i < zlen l1) then byte l1 i else byte l2 (i - zlen l1).
Proof.
  intros Hi. unfold byte, zlen. case_decide.
  - apply app_nth1. lia.
  - rewrite app_nth2 by lia. f_equal. lia.
Qed.

Lemma byte_take n l i : 0 ≤ i < n → byte (take (Z.to_nat n) l) i = byte l i.
Proof.
  intros Hi. unfold byte. rewrite <- (take_drop (Z.to_nat n) l) at 2.
  destruct (decide (Z.to_nat i < length (take (Z.to_nat n) l))%nat) as [Hl|Hl].
  - by rewrite app_nth1.
  - rewrite (nth_overflow (take _ _)) by lia. rewrite nth_overflow; [done|].
    rewrite length_app, length_drop, length_take in *. lia.
Qed.

Lemma byte_drop n l i : 0 ≤ n → 0 ≤ i → byte (drop (Z.to_nat n) l) i = byte l (n + i).
Proof.
  intros Hn Hi. unfold byte. replace (Z.to_nat (n + i)) with (Z.to_nat n + Z.to_nat i)%nat by lia.
  generalize (Z.to_nat i). clear i Hi. revert l. generalize (Z.to_nat n) as k. clear n Hn.
  induction k as [|k IH]; intros l i; [done|]. destruct l as [|x l]; [by destruct i|]. apply (IH l).
Qed.

Lemma byte_ext l1 l2 :
  zlen l1 = zlen l2 → (∀ i, 0 ≤ i < zlen l1 → byte l1 i = byte l2 i) → l1 = l2.
Proof.
  unfold zlen, byte. intros Hl Hi. apply (nth_ext _ _ 0 0); [lia|]. intros n Hn.
  specialize (Hi (Z.of_nat n) ltac:(lia)). by rewrite Nat2Z.id in Hi.
Qed.

(** What [memcpy] takes out of an array and leaves in one. *)
Lemma load_bytes_byte l i n :
  0 ≤ i → 0 ≤ n → i + n ≤ zlen l →
  ∃ bs, load_bytes l i n = Ok bs ∧ zlen bs = n ∧ ∀ k, 0 ≤ k < n → byte bs k = byte l (i + k).
Proof.
  intros Hi Hn Hl. rewrite load_bytes_in by done. eexists. split; [done|]. split.
  - unfold zlen in *. rewrite length_take, length_drop. lia.
  - intros k Hk. rewrite byte_take by lia. apply byte_drop; lia.
Qed.

Lemma store_bytes_byte l i bs :
  0 ≤ i → i + zlen bs ≤ zlen l →
  ∃ l', store_bytes l i bs = Ok l' ∧ zlen l' = zlen l ∧
    ∀ k, 0 ≤ k → byte l' k = if decide (i ≤ k < i + zlen bs) then byte bs (k - i) else byte l k.
Proof.
  intros Hi Hl. pose proof (store_bytes_in l i bs Hi Hl) as Hst. eexists. split; [exact Hst|].
  split; [by eapply store_bytes_zlen|]. intros k Hk.
  assert (zlen (take (Z.to_nat i) l) = i) as Ht by (unfold zlen in *; rewrite length_take; lia).
  rewrite byte_app, Ht by done. case_decide as H1; [rewrite decide_False by lia; by rewrite byte_take|].
  rewrite byte_app by lia. case_decide as H2; [by rewrite decide_True by lia|].
  rewrite decide_False by lia.
  replace (Z.to_nat i + length bs)%nat with (Z.to_nat (i + zlen bs)) by (unfold zlen; lia).
  rewrite byte_drop by (unfold zlen in *; lia). f_equal. lia.
Qed.

Lemma store_byte l i v :
  0 ≤ i < zlen l →
  ∃ l', store l i v = Ok l' ∧ zlen l' = zlen l ∧
    ∀ k, 0 ≤ k → byte l' k = if decide (k = i) then v else byte l k.
Proof.
  intros Hi. rewrite store_in by done. eexists. split; [done|]. split; [apply zlen_insert|].
  intros k Hk. unfold byte.
  case_decide as Hki.
  - subst k. apply nth_lookup_Some. apply list_lookup_insert_eq. unfold zlen in Hi. lia.
  - rewrite !nth_lookup, list_lookup_insert_ne by lia. done.
Qed.

(** ** Lemmas on machine integers *)

Lemma u8_range x : is_u8 (u8 x).
Proof. unfold is_u8, u8. lia. Qed.
Lemma u16_range x : is_u16 (u16 x).
Proof. unfold is_u16, u16. lia. Qed.
Lemma u32_range x : is_u32 (u32 x).
Proof. unfold is_u32, u32. lia. Qed.
Lemma u8_id x : is_u8 x → u8 x = x.
Proof. unfold is_u8, u8. lia. Qed.
Lemma u16_id x : is_u16 x → u16 x = x.
Proof. unfold is_u16, u16. lia. Qed.
Lemma u32_id x : is_u32 x → u32 x = x.
Proof. unfold is_u32, u32. lia. Qed.

Lemma shiftr8_div x : Z.shiftr x 8 = x / 256.
Proof. by rewrite Z.shiftr_div_pow2 by lia. Qed.
Lemma shiftl8_mul x : Z.shiftl x 8 = x * 256.
Proof. by rewrite Z.shiftl_mul_pow2 by lia. Qed.

Lemma testbit_above n p i : 0 ≤ n < 2 ^ p → p ≤ i → Z.testbit n i = false.
Proof.
  intros Hn Hi. destruct (decide (p < 0)) as [Hp|Hp].
  { rewrite Z.pow_neg_r in Hn by done. lia. }
  rewrite <- (Z.mod_small n (2 ^ p)) by done. apply Z.mod_pow2_bits_high. lia.
Qed.

(** Joining a high part to a low byte: [lor] and [lxor] are both addition. *)
Lemma land_byte_shiftl a b : is_u8 a → Z.land a (Z.shiftl b 8) = 0.
Proof.
  intros Ha. apply Z.bits_inj'. intros n Hn.
  rewrite Z.land_spec, Z.shiftl_spec, Z.bits_0 by done.
  destruct (decide (n < 8)) as [Hlt|Hge].
  - rewrite (Z.testbit_neg_r b) by lia. apply andb_false_r.
  - by rewrite (testbit_above a 8) by (unfold is_u8 in Ha; lia).
Qed.

Lemma lxor_byte a b : is_u8 a → Z.lxor a (Z.shiftl b 8) = a + 256 * b.
Proof.
  intros Ha. rewrite <- Z.add_nocarry_lxor by (by apply land_byte_shiftl).
  rewrite shiftl8_mul. lia.
Qed.

Lemma lor_byte a b : is_u8 a → Z.lor a (Z.shiftl b 8) = a + 256 * b.
Proof.
  intros Ha. rewrite <- Z.lxor_lor by (by apply land_byte_shiftl).
  by apply lxor_byte.
Qed.

Lemma lor_shiftl8 a b : is_u8 b → Z.lor (Z.shiftl a 8) b = 256 * a + b.
Proof. intros Hb. rewrite Z.lor_comm, lor_byte by done. lia. Qed.

(** The bitwise operations stay within a width. *)
Lemma lxor_range a b p : 0 ≤ p → 0 ≤ a < 2 ^ p → 0 ≤ b < 2 ^ p → 0 ≤ Z.lxor a b < 2 ^ p.
Proof.
  intros Hp Ha Hb. assert (0 ≤ Z.lxor a b) as Hx by (apply Z.lxor_nonneg; lia).
  split; [done|]. destruct (decide (Z.lxor a b = 0)) as [->|Hne]; [lia|].
  apply Z.log2_lt_pow2; [lia|].
  pose proof (Z.log2_lxor a b ltac:(lia) ltac:(lia)) as Hl.
  assert (∀ x, 0 ≤ x < 2 ^ p → x ≠ 0 → Z.log2 x < p) as Hlog
    by (intros x ??; apply Z.log2_lt_pow2; lia).
  destruct (decide (a = 0)) as [->|Ha0], (decide (b = 0)) as [->|Hb0].
  - done.
  - rewrite Z.lxor_0_l. auto.
  - rewrite Z.lxor_0_r. auto.
  - pose proof (Hlog a Ha Ha0). pose proof (Hlog b Hb Hb0). lia.
Qed.

Lemma lxor_u8 a b : is_u8 a → is_u8 b → is_u8 (Z.lxor a b).
Proof. apply (lxor_range a b 8). lia. Qed.
Lemma lxor_u16 a b : is_u16 a → is_u16 b → is_u16 (Z.lxor a b).
Proof. apply (lxor_range a b 16). lia. Qed.
Lemma lxor_u32 a b : is_u32 a → is_u32 b → is_u32 (Z.lxor a b).
Proof. apply (lxor_range a b 32). lia. Qed.

(** ** Little-endian integers *)

Lemma length_le_bytes n x : length (le_bytes n x) = n.
Proof. revert x. induction n as [|n IH]; intros x; cbn; [done|]. by rewrite IH. Qed.

Lemma le_bytes_u8 n x : Forall is_u8 (le_bytes n x).
Proof.
  revert x. induction n as [|n IH]; intros x; cbn; constructor; [apply u8_range|apply IH].
Qed.

Lemma le_value_bytes n x :
  0 ≤ x < 2 ^ (8 * Z.of_nat n) → le_value (le_bytes n x) = x.
Proof.
  revert x. induction n as [|n IH]; intros x Hx; cbn [le_bytes le_value].
  - change (2 ^ (8 * Z.of_nat 0)) with 1 in Hx. lia.
  - rewrite lor_byte by apply u8_range. rewrite shiftr8_div, IH; [unfold u8; lia|].
    replace (8 * Z.of_nat (S n)) with (8 + 8 * Z.of_nat n) in Hx by lia.
    rewrite Z.pow_add_r in Hx by lia. change (2 ^ 8) with 256 in Hx. lia.
Qed.

Lemma le_bytes_value bs : Forall is_u8 bs → le_bytes (length bs) (le_value bs) = bs.
Proof.
  induction 1 as [|b bs Hb Hbs IH]; cbn [length le_bytes le_value]; [done|].
  rewrite lor_byte, shiftr8_div by done. unfold is_u8, u8 in *.
  f_equal; [lia|]. rewrite <- IH. f_equal; [by rewrite length_le_bytes|].
  rewrite IH. lia.
Qed.

(** A number whose bits from [p] on are clear fits in [p] bits. *)
Lemma bits_bound x p : 0 ≤ p → (∀ i, p ≤ i → Z.testbit x i = false) → 0 ≤ x < 2 ^ p.
Proof.
  intros Hp Hb. assert (x mod 2 ^ p = x) as <-; [|apply Z.mod_pos_bound; lia].
  apply Z.bits_inj'. intros i Hi. destruct (decide (i < p)).
  - by apply Z.mod_pow2_bits_low.
  - rewrite Z.mod_pow2_bits_high by lia. symmetry. apply Hb. lia.
Qed.

Lemma setbit_u8 b n : is_u8 b → 0 ≤ n < 8 → is_u8 (Z.setbit b n).
Proof.
  intros Hb Hn. apply (bits_bound _ 8); [lia|]. intros i Hi.
  rewrite Z.setbit_neq by lia. by apply (testbit_above b 8).
Qed.

Lemma clearbit_u8 b n : is_u8 b → is_u8 (Z.clearbit b n).
Proof.
  intros Hb. apply (bits_bound _ 8); [lia|]. intros i Hi.
  rewrite Z.clearbit_eqb, (testbit_above b 8) by done. done.
Qed.

(** ** Programs that preserve an invariant *)

(** [preserves P m]: from a state of [P] the program does not fault and ends in a
    state of [P]. *)
Definition preserves {S A} (P : S → Prop) (m : prog S A) : Prop :=
  ∀ s, P s → wp m (λ _ s', P s') s.

Section preserves.
Context {S : Type} (P : S → Prop).

Lemma preserves_ret {A} (a : A) : preserves P (mret a).
Proof. by intros s Hs. Qed.

Lemma preserves_bind {A B} (m : prog S A) (k : A → prog S B) :
  preserves P m → (∀ a, preserves P (k a)) → preserves P (m ≫= k).
Proof.
  intros Hm Hk s Hs. rewrite wp_bind. eapply wp_mono; [by apply Hm|].
  intros a s' Hs'. by apply Hk.
Qed.

Lemma preserves_gets {A} (f : S → A) : preserves P (gets f).
Proof. by intros s Hs. Qed.

(** A value read from a good state may be assumed to come from one. *)
Lemma preserves_gets_bind {A B} (f : S → A) (k : A → prog S B) :
  (∀ s, P s → preserves P (k (f s))) → preserves P (gets f ≫= k).
Proof. intros Hk s Hs. rewrite wp_bind, wp_gets. by apply Hk. Qed.

Lemma preserves_lift_bind {A B} (o : outcome A) (a : A) (k : A → prog S B) :
  o = Ok a → preserves P (k a) → preserves P (lift o ≫= k).
Proof. intros -> Hk s Hs. rewrite wp_bind, wp_lift. by apply Hk. Qed.

Lemma preserves_reads {A} (f : S → outcome A) :
  (∀ s, P s → owp (f s) (λ _, True)) → preserves P (reads f).
Proof. intros Hf s Hs. rewrite wp_reads. specialize (Hf s Hs). by destruct (f s). Qed.

Lemma preserves_modify (f : S → S) : (∀ s, P s → P (f s)) → preserves P (modify f).
Proof. intros Hf s Hs. rewrite wp_modify. auto. Qed.

Lemma preserves_when b (m : prog S unit) : (b = true → preserves P m) → preserves P (when b m).
Proof. destruct b; intros Hm; [by apply Hm|apply preserves_ret]. Qed.

Lemma preserves_if {A} {X : Prop} `{Decision X} (m1 m2 : prog S A) :
  (X → preserves P m1) → (¬ X → preserves P m2) →
  preserves P (if decide X then m1 else m2).
Proof. case_decide; auto. Qed.

Lemma preserves_for_range a b body :
  (∀ i, a ≤ i < b → preserves P (body i)) → preserves P (for_range a b body).
Proof.
  intros Hb s Hs. destruct (decide (a ≤ b)).
  - apply (wp_for_range (λ _, P)); [done|done|]. intros i s' Hi Hs'. by apply Hb.
  - unfold for_range. replace (Z.to_nat (b - a)) with 0%nat by lia. by apply preserves_ret.
Qed.

Lemma preserves_lift {A} (o : outcome A) : owp o (λ _, True) → preserves P (lift o).
Proof. intros Ho s Hs. rewrite wp_lift. by destruct o. Qed.
End preserves.

Lemma preserves_zoom {S T A} (proj : S → T) `{!Upd proj} (P : S → Prop) (I : T → Prop)
    (m : prog T A) :
  preserves I m → (∀ s, P s → I (proj s)) →
  (∀ s t, P s → I t → P (s <| proj := t |>)) → preserves P (zoom proj m).
Proof.
  intros Hm Hp Hu s Hs. rewrite wp_zoom. eapply wp_mono; [apply Hm, Hp, Hs|]. eauto.
Qed.

Create HintDb preserves discriminated.
#[export] Hint Constants Opaque : preserves.
#[export] Hint Resolve preserves_ret preserves_gets : preserves.

(** Walks through a program whose leaves are covered by the hint database. *)
Ltac preserves_step :=
  lazymatch goal with
  | |- preserves _ (_ ≫= _) => apply preserves_bind; [|intros ?]
  | |- preserves _ (if decide _ then _ else _) => apply preserves_if; intros ?
  | |- preserves _ (when _ _) => apply preserves_when; intros ?
  | |- preserves _ (for_range _ _ _) =>
      apply preserves_for_range; let i := fresh "i" in let Hi := fresh "Hi" in intros i Hi
  | |- preserves _ (mret _) => apply preserves_ret
  | |- preserves _ (gets _) => apply preserves_gets
  | |- preserves _ _ => solve [eauto 2 with preserves]
  end.
Ltac preserves_all := repeat preserves_step.

(** ** Relations along programs: a part left alone, a trace that only grows *)

(** [along R m]: whenever the program ends, the states before and after are related. *)
Definition along {S A} (R : relation S) (m : prog S A) : Prop :=
  ∀ s a s', m s = Ok (a, s') → R s s'.

(** The states agree in the observation [f]; [keeps f m]: the program leaves it alone. *)
Definition same {S T} (f : S → T) : relation S := λ s s', f s' = f s.
Abbreviation keeps f := (along (same f)).

#[export] Instance same_preorder {S T} (f : S → T) : PreOrder (same f).
Proof. split; [done|]. intros s1 s2 s3. unfold same. congruence. Qed.

(** The relation on one component of the state. *)
Definition under {S T} (proj : S → T) (R : relation T) : relation S := λ s s', R (proj s) (proj s').

#[export] Instance under_preorder {S T} (proj : S → T) (R : relation T) : PreOrder R → PreOrder (under proj R).
Proof. intros HR. split; [intros s; red; reflexivity|]. intros s1 s2 s3. unfold under. by etransitivity. Qed.

Section along.
Context {S : Type} (R : relation S) `{!PreOrder R}.

Lemma along_ret {A} (a : A) : along R (mret a).
Proof. by intros s b s' [= _ <-]. Qed.
Lemma along_gets {A} (g : S → A) : along R (gets g).
Proof. by intros s b s' [= _ <-]. Qed.
Lemma along_lift {A} (o : outcome A) : along R (lift o).
Proof. intros s b s'. unfold lift. destruct o; [by intros [= _ <-]|done]. Qed.
Lemma along_reads {A} (g : S → outcome A) : along R (reads g).
Proof. intros s b s'. unfold reads. apply along_lift. Qed.
Lemma along_fail {A} e : along R (fail e : prog S A).
Proof. by intros s b s'. Qed.
Lemma along_modify g : (∀ s, R s (g s)) → along R (modify g).
Proof. intros Hg s b s' [= _ <-]. apply Hg. Qed.

Lemma along_bind {A B} (m : prog S A) (k : A → prog S B) :
  along R m → (∀ a, along R (k a)) → along R (m ≫= k).
Proof.
  intros Hm Hk s b s'. unfold mbind, prog_bind. destruct (m s) as [[a s1]|] eqn:Hr; [|done].
  intros Hs. etransitivity; [by eapply Hm|by eapply Hk].
Qed.

Lemma along_if {A} {X : Prop} `{Decision X} (m1 m2 : prog S A) :
  along R m1 → along R m2 → along R (if decide X then m1 else m2).
Proof. by case_decide. Qed.

Lemma along_for_range a b body : (∀ i, along R (body i)) → along R (for_range a b body).
Proof.
  intros Hb. unfold for_range. generalize (Z.to_nat (b - a)) as n. intros n. revert a.
  induction n as [|n IH]; intros a; cbn [for_loop]; [apply along_ret|].
  apply along_bind; [apply Hb|]. intros _. apply IH.
Qed.

Lemma along_zoom {T A} (proj : S → T) `{!Upd proj} (m : prog T A) :
  (∀ s t, R s (s <| proj := t |>)) → along R (zoom proj m).
Proof using.
  intros HR s a s'. unfold zoom. destruct (m (proj s)) as [[b t]|]; [|done].
  intros [= _ <-]. apply HR.
Qed.

Lemma along_zoom_in {T A} (R' : relation T) (proj : S → T) `{!Upd proj} (m : prog T A) :
  (∀ s t, R' (proj s) t → R s (s <| proj := t |>)) → along R' m → along R (zoom proj m).
Proof using.
  intros HR Hm s a s'. unfold zoom. destruct (m (proj s)) as [[b t]|] eqn:Hr; [|done].
  intros [= _ <-]. by eapply HR, Hm.
Qed.

(** How the states are related may be added to a postcondition. *)
Lemma wp_along {A} (m : prog S A) Q s :
  along R m → wp m Q s → wp m (λ a s', Q a s' ∧ R s s') s.
Proof using.
  intros Hk. unfold wp. destruct (m s) as [[a s']|] eqn:Hr; [|done].
  intros HQ. split; [done|]. by eapply Hk.
Qed.
End along.

Lemma along_zoom_under {S T A} (R' : relation T) (proj : S → T) `{!Upd proj} (m : prog T A) :
  (∀ s t, proj (s <| proj := t |>) = t) → along R' m → along (under proj R') (zoom proj m).
Proof. intros Hp. apply along_zoom_in. intros s t. unfold under. by rewrite Hp. Qed.

Lemma wp_keeps {S T A} (f : S → T) (m : prog S A) Q s :
  keeps f m → wp m Q s → wp m (λ a s', Q a s' ∧ f s' = f s) s.
Proof. apply wp_along. Qed.

Lemma keeps_zoom {S T U A} (f : S → U) (proj : S → T) `{!Upd proj} (m : prog T A) :
  (∀ s t, f (s <| proj := t |>) = f s) → keeps f (zoom proj m).
Proof. intros Hf. apply along_zoom, Hf. Qed.

Lemma keeps_zoom_in {S T U A} (f : T → U) (proj : S → T) `{!Upd proj} (m : prog T A) :
  (∀ s t, proj (s <| proj := t |>) = t) → keeps f m → keeps (λ s, f (proj s)) (zoom proj m).
Proof. intros Hp Hm. eapply along_zoom_in; [|exact Hm]. intros s t. unfold same. by rewrite Hp. Qed.

(** ** Liberal preconditions: if the program ends, the postcondition holds *)

Section wlp.
Context {S : Type}.

Definition wlp {A} (m : prog S A) (Q : A → S → Prop) (s : S) : Prop :=
  match m s with Ok (a, s') => Q a s' | Fault _ => True end.

Lemma wlp_gets {A B} (f : S → A) (k : A → prog S B) Q s : wlp (k (f s)) Q s → wlp (gets f ≫= k) Q s.
Proof. done. Qed.
Lemma wlp_modify {B} (g : S → S) (k : unit → prog S B) Q s : wlp (k tt) Q (g s) → wlp (modify g ≫= k) Q s.
Proof. done. Qed.

Lemma wlp_mono {A} (m : prog S A) (Q Q' : A → S → Prop) s :
  wlp m Q s → (∀ a s', Q a s' → Q' a s') → wlp m Q' s.
Proof. unfold wlp. destruct (m s) as [[]|]; auto. Qed.

Lemma wlp_bind {A B} (m : prog S A) (k : A → prog S B) Q s :
  wlp m (λ a, wlp (k a) Q) s → wlp (m ≫= k) Q s.
Proof. unfold wlp, mbind, prog_bind. by destruct (m s) as [[]|]. Qed.

Lemma wlp_along {A} (R : relation S) (m : prog S A) s : along R m → wlp m (λ _, R s) s.
Proof. intros Hm. unfold wlp. destruct (m s) as [[a s']|] eqn:Hr; [|done]. by eapply Hm. Qed.

(** A step that is along a relation, before the rest. *)
Lemma wlp_step {A B} (R : relation S) (m : prog S A) (k : A → prog S B) Q s :
  along R m → (∀ a s', R s s' → wlp (k a) Q s') → wlp (m ≫= k) Q s.
Proof. intros Hm Hk. apply wlp_bind. eapply wlp_mono; [by apply (wlp_along R)|]. intros a s'. apply Hk. Qed.

Lemma wp_wlp {A} (m : prog S A) Q Q' s : wp m Q s → wlp m Q' s → wp m (λ a s', Q a s' ∧ Q' a s') s.
Proof. unfold wp, wlp. by destruct (m s) as [[]|]. Qed.
End wlp.

Create HintDb keeps discriminated.
#[export] Hint Constants Opaque : keeps.

(** An update of the state that the relation allows, by computation or by a hint. *)
Ltac along_update :=
  intros; unfold under; lazymatch goal with
  | |- same _ _ _ => unfold same; first [reflexivity | assumption]
  | |- _ => solve [eauto 2 with keeps]
  end.

Ltac keeps_step :=
  lazymatch goal with
  | |- along _ (_ ≫= _) => apply along_bind; [apply _| |intros ?]
  | |- along _ (if decide _ then _ else _) => apply along_if
  | |- along _ (for_range _ _ _) => apply along_for_range; [apply _|intros ?]
  | |- along _ (mret _) => apply along_ret; apply _
  | |- along _ (gets _) => apply along_gets; apply _
  | |- along _ (lift _) => apply along_lift; apply _
  | |- along _ (fail _) => apply along_fail
  | |- along _ (modify _) => apply along_modify; along_update
  | |- along _ _ => solve [eauto 2 with keeps]
  end.
Ltac keeps_all := repeat keeps_step.

(** The same for a program that no lemma covers: definitions are unfolded and the cases of
    every match are walked through. *)
Ltac head_of t := lazymatch t with ?f _ => head_of f | _ => t end.
Ltac keeps_walk_step :=
  lazymatch goal with
  | |- along _ (zoom _ _) =>
      first [ apply along_zoom; along_update | apply keeps_zoom_in; [reflexivity|]
            | apply along_zoom_under; [reflexivity|] ]
  | |- along _ (_ ≫= _) => keeps_step
  | |- along _ (for_range _ _ _) => keeps_step
  | |- along _ (modify _) => keeps_step
  | |- along _ (mret _) => keeps_step
  | |- along _ (gets _) => keeps_step
  | |- along _ (lift _) => keeps_step
  | |- along _ (fail _) => keeps_step
  | |- along _ (if ?b then _ else _) => destruct b
  | |- along _ (match ?x with _ => _ end) => destruct x
  | |- along _ ?m => first [ solve [eauto 2 with keeps] | let h := head_of m in unfold h; cbn zeta ]
  end.
Ltac keeps_walk := cbn zeta; repeat keeps_walk_step.

(** Resolves the tests of the goal whose outcome [done] can see. *)
Ltac known_decides :=
  repeat match goal with
  | |- context [@decide ?P _] =>
      first [ rewrite (decide_True (P := P)) by done
            | rewrite (decide_False (P := P)) by (done || by intros []) ]
  end.
