(* ===== verification/RingBuffer.v ===== *)
(** The ring buffer of RT-Thread's device drivers (ringbuffer.c), and that it refines a
    bounded queue of bytes. *)
From stdpp Require Import list_numbers.
From S2P Require Import Prelude.

(** ** The structure (ringbuffer.h) *)

(** [buffer_ptr] with the array behind it; two one-bit mirror flags and two fifteen-bit
    indices. *)
Record rt_ringbuffer := mk_rb {
  buffer_ptr : list Z;
  read_mirror : Z; read_index : Z;
  write_mirror : Z; write_index : Z;
  buffer_size : Z;
}.
#[export] Instance eta_rb : Eta rt_ringbuffer := λ r,
  mk_rb (buffer_ptr r) (read_mirror r) (read_index r) (write_mirror r) (write_index r) (buffer_size r).

(** Assignment to a bit field of one bit, complemented, and of fifteen bits. *)
Definition flip (mirror : Z) : Z := (Z.lnot mirror) mod 2.
Definition u15 (x : Z) : Z := x mod 32768.

Inductive rt_ringbuffer_state : Set :=
  RT_RINGBUFFER_EMPTY | RT_RINGBUFFER_FULL | RT_RINGBUFFER_HALFFULL.
#[export] Instance rt_ringbuffer_state_eq_dec : EqDecision rt_ringbuffer_state.
Proof. solve_decision. Defined.

(** ** Operations *)

Definition rt_ringbuffer_status (rb : rt_ringbuffer) : rt_ringbuffer_state :=
  if decide (read_index rb = write_index rb) then
    if decide (read_mirror rb = write_mirror rb) then RT_RINGBUFFER_EMPTY else RT_RINGBUFFER_FULL
  else RT_RINGBUFFER_HALFFULL.

Definition rt_ringbuffer_data_len (rb : rt_ringbuffer) : Z :=
  match rt_ringbuffer_status rb with
  | RT_RINGBUFFER_EMPTY => 0
  | RT_RINGBUFFER_FULL => buffer_size rb
  | RT_RINGBUFFER_HALFFULL =>
      if decide (write_index rb > read_index rb) then write_index rb - read_index rb
      else buffer_size rb - (read_index rb - write_index rb)
  end.

Definition rt_ringbuffer_space_len (rb : rt_ringbuffer) : Z :=
  u32 (buffer_size rb - rt_ringbuffer_data_len rb).

(** RT_ALIGN_DOWN(size, RT_ALIGN_SIZE), with RT_ALIGN_SIZE 4. *)
Definition align_down (size : Z) : Z := Z.land size (Z.lnot 3).

Definition rt_ringbuffer_init (pool : list Z) (size : Z) : prog rt_ringbuffer unit :=
  rt_assert (bool_decide (size > 0));;
  modify (λ rb, rb <| read_index := 0 |> <| read_mirror := 0 |>
                   <| write_index := 0 |> <| write_mirror := 0 |>
                   <| buffer_ptr := pool |> <| buffer_size := align_down size |>).

Definition rt_ringbuffer_reset : prog rt_ringbuffer unit :=
  modify (λ rb, rb <| read_mirror := 0 |> <| read_index := 0 |>
                   <| write_mirror := 0 |> <| write_index := 0 |>).

(** [memcpy(&buffer_ptr[at], &ptr[from], n)]. *)
Definition copy_in (at_ : Z) (ptr : list Z) (from n : Z) : prog rt_ringbuffer unit :=
  bs ← lift (load_bytes ptr from n);
  buf ← reads (λ rb, store_bytes (buffer_ptr rb) at_ bs);
  modify (λ rb, rb <| buffer_ptr := buf |>).

(** [memcpy(&ptr[at], &buffer_ptr[from], n)]. *)
Definition copy_out (ptr : list Z) (at_ from n : Z) : prog rt_ringbuffer (list Z) :=
  bs ← reads (λ rb, load_bytes (buffer_ptr rb) from n);
  lift (store_bytes ptr at_ bs).

Definition rt_ringbuffer_put (ptr : list Z) (length : Z) : prog rt_ringbuffer Z :=
  rb ← gets id;
  let size := u16 (rt_ringbuffer_space_len rb) in
  if decide (size = 0) then mret 0
  else
    let length := if decide (size < length) then size else length in
    if decide (buffer_size rb - write_index rb > length) then
      copy_in (write_index rb) ptr 0 length;;
      modify (λ rb, rb <| write_index := u15 (write_index rb + length) |>);;
      mret length
    else
      let first := buffer_size rb - write_index rb in
      copy_in (write_index rb) ptr 0 first;;
      copy_in 0 ptr first (length - first);;
      modify (λ rb, rb <| write_mirror := flip (write_mirror rb) |>
                       <| write_index := u15 (length - first) |>);;
      mret length.

Definition rt_ringbuffer_put_force (ptr : list Z) (length : Z) : prog rt_ringbuffer Z :=
  rb ← gets id;
  let space_length := u16 (rt_ringbuffer_space_len rb) in
  let skip := if decide (length > buffer_size rb) then length - buffer_size rb else 0 in
  let length := if decide (length > buffer_size rb) then buffer_size rb else length in
  if decide (buffer_size rb - write_index rb > length) then
    copy_in (write_index rb) ptr skip length;;
    modify (λ rb, rb <| write_index := u15 (write_index rb + length) |>);;
    (if decide (length > space_length)
     then modify (λ rb, rb <| read_index := write_index rb |>) else mret tt);;
    mret length
  else
    let first := buffer_size rb - write_index rb in
    copy_in (write_index rb) ptr skip first;;
    copy_in 0 ptr (skip + first) (length - first);;
    modify (λ rb, rb <| write_mirror := flip (write_mirror rb) |>
                     <| write_index := u15 (length - first) |>);;
    (if decide (length > space_length)
     then modify (λ rb, rb <| read_mirror := flip (read_mirror rb) |>
                            <| read_index := write_index rb |>) else mret tt);;
    mret length.

(** Gives back the number of bytes and the caller's array with them. *)
Definition rt_ringbuffer_get (ptr : list Z) (length : Z) : prog rt_ringbuffer (Z * list Z) :=
  rb ← gets id;
  let size := rt_ringbuffer_data_len rb in
  if decide (size = 0) then mret (0, ptr)
  else
    let length := if decide (size < length) then size else length in
    if decide (buffer_size rb - read_index rb > length) then
      ptr ← copy_out ptr 0 (read_index rb) length;
      modify (λ rb, rb <| read_index := u15 (read_index rb + length) |>);;
      mret (length, ptr)
    else
      let first := buffer_size rb - read_index rb in
      ptr ← copy_out ptr 0 (read_index rb) first;
      ptr ← copy_out ptr first 0 (length - first);
      modify (λ rb, rb <| read_mirror := flip (read_mirror rb) |>
                       <| read_index := u15 (length - first) |>);;
      mret (length, ptr).

(** Gives back the length of the run and where in the buffer it starts ([None] is
    RT_NULL). *)
Definition rt_ringbuffer_peak : prog rt_ringbuffer (Z * option Z) :=
  rb ← gets id;
  let size := rt_ringbuffer_data_len rb in
  if decide (size = 0) then mret (0, None)
  else
    let ptr := read_index rb in
    if decide (buffer_size rb - read_index rb > size) then
      modify (λ rb, rb <| read_index := u15 (read_index rb + size) |>);;
      mret (size, Some ptr)
    else
      let size := buffer_size rb - read_index rb in
      modify (λ rb, rb <| read_mirror := flip (read_mirror rb) |> <| read_index := 0 |>);;
      mret (size, Some ptr).

(** [buffer_ptr[write_index] = ch]. *)
Definition put_at_write (ch : Z) : prog rt_ringbuffer unit :=
  buf ← reads (λ rb, store (buffer_ptr rb) (write_index rb) ch);
  modify (λ rb, rb <| buffer_ptr := buf |>).

Definition rt_ringbuffer_putchar (ch : Z) : prog rt_ringbuffer Z :=
  rb ← gets id;
  if decide (rt_ringbuffer_space_len rb = 0) then mret 0
  else
    put_at_write ch;;
    (if decide (write_index rb = buffer_size rb - 1) then
       modify (λ rb, rb <| write_mirror := flip (write_mirror rb) |> <| write_index := 0 |>)
     else modify (λ rb, rb <| write_index := u15 (write_index rb + 1) |>));;
    mret 1.

Definition rt_ringbuffer_putchar_force (ch : Z) : prog rt_ringbuffer Z :=
  rb ← gets id;
  let old_state := rt_ringbuffer_status rb in
  put_at_write ch;;
  (if decide (write_index rb = buffer_size rb - 1) then
     modify (λ rb, rb <| write_mirror := flip (write_mirror rb) |> <| write_index := 0 |>);;
     (if decide (old_state = RT_RINGBUFFER_FULL)
      then modify (λ rb, rb <| read_mirror := flip (read_mirror rb) |>
                             <| read_index := write_index rb |>) else mret tt)
   else
     modify (λ rb, rb <| write_index := u15 (write_index rb + 1) |>);;
     (if decide (old_state = RT_RINGBUFFER_FULL)
      then modify (λ rb, rb <| read_index := write_index rb |>) else mret tt));;
  mret 1.

(** Gives back 0, or 1 and the byte. *)
Definition rt_ringbuffer_getchar : prog rt_ringbuffer (Z * option Z) :=
  rb ← gets id;
  if decide (rt_ringbuffer_data_len rb = 0) then mret (0, None)
  else
    ch ← reads (λ rb, load (buffer_ptr rb) (read_index rb));
    (if decide (read_index rb = buffer_size rb - 1) then
       modify (λ rb, rb <| read_mirror := flip (read_mirror rb) |> <| read_index := 0 |>)
     else modify (λ rb, rb <| read_index := u15 (read_index rb + 1) |>));;
    mret (1, Some ch).

(** ** Bytes of an array by position *)

(** ** The queue in the buffer *)

(** A position on the circle of [N] bytes, reached from one on it by at most [N]. *)
Definition wrap (N i : Z) : Z := if decide (i < N) then i else i - N.

Lemma wrap_range N i : 0 ≤ i < 2 * N → 0 ≤ wrap N i < N.
Proof. unfold wrap. case_decide; lia. Qed.

(** The [n] bytes that start at position [r]. *)
Definition ring (p : list Z) (N r n : Z) : list Z := (λ k, byte p (wrap N (r + k))) <$> seqZ 0 n.

Lemma zlen_ring p N r n : 0 ≤ n → zlen (ring p N r n) = n.
Proof. intros Hn. unfold ring, zlen. rewrite length_fmap, length_seqZ. lia. Qed.

Lemma byte_ring p N r n k : 0 ≤ k < n → byte (ring p N r n) k = byte p (wrap N (r + k)).
Proof.
  intros Hk. unfold byte at 1, ring. apply nth_lookup_Some.
  rewrite list_lookup_fmap, lookup_seqZ_lt by lia. rewrite Z2Nat.id by lia. done.
Qed.

Lemma ring_eq p N r n c :
  zlen c = n → (∀ k, 0 ≤ k < n → byte p (wrap N (r + k)) = byte c k) → ring p N r n = c.
Proof.
  intros Hc Hk. assert (0 ≤ n) by (unfold zlen in Hc; lia).
  apply byte_ext; rewrite zlen_ring by done; [done|]. intros i Hi. rewrite byte_ring by done. by apply Hk.
Qed.

(** A well-formed ring buffer; what it holds; how many bytes fit. *)
Record rb_wf (rb : rt_ringbuffer) : Prop := {
  wf_size : 0 < buffer_size rb < 32768;
  wf_pool : buffer_size rb ≤ zlen (buffer_ptr rb);
  wf_read : 0 ≤ read_index rb < buffer_size rb;
  wf_write : 0 ≤ write_index rb < buffer_size rb;
  wf_mirrors : (read_mirror rb = 0 ∨ read_mirror rb = 1) ∧ (write_mirror rb = 0 ∨ write_mirror rb = 1);
  wf_order : if decide (read_mirror rb = write_mirror rb) then read_index rb ≤ write_index rb
             else write_index rb ≤ read_index rb;
}.

Definition contents (rb : rt_ringbuffer) : list Z :=
  ring (buffer_ptr rb) (buffer_size rb) (read_index rb) (rt_ringbuffer_data_len rb).

Lemma data_len_eq rb : rb_wf rb →
  rt_ringbuffer_data_len rb =
    if decide (read_mirror rb = write_mirror rb) then write_index rb - read_index rb
    else buffer_size rb + write_index rb - read_index rb.
Proof.
  intros [Hn Hp Hr Hw Hm Ho]. unfold rt_ringbuffer_data_len, rt_ringbuffer_status.
  repeat case_decide; lia.
Qed.

Lemma data_len_range rb : rb_wf rb → 0 ≤ rt_ringbuffer_data_len rb ≤ buffer_size rb.
Proof. intros Hwf. rewrite data_len_eq by done. destruct Hwf. case_decide; lia. Qed.

Lemma space_len_eq rb : rb_wf rb →
  rt_ringbuffer_space_len rb = buffer_size rb - zlen (contents rb) ∧
  u16 (rt_ringbuffer_space_len rb) = buffer_size rb - zlen (contents rb) ∧
  zlen (contents rb) = rt_ringbuffer_data_len rb.
Proof.
  intros Hwf. pose proof (data_len_range rb Hwf). destruct (wf_size rb Hwf).
  unfold contents. rewrite zlen_ring by lia. unfold rt_ringbuffer_space_len.
  rewrite u32_id by (unfold is_u32; lia). rewrite u16_id by (unfold is_u16; lia). done.
Qed.

Lemma flip_bit m : m = 0 ∨ m = 1 → flip m = 1 - m.
Proof. by intros [-> | ->]. Qed.
Lemma u15_id x : 0 ≤ x < 32768 → u15 x = x.
Proof. intros. unfold u15. lia. Qed.

(** Where the write position is: the length of the queue behind the read position. *)
Lemma write_position rb : rb_wf rb →
  wrap (buffer_size rb) (read_index rb + rt_ringbuffer_data_len rb) = write_index rb.
Proof. intros Hwf. rewrite data_len_eq by done. destruct Hwf. unfold wrap. repeat case_decide; lia. Qed.

(** The bytes written behind the queue are appended to it. *)
Lemma ring_write p p' N r n bs :
  0 ≤ r < N → 0 ≤ n → n + zlen bs ≤ N →
  (∀ k, 0 ≤ k < N → ¬ (∃ j, 0 ≤ j < zlen bs ∧ k = wrap N (r + n + j)) → byte p' k = byte p k) →
  (∀ j, 0 ≤ j < zlen bs → byte p' (wrap N (r + n + j)) = byte bs j) →
  ring p' N r (n + zlen bs) = ring p N r n ++ bs.
Proof.
  intros Hr Hn Hfit Hold Hnew. pose proof (Zle_0_nat (length bs)) as Hb. fold (zlen bs) in Hb.
  apply ring_eq.
  - unfold zlen. rewrite length_app. fold (zlen (ring p N r n)) (zlen bs).
    pose proof (zlen_ring p N r n Hn). unfold zlen in *. lia.
  - intros k Hk. rewrite byte_app, zlen_ring by lia. case_decide as Hkn.
    + rewrite byte_ring by lia. apply Hold.
      * unfold wrap. case_decide; lia.
      * intros (j & Hj & Heq). unfold wrap in Heq. repeat case_decide; lia.
    + replace (r + k) with (r + n + (k - n)) by lia. apply Hnew. lia.
Qed.

(** Taking bytes off the front. *)
Lemma ring_drop p N r n m :
  0 ≤ r < N → 0 ≤ m ≤ n → n ≤ N →
  ring p N (wrap N (r + m)) (n - m) = drop (Z.to_nat m) (ring p N r n).
Proof.
  intros Hr Hm Hn. apply ring_eq.
  - pose proof (zlen_ring p N r n). unfold zlen in *. rewrite length_drop. lia.
  - intros k Hk. rewrite byte_drop, byte_ring by lia. f_equal. unfold wrap. repeat case_decide; lia.
Qed.

(** ** The moves of the two ends *)

(** The write end over [n] bytes, the read end over [n] bytes. *)
Definition push (rb : rt_ringbuffer) (buf : list Z) (n : Z) : rt_ringbuffer :=
  let N := buffer_size rb in let w := write_index rb in
  if decide (w + n < N)
  then mk_rb buf (read_mirror rb) (read_index rb) (write_mirror rb) (w + n) N
  else mk_rb buf (read_mirror rb) (read_index rb) (1 - write_mirror rb) (w + n - N) N.
Definition pull (rb : rt_ringbuffer) (n : Z) : rt_ringbuffer :=
  let N := buffer_size rb in let r := read_index rb in
  if decide (r + n < N)
  then mk_rb (buffer_ptr rb) (read_mirror rb) (r + n) (write_mirror rb) (write_index rb) N
  else mk_rb (buffer_ptr rb) (1 - read_mirror rb) (r + n - N) (write_mirror rb) (write_index rb) N.

Lemma push_size rb buf n : buffer_size (push rb buf n) = buffer_size rb.
Proof. unfold push. by case_decide. Qed.

Lemma push_wf rb buf n :
  rb_wf rb → zlen buf = zlen (buffer_ptr rb) → 0 ≤ n → zlen (contents rb) + n ≤ buffer_size rb →
  rb_wf (push rb buf n) ∧ rt_ringbuffer_data_len (push rb buf n) = rt_ringbuffer_data_len rb + n.
Proof.
  intros Hwf Hb Hn Hfit. rewrite (proj2 (proj2 (space_len_eq rb Hwf))) in Hfit.
  pose proof (data_len_eq rb Hwf) as Hlen. rewrite Hlen in *.
  assert (rb_wf (push rb buf n)) as Hwf'.
  { destruct Hwf as [H1 H2 H3 H4 H5 H6]. unfold push.
    repeat case_decide; (split; cbn; repeat case_decide; lia). }
  split; [done|]. rewrite data_len_eq by done. destruct Hwf as [H1 H2 H3 H4 H5 H6].
  unfold push in *. destruct Hwf' as [_ _ H3' H4' H5' H6']. repeat case_decide; cbn in *; lia.
Qed.

Lemma pull_wf rb n :
  rb_wf rb → 0 ≤ n ≤ zlen (contents rb) →
  rb_wf (pull rb n) ∧ contents (pull rb n) = drop (Z.to_nat n) (contents rb).
Proof.
  intros Hwf Hn. rewrite (proj2 (proj2 (space_len_eq rb Hwf))) in Hn.
  pose proof (data_len_range rb Hwf) as Hrange.
  pose proof (data_len_eq rb Hwf) as Hlen.
  assert (rb_wf (pull rb n)) as Hwf'.
  { rewrite Hlen in *. destruct Hwf as [H1 H2 H3 H4 H5 H6]. unfold pull.
    repeat case_decide; (split; cbn; repeat case_decide; lia). }
  split; [done|]. unfold contents.
  rewrite <- (ring_drop _ _ _ _ n) by (destruct (wf_read rb Hwf); lia).
  pose proof (data_len_eq _ Hwf') as Hlen'. destruct Hwf as [H1 H2 H3 H4 H5 H6].
  assert (read_index (pull rb n) = wrap (buffer_size rb) (read_index rb + n) ∧
          rt_ringbuffer_data_len (pull rb n) = rt_ringbuffer_data_len rb - n ∧
          buffer_ptr (pull rb n) = buffer_ptr rb ∧ buffer_size (pull rb n) = buffer_size rb)
    as (-> & -> & -> & ->); [|done].
  rewrite Hlen', Hlen. unfold pull, wrap. repeat case_decide; cbn in *; repeat split; try done; lia.
Qed.

(** Bytes written from the write position on, round the end of the buffer, are
    appended to the queue. *)
Lemma push_contents rb buf bs :
  rb_wf rb → zlen buf = zlen (buffer_ptr rb) → zlen (contents rb) + zlen bs ≤ buffer_size rb →
  (∀ k, 0 ≤ k < buffer_size rb →
    byte buf k =
      if decide (write_index rb ≤ k < write_index rb + zlen bs) then byte bs (k - write_index rb)
      else if decide (k < write_index rb + zlen bs - buffer_size rb)
           then byte bs (k + buffer_size rb - write_index rb) else byte (buffer_ptr rb) k) →
  rb_wf (push rb buf (zlen bs)) ∧ contents (push rb buf (zlen bs)) = contents rb ++ bs.
Proof.
  intros Hwf Hb Hfit Hbuf. assert (0 ≤ zlen bs) by (unfold zlen; lia).
  destruct (push_wf rb buf (zlen bs)) as [Hwf' Hlen]; [done..|]. split; [done|].
  pose proof (write_position rb Hwf) as Hpos. pose proof (data_len_range rb Hwf) as Hr.
  rewrite (proj2 (proj2 (space_len_eq rb Hwf))) in Hfit.
  unfold contents at 1. rewrite Hlen.
  assert (buffer_ptr (push rb buf (zlen bs)) = buf ∧ buffer_size (push rb buf (zlen bs)) = buffer_size rb ∧
          read_index (push rb buf (zlen bs)) = read_index rb) as (-> & -> & ->)
    by (unfold push; by case_decide).
  destruct Hwf as [H1 H2 H3 H4 H5 H6]. set (n := rt_ringbuffer_data_len rb) in *.
  apply (ring_write (buffer_ptr rb)); [done|lia|lia|..].
  - intros k Hk Hno. rewrite Hbuf by done.
    destruct (decide (write_index rb ≤ k < write_index rb + zlen bs)) as [Hc1|Hc1].
    { exfalso. apply Hno. exists (k - write_index rb). split; [lia|]. unfold wrap in *.
      repeat case_decide; lia. }
    destruct (decide (k < write_index rb + zlen bs - buffer_size rb)) as [Hc2|Hc2]; [|done].
    exfalso. apply Hno. exists (k + buffer_size rb - write_index rb). split; [lia|].
    unfold wrap in *. repeat case_decide; lia.
  - intros j Hj. rewrite Hbuf by (apply wrap_range; lia). unfold wrap in *.
    repeat case_decide; try lia; f_equal; lia.
Qed.

(** ** What each operation does to the queue *)

Lemma wp_copy_in at_ ptr from n Q rb :
  0 ≤ at_ → 0 ≤ n → at_ + n ≤ zlen (buffer_ptr rb) → 0 ≤ from → from + n ≤ zlen ptr →
  (∀ buf, zlen buf = zlen (buffer_ptr rb) →
    (∀ k, 0 ≤ k → byte buf k = if decide (at_ ≤ k < at_ + n) then byte ptr (from + (k - at_))
                               else byte (buffer_ptr rb) k) →
    Q tt (rb <| buffer_ptr := buf |>)) →
  wp (copy_in at_ ptr from n) Q rb.
Proof.
  intros Ha Hn Hfit Hf Hp HQ. unfold copy_in.
  destruct (load_bytes_byte ptr from n) as (bs & Hbs & Hl & Hb); [done..|].
  rewrite wp_bind, wp_lift, Hbs. cbn [owp]. rewrite wp_bind, wp_reads.
  destruct (store_bytes_byte (buffer_ptr rb) at_ bs) as (buf & Hst & Hlb & Hbuf); [done|lia|].
  rewrite Hst. cbn [owp]. rewrite wp_modify. apply HQ; [done|]. intros k Hk. rewrite Hbuf, Hl by done.
  case_decide; [|done]. apply Hb. lia.
Qed.

Lemma wp_copy_out at_ ptr from n Q rb :
  0 ≤ at_ → 0 ≤ n → from + n ≤ zlen (buffer_ptr rb) → 0 ≤ from → at_ + n ≤ zlen ptr →
  (∀ ptr', zlen ptr' = zlen ptr →
    (∀ k, 0 ≤ k → byte ptr' k = if decide (at_ ≤ k < at_ + n) then byte (buffer_ptr rb) (from + (k - at_))
                                else byte ptr k) →
    Q ptr' rb) →
  wp (copy_out ptr at_ from n) Q rb.
Proof.
  intros Ha Hn Hfit Hf Hp HQ. unfold copy_out.
  destruct (load_bytes_byte (buffer_ptr rb) from n) as (bs & Hbs & Hl & Hb); [done..|].
  rewrite wp_bind, wp_reads, Hbs. cbn [owp]. rewrite wp_lift.
  destruct (store_bytes_byte ptr at_ bs) as (buf & Hst & Hlb & Hbuf); [done|lia|].
  rewrite Hst. cbn [owp]. apply HQ; [done|]. intros k Hk. rewrite Hbuf, Hl by done.
  case_decide; [|done]. apply Hb. lia.
Qed.

Lemma zlen_take n (l : list Z) : 0 ≤ n ≤ zlen l → zlen (take (Z.to_nat n) l) = n.
Proof. unfold zlen. intros. rewrite length_take. lia. Qed.

(** The assignments to the write end are those of [push]. *)
Lemma push_stay rb buf n :
  rb_wf rb → 0 ≤ n → write_index rb + n < buffer_size rb →
  rb <| buffer_ptr := buf |> <| write_index := u15 (write_index rb + n) |> = push rb buf n.
Proof.
  intros [Hs _ _ Hw _ _] Hn Hlt. unfold push. rewrite decide_True by done. rewrite u15_id by lia. by destruct rb.
Qed.
Lemma push_turn rb buf n :
  rb_wf rb → n ≤ buffer_size rb → buffer_size rb ≤ write_index rb + n →
  rb <| buffer_ptr := buf |> <| write_mirror := flip (write_mirror rb) |>
     <| write_index := u15 (n - (buffer_size rb - write_index rb)) |> = push rb buf n.
Proof.
  intros [Hs _ _ Hw [_ Hm] _] Hn Hge. unfold push. rewrite decide_False by lia.
  rewrite flip_bit, u15_id by (done || lia). destruct rb. cbn in *. unfold upd. cbn. f_equal; lia.
Qed.

(** The buffer after [n] bytes of [ptr] from [skip] on are written at the write end. *)
Definition written (rb : rt_ringbuffer) (ptr : list Z) (skip n : Z) (buf : list Z) : Prop :=
  zlen buf = zlen (buffer_ptr rb) ∧
  ∀ k, 0 ≤ k < buffer_size rb → byte buf k =
    if decide (write_index rb ≤ k < write_index rb + n) then byte ptr (skip + (k - write_index rb))
    else if decide (k < write_index rb + n - buffer_size rb)
         then byte ptr (skip + (k + buffer_size rb - write_index rb)) else byte (buffer_ptr rb) k.

Lemma wp_write_straight {A} (k : prog rt_ringbuffer A) ptr skip n Q rb :
  rb_wf rb → 0 ≤ n → write_index rb + n < buffer_size rb → 0 ≤ skip → skip + n ≤ zlen ptr →
  (∀ buf, written rb ptr skip n buf → wp k Q (push rb buf n)) →
  wp (copy_in (write_index rb) ptr skip n;;
      modify (λ rb, rb <| write_index := u15 (write_index rb + n) |>);; k) Q rb.
Proof.
  intros Hwf Hn Hlt Hsk Hp HQ. pose proof Hwf as [Hs Hpool _ Hw _ _].
  rewrite wp_bind. apply wp_copy_in; [lia..|]. intros buf Hb Hbuf. rewrite wp_bind, wp_modify.
  change (write_index (rb <| buffer_ptr := buf |>)) with (write_index rb).
  rewrite push_stay by done. apply HQ. split; [done|]. intros j Hj. rewrite Hbuf by lia.
  repeat case_decide; try lia; try done; f_equal; lia.
Qed.

Lemma wp_write_round {A} (k : prog rt_ringbuffer A) ptr skip n Q rb :
  rb_wf rb → 0 ≤ n ≤ buffer_size rb → buffer_size rb ≤ write_index rb + n → 0 ≤ skip →
  skip + n ≤ zlen ptr →
  (∀ buf, written rb ptr skip n buf → wp k Q (push rb buf n)) →
  let first := buffer_size rb - write_index rb in
  wp (copy_in (write_index rb) ptr skip first;; copy_in 0 ptr (skip + first) (n - first);;
      modify (λ rb, rb <| write_mirror := flip (write_mirror rb) |>
                       <| write_index := u15 (n - first) |>);; k) Q rb.
Proof.
  intros Hwf Hn Hge Hsk Hp HQ. cbv zeta. pose proof Hwf as [Hs Hpool _ Hw _ _].
  rewrite wp_bind. apply wp_copy_in; [lia..|]. intros buf1 Hb1 Hbuf1. rewrite wp_bind.
  apply wp_copy_in; change (buffer_ptr (rb <| buffer_ptr := buf1 |>)) with buf1; [lia..|].
  intros buf Hb Hbuf. rewrite wp_bind, wp_modify.
  change (write_mirror (rb <| buffer_ptr := buf1 |> <| buffer_ptr := buf |>)) with (write_mirror rb).
  change (rb <| buffer_ptr := buf1 |> <| buffer_ptr := buf |>) with (rb <| buffer_ptr := buf |>).
  rewrite push_turn by (done || lia). apply HQ. split; [lia|]. intros j Hj. rewrite Hbuf, Hbuf1 by lia.
  repeat case_decide; try lia; try done; f_equal; lia.
Qed.

Lemma written_fits rb ptr skip n buf :
  rb_wf rb → 0 ≤ n → 0 ≤ skip → skip + n ≤ zlen ptr → zlen (contents rb) + n ≤ buffer_size rb →
  written rb ptr skip n buf →
  rb_wf (push rb buf n) ∧
  contents (push rb buf n) = contents rb ++ take (Z.to_nat n) (drop (Z.to_nat skip) ptr) ∧
  buffer_size (push rb buf n) = buffer_size rb.
Proof.
  intros Hwf Hn Hsk Hp Hfit [Hb Hbuf].
  assert (zlen (drop (Z.to_nat skip) ptr) = zlen ptr - skip) as Hd
    by (unfold zlen in *; rewrite length_drop; lia).
  pose proof (zlen_take n (drop (Z.to_nat skip) ptr) ltac:(lia)) as Hz.
  destruct (push_contents rb buf (take (Z.to_nat n) (drop (Z.to_nat skip) ptr))) as [Hwf' Hc]; [done|done|lia|..].
  - destruct Hwf as [_ _ _ Hw _ _]. intros k Hk. rewrite Hz, Hbuf by done.
    repeat case_decide; try done; rewrite byte_take, byte_drop; done || lia || f_equal; lia.
  - rewrite Hz in *. split; [done|]. split; [done|]. unfold push. by case_decide.
Qed.

Lemma put_ok ptr length rb :
  rb_wf rb → 0 ≤ length ≤ zlen ptr →
  wp (rt_ringbuffer_put ptr length) (λ n rb',
    n = Z.min length (buffer_size rb - zlen (contents rb)) ∧ rb_wf rb' ∧
    contents rb' = contents rb ++ take (Z.to_nat n) ptr ∧ buffer_size rb' = buffer_size rb) rb.
Proof.
  intros Hwf Hlen. destruct (space_len_eq rb Hwf) as (_ & Hsp & Hq). pose proof (data_len_range rb Hwf) as Hr.
  pose proof Hwf as [Hs _ _ Hw _ _].
  unfold rt_ringbuffer_put. rewrite wp_bind, wp_gets. unfold id. cbv zeta. rewrite Hsp.
  set (space := buffer_size rb - zlen (contents rb)) in *. case_decide as H0.
  { rewrite wp_ret. split; [lia|]. rewrite take_0, app_nil_r. done. }
  set (n := if decide (space < length) then space else length).
  assert (n = Z.min length space) as Hn by (unfold n; case_decide; lia). clearbody n.
  assert (∀ buf, written rb ptr 0 n buf → n = Z.min length space ∧ rb_wf (push rb buf n) ∧
    contents (push rb buf n) = contents rb ++ take (Z.to_nat n) ptr ∧
    buffer_size (push rb buf n) = buffer_size rb) as Hdone.
  { intros buf Hbuf. split; [done|]. apply (written_fits rb ptr 0 n buf); done || lia. }
  case_decide as Hfit.
  - apply wp_write_straight; [done|lia..|exact Hdone].
  - apply (wp_write_round _ ptr 0 n); [done|lia..|exact Hdone].
Qed.

(** A full buffer whose oldest byte is at the write position. *)
Definition filled (rb : rt_ringbuffer) : rt_ringbuffer :=
  mk_rb (buffer_ptr rb) (1 - write_mirror rb) (write_index rb) (write_mirror rb) (write_index rb) (buffer_size rb).

Lemma filled_ok rb ptr skip n buf :
  rb_wf rb → 0 ≤ skip → skip + n ≤ zlen ptr → n ≤ buffer_size rb →
  buffer_size rb < zlen (contents rb) + n → written rb ptr skip n buf →
  rb_wf (filled (push rb buf n)) ∧
  contents (filled (push rb buf n)) =
    drop (Z.to_nat (zlen (contents rb) + n - buffer_size rb))
      (contents rb ++ take (Z.to_nat n) (drop (Z.to_nat skip) ptr)).
Proof.
  intros Hwf Hsk Hp Hn Hover [Hb Hbuf]. pose proof (data_len_range rb Hwf) as Hr.
  pose proof (write_position rb Hwf) as Hpos. pose proof (space_len_eq rb Hwf) as (_ & _ & Hq). rewrite Hq in *.
  pose proof Hwf as [H1 H2 H3 H4 H5 H6]. set (len := rt_ringbuffer_data_len rb) in *.
  set (p := push rb buf n).
  assert (buffer_ptr p = buf ∧ buffer_size p = buffer_size rb ∧
          write_index p = wrap (buffer_size rb) (write_index rb + n) ∧
          (write_mirror p = 0 ∨ write_mirror p = 1)) as (Eb & Es & Ew & Em).
  { unfold p, push, wrap. destruct (decide (write_index rb + n < buffer_size rb)); cbn;
      (split; [done|]; split; [done|]; split; [done|]); lia. }
  assert (0 ≤ write_index p < buffer_size rb) as Hwp by (rewrite Ew; apply wrap_range; lia).
  assert (rb_wf (filled p)) as Hwf'.
  { split; cbn; rewrite ?Eb, ?Es; try lia. rewrite decide_False by lia. lia. }
  split; [done|]. unfold contents at 1. rewrite data_len_eq by done. cbn.
  rewrite decide_False, Es, Eb by lia. replace (buffer_size rb + write_index p - write_index p) with (buffer_size rb) by lia.
  assert (zlen (drop (Z.to_nat skip) ptr) = zlen ptr - skip) as Hd
    by (unfold zlen in *; rewrite length_drop; lia).
  set (bs := take (Z.to_nat n) (drop (Z.to_nat skip) ptr)).
  assert (zlen bs = n) as Hz by (apply zlen_take; lia).
  apply ring_eq.
  - unfold zlen in *. rewrite length_drop, length_app. lia.
  - intros k Hk. rewrite byte_drop by lia. rewrite byte_app, Hq by lia. rewrite Hbuf by (apply wrap_range; lia).
    destruct (decide (len + n - buffer_size rb + k < len)) as [Hold|Hnew].
    + unfold contents. rewrite byte_ring by (fold len; lia). rewrite Ew in *. clear Hbuf Em Ew.
      unfold wrap in *. repeat case_decide; try lia; try done; f_equal; lia.
    + unfold bs. rewrite byte_take, byte_drop by lia. rewrite Ew in *. clear Hbuf Em Ew.
      unfold wrap in *. repeat case_decide; try lia; try done; f_equal; lia.
Qed.

(** The assignments to the read end are those of [pull]. *)
Lemma pull_stay rb n :
  rb_wf rb → 0 ≤ n → read_index rb + n < buffer_size rb →
  rb <| read_index := u15 (read_index rb + n) |> = pull rb n.
Proof.
  intros [Hs _ Hr _ _ _] Hn Hlt. unfold pull. rewrite decide_True by done. rewrite u15_id by lia. by destruct rb.
Qed.
Lemma pull_turn rb n i :
  rb_wf rb → buffer_size rb ≤ read_index rb + n → i = read_index rb + n - buffer_size rb →
  rb <| read_mirror := flip (read_mirror rb) |> <| read_index := i |> = pull rb n.
Proof.
  intros [_ _ _ _ [Hm _] _] Hge ->. unfold pull. rewrite decide_False by lia.
  rewrite flip_bit by done. by destruct rb.
Qed.

Lemma pull_size rb n : buffer_size (pull rb n) = buffer_size rb.
Proof. unfold pull. by case_decide. Qed.

(** The first bytes of the queue, where they lie. *)
Lemma queue_front rb n k :
  rb_wf rb → n ≤ rt_ringbuffer_data_len rb → 0 ≤ k < n →
  byte (take (Z.to_nat n) (contents rb)) k = byte (buffer_ptr rb) (wrap (buffer_size rb) (read_index rb + k)).
Proof. intros Hwf Hn Hk. rewrite byte_take by lia. unfold contents. by rewrite byte_ring by lia. Qed.

Lemma get_ok ptr length rb :
  rb_wf rb → 0 ≤ length ≤ zlen ptr →
  wp (rt_ringbuffer_get ptr length) (λ '(n, ptr') rb',
    n = Z.min length (zlen (contents rb)) ∧ rb_wf rb' ∧ buffer_size rb' = buffer_size rb ∧
    contents rb' = drop (Z.to_nat n) (contents rb) ∧
    ptr' = take (Z.to_nat n) (contents rb) ++ drop (Z.to_nat n) ptr) rb.
Proof.
  intros Hwf Hlen. destruct (space_len_eq rb Hwf) as (_ & _ & Hq). pose proof (data_len_range rb Hwf) as Hr.
  pose proof Hwf as [Hs Hp Hrd _ _ _]. unfold rt_ringbuffer_get. rewrite wp_bind, wp_gets. unfold id. cbv zeta.
  rewrite <- Hq. destruct (decide (zlen (contents rb) = 0)) as [H0|H0].
  { rewrite wp_ret. split; [lia|]. by rewrite take_0. }
  set (n := if decide (zlen (contents rb) < length) then zlen (contents rb) else length).
  assert (n = Z.min length (zlen (contents rb))) as Hn
    by (unfold n; destruct (decide (zlen (contents rb) < length)); lia). clearbody n.
  assert (∀ ptr', zlen ptr' = zlen ptr →
    (∀ k, 0 ≤ k < zlen ptr → byte ptr' k =
       if decide (k < n) then byte (buffer_ptr rb) (wrap (buffer_size rb) (read_index rb + k)) else byte ptr k) →
    n = Z.min length (zlen (contents rb)) ∧ rb_wf (pull rb n) ∧ buffer_size (pull rb n) = buffer_size rb ∧
    contents (pull rb n) = drop (Z.to_nat n) (contents rb) ∧
    ptr' = take (Z.to_nat n) (contents rb) ++ drop (Z.to_nat n) ptr) as Hdone.
  { intros ptr' Hl Hb. destruct (pull_wf rb n Hwf ltac:(lia)) as [Hwf' Hc].
    split; [done|]. split; [done|]. split; [apply pull_size|]. split; [done|].
    assert (zlen (take (Z.to_nat n) (contents rb)) = n) as Hz by (apply zlen_take; lia).
    apply byte_ext.
    - unfold zlen in *. rewrite length_app, length_drop. lia.
    - intros k Hk. rewrite Hb, byte_app, Hz by lia. destruct (decide (k < n)).
      + by rewrite queue_front by (done || lia).
      + rewrite byte_drop by lia. f_equal. lia. }
  destruct (decide (buffer_size rb - read_index rb > n)) as [Hstay|Hturn].
  - rewrite wp_bind. apply wp_copy_out; [lia..|]. intros ptr' Hl Hb.
    rewrite wp_bind, wp_modify, wp_ret. rewrite pull_stay by (done || lia). apply Hdone; [done|].
    intros k Hk. rewrite Hb by lia. unfold wrap. repeat case_decide; try lia; try done; f_equal; lia.
  - rewrite wp_bind. apply wp_copy_out; [lia..|]. intros ptr1 Hl1 Hb1.
    rewrite wp_bind. apply wp_copy_out; [lia..|]. intros ptr' Hl Hb.
    rewrite wp_bind, wp_modify, wp_ret. rewrite (pull_turn rb n) by (done || lia || rewrite u15_id; lia).
    apply Hdone; [lia|]. intros k Hk. rewrite Hb, Hb1 by lia. unfold wrap.
    repeat case_decide; try lia; try done; f_equal; lia.
Qed.

Lemma getchar_ok rb :
  rb_wf rb →
  wp rt_ringbuffer_getchar (λ r rb', rb_wf rb' ∧ buffer_size rb' = buffer_size rb ∧
    contents rb' = drop 1 (contents rb) ∧
    r = match contents rb with [] => (0, None) | b :: _ => (1, Some b) end) rb.
Proof.
  intros Hwf. destruct (space_len_eq rb Hwf) as (_ & _ & Hq). pose proof (data_len_range rb Hwf) as Hr.
  pose proof Hwf as [Hs Hp Hrd _ _ _]. unfold rt_ringbuffer_getchar. rewrite wp_bind, wp_gets. unfold id.
  rewrite <- Hq. destruct (contents rb) as [|b q] eqn:Hc; [by rewrite decide_True, wp_ret, Hc|].
  rewrite decide_False by (unfold zlen; cbn; lia). rewrite wp_bind, wp_reads.
  assert (byte (buffer_ptr rb) (read_index rb) = b) as Hb.
  { change (zlen (b :: q)) with (Z.of_nat (S (length q))) in Hq.
    pose proof (queue_front rb 1 0 Hwf ltac:(lia) ltac:(lia)) as H1. rewrite Hc in H1.
    change (byte (take (Z.to_nat 1) (b :: q)) 0) with b in H1. rewrite H1. unfold wrap.
    rewrite decide_True by lia. f_equal. lia. }
  destruct (load_in (buffer_ptr rb) (read_index rb)) as (v & -> & Hv); [lia|]. cbn [owp].
  assert (v = b) as -> by (rewrite <- Hb; unfold byte; symmetry; by apply nth_lookup_Some).
  assert (0 ≤ 1 ≤ zlen (contents rb)) as H1 by (rewrite Hc; unfold zlen; cbn; lia).
  destruct (pull_wf rb 1 Hwf H1) as [Hwf' Hc']. rewrite Hc in Hc'.
  rewrite wp_bind. case_decide.
  - rewrite wp_modify, wp_ret, (pull_turn rb 1) by (done || lia). split; [done|]. split; [apply pull_size|done].
  - rewrite wp_modify, wp_ret, (pull_stay rb 1) by (done || lia). split; [done|]. split; [apply pull_size|done].
Qed.

Lemma wp_put_at_write {A} (k : prog rt_ringbuffer A) ch Q rb :
  rb_wf rb →
  (∀ buf, written rb [ch] 0 1 buf → wp k Q (rb <| buffer_ptr := buf |>)) →
  wp (put_at_write ch;; k) Q rb.
Proof.
  intros [Hs Hp _ Hw _ _] HQ. unfold put_at_write. rewrite wp_bind, wp_bind, wp_reads.
  destruct (store_byte (buffer_ptr rb) (write_index rb) ch) as (buf & -> & Hl & Hb); [lia|].
  cbn [owp]. rewrite wp_modify. apply HQ. split; [done|]. intros j Hj. rewrite Hb by lia.
  repeat case_decide; try lia; try done. replace (0 + (j - write_index rb)) with 0 by lia. done.
Qed.

(** Both ways to move the write end by one are [push]. *)
Lemma push_one rb buf :
  rb_wf rb →
  (if decide (write_index rb = buffer_size rb - 1)
   then rb <| buffer_ptr := buf |> <| write_mirror := flip (write_mirror rb) |> <| write_index := 0 |>
   else rb <| buffer_ptr := buf |> <| write_index := u15 (write_index rb + 1) |>) = push rb buf 1.
Proof.
  intros Hwf. pose proof Hwf as [Hs _ _ Hw _ _]. case_decide.
  - rewrite <- push_turn by (done || lia).
    replace (1 - (buffer_size rb - write_index rb)) with 0 by lia. done.
  - apply push_stay; [done|lia..].
Qed.

Lemma putchar_ok ch rb :
  rb_wf rb →
  wp (rt_ringbuffer_putchar ch) (λ n rb', rb_wf rb' ∧ buffer_size rb' = buffer_size rb ∧
    if decide (zlen (contents rb) < buffer_size rb)
    then n = 1 ∧ contents rb' = contents rb ++ [ch] else n = 0 ∧ contents rb' = contents rb) rb.
Proof.
  intros Hwf. destruct (space_len_eq rb Hwf) as (Hsp & _ & Hq). pose proof (data_len_range rb Hwf) as Hr.
  unfold rt_ringbuffer_putchar. rewrite wp_bind, wp_gets. unfold id. rewrite Hsp.
  destruct (decide (zlen (contents rb) < buffer_size rb)) as [Hfit|Hfull].
  - rewrite decide_False by lia. apply wp_put_at_write; [done|]. intros buf Hbuf.
    destruct (written_fits rb [ch] 0 1 buf) as (Hwf' & Hc & Hs'); [done|lia|lia|done|lia|done|].
    pose proof (push_one rb buf Hwf) as Hpush. rewrite wp_bind.
    destruct (decide (write_index rb = buffer_size rb - 1)); rewrite wp_modify, wp_ret.
    all: change (write_mirror (rb <| buffer_ptr := buf |>)) with (write_mirror rb);
      change (write_index (rb <| buffer_ptr := buf |>)) with (write_index rb); rewrite Hpush; done.
  - rewrite decide_True by lia. by rewrite wp_ret.
Qed.

(** The status tells whether the buffer is full. *)
Lemma status_full rb :
  rb_wf rb → rt_ringbuffer_status rb = RT_RINGBUFFER_FULL ↔ zlen (contents rb) = buffer_size rb.
Proof.
  intros Hwf. destruct (space_len_eq rb Hwf) as (_ & _ & ->). pose proof Hwf as [Hs _ Hr Hw _ Ho].
  unfold rt_ringbuffer_data_len, rt_ringbuffer_status in *.
  repeat case_decide; split; intros; try done; lia.
Qed.

Lemma putchar_force_ok ch rb :
  rb_wf rb →
  wp (rt_ringbuffer_putchar_force ch) (λ n rb', n = 1 ∧ rb_wf rb' ∧ buffer_size rb' = buffer_size rb ∧
    contents rb' = drop (Z.to_nat (zlen (contents rb) + 1 - buffer_size rb)) (contents rb ++ [ch])) rb.
Proof.
  intros Hwf. destruct (space_len_eq rb Hwf) as (_ & _ & Hq). pose proof (data_len_range rb Hwf) as Hr.
  pose proof (status_full rb Hwf) as Hfull. pose proof Hwf as [Hs Hpl Hrd Hw Hm Ho].
  unfold rt_ringbuffer_putchar_force. rewrite wp_bind, wp_gets. unfold id. cbv zeta.
  apply wp_put_at_write; [done|]. intros buf Hbuf. pose proof (push_one rb buf Hwf) as Hpush. rewrite wp_bind.
  destruct (decide (rt_ringbuffer_status rb = RT_RINGBUFFER_FULL)) as [Hf|Hf].
  - apply Hfull in Hf. destruct (filled_ok rb [ch] 0 1 buf) as [Hwf' Hc]; [done|lia|done|lia|lia|done|].
    cbn [Z.to_nat drop take] in Hc.
    assert (read_mirror rb ≠ write_mirror rb) as Hne.
    { intros Heq. pose proof (data_len_eq rb Hwf) as Hdl. rewrite decide_True in Hdl by done. lia. }
    destruct (decide (write_index rb = buffer_size rb - 1)); rewrite wp_bind, wp_modify, wp_modify, wp_ret.
    all: change (write_mirror (rb <| buffer_ptr := buf |>)) with (write_mirror rb);
      change (write_index (rb <| buffer_ptr := buf |>)) with (write_index rb); rewrite Hpush.
    + replace (push rb buf 1 <| read_mirror := flip (read_mirror (push rb buf 1)) |>
                   <| read_index := write_index (push rb buf 1) |>) with (filled (push rb buf 1)).
      { split; [done|]. split; [done|]. split; [apply push_size|done]. }
      unfold filled, push, upd. rewrite decide_False by lia. cbn. f_equal. rewrite flip_bit by tauto. lia.
    + replace (push rb buf 1 <| read_index := write_index (push rb buf 1) |>) with (filled (push rb buf 1)).
      { split; [done|]. split; [done|]. split; [apply push_size|done]. }
      unfold filled, push, upd. rewrite decide_True by lia. cbn. f_equal. lia.
  - assert (zlen (contents rb) ≠ buffer_size rb) as Hne by (intros Heq; by apply Hf, Hfull).
    destruct (written_fits rb [ch] 0 1 buf) as (Hwf' & Hc & Hs'); [done|lia|lia|done|lia|done|].
    destruct (decide (write_index rb = buffer_size rb - 1)); rewrite wp_bind, wp_modify, !wp_ret.
    all: change (write_mirror (rb <| buffer_ptr := buf |>)) with (write_mirror rb);
      change (write_index (rb <| buffer_ptr := buf |>)) with (write_index rb); rewrite Hpush.
    all: split; [done|]; split; [done|]; split; [done|].
    all: rewrite Hc; replace (Z.to_nat (zlen (contents rb) + 1 - buffer_size rb)) with 0%nat by lia; done.
Qed.

(** The mirror flags equal, the write goes round and the read mirror is flipped with it:
    the buffer, although full, counts as empty. *)
Lemma filled_lost rb buf n :
  rb_wf rb → read_mirror rb = write_mirror rb → buffer_size rb - write_index rb ≤ n →
  rb_wf (filled (push rb buf n)) →
  let rb' := push rb buf n <| read_mirror := flip (read_mirror (push rb buf n)) |>
                           <| read_index := write_index (push rb buf n) |> in
  rb_wf rb' ∧ buffer_size rb' = buffer_size rb ∧ contents rb' = [].
Proof.
  intros [_ _ _ _ Hm _] Heq Hround Hwf' rb'.
  assert (write_mirror (push rb buf n) = 1 - write_mirror rb ∧ read_mirror (push rb buf n) = read_mirror rb ∧
    buffer_size (push rb buf n) = buffer_size rb) as (E1 & E2 & E3)
    by (unfold push; rewrite decide_False by lia; done).
  assert (rb' = filled (push rb buf n) <| read_mirror := write_mirror (push rb buf n) |>) as ->.
  { unfold rb', filled, upd. cbn. f_equal. rewrite flip_bit by (rewrite E2; tauto). lia. }
  assert (rb_wf (filled (push rb buf n) <| read_mirror := write_mirror (push rb buf n) |>)) as Hwf''.
  { destruct Hwf' as [? ? ? ? ? ?]. split; try done; [split; tauto|]. unfold upd. cbn. by rewrite decide_True. }
  split; [done|]. split; [done|]. unfold contents. rewrite data_len_eq by done.
  unfold upd. cbn. by rewrite decide_True, Z.sub_diag by done.
Qed.

(** [put_force] on every branch. *)
Lemma put_force_ok ptr length rb :
  rb_wf rb → 0 ≤ length ≤ zlen ptr →
  let n := Z.min length (buffer_size rb) in
  let bs := take (Z.to_nat n) (drop (Z.to_nat (length - n)) ptr) in
  let over := zlen (contents rb) + n - buffer_size rb in
  wp (rt_ringbuffer_put_force ptr length) (λ n' rb',
    n' = n ∧ rb_wf rb' ∧ buffer_size rb' = buffer_size rb ∧
    contents rb' =
      if decide (over ≤ 0) then contents rb ++ bs
      else if decide (read_mirror rb = write_mirror rb) then []
      else drop (Z.to_nat over) (contents rb ++ bs)) rb.
Proof.
  intros Hwf Hlen n bs over. destruct (space_len_eq rb Hwf) as (_ & Hsp & Hq).
  pose proof (data_len_range rb Hwf) as Hr. pose proof (data_len_eq rb Hwf) as Hdl. pose proof Hwf as [Hs Hpl Hrd Hw Hm Ho].
  unfold rt_ringbuffer_put_force. rewrite wp_bind, wp_gets. unfold id. cbv zeta. rewrite Hsp.
  set (skip := if decide (length > buffer_size rb) then length - buffer_size rb else 0).
  assert (skip = length - n) as Hskip by (unfold skip, n; destruct (decide (length > buffer_size rb)); lia).
  assert ((if decide (length > buffer_size rb) then buffer_size rb else length) = n) as ->
    by (unfold n; destruct (decide (length > buffer_size rb)); lia). clearbody skip. subst skip.
  assert (0 ≤ n ≤ length ∧ n ≤ buffer_size rb) as Hn by (unfold n; lia).
  destruct (decide (n > buffer_size rb - zlen (contents rb))) as [Hover|Hfit].
  - assert (∀ buf, written rb ptr (length - n) n buf → rb_wf (filled (push rb buf n)) ∧
      contents (filled (push rb buf n)) = drop (Z.to_nat over) (contents rb ++ bs)) as Hdone
      by (intros buf Hbuf; apply filled_ok; done || lia).
    rewrite (decide_False (P := over ≤ 0)) by lia.
    destruct (decide (buffer_size rb - write_index rb > n)) as [Hround|Hround].
    + apply wp_write_straight; [done|lia..|]. intros buf Hbuf. destruct (Hdone buf Hbuf) as [Hwf' Hc].
      rewrite wp_bind, wp_modify, wp_ret.
      replace (push rb buf n <| read_index := write_index (push rb buf n) |>) with (filled (push rb buf n)).
      * split; [done|]. split; [done|]. split; [apply push_size|].
        rewrite decide_False; [done|]. intros Heq. rewrite Hq, Hdl, decide_True in * by done. lia.
      * unfold filled, push, upd. rewrite decide_True by lia. cbn. f_equal.
        destruct (decide (read_mirror rb = write_mirror rb)); [|lia]. rewrite Hq, Hdl in *. lia.
    + apply (wp_write_round _ ptr (length - n) n); [done|lia..|]. intros buf Hbuf.
      destruct (Hdone buf Hbuf) as [Hwf' Hc]. rewrite wp_bind, wp_modify, wp_ret.
      destruct (decide (read_mirror rb = write_mirror rb)) as [Hbug|Hbug].
      * (* the mirror flags end up equal *)
        destruct (filled_lost rb buf n) as (Hwf'' & Hc'' & Hsz); [done|lia..|done|]. done.
      * replace (push rb buf n <| read_mirror := flip (read_mirror (push rb buf n)) |>
                   <| read_index := write_index (push rb buf n) |>) with (filled (push rb buf n)).
        { split; [done|]. split; [done|]. split; [apply push_size|done]. }
        unfold filled, push, upd. rewrite decide_False by lia. cbn. f_equal. rewrite flip_bit by tauto. lia.
  - assert (∀ buf, written rb ptr (length - n) n buf → n = n ∧ rb_wf (push rb buf n) ∧
      buffer_size (push rb buf n) = buffer_size rb ∧ contents (push rb buf n) = contents rb ++ bs) as Hdone.
    { intros buf Hbuf. destruct (written_fits rb ptr (length - n) n buf) as (? & ? & ?); [done|lia..|done|]. done. }
    rewrite (decide_True (P := over ≤ 0)) by lia.
    destruct (decide (buffer_size rb - write_index rb > n)) as [Hround|Hround].
    + apply wp_write_straight; [done|lia..|exact Hdone].
    + apply (wp_write_round _ ptr (length - n) n); [done|lia..|exact Hdone].
Qed.

(** [peak] hands out the run of the queue up to the end of the buffer and takes it. *)
Lemma peak_ok rb :
  rb_wf rb →
  wp rt_ringbuffer_peak (λ '(n, ptr) rb',
    n = Z.min (zlen (contents rb)) (buffer_size rb - read_index rb) ∧ rb_wf rb' ∧
    buffer_size rb' = buffer_size rb ∧ buffer_ptr rb' = buffer_ptr rb ∧
    contents rb' = drop (Z.to_nat n) (contents rb) ∧
    match ptr with
    | None => contents rb = []
    | Some i => 0 < n ∧ load_bytes (buffer_ptr rb) i n = Ok (take (Z.to_nat n) (contents rb))
    end) rb.
Proof.
  intros Hwf. destruct (space_len_eq rb Hwf) as (_ & _ & Hq). pose proof (data_len_range rb Hwf) as Hr.
  pose proof Hwf as [Hs Hp Hrd _ _ _]. unfold rt_ringbuffer_peak. rewrite wp_bind, wp_gets. unfold id. cbv zeta.
  rewrite <- Hq in *. destruct (decide (zlen (contents rb) = 0)) as [H0|H0].
  { rewrite wp_ret. split; [lia|]. repeat (split; [done|]). destruct (contents rb); [done|]. unfold zlen in H0. cbn in H0. lia. }
  set (n := Z.min (zlen (contents rb)) (buffer_size rb - read_index rb)).
  assert (0 < n ∧ n ≤ zlen (contents rb) ∧ read_index rb + n ≤ buffer_size rb) as (Hn & Hnc & Hnr) by (unfold n; lia).
  assert (load_bytes (buffer_ptr rb) (read_index rb) n = Ok (take (Z.to_nat n) (contents rb))) as Hload.
  { destruct (load_bytes_byte (buffer_ptr rb) (read_index rb) n) as (bs & -> & Hl & Hb); [lia..|]. f_equal.
    apply byte_ext; [by rewrite zlen_take by lia|]. intros k Hk. rewrite Hb, queue_front by (done || lia).
    unfold wrap. by rewrite decide_True by lia. }
  destruct (pull_wf rb n Hwf ltac:(lia)) as [Hwf' Hc].
  assert (buffer_ptr (pull rb n) = buffer_ptr rb) as Hbp by (unfold pull; by destruct (decide _)).
  destruct (decide (buffer_size rb - read_index rb > zlen (contents rb))) as [Hstay|Hturn].
  - replace (zlen (contents rb)) with n by (unfold n; lia).
    rewrite wp_bind, wp_modify, wp_ret, pull_stay by (done || unfold n; lia). pose proof (pull_size rb n). done.
  - replace (buffer_size rb - read_index rb) with n by (unfold n; lia).
    rewrite wp_bind, wp_modify, wp_ret, (pull_turn rb n) by (done || unfold n; lia).
    pose proof (pull_size rb n). done.
Qed.

Lemma reset_ok rb :
  rb_wf rb →
  wp rt_ringbuffer_reset (λ _ rb', rb_wf rb' ∧ buffer_size rb' = buffer_size rb ∧ contents rb' = []) rb.
Proof.
  intros [Hs Hp _ _ _ _]. unfold rt_ringbuffer_reset. rewrite wp_modify. split; [|done].
  split; unfold upd; cbn; try lia. by rewrite decide_True.
Qed.

(** The usable size is the given one rounded down to a multiple of four; a pool of less
    than four bytes gives a buffer of none. *)
Lemma init_ok pool size rb :
  4 ≤ size < 32768 → size ≤ zlen pool →
  wp (rt_ringbuffer_init pool size) (λ _ rb', rb_wf rb' ∧ buffer_size rb' = size - size mod 4 ∧
    contents rb' = []) rb.
Proof.
  intros Hsz Hp. unfold rt_ringbuffer_init, rt_assert. rewrite bool_decide_true by lia.
  rewrite wp_bind, wp_ret, wp_modify.
  assert (align_down size = size - size mod 4) as Hal.
  { unfold align_down. change 3 with (Z.ones 2). rewrite <- Z.ldiff_land, Z.ldiff_ones_r by lia.
    rewrite Z.shiftr_div_pow2, Z.shiftl_mul_pow2 by lia. change (2 ^ 2) with 4. lia. }
  set (rb' := _ <| buffer_size := _ |>).
  assert (buffer_size rb' = size - size mod 4) as Hs' by exact Hal.
  split; [|done]. split; rewrite ?Hs'; unfold rb', upd; cbn; try lia. by rewrite decide_True.
Qed.

(** ** A bounded queue of bytes, and that the ring buffer refines it *)

Inductive rb_op : Type :=
  | Put (bs : list Z) | PutForce (bs : list Z) | Putchar (ch : Z) | PutcharForce (ch : Z)
  | Get (n : Z) | Getchar | Peak | DataLen | Reset.
Inductive rb_out : Type := Accepted (n : Z) | Taken (bs : list Z) | Held (n : Z) | Done.

(** The newest [n] bytes of a block. *)
Definition newest (n : Z) (bs : list Z) : list Z := drop (Z.to_nat (zlen bs - n)) bs.

(** What a queue for [N] bytes may answer and become. A peek takes any non-empty run
    from the front. A block that is forced in pushes out the oldest bytes; when it does not
    fit it may also cost everything that was held, the block included. *)
Inductive queue_step (N : Z) : list Z → rb_op → rb_out → list Z → Prop :=
  | q_put q bs n : n = Z.min (zlen bs) (N - zlen q) →
      queue_step N q (Put bs) (Accepted n) (q ++ take (Z.to_nat n) bs)
  | q_put_force q bs n : n = Z.min (zlen bs) N →
      queue_step N q (PutForce bs) (Accepted n) (drop (Z.to_nat (zlen q + n - N)) (q ++ newest n bs))
  | q_put_force_lost q bs n : n = Z.min (zlen bs) N → N < zlen q + n →
      queue_step N q (PutForce bs) (Accepted n) []
  | q_putchar q ch : zlen q < N → queue_step N q (Putchar ch) (Accepted 1) (q ++ [ch])
  | q_putchar_full q ch : zlen q = N → queue_step N q (Putchar ch) (Accepted 0) q
  | q_force q ch : queue_step N q (PutcharForce ch) (Accepted 1)
      (drop (Z.to_nat (zlen q + 1 - N)) (q ++ [ch]))
  | q_get q n : queue_step N q (Get n) (Taken (take (Z.to_nat n) q)) (drop (Z.to_nat n) q)
  | q_getchar q : queue_step N q Getchar (Taken (take 1 q)) (drop 1 q)
  | q_peak q n : n ≤ zlen q → (q ≠ [] → 0 < n) →
      queue_step N q Peak (Taken (take (Z.to_nat n) q)) (drop (Z.to_nat n) q)
  | q_data_len q : queue_step N q DataLen (Held (zlen q)) q
  | q_reset q : queue_step N q Reset Done [].

Inductive queue_run (N : Z) : list Z → list rb_op → list rb_out → list Z → Prop :=
  | run_nil q : queue_run N q [] [] q
  | run_cons q op out q' ops outs q'' :
      queue_step N q op out q' → queue_run N q' ops outs q'' →
      queue_run N q (op :: ops) (out :: outs) q''.

(** The operations as a caller uses them: arrays of the length asked for, the bytes
    behind the pointer of a peek. *)
Definition rb_perform (op : rb_op) : prog rt_ringbuffer rb_out :=
  match op with
  | Put bs => n ← rt_ringbuffer_put bs (zlen bs); mret (Accepted n)
  | PutForce bs => n ← rt_ringbuffer_put_force bs (zlen bs); mret (Accepted n)
  | Putchar ch => n ← rt_ringbuffer_putchar ch; mret (Accepted n)
  | PutcharForce ch => n ← rt_ringbuffer_putchar_force ch; mret (Accepted n)
  | Get n =>
      r ← rt_ringbuffer_get (zeros (Z.to_nat n)) n;
      mret (Taken (take (Z.to_nat r.1) r.2))
  | Getchar =>
      r ← rt_ringbuffer_getchar;
      mret (Taken (match r.2 with Some ch => [ch] | None => [] end))
  | Peak =>
      r ← rt_ringbuffer_peak;
      match r.2 with
      | Some i => bs ← reads (λ rb, load_bytes (buffer_ptr rb) i r.1); mret (Taken bs)
      | None => mret (Taken [])
      end
  | DataLen => n ← gets rt_ringbuffer_data_len; mret (Held n)
  | Reset => rt_ringbuffer_reset;; mret Done
  end.

Fixpoint rb_run (ops : list rb_op) : prog rt_ringbuffer (list rb_out) :=
  match ops with
  | [] => mret []
  | op :: ops => out ← rb_perform op; outs ← rb_run ops; mret (out :: outs)
  end.

(** Lengths are sixteen bits wide. *)
Definition op_ok (op : rb_op) : Prop :=
  match op with Put bs | PutForce bs => zlen bs < 65536 | Get n => 0 ≤ n < 65536 | _ => True end.

Lemma take_all_of n m (l : list Z) :
  n = Z.min m (zlen l) → 0 ≤ m → take (Z.to_nat n) l = take (Z.to_nat m) l ∧ drop (Z.to_nat n) l = drop (Z.to_nat m) l.
Proof.
  intros -> Hm. destruct (decide (m ≤ zlen l)); [by rewrite Z.min_l by lia|]. rewrite Z.min_r by lia.
  unfold zlen in *. rewrite Nat2Z.id, !take_ge, !drop_ge by lia. done.
Qed.

Lemma perform_refines op rb :
  rb_wf rb → op_ok op →
  wp (rb_perform op) (λ out rb', rb_wf rb' ∧ buffer_size rb' = buffer_size rb ∧
    queue_step (buffer_size rb) (contents rb) op out (contents rb')) rb.
Proof.
  intros Hwf Hop. pose proof (data_len_range rb Hwf) as Hr. destruct (space_len_eq rb Hwf) as (_ & _ & Hq).
  destruct op as [bs|bs|ch|ch|n| | | |]; cbn [rb_perform op_ok] in *; rewrite wp_bind.
  - eapply wp_mono; [apply put_ok; [done|unfold zlen in *; lia]|]. intros n rb' (-> & Hwf' & Hc & Hs).
    rewrite wp_ret, Hc. split; [done|]. split; [done|]. by constructor.
  - eapply wp_mono; [apply put_force_ok; [done|unfold zlen in *; lia]|]. intros n rb' (Hn & Hwf' & Hs & Hc).
    rewrite wp_ret, Hc. split; [done|]. split; [done|]. rewrite <- Hn in *.
    assert (take (Z.to_nat n) (drop (Z.to_nat (zlen bs - n)) bs) = newest n bs) as Ht.
    { apply take_ge. unfold newest. rewrite length_drop. destruct Hwf. unfold zlen in *. lia. }
    rewrite Ht. case_decide; [|case_decide; [by apply q_put_force_lost; [|lia]|by constructor]].
    replace (contents rb ++ newest n bs) with (drop (Z.to_nat (zlen (contents rb) + n - buffer_size rb)) (contents rb ++ newest n bs))
      by (by replace (Z.to_nat _) with 0%nat by lia). by constructor.
  - eapply wp_mono; [by apply putchar_ok|]. intros n rb' (Hwf' & Hs & Hc). rewrite wp_ret.
    split; [done|]. split; [done|]. case_decide; destruct Hc as [-> ->]; constructor; lia.
  - eapply wp_mono; [by apply putchar_force_ok|]. intros n rb' (-> & Hwf' & Hs & Hc). rewrite wp_ret, Hc.
    split; [done|]. split; [done|]. constructor.
  - eapply wp_mono; [apply get_ok; [done|]|].
    { unfold zlen, zeros. rewrite length_replicate. lia. }
    intros [k ptr] rb' (Hk & Hwf' & Hs & Hc & Hp). cbn [fst snd]. rewrite wp_ret, Hc, Hp.
    split; [done|]. split; [done|]. destruct (take_all_of k n (contents rb) Hk ltac:(lia)) as [Ht Hd].
    rewrite take_app_length' by (rewrite length_take; unfold zlen in *; lia). rewrite Ht, Hd. constructor.
  - eapply wp_mono; [by apply getchar_ok|]. intros r rb' (Hwf' & Hs & Hc & ->). rewrite wp_ret, Hc.
    split; [done|]. split; [done|]. destruct (contents rb) as [|b q]; apply (q_getchar _ []) || apply (q_getchar _ (b :: q)).
  - eapply wp_mono; [by apply peak_ok|]. intros [n [i|]] rb' (Hn & Hwf' & Hs & Hbp & Hc & Hi); cbn [fst snd].
    + destruct Hi as [Hn0 Hi]. rewrite wp_bind, wp_reads, Hbp, Hi. cbn [owp]. rewrite wp_ret, Hc.
      split; [done|]. split; [done|]. constructor; lia.
    + rewrite wp_ret. split; [done|]. split; [done|]. rewrite Hc, Hi, drop_nil.
      apply (q_peak _ [] 0); [done|done].
  - rewrite wp_gets, wp_ret, <- Hq. split; [done|]. split; [done|]. constructor.
  - eapply wp_mono; [by apply reset_ok|]. intros ? rb' (Hwf' & Hs & Hc). rewrite wp_ret, Hc.
    split; [done|]. split; [done|]. constructor.
Qed.

Lemma run_refines ops rb :
  rb_wf rb → Forall op_ok ops →
  wp (rb_run ops) (λ outs rb', rb_wf rb' ∧ queue_run (buffer_size rb) (contents rb) ops outs (contents rb')) rb.
Proof.
  intros Hwf Hops. revert rb Hwf. induction Hops as [|op ops Hop _ IH]; intros rb Hwf; cbn [rb_run].
  - rewrite wp_ret. split; [done|constructor].
  - rewrite wp_bind. eapply wp_mono; [by apply perform_refines|]. intros out rb1 (Hwf1 & Hs1 & Hstep).
    rewrite wp_bind. eapply wp_mono; [by apply IH|]. intros outs rb2 (Hwf2 & Hrun). rewrite wp_ret.
    split; [done|]. rewrite Hs1 in Hrun. by econstructor.
Qed.

(** What the bytes of a run add up to: accepted by the puts, taken by the reads. *)
Definition accepted (op : rb_op) (out : rb_out) : list Z :=
  match op, out with
  | Put bs, Accepted n => take (Z.to_nat n) bs
  | Putchar ch, Accepted n => take (Z.to_nat n) [ch]
  | _, _ => []
  end.
Definition taken (out : rb_out) : list Z := match out with Taken bs => bs | _ => [] end.
Definition lossless (op : rb_op) : Prop :=
  match op with PutForce _ | PutcharForce _ | Reset => False | _ => True end.

Lemma queue_step_fifo N q op out q' :
  lossless op → queue_step N q op out q' → taken out ++ q' = q ++ accepted op out.
Proof.
  intros Hl Hs. destruct Hs; cbn in *; try done; rewrite ?app_nil_r; done || apply take_drop.
Qed.

(** ** Properties *)

(** C32: the ring buffer is a bounded queue. After [rt_ringbuffer_init] over a pool, any
    sequence of the ring buffer's operations - puts and forced puts, gets, peeks, resets and
    questions for the length, single bytes and blocks of any length - ends without a fault,
    and every answer is one the queue of [size] rounded down to a multiple of four bytes may
    give. A forced block that does not fit pushes out the oldest bytes, or else leaves the
    queue empty. As long as nothing is forced in or reset, the bytes read, followed by those
    still held, are the bytes accepted, in their order. *)
Theorem ring_refines_queue pool size ops rb0 :
  4 ≤ size < 32768 → size ≤ zlen pool → Forall op_ok ops →
  ∃ outs rb, (rt_ringbuffer_init pool size;; rb_run ops) rb0 = Ok (outs, rb) ∧
    queue_run (size - size mod 4) [] ops outs (contents rb) ∧
    (Forall lossless ops →
      concat (taken <$> outs) ++ contents rb = concat (zip_with accepted ops outs)).
Proof.
  intros Hs Hp Hops.
  assert (wp (rt_ringbuffer_init pool size;; rb_run ops)
    (λ outs rb, queue_run (size - size mod 4) [] ops outs (contents rb)) rb0) as Hw.
  { rewrite wp_bind. eapply wp_mono; [by apply init_ok|]. intros [] rb (Hwf & Hsz & Hc).
    eapply wp_mono; [by apply run_refines|]. cbv beta. intros outs rb' [_ Hrun]. by rewrite Hsz, Hc in Hrun. }
  apply wp_ok in Hw as (outs & rb & Hrun & Hq). exists outs, rb. split; [done|]. split; [done|]. intros Hl.
  enough (∀ q q', queue_run (size - size mod 4) q ops outs q' →
    concat (taken <$> outs) ++ q' = q ++ concat (zip_with accepted ops outs)) as H by apply (H _ _ Hq).
  clear Hrun Hq. intros q q' Hq. induction Hq as [q|q op out q1 ops outs q2 Hstep _ IH]; cbn; [by rewrite app_nil_r|].
  apply Forall_cons_1 in Hl as [Hl1 Hl], Hops as [_ Hops].
  rewrite <- app_assoc, IH by done. rewrite !app_assoc. f_equal. by eapply queue_step_fifo.
Qed.

Lemma ring_refines_queue_witness :
  ∃ outs rb, (rt_ringbuffer_init (zeros 9) 9;;
      rb_run [Put [1; 2; 3; 4; 5]; Get 3; Put [6; 7; 8; 9; 10; 11; 12]; Peak; DataLen; Getchar]) (mk_rb [] 0 0 0 0 0) =
    Ok (outs, rb) ∧ concat (taken <$> outs) ++ contents rb = [1; 2; 3; 4; 5; 6; 7; 8; 9; 10; 11].
Proof.
  destruct (ring_refines_queue (zeros 9) 9 [Put [1; 2; 3; 4; 5]; Get 3; Put [6; 7; 8; 9; 10; 11; 12]; Peak; DataLen; Getchar]
    (mk_rb [] 0 0 0 0 0)) as (outs & rb & Hrun & _ & Hf).
  - lia.
  - vm_compute. congruence.
  - repeat (apply Forall_cons; [|]); [..|apply Forall_nil_2]; vm_compute; try exact I; split || idtac; congruence.
  - exists outs, rb. split; [exact Hrun|]. rewrite Hf by (repeat constructor).
    vm_compute in Hrun. injection Hrun as <- _. reflexivity.
Defined.

(** C40: forcing a block in keeps the newest bytes, those of the block last, when the
    buffer's queue already reaches round its end or the block fits; otherwise, the queue
    lying in one run and the block not fitting, the two mirror flags end up equal and the
    buffer, full of the newest bytes, counts as empty: everything is lost. *)
Theorem put_force_newest ptr length rb :
  rb_wf rb → 0 ≤ length ≤ zlen ptr →
  let n := Z.min length (buffer_size rb) in
  let bs := take (Z.to_nat n) (drop (Z.to_nat (length - n)) ptr) in
  let over := zlen (contents rb) + n - buffer_size rb in
  wp (rt_ringbuffer_put_force ptr length) (λ n' rb',
    n' = n ∧ rb_wf rb' ∧ buffer_size rb' = buffer_size rb ∧
    contents rb' =
      if decide (over ≤ 0) then contents rb ++ bs
      else if decide (read_mirror rb = write_mirror rb) then []
      else drop (Z.to_nat over) (contents rb ++ bs)) rb.
Proof. apply put_force_ok. Qed.

Lemma put_force_newest_witness :
  ∃ rb, rt_ringbuffer_put_force [3; 4; 5; 6] 4 (mk_rb [1; 2; 0; 0] 0 0 0 2 4) = Ok (4, rb) ∧
    contents rb = [].
Proof.
  assert (rb_wf (mk_rb [1; 2; 0; 0] 0 0 0 2 4)) as Hwf by (split; try (cbn; unfold zlen; cbn; lia); vm_compute; congruence).
  pose proof (put_force_newest [3; 4; 5; 6] 4 (mk_rb [1; 2; 0; 0] 0 0 0 2 4) Hwf ltac:(vm_compute; split; congruence)) as Hw.
  cbv zeta in Hw. unfold wp in Hw.
  destruct (rt_ringbuffer_put_force [3; 4; 5; 6] 4 (mk_rb [1; 2; 0; 0] 0 0 0 2 4)) as [[n rb]|f]; [|destruct Hw].
  destruct Hw as (Hn & _ & _ & Hc). exists rb. split; [rewrite Hn; reflexivity|].
  rewrite Hc. vm_compute. reflexivity.
Defined.
