(* ===== verification/Serial.v ===== *)
(** The receive side of the serial ports: the circular DMA transfer and the idle-line
    interrupt of drv_usart.c, the receive FIFO of serial.c on top of them, and what a burst
    on the line becomes for the call-back that the firmware installs. *)
From stdpp Require Import list_numbers.
From S2P Require Import Prelude.

(** ** State *)

Definition RT_SERIAL_RB_BUFSZ : Z := 256.
Definition RT_SERIAL_EVENT_RX_DMADONE : Z := 0x03.

(** [struct rt_serial_rx_fifo], [dma_rx.last_index] of [struct stm32_uart], and the DMA
    channel's count of bytes to go before the transfer starts over. *)
Record serial := mk_serial {
  rx_buffer : list Z;
  put_index : Z; get_index : Z;
  is_full : bool;
  last_index : Z;
  dma_counter : Z;
}.
#[export] Instance eta_serial : Eta serial := λ s,
  mk_serial (rx_buffer s) (put_index s) (get_index s) (is_full s) (last_index s) (dma_counter s).

(** [serial->config.bufsz]. *)
Definition bufsz : Z := RT_SERIAL_RB_BUFSZ.

Definition s32 (x : Z) : Z := (x + 2147483648) mod 4294967296 - 2147483648.

(** ** The peripheral *)

(** A byte on the line: the channel, in circular mode, stores it at its position in the
    buffer and counts down from the buffer's size to 1. *)
Definition dma_byte (b : Z) (s : serial) : serial :=
  s <| rx_buffer := <[Z.to_nat (bufsz - dma_counter s) := b]> (rx_buffer s) |>
    <| dma_counter := if decide (dma_counter s = 1) then bufsz else dma_counter s - 1 |>.
Definition dma_receive (bs : list Z) (s : serial) : serial := foldl (λ s b, dma_byte b s) s bs.

(** ** The FIFO (serial.c) *)

Definition _serial_fifo_calc_recved_len (s : serial) : Z :=
  if decide (put_index s = get_index s) then (if is_full s then bufsz else 0)
  else if decide (put_index s > get_index s) then put_index s - get_index s
  else bufsz - (get_index s - put_index s).

Definition rt_dma_recv_update_get_index (len : Z) : prog serial unit :=
  n ← gets _serial_fifo_calc_recved_len;
  rt_assert (bool_decide (len ≤ n));;
  modify (λ s, if decide (is_full s = true ∧ len ≠ 0) then s <| is_full := false |> else s);;
  modify (λ s, s <| get_index := u16 (get_index s + len) |>);;
  modify (λ s, if decide (get_index s >= bufsz) then s <| get_index := get_index s mod bufsz |> else s).

Definition rt_dma_recv_update_put_index (len : Z) : prog serial unit :=
  modify (λ s,
    if decide (get_index s ≤ put_index s) then
      let s := s <| put_index := u16 (put_index s + len) |> in
      if decide (put_index s >= bufsz) then
        let s := s <| put_index := put_index s mod bufsz |> in
        if decide (put_index s >= get_index s) then s <| is_full := true |> else s
      else s
    else
      let s := s <| put_index := u16 (put_index s + len) |> in
      if decide (put_index s >= get_index s) then
        let s := if decide (put_index s >= bufsz) then s <| put_index := put_index s mod bufsz |> else s in
        s <| is_full := true |>
      else s);;
  modify (λ s, if is_full s then s <| get_index := put_index s |> else s).

(** The bytes copied to the caller; how many they are is the function's result. *)
Definition _serial_dma_rx (length : Z) : prog serial (list Z) :=
  n ← gets _serial_fifo_calc_recved_len;
  let recv_len := if decide (length < s32 n) then u32 length else n in
  s ← gets id;
  data ← lift (
    if decide (get_index s + recv_len < bufsz) then load_bytes (rx_buffer s) (get_index s) recv_len
    else
      d1 ← load_bytes (rx_buffer s) (get_index s) (bufsz - get_index s);
      d2 ← load_bytes (rx_buffer s) 0 (recv_len + get_index s - bufsz);
      Ok (d1 ++ d2));
  rt_dma_recv_update_get_index recv_len;;
  mret data.

(** [rt_serial_read] of a port opened with RT_DEVICE_FLAG_DMA_RX. *)
Definition rt_serial_read (size : Z) : prog serial (list Z) :=
  if decide (size = 0) then mret [] else _serial_dma_rx (s32 size).

(** ** The interrupt *)

(** [rt_hw_serial_isr] for a finished reception: what it passes to [rx_indicate]. *)
Definition rt_hw_serial_isr (event : Z) : prog serial Z :=
  let length := Z.shiftr (Z.land event (Z.lnot 0xff)) 8 in
  rt_dma_recv_update_put_index (u32 length);;
  gets _serial_fifo_calc_recved_len.

(** [uart_isr] on an idle line: the size passed to [rx_indicate], if that is called. *)
Definition uart_isr : prog serial (option Z) :=
  counter ← gets dma_counter;
  last ← gets last_index;
  let recv_total_index := u32 (bufsz - counter) in
  let recv_len := u32 (recv_total_index - last) in
  modify (λ s, s <| last_index := recv_total_index |>);;
  if decide (recv_len ≠ 0) then
    size ← rt_hw_serial_isr (s32 (Z.lor RT_SERIAL_EVENT_RX_DMADONE (u32 (Z.shiftl recv_len 8))));
    mret (Some size)
  else mret None.

(** [rt_serial_open] with RT_DEVICE_FLAG_DMA_RX, once the transfer has been started. *)
Definition rt_serial_open : serial :=
  mk_serial (replicate (Z.to_nat bufsz) 0) 0 0 false 0 bufsz.

(** The interrupt after a burst on the line, whose call-back reads as many bytes as it is told. *)
Definition burst (bs : list Z) : prog serial (option (list Z)) :=
  modify (dma_receive bs);;
  size ← uart_isr;
  match size with
  | None => mret None
  | Some size => rx ← rt_serial_read size; mret (Some rx)
  end.

(** ** The event of a reception *)

(** The length that [rt_hw_serial_isr] takes out of its [int] event. *)
Definition event_length (recv_len : Z) : Z :=
  Z.shiftr (Z.land (s32 (Z.lor RT_SERIAL_EVENT_RX_DMADONE (u32 (Z.shiftl recv_len 8))))
                   (Z.lnot 0xff)) 8.

Lemma event_length_ok d : -256 < d < 256 → event_length (u32 d) = d.
Proof.
  intros Hd. cut (Forall (λ d, event_length (u32 d) = d) (seqZ (-255) 511)).
  - intros Hall. apply (proj1 (Forall_forall _ _) Hall), list_elem_of_In, elem_of_seqZ. lia.
  - apply (bool_decide_unpack _). vm_compute. exact I.
Qed.

(** ** Between bursts *)

(** The FIFO is empty and everybody's position in the buffer is [p]. *)
Record ready (p : Z) (s : serial) : Prop := {
  ready_size : zlen (rx_buffer s) = bufsz;
  ready_range : 0 ≤ p < bufsz;
  ready_put : put_index s = p;
  ready_get : get_index s = p;
  ready_full : is_full s = false;
  ready_last : last_index s = p;
  ready_dma : dma_counter s = bufsz - p;
}.

Lemma open_ready : ready 0 rt_serial_open.
Proof. by split. Qed.

(** What a burst leaves in the buffer: its last bytes, as many as there is room for, up to
    the position [q] where the transfer goes on. *)
Record transferred (p : Z) (bs : list Z) (s s' : serial) : Prop := {
  trans_size : zlen (rx_buffer s') = bufsz;
  trans_dma : dma_counter s' = bufsz - (p + zlen bs) mod bufsz;
  trans_rest : (put_index s', get_index s', is_full s', last_index s') =
               (put_index s, get_index s, is_full s, last_index s);
  trans_bytes j : 0 ≤ j < zlen bs → j < bufsz →
    byte (rx_buffer s') ((p + zlen bs - 1 - j) mod bufsz) = byte bs (zlen bs - 1 - j);
}.

Lemma byte_insert l i v k : 0 ≤ i < zlen l → 0 ≤ k →
  byte (<[Z.to_nat i := v]> l) k = if decide (k = i) then v else byte l k.
Proof.
  intros Hi Hk. unfold byte, zlen in *. rewrite !nth_lookup. destruct (decide (k = i)) as [-> |Hne].
  - by rewrite list_lookup_insert_eq by lia.
  - by rewrite list_lookup_insert_ne by lia.
Qed.

Lemma dma_receive_snoc bs b s : dma_receive (bs ++ [b]) s = dma_byte b (dma_receive bs s).
Proof. unfold dma_receive. by rewrite foldl_app. Qed.

Lemma dma_receive_ok p bs s : ready p s → transferred p bs s (dma_receive bs s).
Proof.
  intros Hr. destruct Hr as [Hz Hp _ _ _ _ Hd]. unfold bufsz, RT_SERIAL_RB_BUFSZ in *.
  induction bs as [|b bs IH] using rev_ind.
  { split; unfold bufsz, RT_SERIAL_RB_BUFSZ; cbn [zlen length dma_receive foldl]; [done| |done|unfold zlen; cbn; lia].
    unfold zlen. cbn. rewrite Hd. lia. }
  rewrite dma_receive_snoc. destruct IH as [Hz' Hd' Hrest Hb]. set (s1 := dma_receive bs s) in *.
  unfold bufsz, RT_SERIAL_RB_BUFSZ in *. unfold dma_byte. rewrite Hd'. unfold bufsz, RT_SERIAL_RB_BUFSZ.
  set (q := (p + zlen bs) mod 256) in *. replace (256 - (256 - q)) with q by lia.
  assert (zlen (bs ++ [b]) = zlen bs + 1) as Hl by (unfold zlen; rewrite length_app; cbn; lia).
  assert (0 ≤ zlen bs) by (unfold zlen; lia). assert (0 ≤ q < 256) as Hq by (unfold q; lia).
  split; unfold bufsz, RT_SERIAL_RB_BUFSZ, upd; cbn -[byte].
  - unfold zlen in *. by rewrite length_insert.
  - rewrite Hl. case_decide; unfold q in *; lia.
  - exact Hrest.
  - intros j Hj Hj2. rewrite Hl in *. replace (p + (zlen bs + 1) - 1 - j) with (p + zlen bs - j) by lia.
    replace (zlen bs + 1 - 1 - j) with (zlen bs - j) by lia. destruct (decide (j = 0)) as [->|Hj0].
    + rewrite !Z.sub_0_r. fold q. rewrite byte_insert, decide_True by (done || lia). by rewrite byte_app, decide_False, Z.sub_diag by lia.
    + rewrite byte_insert, decide_False by (unfold q; lia). rewrite byte_app, decide_True by lia.
      specialize (Hb (j - 1) ltac:(lia) ltac:(lia)).
      replace (p + zlen bs - 1 - (j - 1)) with (p + zlen bs - j) in Hb by lia.
      by replace (zlen bs - 1 - (j - 1)) with (zlen bs - j) in Hb by lia.
Qed.


(** ** The interrupt and the read *)

Ltac run_serial :=
  unfold mbind, prog_bind, gets, modify, upd, rt_assert, mret, prog_ret, id;
  cbn [eta_serial rx_buffer put_index get_index is_full last_index dma_counter].
Ltac bufsz_lia := unfold bufsz, RT_SERIAL_RB_BUFSZ, u16, u32 in *; lia.

Lemma calc_recved p q rx l c : 0 ≤ p < bufsz → 0 ≤ q < bufsz →
  _serial_fifo_calc_recved_len (mk_serial rx q p false l c) = (q - p) mod bufsz.
Proof.
  unfold _serial_fifo_calc_recved_len, bufsz, RT_SERIAL_RB_BUFSZ. cbn. intros. repeat case_decide; lia.
Qed.

Lemma update_put_ok p q rx l c : 0 ≤ p < bufsz → 0 ≤ q < bufsz →
  rt_dma_recv_update_put_index (u32 (q - p)) (mk_serial rx p p false l c) =
  Ok (tt, mk_serial rx q p false l c).
Proof.
  intros Hp Hq. unfold rt_dma_recv_update_put_index. run_serial.
  rewrite (decide_True (P := p ≤ p)) by lia. run_serial.
  replace (u16 (p + u32 (q - p))) with q by bufsz_lia.
  rewrite (decide_False (P := q >= bufsz)) by lia. done.
Qed.

Lemma uart_isr_ok p q rx : 0 ≤ p < bufsz → 0 ≤ q < bufsz →
  uart_isr (mk_serial rx p p false p (bufsz - q)) =
  Ok (if decide (p = q) then None else Some ((q - p) mod bufsz),
      mk_serial rx q p false q (bufsz - q)).
Proof.
  intros Hp Hq. unfold uart_isr. run_serial.
  replace (u32 (bufsz - (bufsz - q))) with q by bufsz_lia.
  destruct (decide (p = q)) as [<- |Hpq].
  - rewrite decide_False by (intros Hn; apply Hn; rewrite Z.sub_diag; done). done.
  - rewrite decide_True by bufsz_lia. unfold rt_hw_serial_isr. run_serial.
    fold (event_length (u32 (q - p))). rewrite event_length_ok, update_put_ok by bufsz_lia.
    by rewrite calc_recved.
Qed.

Lemma rt_serial_read_ok p q rx c : 0 ≤ p < bufsz → 0 ≤ q < bufsz → p ≠ q → zlen rx = bufsz →
  ∃ data,
    rt_serial_read ((q - p) mod bufsz) (mk_serial rx q p false q c) =
      Ok (data, mk_serial rx q q false q c) ∧
    zlen data = (q - p) mod bufsz ∧
    ∀ i, 0 ≤ i < zlen data → byte data i = byte rx ((p + i) mod bufsz).
Proof.
  intros Hp Hq Hpq Hz. set (k := (q - p) mod bufsz). assert (0 < k < bufsz) as Hk by (unfold k; bufsz_lia).
  assert ((p + k) mod bufsz = q) as Hkq by (unfold k; bufsz_lia).
  unfold rt_serial_read. rewrite decide_False by lia. unfold _serial_dma_rx. run_serial.
  rewrite calc_recved by done. fold k. replace (s32 k) with k by (unfold s32; bufsz_lia). rewrite (decide_False (P := k < k)) by lia. run_serial.
  assert (rt_dma_recv_update_get_index k (mk_serial rx q p false q c) =
          Ok (tt, mk_serial rx q q false q c)) as Hget.
  { unfold rt_dma_recv_update_get_index. run_serial. rewrite calc_recved by done. fold k.
    rewrite bool_decide_eq_true_2 by lia. run_serial. rewrite (decide_False (P := false = true ∧ k ≠ 0)) by (by intros []). run_serial.
    replace (u16 (p + k)) with (p + k) by bufsz_lia. case_decide; run_serial; [by rewrite Hkq|].
    by rewrite <- Hkq, Z.mod_small by lia. }
  destruct (decide (p + k < bufsz)) as [Hin|Hover].
  - destruct (load_bytes_byte rx p k) as (d & -> & Hd & Hb); [lia|lia|lia|]. cbn.
    rewrite Hget. exists d. repeat split; [done|]. intros i Hi. rewrite Hb by lia.
    by rewrite Z.mod_small by lia.
  - destruct (load_bytes_byte rx p (bufsz - p)) as (d1 & -> & Hd1 & Hb1); [lia|lia|lia|].
    destruct (load_bytes_byte rx 0 (k + p - bufsz)) as (d2 & -> & Hd2 & Hb2); [lia|lia|lia|]. cbn.
    assert (zlen (d1 ++ d2) = k) as Hd by (unfold zlen in *; rewrite length_app; lia).
    rewrite Hget. exists (d1 ++ d2). repeat split; [done|].
    intros i Hi. rewrite byte_app by lia. case_decide.
    + rewrite Hb1 by lia. by rewrite Z.mod_small by lia.
    + rewrite Hb2 by lia. f_equal. bufsz_lia.
Qed.

(** ** What the call-back gets *)

(** Only the idle-line interrupt counts received bytes, and it counts modulo the size of the
    buffer: of a burst the remainder arrives, which is its end. *)
Definition delivered (bs : list Z) : option (list Z) :=
  let k := zlen bs mod bufsz in
  if decide (k = 0) then None else Some (drop (Z.to_nat (zlen bs - k)) bs).

Lemma delivered_short bs : 0 < zlen bs < bufsz → delivered bs = Some bs.
Proof.
  intros Hn. unfold delivered. rewrite Z.mod_small by lia. rewrite decide_False by lia.
  by rewrite Z.sub_diag.
Qed.

Lemma interrupt_ok p bs s : ready p s →
  ∃ s1 s2, uart_isr (dma_receive bs s) = Ok (zlen <$> delivered bs, s1) ∧
    match delivered bs with
    | None => s2 = s1
    | Some rx => rt_serial_read (zlen rx) s1 = Ok (rx, s2)
    end ∧ ready ((p + zlen bs) mod bufsz) s2.
Proof.
  intros Hr. pose proof (dma_receive_ok p bs s Hr) as Ht. destruct Hr as [_ Hp Hput Hget Hfull Hlast _].
  destruct (dma_receive bs s) as [rx p1 p2 full last c] eqn:Es. destruct Ht as [Hz Hc Hrest Hb]. cbn in *.
  rewrite Hput, Hget, Hfull, Hlast in Hrest. injection Hrest as -> -> -> ->. subst c.
  set (n := zlen bs) in *. assert (0 ≤ n) by (unfold n, zlen; lia). set (q := (p + n) mod bufsz) in *.
  assert (0 ≤ q < bufsz) as Hq by (unfold q; bufsz_lia).
  rewrite (uart_isr_ok p q rx Hp Hq). unfold delivered. cbn zeta. fold n.
  assert ((q - p) mod bufsz = n mod bufsz) as Hk by (unfold q; bufsz_lia).
  rewrite <- Hk. exists (mk_serial rx q p false q (bufsz - q)).
  destruct (decide (p = q)) as [Hpq|Hpq].
  { rewrite decide_True by (by rewrite Hpq, Z.sub_diag). eexists. split; [done|]. split; [done|].
    by split; cbn. }
  assert ((q - p) mod bufsz ≠ 0) as Hne by (clear - Hp Hq Hpq; clearbody q; bufsz_lia).
  rewrite (decide_False (P := (q - p) mod bufsz = 0)) by exact Hne.
  destruct (rt_serial_read_ok p q rx (bufsz - q) Hp Hq Hpq Hz) as (data & Hrun & Hd & Hdb).
  exists (mk_serial rx q q false q (bufsz - q)).
  assert (data = drop (Z.to_nat (n - (q - p) mod bufsz)) bs) as <-.
  { rewrite Hk in *. set (k := n mod bufsz) in *.
    assert (0 ≤ k < bufsz ∧ k ≤ n) as [? ?] by (unfold k; bufsz_lia).
    apply byte_ext; [unfold n, zlen in *; rewrite length_drop; lia|].
    intros i Hi. rewrite Hdb, byte_drop by lia. specialize (Hb (k - 1 - i) ltac:(lia) ltac:(lia)).
    replace (n - 1 - (k - 1 - i)) with (n - k + i) in Hb by lia. rewrite <- Hb. f_equal.
    replace (p + n - 1 - (k - 1 - i)) with (p + i + (n / bufsz) * bufsz) by (unfold k; bufsz_lia).
    by rewrite Z.mod_add by done. }
  cbn [fmap option_fmap option_map]. rewrite Hd. split; [done|]. split; [exact Hrun|]. by split.
Qed.

Lemma burst_ok p bs s : ready p s →
  ∃ s', burst bs s = Ok (delivered bs, s') ∧ ready ((p + zlen bs) mod bufsz) s'.
Proof.
  intros Hr. destruct (interrupt_ok p bs s Hr) as (s1 & s2 & Hisr & Hread & Hr2). exists s2. split; [|done].
  unfold burst, mbind, prog_bind, modify. rewrite Hisr.
  destruct (delivered bs) as [rx|]; cbn; [by rewrite Hread|by rewrite Hread].
Qed.

(** One burst after the other. *)
Definition bursts (bss : list (list Z)) : prog serial (list (option (list Z))) := mapM burst bss.

Lemma bursts_ok bss p s : ready p s →
  ∃ s', bursts bss s = Ok (delivered <$> bss, s') ∧ ready ((p + zlen (concat bss)) mod bufsz) s'.
Proof.
  revert p s. induction bss as [|bs bss IH]; intros p s Hr.
  - exists s. split; [done|]. cbn. rewrite Z.add_0_r. destruct Hr as [? Hp ? ? ? ? ?].
    rewrite Z.mod_small by done. by split.
  - destruct (burst_ok p bs s Hr) as (s1 & Hs1 & Hr1). destruct (IH _ _ Hr1) as (s2 & Hs2 & Hr2).
    exists s2. split.
    + unfold bursts in *. change (mapM burst (bs :: bss)) with
        (y ← burst bs; ys ← mapM burst bss; mret (y :: ys)).
      unfold mbind, prog_bind. rewrite Hs1. unfold mbind, prog_bind in Hs2. by rewrite Hs2.
    + cbn [concat]. replace (zlen (bs ++ concat bss)) with (zlen bs + zlen (concat bss))
        by (unfold zlen; rewrite length_app; lia).
      rewrite Z.add_assoc. by rewrite Zplus_mod_idemp_l in Hr2.
Qed.

(** C10: from the opening of the port on, whatever bursts come in, every one of them reaches
    the call-back as the bytes it ends with, unchanged and in order: as many as its length leaves
    modulo 256, so that a burst of 1 to 255 bytes arrives whole, wherever the circular buffer
    stood, a burst of 256 or 512 bytes is not reported at all, and the positions of the driver,
    the FIFO and the DMA channel agree again after each. *)
Theorem bursts_delivered bss :
  (∃ s, bursts bss rt_serial_open = Ok (delivered <$> bss, s) ∧
        ready (zlen (concat bss) mod bufsz) s) ∧
  (∀ bs, 0 < zlen bs < bufsz → delivered bs = Some bs) ∧
  (∀ bs, zlen bs mod bufsz = 0 → delivered bs = None).
Proof.
  split; [exact (bursts_ok bss 0 rt_serial_open open_ready)|]. split; [exact delivered_short|].
  intros bs Hbs. unfold delivered. cbn zeta. by rewrite decide_True.
Qed.
