(* ===== verification/Timer.v ===== *)
(** The timers of RT-Thread (rt-thread/src/timer.c, clock.c): a list of timers in the order
    of their timeouts, on a 32-bit tick counter that wraps around, against timers with
    deadlines in unbounded time. *)
From Stdlib Require Import Sorted.
From stdpp Require Import functions.
From S2P Require Import Prelude.

(** ** State *)

Definition RT_TICK_MAX : Z := 0xFFFFFFFF.
Definition RT_TIMER_FLAG_ONE_SHOT : Z := 0x0.
Definition RT_TIMER_FLAG_ACTIVATED : Z := 0x1.
Definition RT_TIMER_FLAG_PERIODIC : Z := 0x2.
Definition RT_TIMER_FLAG_SOFT_TIMER : Z := 0x4.
Definition RT_TICK_PER_SECOND : Z := 1000.

(** The objects that timers are: the one in a thread's control block, or one of its own. *)
Inductive timer_id : Set := thread_timer (thread : nat) | own_timer (n : nat).
#[export] Instance timer_id_eq_dec : EqDecision timer_id.
Proof. solve_decision. Defined.

(** [struct rt_timer]; the time-out function of a thread's timer is [rt_thread_timeout]. *)
Record timer := mk_timer { flag : Z; t_init_tick : Z; timeout_tick : Z }.
#[export] Instance eta_timer : Eta timer := λ t, mk_timer (flag t) (t_init_tick t) (timeout_tick t).

(** A list head with its nodes is the list of the timers in it; [firing] is the list that
    [rt_timer_check] keeps while a time-out function runs. A timer is in one of them at most,
    by its only node. *)
Record timers := mk_timers {
  rt_tick : Z;
  rt_timer_list : list timer_id;
  rt_soft_timer_list : list timer_id;
  firing : list timer_id;
  timer_at : timer_id → timer;
}.
#[export] Instance eta_timers : Eta timers := λ s,
  mk_timers (rt_tick s) (rt_timer_list s) (rt_soft_timer_list s) (firing s) (timer_at s).

Definition rt_system_timer_init : prog timers unit := modify (λ s, s <| rt_timer_list := [] |>).

Definition set_timer (t : timer_id) (f : timer → timer) : prog timers unit :=
  modify (λ s, s <| timer_at := <[t := f (timer_at s t)]> (timer_at s) |>).

(** ** Operations *)

Definition rt_tick_get : prog timers Z := gets rt_tick.

Definition _rt_timer_init (t : timer_id) (time flag : Z) : prog timers unit :=
  set_timer t (λ _, mk_timer (Z.land flag (Z.lnot RT_TIMER_FLAG_ACTIVATED)) time 0).

Definition without (t : timer_id) : list timer_id → list timer_id := filter (λ u, u ≠ t).

Definition _rt_timer_remove (t : timer_id) : prog timers unit :=
  modify (λ s, s <| rt_timer_list := without t (rt_timer_list s) |>
                 <| rt_soft_timer_list := without t (rt_soft_timer_list s) |>
                 <| firing := without t (firing s) |>).

Definition deactivate (t : timer_id) : prog timers unit :=
  set_timer t (λ r, r <| flag := Z.land (flag r) (Z.lnot RT_TIMER_FLAG_ACTIVATED) |>).

(** The walk of [rt_timer_start] and the insertion behind the node it stops at. *)
Fixpoint timer_insert (at_ : timer_id → timer) (new : timer_id) (l : list timer_id) : list timer_id :=
  match l with
  | [] => [new]
  | t :: l' =>
      let diff := u32 (timeout_tick (at_ t) - timeout_tick (at_ new)) in
      if decide (diff = 0) then t :: timer_insert at_ new l'
      else if decide (diff < RT_TICK_MAX / 2) then new :: l
      else t :: timer_insert at_ new l'
  end.

(** [rt_timer_start] up to the point where interrupts are enabled again. *)
Definition timer_start (t : timer_id) : prog timers unit :=
  _rt_timer_remove t;;
  deactivate t;;
  r ← gets (λ s, timer_at s t);
  rt_assert (bool_decide (t_init_tick r < RT_TICK_MAX / 2));;
  now ← rt_tick_get;
  set_timer t (λ r, r <| timeout_tick := u32 (now + t_init_tick r) |>);;
  modify (λ s,
    if decide (Z.land (flag r) RT_TIMER_FLAG_SOFT_TIMER ≠ 0)
    then s <| rt_soft_timer_list := timer_insert (timer_at s) t (rt_soft_timer_list s) |>
    else s <| rt_timer_list := timer_insert (timer_at s) t (rt_timer_list s) |>);;
  set_timer t (λ r, r <| flag := Z.lor (flag r) RT_TIMER_FLAG_ACTIVATED |>).

Definition RT_EOK : Z := 0.
Definition RT_ERROR : Z := 1.

Definition rt_timer_stop (t : timer_id) : prog timers Z :=
  r ← gets (λ s, timer_at s t);
  if decide (Z.land (flag r) RT_TIMER_FLAG_ACTIVATED = 0) then mret (- RT_ERROR)
  else _rt_timer_remove t;; deactivate t;; mret RT_EOK.

(** [rt_timer_control] with RT_TIMER_CTRL_SET_TIME. *)
Definition timer_set_time (t : timer_id) (tick : Z) : prog timers unit :=
  set_timer t (λ r, r <| t_init_tick := tick |>).

Definition rt_timer_next_timeout_tick : prog timers Z :=
  s ← gets id;
  mret (match rt_timer_list s with [] => RT_TICK_MAX | t :: _ => timeout_tick (timer_at s t) end).

(** [rt_tick_from_millisecond]. *)
Definition rt_tick_from_millisecond (ms : Z) : Z :=
  if decide (ms < 0) then u32 (-1)
  else u32 (RT_TICK_PER_SECOND * (ms / 1000) + (RT_TICK_PER_SECOND * (ms mod 1000) + 999) / 1000).

(** ** Deadlines *)

(** The time is the number of ticks since the start, however often the counter has gone
    round; a running timer is its deadline in this time. *)
Abbreviation deadlines := (list (timer_id * Z)).

Definition cancel (t : timer_id) : deadlines → deadlines := filter (λ e, e.1 ≠ t).

(** Behind the timers with the same deadline. *)
Fixpoint schedule (t : timer_id) (D : Z) (dl : deadlines) : deadlines :=
  match dl with
  | [] => [(t, D)]
  | e :: dl' => if decide (D < e.2) then (t, D) :: dl else e :: schedule t D dl'
  end.

Definition MAX_DELAY : Z := 2147483646.

(** The hardware timers are one-shot timers with these deadlines, at time [T]. *)
Record timers_rep (T : Z) (dl : deadlines) (s : timers) : Prop := {
  rep_tick : rt_tick s = u32 T;
  rep_list : rt_timer_list s = dl.*1;
  rep_nodup : NoDup dl.*1;
  rep_sorted : StronglySorted (λ e e' : timer_id * Z, e.2 ≤ e'.2) dl;
  rep_due u D : (u, D) ∈ dl → timeout_tick (timer_at s u) = u32 D ∧ T - 1 ≤ D ≤ T + MAX_DELAY;
  rep_flag t : flag (timer_at s t) = if bool_decide (t ∈ dl.*1) then RT_TIMER_FLAG_ACTIVATED else 0;
  rep_soft : rt_soft_timer_list s = [];
  rep_firing : firing s = [];
}.

Lemma without_not_in t l : t ∉ l → without t l = l.
Proof.
  intros Ht. unfold without. induction l as [|u l IH]; [done|]. apply not_elem_of_cons in Ht as [Hu Hl].
  rewrite filter_cons_True by done. by rewrite IH.
Qed.

Lemma cancel_fst t dl : (cancel t dl).*1 = without t dl.*1.
Proof.
  induction dl as [|[u D] dl IH]; [done|].
  change (cancel t ((u, D) :: dl)) with (if decide (u ≠ t) then (u, D) :: cancel t dl else cancel t dl).
  change (without t ((u, D) :: dl).*1) with
    (if decide (u ≠ t) then u :: without t dl.*1 else without t dl.*1).
  case_decide; [|done]. rewrite fmap_cons. by rewrite IH.
Qed.

Lemma without_in u t l : u ∈ without t l ↔ u ≠ t ∧ u ∈ l.
Proof. unfold without. by rewrite list_elem_of_filter. Qed.

Lemma schedule_elem t D dl e : e ∈ schedule t D dl ↔ e = (t, D) ∨ e ∈ dl.
Proof.
  induction dl as [|e' dl IH]; cbn; [rewrite list_elem_of_singleton, elem_of_nil; tauto|].
  case_decide; rewrite !elem_of_cons; [tauto|]. rewrite IH. tauto.
Qed.

Lemma schedule_fst t D dl u : u ∈ (schedule t D dl).*1 ↔ u = t ∨ u ∈ dl.*1.
Proof.
  rewrite !list_elem_of_fmap. split.
  - intros (e & -> & He). apply schedule_elem in He as [-> |He]; [by left|right; by eexists].
  - intros [-> |(e & -> & He)]; [exists (t, D)|exists e]; (split; [done|]); apply schedule_elem; auto.
Qed.

Lemma cancel_elem t dl u D : (u, D) ∈ cancel t dl ↔ u ≠ t ∧ (u, D) ∈ dl.
Proof. unfold cancel. by rewrite list_elem_of_filter. Qed.

Lemma schedule_Forall (P : timer_id * Z → Prop) t D dl : P (t, D) → Forall P dl → Forall P (schedule t D dl).
Proof.
  intros Ht. induction 1 as [|e dl He Hdl IH]; cbn; [by repeat constructor|].
  case_decide; by repeat constructor.
Qed.

Lemma schedule_sorted t D dl :
  StronglySorted (λ e e' : timer_id * Z, e.2 ≤ e'.2) dl →
  StronglySorted (λ e e' : timer_id * Z, e.2 ≤ e'.2) (schedule t D dl).
Proof.
  induction 1 as [|e dl Hdl IH He]; cbn; [by repeat constructor|].
  case_decide as HD.
  - constructor; [by constructor|]. constructor; [cbn; lia|].
    eapply Forall_impl; [|exact He]. cbn. intros; lia.
  - constructor; [done|]. apply schedule_Forall; [cbn; lia|done].
Qed.

Lemma schedule_nodup t D dl : t ∉ dl.*1 → NoDup dl.*1 → NoDup (schedule t D dl).*1.
Proof.
  induction dl as [|[v D'] dl IH]; cbn; intros Ht Hnd; [by repeat constructor|].
  apply not_elem_of_cons in Ht as [Htv Ht]. apply list.NoDup_cons in Hnd as [Hv Hnd].
  case_decide; cbn; apply list.NoDup_cons; split.
  - by rewrite not_elem_of_cons.
  - by apply list.NoDup_cons.
  - rewrite schedule_fst. intros [->|?]; done.
  - by apply IH.
Qed.

Lemma cancel_cons t e dl :
  cancel t (e :: dl) = if decide (e.1 ≠ t) then e :: cancel t dl else cancel t dl.
Proof. done. Qed.

Lemma cancel_not_in t dl : t ∉ dl.*1 → cancel t dl = dl.
Proof.
  induction dl as [|[u D] dl IH]; [done|]. rewrite fmap_cons. intros [Hu Ht]%not_elem_of_cons.
  rewrite cancel_cons, decide_True by done. by rewrite IH.
Qed.

Lemma cancel_Forall (P : timer_id * Z → Prop) t dl : Forall P dl → Forall P (cancel t dl).
Proof. induction 1; [constructor|]. rewrite cancel_cons. case_decide; [by constructor|done]. Qed.

Lemma cancel_sorted t dl :
  StronglySorted (λ e e' : timer_id * Z, e.2 ≤ e'.2) dl →
  StronglySorted (λ e e' : timer_id * Z, e.2 ≤ e'.2) (cancel t dl).
Proof.
  induction 1 as [|e dl Hdl IH He]; [constructor|]. rewrite cancel_cons.
  case_decide; [|done]. constructor; [done|]. by apply cancel_Forall.
Qed.

Lemma cancel_nodup t dl : NoDup dl.*1 → NoDup (cancel t dl).*1.
Proof.
  rewrite cancel_fst. intros Hdl. unfold without. by apply list.NoDup_filter.
Qed.

(** ** The operations on the deadlines *)

Lemma insert_schedule at_ t D T dl :
  timeout_tick (at_ t) = u32 D → T ≤ D ≤ T + MAX_DELAY →
  (∀ u D', (u, D') ∈ dl → timeout_tick (at_ u) = u32 D' ∧ T - 1 ≤ D' ≤ T + MAX_DELAY) →
  timer_insert at_ t dl.*1 = (schedule t D dl).*1.
Proof.
  unfold MAX_DELAY. intros Ht HD. induction dl as [|[u D'] dl IH]; intros Hdl; [done|].
  destruct (Hdl u D' (list_elem_of_here _ _)) as [Hu HD'].
  specialize (IH (λ v D'' Hv, Hdl v D'' (list_elem_of_further _ _ _ Hv))).
  cbn [fmap list_fmap fst snd timer_insert schedule] in *. rewrite Hu, Ht. change (RT_TICK_MAX / 2) with 2147483647.
  destruct (decide (u32 (u32 D' - u32 D) = 0)) as [H0|H0].
  { rewrite decide_False by (unfold u32 in H0; lia). cbn. by rewrite <- IH. }
  destruct (decide (D < D')) as [Hlt|Hge].
  - rewrite decide_True by (unfold u32; lia). done.
  - rewrite decide_False by (unfold u32 in *; lia). cbn. by rewrite <- IH.
Qed.

Definition stopped (t : timer_id) (s : timers) : timers :=
  mk_timers (rt_tick s) (without t (rt_timer_list s)) (without t (rt_soft_timer_list s))
    (without t (firing s))
    (<[t := timer_at s t <| flag := Z.land (flag (timer_at s t)) (Z.lnot RT_TIMER_FLAG_ACTIVATED) |>]> (timer_at s)).

Lemma remove_deactivate t s : (_rt_timer_remove t;; deactivate t) s = Ok (tt, stopped t s).
Proof. done. Qed.

Lemma stopped_rep T dl s t : timers_rep T dl s → timers_rep T (cancel t dl) (stopped t s).
Proof.
  intros [Htick Hl Hnd Hs Hd Hf Hsoft Hfire]. split; cbn; try done.
  - by rewrite Hl, cancel_fst.
  - by apply cancel_nodup.
  - by apply cancel_sorted.
  - intros u D [Hu HD]%cancel_elem. rewrite fn_lookup_insert_ne by done. by apply Hd.
  - intros u. rewrite cancel_fst. destruct (decide (u = t)) as [-> |Hu].
    + rewrite fn_lookup_insert. cbn. rewrite Hf. rewrite (bool_decide_false (t ∈ without _ _)) by (by rewrite without_in; intros []).
      by case_bool_decide.
    + rewrite fn_lookup_insert_ne by done. rewrite Hf. by rewrite (bool_decide_ext _ (u ∈ without t dl.*1)) by (rewrite without_in; tauto).
  - by rewrite Hsoft.
  - by rewrite Hfire.
Qed.

Definition running (t : timer_id) (D : Z) (s : timers) : timers :=
  let at_ := <[t := timer_at s t <| timeout_tick := u32 D |>]> (timer_at s) in
  mk_timers (rt_tick s) (timer_insert at_ t (rt_timer_list s)) (rt_soft_timer_list s) (firing s)
    (<[t := at_ t <| flag := Z.lor (flag (at_ t)) RT_TIMER_FLAG_ACTIVATED |>]> at_).

Lemma timer_start_run t s n T :
  t_init_tick (timer_at s t) = n → n < RT_TICK_MAX / 2 → rt_tick s = u32 T →
  Z.land (flag (timer_at (stopped t s) t)) RT_TIMER_FLAG_SOFT_TIMER = 0 →
  timer_start t s = Ok (tt, running t (T + n) (stopped t s)).
Proof.
  intros Hn Hlt HT Hsoft.
  assert (wp (timer_start t) (λ _ s', s' = running t (T + n) (stopped t s)) s) as Hw;
    [|by apply wp_ok in Hw as ([] & s' & -> & ->)].
  unfold timer_start. rewrite wp_bind. unfold _rt_timer_remove. rewrite wp_modify, wp_bind.
  unfold deactivate, set_timer at 1. rewrite wp_modify.
  match goal with |- wp _ _ ?x => change x with (stopped t s) end. set (s1 := stopped t s) in *.
  assert (t_init_tick (timer_at s1 t) = n) as Hn1.
  { unfold s1, stopped. cbn. by rewrite fn_lookup_insert. }
  rewrite wp_bind, wp_gets, Hn1, bool_decide_true by done. unfold rt_assert. rewrite wp_bind, wp_ret.
  unfold rt_tick_get. rewrite wp_bind, wp_gets. change (rt_tick s1) with (rt_tick s). rewrite HT, wp_bind.
  unfold set_timer at 1. rewrite wp_modify, Hn1.
  replace (u32 (u32 T + n)) with (u32 (T + n)) by (unfold u32; lia).
  rewrite wp_bind, wp_modify. rewrite decide_False by (intros Hx; exact (Hx Hsoft)).
  unfold set_timer. rewrite wp_modify. done.
Qed.

Lemma rep_hard T dl s t : timers_rep T dl s → Z.land (flag (timer_at s t)) RT_TIMER_FLAG_SOFT_TIMER = 0.
Proof. intros Hrep. rewrite (rep_flag _ _ _ Hrep). by case_bool_decide. Qed.

Lemma running_rep T dl s t n : timers_rep T dl s → t ∉ dl.*1 → 0 ≤ n ≤ MAX_DELAY →
  timers_rep T (schedule t (T + n) dl) (running t (T + n) s).
Proof.
  intros [Htick Hl Hnd Hs Hd Hf Hsoft Hfire] Ht Hn. split; cbn; try done.
  - rewrite Hl. apply (insert_schedule _ _ _ T).
    + by rewrite fn_lookup_insert.
    + lia.
    + intros u D Hu. rewrite fn_lookup_insert_ne; [by apply Hd|].
      intros <-. apply Ht, list_elem_of_fmap. by exists (t, D).
  - by apply schedule_nodup.
  - by apply schedule_sorted.
  - intros u D [[= -> ->]|Hu]%schedule_elem.
    + rewrite !fn_lookup_insert. cbn. unfold MAX_DELAY in *. split; [done|lia].
    + assert (u ≠ t) by (intros ->; apply Ht, list_elem_of_fmap; by exists (t, D)).
      rewrite !fn_lookup_insert_ne by done. by apply Hd.
  - intros u. destruct (decide (u = t)) as [-> |Hu].
    + rewrite !fn_lookup_insert. unfold upd. cbn. rewrite Hf, bool_decide_false by done.
      rewrite bool_decide_true by (apply schedule_fst; by left). done.
    + rewrite !fn_lookup_insert_ne by done. rewrite Hf.
      by rewrite (bool_decide_ext _ (u ∈ (schedule t (T + n) dl).*1)) by (rewrite schedule_fst; tauto).
Qed.

(** The delays that have been set, whether the timers run or not. *)
Definition delay (s : timers) (t : timer_id) : Z := t_init_tick (timer_at s t).

Lemma timer_start_ok T dl s t : timers_rep T dl s → 0 ≤ delay s t ≤ MAX_DELAY →
  ∃ s', timer_start t s = Ok (tt, s') ∧ timers_rep T (schedule t (T + delay s t) (cancel t dl)) s' ∧
    ∀ u, delay s' u = delay s u.
Proof.
  intros Hrep Hn. pose proof (stopped_rep T dl s t Hrep) as Hst. eexists. split; [|split].
  - apply timer_start_run; [done|unfold MAX_DELAY in Hn; change (RT_TICK_MAX / 2) with 2147483647; unfold delay in Hn; lia| |].
    + apply Hrep.
    + by eapply rep_hard.
  - apply running_rep; [done| |done]. rewrite cancel_fst, without_in. by intros [].
  - intros u. unfold delay, running, stopped. cbn. destruct (decide (u = t)) as [-> |Hu].
    + by rewrite !fn_lookup_insert.
    + by rewrite !fn_lookup_insert_ne.
Qed.

Lemma rt_timer_stop_ok T dl s t : timers_rep T dl s →
  ∃ r s', rt_timer_stop t s = Ok (r, s') ∧ timers_rep T (cancel t dl) s' ∧ (∀ u, delay s' u = delay s u) ∧
    r = if bool_decide (t ∈ dl.*1) then RT_EOK else - RT_ERROR.
Proof.
  intros Hrep. unfold rt_timer_stop, mbind, prog_bind, gets. rewrite (rep_flag _ _ _ Hrep). case_bool_decide as Ht.
  - exists RT_EOK, (stopped t s). split; [done|]. split; [by apply stopped_rep|]. split; [|done].
    intros u. unfold delay, stopped. cbn. destruct (decide (u = t)) as [-> |Hu].
    + by rewrite fn_lookup_insert.
    + by rewrite fn_lookup_insert_ne.
  - exists (- RT_ERROR), s. split; [done|]. split; [|done].
    by rewrite cancel_not_in.
Qed.

Lemma set_time_ok T dl s t n : timers_rep T dl s →
  ∃ s', timer_set_time t n s = Ok (tt, s') ∧ timers_rep T dl s' ∧ delay s' t = n ∧
    ∀ u, u ≠ t → delay s' u = delay s u.
Proof.
  intros [Htick Hl Hnd Hs Hd Hf Hsoft Hfire]. eexists. split; [reflexivity|].
  assert (∀ u, flag (<[t := timer_at s t <| t_init_tick := n |>]> (timer_at s) u) = flag (timer_at s u) ∧
    timeout_tick (<[t := timer_at s t <| t_init_tick := n |>]> (timer_at s) u) = timeout_tick (timer_at s u)) as Hsame.
  { intros u. destruct (decide (u = t)) as [-> |Hu]; [by rewrite fn_lookup_insert|by rewrite fn_lookup_insert_ne]. }
  split; [split; cbn; try done|].
  - intros u D Hu. destruct (Hd u D Hu) as [Ht HD]. split; [exact (eq_trans (proj2 (Hsame u)) Ht)|exact HD].
  - intros u. exact (eq_trans (proj1 (Hsame u)) (Hf u)).
  - unfold delay, upd. cbn. rewrite fn_lookup_insert. split; [done|]. intros u Hu. by rewrite fn_lookup_insert_ne.
Qed.

Lemma init_rep T dl s t : timers_rep T dl s → t ∉ dl.*1 →
  ∃ s', _rt_timer_init t 0 RT_TIMER_FLAG_ONE_SHOT s = Ok (tt, s') ∧ timers_rep T dl s'.
Proof.
  intros [Htick Hl Hnd Hs Hd Hf Hsoft Hfire] Ht.
  exists (mk_timers (rt_tick s) (rt_timer_list s) (rt_soft_timer_list s) (firing s)
    (<[t := mk_timer (Z.land RT_TIMER_FLAG_ONE_SHOT (Z.lnot RT_TIMER_FLAG_ACTIVATED)) 0 0]> (timer_at s))).
  split; [done|]. split; try done; cbn [timer_at].
  - intros u D Hu. rewrite fn_lookup_insert_ne; [by apply Hd|].
    intros <-. apply Ht, list_elem_of_fmap. by exists (t, D).
  - intros u. destruct (decide (u = t)) as [-> |Hu].
    + rewrite fn_lookup_insert, bool_decide_false by done. done.
    + by rewrite fn_lookup_insert_ne.
Qed.

(** What [rt_timer_check] leaves of a timer that it has run. *)
Definition fired (t : timer_id) (s : timers) : timers :=
  let s1 := stopped t s in
  mk_timers (rt_tick s1) (without t (rt_timer_list s1)) (without t (rt_soft_timer_list s1)) (without t [t])
    (timer_at s1).

Lemma without_twice t l : without t (without t l) = without t l.
Proof. apply without_not_in. rewrite without_in. by intros []. Qed.

Lemma fired_rep T dl s t : timers_rep T dl s → timers_rep T (cancel t dl) (fired t s).
Proof.
  intros Hrep. destruct (stopped_rep T dl s t Hrep) as [Htick Hl Hnd Hs Hd Hf Hsoft Hfire]. split; try done.
  - cbn in *. by rewrite without_twice.
  - cbn in *. by rewrite without_twice.
  - cbn. by rewrite decide_False by (intros Hx; by apply Hx).
Qed.

Lemma cancel_head t D dl : NoDup ((t, D) :: dl).*1 → cancel t ((t, D) :: dl) = dl.
Proof.
  rewrite fmap_cons. intros [Ht _]%list.NoDup_cons. rewrite cancel_cons, decide_False by (intros Hx; by apply Hx).
  by apply cancel_not_in.
Qed.

(** A tick, when no timer is overdue. *)
Lemma tick_rep T dl s : timers_rep T dl s → (∀ u D, (u, D) ∈ dl → T ≤ D) →
  timers_rep (T + 1) dl (s <| rt_tick := u32 (rt_tick s + 1) |>).
Proof.
  intros [Htick Hl Hnd Hs Hd Hf Hsoft Hfire] Hdue. split; try done.
  - change (u32 (rt_tick s + 1) = u32 (T + 1)). rewrite Htick. unfold u32. lia.
  - intros u D Hu. destruct (Hd u D Hu) as [Ht ?]. split; [exact Ht|]. pose proof (Hdue u D Hu). lia.
Qed.

(** The test of [rt_timer_check], on a counter that wraps around, is the one on deadlines. *)
Lemma expired_iff T dl s u D : timers_rep T dl s → (u, D) ∈ dl →
  u32 (rt_tick s - timeout_tick (timer_at s u)) < RT_TICK_MAX / 2 ↔ D ≤ T.
Proof.
  intros Hrep Hu. destruct (rep_due _ _ _ Hrep u D Hu) as [-> HD]. rewrite (rep_tick _ _ _ Hrep).
  change (RT_TICK_MAX / 2) with 2147483647. unfold MAX_DELAY in HD. unfold u32. lia.
Qed.

Lemma tick_from_ms ms : 0 ≤ ms < 2147483648 → rt_tick_from_millisecond ms = ms.
Proof.
  intros Hms. unfold rt_tick_from_millisecond. rewrite decide_False by lia.
  unfold RT_TICK_PER_SECOND, u32. lia.
Qed.
