(* ===== verification/Transmit.v ===== *)
(** The send side of the serial ports: opening and writing in rt-thread/src/device.c and
    serial.c, [stm32_putc] of drv_usart.c, down to the bytes on the line. *)
From S2P Require Import Prelude Serial Timer.

(** ** State *)

Definition RT_EIO : Z := 8.
Definition RT_DEVICE_FLAG_RDWR : Z := 0x003.
Definition RT_DEVICE_FLAG_STANDALONE : Z := 0x008.
Definition RT_DEVICE_FLAG_ACTIVATED : Z := 0x010.
Definition RT_DEVICE_FLAG_STREAM : Z := 0x040.
Definition RT_DEVICE_FLAG_INT_RX : Z := 0x100.
Definition RT_DEVICE_FLAG_DMA_RX : Z := 0x200.
Definition RT_DEVICE_FLAG_INT_TX : Z := 0x400.
Definition RT_DEVICE_FLAG_DMA_TX : Z := 0x800.
Definition RT_DEVICE_OFLAG_OPEN : Z := 0x008.
Definition RT_DEVICE_CTRL_CONFIG : Z := 0x03.
Definition RT_DEVICE_CTRL_SET_INT : Z := 0x10.
Definition RT_EBUSY : Z := 7.

(** The device of a port; whether [serial_rx] and [serial_tx] are set; the calls of
    [ops->control] and the bytes that have left, the latest last. *)
Record port := mk_port {
  dev_flag : Z; open_flag : Z; ref_count : Z;
  serial_rx : bool; serial_tx : bool;
  controls : list (Z * Z);
  sent : list Z;
}.
#[export] Instance eta_port : Eta port := λ p,
  mk_port (dev_flag p) (open_flag p) (ref_count p) (serial_rx p) (serial_tx p) (controls p) (sent p).

Definition has (flags bit : Z) : bool := bool_decide (Z.land flags bit ≠ 0).
Definition add_open_flag (bit : Z) : prog port unit := modify (λ p, p <| open_flag := Z.lor (open_flag p) bit |>).
Definition control (cmd arg : Z) : prog port unit := modify (λ p, p <| controls := controls p ++ [(cmd, arg)] |>).

(** ** Opening *)

(** [rt_hw_serial_register], as [rt_hw_usart_init] calls it: the flags, nothing open. *)
Definition rt_hw_serial_register (uart_dma_flag : Z) : port :=
  mk_port (Z.lor (Z.lor (Z.lor RT_DEVICE_FLAG_RDWR RT_DEVICE_FLAG_INT_RX) RT_DEVICE_FLAG_INT_TX) uart_dma_flag)
    0 0 false false [] [].

(** The heap has room for the structure of a side that is opened. *)
Definition open_rx (oflag : Z) : prog port unit :=
  p ← gets id;
  if serial_rx p then
    if has oflag RT_DEVICE_FLAG_INT_RX then add_open_flag RT_DEVICE_FLAG_INT_RX
    else when (has oflag RT_DEVICE_FLAG_DMA_RX) (add_open_flag RT_DEVICE_FLAG_DMA_RX)
  else if has oflag RT_DEVICE_FLAG_INT_RX then
    modify (λ p, p <| serial_rx := true |>);;
    add_open_flag RT_DEVICE_FLAG_INT_RX;;
    control RT_DEVICE_CTRL_SET_INT RT_DEVICE_FLAG_INT_RX
  else when (has oflag RT_DEVICE_FLAG_DMA_RX)
    (modify (λ p, p <| serial_rx := true |>);;
     control RT_DEVICE_CTRL_CONFIG RT_DEVICE_FLAG_DMA_RX;;
     add_open_flag RT_DEVICE_FLAG_DMA_RX).

Definition open_tx (oflag : Z) : prog port unit :=
  p ← gets id;
  if serial_tx p then
    if has oflag RT_DEVICE_FLAG_INT_TX then add_open_flag RT_DEVICE_FLAG_INT_TX
    else when (has oflag RT_DEVICE_FLAG_DMA_TX) (add_open_flag RT_DEVICE_FLAG_DMA_TX)
  else if has oflag RT_DEVICE_FLAG_INT_TX then
    modify (λ p, p <| serial_tx := true |>);;
    add_open_flag RT_DEVICE_FLAG_INT_TX;;
    control RT_DEVICE_CTRL_SET_INT RT_DEVICE_FLAG_INT_TX
  else when (has oflag RT_DEVICE_FLAG_DMA_TX)
    (modify (λ p, p <| serial_tx := true |>);;
     add_open_flag RT_DEVICE_FLAG_DMA_TX;;
     control RT_DEVICE_CTRL_CONFIG RT_DEVICE_FLAG_DMA_TX).

(** [rt_serial_open], for the flags of the device. *)
Definition serial_open (oflag : Z) : prog port Z :=
  p ← gets id;
  let lacks bit := has oflag bit && negb (has (dev_flag p) bit) in
  if lacks RT_DEVICE_FLAG_DMA_RX || lacks RT_DEVICE_FLAG_DMA_TX ||
     lacks RT_DEVICE_FLAG_INT_RX || lacks RT_DEVICE_FLAG_INT_TX then mret (- RT_EIO)
  else
    let stream := has oflag RT_DEVICE_FLAG_STREAM || has (open_flag p) RT_DEVICE_FLAG_STREAM in
    modify (λ p, p <| open_flag := Z.land oflag 0xff |>);;
    open_rx oflag;;
    open_tx oflag;;
    when stream (add_open_flag RT_DEVICE_FLAG_STREAM);;
    mret RT_EOK.

(** [configure] is the answer of the peripheral's initialisation. *)
Definition rt_serial_init (configure : Z) : prog port Z :=
  modify (λ p, p <| serial_rx := false |> <| serial_tx := false |>);; mret configure.

Definition rt_device_open (configure oflag : Z) : prog port Z :=
  p ← gets id;
  result ← (if has (dev_flag p) RT_DEVICE_FLAG_ACTIVATED then mret RT_EOK
            else
              result ← rt_serial_init configure;
              when (bool_decide (result = RT_EOK))
                (modify (λ p, p <| dev_flag := Z.lor (dev_flag p) RT_DEVICE_FLAG_ACTIVATED |>));;
              mret result);
  if decide (result ≠ RT_EOK) then mret result
  else
    p ← gets id;
    if has (dev_flag p) RT_DEVICE_FLAG_STANDALONE && has (open_flag p) RT_DEVICE_OFLAG_OPEN then mret (- RT_EBUSY)
    else
      result ← serial_open oflag;
      when (bool_decide (result = RT_EOK))
        (add_open_flag RT_DEVICE_OFLAG_OPEN;;
         modify (λ p, p <| ref_count := u8 (ref_count p + 1) |>);;
         n ← gets ref_count;
         rt_assert (bool_decide (n ≠ 0)));;
      mret result.

(** ** Writing *)

(** The data register takes the character; the wait for its transmission ends. *)
Definition stm32_putc (c : Z) : prog port Z := modify (λ p, p <| sent := sent p ++ [u8 c] |>);; mret 1.

Fixpoint _serial_poll_tx (data : list Z) (length : Z) : prog port unit :=
  if decide (length = 0) then mret tt
  else
    match data with
    | [] => fail OutOfBounds
    | d :: data =>
        f ← gets open_flag;
        when (bool_decide (d = 10) && has f RT_DEVICE_FLAG_STREAM) (_ ← stm32_putc 13; mret tt);;
        _ ← stm32_putc d;
        _serial_poll_tx data (length - 1)
    end.

(** A character is taken at once ([stm32_putc] never answers -1), so nobody waits. *)
Fixpoint int_tx_loop (data : list Z) (length : Z) : prog port unit :=
  if decide (length = 0) then mret tt
  else
    match data with
    | [] => fail OutOfBounds
    | d :: data =>
        f ← gets open_flag;
        when (bool_decide (d = 10) && has f RT_DEVICE_FLAG_STREAM)
          (r ← stm32_putc 13; when (bool_decide (r = -1)) (fail Blocked));;
        r ← stm32_putc d;
        when (bool_decide (r = -1)) (fail Blocked);;
        int_tx_loop data (length - 1)
    end.
Definition _serial_int_tx (data : list Z) (length : Z) : prog port unit :=
  tx ← gets serial_tx; rt_assert tx;; int_tx_loop data length.

(** [rt_serial_write] of a port opened without RT_DEVICE_FLAG_DMA_TX. *)
Definition rt_serial_write (data : list Z) (size : Z) : prog port Z :=
  if decide (size = 0) then mret 0
  else
    f ← gets open_flag;
    (if has f RT_DEVICE_FLAG_INT_TX then _serial_int_tx data (s32 size) else _serial_poll_tx data (s32 size));;
    mret size.

(** [rt_device_write] of a serial port. *)
Definition serial_write (data : list Z) (size : Z) : prog port Z :=
  n ← gets ref_count;
  if decide (n = 0) then mret 0 else rt_serial_write data size.

(** ** What goes out *)

(** Opened as the firmware does, without the translation of line ends. *)
Definition plain_port (p : port) : Prop :=
  ref_count p ≠ 0 ∧ has (open_flag p) RT_DEVICE_FLAG_STREAM = false ∧ has (open_flag p) RT_DEVICE_FLAG_INT_TX = false.

Lemma opened_plain : ∃ p,
  rt_device_open RT_EOK RT_DEVICE_FLAG_DMA_RX (rt_hw_serial_register RT_DEVICE_FLAG_DMA_RX) = Ok (RT_EOK, p) ∧
  plain_port p ∧ controls p = [(RT_DEVICE_CTRL_CONFIG, RT_DEVICE_FLAG_DMA_RX)] ∧ sent p = [].
Proof. eexists. split; [vm_compute; reflexivity|]. by repeat split. Qed.

Lemma poll_tx_ok bs p : plain_port p → Forall is_u8 bs →
  _serial_poll_tx bs (zlen bs) p = Ok (tt, p <| sent := sent p ++ bs |>).
Proof.
  revert p. induction bs as [|b bs IH]; intros p Hp Hu.
  - cbn. unfold mret, prog_ret, upd. rewrite app_nil_r. by destruct p.
  - inversion Hu as [|? ? Hb Hu']; subst. cbn [_serial_poll_tx].
    rewrite decide_False by (unfold zlen; cbn; lia).
    pose proof Hp as (_ & Hst & _). unfold mbind, prog_bind, gets at 1. rewrite Hst, andb_false_r.
    replace (zlen (b :: bs) - 1) with (zlen bs) by (unfold zlen; cbn [length]; lia).
    unfold when, stm32_putc, modify, mret, prog_ret, mbind, prog_bind. unfold is_u8 in Hb.
    replace (u8 b) with b by (unfold u8; lia). rewrite IH; [|exact Hp|done].
    unfold upd. cbn [sent eta_port]. by rewrite <- app_assoc.
Qed.

(** A message goes out byte for byte. *)
Lemma serial_write_ok bs p : plain_port p → Forall is_u8 bs → 0 < zlen bs < 2147483648 →
  serial_write bs (zlen bs) p = Ok (zlen bs, p <| sent := sent p ++ bs |>).
Proof.
  intros Hp Hu Hn. pose proof Hp as (Hr & _ & Hint). unfold serial_write, rt_serial_write, mbind, prog_bind, gets.
  rewrite decide_False by done. rewrite decide_False by lia. rewrite Hint.
  replace (s32 (zlen bs)) with (zlen bs) by (unfold s32; lia). by rewrite poll_tx_ok.
Qed.
