(* ===== verification/Kernel.v ===== *)
(** The scheduler of RT-Thread and its threads (rt-thread/src/scheduler.c, thread.c, clock.c,
    timer.c): a ready queue per priority with a bit map, delays as timers, the tick. *)
From Stdlib Require Import Sorted.
From stdpp Require Import functions.
From S2P Require Import Prelude Timer.

(** ** State *)

Definition RT_THREAD_PRIORITY_MAX : Z := 32.
Definition RT_THREAD_INIT : Z := 0x00.
Definition RT_THREAD_READY : Z := 0x01.
Definition RT_THREAD_SUSPEND : Z := 0x02.
Definition RT_THREAD_RUNNING : Z := 0x03.
Definition RT_THREAD_STAT_MASK : Z := 0x07.
Definition RT_THREAD_STAT_YIELD : Z := 0x08.
Definition RT_ETIMEOUT : Z := 2.
Definition RT_SOFT_TIMER_IDLE : Z := 1.
Definition RT_SOFT_TIMER_BUSY : Z := 0.

(** [struct rt_thread], as far as scheduling goes. *)
Record thread := mk_thread {
  th_stat : Z;
  init_priority : Z; current_priority : Z; number_mask : Z;
  th_init_tick : Z; remaining_tick : Z;
  th_error : Z;
}.
#[export] Instance eta_thread : Eta thread := λ t,
  mk_thread (th_stat t) (init_priority t) (current_priority t) (number_mask t) (th_init_tick t)
    (remaining_tick t) (th_error t).

(** [struct rt_semaphore]; [suspend_thread] is the list of the threads whose [tlist] is in it. *)
Record semaphore := mk_semaphore { suspend_thread : list nat; value : Z; sem_flag : Z }.
#[export] Instance eta_semaphore : Eta semaphore := λ s,
  mk_semaphore (suspend_thread s) (value s) (sem_flag s).

(** The statics of the four files, and the semaphores, each with its number. A thread is its number, RT_NULL is none; the queue of a
    priority is the list of the threads whose [tlist] is in it. *)
Definition NO_THREAD : nat := 0.

Record kernel := mk_kernel {
  rt_thread_priority_table : list (list nat);
  rt_thread_ready_priority_group : Z;
  rt_scheduler_lock_nest : Z;
  rt_current_thread : nat;
  rt_current_priority : Z;
  soft_timer_status : Z;
  thread_at : nat → thread;
  k_timers : timers;
  semaphores : list semaphore;
}.
#[export] Instance eta_kernel : Eta kernel := λ k,
  mk_kernel (rt_thread_priority_table k) (rt_thread_ready_priority_group k) (rt_scheduler_lock_nest k)
    (rt_current_thread k) (rt_current_priority k) (soft_timer_status k) (thread_at k) (k_timers k)
    (semaphores k).

Definition set_thread (t : nat) (f : thread → thread) : prog kernel unit :=
  modify (λ k, k <| thread_at := <[t := f (thread_at k t)]> (thread_at k) |>).

(** [thread->stat = s | (thread->stat & ~RT_THREAD_STAT_MASK)]. *)
Definition set_stat (t : nat) (s : Z) : prog kernel unit :=
  set_thread t (λ r, r <| th_stat := Z.lor s (Z.land (th_stat r) (Z.lnot RT_THREAD_STAT_MASK)) |>).
Definition stat (r : thread) : Z := Z.land (th_stat r) RT_THREAD_STAT_MASK.

(** [__builtin_ffs]: the number of the least significant bit that is set, from 1; 0 for 0. *)
Fixpoint ffs_from (n : nat) (i value : Z) : Z :=
  match n with
  | O => 0
  | S n => if Z.testbit value i then i + 1 else ffs_from n (i + 1) value
  end.
Definition __rt_ffs (value : Z) : Z := ffs_from 32 0 value.

(** ** The ready queues (scheduler.c) *)

Definition rt_thread_self : prog kernel nat := gets rt_current_thread.

Definition _get_highest_priority_thread : prog kernel (nat * Z) :=
  k ← gets id;
  let highest_ready_priority := __rt_ffs (rt_thread_ready_priority_group k) - 1 in
  q ← lift (load (rt_thread_priority_table k) highest_ready_priority);
  match q with
  | t :: _ => mret (t, highest_ready_priority)
  | [] => fail OutOfBounds
  end.

Definition dequeue (t : nat) (q : list nat) : list nat := filter (λ u, u ≠ t) q.

(** [rt_list_remove(&thread->tlist)], whatever list it is in. *)
Definition unqueue (t : nat) (s : semaphore) : semaphore := s <| suspend_thread := dequeue t (suspend_thread s) |>.
Definition unlinked (t : nat) (k : kernel) : kernel :=
  k <| rt_thread_priority_table := dequeue t <$> rt_thread_priority_table k |>
    <| semaphores := unqueue t <$> semaphores k |>.
Definition unlink (t : nat) : prog kernel unit := modify (unlinked t).

Definition rt_schedule_insert_thread (t : nat) : prog kernel unit :=
  k ← gets id;
  if decide (t = rt_current_thread k) then set_stat t RT_THREAD_RUNNING
  else
    set_stat t RT_THREAD_READY;;
    let p := current_priority (thread_at k t) in
    q ← lift (load (rt_thread_priority_table k) p);
    table ← lift (store (rt_thread_priority_table k) p (q ++ [t]));
    modify (λ k, k <| rt_thread_priority_table := table |>
                   <| rt_thread_ready_priority_group :=
                        u32 (Z.lor (rt_thread_ready_priority_group k) (number_mask (thread_at k t))) |>).

Definition rt_schedule_remove_thread (t : nat) : prog kernel unit :=
  unlink t;;
  k ← gets id;
  q ← lift (load (rt_thread_priority_table k) (current_priority (thread_at k t)));
  if decide (q = []) then
    modify (λ k, k <| rt_thread_ready_priority_group :=
      Z.land (rt_thread_ready_priority_group k) (Z.lnot (number_mask (thread_at k t))) |>)
  else mret tt.

Definition rt_schedule : prog kernel unit :=
  k ← gets id;
  if decide (rt_scheduler_lock_nest k = 0 ∧ rt_thread_ready_priority_group k ≠ 0) then
    highest ← _get_highest_priority_thread;
    let '(to_thread, highest_ready_priority) := highest in
    let cur := rt_current_thread k in
    let c := thread_at k cur in
    let is_running := bool_decide (stat c = RT_THREAD_RUNNING) in
    let stays := is_running &&
      (bool_decide (current_priority c < highest_ready_priority) ||
       bool_decide (current_priority c = highest_ready_priority ∧ Z.land (th_stat c) RT_THREAD_STAT_YIELD = 0)) in
    let to_thread := if stays then cur else to_thread in
    when is_running (set_thread cur (λ r, r <| th_stat := Z.land (th_stat r) (Z.lnot RT_THREAD_STAT_YIELD) |>));;
    if decide (to_thread ≠ cur) then
      modify (λ k, k <| rt_current_priority := u8 highest_ready_priority |> <| rt_current_thread := to_thread |>);;
      when is_running (rt_schedule_insert_thread cur);;
      rt_schedule_remove_thread to_thread;;
      set_stat to_thread RT_THREAD_RUNNING
    else
      rt_schedule_remove_thread cur;;
      set_stat cur RT_THREAD_RUNNING
  else mret tt.

Definition rt_system_scheduler_init : prog kernel unit :=
  modify (λ k, k <| rt_scheduler_lock_nest := 0 |>
                 <| rt_thread_priority_table := replicate (Z.to_nat RT_THREAD_PRIORITY_MAX) [] |>
                 <| rt_thread_ready_priority_group := 0 |>).

(** The first thread is switched to, and the call never comes back. *)
Definition rt_system_scheduler_start : prog kernel unit :=
  highest ← _get_highest_priority_thread;
  let '(to_thread, highest_ready_priority) := highest in
  modify (λ k, k <| rt_current_thread := to_thread |>);;
  rt_schedule_remove_thread to_thread;;
  set_thread to_thread (λ r, r <| th_stat := RT_THREAD_RUNNING |>).

Definition rt_enter_critical : prog kernel unit :=
  modify (λ k, k <| rt_scheduler_lock_nest := s16 (rt_scheduler_lock_nest k + 1) |>).
Definition rt_exit_critical : prog kernel unit :=
  modify (λ k, k <| rt_scheduler_lock_nest := s16 (rt_scheduler_lock_nest k - 1) |>);;
  n ← gets rt_scheduler_lock_nest;
  when (bool_decide (n ≤ 0))
    (modify (λ k, k <| rt_scheduler_lock_nest := 0 |>);;
     c ← gets rt_current_thread;
     when (bool_decide (c ≠ NO_THREAD)) rt_schedule).

(** ** Threads (thread.c) *)

Definition rt_thread_suspend (t : nat) : prog kernel Z :=
  k ← gets id;
  let s := stat (thread_at k t) in
  if decide (s ≠ RT_THREAD_READY ∧ s ≠ RT_THREAD_RUNNING) then mret (- RT_ERROR)
  else
    when (bool_decide (s = RT_THREAD_RUNNING)) (rt_assert (bool_decide (t = rt_current_thread k)));;
    rt_schedule_remove_thread t;;
    set_stat t RT_THREAD_SUSPEND;;
    _ ← zoom k_timers (rt_timer_stop (thread_timer t));
    mret RT_EOK.

Definition rt_thread_resume (t : nat) : prog kernel Z :=
  r ← gets (λ k, thread_at k t);
  if decide (stat r ≠ RT_THREAD_SUSPEND) then mret (- RT_ERROR)
  else
    unlink t;;
    _ ← zoom k_timers (rt_timer_stop (thread_timer t));
    rt_schedule_insert_thread t;;
    mret RT_EOK.

(** [_rt_thread_init], as far as scheduling goes. *)
Definition _rt_thread_init (t : nat) (priority tick : Z) : prog kernel Z :=
  rt_assert (bool_decide (priority < RT_THREAD_PRIORITY_MAX));;
  set_thread t (λ _, mk_thread RT_THREAD_INIT priority priority 0 tick tick RT_EOK);;
  zoom k_timers (_rt_timer_init (thread_timer t) 0 RT_TIMER_FLAG_ONE_SHOT);;
  mret RT_EOK.

Definition rt_thread_startup (t : nat) : prog kernel Z :=
  r ← gets (λ k, thread_at k t);
  rt_assert (bool_decide (stat r = RT_THREAD_INIT));;
  set_thread t (λ r, r <| current_priority := init_priority r |>);;
  set_thread t (λ r, r <| number_mask := u32 (Z.shiftl 1 (current_priority r)) |>);;
  set_thread t (λ r, r <| th_stat := RT_THREAD_SUSPEND |>);;
  _ ← rt_thread_resume t;
  self ← rt_thread_self;
  when (bool_decide (self ≠ NO_THREAD)) rt_schedule;;
  mret RT_EOK.

(** The data of the kernel before it starts, and the start: the threads are the main thread,
    the one of the soft timers and the idle thread, with their priorities and time slices. *)
Definition reset_kernel : kernel :=
  mk_kernel (replicate (Z.to_nat RT_THREAD_PRIORITY_MAX) []) 0 0 NO_THREAD 0 RT_SOFT_TIMER_IDLE
    (λ _, mk_thread 0 0 0 0 0 0 0) (mk_timers 0 [] [] [] (λ _, mk_timer 0 0 0))
    [mk_semaphore [] 0 0].

Definition start_thread (x : nat * Z * Z) : prog kernel unit :=
  let '(t, priority, tick) := x in
  _ ← _rt_thread_init t priority tick; _ ← rt_thread_startup t; mret tt.
Definition start_threads : list (nat * Z * Z) → prog kernel unit :=
  foldr (λ x m, start_thread x;; m) (mret tt).
Definition rtthread_startup (threads : list (nat * Z * Z)) : prog kernel unit :=
  zoom k_timers rt_system_timer_init;;
  rt_system_scheduler_init;;
  start_threads threads;;
  rt_system_scheduler_start.

Definition rt_thread_yield : prog kernel Z :=
  t ← rt_thread_self;
  set_thread t (λ r, r <| remaining_tick := th_init_tick r |>
                       <| th_stat := Z.lor (th_stat r) RT_THREAD_STAT_YIELD |>);;
  rt_schedule;;
  mret RT_EOK.

Definition rt_thread_timeout (t : nat) : prog kernel unit :=
  r ← gets (λ k, thread_at k t);
  rt_assert (bool_decide (stat r = RT_THREAD_SUSPEND));;
  set_thread t (λ r, r <| th_error := - RT_ETIMEOUT |>);;
  unlink t;;
  rt_schedule_insert_thread t;;
  rt_schedule.

(** ** Timers and time (timer.c, clock.c) *)

(** The thread that runs the soft timers. *)
Class SoftTimerThread := timer_thread : nat.

Section time.
Context `{SoftTimerThread}.

(** The time-out functions of timers that are not a thread's. *)
Context (timeout_func : nat → prog kernel unit).

Definition rt_timer_start (t : timer_id) : prog kernel unit :=
  zoom k_timers (timer_start t);;
  k ← gets id;
  if decide (Z.land (flag (timer_at (k_timers k) t)) RT_TIMER_FLAG_SOFT_TIMER ≠ 0 ∧
             soft_timer_status k = RT_SOFT_TIMER_IDLE ∧
             stat (thread_at k timer_thread) = RT_THREAD_SUSPEND) then
    _ ← rt_thread_resume timer_thread; rt_schedule
  else mret tt.

Definition call_timeout (t : timer_id) : prog kernel unit :=
  match t with
  | thread_timer t => rt_thread_timeout t
  | own_timer n => timeout_func n
  end.

(** A round of the loop of [rt_timer_check]; the list of the timer that is due is not empty
    behind the call unless the call has taken the timer out of it. *)
Fixpoint timer_check_loop (fuel : nat) (current_tick : Z) : prog kernel unit :=
  match fuel with
  | O => fail NoFuel
  | S fuel =>
      s ← gets k_timers;
      match rt_timer_list s with
      | [] => mret tt
      | t :: _ =>
          if decide (u32 (current_tick - timeout_tick (timer_at s t)) < RT_TICK_MAX / 2) then
            zoom k_timers (_rt_timer_remove t);;
            (if decide (Z.land (flag (timer_at s t)) RT_TIMER_FLAG_PERIODIC = 0)
             then zoom k_timers (deactivate t) else mret tt);;
            zoom k_timers (modify (λ s, s <| firing := [t] |>));;
            call_timeout t;;
            current_tick ← zoom k_timers rt_tick_get;
            s ← gets k_timers;
            if decide (firing s = []) then timer_check_loop fuel current_tick
            else
              zoom k_timers (_rt_timer_remove t);;
              r ← gets (λ k, timer_at (k_timers k) t);
              (if decide (Z.land (flag r) RT_TIMER_FLAG_PERIODIC ≠ 0 ∧ Z.land (flag r) RT_TIMER_FLAG_ACTIVATED ≠ 0)
               then zoom k_timers (deactivate t);; rt_timer_start t else mret tt);;
              timer_check_loop fuel current_tick
          else mret tt
      end
  end.

Definition rt_timer_check : prog kernel unit :=
  current_tick ← zoom k_timers rt_tick_get;
  s ← gets k_timers;
  timer_check_loop (S (length (rt_timer_list s))) current_tick.

(** [rt_tick_increase], called by the tick interrupt. *)
Definition rt_tick_increase : prog kernel unit :=
  zoom k_timers (modify (λ s, s <| rt_tick := u32 (rt_tick s + 1) |>));;
  t ← rt_thread_self;
  set_thread t (λ r, r <| remaining_tick := u32 (remaining_tick r - 1) |>);;
  r ← gets (λ k, thread_at k t);
  (if decide (remaining_tick r = 0) then
     set_thread t (λ r, r <| remaining_tick := th_init_tick r |>
                          <| th_stat := Z.lor (th_stat r) RT_THREAD_STAT_YIELD |>);;
     rt_schedule
   else mret tt);;
  rt_timer_check.

(** The critical section of [rt_thread_sleep]. *)
Definition suspend_for (tick : Z) : prog kernel unit :=
  t ← rt_thread_self;
  _ ← rt_thread_suspend t;
  zoom k_timers (timer_set_time (thread_timer t) tick);;
  rt_timer_start (thread_timer t).

(** [rt_thread_sleep] up to the switch to another thread; the rest, which clears the error
    number of the time-out, runs when this thread does again. *)
Definition rt_thread_sleep (tick : Z) : prog kernel unit := suspend_for tick;; rt_schedule.

Definition rt_thread_mdelay (ms : Z) : prog kernel unit := rt_thread_sleep (rt_tick_from_millisecond ms).

(** [rt_thread_delay_until] up to the switch, in two parts: whether the thread sleeps. *)
Definition delay_until (tick inc_tick : Z) : prog kernel bool :=
  now ← zoom k_timers rt_tick_get;
  if decide (u32 (now - tick) < inc_tick) then
    suspend_for (u32 (u32 (tick + inc_tick) - now));; mret true
  else mret false.
Definition rt_thread_delay_until (tick inc_tick : Z) : prog kernel unit :=
  b ← delay_until tick inc_tick; when b rt_schedule.
End time.
