(* ===== verification/Scheduler.v ===== *)
(** What the scheduler promises: the ready queues agree with their bit map, and rt_schedule
    gives the processor to a thread of the highest priority among those that can run. *)
From stdpp Require Import functions.
From S2P Require Import Prelude Timer Kernel.

(** ** The least significant bit *)

Lemma ffs_from_least n i value p :
  i ≤ p < i + Z.of_nat n → Z.testbit value p = true → (∀ j, i ≤ j < p → Z.testbit value j = false) →
  ffs_from n i value = p + 1.
Proof.
  revert i. induction n as [|n IH]; intros i Hp Hbit Hlow; [lia|]. cbn [ffs_from].
  destruct (decide (i = p)) as [-> |Hne]; [by rewrite Hbit|].
  rewrite Hlow by lia. apply IH; [lia|done|]. intros j Hj. apply Hlow. lia.
Qed.

Lemma __rt_ffs_least value p :
  0 ≤ p < 32 → Z.testbit value p = true → (∀ j, 0 ≤ j < p → Z.testbit value j = false) →
  __rt_ffs value = p + 1.
Proof. intros. apply ffs_from_least; [lia|done|]. auto. Qed.

(** A number that is not 0 has such a bit. *)
Lemma least_bit value : 0 < value < 4294967296 →
  ∃ p, 0 ≤ p < 32 ∧ Z.testbit value p = true ∧ ∀ j, 0 ≤ j < p → Z.testbit value j = false.
Proof.
  intros Hv.
  assert (∀ n : nat, (∃ p, 0 ≤ p < Z.of_nat n ∧ Z.testbit value p = true ∧ ∀ j, 0 ≤ j < p → Z.testbit value j = false) ∨
    ∀ j, 0 ≤ j < Z.of_nat n → Z.testbit value j = false) as Hn.
  { induction n as [|n [(p & Hp & H)|Hnone]]; [right; lia|left; exists p; split; [lia|done]|].
    destruct (Z.testbit value (Z.of_nat n)) eqn:E.
    - left. exists (Z.of_nat n). split; [lia|]. split; [done|]. intros. apply Hnone. lia.
    - right. intros j Hj. destruct (decide (j = Z.of_nat n)) as [-> |]; [done|]. apply Hnone. lia. }
  destruct (Hn 32%nat) as [H|Hnone]; [exact H|]. exfalso.
  assert (value = 0); [|lia]. apply Z.bits_inj'. intros j Hj. rewrite Z.bits_0.
  destruct (decide (j < 32)); [by apply Hnone|].
  apply (Z.testbit_false value j ltac:(lia)).
  assert (2 ^ 32 ≤ 2 ^ j) by (apply Z.pow_le_mono_r; lia). rewrite Z.div_small; [done|].
  change (2 ^ 32) with 4294967296 in *. lia.
Qed.

(** ** The queues *)

Definition PRIOS : list nat := seq 0 32.
Definition table_of (Q : nat → list nat) : list (list nat) := Q <$> PRIOS.

(** The thread is in the list of a semaphore. *)
Definition waits (k : kernel) (t : nat) : Prop := ∃ s, s ∈ semaphores k ∧ t ∈ suspend_thread s.

(** The table as a function from priorities, and what it has to do with the threads. *)
Record queues (Q : nat → list nat) (k : kernel) : Prop := {
  q_table : rt_thread_priority_table k = table_of Q;
  q_group p : (p < 32)%nat → Z.testbit (rt_thread_ready_priority_group k) (Z.of_nat p) = bool_decide (Q p ≠ []);
  q_range : 0 ≤ rt_thread_ready_priority_group k < 4294967296;
  q_elem p t : t ∈ Q p → current_priority (thread_at k t) = Z.of_nat p ∧ stat (thread_at k t) = RT_THREAD_READY;
  q_prio t : stat (thread_at k t) ≠ RT_THREAD_INIT →
    0 ≤ current_priority (thread_at k t) < 32 ∧
    number_mask (thread_at k t) = 2 ^ current_priority (thread_at k t);
  q_waits t : waits k t → stat (thread_at k t) = RT_THREAD_SUSPEND;
}.

Lemma load_table Q p : 0 ≤ p < 32 → load (table_of Q) p = Ok (Q (Z.to_nat p)).
Proof.
  intros Hp. unfold load, table_of, PRIOS. rewrite decide_True by lia.
  rewrite list_lookup_fmap, lookup_seq_lt by lia. done.
Qed.

Lemma store_table Q p q : 0 ≤ p < 32 → store (table_of Q) p q = Ok (table_of (<[Z.to_nat p := q]> Q)).
Proof.
  intros Hp. unfold table_of. rewrite store_in by (unfold zlen, PRIOS; rewrite length_fmap, length_seq; lia). f_equal.
  apply list_eq. intros i. destruct (decide (i = Z.to_nat p)) as [-> |Hi].
  - rewrite list_lookup_insert_eq by (unfold PRIOS; rewrite length_fmap, length_seq; lia).
    unfold PRIOS. rewrite list_lookup_fmap, lookup_seq_lt by lia. cbn. by rewrite fn_lookup_insert.
  - rewrite list_lookup_insert_ne by done. rewrite !list_lookup_fmap. unfold PRIOS.
    destruct (decide (i < 32)%nat); [|by rewrite lookup_seq_ge by lia].
    rewrite lookup_seq_lt by lia. cbn. by rewrite fn_lookup_insert_ne.
Qed.

Lemma dequeue_table t Q : dequeue t <$> table_of Q = table_of (λ p, dequeue t (Q p)).
Proof. unfold table_of. by rewrite <- list_fmap_compose. Qed.

Lemma dequeue_elem t u q : u ∈ dequeue t q ↔ u ≠ t ∧ u ∈ q.
Proof. unfold dequeue. by rewrite list_elem_of_filter. Qed.

Lemma dequeue_not_in t q : t ∉ q → dequeue t q = q.
Proof.
  induction q as [|u q IH]; [done|]. intros [Ht Hq]%not_elem_of_cons.
  change (dequeue t (u :: q)) with (if decide (u ≠ t) then u :: dequeue t q else dequeue t q).
  rewrite decide_True by done. by rewrite IH.
Qed.

Lemma unqueue_not_in t s : t ∉ suspend_thread s → unqueue t s = s.
Proof. intros Ht. unfold unqueue. rewrite dequeue_not_in by done. by destruct s. Qed.

Lemma unqueue_none k t : ¬ waits k t → unqueue t <$> semaphores k = semaphores k.
Proof.
  unfold waits. intros Ht. induction (semaphores k) as [|s l IH]; [done|]. rewrite fmap_cons. f_equal.
  - apply unqueue_not_in. intros Hs. apply Ht. exists s. split; [apply list_elem_of_here|done].
  - apply IH. intros (s' & Hs' & Hts'). apply Ht. exists s'. split; [by apply list_elem_of_further|done].
Qed.

Lemma unlinked_awake k t : ¬ waits k t →
  unlinked t k = k <| rt_thread_priority_table := dequeue t <$> rt_thread_priority_table k |>.
Proof. intros Ht. unfold unlinked. rewrite (unqueue_none k t Ht). done. Qed.

Lemma wp_run_eq {S A} (m : prog S A) a s s' : wp m (λ x s1, x = a ∧ s1 = s') s → m s = Ok (a, s').
Proof. unfold wp. destruct (m s) as [[]|]; [|done]. by intros [-> ->]. Qed.

(** ** One thread's status *)

Lemma stat_set s x : Z.land s RT_THREAD_STAT_MASK = s →
  Z.land (Z.lor s (Z.land x (Z.lnot RT_THREAD_STAT_MASK))) RT_THREAD_STAT_MASK = s.
Proof.
  intros Hs. rewrite Z.land_lor_distr_l, Hs, <- Z.land_assoc.
  change (Z.land (Z.lnot RT_THREAD_STAT_MASK) RT_THREAD_STAT_MASK) with 0. by rewrite Z.land_0_r, Z.lor_0_r.
Qed.

Lemma stat_no_yield x : Z.land (Z.land x (Z.lnot RT_THREAD_STAT_YIELD)) RT_THREAD_STAT_MASK = Z.land x RT_THREAD_STAT_MASK.
Proof. rewrite <- Z.land_assoc. by change (Z.land (Z.lnot RT_THREAD_STAT_YIELD) RT_THREAD_STAT_MASK) with RT_THREAD_STAT_MASK. Qed.

Lemma stat_yield x : Z.land (Z.lor x RT_THREAD_STAT_YIELD) RT_THREAD_STAT_MASK = Z.land x RT_THREAD_STAT_MASK.
Proof.
  rewrite Z.land_lor_distr_l. change (Z.land RT_THREAD_STAT_YIELD RT_THREAD_STAT_MASK) with 0. apply Z.lor_0_r.
Qed.

(** The state with one thread changed. *)
Definition touch (t : nat) (f : thread → thread) (k : kernel) : kernel :=
  k <| thread_at := <[t := f (thread_at k t)]> (thread_at k) |>.

Lemma touch_same t f k : thread_at (touch t f k) t = f (thread_at k t).
Proof. unfold touch, upd. cbn. by rewrite fn_lookup_insert. Qed.
Lemma touch_other t f k u : u ≠ t → thread_at (touch t f k) u = thread_at k u.
Proof. intros Hu. unfold touch, upd. cbn. by rewrite fn_lookup_insert_ne. Qed.

Ltac see := unfold touch, upd; cbn [eta_kernel rt_thread_priority_table rt_thread_ready_priority_group
  rt_scheduler_lock_nest rt_current_thread rt_current_priority soft_timer_status thread_at k_timers semaphores].

(** A thread that has been started and is in no queue may change its status. *)
Lemma touch_queues Q k t f :
  (∀ r, current_priority (f r) = current_priority r ∧ number_mask (f r) = number_mask r) →
  ((∀ p, t ∉ Q p) ∧ ¬ waits k t ∧ stat (thread_at k t) ≠ RT_THREAD_INIT) ∨ (∀ r, stat (f r) = stat r) →
  queues Q k → queues Q (touch t f k).
Proof.
  intros Hf Ht [Htab Hg Hr He Hp Hw]. split; try done.
  - intros p u Hu. destruct (decide (u = t)) as [-> |Hne].
    + rewrite touch_same, (proj1 (Hf _)). destruct Ht as [[Ht _]|Ht]; [by destruct (Ht p)|].
      rewrite Ht. by apply He.
    + rewrite touch_other by done. by apply He.
  - intros u. destruct (decide (u = t)) as [-> |Hne].
    + rewrite touch_same, (proj1 (Hf _)), (proj2 (Hf _)). destruct Ht as [(_ & _ & Ht)|Ht]; [intros _; by apply Hp|].
      rewrite Ht. apply Hp.
    + rewrite touch_other by done. apply Hp.
  - intros u Hu. change (waits k u) in Hu. destruct (decide (u = t)) as [-> |Hne].
    + rewrite touch_same. destruct Ht as [(_ & Ht & _)|Ht]; [done|]. rewrite Ht. by apply Hw.
    + rewrite touch_other by done. by apply Hw.
Qed.

Definition to_stat (s : Z) (r : thread) : thread :=
  r <| th_stat := Z.lor s (Z.land (th_stat r) (Z.lnot RT_THREAD_STAT_MASK)) |>.

Lemma to_stat_ok s r : Z.land s RT_THREAD_STAT_MASK = s → stat (to_stat s r) = s.
Proof. intros Hs. by apply stat_set. Qed.

(** ** Insertion and removal *)

Lemma bit_of_mask p q : Z.testbit (2 ^ Z.of_nat p) (Z.of_nat q) = bool_decide (p = q).
Proof. rewrite Z.pow2_bits_eqb by lia. case_bool_decide; [subst; apply Z.eqb_refl|]. apply Z.eqb_neq. lia. Qed.

Lemma not_waiting Q k t : queues Q k → stat (thread_at k t) ≠ RT_THREAD_SUSPEND → ¬ waits k t.
Proof. intros Hq Ht Hw. by apply Ht, (q_waits Q k Hq). Qed.

Lemma insert_ok Q k t : queues Q k → stat (thread_at k t) ≠ RT_THREAD_INIT → ¬ waits k t → t ≠ rt_current_thread k → (∀ p, t ∉ Q p) →
  let p := Z.to_nat (current_priority (thread_at k t)) in
  let Q' := <[p := Q p ++ [t]]> Q in
  ∃ g, let k' := touch t (to_stat RT_THREAD_READY) k <| rt_thread_priority_table := table_of Q' |>
                   <| rt_thread_ready_priority_group := g |> in
    rt_schedule_insert_thread t k = Ok (tt, k') ∧ queues Q' k'.
Proof.
  intros Hq Hinit Hnw Hcur Ht p Q'. destruct (q_prio _ _ Hq t Hinit) as [Hpr Hmask].
  set (g := u32 (Z.lor (rt_thread_ready_priority_group k) (number_mask (thread_at k t)))). exists g. cbn zeta. split.
  - unfold rt_schedule_insert_thread. apply wp_run_eq. rewrite wp_bind, wp_gets. unfold id.
    rewrite decide_False by done. rewrite wp_bind. unfold set_stat, set_thread. rewrite wp_modify.
    match goal with |- wp _ _ ?x => change x with (touch t (to_stat RT_THREAD_READY) k) end.
    rewrite (q_table _ _ Hq), wp_bind, wp_lift, load_table by done. cbn [owp].
    rewrite wp_bind, wp_lift, store_table by done. cbn [owp]. rewrite wp_modify.
    split; [done|]. unfold g. rewrite touch_same. done.
  - split; try done.
    + intros i Hi. see. unfold g. rewrite Hmask. replace (current_priority (thread_at k t)) with (Z.of_nat p) by (unfold p; lia).
      unfold u32. change 4294967296 with (2 ^ 32). rewrite Z.mod_pow2_bits_low by lia.
      rewrite Z.lor_spec, (q_group _ _ Hq) by done. rewrite bit_of_mask. unfold Q'.
      destruct (decide (p = i)) as [<- |Hpi].
      * rewrite fn_lookup_insert, (bool_decide_true (p = p)) by done. rewrite orb_true_r. symmetry.
        apply bool_decide_true. by destruct (Q p).
      * rewrite fn_lookup_insert_ne by done. rewrite (bool_decide_false (p = i)) by done. by rewrite orb_false_r.
    + see. unfold g. apply u32_range.
    + intros i u Hu. unfold Q' in Hu. 
      destruct (decide (i = p)) as [-> |Hi].
      * rewrite fn_lookup_insert in Hu. apply elem_of_app in Hu as [Hu|Hu].
        -- assert (u ≠ t) by (intros ->; by apply (Ht p)). see. rewrite fn_lookup_insert_ne by done. by apply (q_elem _ _ Hq).
        -- apply list_elem_of_singleton in Hu as ->. see. rewrite fn_lookup_insert. split; [|by apply to_stat_ok].
           unfold to_stat, upd, p. cbn. lia.
      * rewrite fn_lookup_insert_ne in Hu by done. assert (u ≠ t) by (intros ->; by apply (Ht i)).
        see. rewrite fn_lookup_insert_ne by done. by apply (q_elem _ _ Hq).
    + intros u. see. destruct (decide (u = t)) as [-> |Hu]; [rewrite fn_lookup_insert; intros _; by apply (q_prio _ _ Hq t)|].
      rewrite fn_lookup_insert_ne by done. apply (q_prio _ _ Hq).
    + intros u Hu. change (waits k u) in Hu. assert (u ≠ t) by (intros ->; done).
      see. rewrite fn_lookup_insert_ne by done. by apply (q_waits _ _ Hq).
Qed.

Lemma land_u32 a b : is_u32 a → is_u32 (Z.land a b).
Proof.
  intros Ha. assert (Z.land a b = u32 (Z.land a b)) as ->; [|apply u32_range].
  unfold u32. change 4294967296 with (2 ^ 32). rewrite <- Z.land_ones by lia.
  rewrite <- Z.land_assoc, (Z.land_comm b), Z.land_assoc, Z.land_ones by lia.
  by rewrite Z.mod_small.
Qed.

Lemma remove_ok Q k t : queues Q k → stat (thread_at k t) ≠ RT_THREAD_INIT → ¬ waits k t →
  let Q' p := dequeue t (Q p) in
  ∃ g, let k' := k <| rt_thread_priority_table := table_of Q' |> <| rt_thread_ready_priority_group := g |> in
    rt_schedule_remove_thread t k = Ok (tt, k') ∧ queues Q' k'.
Proof.
  intros Hq Hinit Hnw Q'. destruct (q_prio _ _ Hq t Hinit) as [Hpr Hmask].
  set (p := Z.to_nat (current_priority (thread_at k t))).
  set (g := if decide (Q' p = []) then Z.land (rt_thread_ready_priority_group k) (Z.lnot (number_mask (thread_at k t)))
            else rt_thread_ready_priority_group k).
  exists g. cbn zeta. split.
  - unfold rt_schedule_remove_thread. apply wp_run_eq. unfold unlink.
    rewrite wp_bind, wp_modify, (unlinked_awake k t Hnw), (q_table _ _ Hq), dequeue_table.
    rewrite wp_bind, wp_gets. unfold id. rewrite wp_bind, wp_lift. see. rewrite load_table by done. cbn [owp].
    fold p. cbv beta. change (dequeue t (Q p)) with (Q' p). unfold g.
    destruct (decide (Q' p = [])); [rewrite wp_modify|rewrite wp_ret]; done.
  - assert (∀ i, i ≠ p → Q' i = Q i) as Hsame.
    { intros i Hi. apply dequeue_not_in. intros Ht. destruct (q_elem _ _ Hq i t Ht) as [Hp _].
      apply Hi. unfold p. lia. }
    assert (∀ i u, u ∈ Q' i → u ∈ Q i) as Hsub by (intros i u [_ ?]%dequeue_elem; done).
    split; try done.
    + intros i Hi. see. destruct (decide (i = p)) as [-> |Hip].
      * unfold g. destruct (decide (Q' p = [])) as [Hnil|Hnil].
        -- rewrite Z.land_spec, Z.lnot_spec, Hmask by lia.
           replace (current_priority (thread_at k t)) with (Z.of_nat p) by (unfold p; lia).
           rewrite bit_of_mask, (bool_decide_true (p = p)), andb_false_r by done. symmetry. apply bool_decide_false. intros Hx. exact (Hx Hnil).
        -- rewrite (q_group _ _ Hq) by done. rewrite !bool_decide_true; try done.
           intros Hn. apply Hnil. unfold Q'. by rewrite Hn.
      * rewrite Hsame by done. rewrite <- (q_group _ _ Hq) by done. unfold g. destruct (decide (Q' p = [])); [|done].
        rewrite Z.land_spec, Z.lnot_spec, Hmask by lia.
        replace (current_priority (thread_at k t)) with (Z.of_nat p) by (unfold p; lia).
        rewrite bit_of_mask, (bool_decide_false (p = i)) by done. by rewrite andb_true_r.
    + see. unfold g. pose proof (q_range _ _ Hq) as Hr. destruct (decide (Q' p = [])); [|done].
      by apply land_u32.
    + intros i u Hu. see. by apply (q_elem _ _ Hq), Hsub.
    + intros u. see. apply (q_prio _ _ Hq).
    + intros u Hu. see. apply (q_waits _ _ Hq), Hu.
Qed.

(** ** The choice of a thread *)

(** The threads that can run: the current one, unless it has suspended itself, and those in
    the queues. *)
Definition awake (Q : nat → list nat) (k : kernel) (t : nat) : Prop :=
  (t = rt_current_thread k ∧ stat (thread_at k t) = RT_THREAD_RUNNING) ∨ ∃ p, t ∈ Q p.

(** No thread that can run has a higher priority than the current one. *)
Definition highest_runs (Q : nat → list nat) (k : kernel) : Prop :=
  stat (thread_at k (rt_current_thread k)) = RT_THREAD_RUNNING ∧
  ∀ t, awake Q k t →
    current_priority (thread_at k (rt_current_thread k)) ≤ current_priority (thread_at k t).

(** What scheduling leaves alone. *)
Record scheduling (Q : nat → list nat) (k k' : kernel) : Prop := {
  sch_timers : k_timers k' = k_timers k;
  sch_semaphores : semaphores k' = semaphores k;
  sch_lock : rt_scheduler_lock_nest k' = rt_scheduler_lock_nest k;
  sch_prio t : current_priority (thread_at k' t) = current_priority (thread_at k t);
  sch_asleep t : ¬ awake Q k t → stat (thread_at k' t) = stat (thread_at k t);
}.

Lemma highest_ok Q k : queues Q k → rt_thread_ready_priority_group k ≠ 0 →
  ∃ p t q, Q p = t :: q ∧ (p < 32)%nat ∧ (∀ i, (i < p)%nat → Q i = []) ∧
    _get_highest_priority_thread k = Ok ((t, Z.of_nat p), k).
Proof.
  intros Hq Hg. pose proof (q_range _ _ Hq) as Hr.
  destruct (least_bit (rt_thread_ready_priority_group k) ltac:(lia)) as (p & Hp & Hbit & Hlow).
  pose proof (q_group _ _ Hq (Z.to_nat p) ltac:(lia)) as Hqp. rewrite Z2Nat.id, Hbit in Hqp by lia.
  symmetry in Hqp. apply bool_decide_eq_true in Hqp. destruct (Q (Z.to_nat p)) as [|t q] eqn:EQ; [done|].
  exists (Z.to_nat p), t, q. split; [done|]. split; [lia|]. split.
  - intros i Hi. pose proof (q_group _ _ Hq i ltac:(lia)) as Hqi. rewrite Hlow in Hqi by lia.
    symmetry in Hqi. apply bool_decide_eq_false in Hqi. by apply dec_stable.
  - unfold _get_highest_priority_thread. apply wp_run_eq. rewrite wp_bind, wp_gets. unfold id.
    rewrite (__rt_ffs_least _ p) by done. replace (p + 1 - 1) with p by lia.
    rewrite (q_table _ _ Hq), wp_bind, wp_lift, load_table by done. cbn [owp]. rewrite EQ, wp_ret.
    by rewrite Z2Nat.id by lia.
Qed.

Lemma no_group Q k p : queues Q k → (p < 32)%nat → rt_thread_ready_priority_group k = 0 → Q p = [].
Proof.
  intros Hq Hp H0. pose proof (q_group _ _ Hq p Hp) as Hb. rewrite H0, Z.bits_0 in Hb.
  symmetry in Hb. apply bool_decide_eq_false in Hb. by apply dec_stable.
Qed.

Lemma in_queue Q k p t : queues Q k → t ∈ Q p → (p < 32)%nat.
Proof. intros Hq Ht. destruct (q_elem _ _ Hq p t Ht) as [Hp Hst]. destruct (q_prio _ _ Hq t) as [Hr _]; [by rewrite Hst|lia]. Qed.

Definition clear_yield (r : thread) : thread := r <| th_stat := Z.land (th_stat r) (Z.lnot RT_THREAD_STAT_YIELD) |>.

Lemma clear_yield_stat r : stat (clear_yield r) = stat r.
Proof. apply stat_no_yield. Qed.

(** Making [t] the running thread. *)
Lemma take_ok Q k t : queues Q k → stat (thread_at k t) ≠ RT_THREAD_INIT → ¬ waits k t →
  ∃ k', (rt_schedule_remove_thread t;; set_stat t RT_THREAD_RUNNING) k = Ok (tt, k') ∧
    queues (λ p, dequeue t (Q p)) k' ∧
    rt_current_thread k' = rt_current_thread k ∧ k_timers k' = k_timers k ∧
    rt_scheduler_lock_nest k' = rt_scheduler_lock_nest k ∧ semaphores k' = semaphores k ∧
    stat (thread_at k' t) = RT_THREAD_RUNNING ∧
    (∀ u, current_priority (thread_at k' u) = current_priority (thread_at k u)) ∧
    (∀ u, u ≠ t → thread_at k' u = thread_at k u).
Proof.
  intros Hq Hinit Hnw. destruct (remove_ok Q k t Hq Hinit Hnw) as (g & Hrun & Hq2). cbn zeta in Hrun, Hq2.
  set (k2 := k <| rt_thread_priority_table := _ |> <| rt_thread_ready_priority_group := g |>) in *.
  exists (touch t (to_stat RT_THREAD_RUNNING) k2). split.
  { unfold mbind, prog_bind. rewrite Hrun. done. }
  split.
  { apply touch_queues; [done| |done]. left. split; [|done].
    intros p. rewrite dequeue_elem. by intros []. }
  do 4 (split; [done|]). split; [rewrite touch_same; by apply to_stat_ok|]. split.
  - intros u. destruct (decide (u = t)) as [-> |Hu]; [by rewrite touch_same|by rewrite touch_other].
  - intros u Hu. by rewrite touch_other.
Qed.

(** Putting the current thread back before another one is made current. *)
Lemma put_back_ok Q k t : queues Q k → stat (thread_at k (rt_current_thread k)) ≠ RT_THREAD_INIT →
  ¬ waits k (rt_current_thread k) → (∀ p, rt_current_thread k ∉ Q p) → t ≠ rt_current_thread k →
  let c := rt_current_thread k in
  let pc := Z.to_nat (current_priority (thread_at k c)) in
  ∃ k', (modify (λ k, k <| rt_current_thread := t |>);; rt_schedule_insert_thread c) k = Ok (tt, k') ∧
    queues (<[pc := Q pc ++ [c]]> Q) k' ∧ rt_current_thread k' = t ∧ k_timers k' = k_timers k ∧
    rt_scheduler_lock_nest k' = rt_scheduler_lock_nest k ∧ semaphores k' = semaphores k ∧
    (∀ u, current_priority (thread_at k' u) = current_priority (thread_at k u)) ∧
    (∀ u, u ≠ c → thread_at k' u = thread_at k u).
Proof.
  intros Hq Hinit Hnw Hc Ht c pc. set (k1 := k <| rt_current_thread := t |>).
  assert (queues Q k1) as Hq1 by (by destruct Hq).
  destruct (insert_ok Q k1 c Hq1 Hinit Hnw ltac:(exact (not_eq_sym Ht)) Hc) as (g & Hrun & Hq2). cbn zeta in Hrun, Hq2.
  eexists. split; [exact Hrun|]. split; [exact Hq2|]. do 4 (split; [done|]). split.
  - intros u. see. destruct (decide (u = c)) as [-> |Hu]; [by rewrite fn_lookup_insert|by rewrite fn_lookup_insert_ne].
  - intros u Hu. see. by rewrite fn_lookup_insert_ne.
Qed.

Lemma chosen Q k Q' k' t :
  rt_current_thread k' = t → stat (thread_at k' t) = RT_THREAD_RUNNING → k_timers k' = k_timers k →
  semaphores k' = semaphores k →
  rt_scheduler_lock_nest k' = rt_scheduler_lock_nest k →
  (∀ u, current_priority (thread_at k' u) = current_priority (thread_at k u)) →
  (∀ u, (u = t ∨ ∃ i, u ∈ Q' i) ↔ awake Q k u) →
  (∀ u, awake Q k u → current_priority (thread_at k t) ≤ current_priority (thread_at k u)) →
  (∀ u, ¬ awake Q k u → stat (thread_at k' u) = stat (thread_at k u)) →
  highest_runs Q' k' ∧ (∀ u, awake Q' k' u ↔ awake Q k u) ∧ scheduling Q k k'.
Proof.
  intros Hcur Hst Htm Hsem Hlk Hpr Haw Hhigh Hasleep.
  assert (∀ u, awake Q' k' u ↔ awake Q k u) as Ha.
  { intros u. rewrite <- Haw. unfold awake. rewrite Hcur. split; intros [Hu|Hu]; [left; apply Hu|by right| |by right].
    left. by rewrite Hu. }
  split; [|split; [done|by split]]. split; rewrite Hcur; [done|].
  intros u Hu. rewrite !Hpr. by apply Hhigh, Ha.
Qed.

(** The three ways through [rt_schedule], with [t] at the head of the first queue. *)
Section cases.
Context (Q : nat → list nat) (k : kernel) (Hq : queues Q k) (Hc : ∀ i, rt_current_thread k ∉ Q i).
Context (p t : nat) (Ht : t ∈ Q p) (Hmin : ∀ i u, u ∈ Q i → (p ≤ i)%nat).
Abbreviation c := (rt_current_thread k).

Lemma prio_min u i : u ∈ Q i → Z.of_nat p ≤ current_priority (thread_at k u).
Proof using Hq Hmin. intros Hu. destruct (q_elem Q k Hq i u Hu) as [-> _]. apply inj_le, (Hmin i u Hu). Qed.

Lemma stays_ok : stat (thread_at k c) = RT_THREAD_RUNNING → current_priority (thread_at k c) ≤ Z.of_nat p →
  ∃ Q' k', (set_thread c clear_yield;; rt_schedule_remove_thread c;; set_stat c RT_THREAD_RUNNING) k = Ok (tt, k') ∧
    queues Q' k' ∧ (∀ i, rt_current_thread k' ∉ Q' i) ∧
    highest_runs Q' k' ∧ (∀ u, awake Q' k' u ↔ awake Q k u) ∧ scheduling Q k k'.
Proof using Hq Hc Hmin.
  intros Hrun Hp. assert (queues Q (touch c clear_yield k)) as Hq1.
  { apply touch_queues; [done| |done]. right. apply clear_yield_stat. }
  destruct (take_ok Q (touch c clear_yield k) c Hq1
    ltac:(rewrite touch_same, clear_yield_stat; by rewrite Hrun)
    ltac:(apply (not_waiting Q k c Hq); by rewrite Hrun)) as (k' & Hk & Hq' & Hcur & Htm & Hlk & Hsem & Hst & Hpr & Hoth).
  exists (λ i, dequeue c (Q i)), k'. split; [exact Hk|]. split; [done|]. split.
  { intros i. rewrite Hcur, dequeue_elem. by intros []. }
  assert (∀ u, current_priority (thread_at k' u) = current_priority (thread_at k u)) as Hpr'.
  { intros u. rewrite Hpr. destruct (decide (u = c)) as [-> |Hu]; [by rewrite touch_same|by rewrite touch_other]. }
  apply (chosen Q k _ k' c); try done.
  - intros u. unfold awake. split.
    + intros [-> |[i [_ Hi]%dequeue_elem]]; [by left|right; by exists i].
    + intros [[-> _]|[i Hi]]; [by left|]. right. exists i. apply dequeue_elem. split; [|done].
      intros ->. by apply (Hc i).
  - intros u [[-> _]|[i Hi]]; [done|]. pose proof (prio_min u i Hi). lia.
  - intros u Hu. assert (u ≠ c) by (intros ->; apply Hu; by left). by rewrite Hoth, touch_other.
Qed.

Lemma preempts_ok : stat (thread_at k c) = RT_THREAD_RUNNING → Z.of_nat p ≤ current_priority (thread_at k c) →
  ∃ Q' k', (set_thread c clear_yield;;
      modify (λ k, k <| rt_current_priority := u8 (Z.of_nat p) |> <| rt_current_thread := t |>);;
      rt_schedule_insert_thread c;; rt_schedule_remove_thread t;; set_stat t RT_THREAD_RUNNING) k = Ok (tt, k') ∧
    queues Q' k' ∧ (∀ i, rt_current_thread k' ∉ Q' i) ∧
    highest_runs Q' k' ∧ (∀ u, awake Q' k' u ↔ awake Q k u) ∧ scheduling Q k k'.
Proof using Hq Hc Ht Hmin.
  intros Hrun Hp. set (k1 := touch c clear_yield k <| rt_current_priority := u8 (Z.of_nat p) |>).
  assert (queues Q k1) as Hq1.
  { assert (queues Q (touch c clear_yield k)) as [] by (apply touch_queues; [done| |done]; right; apply clear_yield_stat). done. }
  assert (t ≠ c) as Htc by (intros ->; by apply (Hc p)).
  destruct (put_back_ok Q k1 t Hq1
    ltac:(change (stat (thread_at (touch c clear_yield k) c) ≠ RT_THREAD_INIT); rewrite touch_same, clear_yield_stat; by rewrite Hrun)
    ltac:(apply (not_waiting Q k c Hq); by rewrite Hrun) Hc Htc) as (k2 & Hput & Hq2 & Hcur2 & Htm2 & Hlk2 & Hsem2 & Hpr2 & Hoth2).
  set (pc := Z.to_nat (current_priority (thread_at k1 c))) in *. set (Q2 := <[pc := Q pc ++ [c]]> Q) in *.
  assert (stat (thread_at k2 t) ≠ RT_THREAD_INIT) as Hready.
  { rewrite Hoth2 by done. change (thread_at k1 t) with (thread_at (touch c clear_yield k) t).
    rewrite touch_other by done. destruct (q_elem Q k Hq p t Ht) as [_ ->]. done. }
  assert (¬ waits k2 t) as Hnw.
  { unfold waits. rewrite Hsem2. apply (not_waiting Q k t Hq). destruct (q_elem Q k Hq p t Ht) as [_ ->]. done. }
  destruct (take_ok Q2 k2 t Hq2 Hready Hnw) as (k' & Hk & Hq' & Hcur & Htm & Hlk & Hsem & Hst & Hpr & Hoth).
  exists (λ i, dequeue t (Q2 i)), k'. split.
  { unfold mbind, prog_bind in *. rewrite <- Hk. change (set_thread c clear_yield k) with (@Ok (unit * kernel) (tt, touch c clear_yield k)).
    cbv beta iota. change (modify _ (touch c clear_yield k)) with (modify (λ k, k <| rt_current_thread := t |>) k1).
    destruct (modify (λ k, k <| rt_current_thread := t |>) k1) as [[[] x]|]; [|done]. change (rt_current_thread k1) with c in Hput.
    by rewrite Hput. }
  split; [done|]. split; [intros i; rewrite Hcur, Hcur2, dequeue_elem; by intros []|].
  assert (∀ u, current_priority (thread_at k' u) = current_priority (thread_at k u)) as Hpr'.
  { intros u. rewrite Hpr, Hpr2. unfold k1. change (thread_at (touch c clear_yield k <| rt_current_priority := _ |>)) with (thread_at (touch c clear_yield k)).
    destruct (decide (u = c)) as [-> |Hu]; [by rewrite touch_same|by rewrite touch_other]. }
  assert (∀ u i, u ∈ Q2 i ↔ u ∈ Q i ∨ u = c ∧ i = pc) as HQ2.
  { intros u i. unfold Q2. destruct (decide (i = pc)) as [-> |Hi].
    - rewrite fn_lookup_insert, elem_of_app, list_elem_of_singleton. tauto.
    - rewrite fn_lookup_insert_ne by done. tauto. }
  apply (chosen Q k _ k' t); try done.
  - by rewrite Hcur.
  - by rewrite Htm, Htm2.
  - by rewrite Hsem, Hsem2.
  - by rewrite Hlk, Hlk2.
  - intros u. unfold awake. split.
    + intros [-> |[i [_ [Hi|[-> _]]%HQ2]%dequeue_elem]]; [right; by exists p|right; by exists i|by left].
    + intros [[-> _]|[i Hi]]; [right; exists pc; apply dequeue_elem; split; [done|apply HQ2; by right]|].
      destruct (decide (u = t)) as [-> |Hu]; [by left|]. right. exists i. apply dequeue_elem. split; [done|]. apply HQ2. by left.
  - intros u Hu. destruct (q_elem Q k Hq p t Ht) as [-> _]. destruct Hu as [[-> _]|[i Hi]]; [done|by eapply prio_min].
  - intros u Hu. assert (u ≠ c ∧ u ≠ t) as [Huc Hut].
    { split; intros ->; apply Hu; [by left|right; by exists p]. }
    rewrite Hoth, Hoth2 by done. unfold k1. change (thread_at (touch c clear_yield k <| rt_current_priority := _ |>)) with (thread_at (touch c clear_yield k)).
    by rewrite touch_other.
Qed.

Lemma replaces_ok : stat (thread_at k c) ≠ RT_THREAD_RUNNING →
  ∃ Q' k', (modify (λ k, k <| rt_current_priority := u8 (Z.of_nat p) |> <| rt_current_thread := t |>);;
      rt_schedule_remove_thread t;; set_stat t RT_THREAD_RUNNING) k = Ok (tt, k') ∧
    queues Q' k' ∧ (∀ i, rt_current_thread k' ∉ Q' i) ∧
    highest_runs Q' k' ∧ (∀ u, awake Q' k' u ↔ awake Q k u) ∧ scheduling Q k k'.
Proof using Hq Hc Ht Hmin.
  intros Hrun. set (k1 := k <| rt_current_priority := u8 (Z.of_nat p) |> <| rt_current_thread := t |>).
  assert (queues Q k1) as Hq1 by (by destruct Hq).
  assert (stat (thread_at k1 t) ≠ RT_THREAD_INIT) as Hready.
  { change (stat (thread_at k t) ≠ RT_THREAD_INIT). destruct (q_elem Q k Hq p t Ht) as [_ ->]. done. }
  assert (¬ waits k1 t) as Hnw.
  { apply (not_waiting Q k t Hq). destruct (q_elem Q k Hq p t Ht) as [_ ->]. done. }
  destruct (take_ok Q k1 t Hq1 Hready Hnw) as (k' & Hk & Hq' & Hcur & Htm & Hlk & Hsem & Hst & Hpr & Hoth).
  exists (λ i, dequeue t (Q i)), k'. split; [exact Hk|]. split; [done|].
  split; [intros i; rewrite Hcur, dequeue_elem; by intros []|].
  apply (chosen Q k _ k' t); try done.
  - intros u. unfold awake. split.
    + intros [-> |[i [_ Hi]%dequeue_elem]]; [right; by exists p|right; by exists i].
    + intros [[-> ?]|[i Hi]]; [done|]. destruct (decide (u = t)) as [-> |Hu]; [by left|].
      right. exists i. by apply dequeue_elem.
  - intros u [[-> ?]|[i Hi]]; [done|]. destruct (q_elem Q k Hq p t Ht) as [-> _]. by eapply prio_min.
  - intros u Hu. rewrite Hoth; [done|]. intros ->. apply Hu. right. by exists p.
Qed.
End cases.

(** One call of the scheduler, with the current thread in no queue. *)
Lemma rt_schedule_ok Q k : queues Q k → (∀ i, rt_current_thread k ∉ Q i) → rt_scheduler_lock_nest k = 0 →
  (∃ u, awake Q k u) →
  ∃ Q' k', rt_schedule k = Ok (tt, k') ∧ queues Q' k' ∧ (∀ i, rt_current_thread k' ∉ Q' i) ∧
    highest_runs Q' k' ∧ (∀ u, awake Q' k' u ↔ awake Q k u) ∧ scheduling Q k k'.
Proof.
  intros Hq Hc Hlock [w Hw]. set (c := rt_current_thread k) in *.
  destruct (decide (rt_thread_ready_priority_group k = 0)) as [Hg|Hg].
  { assert (∀ i, Q i = []) as Hnil.
    { intros i. destruct (decide (i < 32)%nat) as [Hi|Hi]; [by apply (no_group Q k)|].
      destruct (Q i) as [|u q] eqn:E; [done|]. destruct Hi. apply (in_queue Q k i u Hq). rewrite E. apply list_elem_of_here. }
    destruct Hw as [[-> Hrun]|[i Hi]]; [|rewrite Hnil in Hi; by apply elem_of_nil in Hi].
    exists Q, k. split; [|split; [done|split; [done|]]].
    { unfold rt_schedule. apply wp_run_eq. rewrite wp_bind, wp_gets. unfold id. rewrite decide_False by (by intros []). by rewrite wp_ret. }
    apply (chosen Q k Q k c); try done.
    - intros u. unfold awake. fold c. split; [intros [-> |?]; [by left|by right]|intros [[-> _]|?]; [by left|by right]].
    - intros u [[-> _]|[i Hi]]; [done|]. rewrite Hnil in Hi. by apply elem_of_nil in Hi. }
  destruct (highest_ok Q k Hq Hg) as (p & t & q & HQ & Hp32 & Hlow & Hget).
  assert (∀ i u, u ∈ Q i → (p ≤ i)%nat) as Hmin.
  { intros i u Hu. destruct (decide (i < p)%nat) as [Hi|]; [|lia]. rewrite (Hlow i Hi) in Hu. by apply elem_of_nil in Hu. }
  assert (t ∈ Q p) as Ht by (rewrite HQ; apply list_elem_of_here).
  assert (t ≠ c) as Htc by (intros ->; by apply (Hc p)).
  destruct (q_elem Q k Hq p t Ht) as [Htp _].
  set (r := thread_at k c) in *.
  set (stays := bool_decide (stat r = RT_THREAD_RUNNING) &&
    (bool_decide (current_priority r < Z.of_nat p) ||
     bool_decide (current_priority r = Z.of_nat p ∧ Z.land (th_stat r) RT_THREAD_STAT_YIELD = 0))).
  assert (rt_schedule k = (
    when (bool_decide (stat r = RT_THREAD_RUNNING)) (set_thread c clear_yield);;
    if stays then rt_schedule_remove_thread c;; set_stat c RT_THREAD_RUNNING
    else modify (λ k, k <| rt_current_priority := u8 (Z.of_nat p) |> <| rt_current_thread := t |>);;
      when (bool_decide (stat r = RT_THREAD_RUNNING)) (rt_schedule_insert_thread c);;
      rt_schedule_remove_thread t;; set_stat t RT_THREAD_RUNNING) k) as Hbody.
  { unfold rt_schedule, mbind, prog_bind, gets, id. rewrite decide_True by done. rewrite Hget. fold c r.
    cbv beta iota zeta. fold stays. destruct stays.
    - rewrite decide_False by (intros Hx; by apply Hx). done.
    - rewrite decide_True by done. done. }
  rewrite Hbody. unfold stays. clear Hbody stays.
  destruct (decide (stat r = RT_THREAD_RUNNING)) as [Hrun|Hrun].
  - rewrite bool_decide_true by done. cbn [andb when].
    destruct (bool_decide (current_priority r < Z.of_nat p) || _) eqn:Es.
    + apply (stays_ok Q k Hq Hc p Hmin Hrun). fold c r.
      apply orb_true_iff in Es as [Es|Es]; apply bool_decide_eq_true in Es; lia.
    + apply (preempts_ok Q k Hq Hc p t Ht Hmin Hrun). fold c r.
      apply orb_false_iff in Es as [Es _]. apply bool_decide_eq_false in Es. lia.
  - rewrite bool_decide_false by done. cbn [andb when]. apply (replaces_ok Q k Hq Hc p t Ht Hmin Hrun).
Qed.

(** The first thread that runs. *)
Lemma scheduler_start_ok Q k : queues Q k → (∃ p t, t ∈ Q p) →
  stat (thread_at k (rt_current_thread k)) ≠ RT_THREAD_RUNNING →
  ∃ Q' k', rt_system_scheduler_start k = Ok (tt, k') ∧ queues Q' k' ∧ (∀ i, rt_current_thread k' ∉ Q' i) ∧
    highest_runs Q' k' ∧ (∀ u, awake Q' k' u ↔ awake Q k u) ∧ scheduling Q k k'.
Proof.
  intros Hq (i & w & Hw) Hcur.
  assert (rt_thread_ready_priority_group k ≠ 0) as Hg.
  { intros Hg. rewrite (no_group Q k i Hq) in Hw; [by apply elem_of_nil in Hw|by eapply in_queue|done]. }
  destruct (highest_ok Q k Hq Hg) as (p & t & q & HQ & Hp32 & Hlow & Hget).
  assert (t ∈ Q p) as Ht by (rewrite HQ; apply list_elem_of_here).
  destruct (q_elem Q k Hq p t Ht) as [Hprio Hready].
  set (k1 := k <| rt_current_thread := t |>). assert (queues Q k1) as Hq1 by (by destruct Hq).
  destruct (remove_ok Q k1 t Hq1 ltac:(change (stat (thread_at k t) ≠ RT_THREAD_INIT); by rewrite Hready)
    ltac:(apply (not_waiting Q k t Hq); by rewrite Hready)) as (g & Hrem & Hq2).
  cbn zeta in Hrem, Hq2.
  set (k2 := k1 <| rt_thread_priority_table := _ |> <| rt_thread_ready_priority_group := g |>) in *.
  exists (λ p, dequeue t (Q p)), (touch t (λ r, r <| th_stat := RT_THREAD_RUNNING |>) k2). split.
  { unfold rt_system_scheduler_start, mbind, prog_bind. rewrite Hget.
    change (modify (λ k, k <| rt_current_thread := t |>) k) with (@Ok (unit * kernel) (tt, k1)). cbv beta iota.
    by rewrite Hrem. }
  split.
  { apply touch_queues; [done| |done]. left. split; [intros i'; rewrite dequeue_elem; by intros []|].
    split; [apply (not_waiting Q k t Hq); by rewrite Hready|].
    change (stat (thread_at k t) ≠ RT_THREAD_INIT). by rewrite Hready. }
  split; [intros i'; rewrite dequeue_elem; by intros []|].
  apply (chosen Q k _ _ t); try done.
  - by rewrite touch_same.
  - intros u. destruct (decide (u = t)) as [-> |Hu]; [by rewrite touch_same|by rewrite touch_other].
  - intros u. unfold awake. split.
    + intros [-> |[j [_ Hj]%dequeue_elem]]; [right; by exists p|right; by exists j].
    + intros [[-> ?]|[j Hj]]; [done|]. destruct (decide (u = t)) as [-> |Hu]; [by left|].
      right. exists j. by apply dequeue_elem.
  - intros u [[-> ?]|[j Hj]]; [done|]. rewrite Hprio. destruct (q_elem Q k Hq j u Hj) as [-> _].
    destruct (decide (j < p)%nat) as [Hjp|]; [|lia]. rewrite (Hlow j Hjp) in Hj. by apply elem_of_nil in Hj.
  - intros u Hu. rewrite touch_other; [done|]. intros ->. apply Hu. right. by exists p.
Qed.
