(* ===== verification/Delay.v ===== *)
(** Tasks that sleep: the kernel of the files Timer, Kernel and Scheduler refines a set of
    tasks that can run and a list of deadlines; a task that sleeps wakes at its tick, whatever
    happens meanwhile and however often the tick counter wraps around. *)
From Stdlib Require Import Sorted.
From stdpp Require Import functions gmap sets.
From S2P Require Import Prelude Timer Kernel Scheduler.

(** ** The processor *)

Lemma union_swap (A B C : gset nat) : A ∪ B ∪ C = B ∪ (A ∪ C).
Proof. by rewrite (union_comm_L A B), union_assoc_L. Qed.

(** The threads of [A] can run, and no others. *)
Definition cpu (A : gset nat) (k : kernel) : Prop :=
  ∃ Q, queues Q k ∧ (∀ i, rt_current_thread k ∉ Q i) ∧ rt_scheduler_lock_nest k = 0 ∧
    ∀ t, t ∈ A ↔ awake Q k t.

(** If the current thread can run, it is one of the highest priority. *)
Definition first (A : gset nat) (k : kernel) : Prop :=
  rt_current_thread k ∈ A →
  ∀ t, t ∈ A → current_priority (thread_at k (rt_current_thread k)) ≤ current_priority (thread_at k t).

(** What an operation on the queues leaves alone; [B] are the threads it is about. *)
Record apart (B : gset nat) (k k' : kernel) : Prop := {
  ap_timers : k_timers k' = k_timers k;
  ap_semaphores : semaphores k' = semaphores k;
  ap_prio t : current_priority (thread_at k' t) = current_priority (thread_at k t);
  ap_stat t : t ∉ B → stat (thread_at k' t) = stat (thread_at k t);
}.

Lemma apart_trans B B' k k' k'' : apart B k k' → apart B' k' k'' → apart (B ∪ B') k k''.
Proof.
  intros [Ht Hm Hp Hs] [Ht' Hm' Hp' Hs']. split; [by rewrite Ht'|by rewrite Hm'|intros t; by rewrite Hp'|].
  intros t Ht''. rewrite Hs', Hs; set_solver.
Qed.

Lemma cpu_stat A k t : cpu A k → t ∈ A →
  stat (thread_at k t) = RT_THREAD_RUNNING ∧ t = rt_current_thread k ∨ stat (thread_at k t) = RT_THREAD_READY.
Proof.
  intros (Q & Hq & _ & _ & HA) [[-> Hr]|[p Hp]]%HA; [by left|right]. by apply (q_elem Q k Hq p t).
Qed.

Lemma cpu_asleep A k t : cpu A k →
  stat (thread_at k t) = RT_THREAD_SUSPEND ∨ stat (thread_at k t) = RT_THREAD_INIT → t ∉ A.
Proof. intros Hc Hs Ht. destruct (cpu_stat A k t Hc Ht) as [[E _]|E]; rewrite E in Hs; by destruct Hs. Qed.

Lemma cpu_current A k : cpu A k → rt_current_thread k ∈ A ↔ stat (thread_at k (rt_current_thread k)) = RT_THREAD_RUNNING.
Proof.
  intros (Q & Hq & Hc & _ & HA). rewrite HA. split; [intros [[_ H]|[i Hi]]; [done|by destruct (Hc i)]|by left].
Qed.

(** The state with a thread's data changed, its status and its priority kept. *)
Lemma cpu_touch A k t f : cpu A k →
  (∀ r, current_priority (f r) = current_priority r ∧ number_mask (f r) = number_mask r ∧ stat (f r) = stat r) →
  cpu A (touch t f k) ∧ apart ∅ k (touch t f k).
Proof.
  intros (Q & Hq & Hc & Hl & HA) Hf.
  assert (∀ u, stat (thread_at (touch t f k) u) = stat (thread_at k u)) as Hst.
  { intros u. destruct (decide (u = t)) as [-> |Hu]; [rewrite touch_same; apply Hf|by rewrite touch_other]. }
  split.
  - exists Q. split; [apply touch_queues; [|right|done]; intros r; by destruct (Hf r) as (? & ? & ?)|].
    do 2 (split; [done|]). intros u. rewrite HA. unfold awake. change (rt_current_thread (touch t f k)) with (rt_current_thread k).
    by rewrite Hst.
  - split; [done|done| |done]. intros u. destruct (decide (u = t)) as [-> |Hu]; [rewrite touch_same; apply Hf|by rewrite touch_other].
Qed.

Lemma cpu_timers A k tm : cpu A k → cpu A (k <| k_timers := tm |>).
Proof. intros (Q & [] & Hc & Hl & HA). by exists Q. Qed.

Lemma wp_schedule A k : cpu A k → A ≠ ∅ →
  wp rt_schedule (λ _ k', cpu A k' ∧ rt_current_thread k' ∈ A ∧ first A k' ∧ apart A k k') k.
Proof.
  intros (Q & Hq & Hc & Hl & HA) [w Hw]%set_choose_L.
  destruct (rt_schedule_ok Q k Hq Hc Hl) as (Q' & k' & Hrun & Hq' & Hc' & Hhigh & Haw & Hsch);
    [exists w; by apply HA|].
  apply (wp_run _ _ _ tt k' Hrun).
  assert (∀ t, t ∈ A ↔ awake Q' k' t) as HA' by (intros t; by rewrite HA, Haw).
  split; [exists Q'; split; [done|]; split; [done|]; split; [by rewrite (sch_lock _ _ _ Hsch)|done]|].
  destruct Hhigh as [Hst Hhigh]. split; [apply HA'; by left|]. split; [intros _ t Ht; by apply Hhigh, HA'|].
  split; [apply Hsch|apply Hsch|apply Hsch|]. intros t Ht. apply (sch_asleep _ _ _ Hsch). by rewrite <- HA.
Qed.

(** A thread is put in its queue; the current thread only gets its status back. *)
Lemma wp_insert A k t : cpu A k → stat (thread_at k t) = RT_THREAD_SUSPEND → ¬ waits k t →
  wp (rt_schedule_insert_thread t) (λ _ k', cpu ({[t]} ∪ A) k' ∧ apart {[t]} k k' ∧ rt_current_thread k' = rt_current_thread k) k.
Proof.
  intros Hcpu Hst Hnw. pose proof (cpu_asleep A k t Hcpu (or_introl Hst)) as HtA.
  destruct Hcpu as (Q & Hq & Hc & Hl & HA).
  assert (∀ p, t ∉ Q p) as HtQ by (intros p Hp; apply HtA, HA; right; by exists p).
  assert (stat (thread_at k t) ≠ RT_THREAD_INIT) as Hinit by (by rewrite Hst).
  assert (∀ u s, u ∉ ({[t]} : gset nat) → stat (thread_at (touch t (to_stat s) k) u) = stat (thread_at k u)) as Hoth.
  { intros u s Hu. rewrite touch_other; [done|set_solver]. }
  assert (∀ u s, current_priority (thread_at (touch t (to_stat s) k) u) = current_priority (thread_at k u)) as Hprio.
  { intros u s. destruct (decide (u = t)) as [-> |Hu]; [by rewrite touch_same|by rewrite touch_other]. }
  destruct (decide (t = rt_current_thread k)) as [Ht|Ht].
  - apply (wp_run _ _ _ tt (touch t (to_stat RT_THREAD_RUNNING) k)).
    { unfold rt_schedule_insert_thread, mbind, prog_bind, gets, id. by rewrite decide_True by done. }
    split; [|split; [split; [done|done|intros u; apply Hprio|intros u; apply Hoth]|done]].
    exists Q. split; [apply touch_queues; [done|by left|done]|]. do 2 (split; [done|]).
    intros u. rewrite elem_of_union, elem_of_singleton, HA. unfold awake.
    change (rt_current_thread (touch _ _ k)) with (rt_current_thread k). destruct (decide (u = t)) as [-> |Hu].
    + rewrite touch_same. split; [left; split; [done|by apply to_stat_ok]|by left].
    + rewrite touch_other by done. tauto.
  - destruct (insert_ok Q k t Hq Hinit Hnw Ht HtQ) as (g & Hrun & Hq'). cbn zeta in Hrun, Hq'.
    set (p := Z.to_nat (current_priority (thread_at k t))) in *. apply (wp_run _ _ _ tt _ Hrun).
    split; [|split; [split; [done|done|intros u; apply Hprio|intros u; apply Hoth]|done]].
    assert (∀ u i, u ∈ <[p:=Q p ++ [t]]> Q i ↔ u ∈ Q i ∨ u = t ∧ i = p) as HQ.
    { intros u i. destruct (decide (i = p)) as [-> |Hi].
      - rewrite fn_lookup_insert, elem_of_app, list_elem_of_singleton. tauto.
      - rewrite fn_lookup_insert_ne by done. tauto. }
    eexists. split; [exact Hq'|]. split; [|split; [done|]].
    + intros i. rewrite HQ. intros [Hi|[Hx _]]; [by apply (Hc i)|]. by apply Ht.
    + intros u. rewrite elem_of_union, elem_of_singleton, HA. unfold awake. change (rt_current_thread (_ <| _ := _ |>)) with (rt_current_thread k).
      setoid_rewrite HQ. destruct (decide (u = t)) as [-> |Hu].
      * split; [right; exists p; by right|by left].
      * change (thread_at (_ <| _ := _ |>) u) with (thread_at (touch t (to_stat RT_THREAD_READY) k) u).
        rewrite touch_other by done. split; [intros [-> |[?|[i ?]]]|intros [?|(i & [?|[-> _]])]]; eauto.
Qed.

(** A thread in no ready queue leaves the lists of the semaphores. *)
Lemma unlinked_asleep A k t : cpu A k → t ∉ A ∨ t = rt_current_thread k →
  unlinked t k = k <| semaphores := unqueue t <$> semaphores k |>.
Proof.
  intros (Q & Hq & Hc & _ & HA) Ht.
  assert (∀ p, t ∉ Q p) as HtQ by (intros p Hp; destruct Ht as [Ht| ->]; [apply Ht, HA; right; by exists p|by apply (Hc p)]).
  assert (dequeue t <$> rt_thread_priority_table k = rt_thread_priority_table k) as E.
  { rewrite (q_table _ _ Hq), dequeue_table. apply list_fmap_ext. intros _ p _. by apply dequeue_not_in. }
  unfold unlinked, upd. cbn. by rewrite E.
Qed.

Lemma waits_unqueue k t u : waits (k <| semaphores := unqueue t <$> semaphores k |>) u ↔ u ≠ t ∧ waits k u.
Proof.
  unfold waits. change (semaphores (k <| semaphores := ?x |>)) with x. split.
  - intros (s & (s' & -> & Hs)%list_elem_of_fmap & Hu). change (u ∈ dequeue t (suspend_thread s')) in Hu.
    apply dequeue_elem in Hu as [Hu Hus]. split; [done|by exists s'].
  - intros [Hu (s & Hs & Hus)]. exists (unqueue t s). split; [apply list_elem_of_fmap; by exists s|].
    change (u ∈ dequeue t (suspend_thread s)). by apply dequeue_elem.
Qed.

Lemma cpu_semaphores A k sems : cpu A k →
  (∀ t, waits (k <| semaphores := sems |>) t → stat (thread_at k t) = RT_THREAD_SUSPEND) →
  cpu A (k <| semaphores := sems |>).
Proof. intros (Q & [] & Hc & Hl & HA) Hw. by exists Q. Qed.

Lemma cpu_unqueue A k t : cpu A k → cpu A (k <| semaphores := unqueue t <$> semaphores k |>).
Proof.
  intros Hcpu. apply cpu_semaphores; [done|]. intros u [_ Hu]%waits_unqueue.
  destruct Hcpu as (Q & Hq & _). by apply (q_waits Q k Hq).
Qed.

Lemma ready_not_waiting A k t : cpu A k → t ∈ A → ¬ waits k t.
Proof.
  intros Hcpu Ht. destruct (cpu_stat A k t Hcpu Ht) as [[Hst _]|Hst]; destruct Hcpu as (Q & Hq & _);
    apply (not_waiting Q k t Hq); by rewrite Hst.
Qed.

(** The current thread leaves the threads that can run. *)
Lemma wp_leave A k (c := rt_current_thread k) : cpu A k → c ∈ A →
  wp (rt_schedule_remove_thread c;; set_stat c RT_THREAD_SUSPEND)
    (λ _ k', cpu (A ∖ {[c]}) k' ∧ apart {[c]} k k' ∧ rt_current_thread k' = c ∧
      stat (thread_at k' c) = RT_THREAD_SUSPEND) k.
Proof.
  intros Hcpu Hc. pose proof (proj1 (cpu_current A k Hcpu) Hc) as Hrun.
  pose proof (ready_not_waiting A k c Hcpu Hc) as Hnw.
  destruct Hcpu as (Q & Hq & HcQ & Hl & HA). fold c in HcQ, Hrun.
  destruct (remove_ok Q k c Hq ltac:(by rewrite Hrun) Hnw) as (g & Hrem & Hq'). cbn zeta in Hrem, Hq'.
  set (k1 := k <| rt_thread_priority_table := _ |> <| rt_thread_ready_priority_group := g |>) in *.
  rewrite wp_bind. apply (wp_run _ _ _ tt k1 Hrem). unfold set_stat, set_thread. rewrite wp_modify.
  match goal with |- cpu _ ?x ∧ _ => change x with (touch c (to_stat RT_THREAD_SUSPEND) k1) end.
  assert (stat (thread_at (touch c (to_stat RT_THREAD_SUSPEND) k1) c) = RT_THREAD_SUSPEND) as Hsus
    by (rewrite touch_same; by apply to_stat_ok).
  assert (∀ i u, u ∈ dequeue c (Q i) ↔ u ∈ Q i) as HQ.
  { intros i u. rewrite dequeue_elem. split; [by intros []|]. intros Hu. split; [|done]. intros ->. by apply (HcQ i). }
  split; [|split; [split; [done|done| |]|done]].
  - exists (λ i, dequeue c (Q i)). split.
    { apply touch_queues; [done| |done]. left. split; [intros p; by rewrite dequeue_elem; intros []|].
      split; [exact Hnw|].
      change (thread_at k1 c) with (thread_at k c). by rewrite Hrun. }
    split; [intros i; rewrite HQ; apply HcQ|]. split; [done|].
    intros u. rewrite elem_of_difference, elem_of_singleton, HA. unfold awake. setoid_rewrite HQ.
    change (rt_current_thread (touch _ _ _)) with c. fold c. split.
    + intros [[[-> _]|Hu] Hne]; [done|by right].
    + intros [[-> Hx]|[i Hi]]; [by rewrite Hsus in Hx|]. split; [right; by exists i|]. intros ->. by apply (HcQ i).
  - intros u. destruct (decide (u = c)) as [-> |Hu]; [by rewrite touch_same|by rewrite touch_other].
  - intros u Hu%not_elem_of_singleton. by rewrite touch_other.
Qed.

(** ** Tasks and deadlines *)

(** What the kernel keeps, without queues, bit maps, status words or a counter that wraps:
    the time, when each task that sleeps is to wake, the tasks that can run, and for each
    semaphore its count and who waits for it. *)
Record tasking := mk_tasking { now : Z; sleeping : deadlines; ready : gset nat; sems : list semaphore }.

Record implements (s : tasking) (k : kernel) : Prop := {
  im_cpu : cpu (ready s) k;
  im_first : first (ready s) k;
  im_timers : timers_rep (now s) (sleeping s) (k_timers k);
  im_sems : semaphores k = sems s;
  im_asleep t D : (t, D) ∈ sleeping s → ∃ u, t = thread_timer u ∧ stat (thread_at k u) = RT_THREAD_SUSPEND;
}.

Lemma sleeping_not_ready s k u : implements s k → u ∈ ready s → thread_timer u ∉ (sleeping s).*1.
Proof.
  intros Him Hu Hs. apply list_elem_of_fmap in Hs as ([t D] & Ht & Hs). cbn in Ht. subst t.
  destruct (im_asleep _ _ Him _ _ Hs) as (v & [= <-] & Hst).
  by apply (cpu_asleep _ _ _ (im_cpu _ _ Him) (or_introl Hst)).
Qed.

Lemma implements_apart s k k' B A : implements s k → cpu A k' → first A k' → apart B k k' →
  (∀ u, u ∈ B → thread_timer u ∉ (sleeping s).*1) → implements (mk_tasking (now s) (sleeping s) A (sems s)) k'.
Proof.
  intros Him HA Hf Hap HB. split; [done|done| | |].
  - cbn. rewrite (ap_timers _ _ _ Hap). apply Him.
  - cbn. rewrite (ap_semaphores _ _ _ Hap). apply Him.
  - intros t D Ht. destruct (im_asleep _ _ Him _ _ Ht) as (u & -> & Hu). exists u. split; [done|].
    rewrite (ap_stat _ _ _ Hap); [done|]. intros HuB. apply (HB u HuB).
    apply list_elem_of_fmap. by exists (thread_timer u, D).
Qed.

Lemma implements_timers s k tm T dl : implements s k → timers_rep T dl tm →
  (∀ t D, (t, D) ∈ dl → ∃ u, t = thread_timer u ∧ stat (thread_at k u) = RT_THREAD_SUSPEND) →
  implements (mk_tasking T dl (ready s) (sems s)) (k <| k_timers := tm |>).
Proof.
  intros [Hc Hf _ Hs _] Htm Hdl. split; [by apply cpu_timers|exact Hf|exact Htm|exact Hs|exact Hdl].
Qed.

(** The same, but that a task may wait that is more urgent than the one that runs: what a
    task leaves that has woken others, until it calls the scheduler. *)
Record unscheduled (s : tasking) (k : kernel) : Prop := {
  un_cpu : cpu (ready s) k;
  un_timers : timers_rep (now s) (sleeping s) (k_timers k);
  un_sems : semaphores k = sems s;
  un_asleep t D : (t, D) ∈ sleeping s → ∃ u, t = thread_timer u ∧ stat (thread_at k u) = RT_THREAD_SUSPEND;
}.

Lemma not_scheduled s k : implements s k → unscheduled s k.
Proof. by intros []. Qed.

Lemma scheduled s k : unscheduled s k → first (ready s) k → implements s k.
Proof. by intros [] Hf. Qed.

Lemma unscheduled_touch s k t f : unscheduled s k →
  (∀ r, current_priority (f r) = current_priority r ∧ number_mask (f r) = number_mask r ∧ stat (f r) = stat r) →
  unscheduled s (touch t f k).
Proof.
  intros [Hcpu Htm Hsem Hsl] Hf. destruct (cpu_touch _ k t f Hcpu Hf) as [Hc Hap].
  split; [done|exact Htm|exact Hsem|]. intros x D Hx. destruct (Hsl x D Hx) as (u & -> & Hu). exists u.
  by rewrite (ap_stat _ _ _ Hap).
Qed.

Lemma implements_touch s k t f : implements s k →
  (∀ r, current_priority (f r) = current_priority r ∧ number_mask (f r) = number_mask r ∧ stat (f r) = stat r) →
  implements s (touch t f k).
Proof.
  intros Him Hf. apply scheduled; [by apply unscheduled_touch; [apply not_scheduled|]|].
  destruct (cpu_touch _ k t f (im_cpu _ _ Him) Hf) as [_ Hap].
  intros Hcur u Hu. rewrite !(ap_prio _ _ _ Hap). by apply (im_first _ _ Him).
Qed.

Lemma wp_schedule_late s k : unscheduled s k → ready s ≠ ∅ →
  wp rt_schedule (λ _ k', implements s k' ∧ rt_current_thread k' ∈ ready s) k.
Proof.
  intros [Hcpu Htm Hsem Hsl] Hne. eapply wp_mono; [exact (wp_schedule _ k Hcpu Hne)|].
  intros _ k' (Hc & Hcur & Hf & Hap). split; [|done]. split; [done|done| | |].
  - by rewrite (ap_timers _ _ _ Hap).
  - by rewrite (ap_semaphores _ _ _ Hap).
  - intros t D Ht. destruct (Hsl t D Ht) as (u & -> & Hu). exists u. split; [done|].
    rewrite (ap_stat _ _ _ Hap); [done|]. by apply (cpu_asleep _ _ _ Hcpu); left.
Qed.

(** A call of the scheduler is not seen, but for the thread that runs. *)
Lemma wp_schedule_implements s k : implements s k → ready s ≠ ∅ →
  wp rt_schedule (λ _ k', implements s k' ∧ rt_current_thread k' ∈ ready s) k.
Proof. intros [] Hne. by apply wp_schedule_late. Qed.

(** ** Waking up *)

(** A task that is woken before its time, or that has waited for a semaphore. *)
Definition resumed (t : nat) (s : tasking) : tasking :=
  mk_tasking (now s) (cancel (thread_timer t) (sleeping s)) ({[t]} ∪ ready s) (unqueue t <$> sems s).

Lemma wp_resume s k t Q : unscheduled s k → stat (thread_at k t) = RT_THREAD_SUSPEND →
  (∀ k', unscheduled (resumed t s) k' → rt_current_thread k' = rt_current_thread k →
    (∀ u, current_priority (thread_at k' u) = current_priority (thread_at k u)) →
    (∀ u, u ≠ t → stat (thread_at k' u) = stat (thread_at k u)) → Q RT_EOK k') →
  wp (rt_thread_resume t) Q k.
Proof.
  intros Him Ht HQ. pose proof (cpu_asleep _ k t (un_cpu _ _ Him) (or_introl Ht)) as HtA.
  unfold rt_thread_resume, unlink. rewrite wp_bind, wp_gets, decide_False by (intros Hx; by apply Hx).
  rewrite wp_bind, wp_modify, (unlinked_asleep (ready s)) by (first [apply Him|by left]).
  set (k1 := k <| semaphores := _ |>).
  destruct (rt_timer_stop_ok _ _ _ (thread_timer t) (un_timers _ _ Him)) as (r & tm & Hrun & Htm & _).
  rewrite wp_bind, wp_zoom. apply (wp_run _ _ _ r tm Hrun).
  assert (cpu (ready s) (k1 <| k_timers := tm |>)) as Hcpu by (apply cpu_timers, cpu_unqueue, Him).
  assert (¬ waits (k1 <| k_timers := tm |>) t) as Hnw.
  { change (¬ waits k1 t). by intros [Hx _]%waits_unqueue. }
  rewrite wp_bind. eapply wp_mono; [exact (wp_insert _ _ t Hcpu Ht Hnw)|]. intros _ k' (Hcpu' & Hap & Hcur).
  rewrite wp_ret. assert (∀ u, u ≠ t → stat (thread_at k' u) = stat (thread_at k u)) as Hst.
  { intros u Hu. rewrite (ap_stat _ _ _ Hap); [done|]. by rewrite elem_of_singleton. }
  apply HQ; [|exact Hcur|intros u; by rewrite (ap_prio _ _ _ Hap)|exact Hst]. split.
  - exact Hcpu'.
  - rewrite (ap_timers _ _ _ Hap). exact Htm.
  - rewrite (ap_semaphores _ _ _ Hap). cbn. by rewrite <- (un_sems _ _ Him).
  - intros x D [Hx Hin]%cancel_elem. destruct (un_asleep _ _ Him x D Hin) as (u & -> & Hu). exists u. split; [done|].
    rewrite Hst; [done|]. intros ->. by apply Hx.
Qed.


Definition task_of (t : timer_id) : list nat := match t with thread_timer u => [u] | own_timer _ => [] end.
Definition due (T : Z) (dl : deadlines) : list nat :=
  filter (λ e, e.2 ≤ T) dl ≫= λ e, task_of e.1.

(** All that are due wake, and no longer wait for a semaphore. *)
Definition wake (s : tasking) : tasking :=
  let ts := due (now s) (sleeping s) in
  mk_tasking (now s) (filter (λ e, now s < e.2) (sleeping s)) (list_to_set ts ∪ ready s)
    (foldl (λ S t, unqueue t <$> S) (sems s) ts).

Definition some_due (s : tasking) : Prop := ∃ t D, (t, D) ∈ sleeping s ∧ D ≤ now s.

Lemma wake_due T u D dl A S : D ≤ T →
  wake (mk_tasking T ((thread_timer u, D) :: dl) A S) = wake (mk_tasking T dl ({[u]} ∪ A) (unqueue u <$> S)).
Proof.
  intros HD. unfold wake, due. cbn [now sleeping ready sems].
  rewrite filter_cons_False by (cbn; lia). rewrite filter_cons_True by done. f_equal.
  apply union_swap.
Qed.

Lemma wake_none T dl A S : Forall (λ e : timer_id * Z, T < e.2) dl → wake (mk_tasking T dl A S) = mk_tasking T dl A S.
Proof.
  intros Hdl. unfold wake, due. cbn [now sleeping ready sems].
  assert (filter (λ e : timer_id * Z, T < e.2) dl = dl ∧ filter (λ e : timer_id * Z, e.2 ≤ T) dl = []) as [-> ->].
  { induction Hdl as [|e dl He _ [IH1 IH2]]; [done|]. rewrite filter_cons_True, filter_cons_False by lia.
    by rewrite IH1, IH2. }
  f_equal. apply union_empty_l_L.
Qed.

Lemma wp_timeout A k u : cpu A k → stat (thread_at k u) = RT_THREAD_SUSPEND →
  wp (rt_thread_timeout u) (λ _ k', cpu ({[u]} ∪ A) k' ∧ first ({[u]} ∪ A) k' ∧
    rt_current_thread k' ∈ {[u]} ∪ A ∧
    apart ({[u]} ∪ A) (k <| semaphores := unqueue u <$> semaphores k |>) k') k.
Proof.
  intros Hcpu Hst. pose proof (cpu_asleep A k u Hcpu (or_introl Hst)) as HuA.
  unfold rt_thread_timeout. rewrite wp_bind, wp_gets, bool_decide_true by done.
  change (rt_assert true) with (mret tt : prog kernel unit). rewrite wp_bind, wp_ret.
  unfold set_thread. rewrite wp_bind, wp_modify.
  match goal with |- wp _ _ ?x => change x with (touch u (λ r, r <| th_error := - RT_ETIMEOUT |>) k) end.
  destruct (cpu_touch A k u (λ r, r <| th_error := - RT_ETIMEOUT |>) Hcpu ltac:(done)) as [Hcpu1 Hap1].
  set (k1 := touch _ _ k) in *. unfold unlink. rewrite wp_bind, wp_modify, (unlinked_asleep A) by auto.
  set (k2 := k1 <| semaphores := unqueue u <$> semaphores k1 |>).
  assert (stat (thread_at k2 u) = RT_THREAD_SUSPEND) as Hst2.
  { change (stat (thread_at k1 u) = RT_THREAD_SUSPEND). by rewrite (ap_stat _ _ _ Hap1). }
  assert (¬ waits k2 u) as Hnw by (intros [Hx _]%waits_unqueue; done).
  assert (apart ∅ (k <| semaphores := unqueue u <$> semaphores k |>) k2) as Hap2.
  { destruct Hap1 as [Ht _ Hp Hs]. by split. }
  rewrite wp_bind. eapply wp_mono; [exact (wp_insert A k2 u (cpu_unqueue A k1 u Hcpu1) Hst2 Hnw)|]. intros _ k3 (Hcpu3 & Hap3 & _).
  eapply wp_mono; [apply (wp_schedule _ k3 Hcpu3); set_solver|]. intros _ k4 (Hcpu4 & Hcur & Hfirst & Hap4).
  do 3 (split; [done|]). replace ({[u]} ∪ A) with ((∅ ∪ {[u]}) ∪ ({[u]} ∪ A))
    by by rewrite union_empty_l_L, union_assoc_L, union_idemp_L.
  eapply apart_trans; [by eapply apart_trans|done].
Qed.

(** ** Falling asleep *)

Definition without_task (u : nat) (s : tasking) : tasking :=
  mk_tasking (now s) (sleeping s) (ready s ∖ {[u]}) (sems s).
Definition asleep_until (u : nat) (D : Z) (s : tasking) : tasking :=
  mk_tasking (now s) (schedule (thread_timer u) D (sleeping s)) (ready s ∖ {[u]}) (sems s).

Section clock.
Context `{SoftTimerThread}.
Context (timeout_func : nat → prog kernel unit).

(** The operations on timers, under the rest of the kernel. *)
Lemma wp_timer_stop s k u Q : implements s k → thread_timer u ∉ (sleeping s).*1 →
  (∀ r tm, implements s (k <| k_timers := tm |>) → Q r (k <| k_timers := tm |>)) →
  wp (zoom k_timers (rt_timer_stop (thread_timer u))) Q k.
Proof using.
  intros Him Hu HQ. destruct (rt_timer_stop_ok _ _ _ (thread_timer u) (im_timers _ _ Him)) as (r & tm & Hrun & Htm & _).
  rewrite wp_zoom. apply (wp_run _ _ _ r tm Hrun), HQ. rewrite cancel_not_in in Htm by done.
  destruct s as [T dl A S]. by apply (implements_timers (mk_tasking T dl A S)); [|apply Htm|apply Him].
Qed.

Lemma wp_timer_start s k u Q : implements s k → thread_timer u ∉ (sleeping s).*1 →
  stat (thread_at k u) = RT_THREAD_SUSPEND → 0 ≤ delay (k_timers k) (thread_timer u) ≤ MAX_DELAY →
  (∀ tm, implements (mk_tasking (now s) (schedule (thread_timer u) (now s + delay (k_timers k) (thread_timer u)) (sleeping s)) (ready s) (sems s))
      (k <| k_timers := tm |>) → Q tt (k <| k_timers := tm |>)) →
  wp (rt_timer_start (thread_timer u)) Q k.
Proof using.
  intros Him Hu Hst Hn HQ.
  destruct (timer_start_ok _ _ _ (thread_timer u) (im_timers _ _ Him) Hn) as (tm & Hrun & Htm & _).
  rewrite cancel_not_in in Htm by done. unfold rt_timer_start. rewrite wp_bind, wp_zoom.
  apply (wp_run _ _ _ tt tm Hrun). rewrite wp_bind, wp_gets. unfold id.
  rewrite decide_False, wp_ret.
  - apply HQ, implements_timers with (s := s); [done|done|]. intros t D [[= -> ->]|Ht]%schedule_elem; [by exists u|].
    by apply (im_asleep _ _ Him t D).
  - intros [Hx _]. apply Hx. exact (rep_hard _ _ tm _ Htm).
Qed.

(** The current thread suspends itself. *)
Lemma wp_suspend_self s k Q (c := rt_current_thread k) : implements s k → c ∈ ready s →
  (∀ r k', implements (without_task c s) k' → rt_current_thread k' = c →
    stat (thread_at k' c) = RT_THREAD_SUSPEND → Q r k') →
  wp (rt_thread_suspend c) Q k.
Proof using.
  intros Him Hc HQ. pose proof (sleeping_not_ready s k c Him Hc) as Hsl.
  pose proof (proj1 (cpu_current _ _ (im_cpu _ _ Him)) Hc) as Hrun. fold c in Hrun.
  unfold rt_thread_suspend. rewrite wp_bind, wp_gets. unfold id. cbv zeta. rewrite Hrun.
  rewrite decide_False by (by intros []). rewrite wp_bind. apply wp_when; [|done]. intros _. fold c.
  rewrite bool_decide_true by done. change (rt_assert true) with (mret tt : prog kernel unit). rewrite wp_ret.
  pose proof (wp_leave _ _ (im_cpu _ _ Him) Hc) as Hleave. rewrite wp_bind in Hleave. rewrite wp_bind.
  eapply wp_mono; [exact Hleave|]. intros x k0 Hk0. rewrite wp_bind. eapply wp_mono; [exact Hk0|].
  clear x k0 Hk0 Hleave. fold c. intros _ k1 (Hcpu & Hap & Hcur & Hst).
  assert (implements (without_task c s) k1) as Him1.
  { apply (implements_apart s k k1 {[c]}); [done|done| |done|].
    - unfold first. rewrite Hcur. intros [_ Hx]%elem_of_difference. by destruct Hx; apply elem_of_singleton.
    - intros u ->%elem_of_singleton. done. }
  rewrite wp_bind. apply (wp_timer_stop _ _ _ _ Him1 Hsl). intros r tm Him2. rewrite wp_ret. by apply HQ.
Qed.

(** A suspended thread is given a time-out. *)
Lemma wp_timeout_set s k u n Q : implements s k → thread_timer u ∉ (sleeping s).*1 →
  stat (thread_at k u) = RT_THREAD_SUSPEND → 0 ≤ n ≤ MAX_DELAY →
  (∀ k', implements (mk_tasking (now s) (schedule (thread_timer u) (now s + n) (sleeping s)) (ready s) (sems s)) k' →
    rt_current_thread k' = rt_current_thread k → Q tt k') →
  wp (zoom k_timers (timer_set_time (thread_timer u) n);; rt_timer_start (thread_timer u)) Q k.
Proof using.
  intros Him Hsl Hst Hn HQ. rewrite wp_bind, wp_zoom.
  destruct (set_time_ok _ _ _ (thread_timer u) n (im_timers _ _ Him)) as (tm & Hset & Htm & Hdelay & _).
  apply (wp_run _ _ _ tt tm Hset).
  assert (implements s (k <| k_timers := tm |>)) as Him1.
  { destruct s as [T dl A S]. apply (implements_timers (mk_tasking T dl A S) k tm _ _ Him Htm), (im_asleep _ _ Him). }
  apply (wp_timer_start _ _ u _ Him1 Hsl Hst); [change (0 ≤ delay tm (thread_timer u) ≤ MAX_DELAY); by rewrite Hdelay|].
  intros tm2 Him2. apply HQ; [|done].
  change (delay (k_timers (k <| k_timers := tm |>)) (thread_timer u)) with (delay tm (thread_timer u)) in Him2.
  by rewrite Hdelay in Him2.
Qed.

Lemma wp_suspend_for s k n (c := rt_current_thread k) :
  implements s k → c ∈ ready s → 0 ≤ n ≤ MAX_DELAY →
  wp (suspend_for n) (λ _ k', implements (asleep_until c (now s + n) s) k' ∧ rt_current_thread k' = c) k.
Proof using.
  intros Him Hc Hn. pose proof (sleeping_not_ready s k c Him Hc) as Hsl.
  unfold suspend_for, rt_thread_self. rewrite wp_bind, wp_gets. fold c. rewrite wp_bind.
  apply (wp_suspend_self s); [done|done|]. fold c. intros _ k1 Him1 Hcur Hst.
  apply (wp_timeout_set (without_task c s)); [done|done|done|done|].
  intros k2 Him2 Hcur2. split; [exact Him2|by rewrite Hcur2].
Qed.

(** A round of [rt_timer_check]: the first task is awake, its timer is gone. *)
Lemma woken_first T u D dl A S k k3 tm2 :
  implements (mk_tasking T ((thread_timer u, D) :: dl) A S) k → cpu ({[u]} ∪ A) k3 → first ({[u]} ∪ A) k3 →
  apart ({[u]} ∪ A) (k <| k_timers := tm2 |> <| semaphores := unqueue u <$> semaphores k |>) k3 →
  implements (mk_tasking T dl ({[u]} ∪ A) (unqueue u <$> S)) (k3 <| k_timers := fired (thread_timer u) (k_timers k) |>).
Proof using.
  intros Him Hcpu Hfirst Hap. pose proof (im_timers _ _ Him) as Htm. cbn [now sleeping] in Htm.
  pose proof (fired_rep _ _ _ (thread_timer u) Htm) as Hfired. rewrite cancel_head in Hfired by apply (rep_nodup _ _ _ Htm).
  split; [by apply cpu_timers|exact Hfirst|exact Hfired| |].
  { cbn [sems]. rewrite <- (im_sems _ _ Him : semaphores k = S). exact (ap_semaphores _ _ _ Hap). }
  intros t D' Ht. destruct (im_asleep _ _ Him t D' (list_elem_of_further _ _ _ Ht)) as (v & -> & Hv).
  exists v. split; [done|]. change (stat (thread_at k3 v) = RT_THREAD_SUSPEND). rewrite (ap_stat _ _ _ Hap); [exact Hv|].
  intros [->%elem_of_singleton|HvA]%elem_of_union; [|by apply (cpu_asleep _ _ _ (im_cpu _ _ Him) (or_introl Hv))].
  pose proof (rep_nodup _ _ _ Htm) as Hnd. rewrite fmap_cons in Hnd. apply list.NoDup_cons in Hnd as [Hnd _].
  apply Hnd, list_elem_of_fmap. by exists (thread_timer u, D').
Qed.

(** When the first is not due, nobody is. *)
Lemma none_due T t D dl tm : timers_rep T ((t, D) :: dl) tm → ¬ D ≤ T →
  Forall (λ e : timer_id * Z, T < e.2) ((t, D) :: dl).
Proof using.
  clear timeout_func H. intros Htm HD. pose proof (rep_sorted _ _ _ Htm) as Hs. inversion Hs as [|? ? _ Hall]; subst.
  constructor; [cbn; lia|]. eapply list.Forall_impl; [exact Hall|]. cbn. intros; lia.
Qed.

(** The loop of [rt_timer_check]: a round wakes a task, and no more rounds than there are
    timers are run. *)
Lemma wp_check fuel s k : implements s k → (length (sleeping s) < fuel)%nat →
  wp (timer_check_loop timeout_func fuel (u32 (now s))) (λ _ k', implements (wake s) k' ∧
    (rt_current_thread k ∈ ready s ∨ some_due s → rt_current_thread k' ∈ ready (wake s))) k.
Proof using.
  revert s k. induction fuel as [|fuel IH]; intros [T dl A S] k Him Hfuel; [cbn in Hfuel; lia|]. cbn in Hfuel.
  pose proof (im_timers _ _ Him) as Htm. cbn [now sleeping ready sems] in *.
  cbn [timer_check_loop]. rewrite wp_bind, wp_gets, (rep_list _ _ _ Htm).
  destruct dl as [|[t D] dl]; cbn [fmap list_fmap fst].
  { rewrite wp_ret, wake_none by done. split; [done|]. by intros [?|(t & D & []%elem_of_nil & _)]. }
  destruct (im_asleep _ _ Him t D (list_elem_of_here _ _)) as (u & -> & Hu).
  pose proof (expired_iff T _ _ _ _ Htm (list_elem_of_here (thread_timer u, D) dl)) as Hexp.
  rewrite (rep_tick _ _ _ Htm) in Hexp.
  destruct (decide (D ≤ T)) as [HD|HD].
  - rewrite decide_True by (by apply Hexp). rewrite wake_due by done.
    assert (Z.land (flag (timer_at (k_timers k) (thread_timer u))) RT_TIMER_FLAG_PERIODIC = 0) as Hper.
    { rewrite (rep_flag _ _ _ Htm). by case_bool_decide. }
    rewrite wp_bind, wp_zoom. unfold _rt_timer_remove at 1. rewrite wp_modify.
    rewrite (decide_True (P := _ = 0)) by done. rewrite wp_bind, wp_zoom. unfold deactivate at 1, set_timer. rewrite wp_modify.
    rewrite wp_bind, wp_zoom, wp_modify.
    set (tm2 := mk_timers (rt_tick (k_timers k)) (rt_timer_list (stopped (thread_timer u) (k_timers k)))
      (rt_soft_timer_list (stopped (thread_timer u) (k_timers k))) [thread_timer u]
      (timer_at (stopped (thread_timer u) (k_timers k)))).
    match goal with |- wp _ _ ?x => change x with (k <| k_timers := tm2 |>) end.
    rewrite wp_bind. cbn [call_timeout]. eapply wp_mono; [exact (wp_timeout A (k <| k_timers := tm2 |>) u (cpu_timers _ _ tm2 (im_cpu _ _ Him)) Hu)|].
    intros _ k3 (Hcpu & Hfirst & Hcur & Hap). pose proof (ap_timers _ _ _ Hap : k_timers k3 = tm2) as Htm3.
    rewrite wp_bind, wp_zoom. unfold rt_tick_get. rewrite wp_gets, wp_bind, wp_gets.
    change (k_timers (k3 <| k_timers := k_timers k3 |>)) with (k_timers k3). rewrite Htm3.
    rewrite decide_False by done. rewrite wp_bind, wp_zoom. unfold _rt_timer_remove. rewrite wp_modify, wp_bind, wp_gets.
    match goal with |- wp _ _ ?x => change x with (k3 <| k_timers := fired (thread_timer u) (k_timers k) |>) end.
    rewrite decide_False; [rewrite wp_bind, wp_ret|].
    2: { intros [Hx _]. apply Hx. change (k_timers (_ <| k_timers := ?x |>)) with x.
         rewrite (rep_flag _ _ _ (fired_rep _ _ _ (thread_timer u) Htm)). by case_bool_decide. }
    change (rt_tick tm2) with (rt_tick (k_timers k)). rewrite (rep_tick _ _ _ Htm).
    eapply wp_mono; [apply (IH (mk_tasking T dl ({[u]} ∪ A) (unqueue u <$> S))); [|cbn [length sleeping] in *; lia]|].
    + exact (woken_first T u D dl A S k k3 tm2 Him Hcpu Hfirst Hap).
    + intros _ k' [Him' Hcur']. split; [done|]. intros _. apply Hcur'. left. exact Hcur.
  - rewrite decide_False by (rewrite Hexp; lia). pose proof (none_due T _ _ dl _ Htm HD) as Hnone.
    rewrite wp_ret, wake_none by done. split; [done|]. intros [?|(t & D' & Ht & HD')]; [done|].
    rewrite list.Forall_forall in Hnone. specialize (Hnone _ Ht). cbn in *. lia.
Qed.

Definition later (s : tasking) : tasking := mk_tasking (now s + 1) (sleeping s) (ready s) (sems s).

(** No task has slept longer than it was to. *)
Definition settled (s : tasking) : Prop := ∀ t D, (t, D) ∈ sleeping s → now s ≤ D.

Lemma wp_tick s k : implements s k → settled s → ready s ≠ ∅ →
  wp (rt_tick_increase timeout_func) (λ _ k', implements (wake (later s)) k' ∧
    (some_due (later s) → rt_current_thread k' ∈ ready (wake (later s)))) k.
Proof using.
  intros Him Hset Hne. unfold rt_tick_increase. rewrite wp_bind, wp_zoom, wp_modify.
  assert (implements (later s) (k <| k_timers := k_timers k <| rt_tick := u32 (rt_tick (k_timers k) + 1) |> |>)) as Him1.
  { apply (implements_timers s); [done|by apply tick_rep; [apply Him|]|apply Him]. }
  set (k1 := k <| k_timers := _ |>) in *. clearbody k1. unfold rt_thread_self, set_thread. rewrite wp_bind, wp_gets, wp_bind, wp_modify.
  set (c := rt_current_thread k1) in *.
  match goal with |- wp _ _ ?x => change x with (touch c (λ r, r <| remaining_tick := u32 (remaining_tick r - 1) |>) k1) end.
  assert (implements (later s) (touch c (λ r, r <| remaining_tick := u32 (remaining_tick r - 1) |>) k1)) as Him2
    by (by apply implements_touch).
  set (k2 := touch _ _ k1) in *. clearbody k2. rewrite wp_bind, wp_gets, wp_bind.
  apply wp_mono with (Q := λ _ k', implements (later s) k').
  - case_decide; [|by rewrite wp_ret]. rewrite wp_bind, wp_modify.
    match goal with |- wp _ _ ?x => change x with
      (touch c (λ r, r <| remaining_tick := th_init_tick r |> <| th_stat := Z.lor (th_stat r) RT_THREAD_STAT_YIELD |>) k2) end.
    eapply wp_mono; [apply (wp_schedule_implements (later s)); [|done]|by intros _ k' []].
    apply implements_touch; [done|]. intros r. do 2 (split; [done|]). apply stat_yield.
  - intros _ k3 Him3. unfold rt_timer_check, rt_tick_get. rewrite wp_bind, wp_zoom, wp_gets.
    replace (k3 <| k_timers := k_timers k3 |>) with k3 by (by destruct k3). rewrite wp_bind, wp_gets.
    rewrite (rep_tick _ _ _ (im_timers _ _ Him3)), (rep_list _ _ _ (im_timers _ _ Him3)), length_fmap.
    eapply wp_mono; [apply (wp_check _ (later s) k3 Him3); lia|]. intros _ k' [Him' Hcur]. split; [done|]. auto.
Qed.
End clock.
