(* ===== verification/Ipc.v ===== *)
(** Semaphores of RT-Thread (rt-thread/src/ipc.c): threads that wait in the list of a
    semaphore, for ever or for some ticks. *)
From S2P Require Import Prelude Timer Kernel.

Definition RT_IPC_FLAG_FIFO : Z := 0x00.
Definition RT_IPC_FLAG_PRIO : Z := 0x01.
Definition RT_WAITING_FOREVER : Z := -1.
Definition RT_SEM_VALUE_MAX : Z := 65535.
Definition RT_EFULL : Z := 3.

Definition get_sem (i : Z) : prog kernel semaphore := l ← gets semaphores; lift (load l i).
Definition set_sem (i : Z) (f : semaphore → semaphore) : prog kernel unit :=
  l ← gets semaphores;
  s ← lift (load l i);
  l ← lift (store l i (f s));
  modify (λ k, k <| semaphores := l |>).

Definition rt_sem_init (i value flag : Z) : prog kernel Z :=
  rt_assert (bool_decide (value < 0x10000));;
  set_sem i (λ _, mk_semaphore [] (u16 value) flag);;
  mret RT_EOK.

(** Where a thread comes in the list of those that wait. *)
Fixpoint insert_by_priority (prio : nat → Z) (t : nat) (l : list nat) : list nat :=
  match l with
  | [] => [t]
  | u :: l' => if decide (prio t < prio u) then t :: l else u :: insert_by_priority prio t l'
  end.
Definition enqueue (prio : nat → Z) (flag : Z) (t : nat) (l : list nat) : list nat :=
  if decide (flag = RT_IPC_FLAG_FIFO) then l ++ [t]
  else if decide (flag = RT_IPC_FLAG_PRIO) then insert_by_priority prio t l
  else l.

Definition rt_ipc_list_suspend (i : Z) (t : nat) (flag : Z) : prog kernel Z :=
  _ ← rt_thread_suspend t;
  k ← gets id;
  set_sem i (λ s, s <| suspend_thread :=
    enqueue (λ u, current_priority (thread_at k u)) flag t (suspend_thread s) |>);;
  mret RT_EOK.

Definition rt_ipc_list_resume (l : list nat) : prog kernel Z :=
  match l with
  | t :: _ => _ ← rt_thread_resume t; mret RT_EOK
  | [] => fail OutOfBounds
  end.

Fixpoint resume_loop (fuel : nat) (i : Z) : prog kernel unit :=
  match fuel with
  | O => fail NoFuel
  | S fuel =>
      s ← get_sem i;
      match suspend_thread s with
      | [] => mret tt
      | t :: _ =>
          set_thread t (λ r, r <| th_error := - RT_ERROR |>);;
          _ ← rt_thread_resume t;
          resume_loop fuel i
      end
  end.
Definition rt_ipc_list_resume_all (i : Z) : prog kernel unit :=
  s ← get_sem i; resume_loop (S (length (suspend_thread s))) i.

Section sem.
Context `{SoftTimerThread}.

(** [rt_sem_take] up to its call of the scheduler: the result, or that the thread waits. *)
Definition sem_take (i time : Z) : prog kernel (option Z) :=
  s ← get_sem i;
  if decide (value s > 0) then
    set_sem i (λ s, s <| value := u16 (value s - 1) |>);; mret (Some RT_EOK)
  else if decide (time = 0) then mret (Some (- RT_ETIMEOUT))
  else
    t ← rt_thread_self;
    set_thread t (λ r, r <| th_error := RT_EOK |>);;
    _ ← rt_ipc_list_suspend i t (sem_flag s);
    when (bool_decide (time > 0))
      (zoom k_timers (timer_set_time (thread_timer t) time);; rt_timer_start (thread_timer t));;
    mret None.

(** [rt_sem_take] up to the switch; when the thread runs again, its error number, of which
    [RT_EOK] stands for the semaphore, is the result. *)
Definition rt_sem_take (i time : Z) : prog kernel (option Z) :=
  r ← sem_take i time; when (bool_decide (r = None)) rt_schedule;; mret r.
Definition rt_sem_trytake (i : Z) : prog kernel (option Z) := rt_sem_take i 0.
End sem.

Definition rt_sem_release (i : Z) : prog kernel Z :=
  s ← get_sem i;
  if decide (suspend_thread s ≠ []) then
    _ ← rt_ipc_list_resume (suspend_thread s); rt_schedule;; mret RT_EOK
  else if decide (value s < RT_SEM_VALUE_MAX) then
    set_sem i (λ s, s <| value := u16 (value s + 1) |>);; mret RT_EOK
  else mret (- RT_EFULL).

Definition RT_IPC_CMD_RESET : Z := 0x01.

Definition rt_sem_control (i cmd arg : Z) : prog kernel Z :=
  if decide (cmd = RT_IPC_CMD_RESET) then
    rt_ipc_list_resume_all i;;
    set_sem i (λ s, s <| value := u16 arg |>);;
    rt_schedule;;
    mret RT_EOK
  else mret (- RT_ERROR).
