(* ===== verification/Semaphore.v ===== *)
(** What the semaphores of Ipc.v do to the tasks of Delay.v: a task takes a semaphore, or
    waits at the end of its list, for ever or with a deadline; who releases it hands it to the
    first that waits. *)
From stdpp Require Import functions gmap sets.
From S2P Require Import Prelude Timer Kernel Scheduler Delay Ipc.

(** ** Specification *)

Definition with_sem (i : nat) (sm : semaphore) (s : tasking) : tasking :=
  mk_tasking (now s) (sleeping s) (ready s) (<[i := sm]> (sems s)).

(** The semaphores of this firmware are first in, first out; a count has sixteen bits, and a
    thread waits once. *)
Definition sem_ok (sm : semaphore) : Prop :=
  sem_flag sm = RT_IPC_FLAG_FIFO ∧ is_u16 (value sm) ∧ NoDup (suspend_thread sm).
Definition sems_ok (s : tasking) : Prop := Forall sem_ok (sems s).

(** [c] at the end of the list of [sm]. *)
Definition queued (c : nat) (sm : semaphore) : semaphore :=
  mk_semaphore (suspend_thread sm ++ [c]) (value sm) (sem_flag sm).

Definition take_effect (c i : nat) (time : Z) (s : tasking) : tasking :=
  match sems s !! i with
  | None => s
  | Some sm =>
      if decide (value sm > 0) then with_sem i (mk_semaphore (suspend_thread sm) (value sm - 1) (sem_flag sm)) s
      else if decide (time = 0) then s
      else
        let s1 := with_sem i (queued c sm) (without_task c s) in
        if decide (time > 0)
        then mk_tasking (now s1) (schedule (thread_timer c) (now s1 + time) (sleeping s1)) (ready s1) (sems s1)
        else s1
  end.

Definition release_effect (i : nat) (s : tasking) : tasking :=
  match sems s !! i with
  | None => s
  | Some sm =>
      match suspend_thread sm with
      | t :: _ => resumed t s
      | [] =>
          if decide (value sm < RT_SEM_VALUE_MAX)
          then with_sem i (mk_semaphore [] (value sm + 1) (sem_flag sm)) s else s
      end
  end.

(** All that wait are sent away, and the count is set. *)
Definition reset_effect (i : nat) (v : Z) (s : tasking) : tasking :=
  match sems s !! i with
  | None => s
  | Some sm => 
      let s1 := foldl (λ s t, resumed t s) s (suspend_thread sm) in
      with_sem i (mk_semaphore [] (u16 v) (sem_flag sm)) s1
  end.

(** ** The list of the semaphores *)

Lemma get_sem_run k i sm : semaphores k !! i = Some sm → get_sem (Z.of_nat i) k = Ok (sm, k).
Proof.
  intros Hi. unfold get_sem, mbind, prog_bind, gets, lift. rewrite (load_ok _ _ sm); [done|lia|by rewrite Nat2Z.id].
Qed.

Lemma set_sem_run k i sm f : semaphores k !! i = Some sm →
  set_sem (Z.of_nat i) f k = Ok (tt, k <| semaphores := <[i := f sm]> (semaphores k) |>).
Proof.
  intros Hi. unfold set_sem, mbind, prog_bind, gets, lift. rewrite (load_ok _ _ sm); [|lia|by rewrite Nat2Z.id].
  apply lookup_lt_Some in Hi. rewrite store_in by (unfold zlen; lia). by rewrite Nat2Z.id.
Qed.

Lemma waits_insert k i sm sm' t : semaphores k !! i = Some sm →
  waits (k <| semaphores := <[i := sm']> (semaphores k) |>) t → t ∈ suspend_thread sm' ∨ waits k t.
Proof.
  intros Hi (s & Hs & Ht). change (s ∈ <[i := sm']> (semaphores k)) in Hs.
  apply list_elem_of_lookup in Hs as [j Hj]. destruct (decide (i = j)) as [<- |Hij].
  - rewrite list_lookup_insert_eq in Hj by (by eapply lookup_lt_Some). injection Hj as <-. by left.
  - rewrite list_lookup_insert_ne in Hj by done. right. exists s. split; [|done]. by eapply list_elem_of_lookup_2.
Qed.

Lemma waits_at k i sm t : semaphores k !! i = Some sm → t ∈ suspend_thread sm → waits k t.
Proof. intros Hi Ht. exists sm. split; [by eapply list_elem_of_lookup_2|done]. Qed.

Lemma waiting_suspended A k t : cpu A k → waits k t → stat (thread_at k t) = RT_THREAD_SUSPEND.
Proof. intros (Q & Hq & _). by apply (q_waits Q k Hq). Qed.

(** A semaphore is changed; who is added to its list is suspended. *)
Lemma unscheduled_set s k i sm sm' : unscheduled s k → sems s !! i = Some sm →
  (∀ t, t ∈ suspend_thread sm' → t ∈ suspend_thread sm ∨ stat (thread_at k t) = RT_THREAD_SUSPEND) →
  unscheduled (with_sem i sm' s) (k <| semaphores := <[i := sm']> (semaphores k) |>).
Proof.
  intros [Hcpu Htm Hsem Hsl] Hi Hnew. rewrite <- Hsem in Hi. split; [|exact Htm| |exact Hsl].
  - apply cpu_semaphores; [done|]. intros t [Ht|Ht]%(waits_insert k i sm); [|by eapply waiting_suspended|done].
    destruct (Hnew t Ht) as [Ht'|?]; [|done]. eapply waiting_suspended, waits_at; done.
  - cbn. by rewrite <- Hsem.
Qed.

Lemma implements_set s k i sm sm' : implements s k → sems s !! i = Some sm →
  (∀ t, t ∈ suspend_thread sm' → t ∈ suspend_thread sm ∨ stat (thread_at k t) = RT_THREAD_SUSPEND) →
  implements (with_sem i sm' s) (k <| semaphores := <[i := sm']> (semaphores k) |>).
Proof.
  intros Him Hi Hnew. apply scheduled; [by apply (unscheduled_set s k i sm); [apply not_scheduled| |]|].
  exact (im_first _ _ Him).
Qed.

(** ** Taking *)

Section sem.
Context `{SoftTimerThread}.

Lemma wp_list_suspend s k i sm Q (c := rt_current_thread k) : implements s k → c ∈ ready s →
  sems s !! i = Some sm → sem_flag sm = RT_IPC_FLAG_FIFO →
  (∀ k', implements (with_sem i (queued c sm) (without_task c s)) k' → rt_current_thread k' = c →
    stat (thread_at k' c) = RT_THREAD_SUSPEND → Q RT_EOK k') →
  wp (rt_ipc_list_suspend (Z.of_nat i) c (sem_flag sm)) Q k.
Proof using.
  intros Him Hc Hi Hflag HQ. unfold rt_ipc_list_suspend. rewrite wp_bind.
  apply (wp_suspend_self s); [done|done|]. fold c. intros _ k1 Him1 Hcur Hst.
  rewrite wp_bind, wp_gets, wp_bind. unfold id.
  assert (semaphores k1 !! i = Some sm) as Hi1 by (by rewrite (im_sems _ _ Him1)).
  apply (wp_run _ _ _ _ _ (set_sem_run k1 i sm _ Hi1)). rewrite wp_ret.
  assert (enqueue (λ u, current_priority (thread_at k1 u)) (sem_flag sm) c (suspend_thread sm) = suspend_thread sm ++ [c]) as E.
  { unfold enqueue. by rewrite decide_True. }
  match goal with |- context [<[i := ?x]> _] => change x with
    (mk_semaphore (enqueue (λ u, current_priority (thread_at k1 u)) (sem_flag sm) c (suspend_thread sm)) (value sm) (sem_flag sm)) end.
  rewrite E. fold (queued c sm). apply HQ; [|exact Hcur|exact Hst].
  apply (implements_set _ k1 i sm); [done|done|]. cbn [suspend_thread queued].
  intros t [Ht| ->%list_elem_of_singleton]%elem_of_app; [by left|by right].
Qed.

Lemma wp_sem_take s k i sm time (c := rt_current_thread k) : implements s k → c ∈ ready s →
  sems s !! i = Some sm → sem_ok sm → time ≤ MAX_DELAY →
  wp (sem_take (Z.of_nat i) time) (λ r k', implements (take_effect c i time s) k' ∧ rt_current_thread k' = c ∧
    r = if decide (value sm > 0) then Some RT_EOK else if decide (time = 0) then Some (- RT_ETIMEOUT) else None) k.
Proof using.
  intros Him Hc Hi (Hflag & Hu16 & _) Htime. unfold sem_take, take_effect. rewrite Hi.
  assert (semaphores k !! i = Some sm) as Hik by (by rewrite (im_sems _ _ Him)).
  rewrite wp_bind. apply (wp_run _ _ _ _ _ (get_sem_run k i sm Hik)).
  destruct (decide (value sm > 0)) as [Hv|Hv].
  { rewrite wp_bind. apply (wp_run _ _ _ _ _ (set_sem_run k i sm _ Hik)). rewrite wp_ret.
    match goal with |- context [<[i := ?x]> _] => change x with
      (mk_semaphore (suspend_thread sm) (u16 (value sm - 1)) (sem_flag sm)) end.
    replace (u16 (value sm - 1)) with (value sm - 1) by (unfold is_u16 in Hu16; unfold u16; lia).
    split; [|done]. apply (implements_set s k i sm); [done|done|]. by left. }
  destruct (decide (time = 0)) as [Hz|Hz]; [by rewrite wp_ret|].
  unfold rt_thread_self, set_thread. rewrite wp_bind, wp_gets, wp_bind, wp_modify. fold c.
  match goal with |- wp _ _ ?x => change x with (touch c (λ r, r <| th_error := RT_EOK |>) k) end.
  assert (implements s (touch c (λ r, r <| th_error := RT_EOK |>) k)) as Him1 by (by apply implements_touch).
  change c with (rt_current_thread (touch c (λ r, r <| th_error := RT_EOK |>) k)) in Hc |- *.
  set (k1 := touch _ _ k) in *. clearbody k1. rewrite wp_bind.
  apply (wp_list_suspend s k1 i sm); [done|done|done|done|]. intros k2 Him2 Hcur Hst.
  pose proof (sleeping_not_ready s k1 _ Him1 Hc) as Hsl. rewrite wp_bind. apply wp_when.
  - intros Ht%bool_decide_eq_true. rewrite (decide_True (P := time > 0)) by done.
    apply (wp_timeout_set _ k2 _ time _ Him2 Hsl Hst); [lia|]. intros k3 Him3 Hcur3. rewrite wp_ret.
    split; [exact Him3|]. split; [by rewrite Hcur3|done].
  - intros Ht%bool_decide_eq_false. rewrite (decide_False (P := time > 0)) by done. rewrite wp_ret. done.
Qed.
End sem.

(** ** Releasing *)

Lemma wp_sem_release s k i sm : implements s k → ready s ≠ ∅ → sems s !! i = Some sm → sem_ok sm →
  wp (rt_sem_release (Z.of_nat i)) (λ r k', implements (release_effect i s) k' ∧
    r = if decide (suspend_thread sm = [] ∧ value sm = RT_SEM_VALUE_MAX) then - RT_EFULL else RT_EOK) k.
Proof.
  intros Him Hne Hi (_ & Hu16 & _). unfold rt_sem_release, release_effect. rewrite Hi.
  assert (semaphores k !! i = Some sm) as Hik by (by rewrite (im_sems _ _ Him)).
  rewrite wp_bind. apply (wp_run _ _ _ _ _ (get_sem_run k i sm Hik)).
  destruct (suspend_thread sm) as [|t l] eqn:Hl.
  - rewrite decide_False by (intros Hx; by apply Hx). unfold RT_SEM_VALUE_MAX. unfold is_u16 in Hu16.
    destruct (decide (value sm < 65535)) as [Hv|Hv].
    + rewrite wp_bind. apply (wp_run _ _ _ _ _ (set_sem_run k i sm _ Hik)). rewrite wp_ret.
      match goal with |- context [<[i := ?x]> _] => change x with
        (mk_semaphore (suspend_thread sm) (u16 (value sm + 1)) (sem_flag sm)) end.
      replace (u16 (value sm + 1)) with (value sm + 1) by (unfold u16; lia). rewrite Hl.
      split; [|by rewrite decide_False by lia]. apply (implements_set s k i sm); [done|done|].
      by intros t []%elem_of_nil.
    + rewrite wp_ret, decide_True by (split; [done|lia]). done.
  - rewrite decide_True by done. rewrite (decide_False (P := _ ∧ _)) by (by intros []).
    cbn [rt_ipc_list_resume]. rewrite !wp_bind.
    assert (stat (thread_at k t) = RT_THREAD_SUSPEND) as Hst.
    { eapply waiting_suspended, waits_at; [apply Him|exact Hik|]. rewrite Hl. apply list_elem_of_here. }
    apply (wp_resume s k t _ (not_scheduled _ _ Him) Hst). intros k1 Hun _ _ _. rewrite wp_ret, wp_bind.
    eapply wp_mono; [apply (wp_schedule_late _ k1 Hun); cbn; set_solver|].
    intros [] k2 [Him2 _]. by rewrite wp_ret.
Qed.

(** ** Resetting *)

Definition all_resumed (ts : list nat) (s : tasking) : tasking := foldl (λ s t, resumed t s) s ts.

Lemma resumed_at t s i sm : sems s !! i = Some sm → sems (resumed t s) !! i = Some (unqueue t sm).
Proof. intros Hi. cbn. by rewrite list_lookup_fmap, Hi. Qed.

Lemma unqueue_head t l v f : NoDup (t :: l) → unqueue t (mk_semaphore (t :: l) v f) = mk_semaphore l v f.
Proof.
  intros [Ht _]%list.NoDup_cons. unfold unqueue. cbn [suspend_thread].
  change (dequeue t (t :: l)) with (if decide (t ≠ t) then t :: dequeue t l else dequeue t l).
  rewrite decide_False by (intros Hx; by apply Hx). by rewrite dequeue_not_in.
Qed.

Lemma all_resumed_at ts s i v f : sems s !! i = Some (mk_semaphore ts v f) → NoDup ts →
  sems (all_resumed ts s) !! i = Some (mk_semaphore [] v f).
Proof.
  revert s. induction ts as [|t ts IH]; intros s Hi Hnd; [done|]. apply IH; [|by apply list.NoDup_cons in Hnd as []].
  rewrite <- (unqueue_head t) by done. by apply resumed_at.
Qed.

Lemma wp_resume_loop ts fuel s k i v f : unscheduled s k → sems s !! i = Some (mk_semaphore ts v f) → NoDup ts →
  (length ts < fuel)%nat →
  wp (resume_loop fuel (Z.of_nat i)) (λ _ k', unscheduled (all_resumed ts s) k') k.
Proof.
  revert fuel s k. induction ts as [|t ts IH]; intros [|fuel] s k Hun Hi Hnd Hfuel; try (cbn in Hfuel; lia);
    cbn [resume_loop]; rewrite wp_bind; apply (wp_run _ _ _ _ _ (get_sem_run k i _ ltac:(by rewrite (un_sems _ _ Hun))));
    cbn [suspend_thread]; [by rewrite wp_ret|].
  assert (stat (thread_at k t) = RT_THREAD_SUSPEND) as Hst.
  { eapply waiting_suspended; [apply Hun|]. apply (waits_at k i (mk_semaphore (t :: ts) v f)); [by rewrite (un_sems _ _ Hun)|].
    apply list_elem_of_here. }
  unfold set_thread. rewrite wp_bind, wp_modify.
  match goal with |- wp _ _ ?x => change x with (touch t (λ r, r <| th_error := - RT_ERROR |>) k) end.
  assert (unscheduled s (touch t (λ r, r <| th_error := - RT_ERROR |>) k)) as Hun1 by (by apply unscheduled_touch).
  rewrite wp_bind. apply (wp_resume s _ t _ Hun1); [by rewrite touch_same|]. intros k1 Hun2 _ _ _.
  apply (IH fuel (resumed t s) k1 Hun2); [|by apply list.NoDup_cons in Hnd as []|cbn in Hfuel; lia].
  rewrite <- (unqueue_head t) by done. by apply resumed_at.
Qed.

Lemma wp_sem_control s k i sm v : implements s k → ready s ≠ ∅ → sems s !! i = Some sm → sem_ok sm →
  wp (rt_sem_control (Z.of_nat i) RT_IPC_CMD_RESET v) (λ r k', implements (reset_effect i v s) k' ∧ r = RT_EOK) k.
Proof.
  intros Him Hne Hi (_ & _ & Hnd). destruct sm as [ts x f]. cbn [suspend_thread] in Hnd.
  unfold rt_sem_control, rt_ipc_list_resume_all, reset_effect. rewrite decide_True, Hi by done. cbn [suspend_thread sem_flag]. fold (all_resumed ts s).
  rewrite !wp_bind. apply (wp_run _ _ _ _ _ (get_sem_run k i _ ltac:(by rewrite (im_sems _ _ Him)))). cbn [suspend_thread].
  eapply wp_mono; [apply (wp_resume_loop ts _ s k i x f (not_scheduled _ _ Him) Hi Hnd); lia|].
  intros [] k1 Hun. pose proof (all_resumed_at ts s i x f Hi Hnd) as Hat.
  rewrite wp_bind. apply (wp_run _ _ _ _ _ (set_sem_run k1 i (mk_semaphore [] x f) _ ltac:(by rewrite (un_sems _ _ Hun)))).
  match goal with |- context [<[i := ?x]> _] => change x with (mk_semaphore [] (u16 v) f) end.
  rewrite wp_bind. eapply wp_mono; [apply (wp_schedule_late (with_sem i (mk_semaphore [] (u16 v) f) (all_resumed ts s)))|].
  - apply (unscheduled_set _ k1 i _ _ Hun Hat). by intros t []%elem_of_nil.
  - cbn [ready with_sem]. clear Hat Hun Hi Him Hnd. revert s Hne. induction ts as [|t ts IH]; intros s Hne; [done|].
    apply IH. cbn. set_solver.
  - intros [] k2 [Him2 _]. by rewrite wp_ret.
Qed.
