(* ===== verification/Boot.v ===== *)
(** The start of the kernel (rt-thread/src/components.c): the threads that the scheduler finds
    when it starts. *)
From stdpp Require Import functions gmap sets.
From S2P Require Import Prelude Timer Kernel Scheduler Delay.

(** ** Starting threads *)

Lemma queues_replace Q k t r : queues Q k → (∀ p, t ∉ Q p) → ¬ waits k t →
  (stat r ≠ RT_THREAD_INIT → 0 ≤ current_priority r < 32 ∧ number_mask r = 2 ^ current_priority r) →
  queues Q (touch t (λ _, r) k).
Proof.
  intros [Htab Hg Hr He Hp Hw] Ht Hnw Hr'. split; try done.
  - intros p u Hu. rewrite touch_other; [by apply He|]. intros ->. by apply (Ht p).
  - intros u. destruct (decide (u = t)) as [-> |Hu]; [by rewrite touch_same|].
    rewrite touch_other by done. apply Hp.
  - intros u Hu. change (waits k u) in Hu. rewrite touch_other; [by apply Hw|]. by intros ->.
Qed.

(** A thread that has not been started is put into another state, in no queue. *)
Lemma implements_replace s k t r : implements s k → stat (thread_at k t) = RT_THREAD_INIT →
  (stat r = RT_THREAD_INIT ∨ stat r = RT_THREAD_SUSPEND) →
  (stat r ≠ RT_THREAD_INIT → 0 ≤ current_priority r < 32 ∧ number_mask r = 2 ^ current_priority r) →
  implements s (touch t (λ _, r) k).
Proof.
  intros [Hcpu Hf Htm Hsem Hsl] Ht Hst Hr. pose proof (cpu_asleep _ _ _ Hcpu (or_intror Ht)) as HtA.
  assert (∀ u, u ≠ t → thread_at (touch t (λ _, r) k) u = thread_at k u) as Hoth by (intros; by rewrite touch_other).
  destruct Hcpu as (Q & Hq & Hc & Hl & HA).
  split; [| |exact Htm|exact Hsem|].
  - exists Q. split.
    { apply queues_replace; [done| | |done].
      - intros p Hp. apply HtA, HA. right. by exists p.
      - apply (not_waiting Q k t Hq). by rewrite Ht. }
    do 2 (split; [done|]). intros u. rewrite HA. unfold awake. change (rt_current_thread (touch _ _ k)) with (rt_current_thread k).
    destruct (decide (u = t)) as [-> |Hu]; [|by rewrite Hoth]. rewrite touch_same.
    assert (stat (thread_at k t) ≠ RT_THREAD_RUNNING ∧ stat r ≠ RT_THREAD_RUNNING) by (rewrite Ht; by destruct Hst as [-> | ->]).
    tauto.
  - intros Hcur u Hu. change (rt_current_thread (touch _ _ k)) with (rt_current_thread k) in *.
    rewrite !Hoth; [by apply Hf|by intros ->|]. intros E. by rewrite E in Hcur.
  - intros x D Hx. destruct (Hsl x D Hx) as (u & -> & Hu). exists u. split; [done|].
    rewrite Hoth; [done|]. intros ->. by rewrite Ht in Hu.
Qed.

Lemma not_asleep s k t : implements s k → stat (thread_at k t) = RT_THREAD_INIT → thread_timer t ∉ (sleeping s).*1.
Proof.
  intros Him Ht Hs. apply list_elem_of_fmap in Hs as ([x D] & Hx & Hs). cbn in Hx. subst x.
  destruct (im_asleep _ _ Him _ _ Hs) as (v & [= <-] & Hv). by rewrite Ht in Hv.
Qed.

Lemma wp_init s k t p tick Q : implements s k → stat (thread_at k t) = RT_THREAD_INIT → 0 ≤ p < 32 →
  (∀ k', implements s k' → thread_at k' t = mk_thread RT_THREAD_INIT p p 0 tick tick RT_EOK →
    (∀ u, u ≠ t → thread_at k' u = thread_at k u) → rt_current_thread k' = rt_current_thread k → Q RT_EOK k') →
  wp (_rt_thread_init t p tick) Q k.
Proof.
  intros Him Ht Hp HQ. unfold _rt_thread_init. rewrite bool_decide_true by (unfold RT_THREAD_PRIORITY_MAX; lia).
  change (rt_assert true) with (mret tt : prog kernel unit). rewrite wp_bind, wp_ret.
  unfold set_thread. rewrite wp_bind, wp_modify.
  set (r := mk_thread RT_THREAD_INIT p p 0 tick tick RT_EOK) in *.
  match goal with |- wp _ _ ?x => change x with (touch t (λ _, r) k) end.
  assert (implements s (touch t (λ _, r) k)) as Him1.
  { apply implements_replace; [done|done|by left|]. intros Hx. by destruct Hx. }
  assert (∀ u, u ≠ t → thread_at (touch t (λ _, r) k) u = thread_at k u) as Hoth by (intros; by rewrite touch_other).
  assert (thread_at (touch t (λ _, r) k) t = r) as Hsame by apply touch_same.
  set (k1 := touch _ _ k) in *. rewrite wp_bind, wp_zoom.
  destruct (init_rep _ _ _ (thread_timer t) (im_timers _ _ Him1)) as (tm & Hrun & Htm).
  { apply (not_asleep s k1); [done|]. by rewrite Hsame. }
  apply (wp_run _ _ _ tt tm Hrun). rewrite wp_ret. apply HQ; [|done|done|done].
  destruct s as [T dl A S]. apply (implements_timers (mk_tasking T dl A S)); [done|done|]. apply (im_asleep _ _ Him1).
Qed.

(** Before the scheduler runs, a thread that is started is queued. *)
Lemma wp_startup s k t p Q : implements s k → stat (thread_at k t) = RT_THREAD_INIT →
  init_priority (thread_at k t) = p → 0 ≤ p < 32 → rt_current_thread k = NO_THREAD →
  stat (thread_at k NO_THREAD) = RT_THREAD_INIT → t ≠ NO_THREAD →
  (∀ k', implements (mk_tasking (now s) (sleeping s) ({[t]} ∪ ready s) (sems s)) k' →
    (∀ u, u ≠ t → stat (thread_at k' u) = stat (thread_at k u)) → rt_current_thread k' = NO_THREAD → Q RT_EOK k') →
  wp (rt_thread_startup t) Q k.
Proof.
  intros Him Ht Hprio Hp Hcur Hnone Htn HQ. unfold rt_thread_startup. rewrite wp_bind, wp_gets, bool_decide_true by done.
  change (rt_assert true) with (mret tt : prog kernel unit). rewrite wp_bind, wp_ret.
  unfold set_thread. rewrite wp_bind, wp_modify, wp_bind, wp_modify, wp_bind, wp_modify.
  pose proof (not_asleep s k t Him Ht) as Hsl.
  set (f1 := λ r, r <| current_priority := init_priority r |>).
  set (f2 := λ r, r <| number_mask := u32 (Z.shiftl 1 (current_priority r)) |>).
  set (f3 := λ r, r <| th_stat := RT_THREAD_SUSPEND |>).
  match goal with |- wp _ _ ?x => change x with (touch t f3 (touch t f2 (touch t f1 k))) end.
  assert (u32 (Z.shiftl 1 p) = 2 ^ p) as Hmask.
  { rewrite Z.shiftl_1_l. unfold u32. apply Z.mod_small. split; [by apply Z.pow_nonneg|].
    change 4294967296 with (2 ^ 32). apply Z.pow_lt_mono_r; lia. }
  assert (∀ f k', implements s k' → stat (thread_at k' t) = RT_THREAD_INIT → stat (f (thread_at k' t)) = RT_THREAD_INIT →
    implements s (touch t f k')) as Hinit.
  { intros f k' Him' Ht' Hf. apply (implements_replace s k' t (f (thread_at k' t))); [done|done|by left|].
    intros Hx. by destruct Hx. }
  assert (implements s (touch t f1 k)) as Him1 by (by apply Hinit).
  assert (implements s (touch t f2 (touch t f1 k))) as Him2.
  { apply Hinit; [done|rewrite touch_same; exact Ht|rewrite touch_same; exact Ht]. }
  assert (implements s (touch t f3 (touch t f2 (touch t f1 k)))) as Him3.
  { apply (implements_replace s _ t (f3 (thread_at (touch t f2 (touch t f1 k)) t))); [done| |by right|].
    - rewrite !touch_same. exact Ht.
    - intros _. rewrite !touch_same. 
      change (0 ≤ init_priority (thread_at k t) < 32 ∧
        u32 (Z.shiftl 1 (init_priority (thread_at k t))) = 2 ^ init_priority (thread_at k t)).
      by rewrite Hprio. }
  assert (¬ waits k t) as Hnw.
  { destruct (im_cpu _ _ Him) as (Qs & Hq & _). apply (not_waiting Qs k t Hq). by rewrite Ht. }
  set (k1 := touch t f3 _) in *.
  assert (∀ u, u ≠ t → stat (thread_at k1 u) = stat (thread_at k u)) as Hoth by (intros; unfold k1; by rewrite !touch_other).
  assert (stat (thread_at k1 t) = RT_THREAD_SUSPEND) as Hsus by (unfold k1; by rewrite touch_same).
  change (rt_current_thread k) with (rt_current_thread k1) in Hcur. change (waits k t) with (waits k1 t) in Hnw.
  clearbody k1. clear Him1 Him2 Hinit.
  rewrite wp_bind. apply (wp_resume s k1 t _ (not_scheduled _ _ Him3) Hsus). intros k3 Hun Hcur3 _ Hoth3.
  unfold rt_thread_self. rewrite wp_bind, wp_gets, Hcur3, Hcur.
  rewrite bool_decide_false by (intros Hx; by apply Hx). rewrite wp_bind. apply wp_when; [done|]. intros _. rewrite wp_ret.
  assert (resumed t s = mk_tasking (now s) (sleeping s) ({[t]} ∪ ready s) (sems s)) as E.
  { unfold resumed. rewrite cancel_not_in by done. f_equal. rewrite <- (im_sems _ _ Him3). by apply unqueue_none. }
  rewrite E in Hun. apply HQ; [apply scheduled; [exact Hun|]|intros u Hu; by rewrite Hoth3, Hoth|by rewrite Hcur3].
  intros Hin. exfalso. rewrite Hcur3, Hcur in Hin. revert Hin.
  apply (cpu_asleep _ k3 NO_THREAD (un_cpu _ _ Hun)). right. by rewrite Hoth3, Hoth.
Qed.

Definition ids (ts : list (nat * Z * Z)) : list nat := (λ x, x.1.1) <$> ts.
Definition startable (x : nat * Z * Z) : Prop := x.1.1 ≠ NO_THREAD ∧ 0 ≤ x.1.2 < 32.

Lemma wp_start_threads ts s k : implements s k → NoDup (ids ts) → Forall startable ts →
  (∀ t, t ∈ ids ts ∨ t = NO_THREAD → stat (thread_at k t) = RT_THREAD_INIT) → rt_current_thread k = NO_THREAD →
  wp (start_threads ts) (λ _ k', implements (mk_tasking (now s) (sleeping s) (list_to_set (ids ts) ∪ ready s) (sems s)) k' ∧
    rt_current_thread k' = NO_THREAD ∧ stat (thread_at k' NO_THREAD) = RT_THREAD_INIT) k.
Proof.
  revert s k. induction ts as [|[[t p] tick] ts IH]; intros s k Him Hnd Hts Hinit Hcur.
  - unfold start_threads. cbn [foldr]. rewrite wp_ret. cbn [ids fmap list_fmap list_to_set].
    rewrite union_empty_l_L. destruct s. auto.
  - inversion Hts as [|? ? [Htn Hp] Hts']; subst. cbn in Htn, Hp. change (ids ((t, p, tick) :: ts)) with (t :: ids ts) in *.
    apply list.NoDup_cons in Hnd as [Ht Hnd].
    cbn [start_threads foldr]. rewrite wp_bind. unfold start_thread. rewrite wp_bind.
    apply (wp_init s); [done|apply Hinit; left; apply list_elem_of_here|done|]. intros k1 Him1 Hk1 Hoth1 Hcur1.
    rewrite wp_bind. apply (wp_startup s k1 t p); [done|by rewrite Hk1|by rewrite Hk1|done|by rewrite Hcur1| |done|].
    { rewrite Hoth1 by done. apply Hinit. by right. }
    intros k2 Him2 Hoth2 Hcur2. rewrite wp_ret. fold start_threads.
    replace (list_to_set (t :: ids ts) ∪ ready s) with (list_to_set (ids ts) ∪ ({[t]} ∪ ready s)) by (symmetry; apply union_swap).
    refine (IH (mk_tasking (now s) (sleeping s) ({[t]} ∪ ready s) (sems s)) k2 Him2 Hnd Hts' _ Hcur2).
    intros u Hu. assert (u ≠ t) as Hut by (intros ->; by destruct Hu as [Hu|Hu]).
    rewrite Hoth2, Hoth1 by done. apply Hinit. destruct Hu as [Hu|Hu]; [left; by apply list_elem_of_further|by right].
Qed.

(** After the start, the threads can all run, and one of them runs. *)
Lemma rtthread_startup_ok ts S : ts ≠ [] → NoDup (ids ts) → Forall startable ts →
  Forall (λ sm, suspend_thread sm = []) S →
  ∃ k, rtthread_startup ts (reset_kernel <| semaphores := S |>) = Ok (tt, k) ∧
    implements (mk_tasking 0 [] (list_to_set (ids ts)) S) k ∧ rt_current_thread k ∈ ids ts.
Proof.
  intros Hne Hnd Hts HS.
  set (k0 := reset_kernel <| semaphores := S |>).
  assert (implements (mk_tasking 0 [] ∅ S) k0) as Him0.
  { split; [|by intros Hx%elem_of_empty| |done|intros t D []%elem_of_nil].
    - exists (λ _, []). split; [split|].
      + done.
      + intros p _. rewrite bool_decide_false by (intros Hx; by apply Hx). apply Z.bits_0.
      + done.
      + intros p t []%elem_of_nil.
      + intros t Hx. by destruct Hx.
      + intros t (sm & Hsm & Ht). change (sm ∈ S) in Hsm. rewrite list.Forall_forall in HS.
        rewrite (HS sm Hsm) in Ht. by apply elem_of_nil in Ht.
      + split; [intros i []%elem_of_nil|]. split; [done|]. intros t. unfold awake. split; [intros []%elem_of_empty|].
        intros [[_ Hx]|[i []%elem_of_nil]]. done.
    - split; try done; [constructor|constructor|intros u D []%elem_of_nil]. }
  assert (wp (rtthread_startup ts) (λ _ k, implements (mk_tasking 0 [] (list_to_set (ids ts)) S) k ∧
    rt_current_thread k ∈ ids ts) k0) as Hw; [|apply wp_ok in Hw as ([] & k & Hrun & Hk); by exists k].
  unfold rtthread_startup. rewrite wp_bind, wp_zoom. unfold rt_system_timer_init. rewrite wp_modify.
  unfold rt_system_scheduler_init. rewrite wp_bind, wp_modify. match goal with |- wp _ _ ?x => change x with k0 end.
  rewrite wp_bind. eapply wp_mono; [apply (wp_start_threads ts _ k0 Him0 Hnd Hts); [|done]; intros t _; done|].
  cbn [now sleeping ready sems]. rewrite union_empty_r_L. intros _ k1 (Him & Hcur & Hnone).
  destruct (im_cpu _ _ Him) as (Q & Hq & Hc & Hl & HA). cbn [ready] in HA.
  assert (∃ p t, t ∈ Q p) as Hsome.
  { destruct ts as [|x ts]; [done|]. destruct (proj1 (HA x.1.1)) as [[-> Hx]|[p Hp]].
    - rewrite elem_of_list_to_set. apply list_elem_of_here.
    - rewrite Hcur, Hnone in Hx. done.
    - by exists p, x.1.1. }
  destruct (scheduler_start_ok Q k1 Hq Hsome) as (Q' & k' & Hrun & Hq' & Hc' & Hhigh & Haw & Hsch).
  { rewrite Hcur. by rewrite Hnone. }
  apply (wp_run _ _ _ tt k' Hrun).
  assert (∀ t, t ∈ (list_to_set (ids ts) : gset nat) ↔ awake Q' k' t) as HA' by (intros t; by rewrite HA, Haw).
  destruct Hhigh as [Hst Hhigh]. split; [split|].
  - exists Q'. split; [done|]. split; [done|]. split; [by rewrite (sch_lock _ _ _ Hsch)|done].
  - intros _ t Ht. by apply Hhigh, HA'.
  - rewrite (sch_timers _ _ _ Hsch). apply Him.
  - rewrite (sch_semaphores _ _ _ Hsch). apply Him.
  - intros t D []%elem_of_nil.
  - apply (elem_of_list_to_set (C := gset nat)), HA'. by left.
Qed.
