(* ===== verification/Tasks.v ===== *)
(** What tasks and the tick interrupt do to the kernel, in any order: the events, and what
    they do to the tasks of Delay.v. *)
From stdpp Require Import functions gmap sets.
From S2P Require Import Prelude Timer Kernel Scheduler Delay Ipc Semaphore.

(** ** What every event keeps *)

(** Nobody sleeps past its deadline; each semaphore is sound, and there are [n] of them. *)
Record sound (n : nat) (s : tasking) : Prop := {
  so_settled : settled s;
  so_sems : sems_ok s;
  so_number : length (sems s) = n;
}.

Lemma unqueue_ok t S : Forall sem_ok S → Forall sem_ok (unqueue t <$> S).
Proof.
  intros HS. apply list.Forall_fmap. eapply list.Forall_impl; [exact HS|]. intros sm (Hf & Hv & Hnd).
  split; [done|]. split; [done|]. cbn. by apply list.NoDup_filter.
Qed.

Lemma sound_asleep n s c d : sound n s → 0 ≤ d → sound n (asleep_until c (now s + d) s).
Proof.
  intros [Hs Hsem Hn] Hd. split; [|exact Hsem|exact Hn].
  intros t D [[= -> ->]|Ht]%schedule_elem; [cbn; lia|by apply (Hs t D)].
Qed.

Lemma sound_wake n s : sems_ok s → length (sems s) = n → sound n (wake s).
Proof.
  intros Hsem Hn. split.
  - intros t D [HD _]%list_elem_of_filter. cbn in *. lia.
  - unfold sems_ok, wake. cbn [sems]. clear Hn. revert Hsem. unfold sems_ok. generalize (sems s).
    induction (due (now s) (sleeping s)) as [|t ts IH]; intros S HS; [done|]. by apply IH, unqueue_ok.
  - rewrite <- Hn. unfold wake. cbn [sems]. clear Hn Hsem. generalize (sems s).
    induction (due (now s) (sleeping s)) as [|t ts IH]; intros S; [done|]. cbn [foldl]. by rewrite IH, length_fmap.
Qed.

Lemma sound_with n s i sm : sound n s → sem_ok sm → sound n (with_sem i sm s).
Proof.
  intros [Hs Hsem Hn] Hsm. split; [exact Hs|by apply Forall_insert|]. cbn. by rewrite length_insert.
Qed.

Lemma sound_resumed n s t : sound n s → sound n (resumed t s).
Proof.
  intros [Hs Hsem Hn]. split; [|by apply unqueue_ok|cbn; by rewrite length_fmap].
  intros x D [_ Hx]%cancel_elem. by apply (Hs x D).
Qed.

Lemma sound_all_resumed n ts s : sound n s → sound n (all_resumed ts s).
Proof. revert s. induction ts as [|t ts IH]; intros s Hs; [done|]. by apply IH, sound_resumed. Qed.

Lemma sound_at n s i sm : sound n s → sems s !! i = Some sm → sem_ok sm.
Proof. intros [_ Hsem _] Hi. unfold sems_ok in Hsem. by eapply list.Forall_lookup_1. Qed.

Lemma sound_take n s c i time : sound n s → (∀ sm, sm ∈ sems s → c ∉ suspend_thread sm) →
  sound n (take_effect c i time s).
Proof.
  intros Hs Hc. unfold take_effect. destruct (sems s !! i) as [sm|] eqn:Hi; [|done].
  destruct (sound_at n s i sm Hs Hi) as (Hf & Hv & Hnd).
  case_decide as Hv0; [apply sound_with; [done|]; split; [done|]; split; [|done]; unfold is_u16 in *; cbn; lia|].
  case_decide; [done|].
  assert (sem_ok (queued c sm)) as Hq.
  { split; [done|]. split; [done|]. apply list.NoDup_app. split; [done|]. split.
    - intros t Ht ->%list_elem_of_singleton. apply (Hc sm); [by eapply list_elem_of_lookup_2|done].
    - apply list.NoDup_singleton. }
  assert (sound n (with_sem i (queued c sm) (without_task c s))) as Hs1.
  { apply sound_with; [|done]. by destruct Hs. }
  cbv zeta. case_decide as Ht; [|done]. destruct Hs1 as [Hset Hsem Hn]. split; [|exact Hsem|exact Hn].
  intros t D [[= -> ->]|Ht']%schedule_elem; [cbn; lia|by apply (Hset t D)].
Qed.

Lemma sound_release n s i : sound n s → sound n (release_effect i s).
Proof.
  intros Hs. unfold release_effect. destruct (sems s !! i) as [sm|] eqn:Hi; [|done].
  destruct (sound_at n s i sm Hs Hi) as (Hf & Hv & Hnd).
  destruct (suspend_thread sm); [|by apply sound_resumed]. case_decide as Hv0; [|done]. apply sound_with; [done|].
  split; [done|]. split; [|constructor]. unfold is_u16, RT_SEM_VALUE_MAX in *. cbn. lia.
Qed.

Lemma sound_reset n s i v : sound n s → sound n (reset_effect i v s).
Proof.
  intros Hs. unfold reset_effect. destruct (sems s !! i) as [sm|] eqn:Hi; [|done].
  destruct (sound_at n s i sm Hs Hi) as (Hf & Hv & Hnd). apply sound_with; [by apply sound_all_resumed|].
  split; [done|]. split; [apply u16_range|constructor].
Qed.

Lemma ready_release s i t : t ∈ ready s → t ∈ ready (release_effect i s).
Proof.
  intros Ht. unfold release_effect. destruct (sems s !! i) as [sm|]; [|done].
  destruct (suspend_thread sm); [by case_decide|]. apply elem_of_union. by right.
Qed.

Lemma ready_reset s i v t : t ∈ ready s → t ∈ ready (reset_effect i v s).
Proof.
  intros Ht. unfold reset_effect. destruct (sems s !! i) as [sm|]; [|done]. cbn [ready with_sem].
  revert s Ht. induction (suspend_thread sm) as [|u ts IH]; intros s Ht; [done|]. apply IH, elem_of_union. by right.
Qed.

(** ** Events *)

(** What the current task does, or an interrupt. [rt_thread_sleep] is [Sleep] and then
    [Schedule]; [rt_thread_delay_until] and [rt_sem_take] are [Until] and [Take] and, if the
    task sleeps or waits, [Schedule]: a tick may come between the two. *)
Inductive event : Type :=
  | Sleep (n : Z)
  | Until (tick inc_tick : Z)
  | Yield
  | Schedule
  | Take (i : nat) (time : Z)
  | Release (i : nat)
  | Reset (i : nat) (v : Z)
  | Tick.

(** Delays are short of half the range of the counter, and there are [n] semaphores. *)
Definition event_ok (n : nat) (e : event) : Prop :=
  match e with
  | Sleep d => 0 ≤ d ≤ MAX_DELAY
  | Until tick inc_tick => inc_tick ≤ MAX_DELAY
  | Take i time => (i < n)%nat ∧ time ≤ MAX_DELAY
  | Release i | Reset i _ => (i < n)%nat
  | _ => True
  end.

Section tasks.
Context `{SoftTimerThread}.
Context (timeout_func : nat → prog kernel unit).
(** The task that always can run. *)
Context (idle : nat).

(** Only a task that runs calls something, and the idle task does not sleep or wait. *)
Definition by_task (m : prog kernel unit) : prog kernel unit :=
  k ← gets id;
  if decide (stat (thread_at k (rt_current_thread k)) = RT_THREAD_RUNNING ∧ rt_current_thread k ≠ idle)
  then m else mret tt.

Definition perform_event (e : event) : prog kernel unit :=
  match e with
  | Sleep n => by_task (suspend_for n)
  | Until tick inc_tick => by_task (_ ← delay_until tick inc_tick; mret tt)
  | Yield => by_task (_ ← rt_thread_yield; mret tt)
  | Schedule => rt_schedule
  | Take i time => by_task (_ ← sem_take (Z.of_nat i) time; mret tt)
  | Release i => _ ← rt_sem_release (Z.of_nat i); mret tt
  | Reset i v => _ ← rt_sem_control (Z.of_nat i) RT_IPC_CMD_RESET v; mret tt
  | Tick => rt_tick_increase timeout_func
  end.
Definition perform_events : list event → prog kernel unit :=
  foldr (λ e m, perform_event e;; m) (mret tt).

(** The same, for tasks and deadlines; [c] is the current task. *)
Definition effect (c : nat) (e : event) (s : tasking) : tasking :=
  match e with
  | Sleep n => if decide (c ∈ ready s ∧ c ≠ idle) then asleep_until c (now s + n) s else s
  | Until tick inc_tick =>
      let elapsed := u32 (now s - tick) in
      if decide ((c ∈ ready s ∧ c ≠ idle) ∧ elapsed < inc_tick)
      then asleep_until c (now s + (inc_tick - elapsed)) s else s
  | Yield | Schedule => s
  | Take i time => if decide (c ∈ ready s ∧ c ≠ idle) then take_effect c i time s else s
  | Release i => release_effect i s
  | Reset i v => reset_effect i v s
  | Tick => wake (later s)
  end.
Fixpoint effects (cs : list nat) (es : list event) (s : tasking) : tasking :=
  match cs, es with
  | c :: cs, e :: es => effects cs es (effect c e s)
  | _, _ => s
  end.

(** ** One event *)

Record healthy (n : nat) (s : tasking) (k : kernel) : Prop := {
  h_implements : implements s k;
  h_sound : sound n s;
  h_idle : idle ∈ ready s;
}.

Lemma healthy_ready n s k : healthy n s k → ready s ≠ ∅.
Proof using. intros [_ _ Hidle] E. rewrite E in Hidle. by apply elem_of_empty in Hidle. Qed.

Lemma wp_by_task s k m (Q : unit → kernel → Prop) : implements s k →
  (rt_current_thread k ∈ ready s ∧ rt_current_thread k ≠ idle → wp m Q k) →
  (¬ (rt_current_thread k ∈ ready s ∧ rt_current_thread k ≠ idle) → Q tt k) →
  wp (by_task m) Q k.
Proof using.
  intros Him Hm Hk. unfold by_task. rewrite wp_bind, wp_gets. unfold id.
  pose proof (cpu_current _ _ (im_cpu _ _ Him)) as Hcur. case_decide as Hd; rewrite <- Hcur in Hd; [by apply Hm|].
  rewrite wp_ret. by apply Hk.
Qed.

Lemma healthy_sleep n s k d : healthy n s k → rt_current_thread k ∈ ready s ∧ rt_current_thread k ≠ idle →
  0 ≤ d ≤ MAX_DELAY →
  wp (suspend_for d) (λ _, healthy n (asleep_until (rt_current_thread k) (now s + d) s)) k.
Proof using.
  intros [Him Hs Hidle] [Hc Hne] Hd. eapply wp_mono; [exact (wp_suspend_for s k d Him Hc Hd)|].
  intros _ k' [Him' _]. split; [done|apply sound_asleep; [done|apply Hd]|].
  apply elem_of_difference. split; [done|]. by rewrite elem_of_singleton.
Qed.

Lemma healthy_until n s k tick inc (c := rt_current_thread k) : healthy n s k → c ∈ ready s ∧ c ≠ idle →
  inc ≤ MAX_DELAY →
  wp (_ ← delay_until tick inc; mret tt) (λ _, healthy n (effect c (Until tick inc) s)) k.
Proof using.
  intros Hh Hc Hinc. pose proof (h_implements _ _ _ Hh) as Him. cbn [effect]. cbv zeta.
  unfold delay_until. rewrite !wp_bind, wp_zoom. unfold rt_tick_get. rewrite wp_gets.
  replace (k <| k_timers := k_timers k |>) with k by (by destruct k).
  rewrite (rep_tick _ _ _ (im_timers _ _ Him)).
  assert (u32 (u32 (now s) - tick) = u32 (now s - tick)) as Hel by (unfold u32; clear; lia). rewrite Hel.
  destruct (decide (u32 (now s - tick) < inc)) as [Hlt|Hge].
  - rewrite (decide_True (P := _ ∧ _)) by done. pose proof (u32_range (now s - tick)) as Hr. unfold is_u32 in Hr.
    replace (u32 (u32 (tick + inc) - u32 (now s))) with (inc - u32 (now s - tick))
      by (clear - Hlt Hinc Hr; unfold MAX_DELAY, u32 in *; lia).
    rewrite wp_bind. eapply wp_mono; [apply (healthy_sleep n s k); [done|done|clear - Hlt Hinc Hr; lia]|].
    intros [] k' Hk'. by rewrite !wp_ret.
  - rewrite (decide_False (P := _ ∧ _)) by (by intros [_ ?]). by rewrite !wp_ret.
Qed.

Lemma healthy_take n s k i time (c := rt_current_thread k) : healthy n s k → c ∈ ready s ∧ c ≠ idle →
  (i < n)%nat → time ≤ MAX_DELAY →
  wp (_ ← sem_take (Z.of_nat i) time; mret tt) (λ _, healthy n (take_effect c i time s)) k.
Proof using.
  intros [Him Hs Hidle] [Hc Hne] Hi Htime. rewrite <- (so_number _ _ Hs) in Hi.
  apply lookup_lt_is_Some_2 in Hi as [sm Hi].
  rewrite wp_bind. eapply wp_mono; [exact (wp_sem_take s k i sm time Him Hc Hi (sound_at n s i sm Hs Hi) Htime)|].
  intros r k' (Him' & _ & _). rewrite wp_ret. split; [exact Him'| |].
  - apply sound_take; [done|]. intros sm' Hsm' Hin. apply (ready_not_waiting _ k c (im_cpu _ _ Him) Hc).
    exists sm'. by rewrite (im_sems _ _ Him).
  - unfold take_effect. rewrite Hi. case_decide; [done|]. case_decide; [done|]. cbv zeta.
    assert (idle ∈ ready s ∖ {[c]}) as Hid by (apply elem_of_difference; split; [done|]; by rewrite elem_of_singleton).
    case_decide; exact Hid.
Qed.

Lemma wp_event n e s k : healthy n s k → event_ok n e →
  wp (perform_event e) (λ _, healthy n (effect (rt_current_thread k) e s)) k.
Proof using.
  intros Hh He. pose proof Hh as [Him Hs Hidle]. set (c := rt_current_thread k) in *.
  pose proof (healthy_ready n s k Hh) as Hne.
  assert (∀ i, (i < n)%nat → ∃ sm, sems s !! i = Some sm ∧ sem_ok sm) as Hsem.
  { intros i Hi. rewrite <- (so_number _ _ Hs) in Hi. apply lookup_lt_is_Some_2 in Hi as [sm Hi].
    exists sm. split; [done|]. by apply (sound_at n s i). }
  destruct e as [d|tick inc| | |i time|i|i v|]; cbn [perform_event event_ok] in *.
  - apply (wp_by_task s); [done| |]; intros Hc; cbn [effect].
    + rewrite decide_True by done. by apply healthy_sleep.
    + by rewrite decide_False.
  - apply (wp_by_task s); [done| |]; intros Hc; [by apply healthy_until|].
    cbn [effect]. cbv zeta. by rewrite decide_False by (intros [Hx _]; exact (Hc Hx)).
  - apply (wp_by_task s); [done| |done]. intros _. unfold rt_thread_yield, rt_thread_self, set_thread.
    rewrite !wp_bind, wp_gets, wp_bind, wp_modify. fold c.
    match goal with |- wp _ _ ?x => change x with
      (touch c (λ r, r <| remaining_tick := th_init_tick r |> <| th_stat := Z.lor (th_stat r) RT_THREAD_STAT_YIELD |>) k) end.
    rewrite wp_bind. eapply wp_mono; [apply (wp_schedule_implements s); [|done]|].
    + apply implements_touch; [done|]. intros r. do 2 (split; [done|]). apply stat_yield.
    + intros [] k' [Hk' _]. by rewrite !wp_ret.
  - eapply wp_mono; [by apply (wp_schedule_implements s)|]. by intros _ k' [Hk' _].
  - apply (wp_by_task s); [done| |]; intros Hc; cbn [effect].
    + rewrite decide_True by done. by apply healthy_take; [| |apply He|apply He].
    + by rewrite decide_False.
  - destruct (Hsem i He) as (sm & Hi & Hsm). rewrite wp_bind.
    eapply wp_mono; [exact (wp_sem_release s k i sm Him Hne Hi Hsm)|]. intros r k' [Him' _]. rewrite wp_ret.
    split; [exact Him'|by apply sound_release|by apply ready_release].
  - destruct (Hsem i He) as (sm & Hi & Hsm). rewrite wp_bind.
    eapply wp_mono; [exact (wp_sem_control s k i sm v Him Hne Hi Hsm)|]. intros r k' [Him' _]. rewrite wp_ret.
    split; [exact Him'|by apply sound_reset|by apply ready_reset].
  - eapply wp_mono; [apply (wp_tick timeout_func s); [done|apply Hs|done]|]. intros _ k' [Hk' _].
    split; [done|apply sound_wake; apply Hs|].
    apply elem_of_union. by right.
Qed.

(** ** Many events *)

Lemma wp_events n es s k : healthy n s k → Forall (event_ok n) es →
  wp (perform_events es) (λ _ k', ∃ cs, length cs = length es ∧ healthy n (effects cs es s) k') k.
Proof using.
  revert s k. induction es as [|e es IH]; intros s k Hh Hes; unfold perform_events; cbn [foldr].
  - rewrite wp_ret. by exists [].
  - inversion Hes as [|? ? He Hes']; subst. rewrite wp_bind. eapply wp_mono; [exact (wp_event n e s k Hh He)|].
    intros [] k1 Hk1. eapply wp_mono; [exact (IH _ k1 Hk1 Hes')|]. intros [] k2 (cs & Hcs & Hk2).
    exists (rt_current_thread k :: cs). split; [cbn; by rewrite Hcs|done].
Qed.
End tasks.
