(* ===== verification/Sleep.v ===== *)
(** A task that sleeps: the kernel as a whole refines the tasks of Delay.v, and a task that
    sleeps wakes at its tick, whatever happens meanwhile. *)
From stdpp Require Import functions gmap sets.
From S2P Require Import Prelude Timer Kernel Scheduler Delay Ipc Semaphore Boot Tasks.

(** ** A task that sleeps and does nothing else *)

Fixpoint ticks (es : list event) : Z :=
  match es with
  | [] => 0
  | Tick :: es => 1 + ticks es
  | _ :: es => ticks es
  end.

Lemma ticks_nonneg es : 0 ≤ ticks es.
Proof. induction es as [|[] es IH]; cbn; lia. Qed.

Record dozing (u : nat) (D : Z) (s : tasking) : Prop := {
  dz_in : (thread_timer u, D) ∈ sleeping s;
  dz_only D' : (thread_timer u, D') ∈ sleeping s → D' = D;
  dz_ready : u ∉ ready s;
  dz_waits sm : sm ∈ sems s → u ∉ suspend_thread sm;
}.

Lemma dozing_set u D s i sm : dozing u D s → u ∉ suspend_thread sm → dozing u D (with_sem i sm s).
Proof.
  intros [Hin Honly Hr Hw] Hsm. split; [done|done|done|]. intros sm' Hsm'.
  apply list_elem_of_lookup in Hsm' as [j Hj]. cbn in Hj. apply list_lookup_insert_Some in Hj as [(_ & <- & _)|[_ Hj]]; [done|].
  apply Hw. by eapply list_elem_of_lookup_2.
Qed.

Lemma dozing_at u D s i sm : dozing u D s → sems s !! i = Some sm → u ∉ suspend_thread sm.
Proof. intros Hd Hi. apply (dz_waits _ _ _ Hd). by eapply list_elem_of_lookup_2. Qed.

Lemma dozing_unqueue u t (S : list semaphore) : (∀ sm, sm ∈ S → u ∉ suspend_thread sm) →
  ∀ sm, sm ∈ unqueue t <$> S → u ∉ suspend_thread sm.
Proof.
  intros HS sm (sm' & -> & Hsm')%list_elem_of_fmap Hu. change (u ∈ dequeue t (suspend_thread sm')) in Hu.
  apply dequeue_elem in Hu as [_ Hu]. by apply (HS sm').
Qed.

Lemma dozing_leave u D c D' s : dozing u D s → c ≠ u → dozing u D (asleep_until c D' s).
Proof.
  intros [Hin Honly Hr Hw] Hc. split; [apply schedule_elem; by right| | |exact Hw].
  - intros D2 [[= -> _]|H2]%schedule_elem; [done|by apply Honly].
  - intros [Hx _]%elem_of_difference. done.
Qed.

Lemma dozing_resumed u D t s : dozing u D s → t ≠ u → dozing u D (resumed t s).
Proof.
  intros [Hin Honly Hr Hw] Ht. split.
  - apply cancel_elem. split; [by intros [= ->]|done].
  - intros D2 [_ H2]%cancel_elem. by apply Honly.
  - intros [Hx%elem_of_singleton|Hx]%elem_of_union; [by rewrite Hx in Ht|done].
  - apply dozing_unqueue, Hw.
Qed.

Lemma dozing_wake u D s : dozing u D s → now s < D → dozing u D (wake s).
Proof.
  intros [Hin Honly Hr Hw] HD. split.
  - by apply list_elem_of_filter.
  - intros D2 [_ H2]%list_elem_of_filter. by apply Honly.
  - intros [Hx%(elem_of_list_to_set (C := gset nat))|Hx]%elem_of_union; [|done].
    apply list_elem_of_bind in Hx as ([t D2] & Hu & [H2 Hx]%list_elem_of_filter).
    destruct t as [v|v]; cbn in Hu; [|by apply elem_of_nil in Hu].
    apply list_elem_of_singleton in Hu as <-. apply Honly in Hx as ->. cbn in H2. lia.
  - unfold wake. cbn [sems]. revert Hw. generalize (sems s).
    induction (due (now s) (sleeping s)) as [|t ts IH]; intros S HS; [exact HS|]. by apply IH, dozing_unqueue.
Qed.

Lemma dozing_take u D c i time s : dozing u D s → c ≠ u → dozing u D (take_effect c i time s).
Proof.
  intros Hd Hc. unfold take_effect. destruct (sems s !! i) as [sm|] eqn:Hi; [|done].
  pose proof (dozing_at u D s i sm Hd Hi) as Hsm.
  case_decide; [by apply dozing_set|]. case_decide; [done|].
  assert (dozing u D (with_sem i (queued c sm) (without_task c s))) as Hd1.
  { apply dozing_set.
    - destruct Hd as [Hin Honly Hr Hw]. split; [done|done| |done]. intros [Hx _]%elem_of_difference. done.
    - intros [Hx|Hx%list_elem_of_singleton]%elem_of_app; [done|by rewrite Hx in Hc]. }
  cbv zeta. case_decide; [|done]. destruct Hd1 as [Hin Honly Hr Hw]. split; [apply schedule_elem; by right| |done|done].
  intros D2 [[= -> _]|H2]%schedule_elem; [done|by apply Honly].
Qed.

Lemma dozing_release u D i s : dozing u D s → dozing u D (release_effect i s).
Proof.
  intros Hd. unfold release_effect. destruct (sems s !! i) as [sm|] eqn:Hi; [|done].
  pose proof (dozing_at u D s i sm Hd Hi) as Hsm. destruct (suspend_thread sm) as [|t l].
  - case_decide; [apply dozing_set; [done|apply not_elem_of_nil]|done].
  - apply dozing_resumed; [done|]. intros ->. apply Hsm, list_elem_of_here.
Qed.

Lemma dozing_reset u D i v s : dozing u D s → dozing u D (reset_effect i v s).
Proof.
  intros Hd. unfold reset_effect. destruct (sems s !! i) as [sm|] eqn:Hi; [|done].
  pose proof (dozing_at u D s i sm Hd Hi) as Hsm. apply dozing_set; [|apply not_elem_of_nil].
  clear Hi. revert s Hd. induction (suspend_thread sm) as [|t l IH]; intros s Hd; [done|].
  apply not_elem_of_cons in Hsm as [Ht Hl]. cbn [all_resumed foldl]. apply (IH Hl). by apply dozing_resumed.
Qed.

(** How it begins. *)
Lemma falls_asleep s k c D : implements s k → c ∈ ready s → dozing c D (asleep_until c D s).
Proof.
  intros Him Hc. pose proof (sleeping_not_ready s k c Him Hc) as Hsl. split.
  - apply schedule_elem. by left.
  - intros D' [[= ->]|HD']%schedule_elem; [done|]. exfalso. apply Hsl, list_elem_of_fmap. by exists (thread_timer c, D').
  - intros [_ Hx]%elem_of_difference. by apply Hx, elem_of_singleton.
  - intros sm Hsm Hin. apply (ready_not_waiting _ k c (im_cpu _ _ Him) Hc). exists sm. by rewrite (im_sems _ _ Him).
Qed.

Section tasks.
Context `{SoftTimerThread}.
Context (timeout_func : nat → prog kernel unit) (idle : nat).

Lemma now_release i s : now (release_effect i s) = now s.
Proof using.
  unfold release_effect. destruct (sems s !! i) as [sm|]; [|done]. destruct (suspend_thread sm); [by case_decide|done].
Qed.

Lemma now_reset i v s : now (reset_effect i v s) = now s.
Proof using.
  unfold reset_effect. destruct (sems s !! i) as [sm|]; [|done]. cbn [now with_sem].
  revert s. induction (suspend_thread sm) as [|t l IH]; intros s; [done|]. exact (IH (resumed t s)).
Qed.

Lemma now_take c i time s : now (take_effect c i time s) = now s.
Proof using.
  unfold take_effect. destruct (sems s !! i) as [sm|]; [|done]. do 2 (case_decide; [done|]). cbv zeta. by case_decide.
Qed.

(** What sleeps stays asleep while it is not due. *)
Lemma effect_keeps c e s u D : dozing u D s → (e = Tick → now s + 1 < D) →
  dozing u D (effect idle c e s) ∧ now (effect idle c e s) = now s + ticks [e].
Proof using.
  clear timeout_func H. intros Hd HD. assert (c ∈ ready s → c ≠ u) as Hc by (intros Hc ->; by apply (dz_ready _ _ _ Hd)).
  destruct e as [d|tick inc| | |i time|i|i v|]; cbn [effect ticks]; rewrite ?Z.add_0_r; try done.
  - case_decide as Hd'; [|done]. split; [by apply dozing_leave, Hc, Hd'|done].
  - cbv zeta. case_decide as Hd'; [|done]. split; [by apply dozing_leave, Hc, Hd'|done].
  - case_decide as Hd'; [|done]. split; [by apply dozing_take, Hc, Hd'|apply now_take].
  - split; [by apply dozing_release|apply now_release].
  - split; [by apply dozing_reset|apply now_reset].
  - split; [|cbn; lia]. apply dozing_wake; [by destruct Hd|]. by apply HD.
Qed.

Lemma effects_keep cs es s u D : length cs = length es → dozing u D s →
  (ticks es = 0 ∨ now s + ticks es < D) →
  dozing u D (effects idle cs es s) ∧ now (effects idle cs es s) = now s + ticks es.
Proof using.
  clear timeout_func H. revert cs s. induction es as [|e es IH]; intros [|c cs] s Hlen Hd HD; try done; cbn [effects].
  - cbn. by rewrite Z.add_0_r.
  - assert (ticks (e :: es) = ticks [e] + ticks es) as Hadd by (destruct e; cbn [ticks]; lia).
    pose proof (ticks_nonneg es) as Hpos.
    destruct (effect_keeps c e s u D Hd) as [Hd1 Hnow].
    { intros ->. cbn [ticks] in *. lia. }
    destruct (IH cs (effect idle c e s)) as [Hd2 Hnow2]; [by inversion Hlen|done| |].
    + rewrite Hnow. destruct e; cbn [ticks] in *; lia.
    + split; [done|]. rewrite Hnow2, Hnow. lia.
Qed.

(** A task that is due is awake after the tick, and a task of the highest priority runs. *)
Lemma tick_wakes n s k u D : healthy idle n s k → (thread_timer u, D) ∈ sleeping s → D ≤ now s + 1 →
  ∃ k', rt_tick_increase timeout_func k = Ok (tt, k') ∧
    let r := thread_at k' (rt_current_thread k') in
    (stat (thread_at k' u) = RT_THREAD_READY ∨ u = rt_current_thread k') ∧ stat r = RT_THREAD_RUNNING ∧
    current_priority r ≤ current_priority (thread_at k' u).
Proof using.
  intros Hh Hu HD. pose proof (healthy_ready idle n s k Hh) as Hne. destruct Hh as [Him Hs Hidle].
  destruct (proj1 (wp_ok _ _ _) (wp_tick timeout_func s k Him (so_settled _ _ Hs) Hne)) as ([] & k' & Hrun & Him' & Hcur).
  exists k'. split; [done|]. cbv zeta.
  assert (rt_current_thread k' ∈ ready (wake (later s))) as Hc.
  { apply Hcur. exists (thread_timer u), D. by split. }
  assert (u ∈ ready (wake (later s))) as Hu'.
  { apply elem_of_union. left. apply (elem_of_list_to_set (C := gset nat)), list_elem_of_bind.
    exists (thread_timer u, D). split; [apply list_elem_of_singleton; done|]. by apply list_elem_of_filter. }
  split; [|split].
  - destruct (cpu_stat _ _ u (im_cpu _ _ Him') Hu') as [[_ ?]|?]; [by right|by left].
  - by apply (cpu_current _ _ (im_cpu _ _ Him')).
  - by apply (im_first _ _ Him').
Qed.
End tasks.

(** ** The kernel *)

(** C15: from the start on, whatever tasks and interrupts do, the kernel does to its queues, its
    bit map, its list of timers and its semaphores what setting deadlines, waking those that
    are due and handing semaphores on does to a set of tasks, and no assertion fails; the
    counter of ticks may wrap around. [S] are the semaphores as they have been initialised. *)
Theorem kernel_refines_tasking `{SoftTimerThread} timeout_func idle threads S es :
  let s := mk_tasking 0 [] (list_to_set (ids threads)) S in
  NoDup (ids threads) → Forall startable threads → idle ∈ ids threads →
  Forall sem_ok S → Forall (λ sm, suspend_thread sm = []) S → Forall (event_ok (length S)) es →
  ∃ k cs, (rtthread_startup threads;; perform_events timeout_func idle es) (reset_kernel <| semaphores := S |>) = Ok (tt, k) ∧
    length cs = length es ∧ implements (effects idle cs es s) k ∧ idle ∈ ready (effects idle cs es s).
Proof.
  intros s Hnd Hts Hidle HS Hnone Hes.
  destruct (rtthread_startup_ok threads S) as (k0 & Hrun & Him & _); [by intros ->; apply elem_of_nil in Hidle|done|done|done|].
  assert (healthy idle (length S) s k0) as Hh.
  { split; [done|split; [by intros t D []%elem_of_nil|exact HS|done]|by apply (elem_of_list_to_set (C := gset nat))]. }
  destruct (proj1 (wp_ok _ _ _) (wp_events timeout_func idle _ es _ k0 Hh Hes)) as ([] & k & Hevents & cs & Hcs & Hk).
  exists k, cs. split; [unfold mbind, prog_bind; by rewrite Hrun|]. split; [done|]. split; [apply Hk|apply Hk].
Qed.

(** C14: a task that sleeps for some milliseconds is suspended until that many ticks have
    passed, whatever other tasks do meanwhile and however the ticks fall, and wakes at the
    last of them; then a task runs that is at least as urgent. *)
Theorem sleep_wakes_on_time `{SoftTimerThread} timeout_func idle n s k ms es (c := rt_current_thread k) :
  healthy idle n s k → c ∈ ready s → c ≠ idle → 0 ≤ ms ≤ MAX_DELAY →
  Forall (event_ok n) es → ticks es < Z.max 1 ms →
  ∃ k', perform_events timeout_func idle (Sleep (rt_tick_from_millisecond ms) :: es) k = Ok (tt, k') ∧
    stat (thread_at k' c) = RT_THREAD_SUSPEND ∧
    (ticks es + 1 = Z.max 1 ms →
      ∃ k'', rt_tick_increase timeout_func k' = Ok (tt, k'') ∧
        let r := thread_at k'' (rt_current_thread k'') in
        (stat (thread_at k'' c) = RT_THREAD_READY ∨ c = rt_current_thread k'') ∧
        stat r = RT_THREAD_RUNNING ∧ current_priority r ≤ current_priority (thread_at k'' c)).
Proof.
  intros Hh Hc Hidle Hms Hes Hticks. rewrite tick_from_ms by (unfold MAX_DELAY in Hms; lia).
  pose proof (h_implements _ _ _ _ Hh) as Him.
  destruct (proj1 (wp_ok _ _ _) (wp_event timeout_func idle n (Sleep ms) s k Hh Hms)) as ([] & k1 & Hrun1 & Hh1).
  cbn [effect] in Hh1. fold c in Hh1. rewrite decide_True in Hh1 by done.
  pose proof (falls_asleep s k c (now s + ms) Him Hc) as Hd.
  destruct (proj1 (wp_ok _ _ _) (wp_events timeout_func idle n es _ k1 Hh1 Hes)) as ([] & k' & Hrun & cs & Hcs & Hk').
  pose proof (ticks_nonneg es) as Hpos.
  destruct (effects_keep idle cs es _ _ _ Hcs Hd) as [Hd' Hnow]; [cbn [now asleep_until]; lia|].
  pose proof (dz_in _ _ _ Hd') as Hin. exists k'. split; [|split].
  - unfold perform_events in *. cbn [foldr]. unfold mbind, prog_bind in *. by rewrite Hrun1.
  - destruct (im_asleep _ _ (h_implements _ _ _ _ Hk') _ _ Hin) as (u & [= <-] & Hu). exact Hu.
  - intros Hlast. apply (tick_wakes timeout_func idle n _ k' c (now s + ms) Hk' Hin).
    rewrite Hnow. cbn [now asleep_until]. lia.
Qed.

(** The main thread, the one of the soft timers and the idle thread; the semaphore of the
    heap. *)
Definition main_threads : list (nat * Z * Z) := [(1%nat, 10, 20); (2%nat, 4, 10); (3%nat, 31, 32)].
Definition main_semaphores : list semaphore := [mk_semaphore [] 1 RT_IPC_FLAG_FIFO].
Definition main_kernel : kernel :=
  match rtthread_startup main_threads (reset_kernel <| semaphores := main_semaphores |>) with
  | Ok (_, k) => k
  | Fault _ => reset_kernel
  end.
Definition no_timeouts (n : nat) : prog kernel unit := mret tt.

Lemma main_threads_ok : NoDup (ids main_threads) ∧ Forall startable main_threads.
Proof.
  split; [apply (bool_decide_unpack _); vm_compute; exact I|]. unfold startable, main_threads.
  repeat constructor; cbn; done || lia.
Qed.

Lemma main_semaphores_ok :
  Forall sem_ok main_semaphores ∧ Forall (λ sm, suspend_thread sm = []) main_semaphores.
Proof.
  split; (apply Forall_cons; [|apply Forall_nil_2]); [|done]. split; [done|]. split; [by vm_compute|constructor].
Qed.

(** The events of a run in which the soft timers' thread takes the semaphore and sleeps, and
    the main thread waits for it. *)
Definition main_events : list event :=
  [Take 0 (-1); Sleep 2; Tick; Schedule; Take 0 5; Schedule; Tick; Yield; Release 0; Tick].

Lemma kernel_refines_tasking_witness :
  ∃ k cs, (rtthread_startup main_threads;; perform_events (H := 2%nat) no_timeouts 3 main_events)
      (reset_kernel <| semaphores := main_semaphores |>) = Ok (tt, k) ∧
    length cs = 10%nat ∧
    implements (effects 3 cs main_events (mk_tasking 0 [] (list_to_set [1%nat; 2%nat; 3%nat]) main_semaphores)) k ∧
    3%nat ∈ ready (effects 3 cs main_events (mk_tasking 0 [] (list_to_set [1%nat; 2%nat; 3%nat]) main_semaphores)).
Proof.
  apply (kernel_refines_tasking (H := 2%nat) no_timeouts 3 main_threads main_semaphores main_events);
    [apply main_threads_ok|apply main_threads_ok| |apply main_semaphores_ok|apply main_semaphores_ok|].
  - do 2 apply list_elem_of_further. apply list_elem_of_here.
  - repeat constructor; cbn; unfold MAX_DELAY; lia.
Defined.

(** The thread of the soft timers sleeps for 3 ms. *)
Lemma sleep_wakes_on_time_witness :
  rt_current_thread main_kernel = 2%nat ∧
  ∃ k', perform_events (H := 2%nat) no_timeouts 3 [Sleep 3; Schedule; Tick; Sleep 9; Tick; Schedule] main_kernel = Ok (tt, k') ∧
    stat (thread_at k' 2) = RT_THREAD_SUSPEND ∧
    ∃ k'', rt_tick_increase (H := 2%nat) no_timeouts k' = Ok (tt, k'') ∧
      (stat (thread_at k'' 2) = RT_THREAD_READY ∨ 2%nat = rt_current_thread k'').
Proof.
  split; [vm_compute; reflexivity|].
  destruct (rtthread_startup_ok main_threads main_semaphores) as (k & Hrun & Him & _);
    [done|apply main_threads_ok|apply main_threads_ok|apply main_semaphores_ok|].
  assert (main_kernel = k) as E by (unfold main_kernel; rewrite Hrun; reflexivity).
  assert (rt_current_thread k = 2%nat) as Hc by (rewrite <- E; vm_compute; reflexivity).
  destruct (sleep_wakes_on_time (H := 2%nat) no_timeouts 3 1 (mk_tasking 0 [] (list_to_set (ids main_threads)) main_semaphores) k 3
    [Schedule; Tick; Sleep 9; Tick; Schedule]) as (k' & Hrun' & Hst & Hlast).
  - split; [exact Him|split; [by intros t D []%elem_of_nil|apply main_semaphores_ok|reflexivity]|].
    apply (bool_decide_unpack _); vm_compute; exact I.
  - rewrite Hc. apply (bool_decide_unpack _); vm_compute; exact I.
  - by rewrite Hc.
  - unfold MAX_DELAY; lia.
  - repeat constructor; cbn; unfold MAX_DELAY; lia.
  - reflexivity.
  - rewrite Hc in Hst, Hlast. exists k'. rewrite E. split; [exact Hrun'|]. split; [exact Hst|].
    destruct (Hlast eq_refl) as (k'' & Htick & Hready & _). exists k''. split; [exact Htick|exact Hready].
Defined.
