(* ===== verification/Lock.v ===== *)
(** The semaphore around the heap (rt-thread/src/mem.c) under preemption: tasks that take it,
    work, sleep and release it. The heap's operations of Mem.v run one at a time. *)
From stdpp Require Import functions gmap sets.
From S2P Require Import Prelude Timer Kernel Scheduler Delay Ipc Semaphore Boot Tasks Sleep.

(** ** Tasks that use the heap *)

(** The kernel, and the tasks between their call of rt_sem_take and their call of
    rt_sem_release. *)
Record users := mk_users { u_kernel : kernel; inside : gset nat }.
#[export] Instance eta_users : Eta users := λ u, mk_users (u_kernel u) (inside u).

Definition heap_sem : nat := 0.

Inductive use : Type :=
  | Lock
  | Unlock
  | Event (e : event).

(** Between the two calls anything may happen that has to do with no semaphore. *)
Definition plain (e : event) : Prop :=
  match e with Take _ _ | Release _ | Reset _ _ => False | _ => event_ok 1 e end.
Definition use_ok (u : use) : Prop := match u with Event e => plain e | _ => True end.

Section lock.
Context `{SoftTimerThread}.
Context (timeout_func : nat → prog kernel unit) (idle : nat).

Definition perform_use (a : use) : prog users unit :=
  u ← gets id;
  let c := rt_current_thread (u_kernel u) in
  let runs := bool_decide (stat (thread_at (u_kernel u) c) = RT_THREAD_RUNNING ∧ c ≠ idle) in
  match a with
  | Lock =>
      when (runs && bool_decide (c ∉ inside u))
        (zoom u_kernel (_ ← sem_take (Z.of_nat heap_sem) RT_WAITING_FOREVER; mret tt);;
         modify (λ u, u <| inside := ({[c]} ∪ inside u) |>))
  | Unlock =>
      when (runs && bool_decide (c ∈ inside u))
        (zoom u_kernel (_ ← rt_sem_release (Z.of_nat heap_sem); mret tt);;
         modify (λ u, u <| inside := (inside u ∖ {[c]}) |>))
  | Event e => zoom u_kernel (perform_event timeout_func idle e)
  end.
Definition perform_uses : list use → prog users unit := foldr (λ a m, perform_use a;; m) (mret tt).

(** From the initialisation of the heap on. *)
Definition start_users (threads : list (nat * Z * Z)) : prog users unit :=
  zoom u_kernel (_ ← rt_sem_init (Z.of_nat heap_sem) 1 RT_IPC_FLAG_FIFO; rtthread_startup threads).

(** ** The invariant *)

Lemma leave_line (o : nat) (X : gset nat) : o ∉ X → ({[o]} ∪ X) ∖ {[o]} = X.
Proof.
  intros Ho. apply set_eq. intros t. rewrite elem_of_difference, elem_of_union, elem_of_singleton.
  split; [intros [[?|?] ?]; done|]. intros Ht. split; [by right|]. by intros ->.
Qed.

Lemma not_in_line (c : nat) (X : gset nat) (W : list nat) o :
  X = {[o]} ∪ list_to_set W → c ∈ X → c ∉ W → c = o.
Proof. intros -> [Hc%elem_of_singleton|Hc%(elem_of_list_to_set (C := gset nat))]%elem_of_union; done. Qed.

(** Nobody is inside and the semaphore is free, or one has it and the others wait in line,
    without a deadline. *)
Record line_up (W : list nat) (v : Z) (ins : gset nat) (s : tasking) : Prop := {
  lu_sem : sems s = [mk_semaphore W v RT_IPC_FLAG_FIFO];
  lu_holder : (v = 1 ∧ W = [] ∧ ins = ∅) ∨ (v = 0 ∧ (∃ o, (o ∉ W) ∧ ins = ({[o]} ∪ list_to_set W : gset nat)));
  lu_forever w : w ∈ W → thread_timer w ∉ (sleeping s).*1;
}.

Definition orderly (u : users) (s : tasking) : Prop :=
  healthy idle 1 s (u_kernel u) ∧ ∃ W v, line_up W v (inside u) s.

Lemma ready_not_in_line W v ins n s k c : healthy idle n s k → line_up W v ins s → c ∈ ready s → c ∉ W.
Proof using.
  intros Hh Hl Hc HW. apply (ready_not_waiting _ k c (im_cpu _ _ (h_implements _ _ _ _ Hh)) Hc).
  exists (mk_semaphore W v RT_IPC_FLAG_FIFO). rewrite (im_sems _ _ (h_implements _ _ _ _ Hh)), (lu_sem _ _ _ _ Hl).
  split; [apply list_elem_of_here|done].
Qed.

Lemma line_up_enter W v ins s k c : healthy idle 1 s k → line_up W v ins s → c ∈ ready s → c ∉ ins →
  ∃ W' v', line_up W' v' ({[c]} ∪ ins) (take_effect c heap_sem RT_WAITING_FOREVER s).
Proof using.
  clear timeout_func. intros Hh Hl Hc Hins. pose proof (ready_not_in_line _ _ _ _ _ _ _ Hh Hl Hc) as HcW.
  pose proof (sleeping_not_ready s k c (h_implements _ _ _ _ Hh) Hc) as Hsl.
  destruct Hl as [Hsem Hhold Hfor]. unfold take_effect. rewrite Hsem. cbn [lookup list_lookup heap_sem value].
  destruct Hhold as [(-> & -> & ->)|(-> & o & Ho & ->)].
  - rewrite decide_True by done. exists [], 0. split; [cbn; by rewrite Hsem| |by intros w []%elem_of_nil].
    right. split; [done|]. exists c. split; [done|]. by cbn.
  - rewrite decide_False, decide_False by done. cbv zeta. rewrite decide_False by done.
    exists (W ++ [c]), 0. split; [cbn; by rewrite Hsem| |].
    + right. split; [done|]. exists o. split.
      * intros [?|Hx%list_elem_of_singleton]%elem_of_app; [done|]. subst c. by apply Hins, elem_of_union; left; apply elem_of_singleton.
      * rewrite list_to_set_app_L. cbn. rewrite union_empty_r_L, (union_comm_L _ {[c]}), union_assoc_L. apply union_swap.
    + intros w [Hw|Hx%list_elem_of_singleton]%elem_of_app; [by apply Hfor|by subst w].
Qed.

Lemma line_up_leave W v ins s k c : healthy idle 1 s k → line_up W v ins s → c ∈ ready s → c ∈ ins →
  ∃ W' v', line_up W' v' (ins ∖ {[c]}) (release_effect heap_sem s).
Proof using.
  clear timeout_func. intros Hh Hl Hc Hins. pose proof (ready_not_in_line _ _ _ _ _ _ _ Hh Hl Hc) as HcW.
  pose proof (sound_at 1 s 0 (mk_semaphore W v RT_IPC_FLAG_FIFO) (h_sound _ _ _ _ Hh) ltac:(by rewrite (lu_sem _ _ _ _ Hl)))
    as (_ & _ & Hnd). cbn in Hnd.
  destruct Hl as [Hsem Hhold Hfor]. unfold release_effect. rewrite Hsem. cbn [lookup list_lookup heap_sem value suspend_thread].
  destruct Hhold as [(-> & -> & ->)|(-> & o & Ho & ->)]; [by apply elem_of_empty in Hins|].
  pose proof (not_in_line c _ W o eq_refl Hins HcW) as ->.
  destruct W as [|w W].
  - rewrite decide_True by done. exists [], 1. split; [cbn; by rewrite Hsem| |by intros w []%elem_of_nil].
    left. split; [done|]. split; [done|]. apply leave_line, not_elem_of_empty.
  - exists W, 0. pose proof Hnd as [HwW _]%list.NoDup_cons. split.
    + cbn [sems resumed]. rewrite Hsem. cbn [fmap list_fmap]. f_equal. by apply unqueue_head.
    + right. split; [done|]. exists w. split; [done|].
      by rewrite leave_line, list_to_set_cons by (by rewrite (elem_of_list_to_set (C := gset nat))).
    + intros w' Hw' Hin. cbn [sleeping resumed] in Hin. rewrite cancel_fst in Hin. apply without_in in Hin as [_ Hin].
      apply (Hfor w'); [by apply list_elem_of_further|done].
Qed.

(** Who waits without a deadline is not woken by the clock. *)
Lemma wake_line W v s : sems s = [mk_semaphore W v RT_IPC_FLAG_FIFO] →
  (∀ w, w ∈ W → thread_timer w ∉ (sleeping s).*1) → sems (wake s) = sems s.
Proof using.
  clear timeout_func idle H. intros Hsem Hfor. unfold wake. cbn [sems]. rewrite Hsem.
  assert (∀ u, u ∈ due (now s) (sleeping s) → u ∉ W) as Hdue.
  { intros u ([t D] & Hu & [_ Hx]%list_elem_of_filter)%list_elem_of_bind HW.
    destruct t as [t|t]; cbn in Hu; [|by apply elem_of_nil in Hu]. apply list_elem_of_singleton in Hu as ->.
    apply (Hfor t HW), list_elem_of_fmap. by exists (thread_timer t, D). }
  clear Hsem Hfor. induction (due (now s) (sleeping s)) as [|u ts IH]; [done|]. cbn [foldl fmap list_fmap].
  rewrite unqueue_not_in by (apply Hdue, list_elem_of_here). apply IH. intros u' Hu'. by apply Hdue, list_elem_of_further.
Qed.

Lemma line_up_plain W v ins s k e : healthy idle 1 s k → line_up W v ins s → plain e →
  line_up W v ins (effect idle (rt_current_thread k) e s).
Proof using.
  intros Hh Hl He. set (c := rt_current_thread k).
  assert (∀ D, c ∈ ready s ∧ c ≠ idle → line_up W v ins (asleep_until c D s)) as Hsleep.
  { intros D [Hc _]. pose proof (ready_not_in_line _ _ _ _ _ _ _ Hh Hl Hc) as HcW. destruct Hl as [Hsem Hhold Hfor].
    split; [exact Hsem|exact Hhold|]. intros w Hw [E|Hin]%schedule_fst; [injection E as ->; done|by apply (Hfor w)]. }
  destruct e as [d|tick inc| | |i time|i|i x|]; cbn [effect plain] in *; try done.
  - case_decide; [by apply Hsleep|done].
  - cbv zeta. case_decide as Hd; [apply Hsleep, Hd|done].
  - destruct Hl as [Hsem Hhold Hfor]. split; [|exact Hhold|].
    + rewrite (wake_line W v (later s)); [exact Hsem|exact Hsem|exact Hfor].
    + intros w Hw Hin. apply (Hfor w Hw). apply list_elem_of_fmap in Hin as ([t D] & -> & [_ Hx]%list_elem_of_filter).
      apply list_elem_of_fmap. by exists (t, D).
Qed.

(** ** Every use *)

Lemma wp_use a u s : orderly u s → use_ok a → wp (perform_use a) (λ _ u', ∃ s', orderly u' s') u.
Proof using.
  intros [Hh (W & v & Hl)] Ha. unfold perform_use. rewrite wp_bind, wp_gets. unfold id. cbv zeta.
  set (c := rt_current_thread (u_kernel u)).
  pose proof (cpu_current _ _ (im_cpu _ _ (h_implements _ _ _ _ Hh))) as Hrun. fold c in Hrun.
  destruct a as [| |e].
  - apply wp_when; [|intros _; exists s; split; [done|by exists W, v]].
    intros [[Hc Hidle]%bool_decide_eq_true Hins%bool_decide_eq_true]%andb_true_iff. rewrite <- Hrun in Hc.
    rewrite wp_bind, wp_zoom.
    eapply wp_mono; [apply (healthy_take idle 1 s (u_kernel u) heap_sem RT_WAITING_FOREVER Hh); [done|unfold heap_sem; lia|done]|].
    intros [] k' Hk'. rewrite wp_modify. exists (take_effect c heap_sem RT_WAITING_FOREVER s). split; [exact Hk'|].
    exact (line_up_enter W v (inside u) s (u_kernel u) c Hh Hl Hc Hins).
  - apply wp_when; [|intros _; exists s; split; [done|by exists W, v]].
    intros [[Hc Hidle]%bool_decide_eq_true Hins%bool_decide_eq_true]%andb_true_iff. rewrite <- Hrun in Hc.
    rewrite wp_bind, wp_zoom.
    eapply wp_mono; [exact (wp_event timeout_func idle 1 (Release heap_sem) s (u_kernel u) Hh Nat.lt_0_1)|].
    intros [] k' Hk'. rewrite wp_modify. exists (release_effect heap_sem s). split; [exact Hk'|].
    exact (line_up_leave W v (inside u) s (u_kernel u) c Hh Hl Hc Hins).
  - rewrite wp_zoom. assert (event_ok 1 e) as He by (destruct e; done).
    eapply wp_mono; [exact (wp_event timeout_func idle 1 e s (u_kernel u) Hh He)|].
    intros [] k' Hk'. exists (effect idle c e s). split; [exact Hk'|]. exists W, v.
    exact (line_up_plain W v (inside u) s (u_kernel u) e Hh Hl Ha).
Qed.

Lemma wp_uses l u s : orderly u s → Forall use_ok l → wp (perform_uses l) (λ _ u', ∃ s', orderly u' s') u.
Proof using.
  revert u s. induction l as [|a l IH]; intros u s Hu Hl; unfold perform_uses; cbn [foldr].
  - rewrite wp_ret. by exists s.
  - inversion Hl as [|? ? Ha Hl']; subst. rewrite wp_bind. eapply wp_mono; [exact (wp_use a u s Hu Ha)|].
    intros [] u1 [s1 Hu1]. exact (IH u1 s1 Hu1 Hl').
Qed.

(** What the invariant says of the two lists of the kernel. *)
Lemma orderly_excludes u s : orderly u s →
  ∃ W v, semaphores (u_kernel u) = [mk_semaphore W v RT_IPC_FLAG_FIFO] ∧ NoDup W ∧
    (∀ t t', t ∈ inside u ∖ list_to_set W → t' ∈ inside u ∖ list_to_set W → t = t') ∧
    (∀ t, t ∈ W → t ∈ inside u ∧ stat (thread_at (u_kernel u) t) = RT_THREAD_SUSPEND) ∧
    (inside u ≠ ∅ → ∃ t, t ∈ inside u ∖ list_to_set W) ∧ (v = 1 ↔ inside u = ∅).
Proof using.
  clear timeout_func. intros [Hh (W & v & [Hsem Hhold Hfor])]. exists W, v.
  pose proof (h_implements _ _ _ _ Hh) as Him. rewrite <- Hsem, (im_sems _ _ Him). split; [done|].
  pose proof (sound_at 1 s 0 _ (h_sound _ _ _ _ Hh) ltac:(by rewrite Hsem)) as (_ & _ & Hnd).
  split; [exact Hnd|].
  assert (∀ t, t ∈ W → stat (thread_at (u_kernel u) t) = RT_THREAD_SUSPEND) as Hst.
  { intros t Ht. eapply waiting_suspended; [apply Him|]. eapply (waits_at _ 0); [by rewrite (im_sems _ _ Him), Hsem|done]. }
  destruct Hhold as [(-> & -> & ->)|(-> & o & Ho & ->)].
  - split; [intros t t' [[]%elem_of_empty _]%elem_of_difference|]. split; [intros t []%elem_of_nil|]. split; done.
  - assert (∀ t, t ∈ ({[o]} ∪ list_to_set W : gset nat) ∖ list_to_set W → t = o) as Hone.
    { intros t [Ht HtW]%elem_of_difference. rewrite (elem_of_list_to_set (C := gset nat)) in HtW.
      by apply (not_in_line t _ W o eq_refl). }
    assert (o ∈ ({[o]} ∪ list_to_set W : gset nat)) as Hin by (apply elem_of_union; left; by apply elem_of_singleton).
    split; [intros t t' ->%Hone ->%Hone; done|]. split; [|split].
    + intros t Ht. split; [|by apply Hst]. apply elem_of_union. right. by apply (elem_of_list_to_set (C := gset nat)).
    + intros _. exists o. apply elem_of_difference. split; [done|]. by rewrite (elem_of_list_to_set (C := gset nat)).
    + split; [done|]. intros E. rewrite E in Hin. by apply elem_of_empty in Hin.
Qed.

Lemma start_orderly threads : NoDup (ids threads) → Forall startable threads → idle ∈ ids threads →
  ∃ k, start_users threads (mk_users reset_kernel ∅) = Ok (tt, mk_users k ∅) ∧
    orderly (mk_users k ∅) (mk_tasking 0 [] (list_to_set (ids threads)) [mk_semaphore [] 1 RT_IPC_FLAG_FIFO]).
Proof using.
  clear timeout_func. intros Hnd Hts Hidle. set (S := [mk_semaphore [] 1 RT_IPC_FLAG_FIFO]).
  destruct (rtthread_startup_ok threads S) as (k & Hrun & Him & _);
    [by intros ->; apply elem_of_nil in Hidle|done|done|by repeat constructor|].
  exists k. split.
  - unfold start_users, zoom. cbn [u_kernel]. unfold mbind, prog_bind at 1.
    change (rt_sem_init (Z.of_nat heap_sem) 1 RT_IPC_FLAG_FIFO reset_kernel)
      with (Ok (RT_EOK, reset_kernel <| semaphores := S |>)). cbv beta iota. by rewrite Hrun.
  - split.
    + split; [exact Him|split; [by intros t D []%elem_of_nil|constructor; [|constructor]|done]|].
      * split; [done|]. split; [unfold is_u16; cbn; lia|constructor].
      * by apply (elem_of_list_to_set (C := gset nat)).
    + exists [], 1. split; [done|by left|by intros w []%elem_of_nil].
Qed.
End lock.

(** C16: from the start on, in every order of the tasks and the ticks, at most one task is past its
    call of rt_sem_take and before that of rt_sem_release; the others that called it wait, each
    once, suspended; when someone called it one task is past it, and the count is 1 when nobody
    did. No assertion fails. *)
Theorem heap_lock_excludes `{SoftTimerThread} timeout_func idle threads uses :
  NoDup (ids threads) → Forall startable threads → idle ∈ ids threads → Forall use_ok uses →
  ∃ u W v, (start_users threads;; perform_uses timeout_func idle uses) (mk_users reset_kernel ∅) = Ok (tt, u) ∧
    semaphores (u_kernel u) = [mk_semaphore W v RT_IPC_FLAG_FIFO] ∧ NoDup W ∧
    (∀ t t', t ∈ inside u ∖ list_to_set W → t' ∈ inside u ∖ list_to_set W → t = t') ∧
    (∀ t, t ∈ W → t ∈ inside u ∧ stat (thread_at (u_kernel u) t) = RT_THREAD_SUSPEND) ∧
    (inside u ≠ ∅ → ∃ t, t ∈ inside u ∖ list_to_set W) ∧ (v = 1 ↔ inside u = ∅).
Proof.
  intros Hnd Hts Hidle Huses. destruct (start_orderly idle threads Hnd Hts Hidle) as (k & Hrun & Hu).
  destruct (proj1 (wp_ok _ _ _) (wp_uses timeout_func idle uses _ _ Hu Huses)) as ([] & u & Hruns & s & Hs).
  destruct (orderly_excludes idle u s Hs) as (W & v & HW). exists u, W, v.
  split; [unfold mbind, prog_bind; by rewrite Hrun|exact HW].
Qed.

(** The thread of the soft timers takes the lock and sleeps; the main thread waits for the
    lock; the first releases it. *)
Definition main_uses : list use :=
  [Lock; Event Schedule; Event (Sleep 2); Event Schedule; Lock; Event Schedule; Event Tick; Event Tick; Unlock; Event Schedule].

Lemma heap_lock_excludes_witness :
  ∃ u W v, (start_users main_threads;; perform_uses (H := 2%nat) no_timeouts 3 main_uses) (mk_users reset_kernel ∅) = Ok (tt, u) ∧
    semaphores (u_kernel u) = [mk_semaphore W v RT_IPC_FLAG_FIFO] ∧
    ∀ t t', t ∈ inside u ∖ list_to_set W → t' ∈ inside u ∖ list_to_set W → t = t'.
Proof.
  destruct main_threads_ok as [Hnd Hts].
  destruct (heap_lock_excludes (H := 2%nat) no_timeouts 3 main_threads main_uses) as (u & W & v & Hrun & Hsem & _ & Hone & _);
    [exact Hnd|exact Hts| | |exists u, W, v; exact (conj Hrun (conj Hsem Hone))].
  - do 2 apply list_elem_of_further. apply list_elem_of_here.
  - repeat constructor; cbn; unfold MAX_DELAY; lia.
Defined.
