(* ===== verification/Mem.v ===== *)
(** The heap allocator of RT-Thread (mem.c), over the bytes of the memory it manages:
    the block headers live between the blocks. *)
From stdpp Require Import list_numbers gmap sorting.
From S2P Require Import Prelude.

(** ** Memory and the allocator's variables *)

(** The statics of mem.c; [ram] is the memory from address [ram_base] on. *)
Record heap := mk_heap {
  heap_ptr : Z; heap_end : Z; lfree : Z;
  heap_sem : Z;
  mem_size_aligned : Z; used_mem : Z; max_mem : Z;
  ram_base : Z; ram : list Z;
}.
#[export] Instance eta_heap : Eta heap := λ h,
  mk_heap (heap_ptr h) (heap_end h) (lfree h) (heap_sem h) (mem_size_aligned h)
          (used_mem h) (max_mem h) (ram_base h) (ram h).

Definition RT_NULL : Z := 0.
Definition RT_ALIGN_SIZE : Z := 4.
Definition HEAP_MAGIC : Z := 0x1ea0.
(** [sizeof(struct heap_mem)]: magic and used of two bytes, next and prev of four. *)
Definition SIZEOF_STRUCT_MEM : Z := 12.
Definition MIN_SIZE : Z := 12.
Definition MIN_SIZE_ALIGNED : Z := 12.
Definition RT_SEM_VALUE_MAX : Z := 65535.

(** The macros, on 32-bit sizes. *)
Definition RT_ALIGN (size align : Z) : Z :=
  Z.land (u32 (u32 (size + align) - 1)) (Z.lnot (align - 1)).
Definition RT_ALIGN_DOWN (size align : Z) : Z := Z.land size (Z.lnot (align - 1)).

(** Loads and stores of [n] bytes at an address, little-endian. *)
Definition ld (n : nat) (a : Z) : prog heap Z :=
  reads (λ h, bs ← load_bytes (ram h) (a - ram_base h) (Z.of_nat n); Ok (le_value bs)).
Definition st (n : nat) (a v : Z) : prog heap unit :=
  l ← reads (λ h, store_bytes (ram h) (a - ram_base h) (le_bytes n v));
  modify (λ h, h <| ram := l |>).

(** The fields of [struct heap_mem]. *)
Definition mem_magic (mem : Z) : prog heap Z := ld 2 mem.
Definition mem_used (mem : Z) : prog heap Z := ld 2 (mem + 2).
Definition mem_next (mem : Z) : prog heap Z := ld 4 (mem + 4).
Definition mem_prev (mem : Z) : prog heap Z := ld 4 (mem + 8).
Definition set_magic (mem v : Z) : prog heap unit := st 2 mem v.
Definition set_used (mem v : Z) : prog heap unit := st 2 (mem + 2) v.
Definition set_next (mem v : Z) : prog heap unit := st 4 (mem + 4) v.
Definition set_prev (mem v : Z) : prog heap unit := st 4 (mem + 8) v.

(** [rt_memcpy] and [rt_memset] within this memory. *)
Definition rt_memcpy (dst src count : Z) : prog heap unit :=
  bs ← reads (λ h, load_bytes (ram h) (src - ram_base h) count);
  l ← reads (λ h, store_bytes (ram h) (dst - ram_base h) bs);
  modify (λ h, h <| ram := l |>).
Definition rt_memset (s c count : Z) : prog heap unit :=
  l ← reads (λ h, store_bytes (ram h) (s - ram_base h) (replicate (Z.to_nat count) (u8 c)));
  modify (λ h, h <| ram := l |>).

(** The semaphore around the heap. With a count of 0 the caller would be suspended until
    another thread releases it. *)
Definition rt_sem_take : prog heap unit :=
  value ← gets heap_sem;
  if decide (value > 0) then modify (λ h, h <| heap_sem := value - 1 |>) else fail Blocked.
Definition rt_sem_release : prog heap unit :=
  value ← gets heap_sem;
  if decide (value < RT_SEM_VALUE_MAX) then modify (λ h, h <| heap_sem := value + 1 |>) else mret tt.

(** ** Operations *)

Definition plug_forward (mem : Z) : prog heap unit :=
  hp ← gets heap_ptr;
  next ← mem_next mem;
  let nmem := hp + next in
  nused ← mem_used nmem;
  e ← gets heap_end;
  if decide (mem ≠ nmem ∧ nused = 0 ∧ nmem ≠ e) then
    modify (λ h, if decide (lfree h = nmem) then h <| lfree := mem |> else h);;
    nnext ← mem_next nmem;
    set_next mem nnext;;
    nnext ← mem_next nmem;
    set_prev (hp + nnext) (u32 (mem - hp))
  else mret tt.

Definition plug_backward (mem : Z) : prog heap unit :=
  hp ← gets heap_ptr;
  prev ← mem_prev mem;
  let pmem := hp + prev in
  pused ← mem_used pmem;
  if decide (pmem ≠ mem ∧ pused = 0) then
    modify (λ h, if decide (lfree h = mem) then h <| lfree := pmem |> else h);;
    next ← mem_next mem;
    set_next pmem next;;
    next ← mem_next mem;
    set_prev (hp + next) (u32 (pmem - hp))
  else mret tt.

Definition plug_holes (mem : Z) : prog heap unit :=
  hp ← gets heap_ptr;
  e ← gets heap_end;
  rt_assert (bool_decide (mem >= hp));;
  rt_assert (bool_decide (mem < e));;
  used ← mem_used mem;
  rt_assert (bool_decide (used = 0));;
  plug_forward mem;;
  plug_backward mem.

Definition rt_system_heap_init (begin_addr end_addr : Z) : prog heap unit :=
  let begin_align := RT_ALIGN begin_addr RT_ALIGN_SIZE in
  let end_align := RT_ALIGN_DOWN end_addr RT_ALIGN_SIZE in
  if decide (end_align > 2 * SIZEOF_STRUCT_MEM ∧ end_align - 2 * SIZEOF_STRUCT_MEM >= begin_align) then
    let msa := end_align - begin_align - 2 * SIZEOF_STRUCT_MEM in
    modify (λ h, h <| mem_size_aligned := msa |> <| heap_ptr := begin_align |>);;
    let mem := begin_align in
    set_magic mem HEAP_MAGIC;;
    set_next mem (msa + SIZEOF_STRUCT_MEM);;
    set_prev mem 0;;
    set_used mem 0;;
    next ← mem_next mem;
    let e := begin_align + next in
    modify (λ h, h <| heap_end := e |>);;
    set_magic e HEAP_MAGIC;;
    set_used e 1;;
    set_next e (msa + SIZEOF_STRUCT_MEM);;
    set_prev e (msa + SIZEOF_STRUCT_MEM);;
    modify (λ h, h <| heap_sem := 1 |> <| lfree := begin_align |>)
  else mret tt.

(** The statistics of RT_MEM_STATS. *)
Definition account (n : Z) : prog heap unit :=
  modify (λ h,
    let used := u32 (used_mem h + n) in
    h <| used_mem := used |> <| max_mem := if decide (max_mem h < used) then used else max_mem h |>).

(** [while (lfree->used && lfree != heap_end) lfree = &heap_ptr[lfree->next]]. *)
Fixpoint next_lfree (fuel : nat) : prog heap unit :=
  match fuel with
  | O => fail NoFuel
  | S fuel =>
      lf ← gets lfree;
      e ← gets heap_end;
      used ← mem_used lf;
      if decide (used ≠ 0 ∧ lf ≠ e) then
        hp ← gets heap_ptr;
        next ← mem_next lf;
        modify (λ h, h <| lfree := hp + next |>);;
        next_lfree fuel
      else mret tt
  end.

(** The headers after a block has been chosen: split, or taken whole. *)
Definition split_block (ptr size : Z) : prog heap unit :=
  hp ← gets heap_ptr;
  msa ← gets mem_size_aligned;
  let mem := hp + ptr in
  next ← mem_next mem;
  if decide (u32 (next - u32 (ptr + SIZEOF_STRUCT_MEM)) >= u32 (size + SIZEOF_STRUCT_MEM + MIN_SIZE_ALIGNED)) then
    let ptr2 := u32 (ptr + SIZEOF_STRUCT_MEM + size) in
    let mem2 := hp + ptr2 in
    set_magic mem2 HEAP_MAGIC;;
    set_used mem2 0;;
    next ← mem_next mem;
    set_next mem2 next;;
    set_prev mem2 ptr;;
    set_next mem ptr2;;
    set_used mem 1;;
    next2 ← mem_next mem2;
    when (bool_decide (next2 ≠ msa + SIZEOF_STRUCT_MEM)) (set_prev (hp + next2) ptr2);;
    account (size + SIZEOF_STRUCT_MEM)
  else
    set_used mem 1;;
    next ← mem_next mem;
    account (next - ptr).

(** The rest of [rt_malloc] for the block at offset [ptr]. *)
Definition take_block (ptr size : Z) : prog heap Z :=
  hp ← gets heap_ptr;
  e ← gets heap_end;
  let mem := hp + ptr in
  split_block ptr size;;
  set_magic mem HEAP_MAGIC;;
  lf ← gets lfree;
  when (bool_decide (mem = lf)) (
    fuel ← gets (λ h, length (ram h));
    next_lfree fuel;;
    lf ← gets lfree;
    used ← mem_used lf;
    rt_assert (bool_decide (lf = e ∨ used = 0)));;
  rt_sem_release;;
  rt_assert (bool_decide (u32 (mem + SIZEOF_STRUCT_MEM + size) ≤ e));;
  rt_assert (bool_decide ((mem + SIZEOF_STRUCT_MEM) mod RT_ALIGN_SIZE = 0));;
  rt_assert (bool_decide (Z.land mem (RT_ALIGN_SIZE - 1) = 0));;
  mret (mem + SIZEOF_STRUCT_MEM).

Fixpoint malloc_loop (fuel : nat) (ptr size : Z) : prog heap Z :=
  match fuel with
  | O => fail NoFuel
  | S fuel =>
      hp ← gets heap_ptr;
      msa ← gets mem_size_aligned;
      if decide (ptr < u32 (msa - size)) then
        used ← mem_used (hp + ptr);
        next ← mem_next (hp + ptr);
        if decide (used = 0 ∧ u32 (next - u32 (ptr + SIZEOF_STRUCT_MEM)) >= size)
        then take_block ptr size
        else malloc_loop fuel next size
      else rt_sem_release;; mret RT_NULL
  end.

Definition rt_malloc (size : Z) : prog heap Z :=
  if decide (size = 0) then mret RT_NULL
  else
    let size := RT_ALIGN size RT_ALIGN_SIZE in
    msa ← gets mem_size_aligned;
    if decide (size > msa) then mret RT_NULL
    else
      let size := if decide (size < MIN_SIZE_ALIGNED) then MIN_SIZE_ALIGNED else size in
      rt_sem_take;;
      lf ← gets lfree;
      hp ← gets heap_ptr;
      fuel ← gets (λ h, length (ram h));
      malloc_loop fuel (u32 (lf - hp)) size.

Definition rt_free (rmem : Z) : prog heap unit :=
  if decide (rmem = RT_NULL) then mret tt
  else
    hp ← gets heap_ptr;
    e ← gets heap_end;
    rt_assert (bool_decide (Z.land rmem (RT_ALIGN_SIZE - 1) = 0));;
    rt_assert (bool_decide (rmem >= hp ∧ rmem < e));;
    let mem := rmem - SIZEOF_STRUCT_MEM in
    rt_sem_take;;
    used ← mem_used mem;
    rt_assert (bool_decide (used ≠ 0));;
    magic ← mem_magic mem;
    rt_assert (bool_decide (magic = HEAP_MAGIC));;
    set_used mem 0;;
    set_magic mem HEAP_MAGIC;;
    modify (λ h, if decide (mem < lfree h) then h <| lfree := mem |> else h);;
    next ← mem_next mem;
    modify (λ h, h <| used_mem := u32 (used_mem h - (next - u32 (mem - hp))) |>);;
    plug_holes mem;;
    rt_sem_release.

(** The shrinking branch of [rt_realloc]. *)
Definition shrink_block (ptr size newsize : Z) : prog heap unit :=
  hp ← gets heap_ptr;
  msa ← gets mem_size_aligned;
  let mem := hp + ptr in
  modify (λ h, h <| used_mem := u32 (used_mem h - (size - newsize)) |>);;
  let ptr2 := u32 (ptr + SIZEOF_STRUCT_MEM + newsize) in
  let mem2 := hp + ptr2 in
  set_magic mem2 HEAP_MAGIC;;
  set_used mem2 0;;
  next ← mem_next mem;
  set_next mem2 next;;
  set_prev mem2 ptr;;
  set_next mem ptr2;;
  next2 ← mem_next mem2;
  when (bool_decide (next2 ≠ msa + SIZEOF_STRUCT_MEM)) (set_prev (hp + next2) ptr2);;
  modify (λ h, if decide (mem2 < lfree h) then h <| lfree := mem2 |> else h);;
  plug_holes mem2.

Definition rt_realloc (rmem newsize : Z) : prog heap Z :=
  let newsize := RT_ALIGN newsize RT_ALIGN_SIZE in
  msa ← gets mem_size_aligned;
  if decide (newsize > msa) then mret RT_NULL
  else if decide (newsize = 0) then rt_free rmem;; mret RT_NULL
  else if decide (rmem = RT_NULL) then rt_malloc newsize
  else
    rt_sem_take;;
    hp ← gets heap_ptr;
    e ← gets heap_end;
    if decide (rmem < hp ∨ rmem >= e) then rt_sem_release;; mret rmem
    else
      let mem := rmem - SIZEOF_STRUCT_MEM in
      let ptr := u32 (mem - hp) in
      next ← mem_next mem;
      let size := u32 (next - ptr - SIZEOF_STRUCT_MEM) in
      if decide (size = newsize) then rt_sem_release;; mret rmem
      else if decide (u32 (newsize + SIZEOF_STRUCT_MEM + MIN_SIZE) < size) then
        shrink_block ptr size newsize;;
        rt_sem_release;;
        mret rmem
      else
        rt_sem_release;;
        nmem ← rt_malloc newsize;
        when (bool_decide (nmem ≠ RT_NULL)) (
          rt_memcpy nmem rmem (if decide (size < newsize) then size else newsize);;
          rt_free rmem);;
        mret nmem.

Definition rt_calloc (count size : Z) : prog heap Z :=
  p ← rt_malloc (u32 (count * size));
  when (bool_decide (p ≠ 0)) (rt_memset p 0 (u32 (count * size)));;
  mret p.

(** Total size, bytes in use, most bytes in use so far. *)
Definition rt_memory_info : prog heap (Z * Z * Z) :=
  gets (λ h, (mem_size_aligned h, used_mem h, max_mem h)).

(** ** Integers in memory *)

(** The [n]-byte integer at position [i]. *)
Definition field (l : list Z) (n : nat) (i : Z) : Z := le_value (byte l <$> seqZ i (Z.of_nat n)).

Lemma field_agree l l' n i :
  (∀ k, i ≤ k < i + Z.of_nat n → byte l' k = byte l k) → field l' n i = field l n i.
Proof.
  intros Hk. unfold field. f_equal. apply list_fmap_ext. intros j k Hj.
  apply lookup_seqZ in Hj. apply Hk. lia.
Qed.

Lemma field_load l n i :
  0 ≤ i → i + Z.of_nat n ≤ zlen l →
  ∃ bs, load_bytes l i (Z.of_nat n) = Ok bs ∧ le_value bs = field l n i.
Proof.
  intros Hi Hl. destruct (load_bytes_byte l i (Z.of_nat n)) as (bs & Hbs & Hz & Hb); [lia..|].
  exists bs. split; [done|]. unfold field. f_equal. apply byte_ext.
  - unfold zlen in *. rewrite length_fmap, length_seqZ. lia.
  - intros k Hk. rewrite Hb by lia. unfold byte at 2. symmetry. apply nth_lookup_Some.
    rewrite list_lookup_fmap, lookup_seqZ_lt by lia. cbn. do 2 f_equal. lia.
Qed.

(** [l'] is [l] with the [n]-byte integer [v] stored at [i]. *)
Record stored (l l' : list Z) (n : nat) (i v : Z) : Prop := {
  stored_zlen : zlen l' = zlen l;
  stored_field : field l' n i = v;
  stored_other k : 0 ≤ k → k < i ∨ i + Z.of_nat n ≤ k → byte l' k = byte l k;
  stored_u8 : Forall is_u8 l → Forall is_u8 l';
}.

Lemma stored_frame l l' n i v m j :
  stored l l' n i v → 0 ≤ j → j + Z.of_nat m ≤ i ∨ i + Z.of_nat n ≤ j →
  field l' m j = field l m j.
Proof. intros Hst Hj Hij. apply field_agree. intros k Hk. eapply stored_other; [done|lia|lia]. Qed.

Lemma store_bytes_u8 l l' i bs :
  store_bytes l i bs = Ok l' → Forall is_u8 l → Forall is_u8 bs → Forall is_u8 l'.
Proof.
  unfold store_bytes. case_decide; intros [= <-] Hl Hbs.
  apply Forall_app; split; [by apply Forall_take|]. apply Forall_app; split; [done|by apply Forall_drop].
Qed.

Lemma store_stored l n i v :
  0 ≤ i → i + Z.of_nat n ≤ zlen l → 0 ≤ v < 2 ^ (8 * Z.of_nat n) →
  ∃ l', store_bytes l i (le_bytes n v) = Ok l' ∧ stored l l' n i v.
Proof.
  intros Hi Hl Hv. assert (zlen (le_bytes n v) = Z.of_nat n) as Hz by (unfold zlen; by rewrite length_le_bytes).
  destruct (store_bytes_byte l i (le_bytes n v)) as (l' & Hst & Hzl & Hb); [lia..|].
  exists l'. split; [done|]. rewrite Hz in Hb. split; [done| | |].
  - rewrite <- (le_value_bytes n v) by done. unfold field. f_equal. apply byte_ext.
    { unfold zlen in *. rewrite length_fmap, length_seqZ. lia. }
    intros k Hk. unfold zlen in Hk. rewrite length_fmap, length_seqZ in Hk.
    unfold byte at 1. apply nth_lookup_Some. rewrite list_lookup_fmap, lookup_seqZ_lt by lia. cbn.
    rewrite Hb, decide_True by lia. do 2 f_equal. lia.
  - intros k Hk Hki. by rewrite Hb, decide_False by lia.
  - intros Hu. eapply store_bytes_u8; [done..|apply le_bytes_u8].
Qed.

(** *** Rules for the primitives *)

Lemma wp_gets_bind {S A B} (f : S → A) (k : A → prog S B) Q s :
  wp (k (f s)) Q s → wp (gets f ≫= k) Q s.
Proof. done. Qed.
Lemma wp_modify_bind {S B} (f : S → S) (k : unit → prog S B) Q s :
  wp (k tt) Q (f s) → wp (modify f ≫= k) Q s.
Proof. done. Qed.
Lemma wp_assert {S} (b : bool) (Q : unit → S → Prop) s : b = true → Q tt s → wp (rt_assert b) Q s.
Proof. by intros ->. Qed.
Lemma wp_assert_bind {S B} (b : bool) (k : unit → prog S B) Q s :
  b = true → wp (k tt) Q s → wp (rt_assert b ≫= k) Q s.
Proof. by intros ->. Qed.

Lemma wp_ld_bind {A} n a (k : Z → prog heap A) Q h :
  ram_base h ≤ a → a + Z.of_nat n ≤ ram_base h + zlen (ram h) →
  wp (k (field (ram h) n (a - ram_base h))) Q h → wp (ld n a ≫= k) Q h.
Proof.
  intros Ha Hn Hk. destruct (field_load (ram h) n (a - ram_base h)) as (bs & Hbs & Hv); [lia..|].
  unfold ld. rewrite wp_bind, wp_reads, owp_bind, Hbs. cbn. by rewrite Hv.
Qed.

Lemma wp_st_bind {A} n a v (k : unit → prog heap A) Q h :
  ram_base h ≤ a → a + Z.of_nat n ≤ ram_base h + zlen (ram h) → 0 ≤ v < 2 ^ (8 * Z.of_nat n) →
  (∀ l', stored (ram h) l' n (a - ram_base h) v → wp (k tt) Q (h <| ram := l' |>)) →
  wp (st n a v ≫= k) Q h.
Proof.
  intros Ha Hn Hv Hk. destruct (store_stored (ram h) n (a - ram_base h) v) as (l' & Hl & Hst); [lia..|].
  unfold st. rewrite !wp_bind, wp_reads, Hl. cbn. by apply Hk.
Qed.
