(* ===== verification/MemLayout.v ===== *)
(** The blocks of the allocator of Mem.v in memory: how a list of blocks is laid out, and
    what each operation makes of the list. *)
From stdpp Require Import list_numbers gmap sorting.
From S2P Require Import Prelude Mem.

(** ** Blocks *)

Record block := mk_block { b_used : bool; b_size : Z }.
#[export] Instance block_eq_dec : EqDecision block.
Proof. solve_decision. Defined.

(** The bytes a run of blocks takes, headers included. *)
Fixpoint span (bs : list block) : Z :=
  match bs with [] => 0 | k :: bs => SIZEOF_STRUCT_MEM + b_size k + span bs end.

(** The bytes in use, as RT_MEM_STATS counts them. *)
Fixpoint in_use (bs : list block) : Z :=
  match bs with
  | [] => 0
  | k :: bs => (if b_used k then SIZEOF_STRUCT_MEM + b_size k else 0) + in_use bs
  end.

(** The offset of the first free block, the end if there is none. *)
Fixpoint first_free (off : Z) (bs : list block) : Z :=
  match bs with
  | [] => off
  | k :: bs => if b_used k then first_free (off + SIZEOF_STRUCT_MEM + b_size k) bs else off
  end.

(** The offset of the last block of a run. *)
Fixpoint last_off (off prev : Z) (bs : list block) : Z :=
  match bs with [] => prev | k :: bs => last_off (off + SIZEOF_STRUCT_MEM + b_size k) off bs end.

(** No two free blocks next to each other. *)
Fixpoint apart (bs : list block) : Prop :=
  match bs with
  | k :: ((k' :: _) as bs') => (b_used k = true ∨ b_used k' = true) ∧ apart bs'
  | _ => True
  end.

Definition block_ok (k : block) : Prop := 4 ≤ b_size k ∧ b_size k mod 4 = 0.

Lemma span_app bs1 bs2 : span (bs1 ++ bs2) = span bs1 + span bs2.
Proof. induction bs1 as [|k bs1 IH]; cbn; lia. Qed.
Lemma in_use_app bs1 bs2 : in_use (bs1 ++ bs2) = in_use bs1 + in_use bs2.
Proof. induction bs1 as [|k bs1 IH]; cbn; lia. Qed.
Lemma span_ok bs : Forall block_ok bs → 16 * zlen bs ≤ span bs ∧ span bs mod 4 = 0.
Proof.
  induction 1 as [|k bs [Hk Hm] _ IH]; [done|]. unfold zlen in *. cbn [span length]. unfold SIZEOF_STRUCT_MEM. lia.
Qed.
Lemma span_gap bs : Forall block_ok bs → span bs = 0 ∨ 16 ≤ span bs.
Proof. intros Hok. pose proof (span_ok bs Hok) as [Hs _]. destruct bs; [by left|right]. unfold zlen in Hs. cbn in *. lia. Qed.
Lemma in_use_range bs : Forall block_ok bs → 0 ≤ in_use bs ≤ span bs.
Proof.
  induction 1 as [|k bs [Hk Hm] _ IH]; cbn; [lia|]. unfold SIZEOF_STRUCT_MEM. destruct (b_used k); lia.
Qed.
Lemma first_free_app off bs1 bs2 :
  first_free off (bs1 ++ bs2) =
    if decide (Forall (λ k, b_used k = true) bs1) then first_free (off + span bs1) bs2 else first_free off bs1.
Proof.
  revert off. induction bs1 as [|k bs1 IH]; intros off; cbn [first_free span app].
  - rewrite decide_True by constructor. f_equal. lia.
  - destruct (b_used k) eqn:Hk.
    + rewrite IH. case_decide as Hu.
      * rewrite decide_True by (by constructor). f_equal. lia.
      * rewrite decide_False by (by inversion 1). done.
    + rewrite decide_False; [done|]. inversion 1. congruence.
Qed.
Lemma first_free_used off bs : Forall (λ k, b_used k = true) bs → first_free off bs = off + span bs.
Proof.
  intros Hu. revert off. induction Hu as [|k bs Hk _ IH]; intros off; cbn; [lia|]. rewrite Hk, IH. lia.
Qed.
Lemma first_free_le off bs : Forall block_ok bs → off ≤ first_free off bs ≤ off + span bs.
Proof.
  intros Hok. revert off. induction Hok as [|k bs [Hk _] Hok IH]; intros off; cbn; [lia|].
  pose proof (span_ok bs Hok) as [Hs _]. specialize (IH (off + SIZEOF_STRUCT_MEM + b_size k)).
  unfold SIZEOF_STRUCT_MEM, zlen in *. destruct (b_used k); lia.
Qed.
Lemma last_off_app off prev bs1 bs2 :
  last_off off prev (bs1 ++ bs2) = last_off (off + span bs1) (last_off off prev bs1) bs2.
Proof.
  revert off prev. induction bs1 as [|k bs1 IH]; intros off prev; cbn; [by rewrite Z.add_0_r|].
  rewrite IH. f_equal. lia.
Qed.

(** Merging a block into the run behind it; the run with all free neighbours merged. *)
Definition join (k : block) (bs : list block) : list block :=
  match bs with
  | k' :: bs' => if b_used k || b_used k' then k :: bs
                 else mk_block false (b_size k + SIZEOF_STRUCT_MEM + b_size k') :: bs'
  | [] => [k]
  end.
Definition coalesce (bs : list block) : list block := foldr join [] bs.

Definition head_used (bs : list block) : bool := match bs with k :: _ => b_used k | [] => true end.

Lemma join_facts k bs :
  span (join k bs) = span (k :: bs) ∧ in_use (join k bs) = in_use (k :: bs) ∧
  head_used (join k bs) = b_used k ∧ (∀ off, first_free off (join k bs) = first_free off (k :: bs)).
Proof.
  destruct bs as [|k' bs]; [done|]. cbn [join]. destruct (b_used k || b_used k') eqn:Hu; [done|].
  apply orb_false_iff in Hu as [H1 H2]. cbn. rewrite H1, H2. repeat split; lia.
Qed.
Lemma join_ok k bs : block_ok k → Forall block_ok bs → Forall block_ok (join k bs).
Proof.
  intros Hk Hbs. destruct bs as [|k' bs]; [by constructor|]. cbn [join]. destruct (_ || _); [by constructor|].
  inversion_clear Hbs as [|?? Hk' Hbs']. constructor; [|done]. unfold block_ok, SIZEOF_STRUCT_MEM in *. cbn. lia.
Qed.

(** A block may stand before a run when one of the two ends that meet is used. *)
Lemma apart_cons k bs : apart (k :: bs) ↔ (b_used k = true ∨ head_used bs = true) ∧ apart bs.
Proof. destruct bs; cbn; tauto. Qed.
Lemma join_apart k bs : apart bs → apart (join k bs).
Proof.
  intros Hbs. destruct bs as [|k' bs]; [done|]. cbn [join]. destruct (b_used k || b_used k') eqn:Hu.
  - apply orb_true_iff in Hu. by apply apart_cons.
  - apply orb_false_iff in Hu as [_ Hu]. apply apart_cons in Hbs as [[?|Hh] Hbs]; [congruence|].
    apply apart_cons. split; [by right|done].
Qed.
Lemma coalesce_apart bs : apart (coalesce bs).
Proof. induction bs as [|k bs IH]; [done|]. by apply join_apart. Qed.

Lemma coalesce_facts bs :
  span (coalesce bs) = span bs ∧ in_use (coalesce bs) = in_use bs ∧
  (∀ off, first_free off (coalesce bs) = first_free off bs).
Proof.
  induction bs as [|k bs (H1 & H2 & H3)]; [done|]. unfold coalesce. cbn [foldr]. fold (coalesce bs).
  destruct (join_facts k (coalesce bs)) as (J1 & J2 & _ & J3).
  split; [rewrite J1; cbn; lia|]. split; [rewrite J2; cbn; lia|].
  intros off. rewrite J3. cbn. by rewrite H3.
Qed.
Lemma coalesce_ok bs : Forall block_ok bs → Forall block_ok (coalesce bs).
Proof. induction 1; [done|]. by apply join_ok. Qed.

Lemma join_used k bs : b_used k = true ∨ head_used bs = true → join k bs = k :: bs.
Proof. destruct bs as [|k' bs]; [done|]. cbn. by intros [-> | ->]; rewrite ?orb_true_r. Qed.
Lemma coalesce_id bs : apart bs → coalesce bs = bs.
Proof.
  induction bs as [|k bs IH]; [done|]. intros [Hk Hbs]%apart_cons. unfold coalesce in *. cbn [foldr].
  rewrite IH by done. by apply join_used.
Qed.
Lemma apart_app bs1 bs2 : apart (bs1 ++ bs2) → apart bs1 ∧ apart bs2.
Proof.
  induction bs1 as [|k bs1 IH]; [done|]. cbn [app]. intros [Hk [Hbs1 Hbs2]%IH]%apart_cons. split; [|done].
  apply apart_cons. split; [|done]. destruct bs1; [by right|done].
Qed.
Lemma apart_snoc bs n : apart bs → apart (bs ++ [mk_block true n]).
Proof.
  induction bs as [|k bs IH]; [done|]. intros [Hk Hbs]%apart_cons. cbn [app]. apply apart_cons.
  split; [|by apply IH]. destruct bs; [by right|done].
Qed.
Lemma foldr_join_apart bs k bs' :
  apart (bs ++ [k]) → head_used bs' = b_used k → foldr join bs' bs = bs ++ bs'.
Proof.
  intros Ha Hh. induction bs as [|k0 bs IH]; [done|]. cbn [foldr app] in *.
  apply apart_cons in Ha as [Hk0 Ha]. rewrite IH by done. apply join_used.
  destruct bs as [|k1 bs]; cbn in *; [by rewrite Hh|done].
Qed.
(** Where a free block has appeared, at most two merges restore the form. *)
Lemma coalesce_middle bs1 n bs2 :
  apart bs1 → apart bs2 →
  coalesce (bs1 ++ mk_block false n :: bs2) =
    match rev bs1 with
    | k :: bs0 => rev bs0 ++ join k (join (mk_block false n) bs2)
    | [] => join (mk_block false n) bs2
    end.
Proof.
  intros H1 H2. unfold coalesce. rewrite foldr_app. cbn [foldr]. fold (coalesce bs2). rewrite coalesce_id by done.
  destruct (rev bs1) as [|k bs0] eqn:Hrev; rewrite <- (rev_involutive bs1), Hrev; cbn [rev]; [done|].
  rewrite foldr_app. cbn [foldr]. apply foldr_join_apart with k.
  - rewrite <- (rev_involutive bs1), Hrev in H1. by cbn [rev] in H1.
  - apply join_facts.
Qed.

(** ** Blocks in memory *)

Section layout.
(** Address of the heap, its size, and the memory's first address and size. *)
Context (hp msa rb N : Z).

Record geometry : Prop := {
  geo_base : 0 < hp ∧ hp mod 4 = 0;
  geo_size : 12 ≤ msa ∧ msa mod 4 = 0;
  geo_ram : rb ≤ hp ∧ hp + msa + 24 ≤ rb + N ∧ rb + N ≤ 4294967296;
}.

(** The header at address [a]: used flag, offsets of the next and the previous block. *)
Record header (l : list Z) (a : Z) (u : bool) (next prev : Z) : Prop := {
  h_magic : field l 2 (a - rb) = HEAP_MAGIC;
  h_used : field l 2 (a + 2 - rb) = Z.b2z u;
  h_next : field l 4 (a + 4 - rb) = next;
  h_prev : field l 4 (a + 8 - rb) = prev;
}.

(** The headers of a run of blocks that starts at offset [off]. *)
Fixpoint seg (l : list Z) (off prev : Z) (bs : list block) : Prop :=
  match bs with
  | [] => True
  | k :: bs =>
      header l (hp + off) (b_used k) (off + SIZEOF_STRUCT_MEM + b_size k) prev ∧
      seg l (off + SIZEOF_STRUCT_MEM + b_size k) off bs
  end.

(** The end marker, always in use; its own prev field is never read. *)
Definition sentinel (l : list Z) : Prop :=
  field l 2 (hp + (msa + SIZEOF_STRUCT_MEM) + 2 - rb) = 1 ∧
  field l 4 (hp + (msa + SIZEOF_STRUCT_MEM) + 4 - rb) = msa + SIZEOF_STRUCT_MEM.

Record laid (l : list Z) (bs : list block) : Prop := {
  laid_seg : seg l 0 0 bs;
  laid_sentinel : sentinel l;
  laid_span : span bs = msa + SIZEOF_STRUCT_MEM;
  laid_ok : Forall block_ok bs;
  laid_zlen : zlen l = N;
  laid_u8 : Forall is_u8 l;
}.

(** A byte range that meets no data of a block in use. *)
Fixpoint clear (lo hi off : Z) (bs : list block) : Prop :=
  match bs with
  | [] => True
  | k :: bs =>
      (b_used k = true → hi ≤ hp + off + SIZEOF_STRUCT_MEM ∨
                         hp + off + SIZEOF_STRUCT_MEM + b_size k ≤ lo) ∧
      clear lo hi (off + SIZEOF_STRUCT_MEM + b_size k) bs
  end.

(** The data of the blocks in use is the same in two memories. *)
Fixpoint same_data (l l' : list Z) (off : Z) (bs : list block) : Prop :=
  match bs with
  | [] => True
  | k :: bs =>
      (b_used k = true → ∀ a, hp + off + SIZEOF_STRUCT_MEM ≤ a < hp + off + SIZEOF_STRUCT_MEM + b_size k →
         byte l' (a - rb) = byte l (a - rb)) ∧
      same_data l l' (off + SIZEOF_STRUCT_MEM + b_size k) bs
  end.

Context (Hgeo : geometry).

Lemma seg_app l off prev bs1 bs2 :
  seg l off prev (bs1 ++ bs2) ↔ seg l off prev bs1 ∧ seg l (off + span bs1) (last_off off prev bs1) bs2.
Proof.
  revert off prev. induction bs1 as [|k bs1 IH]; intros off prev; cbn.
  - rewrite Z.add_0_r. tauto.
  - rewrite IH. replace (off + SIZEOF_STRUCT_MEM + b_size k + span bs1)
      with (off + (SIZEOF_STRUCT_MEM + b_size k + span bs1)) by lia. tauto.
Qed.
Lemma clear_app lo hi off bs1 bs2 :
  clear lo hi off (bs1 ++ bs2) ↔ clear lo hi off bs1 ∧ clear lo hi (off + span bs1) bs2.
Proof.
  revert off. induction bs1 as [|k bs1 IH]; intros off; cbn.
  - rewrite Z.add_0_r. tauto.
  - rewrite IH. replace (off + SIZEOF_STRUCT_MEM + b_size k + span bs1)
      with (off + (SIZEOF_STRUCT_MEM + b_size k + span bs1)) by lia. tauto.
Qed.
Lemma clear_before lo hi off bs : Forall block_ok bs → hi ≤ hp + off + SIZEOF_STRUCT_MEM → clear lo hi off bs.
Proof.
  intros Hok. revert off. induction Hok as [|k bs [Hk _] _ IH]; intros off Hhi; cbn; [done|].
  split; [by left|]. apply IH. unfold SIZEOF_STRUCT_MEM in *. lia.
Qed.
Lemma clear_after lo hi off bs : Forall block_ok bs → hp + off + span bs ≤ lo → clear lo hi off bs.
Proof.
  intros Hok. revert off. induction Hok as [|k bs [Hk _] Hok IH]; intros off Hlo; cbn in *; [done|].
  pose proof (span_ok bs Hok) as [Hs _]. unfold zlen in *.
  split; [right; lia|]. apply IH. lia.
Qed.

Lemma same_data_refl l off bs : same_data l l off bs.
Proof. revert off. by induction bs; intros off; cbn. Qed.
Lemma same_data_trans l1 l2 l3 off bs :
  same_data l1 l2 off bs → same_data l2 l3 off bs → same_data l1 l3 off bs.
Proof.
  revert off. induction bs as [|k bs IH]; intros off; cbn; [done|]. intros [H1 H1'] [H2 H2'].
  split; [|by apply IH]. intros Hu a Ha. by rewrite H2, H1.
Qed.
Lemma same_data_app l l' off bs1 bs2 :
  same_data l l' off (bs1 ++ bs2) ↔ same_data l l' off bs1 ∧ same_data l l' (off + span bs1) bs2.
Proof.
  revert off. induction bs1 as [|k bs1 IH]; intros off; cbn.
  - rewrite Z.add_0_r. tauto.
  - rewrite IH. replace (off + SIZEOF_STRUCT_MEM + b_size k + span bs1)
      with (off + (SIZEOF_STRUCT_MEM + b_size k + span bs1)) by lia. tauto.
Qed.
Lemma stored_same_data l l' n a v off bs :
  stored l l' n (a - rb) v → Forall block_ok bs → 0 ≤ off → clear a (a + Z.of_nat n) off bs →
  same_data l l' off bs.
Proof.
  intros Hst Hok. revert off. induction Hok as [|k bs [Hk _] _ IH]; intros off Hoff; cbn; [done|].
  intros [Hc Hcs]. destruct Hgeo as [_ _ (Hr & _)].
  split; [|apply IH; [unfold SIZEOF_STRUCT_MEM; lia|done]].
  intros Hu b Hb. unfold SIZEOF_STRUCT_MEM in *.
  apply (stored_other _ _ _ _ _ Hst); [lia|]. destruct (Hc Hu); lia.
Qed.

Lemma header_frame l l' n a v b u next prev :
  stored l l' n (a - rb) v → rb ≤ b → b + 12 ≤ a ∨ a + Z.of_nat n ≤ b →
  header l b u next prev → header l' b u next prev.
Proof.
  intros Hst Hb Hab [H1 H2 H3 H4].
  split; [rewrite <- H1|rewrite <- H2|rewrite <- H3|rewrite <- H4]; eapply stored_frame; (exact Hst || lia).
Qed.
Lemma seg_frame l l' n a v off prev bs :
  stored l l' n (a - rb) v → Forall block_ok bs → 0 ≤ off →
  hp + off + span bs ≤ a ∨ a + Z.of_nat n ≤ hp + off →
  seg l off prev bs → seg l' off prev bs.
Proof.
  intros Hst Hok. revert off prev. induction Hok as [|k bs [Hk _] Hok IH]; intros off prev Hoff Ha; [done|].
  cbn [seg span] in *. intros [Hh Hs]. pose proof (span_ok bs Hok) as [Hsp _].
  destruct Hgeo as [_ _ (Hr & _)]. unfold SIZEOF_STRUCT_MEM, zlen in *.
  split; [eapply header_frame; (exact Hst || exact Hh || lia)|]. apply IH; [lia..|done].
Qed.
Lemma sentinel_frame l l' n a v :
  stored l l' n (a - rb) v → a + Z.of_nat n ≤ hp + msa + 14 ∨ hp + msa + 20 ≤ a →
  sentinel l → sentinel l'.
Proof.
  intros Hst Ha [H1 H2]. destruct Hgeo as [_ [? _] (Hr & _)]. unfold sentinel, SIZEOF_STRUCT_MEM in *.
  split; [etrans; [|exact H1]|etrans; [|exact H2]]; eapply stored_frame; (exact Hst || lia).
Qed.
(** Storing one field of a header. *)
Ltac set_header Hst Hh :=
  destruct Hh; split;
  first [exact (stored_field _ _ _ _ _ Hst) | rewrite (stored_frame _ _ _ _ _ _ _ Hst) by lia; done].
Lemma header_set_magic l l' a u next prev :
  rb ≤ a → header l a u next prev → stored l l' 2 (a - rb) HEAP_MAGIC → header l' a u next prev.
Proof. intros Ha Hh Hst. set_header Hst Hh. Qed.
Lemma header_set_used l l' a u u' next prev :
  rb ≤ a → header l a u next prev → stored l l' 2 (a + 2 - rb) (Z.b2z u') → header l' a u' next prev.
Proof. intros Ha Hh Hst. set_header Hst Hh. Qed.
Lemma header_set_next l l' a u next next' prev :
  rb ≤ a → header l a u next prev → stored l l' 4 (a + 4 - rb) next' → header l' a u next' prev.
Proof. intros Ha Hh Hst. set_header Hst Hh. Qed.
Lemma header_set_prev l l' a u next prev prev' :
  rb ≤ a → header l a u next prev → stored l l' 4 (a + 8 - rb) prev' → header l' a u next prev'.
Proof. intros Ha Hh Hst. set_header Hst Hh. Qed.
(** Storing the prev field of the block a run starts with. *)
Lemma seg_set_prev l l' off prev prev' bs :
  stored l l' 4 (hp + off + 8 - rb) prev' → Forall block_ok bs → 0 ≤ off →
  seg l off prev bs → seg l' off prev' bs.
Proof.
  intros Hst Hok Hoff. destruct Hgeo as [_ _ (Hr & _)].
  destruct Hok as [|k bs [Hk _] Hok]; [done|]. cbn [seg]. intros [Hh Hs]. split.
  - eapply header_set_prev; [lia|exact Hh|exact Hst].
  - eapply seg_frame; [exact Hst|done|unfold SIZEOF_STRUCT_MEM; lia| |exact Hs].
    right. unfold SIZEOF_STRUCT_MEM. lia.
Qed.
(** The used flag of whatever follows a run. *)
Lemma next_flag l off prev bs :
  seg l off prev bs → sentinel l → off + span bs = msa + SIZEOF_STRUCT_MEM →
  field l 2 (hp + off + 2 - rb) = Z.b2z (head_used bs).
Proof.
  intros Hs [Hse _] Hsp. destruct bs as [|k bs]; cbn in *.
  - rewrite <- Hse. f_equal. lia.
  - apply Hs.
Qed.

(** *** Programs over this layout *)

#[local] Abbreviation H lf sem um mm l :=
  (mk_heap hp (hp + (msa + SIZEOF_STRUCT_MEM)) lf sem msa um mm rb l) (only parsing).
#[local] Abbreviation free n := (mk_block false n) (only parsing).
#[local] Abbreviation used n := (mk_block true n) (only parsing).

Section fields.
Context {A : Type} (lf sem um mm : Z) (l : list Z) (Q : A → heap → Prop) (k : Z → prog heap A).
Context (a : Z) (u : bool) (next prev : Z).
Hypothesis Hl : zlen l = N.
Hypothesis Ha : hp ≤ a ∧ a + 12 ≤ rb + N.
Hypothesis Hh : header l a u next prev.

Lemma wp_magic : wp (k HEAP_MAGIC) Q (H lf sem um mm l) → wp (mem_magic a ≫= k) Q (H lf sem um mm l).
Proof.
  destruct Hgeo as [_ _ (Hr & _)]. intros Hk. apply wp_ld_bind; cbn [ram_base ram]; [lia..|]. by rewrite (h_magic _ _ _ _ _ Hh).
Qed.
Lemma wp_used : wp (k (Z.b2z u)) Q (H lf sem um mm l) → wp (mem_used a ≫= k) Q (H lf sem um mm l).
Proof.
  destruct Hgeo as [_ _ (Hr & _)]. intros Hk. apply wp_ld_bind; cbn [ram_base ram]; [lia..|]. by rewrite (h_used _ _ _ _ _ Hh).
Qed.
Lemma wp_next : wp (k next) Q (H lf sem um mm l) → wp (mem_next a ≫= k) Q (H lf sem um mm l).
Proof.
  destruct Hgeo as [_ _ (Hr & _)]. intros Hk. apply wp_ld_bind; cbn [ram_base ram]; [lia..|]. by rewrite (h_next _ _ _ _ _ Hh).
Qed.
Lemma wp_prev : wp (k prev) Q (H lf sem um mm l) → wp (mem_prev a ≫= k) Q (H lf sem um mm l).
Proof.
  destruct Hgeo as [_ _ (Hr & _)]. intros Hk. apply wp_ld_bind; cbn [ram_base ram]; [lia..|]. by rewrite (h_prev _ _ _ _ _ Hh).
Qed.
End fields.

(** The used flag of whatever follows the blocks up to offset [off]. *)
Lemma wp_next_flag {A} lf sem um mm l (Q : A → heap → Prop) k off prev bs :
  zlen l = N → 0 ≤ off → seg l off prev bs → sentinel l → off + span bs = msa + SIZEOF_STRUCT_MEM →
  Forall block_ok bs →
  wp (k (Z.b2z (head_used bs))) Q (H lf sem um mm l) → wp (mem_used (hp + off) ≫= k) Q (H lf sem um mm l).
Proof.
  intros Hl Hoff Hs Hse Hsp Hok Hk. destruct Hgeo as [_ _ (Hr & Hr1 & _)].
  pose proof (span_ok bs Hok) as [Hb _]. unfold SIZEOF_STRUCT_MEM, zlen in *.
  apply wp_ld_bind; cbn [ram_base ram]; unfold zlen; [lia..|]. by rewrite (next_flag l off prev bs).
Qed.

Lemma wp_put_at {A} n a v (k : unit → prog heap A) Q hp' e lf sem msa' um mm l :
  zlen l = N → hp ≤ a → a + Z.of_nat n ≤ rb + N → 0 ≤ v < 2 ^ (8 * Z.of_nat n) →
  (∀ l', stored l l' n (a - rb) v → zlen l' = N → wp (k tt) Q (mk_heap hp' e lf sem msa' um mm rb l')) →
  wp (st n a v ≫= k) Q (mk_heap hp' e lf sem msa' um mm rb l).
Proof.
  intros Hl Ha Hn Hv Hk. destruct Hgeo as [_ _ (Hr & _)]. apply wp_st_bind; cbn [ram_base ram]; [lia..|done|].
  intros l' Hst. apply Hk; [done|]. by rewrite (stored_zlen _ _ _ _ _ Hst).
Qed.
Lemma wp_put {A} n a v (k : unit → prog heap A) Q lf sem um mm l :
  zlen l = N → hp ≤ a → a + Z.of_nat n ≤ rb + N → 0 ≤ v < 2 ^ (8 * Z.of_nat n) →
  (∀ l', stored l l' n (a - rb) v → zlen l' = N → wp (k tt) Q (H lf sem um mm l')) →
  wp (st n a v ≫= k) Q (H lf sem um mm l).
Proof. apply wp_put_at. Qed.
(** The same at the end of a program. *)
Lemma wp_put_last n a v (Q : unit → heap → Prop) lf sem um mm l :
  zlen l = N → hp ≤ a → a + Z.of_nat n ≤ rb + N → 0 ≤ v < 2 ^ (8 * Z.of_nat n) →
  (∀ l', stored l l' n (a - rb) v → zlen l' = N → Q tt (H lf sem um mm l')) →
  wp (st n a v) Q (H lf sem um mm l).
Proof.
  intros Hl Ha Hn Hv Hk. enough (wp (st n a v ≫= mret) Q (H lf sem um mm l)) as Hw
    by (unfold wp, mbind, prog_bind in *; by destruct (st n a v _) as [[[] h]|]).
  by apply wp_put.
Qed.

(** What the layout says at a block in the middle of the heap. *)
Lemma laid_middle l bs1 k bs2 :
  laid l (bs1 ++ k :: bs2) →
  let off := span bs1 in let off2 := off + SIZEOF_STRUCT_MEM + b_size k in
  seg l 0 0 bs1 ∧ header l (hp + off) (b_used k) off2 (last_off 0 0 bs1) ∧ seg l off2 off bs2 ∧
  sentinel l ∧ Forall block_ok bs1 ∧ block_ok k ∧ Forall block_ok bs2 ∧ 0 ≤ off ∧ off mod 4 = 0 ∧
  off2 + span bs2 = msa + SIZEOF_STRUCT_MEM ∧ 0 ≤ span bs2 ∧ span bs2 mod 4 = 0 ∧
  zlen l = N ∧ Forall is_u8 l.
Proof.
  intros [Hs Hse Hsp Hok Hl Hu]. apply seg_app in Hs as [Hs1 Hs2]. cbn [seg] in Hs2. rewrite Z.add_0_l in Hs2.
  rewrite span_app in Hsp. cbn [span] in Hsp.
  apply Forall_app in Hok as [Hok1 Hok2]. inversion_clear Hok2 as [|?? Hk Hok3].
  destruct (span_ok bs1 Hok1), (span_ok bs2 Hok3), Hs2. unfold zlen in *. cbn zeta. split_and!; (done || lia).
Qed.
Lemma laid_join l bs1 k bs2 :
  let off := span bs1 in let off2 := off + SIZEOF_STRUCT_MEM + b_size k in
  seg l 0 0 bs1 → header l (hp + off) (b_used k) off2 (last_off 0 0 bs1) → seg l off2 off bs2 →
  sentinel l → Forall block_ok bs1 → block_ok k → Forall block_ok bs2 →
  off2 + span bs2 = msa + SIZEOF_STRUCT_MEM → zlen l = N → Forall is_u8 l →
  laid l (bs1 ++ k :: bs2).
Proof.
  intros off off2 Hs1 Hh Hs2 Hse Hok1 Hk Hok2 Hsp Hl Hu. split; try done.
  - apply seg_app. rewrite Z.add_0_l. by cbn [seg].
  - rewrite span_app. cbn [span]. lia.
  - apply Forall_app. split; [done|]. by constructor.
Qed.

(** The two stores that merge two neighbouring free blocks. *)
Lemma merge_laid l l1 l2 bs1 n m bs2 :
  laid l (bs1 ++ free n :: free m :: bs2) →
  let off := span bs1 in let off3 := off + SIZEOF_STRUCT_MEM + n + SIZEOF_STRUCT_MEM + m in
  stored l l1 4 (hp + off + 4 - rb) off3 → stored l1 l2 4 (hp + off3 + 8 - rb) off →
  laid l2 (bs1 ++ free (n + SIZEOF_STRUCT_MEM + m) :: bs2) ∧
  same_data l l2 0 (bs1 ++ free n :: free m :: bs2).
Proof.
  intros Hl off off3 H1 H2.
  destruct (laid_middle l bs1 (free n) (free m :: bs2) Hl)
    as (Hs1 & Hh & Hs2 & Hse & Hok1 & Hk & Hok2 & Hoff & Hm & Hsp & Hsp2 & _ & Hz & Hu).
  cbn [b_size b_used] in *. cbn [seg span b_size] in Hs2, Hsp, Hsp2. destruct Hs2 as [Hh2 Hs3].
  inversion_clear Hok2 as [|?? Hk2 Hok3]. destruct (span_ok bs2 Hok3) as [Hb _].
  fold off in Hs1, Hh, Hs3, Hoff, Hsp. destruct Hgeo as [_ _ (Hr & _)].
  assert (off3 + span bs2 = msa + SIZEOF_STRUCT_MEM) as Hoff3 by (unfold off3; cbn [b_size] in *; lia).
  destruct Hk as [Hn4 Hn], Hk2 as [Hm4 Hm']. cbn [b_size] in *. unfold SIZEOF_STRUCT_MEM, zlen in *.
  split.
  - apply laid_join; cbn [b_size b_used]; fold off; unfold SIZEOF_STRUCT_MEM.
    + eapply seg_frame; [exact H2|done|done|lia|]. eapply seg_frame; [exact H1|done|done|lia|done].
    + eapply header_frame; [exact H2|lia|lia|].
      replace (off + 12 + (n + 12 + m)) with off3 by (unfold off3; lia).
      eapply header_set_next; [lia|exact Hh|exact H1].
    + replace (off + 12 + (n + 12 + m)) with off3 by (unfold off3; lia).
      eapply seg_set_prev; [exact H2|done|lia|].
      eapply seg_frame; [exact H1|done|lia|lia|].
      replace off3 with (off + 12 + n + 12 + m) by (unfold off3; lia). exact Hs3.
    + pose proof (span_gap bs2 Hok3). eapply sentinel_frame; [exact H2|lia|]. eapply sentinel_frame; [exact H1|lia|done].
    + done.
    + split; cbn; lia.
    + done.
    + lia.
    + by rewrite (stored_zlen _ _ _ _ _ H2), (stored_zlen _ _ _ _ _ H1).
    + by apply (stored_u8 _ _ _ _ _ H2), (stored_u8 _ _ _ _ _ H1).
  - assert (Forall block_ok (bs1 ++ free n :: free m :: bs2)) as Hok by apply Hl.
    eapply same_data_trans; (eapply stored_same_data; [eassumption|exact Hok|lia|]);
      apply clear_app; cbn [clear b_used b_size]; rewrite Z.add_0_l; fold off; unfold SIZEOF_STRUCT_MEM.
    + split; [apply clear_after; [done|fold off; lia]|]. do 2 (split; [done|]). apply clear_before; [done|unfold SIZEOF_STRUCT_MEM; lia].
    + split; [apply clear_after; [done|fold off; lia]|]. do 2 (split; [done|]). apply clear_before; [done|unfold SIZEOF_STRUCT_MEM; lia].
Qed.

Lemma wp_merge lf sem um mm l bs1 n m bs2 (Q : unit → heap → Prop) :
  laid l (bs1 ++ free n :: free m :: bs2) →
  let off := span bs1 in let off2 := off + SIZEOF_STRUCT_MEM + n in
  (∀ l', laid l' (bs1 ++ free (n + SIZEOF_STRUCT_MEM + m) :: bs2) →
     same_data l l' 0 (bs1 ++ free n :: free m :: bs2) → Q tt (H lf sem um mm l')) →
  wp (next ← mem_next (hp + off2); set_next (hp + off) next;;
      next ← mem_next (hp + off2); set_prev (hp + next) (u32 (hp + off - hp))) Q (H lf sem um mm l).
Proof.
  intros Hl off off2 HQ.
  destruct (laid_middle l bs1 (free n) (free m :: bs2) Hl)
    as (Hs1 & Hh & Hs2 & Hse & Hok1 & Hk & Hok2 & Hoff & Hm & Hsp & Hsp2 & _ & Hz & Hu).
  cbn [b_size b_used seg span] in *. destruct Hs2 as [Hh2 Hs3].
  inversion_clear Hok2 as [|?? Hk2 Hok3]. destruct (span_ok bs2 Hok3) as [Hb _].
  destruct Hgeo as [[Hhp _] _ (Hr & Hr1 & Hr2)]. fold off in Hh2, Hoff, Hsp, Hh. fold off2 in Hh2.
  destruct Hk as [Hn4 Hn], Hk2 as [Hm4 Hm']. cbn [b_size] in *. unfold zlen in Hb.
  assert (off2 = off + SIZEOF_STRUCT_MEM + n) as Ho2 by done.
  unfold SIZEOF_STRUCT_MEM in *.
  eapply wp_next; [done|lia|exact Hh2|].
  apply wp_put; [done|lia|lia|change (2 ^ (8 * Z.of_nat 4)) with 4294967296; lia|]. intros l1 H1 Hz1.
  eapply wp_next; [done|lia| |].
  { eapply header_frame; [exact H1|lia|lia|exact Hh2]. }
  apply wp_put_last; [done|lia|lia|change (2 ^ (8 * Z.of_nat 4)) with 4294967296; unfold u32; lia|].
  intros l2 H2 Hz2. replace (u32 (hp + off - hp)) with off in H2 by (unfold u32; lia).
  replace (off2 + 12 + m) with (off + 12 + n + 12 + m) in * by lia.
  destruct (merge_laid l l1 l2 bs1 n m bs2 Hl H1 H2) as [? ?]. by apply HQ.
Qed.

(** *** Merging free neighbours *)

Lemma plug_forward_ok lf sem um mm l bs1 n bs2 (Q : unit → heap → Prop) :
  laid l (bs1 ++ free n :: bs2) → lf ≤ hp + span bs1 →
  (∀ l', laid l' (bs1 ++ join (free n) bs2) → same_data l l' 0 (bs1 ++ free n :: bs2) →
     Q tt (H lf sem um mm l')) →
  wp (plug_forward (hp + span bs1)) Q (H lf sem um mm l).
Proof.
  intros Hl Hlf HQ.
  destruct (laid_middle l bs1 (free n) bs2 Hl)
    as (Hs1 & Hh & Hs2 & Hse & Hok1 & [Hn4 Hn] & Hok2 & Hoff & Hm & Hsp & Hsp2 & _ & Hz & Hu).
  cbn [b_size b_used] in *. set (off := span bs1) in *. pose proof Hgeo as [[Hhp _] _ (Hr & Hr1 & Hr2)].
  unfold plug_forward. apply wp_gets_bind. cbn [heap_ptr].
  eapply wp_next; [done|unfold SIZEOF_STRUCT_MEM in *; lia|exact Hh|]. cbv zeta.
  eapply wp_next_flag; [done|unfold SIZEOF_STRUCT_MEM; lia|exact Hs2|done..|].
  apply wp_gets_bind. cbn [heap_end].
  destruct bs2 as [|[[] m] bs2]; cbn [head_used b_used Z.b2z].
  - rewrite decide_False by (intros (_ & ? & _); done). apply HQ; [exact Hl|apply same_data_refl].
  - rewrite decide_False by (intros (_ & ? & _); done). apply HQ; [exact Hl|apply same_data_refl].
  - cbn [span b_size] in Hsp. inversion_clear Hok2 as [|?? [Hm4 _] Hok3]. cbn [b_size] in Hm4.
    pose proof (span_ok bs2 Hok3) as [Hb _]. unfold SIZEOF_STRUCT_MEM, zlen in *.
    rewrite decide_True by lia. apply wp_modify_bind. cbn [lfree]. rewrite decide_False by lia.
    apply (wp_merge lf sem um mm l bs1 n m bs2 Q Hl). intros l' Hl' Hd. by apply HQ.
Qed.

Lemma plug_backward_ok lf sem um mm l bs1 n bs2 (Q : unit → heap → Prop) :
  laid l (bs1 ++ free n :: bs2) → lf = hp + first_free 0 (bs1 ++ free n :: bs2) →
  (∀ l', laid l' (match rev bs1 with k :: bs0 => rev bs0 ++ join k (free n :: bs2) | [] => free n :: bs2 end) →
     same_data l l' 0 (bs1 ++ free n :: bs2) → Q tt (H lf sem um mm l')) →
  wp (plug_backward (hp + span bs1)) Q (H lf sem um mm l).
Proof.
  intros Hl Hlf HQ.
  destruct (laid_middle l bs1 (free n) bs2 Hl)
    as (Hs1 & Hh & Hs2 & Hse & Hok1 & [Hn4 Hn] & Hok2 & Hoff & Hm & Hsp & Hsp2 & _ & Hz & Hu).
  cbn [b_size b_used] in *. pose proof Hgeo as [[Hhp _] _ (Hr & Hr1 & Hr2)].
  unfold plug_backward. apply wp_gets_bind. cbn [heap_ptr].
  eapply wp_prev; [done|unfold SIZEOF_STRUCT_MEM in *; lia|exact Hh|]. cbv zeta.
  destruct (rev bs1) as [|k bs0] eqn:Hrev; apply (f_equal (@rev block)) in Hrev; rewrite rev_involutive in Hrev;
    cbn [rev] in Hrev; subst bs1.
  - cbn [last_off] in *. eapply wp_used; [done|unfold SIZEOF_STRUCT_MEM in *; lia|exact Hh|].
    rewrite decide_False by (cbn; intros [? _]; done). apply HQ; [exact Hl|apply same_data_refl].
  - rewrite last_off_app in *. cbn [last_off] in *. rewrite Z.add_0_l in *.
    apply seg_app in Hs1 as [_ [Hhk _]]. rewrite Z.add_0_l in Hhk. apply Forall_app in Hok1 as [Hok0 Hok1].
    inversion_clear Hok1 as [|?? [Hk4 _] _]. pose proof (span_ok (rev bs0) Hok0) as [Hb _].
    rewrite span_app in *. cbn [span] in *. unfold zlen in Hb.
    eapply wp_used; [done|unfold SIZEOF_STRUCT_MEM in *; lia|exact Hhk|].
    destruct k as [[] p]; cbn [b_used Z.b2z b_size] in *.
    + rewrite decide_False by (intros [_ ?]; done).
      apply HQ; [rewrite <- app_assoc in Hl; exact Hl|apply same_data_refl].
    + unfold SIZEOF_STRUCT_MEM in *. rewrite decide_True by lia. apply wp_modify_bind. cbn [lfree].
      rewrite <- app_assoc in Hl, Hlf, HQ. cbn [app] in Hl, Hlf, HQ.
      assert (lf ≤ hp + span (rev bs0)) as Hlow.
      { rewrite Hlf, first_free_app. case_decide; cbn; [lia|].
        pose proof (first_free_le 0 (rev bs0) Hok0). lia. }
      rewrite decide_False by lia.
      replace (hp + (span (rev bs0) + (12 + p + 0))) with (hp + (span (rev bs0) + SIZEOF_STRUCT_MEM + p))
        by (unfold SIZEOF_STRUCT_MEM; lia).
      apply (wp_merge lf sem um mm l (rev bs0) p n bs2 Q Hl). intros l' Hl' Hd. by apply HQ.
Qed.

(** Joining does not touch the data in use. *)
Lemma same_data_join l l' off k bs :
  same_data l l' off (join k bs) ↔ same_data l l' off (k :: bs).
Proof.
  destruct bs as [|k' bs]; [done|]. cbn [join]. destruct (b_used k || b_used k') eqn:Hu; [done|].
  apply orb_false_iff in Hu as [H1 H2]. cbn [same_data b_used b_size]. rewrite H1, H2.
  replace (off + SIZEOF_STRUCT_MEM + (b_size k + SIZEOF_STRUCT_MEM + b_size k'))
    with (off + SIZEOF_STRUCT_MEM + b_size k + SIZEOF_STRUCT_MEM + b_size k') by lia.
  split; [intros [_ ?]|intros [_ [_ ?]]]; done.
Qed.

Lemma plug_holes_ok lf sem um mm l bs1 n bs2 (Q : unit → heap → Prop) :
  laid l (bs1 ++ free n :: bs2) → apart bs1 → apart bs2 →
  lf = hp + first_free 0 (bs1 ++ free n :: bs2) →
  (∀ l', laid l' (coalesce (bs1 ++ free n :: bs2)) → same_data l l' 0 (bs1 ++ free n :: bs2) →
     Q tt (H lf sem um mm l')) →
  wp (plug_holes (hp + span bs1)) Q (H lf sem um mm l).
Proof.
  intros Hl Ha1 Ha2 Hlf HQ.
  destruct (laid_middle l bs1 (free n) bs2 Hl)
    as (Hs1 & Hh & Hs2 & Hse & Hok1 & [Hn4 Hn] & Hok2 & Hoff & Hm & Hsp & Hsp2 & _ & Hz & Hu).
  cbn [b_size b_used] in *. pose proof Hgeo as [[Hhp _] _ (Hr & Hr1 & Hr2)].
  assert (lf ≤ hp + span bs1) as Hlow.
  { rewrite Hlf, first_free_app. case_decide; cbn; [lia|]. pose proof (first_free_le 0 bs1 Hok1). lia. }
  unfold plug_holes. apply wp_gets_bind. apply wp_gets_bind. cbn [heap_ptr heap_end].
  unfold SIZEOF_STRUCT_MEM in *.
  apply wp_assert_bind; [apply bool_decide_eq_true; lia|].
  apply wp_assert_bind; [apply bool_decide_eq_true; lia|].
  eapply wp_used; [done|lia|exact Hh|].
  apply wp_assert_bind; [done|].
  rewrite wp_bind. apply (plug_forward_ok lf sem um mm l bs1 n bs2); [done..|]. intros l1 Hl1 Hd1.
  destruct (join_facts (free n) bs2) as (_ & _ & Hhu & Hff).
  rewrite coalesce_middle in HQ by done.
  destruct (join (free n) bs2) as [|[u n'] bs2'] eqn:Hj; [by destruct bs2 as [|[[]]]|].
  cbn [head_used b_used] in Hhu. subst u.
  eapply (plug_backward_ok lf sem um mm l1 bs1 n' bs2'); [done| |].
  { rewrite Hlf, !first_free_app. case_decide; [by rewrite Hff|done]. }
  intros l2 Hl2 Hd2. apply HQ; [done|]. eapply same_data_trans; [exact Hd1|].
  apply same_data_app. apply same_data_app in Hd2 as [Hd2 Hd2']. split; [done|]. by apply same_data_join; rewrite Hj.
Qed.

(** *** Taking blocks and giving them back *)

Lemma land_aligned x : x mod 4 = 0 → Z.land x (RT_ALIGN_SIZE - 1) = 0.
Proof. intros Hx. change (RT_ALIGN_SIZE - 1) with (Z.ones 2). rewrite Z.land_ones by lia. by change (2 ^ 2) with 4. Qed.

(** A store inside the header of a block. *)
Lemma header_store_laid l l' bs1 u u' n bs2 m a v :
  laid l (bs1 ++ mk_block u n :: bs2) → stored l l' m (a - rb) v →
  hp + span bs1 ≤ a → a + Z.of_nat m ≤ hp + span bs1 + 12 →
  header l' (hp + span bs1) u' (span bs1 + SIZEOF_STRUCT_MEM + n) (last_off 0 0 bs1) →
  laid l' (bs1 ++ mk_block u' n :: bs2) ∧ ∀ u'', same_data l l' 0 (bs1 ++ mk_block u'' n :: bs2).
Proof.
  intros Hl Hst Ha Hm Hh'.
  destruct (laid_middle l bs1 (mk_block u n) bs2 Hl)
    as (Hs1 & Hh & Hs2 & Hse & Hok1 & Hk & Hok2 & Hoff & Hm4 & Hsp & Hsp2 & _ & Hz & Hu).
  cbn [b_size b_used] in *. destruct Hk as [Hn4 Hn]. cbn [b_size] in *. unfold SIZEOF_STRUCT_MEM in *.
  split.
  - apply laid_join; cbn [b_size b_used]; unfold SIZEOF_STRUCT_MEM; try done.
    + eapply seg_frame; [exact Hst|done|done|lia|done].
    + eapply seg_frame; [exact Hst|done|lia|lia|done].
    + eapply sentinel_frame; [exact Hst|lia|done].
    + by rewrite (stored_zlen _ _ _ _ _ Hst).
    + by apply (stored_u8 _ _ _ _ _ Hst).
  - intros u''. eapply stored_same_data; [exact Hst| |lia|].
    { apply Forall_app. split; [done|]. by constructor. }
    apply clear_app. cbn [clear b_used b_size]. unfold SIZEOF_STRUCT_MEM. rewrite Z.add_0_l.
    split; [apply clear_after; [done|lia]|]. split; [left; lia|]. apply clear_before; [done|unfold SIZEOF_STRUCT_MEM; lia].
Qed.

Lemma wp_set_magic {A} lf sem um mm l bs1 u n bs2 (k : unit → prog heap A) Q :
  laid l (bs1 ++ mk_block u n :: bs2) →
  (∀ l', laid l' (bs1 ++ mk_block u n :: bs2) → (∀ u'', same_data l l' 0 (bs1 ++ mk_block u'' n :: bs2)) →
     wp (k tt) Q (H lf sem um mm l')) →
  wp (set_magic (hp + span bs1) HEAP_MAGIC ≫= k) Q (H lf sem um mm l).
Proof.
  intros Hl HQ. destruct (laid_middle _ _ _ _ Hl) as (_ & Hh & _ & _ & _ & [Hn4 _] & _ & Hoff & _ & Hsp & Hsp2 & _ & Hz & _).
  pose proof Hgeo as [_ _ (Hr & Hr1 & _)]. cbn [b_size b_used] in *. unfold SIZEOF_STRUCT_MEM in *.
  apply wp_put; [done|lia|lia|done|]. intros l' Hst _.
  destruct (header_store_laid l l' bs1 u u n bs2 2 (hp + span bs1) HEAP_MAGIC) as [? ?]; [done..|lia|lia| |by apply HQ].
  eapply header_set_magic; [lia|exact Hh|exact Hst].
Qed.
Lemma wp_set_used {A} lf sem um mm l bs1 u u' n bs2 (k : unit → prog heap A) Q :
  laid l (bs1 ++ mk_block u n :: bs2) →
  (∀ l', laid l' (bs1 ++ mk_block u' n :: bs2) → (∀ u'', same_data l l' 0 (bs1 ++ mk_block u'' n :: bs2)) →
     wp (k tt) Q (H lf sem um mm l')) →
  wp (set_used (hp + span bs1) (Z.b2z u') ≫= k) Q (H lf sem um mm l).
Proof.
  intros Hl HQ. destruct (laid_middle _ _ _ _ Hl) as (_ & Hh & _ & _ & _ & [Hn4 _] & _ & Hoff & _ & Hsp & Hsp2 & _ & Hz & _).
  pose proof Hgeo as [_ _ (Hr & Hr1 & _)]. cbn [b_size b_used] in *. unfold SIZEOF_STRUCT_MEM in *.
  apply wp_put; [done|lia|lia|by destruct u'|]. intros l' Hst _.
  destruct (header_store_laid l l' bs1 u u' n bs2 2 (hp + span bs1 + 2) (Z.b2z u')) as [? ?]; [done..|lia|lia| |by apply HQ].
  eapply header_set_used; [lia|exact Hh|exact Hst].
Qed.

Lemma first_free_lt off bs :
  Forall block_ok bs → ¬ Forall (λ k, b_used k = true) bs → first_free off bs < off + span bs.
Proof.
  intros Hok. revert off. induction Hok as [|k bs [Hk _] Hok IH]; intros off Hu; [by destruct Hu|].
  cbn. pose proof (span_ok bs Hok) as [Hs _]. unfold SIZEOF_STRUCT_MEM, zlen in *. destruct (b_used k) eqn:Hku; [|lia].
  specialize (IH (off + 12 + b_size k)). assert (¬ Forall (λ k, b_used k = true) bs) as Hu' by (intros ?; apply Hu; by constructor).
  specialize (IH Hu'). lia.
Qed.

Lemma rt_free_ok mm l bs1 n bs2 (Q : unit → heap → Prop) :
  let bs := bs1 ++ used n :: bs2 in let bs' := coalesce (bs1 ++ free n :: bs2) in
  laid l bs → apart bs →
  (∀ l', laid l' bs' → apart bs' → same_data l l' 0 (bs1 ++ free n :: bs2) →
     Q tt (H (hp + first_free 0 bs') 1 (in_use bs') mm l')) →
  wp (rt_free (hp + span bs1 + SIZEOF_STRUCT_MEM)) Q (H (hp + first_free 0 bs) 1 (in_use bs) mm l).
Proof.
  intros bs bs' Hl Ha HQ.
  destruct (laid_middle l bs1 (used n) bs2 Hl)
    as (Hs1 & Hh & Hs2 & Hse & Hok1 & [Hn4 Hn] & Hok2 & Hoff & Hm & Hsp & Hsp2 & Hm2 & Hz & Hu).
  cbn [b_size b_used] in *. pose proof Hgeo as [[Hhp Hhp4] _ (Hr & Hr1 & Hr2)].
  destruct (coalesce_facts (bs1 ++ free n :: bs2)) as (_ & Eu & Ef). fold bs' in Eu, Ef.
  destruct (apart_app _ _ Ha) as [Ha1 [_ Ha2]%apart_cons].
  unfold rt_free, RT_NULL. unfold SIZEOF_STRUCT_MEM in *. rewrite decide_False by lia.
  do 2 apply wp_gets_bind. cbn [heap_ptr heap_end].
  apply wp_assert_bind; [apply bool_decide_eq_true, land_aligned; lia|].
  apply wp_assert_bind; [apply bool_decide_eq_true; lia|].
  unfold rt_sem_take. rewrite wp_bind. apply wp_gets_bind. cbn [heap_sem].
  rewrite decide_True by lia. rewrite wp_modify. unfold upd. cbn.
  replace (hp + span bs1 + 12 - 12) with (hp + span bs1) by lia.
  eapply wp_used; [done|lia|exact Hh|]. apply wp_assert_bind; [done|].
  eapply wp_magic; [done|lia|exact Hh|]. apply wp_assert_bind; [done|].
  apply (wp_set_used _ _ _ _ l bs1 true false n bs2); [exact Hl|]. intros l1 Hl1 Hd1.
  eapply wp_set_magic; [exact Hl1|]. intros l2 Hl2 Hd2.
  destruct (laid_middle _ _ _ _ Hl2) as (_ & Hh2 & _ & _ & _ & _ & _ & _ & _ & _ & _ & _ & Hz2 & _).
  cbn [b_used b_size] in *.
  apply wp_modify_bind. cbn [lfree].
  assert ((if decide (hp + span bs1 < hp + first_free 0 bs) then hp + span bs1 else hp + first_free 0 bs)
          = hp + first_free 0 bs') as Elf.
  { rewrite Ef. unfold bs. rewrite !first_free_app. cbn [first_free b_used]. unfold SIZEOF_STRUCT_MEM.
    destruct (decide (Forall _ bs1)) as [Hall|Hall].
    - pose proof (first_free_le (0 + span bs1 + 12 + n) bs2 Hok2). cbn [b_size]. rewrite decide_True by lia. lia.
    - pose proof (first_free_lt 0 bs1 Hok1 Hall). rewrite decide_False by lia. done. }
  set (lf := first_free 0 bs) in *.
  match goal with |- wp _ _ ?s => replace s with (H (hp + first_free 0 bs') 0 (in_use bs) mm l2)
    by (rewrite <- Elf; unfold upd; by case_decide) end.
  eapply wp_next; [done|lia|exact Hh2|]. apply wp_modify_bind. unfold upd. cbn.
  replace (u32 _) with (in_use bs').
  2: { pose proof (in_use_range bs (laid_ok _ _ Hl)). pose proof (laid_span _ _ Hl). unfold bs in *.
       rewrite Eu, !in_use_app in *. cbn [in_use b_used b_size] in *. unfold SIZEOF_STRUCT_MEM in *.
       pose proof (in_use_range bs1 Hok1). pose proof (in_use_range bs2 Hok2).
       unfold u32. rewrite (Z.mod_small (hp + span bs1 - hp)) by lia. rewrite Z.mod_small by lia. lia. }
  rewrite wp_bind. apply (plug_holes_ok _ _ _ _ l2 bs1 n bs2); [done..|by rewrite Ef|]. intros l3 Hl3 Hd3.
  unfold rt_sem_release. apply wp_gets_bind. cbn [heap_sem]. rewrite decide_True by done.
  rewrite wp_modify. unfold upd. cbn. apply HQ; [done|apply coalesce_apart|].
  eapply same_data_trans; [apply Hd1|]. eapply same_data_trans; [apply Hd2|done].
Qed.

(** First fit: the first free block of at least [size] bytes among those that start below
    [limit]; it is split when the rest can hold a block of its own. *)
Definition carve (size n : Z) : list block :=
  if decide (size + SIZEOF_STRUCT_MEM + MIN_SIZE_ALIGNED <= n)
  then [used size; free (n - size - SIZEOF_STRUCT_MEM)] else [used n].

Fixpoint alloc (limit size off : Z) (bs : list block) : option (Z * list block) :=
  match bs with
  | [] => None
  | k :: bs =>
      if decide (off < limit) then
        if decide (b_used k = false ∧ size ≤ b_size k) then Some (off, carve size (b_size k) ++ bs)
        else prod_map id (cons k) <$> alloc limit size (off + SIZEOF_STRUCT_MEM + b_size k) bs
      else None
  end.

(** A store in the data of a block leaves the headers alone. *)
Lemma body_store_laid l l' bs1 u n bs2 m a v :
  laid l (bs1 ++ mk_block u n :: bs2) → stored l l' m (a - rb) v →
  hp + span bs1 + 12 ≤ a → a + Z.of_nat m ≤ hp + span bs1 + 12 + n →
  laid l' (bs1 ++ mk_block u n :: bs2).
Proof.
  intros Hl Hst Ha Hm.
  destruct (laid_middle l bs1 (mk_block u n) bs2 Hl)
    as (Hs1 & Hh & Hs2 & Hse & Hok1 & [Hn4 Hn] & Hok2 & Hoff & Hm4 & Hsp & Hsp2 & _ & Hz & Hu).
  cbn [b_size b_used] in *. pose proof Hgeo as [_ _ (Hr & Hr1 & _)]. unfold SIZEOF_STRUCT_MEM in *.
  apply laid_join; cbn [b_size b_used]; unfold SIZEOF_STRUCT_MEM; try done.
  - eapply seg_frame; [exact Hst|done|done|lia|done].
  - eapply header_frame; [exact Hst|lia|lia|done].
  - eapply seg_frame; [exact Hst|done|lia|lia|done].
  - eapply sentinel_frame; [exact Hst|lia|done].
  - by rewrite (stored_zlen _ _ _ _ _ Hst).
  - by apply (stored_u8 _ _ _ _ _ Hst).
Qed.

(** *** Cutting a block in two *)

(** A block of [n] bytes at the end of [bs1] is cut to [size]. *)
Section cut.
Context (bs1 : list block) (n size : Z) (bs2 : list block).
#[local] Abbreviation off := (span bs1) (only parsing).
#[local] Abbreviation ptr2 := (span bs1 + 12 + size) (only parsing).
#[local] Abbreviation off3 := (span bs1 + 12 + n) (only parsing).
#[local] Abbreviation cut u := (bs1 ++ mk_block u size :: free (n - size - SIZEOF_STRUCT_MEM) :: bs2) (only parsing).
Hypothesis Hsize : 4 ≤ size ∧ size mod 4 = 0 ∧ size + 16 ≤ n.

(** Stores outside what [cut u] keeps for its owners. *)
Lemma cut_same_data l l' u m a v :
  Forall block_ok bs1 → Forall block_ok bs2 → n mod 4 = 0 → stored l l' m (a - rb) v → hp + off ≤ a →
  a + Z.of_nat m ≤ hp + off + 12 ∨ hp + ptr2 ≤ a ∧ a + Z.of_nat m ≤ hp + off3 + 12 →
  same_data l l' 0 (cut u).
Proof.
  intros Hok1 Hok2 Hn Hst Ha Hm. destruct (span_ok bs1 Hok1) as [Hb _]. unfold zlen in Hb.
  eapply stored_same_data; [exact Hst| |lia|].
  { apply Forall_app. split; [done|]. do 2 (constructor; [split; cbn [b_size]; unfold SIZEOF_STRUCT_MEM; lia|]). done. }
  apply clear_app. cbn [clear b_used b_size]. unfold SIZEOF_STRUCT_MEM. rewrite Z.add_0_l.
  split; [apply clear_after; [done|lia]|]. split; [lia|]. split; [done|].
  apply clear_before; [done|unfold SIZEOF_STRUCT_MEM; lia].
Qed.

Lemma tail_store_laid l l' u m a v :
  laid l (bs1 ++ mk_block u n :: bs2) → stored l l' m (a - rb) v →
  hp + ptr2 ≤ a → a + Z.of_nat m ≤ hp + ptr2 + 12 →
  laid l' (bs1 ++ mk_block u n :: bs2) ∧ ∀ u', same_data l l' 0 (cut u').
Proof.
  intros Hl Hst Ha Hm.
  destruct (laid_middle _ _ _ _ Hl) as (_ & _ & _ & _ & Hok1 & [Hn4 Hn] & Hok2 & Hoff & _). cbn [b_size] in *.
  split; [eapply body_store_laid; [done..|lia|lia]|]. intros u'. eapply cut_same_data; (exact Hst || done || lia).
Qed.

(** The new header, written into the data of the block. *)
Lemma wp_new_header {A} lf sem um mm l u (k : unit → prog heap A) Q :
  laid l (bs1 ++ mk_block u n :: bs2) →
  (∀ l', laid l' (bs1 ++ mk_block u n :: bs2) → (∀ u', same_data l l' 0 (cut u')) →
     header l' (hp + ptr2) false off3 off → wp (k tt) Q (H lf sem um mm l')) →
  wp (set_magic (hp + ptr2) HEAP_MAGIC;; set_used (hp + ptr2) 0;;
      next ← mem_next (hp + off);
      set_next (hp + ptr2) next;; set_prev (hp + ptr2) off ≫= k) Q (H lf sem um mm l).
Proof.
  intros Hl HQ.
  destruct (laid_middle l bs1 (mk_block u n) bs2 Hl) as (_ & _ & _ & _ & _ & [Hn4 _] & _ & Hoff & _ & Hsp & Hsp2 & _ & Hz & _).
  pose proof Hgeo as [[Hhp _] _ (Hr & Hr1 & Hr2)]. cbn [b_size] in *. unfold SIZEOF_STRUCT_MEM in *.
  apply wp_put; [done|lia|lia|done|]. intros l1 H1 Hz1. destruct (tail_store_laid _ _ _ _ _ _ Hl H1) as [L1 D1]; [lia|lia|].
  apply wp_put; [done|lia|lia|done|]. intros l2 H2 Hz2. destruct (tail_store_laid _ _ _ _ _ _ L1 H2) as [L2 D2]; [lia|lia|].
  destruct (laid_middle _ _ _ _ L2) as (_ & Hh & _). eapply wp_next; [done|lia|exact Hh|]. cbn [b_size].
  unfold SIZEOF_STRUCT_MEM.
  apply wp_put; [done|lia|lia|lia|]. intros l3 H3 Hz3. destruct (tail_store_laid _ _ _ _ _ _ L2 H3) as [L3 D3]; [lia|lia|].
  apply wp_put; [done|lia|lia|lia|]. intros l4 H4 Hz4. destruct (tail_store_laid _ _ _ _ _ _ L3 H4) as [L4 D4]; [lia|lia|].
  apply HQ; [done|intros u'; eauto 6 using same_data_trans|].
  split;
    (first [exact (stored_field _ _ _ _ _ H4)|rewrite (stored_frame _ _ _ _ _ _ _ H4) by lia]);
    (first [exact (stored_field _ _ _ _ _ H3)|rewrite (stored_frame _ _ _ _ _ _ _ H3) by lia]);
    (first [exact (stored_field _ _ _ _ _ H2)|rewrite (stored_frame _ _ _ _ _ _ _ H2) by lia]);
    exact (stored_field _ _ _ _ _ H1).
Qed.

(** The block linked to the new header; the block behind still points back to [prev3]. *)
Record linked (l : list Z) (u : bool) (prev3 : Z) : Prop := {
  lk_before : seg l 0 0 bs1;
  lk_header : header l (hp + off) u ptr2 (last_off 0 0 bs1);
  lk_new : header l (hp + ptr2) false off3 off;
  lk_behind : seg l off3 prev3 bs2;
  lk_sentinel : sentinel l;
  lk_zlen : zlen l = N;
  lk_u8 : Forall is_u8 l;
}.
Hypothesis Hok1 : Forall block_ok bs1.
Hypothesis Hok2 : Forall block_ok bs2.
Hypothesis Hn : n mod 4 = 0 ∧ off3 + span bs2 = msa + 12.

Lemma linked_next l l' u :
  laid l (bs1 ++ mk_block u n :: bs2) → header l (hp + ptr2) false off3 off →
  stored l l' 4 (hp + off + 4 - rb) ptr2 → linked l' u off.
Proof.
  intros Hl Hh2 Hst. destruct (laid_middle _ _ _ _ Hl) as (Hs1 & Hh & Hs2 & Hse & _ & _ & _ & Hoff & _ & _ & _ & _ & Hz & Hu).
  cbn [b_size b_used] in *. pose proof Hgeo as [_ _ (Hr & Hr1 & _)]. destruct (span_ok bs2 Hok2) as [Hb _].
  unfold SIZEOF_STRUCT_MEM, zlen in *. split.
  - eapply seg_frame; [exact Hst|done|done|lia|done].
  - eapply header_set_next; [lia|exact Hh|exact Hst].
  - eapply header_frame; [exact Hst|lia|lia|done].
  - eapply seg_frame; [exact Hst|done|lia|lia|done].
  - eapply sentinel_frame; [exact Hst|lia|done].
  - by rewrite (stored_zlen _ _ _ _ _ Hst).
  - by apply (stored_u8 _ _ _ _ _ Hst).
Qed.
Lemma linked_used l l' u u' prev3 :
  linked l u prev3 → stored l l' 2 (hp + off + 2 - rb) (Z.b2z u') → linked l' u' prev3.
Proof.
  intros [Hs1 Hh Hh2 Hs2 Hse Hz Hu] Hst. pose proof Hgeo as [_ _ (Hr & Hr1 & _)].
  destruct (span_ok bs1 Hok1) as [Hb1 _], (span_ok bs2 Hok2) as [Hb _]. unfold zlen in *. split.
  - eapply seg_frame; [exact Hst|done|done|lia|done].
  - eapply header_set_used; [lia|exact Hh|exact Hst].
  - eapply header_frame; [exact Hst|lia|lia|done].
  - eapply seg_frame; [exact Hst|done|lia|lia|done].
  - eapply sentinel_frame; [exact Hst|lia|done].
  - unfold zlen. rewrite <- Hz. apply (stored_zlen _ _ _ _ _ Hst).
  - by apply (stored_u8 _ _ _ _ _ Hst).
Qed.
(** The end marker has no prev field to mend. *)
Lemma linked_end l u prev3 : linked l u prev3 → off3 = msa + 12 → linked l u ptr2.
Proof.
  intros [] He. split; try done. destruct (span_gap bs2 Hok2); [|lia].
  destruct Hok2 as [|k bs [Hk _] Hok]; [done|]. destruct (span_ok bs Hok). cbn in *. unfold SIZEOF_STRUCT_MEM, zlen in *. lia.
Qed.
Lemma linked_prev l l' u prev3 :
  linked l u prev3 → stored l l' 4 (hp + off3 + 8 - rb) ptr2 → linked l' u ptr2.
Proof.
  intros [Hs1 Hh Hh2 Hs2 Hse Hz Hu] Hst. pose proof Hgeo as [_ _ (Hr & Hr1 & _)].
  destruct (span_ok bs1 Hok1) as [Hb1 _], (span_ok bs2 Hok2) as [Hb _]. pose proof (span_gap bs2 Hok2).
  unfold zlen in *. split.
  - eapply seg_frame; [exact Hst|done|done|lia|done].
  - eapply header_frame; [exact Hst|lia|lia|done].
  - eapply header_frame; [exact Hst|lia|lia|done].
  - eapply seg_set_prev; [exact Hst|done|lia|done].
  - eapply sentinel_frame; [exact Hst|lia|done].
  - unfold zlen. rewrite <- Hz. apply (stored_zlen _ _ _ _ _ Hst).
  - by apply (stored_u8 _ _ _ _ _ Hst).
Qed.
Lemma linked_laid l u : linked l u ptr2 → laid l (cut u).
Proof.
  intros [Hs1 Hh Hh2 Hs2 Hse Hz Hu].
  apply laid_join; try done; cbn [b_size b_used seg span]; unfold SIZEOF_STRUCT_MEM.
  - by replace (off + 12 + size + 12 + (n - size - 12)) with off3 by lia.
  - split; cbn [b_size]; lia.
  - constructor; [split; cbn [b_size]; lia|done].
  - lia.
Qed.

(** The end of both operations that cut a block. *)
Lemma wp_mend {A} lf sem um mm l u (k : unit → prog heap A) Q :
  linked l u off →
  (∀ l', laid l' (cut u) → (∀ u', same_data l l' 0 (cut u')) → wp (k tt) Q (H lf sem um mm l')) →
  wp (next2 ← mem_next (hp + ptr2);
      when (bool_decide (next2 ≠ msa + SIZEOF_STRUCT_MEM)) (set_prev (hp + next2) ptr2) ≫= k) Q (H lf sem um mm l).
Proof.
  intros Hl HQ. pose proof Hgeo as [[Hhp _] _ (Hr & Hr1 & Hr2)].
  destruct (span_ok bs1 Hok1) as [Hb1 _], (span_ok bs2 Hok2) as [Hb _]. pose proof (span_gap bs2 Hok2).
  pose proof (lk_zlen _ _ _ Hl) as Hz. unfold zlen in Hb, Hb1. unfold SIZEOF_STRUCT_MEM.
  eapply wp_next; [done|lia|apply Hl|]. rewrite wp_bind. apply wp_when; intros Hc.
  - apply wp_put_last; [done|lia|lia|lia|]. intros l' Hst _.
    apply HQ; [by eapply linked_laid, linked_prev|]. intros u'. eapply cut_same_data; (exact Hst || done || lia).
  - apply bool_decide_eq_false, dec_stable in Hc.
    apply HQ; [by eapply linked_laid, linked_end|]. intros u'. apply same_data_refl.
Qed.
End cut.

(** *** Allocation *)

Lemma carve_facts size n :
  12 ≤ size ≤ n → size mod 4 = 0 → n mod 4 = 0 →
  span (carve size n) = SIZEOF_STRUCT_MEM + n ∧ Forall block_ok (carve size n) ∧
  ∃ m rest, carve size n = used m :: rest ∧ size ≤ m < size + 24 ∧ (rest = [] ∨ ∃ r, rest = [free r]).
Proof.
  intros Hs Hm Hn. unfold carve, MIN_SIZE_ALIGNED. case_decide; cbn [span b_size]; unfold SIZEOF_STRUCT_MEM in *.
  - split; [lia|]. split; [repeat constructor; cbn; lia|]. eexists size, _. split; [done|]. split; [lia|]. eauto.
  - split; [lia|]. split; [repeat constructor; cbn; lia|]. eexists n, _. split; [done|]. split; [lia|]. eauto.
Qed.
Lemma carve_apart bs1 size n bs2 : apart (bs1 ++ free n :: bs2) → apart (bs1 ++ carve size n ++ bs2).
Proof.
  induction bs1 as [|k bs1 IH]; cbn [app].
  - intros [[?|Hh] Ha]%apart_cons; [done|]. unfold carve. case_decide; cbn [app].
    + apply apart_cons. split; [by left|]. apply apart_cons. by split; [right|].
    + apply apart_cons. by split; [left|].
  - intros [Hk Ha]%apart_cons. apply apart_cons. split; [|by apply IH].
    destruct Hk as [Hk|Hk]; [by left|]. destruct bs1; [done|by right].
Qed.

Lemma split_block_ok lf sem mm l bs1 n bs2 size (Q : unit → heap → Prop) :
  let bs := bs1 ++ free n :: bs2 in let bs' := bs1 ++ carve size n ++ bs2 in
  laid l bs → 12 ≤ size ≤ n → size mod 4 = 0 →
  (∀ l' mm', laid l' bs' → same_data l l' 0 bs → Q tt (H lf sem (in_use bs') mm' l')) →
  wp (split_block (span bs1) size) Q (H lf sem (in_use bs) mm l).
Proof.
  intros bs bs' Hl Hsz Hsm HQ.
  destruct (laid_middle l bs1 (free n) bs2 Hl)
    as (_ & Hh & _ & _ & Hok1 & [Hn4 Hn] & Hok2 & Hoff & Hm & Hsp & Hsp2 & Hm2 & Hz & Hu).
  cbn [b_size b_used] in *. pose proof Hgeo as [[Hhp Hhp4] _ (Hr & Hr1 & Hr2)].
  pose proof (in_use_range bs1 Hok1). pose proof (in_use_range bs2 Hok2).
  unfold bs, bs' in *. rewrite !in_use_app in *. unfold carve, SIZEOF_STRUCT_MEM, MIN_SIZE_ALIGNED in *.
  unfold split_block, SIZEOF_STRUCT_MEM, MIN_SIZE_ALIGNED. do 2 apply wp_gets_bind. cbn [heap_ptr mem_size_aligned]. cbv zeta.
  eapply wp_next; [done|lia|exact Hh|].
  rewrite !(u32_id (span bs1 + 12)), (u32_id (span bs1 + 12 + n - _)), (u32_id (size + 12 + 12)),
    (u32_id (span bs1 + 12 + size)) by (unfold is_u32; lia).
  replace (span bs1 + 12 + n - (span bs1 + 12)) with n by lia.
  destruct (decide (n >= size + 12 + 12)) as [Hsplit|Hwhole].
  - rewrite decide_True in * by lia.
    eapply (wp_new_header bs1 n size bs2); [lia|exact Hl|]. intros l1 Hl1 Hd1 Hh1.
    apply wp_put; [apply Hl1|lia|lia|lia|]. intros l2 H2 Hz2.
    assert (linked bs1 n size bs2 l2 false (span bs1)) as Hk2 by (eapply linked_next; (exact H2 || done || lia)).
    apply wp_put; [apply Hk2|lia|lia|done|]. intros l3 H3 Hz3.
    assert (linked bs1 n size bs2 l3 true (span bs1)) as Hk3 by (eapply linked_used; (exact H3 || exact Hk2 || done || lia)).
    eapply (wp_mend bs1 n size bs2); [lia|done|done|lia|exact Hk3|]. intros l4 Hl4 Hd4.
    unfold account. rewrite wp_modify. unfold upd. cbn.
    replace (u32 _) with (in_use bs1 + (in_use [used size; free (n - size - 12)] + in_use bs2))
      by (cbn [in_use b_used b_size]; unfold SIZEOF_STRUCT_MEM; rewrite u32_id; unfold is_u32; lia).
    apply HQ; [done|]. assert (same_data l l4 0 (bs1 ++ free size :: free (n - size - 12) :: bs2)) as Hd.
    { eapply same_data_trans; [apply Hd1|]. eapply same_data_trans; [|eapply same_data_trans; [|apply Hd4]].
      - eapply (cut_same_data bs1 n size bs2); (exact H2 || done || lia).
      - eapply (cut_same_data bs1 n size bs2); (exact H3 || done || lia). }
    apply same_data_app in Hd as [Hd Hd']. apply same_data_app. split; [done|].
    apply (same_data_join _ _ _ (free size) (free (n - size - 12) :: bs2)) in Hd'. cbn [join orb b_used b_size] in Hd'.
    unfold SIZEOF_STRUCT_MEM in Hd'. by replace (size + 12 + (n - size - 12)) with n in Hd' by lia.
  - rewrite decide_False in * by lia.
    apply (wp_set_used _ _ _ _ l bs1 false true n bs2); [exact Hl|]. intros l1 Hl1 Hd1.
    destruct (laid_middle _ _ _ _ Hl1) as (_ & Hh1 & _). eapply wp_next; [apply Hl1|lia|exact Hh1|]. cbn [b_size].
    unfold account. rewrite wp_modify. unfold upd. cbn.
    replace (u32 _) with (in_use bs1 + (in_use [used n] + in_use bs2))
      by (cbn [in_use b_used b_size]; unfold SIZEOF_STRUCT_MEM; rewrite u32_id; unfold is_u32; lia).
    apply HQ; [done|apply Hd1].
Qed.

(** The walk to the next free block. *)
Lemma next_lfree_ok fuel sem um mm l bs1 bs2 (Q : unit → heap → Prop) :
  laid l (bs1 ++ bs2) → (length bs2 < fuel)%nat →
  Q tt (H (hp + first_free (span bs1) bs2) sem um mm l) →
  wp (next_lfree fuel) Q (H (hp + span bs1) sem um mm l).
Proof.
  intros Hl. revert fuel bs1 Hl. induction bs2 as [|[u n] bs2 IH]; intros fuel bs1 Hl Hfuel HQ;
    (destruct fuel as [|fuel]; [lia|]); cbn [next_lfree first_free] in *; do 2 apply wp_gets_bind; cbn [lfree heap_end];
    pose proof Hgeo as [[Hhp Hhp4] [Hsz _] (Hr & Hr1 & Hr2)].
  - rewrite app_nil_r in Hl. pose proof (laid_zlen _ _ Hl). pose proof (laid_span _ _ Hl) as Hsp. unfold SIZEOF_STRUCT_MEM in *.
    rewrite Hsp. apply (wp_next_flag _ _ _ _ l _ _ (msa + 12) 0 []); [done|lia|done|apply Hl|cbn; unfold SIZEOF_STRUCT_MEM; lia|done|].
    rewrite decide_False by (intros [_ ?]; done). rewrite Hsp in HQ. exact HQ.
  - destruct (laid_middle l bs1 (mk_block u n) bs2 Hl)
      as (_ & Hh & _ & _ & _ & [Hn4 Hn] & _ & Hoff & _ & Hsp & Hsp2 & _ & Hz & _).
    cbn [b_used b_size] in *. unfold SIZEOF_STRUCT_MEM in *.
    eapply wp_used; [done|lia|exact Hh|]. destruct u; cbn [Z.b2z].
    + rewrite decide_True by lia. apply wp_gets_bind. cbn [heap_ptr]. eapply wp_next; [done|lia|exact Hh|].
      apply wp_modify_bind. unfold upd. cbn.
      specialize (IH fuel (bs1 ++ [used n])). rewrite <- app_assoc, span_app in IH. cbn [app span b_size] in IH.
      unfold SIZEOF_STRUCT_MEM in IH. replace (span bs1 + (12 + n + 0)) with (span bs1 + 12 + n) in IH by lia.
      apply IH; [done|cbn in Hfuel; lia|exact HQ].
    + rewrite decide_False by (intros [? _]; done). exact HQ.
Qed.

Lemma first_free_split off bs :
  ∃ b1 b2, bs = b1 ++ b2 ∧ Forall (λ k, b_used k = true) b1 ∧ first_free off bs = off + span b1 ∧
    (b2 = [] ∨ ∃ n b3, b2 = free n :: b3).
Proof.
  revert off. induction bs as [|[[] n] bs IH]; intros off; cbn [first_free b_used b_size].
  - exists [], []. cbn. split_and!; [done|done|lia|by left].
  - destruct (IH (off + SIZEOF_STRUCT_MEM + n)) as (b1 & b2 & -> & Hu & -> & Hb2).
    exists (used n :: b1), b2. cbn [app span b_size]. split_and!; [done|by constructor|lia|done].
  - exists [], (free n :: bs). cbn. split_and!; [done|done|lia|eauto].
Qed.
Lemma wp_first_free_flag {A} lf sem um mm l bs (k : Z → prog heap A) Q :
  laid l bs →
  (∀ u, first_free 0 bs = msa + SIZEOF_STRUCT_MEM ∨ u = 0 → wp (k u) Q (H lf sem um mm l)) →
  wp (mem_used (hp + first_free 0 bs) ≫= k) Q (H lf sem um mm l).
Proof.
  intros Hl Hk. pose proof Hgeo as [_ [? _] (Hr & Hr1 & _)].
  destruct (first_free_split 0 bs) as (b1 & b2 & -> & _ & Eff & [-> | (n & b3 & ->)]); rewrite Z.add_0_l in *.
  - rewrite app_nil_r in *. rewrite Eff, (laid_span _ _ Hl) in *. unfold SIZEOF_STRUCT_MEM in *.
    apply (wp_next_flag _ _ _ _ l _ _ (msa + 12) 0 []); [apply Hl|lia|done|apply Hl|cbn; unfold SIZEOF_STRUCT_MEM; lia|done|].
    apply Hk. by left.
  - rewrite Eff in *.
    destruct (laid_middle _ _ _ _ Hl) as (_ & Hh & _ & _ & _ & [Hn4 _] & _ & Hoff & _ & Hsp & Hsp2 & _ & Hz & _).
    cbn [b_size b_used] in *. unfold SIZEOF_STRUCT_MEM in *.
    eapply wp_used; [done|lia|exact Hh|]. apply Hk. by right.
Qed.

Lemma same_data_carve l l' bs1 n m rest bs2 :
  span (used m :: rest) = SIZEOF_STRUCT_MEM + n →
  same_data l l' 0 (bs1 ++ free m :: rest ++ bs2) → same_data l l' 0 (bs1 ++ free n :: bs2).
Proof.
  intros Hsp [H1 H2]%same_data_app. apply same_data_app. split; [done|]. cbn [same_data b_used b_size]. split; [done|].
  rewrite app_comm_cons in H2. apply same_data_app in H2 as [_ H2]. cbn [span b_size] in *. rewrite Hsp in H2.
  by replace (0 + span bs1 + SIZEOF_STRUCT_MEM + n) with (0 + span bs1 + (SIZEOF_STRUCT_MEM + n)) by lia.
Qed.

(** The rest of [rt_malloc] once the block is chosen. *)
Lemma take_block_ok mm l bs1 n bs2 size (Q : Z → heap → Prop) :
  let bs := bs1 ++ free n :: bs2 in let bs' := bs1 ++ carve size n ++ bs2 in
  laid l bs → 12 ≤ size ≤ n → size mod 4 = 0 →
  (∀ l' mm', laid l' bs' → same_data l l' 0 bs →
     Q (hp + span bs1 + SIZEOF_STRUCT_MEM) (H (hp + first_free 0 bs') 1 (in_use bs') mm' l')) →
  wp (take_block (span bs1) size) Q (H (hp + first_free 0 bs) 0 (in_use bs) mm l).
Proof.
  intros bs bs' Hl Hsz Hsm HQ. pose proof Hgeo as [[Hhp Hhp4] _ (Hr & Hr1 & Hr2)].
  destruct (laid_middle l bs1 (free n) bs2 Hl)
    as (_ & _ & _ & _ & Hok1 & [Hn4 Hn] & Hok2 & Hoff & Hm & Hsp & Hsp2 & _ & Hz & _). cbn [b_size] in *.
  destruct (carve_facts size n) as (Hcs & Hcok & m & rest & Hc & Hmn & _); [done..|].
  unfold take_block. do 2 apply wp_gets_bind. cbn [heap_ptr heap_end]. cbv zeta.
  rewrite wp_bind. apply split_block_ok; [done..|]. intros l1 mm1 Hl1 Hd1. fold bs' in Hl1. fold bs'.
  assert (bs' = bs1 ++ used m :: rest ++ bs2) as Ebs' by (unfold bs'; by rewrite Hc).
  rewrite Hc in Hcs. rewrite Ebs' in Hl1. eapply wp_set_magic; [exact Hl1|]. rewrite <- Ebs'. intros l2 Hl2 Hd2.
  assert (same_data l l2 0 bs) as Hd by (eapply same_data_trans; [done|by eapply same_data_carve]).
  assert (wp (rt_sem_release;;
      rt_assert (bool_decide (u32 (hp + span bs1 + SIZEOF_STRUCT_MEM + size) <= hp + (msa + SIZEOF_STRUCT_MEM)));;
      rt_assert (bool_decide ((hp + span bs1 + SIZEOF_STRUCT_MEM) mod RT_ALIGN_SIZE = 0));;
      rt_assert (bool_decide (Z.land (hp + span bs1) (RT_ALIGN_SIZE - 1) = 0));;
      mret (hp + span bs1 + SIZEOF_STRUCT_MEM)) Q
      (H (hp + first_free 0 bs') 0 (in_use bs') mm1 l2)) as Htail.
  { unfold rt_sem_release. rewrite wp_bind. apply wp_gets_bind. cbn [heap_sem]. rewrite decide_True by done.
    rewrite wp_modify. unfold upd. cbn. unfold SIZEOF_STRUCT_MEM, RT_ALIGN_SIZE in *.
    apply wp_assert_bind; [apply bool_decide_eq_true; rewrite u32_id; unfold is_u32; lia|].
    apply wp_assert_bind; [apply bool_decide_eq_true; lia|].
    apply wp_assert_bind; [apply bool_decide_eq_true, land_aligned; lia|]. rewrite wp_ret. by apply HQ. }
  assert (¬ Forall (λ k, b_used k = true) bs1 → first_free 0 bs = first_free 0 bs' ∧ first_free 0 bs < span bs1) as Hlow.
  { intros Hne. pose proof (first_free_lt 0 bs1 Hok1 Hne). unfold bs, bs'.
    rewrite !first_free_app, !decide_False by done. split; [done|lia]. }
  apply wp_gets_bind. cbn [lfree]. rewrite wp_bind. apply wp_when; intros Hlf.
  - apply bool_decide_eq_true in Hlf. apply wp_gets_bind. cbn [ram].
    assert (Forall (λ k, b_used k = true) bs1) as Hall.
    { destruct (decide (Forall (λ k, b_used k = true) bs1)) as [|Hne]; [done|]. destruct (Hlow Hne). lia. }
    replace (hp + first_free 0 bs) with (hp + span bs1) by lia.
    rewrite wp_bind. apply (next_lfree_ok _ _ _ _ l2 bs1 (carve size n ++ bs2)); [exact Hl2| |].
    { pose proof (laid_ok _ _ Hl2) as [_ Hok']%Forall_app. destruct (span_ok _ Hok') as [Hb _].
      pose proof (laid_span _ _ Hl2) as Hsp'. unfold bs' in Hsp'. rewrite span_app in Hsp'.
      pose proof (laid_zlen _ _ Hl2). unfold zlen, SIZEOF_STRUCT_MEM in *. lia. }
    replace (first_free (span bs1) (carve size n ++ bs2)) with (first_free 0 bs')
      by (unfold bs'; rewrite (first_free_app 0 bs1), decide_True by done; by rewrite Z.add_0_l).
    apply wp_gets_bind. cbn [lfree]. apply (wp_first_free_flag _ _ _ _ l2 bs'); [done|]. intros u Hu.
    apply wp_assert; [|exact Htail]. apply bool_decide_eq_true. unfold SIZEOF_STRUCT_MEM in *. lia.
  - apply bool_decide_eq_false in Hlf.
    assert (first_free 0 bs = first_free 0 bs') as ->; [|exact Htail].
    apply Hlow. intros Hall. apply Hlf. unfold bs. rewrite first_free_app, decide_True by done. cbn. lia.
Qed.

(** What first fit finds and makes of the block. *)
Lemma alloc_inv limit size off bs off' bs' :
  alloc limit size off bs = Some (off', bs') →
  ∃ bs1 n bs2, bs = bs1 ++ free n :: bs2 ∧ off' = off + span bs1 ∧ size ≤ n ∧ bs' = bs1 ++ carve size n ++ bs2.
Proof.
  revert off bs'. induction bs as [|[u n] bs IH]; intros off bs'; cbn [alloc b_used b_size]; [done|].
  case_decide; [|done]. case_decide as Hfit.
  - intros [= <- <-]. destruct Hfit as [-> Hfit]. exists [], n, bs. cbn. split_and!; (done || lia).
  - destruct (alloc limit size _ bs) as [[o bs'']|] eqn:Ha; [|done]. intros [= <- <-].
    destruct (IH _ _ Ha) as (bs1 & m & bs2 & -> & -> & Hm & ->).
    exists (mk_block u n :: bs1), m, bs2. cbn [app span b_size id]. split_and!; (done || lia).
Qed.
(** Blocks in use are passed over. *)
Lemma alloc_used limit size off bs1 bs2 :
  Forall (λ k, b_used k = true) bs1 → Forall block_ok bs1 →
  alloc limit size off (bs1 ++ bs2) = prod_map id (app bs1) <$> alloc limit size (off + span bs1) bs2.
Proof.
  intros Hu. revert off. induction Hu as [|k bs1 Hk Hu IH]; intros off Hok; cbn [app alloc span].
  - rewrite Z.add_0_r. by destruct (alloc _ _ off bs2) as [[]|].
  - inversion_clear Hok as [|?? [Hk4 _] Hok']. destruct (span_ok bs1 Hok') as [Hb _].
    unfold SIZEOF_STRUCT_MEM, zlen in *. case_decide as Hlt.
    + rewrite decide_False by (rewrite Hk; intros []; done). rewrite IH by done.
      replace (off + 12 + b_size k + span bs1) with (off + (12 + b_size k + span bs1)) by lia.
      by destruct (alloc _ _ _ bs2) as [[]|].
    + destruct bs2 as [|k2 bs2]; cbn [alloc]; [done|]. by rewrite decide_False by lia.
Qed.

Lemma alloc_none limit size off bs :
  Forall block_ok bs →
  alloc limit size off bs = None ↔
    ∀ bs1 k bs2, bs = bs1 ++ k :: bs2 → b_used k = false → size ≤ b_size k → limit ≤ off + span bs1.
Proof.
  intros Hok. revert off. induction Hok as [|k bs Hko Hok IH]; intros off; cbn [alloc].
  { split; [|done]. intros _ [|] ?? ?; discriminate. }
  pose proof Hko as [Hk _]. unfold SIZEOF_STRUCT_MEM. destruct (decide (off < limit)) as [Hlt|Hge].
  - destruct (decide (b_used k = false ∧ size ≤ b_size k)) as [[Hu Hs]|Hno].
    { split; [discriminate|]. intros Hall. specialize (Hall [] k bs eq_refl Hu Hs). cbn in Hall. lia. }
    transitivity (alloc limit size (off + 12 + b_size k) bs = None); [by destruct (alloc _ _ _ bs) as [[]|]|].
    rewrite IH. split; intros Hall.
    + intros [|k0 bs1] k' bs2 [= -> ->] Hu Hs; [tauto|]. specialize (Hall bs1 k' bs2 eq_refl Hu Hs).
      cbn. unfold SIZEOF_STRUCT_MEM. lia.
    + intros bs1 k' bs2 -> Hu Hs. specialize (Hall (k :: bs1) k' bs2 eq_refl Hu Hs). cbn in Hall.
      unfold SIZEOF_STRUCT_MEM in Hall. lia.
  - split; [|done]. intros _ bs1 k' bs2 Hbs _ _.
    assert (Forall block_ok bs1) as Hok1.
    { assert (Forall block_ok (k :: bs)) as Hall by (by constructor). rewrite Hbs in Hall. by apply Forall_app in Hall as [? _]. }
    destruct (span_ok bs1 Hok1). unfold zlen in *. lia.
Qed.

Lemma malloc_loop_ok fuel mm l bs1 bs2 size (Q : Z → heap → Prop) :
  let bs := bs1 ++ bs2 in
  laid l bs → 12 ≤ size ≤ msa → size mod 4 = 0 → (length bs2 < fuel)%nat →
  match alloc (msa - size) size (span bs1) bs2 with
  | None => Q RT_NULL (H (hp + first_free 0 bs) 1 (in_use bs) mm l)
  | Some (off, bs2') =>
      let bs' := bs1 ++ bs2' in
      ∀ l' mm', laid l' bs' → same_data l l' 0 bs →
        Q (hp + off + SIZEOF_STRUCT_MEM) (H (hp + first_free 0 bs') 1 (in_use bs') mm' l')
  end →
  wp (malloc_loop fuel (span bs1) size) Q (H (hp + first_free 0 bs) 0 (in_use bs) mm l).
Proof.
  intros bs Hl Hsz Hsm. subst bs. revert fuel bs1 Hl.
  pose proof Hgeo as [[Hhp Hhp4] _ (Hr & Hr1 & Hr2)].
  induction bs2 as [|[u n] bs2 IH]; intros fuel bs1 Hl Hfuel; (destruct fuel as [|fuel]; [lia|]);
    cbn [malloc_loop alloc b_used b_size]; intros HQ; do 2 apply wp_gets_bind; cbn [heap_ptr mem_size_aligned];
    rewrite u32_id by (unfold is_u32; lia).
  - pose proof (laid_span _ _ Hl) as Hsp. rewrite app_nil_r in *. unfold SIZEOF_STRUCT_MEM in *. rewrite decide_False by lia.
    unfold rt_sem_release. rewrite wp_bind. apply wp_gets_bind. cbn [heap_sem]. rewrite decide_True by done. exact HQ.
  - destruct (laid_middle l bs1 (mk_block u n) bs2 Hl)
      as (_ & Hh & _ & _ & _ & [Hn4 Hn] & _ & Hoff & _ & Hsp & Hsp2 & _ & Hz & _).
    cbn [b_used b_size] in *. unfold SIZEOF_STRUCT_MEM in *.
    destruct (decide (span bs1 < msa - size)) as [Hlim|Hlim].
    2: { unfold rt_sem_release. rewrite wp_bind. apply wp_gets_bind. cbn [heap_sem]. rewrite decide_True by done. exact HQ. }
    eapply wp_used; [done|lia|exact Hh|]. eapply wp_next; [done|lia|exact Hh|].
    rewrite !u32_id by (unfold is_u32; rewrite ?u32_id by (unfold is_u32; lia); lia).
    replace (span bs1 + 12 + n - (span bs1 + 12)) with n by lia.
    destruct (decide (u = false ∧ size ≤ n)) as [[-> Hfit]|Hno].
    + rewrite decide_True by (cbn; lia). apply take_block_ok; [done|lia|done|exact HQ].
    + rewrite decide_False by (destruct u; cbn; [intros []; done|intros [_ ?]; apply Hno; split; [done|lia]]).
      specialize (IH fuel (bs1 ++ [mk_block u n])). rewrite <- app_assoc, span_app in IH. cbn [app span b_size] in IH.
      unfold SIZEOF_STRUCT_MEM in IH. replace (span bs1 + (12 + n + 0)) with (span bs1 + 12 + n) in IH by lia.
      apply IH; [done|cbn in Hfuel; lia|].
      destruct (alloc (msa - size) size (span bs1 + 12 + n) bs2) as [[off bs2']|]; [|exact HQ].
      cbn [fmap option_fmap option_map prod_map id fst snd] in HQ. cbv zeta. rewrite <- app_assoc. exact HQ.
Qed.

Lemma ldiff_aligned x : Z.land x (Z.lnot (RT_ALIGN_SIZE - 1)) = x - x mod 4.
Proof.
  change (RT_ALIGN_SIZE - 1) with (Z.ones 2). rewrite <- Z.ldiff_land, Z.ldiff_ones_r by lia.
  rewrite Z.shiftl_mul_pow2, Z.shiftr_div_pow2 by lia. change (2 ^ 2) with 4. lia.
Qed.
(** The rounding wraps for the last three sizes. *)
Lemma RT_ALIGN_eq n : is_u32 n →
  RT_ALIGN n RT_ALIGN_SIZE = if decide (n ≤ 4294967292) then (n + 3) / 4 * 4 else 0.
Proof.
  unfold is_u32. intros Hn. unfold RT_ALIGN. rewrite ldiff_aligned. unfold u32, RT_ALIGN_SIZE. case_decide; lia.
Qed.

(** The size [rt_malloc] looks for, and what it does to the blocks. *)
Definition block_size (n : Z) : Z :=
  let size := RT_ALIGN n RT_ALIGN_SIZE in if decide (size < MIN_SIZE_ALIGNED) then MIN_SIZE_ALIGNED else size.
Definition malloc_spec (n : Z) (bs : list block) : option (Z * list block) :=
  if decide (n = 0 ∨ RT_ALIGN n RT_ALIGN_SIZE > msa) then None
  else alloc (msa - block_size n) (block_size n) 0 bs.

Lemma rt_malloc_ok mm l bs n (Q : Z → heap → Prop) :
  laid l bs → is_u32 n →
  match malloc_spec n bs with
  | None => Q RT_NULL (H (hp + first_free 0 bs) 1 (in_use bs) mm l)
  | Some (off, bs') =>
      ∀ l' mm', laid l' bs' → same_data l l' 0 bs →
        Q (hp + off + SIZEOF_STRUCT_MEM) (H (hp + first_free 0 bs') 1 (in_use bs') mm' l')
  end →
  wp (rt_malloc n) Q (H (hp + first_free 0 bs) 1 (in_use bs) mm l).
Proof.
  intros Hl Hn. pose proof Hgeo as [[Hhp Hhp4] [Hm12 Hm4] (Hr & Hr1 & Hr2)]. unfold malloc_spec, rt_malloc.
  destruct (decide (n = 0)) as [->|Hn0]; [by rewrite decide_True by tauto|].
  intros HQ. apply wp_gets_bind. cbn [mem_size_aligned]. fold (block_size n).
  destruct (decide (RT_ALIGN n RT_ALIGN_SIZE > msa)) as [Hbig|Hsmall].
  { rewrite decide_True in HQ by tauto. exact HQ. }
  rewrite decide_False in HQ by tauto.
  assert (12 ≤ block_size n ≤ msa ∧ block_size n mod 4 = 0) as [Hs Hsm].
  { pose proof (RT_ALIGN_eq n Hn) as Ha. unfold block_size, MIN_SIZE_ALIGNED. destruct (decide (n ≤ 4294967292)); case_decide; lia. }
  unfold rt_sem_take. rewrite wp_bind. apply wp_gets_bind. cbn [heap_sem]. rewrite decide_True by done.
  rewrite wp_modify. unfold upd. cbn. do 3 apply wp_gets_bind. cbn [lfree heap_ptr ram].
  pose proof (laid_ok _ _ Hl) as Hok. pose proof (first_free_le 0 bs Hok) as Hff. pose proof (laid_span _ _ Hl) as Hsp.
  destruct (span_ok bs Hok) as [Hb _]. pose proof (laid_zlen _ _ Hl) as Hz. unfold SIZEOF_STRUCT_MEM in *.
  replace (hp + first_free 0 bs - hp) with (first_free 0 bs) by lia. rewrite u32_id by (unfold is_u32; lia).
  destruct (first_free_split 0 bs) as (bs1 & bs2 & Ebs & Hu & Eff & _). rewrite Z.add_0_l in Eff.
  rewrite Eff at 1. subst bs. apply malloc_loop_ok; [done|done|done| |].
  { unfold zlen in *. rewrite length_app in Hb. lia. }
  apply Forall_app in Hok as [Hok1 _]. rewrite (alloc_used _ _ 0 bs1 bs2 Hu Hok1), Z.add_0_l in HQ.
  destruct (alloc _ _ (span bs1) bs2) as [[off bs2']|]; exact HQ.
Qed.

(** *** Shrinking in place *)

Lemma shrink_block_ok mm l bs1 n bs2 ns (Q : unit → heap → Prop) :
  let bs := bs1 ++ used n :: bs2 in
  let cut := (bs1 ++ [used ns]) ++ free (n - ns - SIZEOF_STRUCT_MEM) :: bs2 in
  let bs' := coalesce cut in
  laid l bs → apart bs → 4 ≤ ns → ns mod 4 = 0 → ns + 24 < n →
  (∀ l', laid l' bs' → apart bs' → same_data l l' 0 cut →
     Q tt (H (hp + first_free 0 bs') 0 (in_use bs') mm l')) →
  wp (shrink_block (span bs1) n ns) Q (H (hp + first_free 0 bs) 0 (in_use bs) mm l).
Proof.
  intros bs cut bs' Hl Ha Hs4 Hsm Hsn HQ. pose proof Hgeo as [[Hhp Hhp4] _ (Hr & Hr1 & Hr2)].
  destruct (laid_middle l bs1 (used n) bs2 Hl)
    as (_ & _ & _ & _ & Hok1 & [Hn4 Hn] & Hok2 & Hoff & Hm & Hsp & Hsp2 & _ & Hz & _). cbn [b_size b_used] in *.
  pose proof (in_use_range bs1 Hok1) as Hu1. pose proof (in_use_range bs2 Hok2) as Hu2.
  destruct (apart_app _ _ Ha) as [Ha1 [_ Ha2]%apart_cons].
  destruct (coalesce_facts cut) as (_ & Eu & Ef). fold bs' in Eu, Ef.
  unfold shrink_block. unfold SIZEOF_STRUCT_MEM in *. do 2 apply wp_gets_bind. cbn [heap_ptr mem_size_aligned]. cbv zeta.
  rewrite (u32_id (span bs1 + 12 + ns)) by (unfold is_u32; lia).
  apply wp_modify_bind. unfold upd. cbn.
  replace (u32 _) with (in_use bs').
  2: { rewrite Eu. unfold bs, cut. rewrite <- app_assoc, !in_use_app. cbn. unfold SIZEOF_STRUCT_MEM.
       rewrite u32_id; unfold is_u32; lia. }
  apply (wp_new_header bs1 n ns bs2 ltac:(lia) (hp + first_free 0 bs) 0 (in_use bs') mm l true); [exact Hl|].
  intros l1 Hl1 Hd1 Hh1.
  apply wp_put; [apply Hl1|lia|lia|lia|]. intros l2 H2 Hz2.
  assert (linked bs1 n ns bs2 l2 true (span bs1)) as Hk2 by (eapply linked_next; (exact H2 || done || lia)).
  eapply (wp_mend bs1 n ns bs2); [lia|done|done|lia|exact Hk2|]. intros l3 Hl3 Hd3.
  assert (same_data l l3 0 cut) as Hd.
  { unfold cut. rewrite <- app_assoc. cbn [app].
    eapply same_data_trans; [apply Hd1|]. eapply same_data_trans; [|apply Hd3].
    eapply (cut_same_data bs1 n ns bs2); (exact H2 || done || lia). }
  assert (laid l3 cut) as Hl3' by (unfold cut; rewrite <- app_assoc; exact Hl3).
  apply wp_modify_bind. cbn [lfree].
  match goal with |- wp _ _ ?s => replace s with (H (hp + first_free 0 cut) 0 (in_use bs') mm l3) end.
  2: { assert (first_free 0 cut = if decide (span bs1 + 12 + ns < first_free 0 bs) then span bs1 + 12 + ns else first_free 0 bs) as ->.
       { unfold cut, bs. rewrite <- app_assoc. cbn [app]. rewrite !first_free_app. cbn [first_free b_used b_size]. unfold SIZEOF_STRUCT_MEM.
         destruct (decide (Forall _ bs1)) as [Hall|Hall].
         - pose proof (first_free_le (0 + span bs1 + 12 + n) bs2 Hok2). rewrite decide_True by lia. lia.
         - pose proof (first_free_lt 0 bs1 Hok1 Hall). by rewrite decide_False by lia. }
       unfold upd. do 2 case_decide; (done || lia). }
  replace (hp + (span bs1 + 12 + ns)) with (hp + span (bs1 ++ [used ns]))
    by (rewrite span_app; cbn; unfold SIZEOF_STRUCT_MEM; lia).
  apply (plug_holes_ok _ _ _ _ l3 (bs1 ++ [used ns]) (n - ns - 12) bs2); [done|by apply apart_snoc|done|done|].
  intros l4 Hl4 Hd4. rewrite <- Ef. apply HQ; [done|apply coalesce_apart|by eapply same_data_trans].
Qed.

(** A store in the data of a block in use. *)
Lemma data_store_laid l l' bs1 n bs2 m a v :
  laid l (bs1 ++ used n :: bs2) → stored l l' m (a - rb) v →
  hp + span bs1 + 12 ≤ a → a + Z.of_nat m ≤ hp + span bs1 + 12 + n →
  laid l' (bs1 ++ used n :: bs2) ∧ same_data l l' 0 (bs1 ++ free n :: bs2).
Proof.
  intros Hl Hst Ha Hm.
  split; [by eapply body_store_laid|].
  destruct (laid_middle _ _ _ _ Hl) as (_ & _ & _ & _ & Hok1 & Hk & Hok2 & Hoff & _).
  eapply stored_same_data; [exact Hst| |lia|].
  { apply Forall_app. split; [done|]. constructor; [exact Hk|done]. }
  apply clear_app. cbn [clear b_used b_size]. unfold SIZEOF_STRUCT_MEM. rewrite Z.add_0_l.
  split; [apply clear_after; [done|lia]|]. split; [done|]. apply clear_before; [done|unfold SIZEOF_STRUCT_MEM; lia].
Qed.

(** *** Start-up *)

Lemma heap_init_ok h begin_addr end_addr (Q : unit → heap → Prop) :
  RT_ALIGN begin_addr RT_ALIGN_SIZE = hp → RT_ALIGN_DOWN end_addr RT_ALIGN_SIZE = hp + msa + 24 →
  ram_base h = rb → zlen (ram h) = N → Forall is_u8 (ram h) → used_mem h = 0 →
  (∀ l', laid l' [free msa] → Q tt (H hp 1 0 (max_mem h) l')) →
  wp (rt_system_heap_init begin_addr end_addr) Q h.
Proof.
  intros Hb He Hrb Hz Hu Hum HQ. pose proof Hgeo as [[Hhp Hhp4] [Hm12 Hm4] (Hr & Hr1 & Hr2)].
  destruct h as [hp0 e0 lf0 sem0 msa0 um0 mm0 rb0 l]. cbn [ram_base ram used_mem max_mem] in *. subst rb0 um0.
  unfold rt_system_heap_init. rewrite Hb, He. unfold SIZEOF_STRUCT_MEM in *. rewrite decide_True by lia.
  replace (hp + msa + 24 - hp - 2 * 12) with msa by lia.
  apply wp_modify_bind. unfold upd. cbn.
  apply wp_put_at; [done|lia|lia|done|]. intros l1 H1 Z1.
  apply wp_put_at; [done|lia|lia|lia|]. intros l2 H2 Z2.
  apply wp_put_at; [done|lia|lia|done|]. intros l3 H3 Z3.
  apply wp_put_at; [done|lia|lia|done|]. intros l4 H4 Z4.
  assert (header l4 hp false (msa + 12) 0) as Hh.
  { split;
      (first [exact (stored_field _ _ _ _ _ H4)|rewrite (stored_frame _ _ _ _ _ _ _ H4) by lia]);
      (first [exact (stored_field _ _ _ _ _ H3)|rewrite (stored_frame _ _ _ _ _ _ _ H3) by lia]);
      (first [exact (stored_field _ _ _ _ _ H2)|rewrite (stored_frame _ _ _ _ _ _ _ H2) by lia]);
      exact (stored_field _ _ _ _ _ H1). }
  apply wp_ld_bind; cbn [ram_base ram]; [lia|lia|]. rewrite (h_next _ _ _ _ _ Hh).
  apply wp_modify_bind. match goal with |- wp _ _ ?s => let s' := eval unfold upd in s in let s' := eval cbn in s' in change s with s' end. replace (hp + (msa + 12)) with (hp + (msa + SIZEOF_STRUCT_MEM)) by done.
  change (msa + 12) with (msa + SIZEOF_STRUCT_MEM) in *.
  set (e := hp + (msa + SIZEOF_STRUCT_MEM)). assert (e = hp + msa + 12) as Ee by (unfold e, SIZEOF_STRUCT_MEM; lia).
  apply wp_put_at; [done|lia|lia|done|]. intros l5 H5 Z5.
  apply wp_put_at; [done|lia|lia|done|]. intros l6 H6 Z6.
  apply wp_put_at; [done|lia|lia|unfold SIZEOF_STRUCT_MEM; lia|]. intros l7 H7 Z7.
  apply wp_put_at; [done|lia|lia|unfold SIZEOF_STRUCT_MEM; lia|]. intros l8 H8 Z8.
  rewrite wp_modify. unfold upd. cbn. apply HQ. split; try done.
  - cbn. split; [|done]. rewrite Z.add_0_r.
    eapply header_frame; [exact H8|lia|lia|]. eapply header_frame; [exact H7|lia|lia|].
    eapply header_frame; [exact H6|lia|lia|]. eapply header_frame; [exact H5|lia|lia|].
    replace (0 + SIZEOF_STRUCT_MEM + msa) with (msa + SIZEOF_STRUCT_MEM) by lia. exact Hh.
  - split; fold e.
    + rewrite (stored_frame _ _ _ _ _ _ _ H8), (stored_frame _ _ _ _ _ _ _ H7) by lia. exact (stored_field _ _ _ _ _ H6).
    + rewrite (stored_frame _ _ _ _ _ _ _ H8) by lia. exact (stored_field _ _ _ _ _ H7).
  - cbn. lia.
  - constructor; [split; cbn; lia|done].
  - do 8 (eapply stored_u8; [eassumption|]). done.
Qed.

(** ** What the heap's clients own *)

Definition bytes_at (l : list Z) (i n : Z) : list Z := (λ k, byte l (i + k)) <$> seqZ 0 n.

(** The pointers handed out and the bytes behind each. *)
Fixpoint owned (l : list Z) (off : Z) (bs : list block) : list (Z * list Z) :=
  match bs with
  | [] => []
  | k :: bs =>
      let p := hp + off + SIZEOF_STRUCT_MEM in
      (if b_used k then [(p, bytes_at l (p - rb) (b_size k))] else []) ++
      owned l (off + SIZEOF_STRUCT_MEM + b_size k) bs
  end.
Definition contents (l : list Z) (bs : list block) : gmap Z (list Z) := list_to_map (owned l 0 bs).

Lemma zlen_bytes_at l i n : 0 ≤ n → zlen (bytes_at l i n) = n.
Proof. intros Hn. unfold bytes_at, zlen. rewrite length_fmap, length_seqZ. lia. Qed.
Lemma bytes_at_ext l l' i n : (∀ k, i ≤ k < i + n → byte l' k = byte l k) → bytes_at l' i n = bytes_at l i n.
Proof. intros Hk. apply list_fmap_ext. intros j k Hj. apply lookup_seqZ in Hj. apply Hk. lia. Qed.
Lemma byte_bytes_at l i n k : 0 ≤ k < n → byte (bytes_at l i n) k = byte l (i + k).
Proof.
  intros Hk. unfold byte at 1, bytes_at. apply nth_lookup_Some.
  rewrite list_lookup_fmap, lookup_seqZ_lt by lia. cbn. do 2 f_equal. lia.
Qed.
Lemma bytes_at_eq l i n c : zlen c = n → (∀ k, 0 ≤ k < n → byte l (i + k) = byte c k) → bytes_at l i n = c.
Proof.
  intros Hc Hk. assert (0 ≤ n) by (unfold zlen in Hc; lia). apply byte_ext; rewrite zlen_bytes_at by done; [done|].
  intros k Hkn. rewrite byte_bytes_at by done. by apply Hk.
Qed.

Lemma bytes_at_u8 l i n : Forall is_u8 l → Forall is_u8 (bytes_at l i n).
Proof.
  intros Hl. unfold bytes_at. apply Forall_fmap, Forall_true. intros k. cbn. unfold byte.
  destruct (nth_in_or_default (Z.to_nat (i + k)) l 0) as [Hin| ->]; [|done].
  rewrite Forall_forall in Hl. by apply Hl.
Qed.

Lemma owned_app l off bs1 bs2 : owned l off (bs1 ++ bs2) = owned l off bs1 ++ owned l (off + span bs1) bs2.
Proof.
  revert off. induction bs1 as [|k bs1 IH]; intros off; cbn [app owned span]; [by rewrite Z.add_0_r|].
  cbv zeta. rewrite IH, <- app_assoc. do 3 f_equal. lia.
Qed.
Lemma owned_same l l' off bs : same_data l l' off bs → owned l' off bs = owned l off bs.
Proof.
  revert off. induction bs as [|k bs IH]; intros off; cbn [same_data owned]; [done|]. intros [Hk Hbs].
  cbv zeta. rewrite IH by done. f_equal. destruct (b_used k); [|done]. do 2 f_equal.
  apply bytes_at_ext. intros i Hi. specialize (Hk eq_refl (i + rb) ltac:(lia)).
  by replace (i + rb - rb) with i in Hk by lia.
Qed.
Lemma owned_join l off k bs : owned l off (join k bs) = owned l off (k :: bs).
Proof.
  destruct bs as [|k' bs]; [done|]. cbn [join]. destruct (b_used k || b_used k') eqn:Hu; [done|].
  apply orb_false_iff in Hu as [H1 H2]. cbn [owned b_used b_size]. rewrite H1, H2. cbn [app]. f_equal. lia.
Qed.
Lemma owned_coalesce l off bs : owned l off (coalesce bs) = owned l off bs.
Proof.
  revert off. induction bs as [|k bs IH]; intros off; [done|]. unfold coalesce. cbn [foldr]. fold (coalesce bs).
  rewrite owned_join. cbn [owned]. by rewrite IH.
Qed.

(** A block and a pointer before and apart from another one. *)
Definition before (x y : Z * list Z) : Prop := x.1 + zlen x.2 + SIZEOF_STRUCT_MEM ≤ y.1.

Lemma owned_range l off bs :
  Forall block_ok bs →
  Forall (λ x, hp + off + SIZEOF_STRUCT_MEM ≤ x.1 ∧ x.1 + zlen x.2 ≤ hp + off + span bs) (owned l off bs).
Proof.
  intros Hok. revert off. induction Hok as [|k bs [Hk _] Hok IH]; intros off; cbn [owned span]; [done|].
  destruct (span_ok bs Hok) as [Hb _]. unfold SIZEOF_STRUCT_MEM, zlen in *.
  apply Forall_app. split.
  - destruct (b_used k); [|done]. constructor; [|done]. cbn. unfold bytes_at. rewrite length_fmap, length_seqZ. lia.
  - eapply Forall_impl; [|apply IH]. cbn. intros x Hx. lia.
Qed.
Lemma owned_sorted l off bs : Forall block_ok bs → StronglySorted before (owned l off bs).
Proof.
  intros Hok. revert off. induction Hok as [|k bs [Hk _] Hok IH]; intros off; cbn [owned]; [constructor|].
  destruct (b_used k); [|apply IH]. cbn [app]. constructor; [apply IH|].
  eapply Forall_impl; [|by apply owned_range]. unfold before. cbn. intros x Hx. rewrite zlen_bytes_at by lia. lia.
Qed.
Lemma owned_nodup l off bs : Forall block_ok bs → NoDup ((owned l off bs).*1).
Proof.
  intros Hok. pose proof (owned_sorted l off bs Hok) as Hs. induction Hs as [|x xs _ IH Hx]; [constructor|].
  cbn. constructor; [|done]. intros (y & Hxy & Hy)%list_elem_of_fmap.
  apply list_elem_of_In in Hy. rewrite Forall_forall in Hx. specialize (Hx y Hy). unfold before, SIZEOF_STRUCT_MEM, zlen in Hx. lia.
Qed.
Lemma contents_lookup l bs p c : Forall block_ok bs → contents l bs !! p = Some c ↔ (p, c) ∈ owned l 0 bs.
Proof. intros Hok. symmetry. apply elem_of_list_to_map. by apply owned_nodup. Qed.
(** A pointer belongs to one block in use. *)
Lemma contents_block l bs p c :
  Forall block_ok bs → contents l bs !! p = Some c →
  ∃ bs1 n bs2, bs = bs1 ++ used n :: bs2 ∧ p = hp + span bs1 + SIZEOF_STRUCT_MEM ∧
    c = bytes_at l (p - rb) n ∧ zlen c = n.
Proof.
  intros Hok Hp. apply contents_lookup in Hp; [|done]. 
  enough (∀ off, (p, c) ∈ owned l off bs → ∃ bs1 n bs2, bs = bs1 ++ used n :: bs2 ∧
    p = hp + (off + span bs1) + SIZEOF_STRUCT_MEM ∧ c = bytes_at l (p - rb) n ∧ zlen c = n) as Hall
    by (destruct (Hall 0 Hp) as (? & ? & ? & ? & ? & ? & ?); eauto 8).
  clear Hp. induction Hok as [|[u n] bs [Hk _] _ IH]; intros off Hp; [by apply elem_of_nil in Hp|].
  cbn [owned b_used b_size] in *. apply elem_of_app in Hp as [Hp|Hp].
  - destruct u; [|by apply elem_of_nil in Hp]. apply list_elem_of_singleton in Hp as [= -> ->].
    exists [], n, bs. cbn. split_and!; [done|lia|do 2 f_equal; lia|apply zlen_bytes_at; lia].
  - destruct (IH _ Hp) as (bs1 & m & bs2 & -> & -> & -> & Hz).
    exists (mk_block u n :: bs1), m, bs2. cbn [app span b_size]. split_and!; [done|lia|do 2 f_equal; lia|done].
Qed.
Lemma map_middle (xs ys : list (Z * list Z)) p c :
  NoDup ((xs ++ (p, c) :: ys).*1) →
  list_to_map (xs ++ (p, c) :: ys) =@{gmap Z (list Z)} <[p := c]> (list_to_map (xs ++ ys)) ∧
  (list_to_map (xs ++ ys) : gmap Z (list Z)) !! p = None.
Proof.
  intros Hnd. rewrite fmap_app, fmap_cons in Hnd. split.
  - rewrite <- list_to_map_cons. apply list_to_map_proper; [by rewrite fmap_app, fmap_cons|].
    symmetry. apply Permutation_middle.
  - apply not_elem_of_list_to_map_1. rewrite fmap_app. apply list.NoDup_app in Hnd as (_ & H1 & H2).
    apply list.NoDup_cons in H2 as [H2 _]. intros [Hp|Hp]%elem_of_app; [|done]. apply H1 in Hp. apply Hp. by left.
Qed.
(** Taking a block into use, or out of it, with the same data elsewhere. *)
Lemma contents_use l l' bs1 n bs2 :
  Forall block_ok (bs1 ++ used n :: bs2) → same_data l l' 0 (bs1 ++ free n :: bs2) →
  let p := hp + span bs1 + SIZEOF_STRUCT_MEM in
  contents l' (bs1 ++ used n :: bs2) = <[p := bytes_at l' (p - rb) n]> (contents l (bs1 ++ free n :: bs2)) ∧
  contents l (bs1 ++ free n :: bs2) !! p = None.
Proof.
  intros Hok Hd p. pose proof (owned_nodup l' 0 _ Hok) as Hnd.
  unfold contents. rewrite <- (owned_same _ _ _ _ Hd), !owned_app in *. cbn [owned b_used b_size app] in *.
  rewrite Z.add_0_l in *. by apply map_middle.
Qed.
Lemma contents_coalesce l bs : contents l (coalesce bs) = contents l bs.
Proof. unfold contents. by rewrite owned_coalesce. Qed.
(** A block that was cut and given back. *)
Lemma uncut_blocks bs1 n m rest bs2 :
  span (used m :: rest) = SIZEOF_STRUCT_MEM + n → rest = [] ∨ (∃ r, rest = [free r]) →
  apart (bs1 ++ free n :: bs2) → coalesce (bs1 ++ free m :: rest ++ bs2) = bs1 ++ free n :: bs2.
Proof.
  cbn [span b_size]. intros Hsp Hrest Ha. destruct (apart_app _ _ Ha) as [_ [Hh Ha2]%apart_cons].
  rewrite <- (coalesce_id _ Ha). unfold coalesce. rewrite !foldr_app. f_equal.
  destruct Hrest as [-> | [r ->]]; cbn [span b_size app foldr] in *; fold (coalesce bs2); rewrite coalesce_id by done.
  - f_equal. f_equal. lia.
  - destruct Hh as [Hh|Hh]; [done|]. rewrite (join_used _ bs2) by (by right). rewrite (join_used _ bs2) by (by right).
    cbn [join orb b_used b_size]. do 2 f_equal. unfold SIZEOF_STRUCT_MEM in *. lia.
Qed.

(** A free block and the two it may be cut into. *)
Lemma carve_same l l' bs1 n m rest bs2 :
  span (used m :: rest) = SIZEOF_STRUCT_MEM + n → rest = [] ∨ (∃ r, rest = [free r]) →
  (same_data l l' 0 (bs1 ++ free n :: bs2) → same_data l l' 0 (bs1 ++ free m :: rest ++ bs2)) ∧
  contents l (bs1 ++ free m :: rest ++ bs2) = contents l (bs1 ++ free n :: bs2).
Proof.
  cbn [span b_size]. intros Hsp [-> | [r ->]]; cbn [span b_size app] in *.
  - assert (m = n) as -> by lia. done.
  - assert (free n :: bs2 = join (free m) (free r :: bs2)) as ->
      by (cbn [join orb b_used b_size]; do 2 f_equal; unfold SIZEOF_STRUCT_MEM in *; lia).
    split.
    + intros [H1 H2]%same_data_app. apply same_data_app. split; [done|]. by apply same_data_join.
    + unfold contents. rewrite !owned_app, owned_join. done.
Qed.
End layout.
