(* ===== verification/MemHeap.v ===== *)
(** What the allocator of Mem.v promises its clients: every pointer handed out is a block of
    bytes of its own. *)
From stdpp Require Import list_numbers gmap sorting.
From S2P Require Import Prelude Mem MemLayout.

(** ** The heap as a store of blocks *)

(** A heap that holds the blocks [bs]. *)
Record heap_rep (h : heap) (bs : list block) : Prop := {
  rep_geometry : geometry (heap_ptr h) (mem_size_aligned h) (ram_base h) (zlen (ram h));
  rep_laid : laid (heap_ptr h) (mem_size_aligned h) (ram_base h) (zlen (ram h)) (ram h) bs;
  rep_apart : apart bs;
  rep_end : heap_end h = heap_ptr h + (mem_size_aligned h + SIZEOF_STRUCT_MEM);
  rep_lfree : lfree h = heap_ptr h + first_free 0 bs;
  rep_sem : heap_sem h = 1;
  rep_used : used_mem h = in_use bs;
}.

(** The pointers handed out, each with its bytes. *)
Definition blocks (h : heap) (bs : list block) : gmap Z (list Z) :=
  contents (heap_ptr h) (ram_base h) (ram h) bs.

(** The operations a client has, and what they give back. *)
Inductive heap_op : Type :=
  | Malloc (n : Z) | Calloc (count size : Z) | Realloc (p n : Z) | Free (p : Z)
  | ReadByte (p i : Z) | WriteByte (p i v : Z).
Inductive heap_out : Type := Pointer (p : Z) | Value (v : Z) | NoValue.

Definition heap_perform (op : heap_op) : prog heap heap_out :=
  match op with
  | Malloc n => p ← rt_malloc n; mret (Pointer p)
  | Calloc count size => p ← rt_calloc count size; mret (Pointer p)
  | Realloc p n => p ← rt_realloc p n; mret (Pointer p)
  | Free p => rt_free p;; mret NoValue
  | ReadByte p i => v ← ld 1 (p + i); mret (Value v)
  | WriteByte p i v => st 1 (p + i) v;; mret NoValue
  end.

(** A pointer for at least [n] bytes, not among those of [m]. *)
Definition fresh (m : gmap Z (list Z)) (p n : Z) (c : list Z) : Prop :=
  m !! p = None ∧ p ≠ RT_NULL ∧ p mod RT_ALIGN_SIZE = 0 ∧ 0 < n ≤ zlen c.

(** The store of blocks the operations are meant to implement. *)
Inductive heap_step (m : gmap Z (list Z)) : heap_op → heap_out → gmap Z (list Z) → Prop :=
  | step_malloc_null n : heap_step m (Malloc n) (Pointer RT_NULL) m
  | step_malloc n p c : fresh m p n c → heap_step m (Malloc n) (Pointer p) (<[p := c]> m)
  | step_calloc_null count size : heap_step m (Calloc count size) (Pointer RT_NULL) m
  | step_calloc count size p c :
      fresh m p (count * size) c → (∀ i, 0 ≤ i < count * size → byte c i = 0) →
      heap_step m (Calloc count size) (Pointer p) (<[p := c]> m)
  | step_realloc_new n o m' : heap_step m (Malloc n) o m' → heap_step m (Realloc RT_NULL n) o m'
  | step_realloc_free p c : m !! p = Some c → heap_step m (Realloc p 0) (Pointer RT_NULL) (delete p m)
  | step_realloc_null p n c : m !! p = Some c → 0 < n → heap_step m (Realloc p n) (Pointer RT_NULL) m
  | step_realloc p n c p' c' :
      m !! p = Some c → fresh (delete p m) p' n c' →
      (∀ i, 0 ≤ i < n → i < zlen c → byte c' i = byte c i) →
      heap_step m (Realloc p n) (Pointer p') (<[p' := c']> (delete p m))
  | step_free_null : heap_step m (Free RT_NULL) NoValue m
  | step_free p c : m !! p = Some c → heap_step m (Free p) NoValue (delete p m)
  | step_load p i c : m !! p = Some c → heap_step m (ReadByte p i) (Value (byte c i)) m
  | step_store p i v c :
      m !! p = Some c → heap_step m (WriteByte p i v) NoValue (<[p := <[Z.to_nat i := v]> c]> m).

(** What a client may ask for: sizes that the rounding does not wrap, its own pointers,
    and bytes inside their blocks. *)
Definition size_ok (n : Z) : Prop := 0 ≤ n ≤ 4294967292.
Definition op_ok (m : gmap Z (list Z)) (op : heap_op) : Prop :=
  match op with
  | Malloc n => size_ok n
  | Calloc count size => 0 ≤ count ∧ 0 ≤ size ∧ size_ok (count * size)
  | Realloc p n => (p = RT_NULL ∨ is_Some (m !! p)) ∧ size_ok n
  | Free p => p = RT_NULL ∨ is_Some (m !! p)
  | ReadByte p i => ∃ c, m !! p = Some c ∧ 0 ≤ i < zlen c
  | WriteByte p i v => ∃ c, m !! p = Some c ∧ 0 ≤ i < zlen c ∧ is_u8 v
  end.

(** ** Unpacking the invariant *)

Lemma rep_elim h bs :
  heap_rep h bs →
  ∃ hp msa rb mm l, geometry hp msa rb (zlen l) ∧ laid hp msa rb (zlen l) l bs ∧ apart bs ∧
    h = mk_heap hp (hp + (msa + SIZEOF_STRUCT_MEM)) (hp + first_free 0 bs) 1 msa (in_use bs) mm rb l.
Proof.
  intros [Hg Hl Ha He Hf Hs Hu]. destruct h as [hp e lf sem msa um mm rb l]. cbn in *. subst.
  eauto 10.
Qed.
Lemma rep_intro hp msa rb mm l N bs :
  geometry hp msa rb N → laid hp msa rb N l bs → apart bs →
  heap_rep (mk_heap hp (hp + (msa + SIZEOF_STRUCT_MEM)) (hp + first_free 0 bs) 1 msa (in_use bs) mm rb l) bs.
Proof. intros Hg Hl Ha. pose proof (laid_zlen _ _ _ _ _ _ Hl) as Hz. subst N. by split. Qed.

Lemma malloc_spec_inv msa n bs off bs' :
  is_u32 n → n ≤ 4294967292 → malloc_spec msa n bs = Some (off, bs') →
  0 < n ≤ block_size n ∧
  ∃ bs1 m bs2, bs = bs1 ++ mk_block false m :: bs2 ∧ off = span bs1 ∧ 12 ≤ block_size n ≤ m ∧
    block_size n mod 4 = 0 ∧ bs' = bs1 ++ carve (block_size n) m ++ bs2.
Proof.
  intros Hn Hle. unfold malloc_spec. case_decide as Hno; [done|]. intros Ha.
  pose proof (RT_ALIGN_eq n Hn) as Hal. rewrite decide_True in Hal by done. unfold is_u32 in Hn.
  assert (0 < n ≤ block_size n ∧ 12 ≤ block_size n ∧ block_size n mod 4 = 0) as (Hs & Hs2 & Hs3)
    by (unfold block_size, MIN_SIZE_ALIGNED; case_decide; lia).
  split; [done|]. destruct (alloc_inv _ _ _ _ _ _ Ha) as (bs1 & m & bs2 & -> & -> & Hm & ->).
  exists bs1, m, bs2. split_and!; (done || lia).
Qed.

(** Allocation in terms of the block it takes a part of, and in terms of what clients own. *)
Lemma malloc_cut_ok h bs n (Q : Z → heap → Prop) :
  heap_rep h bs → size_ok n →
  (malloc_spec (mem_size_aligned h) n bs = None → Q RT_NULL h) →
  (∀ bs1 m bs2 k rest h' c, let p := heap_ptr h + span bs1 + SIZEOF_STRUCT_MEM in
     let bs' := bs1 ++ mk_block true k :: rest ++ bs2 in
     bs = bs1 ++ mk_block false m :: bs2 → malloc_spec (mem_size_aligned h) n bs = Some (span bs1, bs') →
     span (mk_block true k :: rest) = SIZEOF_STRUCT_MEM + m → rest = [] ∨ (∃ r, rest = [mk_block false r]) →
     block_size n ≤ k < block_size n + 24 →
     heap_rep h' bs' → heap_ptr h' = heap_ptr h → mem_size_aligned h' = mem_size_aligned h →
     fresh (blocks h bs) p n c → zlen c = k → Forall is_u8 c → blocks h' bs' = <[p := c]> (blocks h bs) → Q p h') →
  wp (rt_malloc n) Q h.
Proof.
  intros Hrep Hn Hnull HQ. destruct (rep_elim h bs Hrep) as (hp & msa & rb & mm & l & Hg & Hl & Ha & ->).
  unfold size_ok in Hn. assert (is_u32 n) as Hu by (unfold is_u32; lia). cbn [mem_size_aligned heap_ptr] in *.
  apply (rt_malloc_ok hp msa rb (zlen l)); [done..|].
  destruct (malloc_spec msa n bs) as [[off bs']|] eqn:Hms; [|by apply Hnull].
  destruct (malloc_spec_inv _ _ _ _ _ Hu ltac:(lia) Hms) as (Hsz & bs1 & m & bs2 & -> & -> & Hm & Hbm & ->).
  intros l' mm' Hl' Hd.
  destruct (laid_middle _ _ _ _ _ _ _ _ Hl) as (_ & _ & _ & _ & Hok1 & [Hm4 Hmm] & Hok2 & Hoff & Hoff4 & Hsp & _).
  cbn [b_size] in *.
  destruct (carve_facts (block_size n) m) as (Hcs & Hcok & k & rest & Hc & Hmk & Hrest); [done..|].
  assert (apart (bs1 ++ carve (block_size n) m ++ bs2)) as Ha' by by apply carve_apart.
  pose proof (laid_ok _ _ _ _ _ _ Hl') as Hok'. rewrite Hc in *. cbn [app] in *.
  destruct (carve_same hp rb l l' bs1 m k rest bs2 Hcs Hrest) as [Hd' Hct].
  destruct (contents_use hp rb l l' bs1 k (rest ++ bs2) Hok' (Hd' Hd)) as [Hc' Hnone].
  pose proof (geo_base _ _ _ _ Hg) as [Hhp Hhp4]. pose proof (laid_u8 _ _ _ _ _ _ Hl') as Hu8.
  eapply (HQ bs1 m bs2 k rest _ (bytes_at l' (hp + span bs1 + SIZEOF_STRUCT_MEM - rb) k));
    [done|done|done|done|done|by eapply rep_intro|done|done| |by apply zlen_bytes_at; lia|by apply bytes_at_u8|].
  - rewrite Hct in Hnone. split; [exact Hnone|]. rewrite zlen_bytes_at by lia. unfold SIZEOF_STRUCT_MEM, RT_NULL, RT_ALIGN_SIZE. lia.
  - unfold blocks. cbn [heap_ptr ram_base ram]. by rewrite Hc', Hct.
Qed.

Lemma malloc_ok h bs n (Q : Z → heap → Prop) :
  heap_rep h bs → size_ok n →
  Q RT_NULL h →
  (∀ p h' bs' c, heap_rep h' bs' → fresh (blocks h bs) p n c → Forall is_u8 c →
     blocks h' bs' = <[p := c]> (blocks h bs) → Q p h') →
  wp (rt_malloc n) Q h.
Proof. intros Hrep Hn Hnull HQ. apply (malloc_cut_ok h bs n); [done..|]. intros. by eapply HQ. Qed.

Lemma free_ok h bs p c (Q : unit → heap → Prop) :
  heap_rep h bs → blocks h bs !! p = Some c →
  (∀ h' bs', heap_rep h' bs' → blocks h' bs' = delete p (blocks h bs) → Q tt h') →
  wp (rt_free p) Q h.
Proof.
  intros Hrep Hp HQ. destruct (rep_elim h bs Hrep) as (hp & msa & rb & mm & l & Hg & Hl & Ha & ->).
  unfold blocks in *. cbn [heap_ptr ram_base ram] in *.
  destruct (contents_block hp rb l bs p c (laid_ok _ _ _ _ _ _ Hl) Hp) as (bs1 & n & bs2 & -> & -> & -> & _).
  apply (rt_free_ok hp msa rb (zlen l)); [done..|]. intros l' Hl' Ha' Hd.
  eapply HQ; [by eapply rep_intro|]. cbn [heap_ptr ram_base ram]. rewrite contents_coalesce.
  destruct (contents_use hp rb l l bs1 n bs2 (laid_ok _ _ _ _ _ _ Hl) (same_data_refl _ _ _ _ _)) as [-> Hnone].
  rewrite delete_insert_id by done. unfold contents. by rewrite (owned_same _ _ _ _ _ _ Hd).
Qed.

(** Bytes written into, and read out of, a client's block. *)
Definition splice (c : list Z) (i : Z) (ws : list Z) : list Z :=
  take (Z.to_nat i) c ++ ws ++ drop (Z.to_nat i + length ws) c.

Lemma splice_byte c i ws k :
  0 ≤ i → i + zlen ws ≤ zlen c → 0 ≤ k →
  zlen (splice c i ws) = zlen c ∧
  byte (splice c i ws) k = if decide (i ≤ k < i + zlen ws) then byte ws (k - i) else byte c k.
Proof.
  intros Hi Hl Hk. destruct (store_bytes_byte c i ws Hi Hl) as (c' & Hc' & Hz & Hb).
  rewrite store_bytes_in in Hc' by done. injection Hc' as Hc'. unfold splice. rewrite Hc'. split; [done|by apply Hb].
Qed.

Lemma data_write h bs p c i ws :
  heap_rep h bs → blocks h bs !! p = Some c → 0 ≤ i → i + zlen ws ≤ zlen c → Forall is_u8 ws →
  ∃ l', store_bytes (ram h) (p + i - ram_base h) ws = Ok l' ∧ heap_rep (h <| ram := l' |>) bs ∧
    blocks (h <| ram := l' |>) bs = <[p := splice c i ws]> (blocks h bs).
Proof.
  intros Hrep Hp Hi Hl Hws. destruct (rep_elim h bs Hrep) as (hp & msa & rb & mm & l & Hg & Hlaid & Ha & ->).
  unfold blocks, upd in *. cbn in *. pose proof (laid_ok _ _ _ _ _ _ Hlaid) as Hok.
  destruct (contents_block hp rb l bs p c Hok Hp) as (bs1 & n & bs2 & -> & Ep & Ec & Hc).
  destruct (laid_middle _ _ _ _ _ _ _ _ Hlaid) as (_ & _ & _ & _ & _ & _ & _ & Hoff & _ & Hsp & Hsp2 & _).
  cbn [b_size] in *. pose proof (geo_ram _ _ _ _ Hg) as (Hr & Hr1 & _). unfold SIZEOF_STRUCT_MEM in *.
  destruct (store_bytes_byte l (p + i - rb) ws) as (l' & Hst & Hz & Hb); [lia|lia|].
  exists l'. split; [done|].
  assert (stored l l' (length ws) (p + i - rb) (field l' (length ws) (p + i - rb))) as Hs.
  { split; [done|done| |].
    - intros k Hk Hki. rewrite Hb, decide_False by (unfold zlen; lia). done.
    - intros Hu. by eapply store_bytes_u8. }
  destruct (data_store_laid hp msa rb (zlen l) Hg _ _ _ _ _ _ _ _ Hlaid Hs) as [Hlaid' Hd]; [unfold zlen in *; lia..|].
  split; [by eapply rep_intro|].
  destruct (contents_use hp rb l l' bs1 n bs2 Hok Hd) as [-> _].
  destruct (contents_use hp rb l l bs1 n bs2 Hok (same_data_refl _ _ _ _ _)) as [-> _].
  unfold SIZEOF_STRUCT_MEM. rewrite <- Ep, insert_insert, decide_True by done. f_equal.
  destruct (splice_byte c i ws 0 Hi Hl) as [Hzs _]; [lia|].
  apply bytes_at_eq; [lia|]. intros k Hk. destruct (splice_byte c i ws k Hi Hl) as [_ ->]; [lia|].
  rewrite Hb by lia. destruct (decide (i ≤ k < i + zlen ws)).
  - rewrite decide_True by lia. f_equal. lia.
  - rewrite decide_False by lia. rewrite Ec, byte_bytes_at by lia. done.
Qed.

Lemma data_read h bs p c i n :
  heap_rep h bs → blocks h bs !! p = Some c → 0 ≤ i → 0 ≤ n → i + n ≤ zlen c →
  ∃ ws, load_bytes (ram h) (p + i - ram_base h) n = Ok ws ∧ zlen ws = n ∧ Forall is_u8 ws ∧
    ∀ k, 0 ≤ k < n → byte ws k = byte c (i + k).
Proof.
  intros Hrep Hp Hi Hn Hl. destruct (rep_elim h bs Hrep) as (hp & msa & rb & mm & l & Hg & Hlaid & Ha & ->).
  unfold blocks in *. cbn [heap_ptr ram_base ram] in *. pose proof (laid_ok _ _ _ _ _ _ Hlaid) as Hok.
  destruct (contents_block hp rb l bs p c Hok Hp) as (bs1 & m & bs2 & -> & Ep & Ec & Hc).
  destruct (laid_middle _ _ _ _ _ _ _ _ Hlaid) as (_ & _ & _ & _ & _ & _ & _ & Hoff & _ & Hsp & Hsp2 & _).
  cbn [b_size] in *. pose proof (geo_ram _ _ _ _ Hg) as (Hr & Hr1 & _). unfold SIZEOF_STRUCT_MEM in *.
  destruct (load_bytes_byte l (p + i - rb) n) as (ws & Hws & Hz & Hb); [lia..|].
  exists ws. split_and!; [done|done| |].
  - rewrite load_bytes_in in Hws by lia. injection Hws as <-. apply Forall_take, Forall_drop. by apply Hlaid.
  - intros k Hk. rewrite Hb, Ec, byte_bytes_at by lia. f_equal. lia.
Qed.

(** *** The other operations *)

Lemma calloc_ok h bs count size (Q : Z → heap → Prop) :
  heap_rep h bs → 0 ≤ count → 0 ≤ size → size_ok (count * size) →
  Q RT_NULL h →
  (∀ p h' bs' c, heap_rep h' bs' → fresh (blocks h bs) p (count * size) c →
     (∀ i, 0 ≤ i < count * size → byte c i = 0) →
     blocks h' bs' = <[p := c]> (blocks h bs) → Q p h') →
  wp (rt_calloc count size) Q h.
Proof.
  intros Hrep Hc Hs Hok Hnull HQ. set (n := count * size) in *. unfold rt_calloc. fold n.
  assert (u32 n = n) as -> by (apply u32_id; unfold is_u32, size_ok in *; lia).
  rewrite wp_bind. apply (malloc_ok h bs n); [done..| |].
  - cbn. exact Hnull.
  - intros p h1 bs1 c Hrep1 (Hnone & Hp0 & Hp4 & Hn) Hu8 Hb1. rewrite wp_bind. apply wp_when; intros Hbd.
    2: { apply bool_decide_eq_false in Hbd. tauto. }
    destruct (data_write h1 bs1 p c 0 (replicate (Z.to_nat n) (u8 0)) Hrep1) as (l' & Hst & Hrep2 & Hb2).
    + rewrite Hb1. apply lookup_insert_eq.
    + done.
    + unfold zlen in *. rewrite length_replicate. lia.
    + by apply Forall_replicate.
    + rewrite Z.add_0_r in Hst. unfold rt_memset. rewrite wp_bind, wp_reads, Hst. cbn [owp]. rewrite wp_modify, wp_ret.
      assert (zlen (replicate (Z.to_nat n) (u8 0)) = n) as Hzr by (unfold zlen; rewrite length_replicate; lia).
      destruct (splice_byte c 0 (replicate (Z.to_nat n) (u8 0)) 0) as [Hz _]; [lia..|].
      apply (HQ _ _ bs1 (splice c 0 (replicate (Z.to_nat n) (u8 0)))); [done| | |].
      * split_and!; (done || lia).
      * intros i Hi. destruct (splice_byte c 0 (replicate (Z.to_nat n) (u8 0)) i) as [_ ->]; [lia..|].
        rewrite decide_True by lia. unfold byte.
        destruct (nth_in_or_default (Z.to_nat (i - 0)) (replicate (Z.to_nat n) (u8 0)) 0) as [Hin| ->]; [|done].
        by apply list_elem_of_In, elem_of_replicate in Hin as [-> _].
      * by rewrite Hb2, Hb1, insert_insert, decide_True.
Qed.

(** The slow path of [rt_realloc]: allocate, copy, free. *)
Lemma move_ok h bs p c n a (Q : Z → heap → Prop) :
  heap_rep h bs → blocks h bs !! p = Some c → size_ok a → 0 < n ≤ a →
  Q RT_NULL h →
  (∀ p' h' bs' c', heap_rep h' bs' → fresh (delete p (blocks h bs)) p' n c' →
     (∀ i, 0 ≤ i < n → i < zlen c → byte c' i = byte c i) →
     blocks h' bs' = <[p' := c']> (delete p (blocks h bs)) → Q p' h') →
  wp (nmem ← rt_malloc a;
      when (bool_decide (nmem ≠ RT_NULL)) (
        rt_memcpy nmem p (if decide (zlen c < a) then zlen c else a);; rt_free p);;
      mret nmem) Q h.
Proof.
  intros Hrep Hp Ha Hna Hnull HQ. rewrite wp_bind. apply (malloc_ok h bs a); [done..|].
  intros p' h1 bs1 c1 Hrep1 (Hnone & Hp0 & Hp4 & Hc1) Hu8 Hb1. rewrite wp_bind. apply wp_when; intros Hbd.
  2: { apply bool_decide_eq_false in Hbd. tauto. }
  assert (p ≠ p') as Hpp by congruence.
  set (k := if decide (zlen c < a) then zlen c else a). assert (0 ≤ k ≤ a ∧ k ≤ zlen c ∧ (k = a ∨ k = zlen c)) as Hk
    by (unfold k; destruct (decide (zlen c < a)); unfold zlen in *; lia). clearbody k.
  destruct (data_read h1 bs1 p c 0 k) as (ws & Hws & Hz & Hu & Hb); [done| |lia..|].
  { rewrite Hb1. by rewrite lookup_insert_ne. }
  destruct (data_write h1 bs1 p' c1 0 ws) as (l' & Hst & Hrep2 & Hb2); [done| |lia|lia|done|].
  { rewrite Hb1. apply lookup_insert_eq. }
  rewrite Z.add_0_r in *. unfold rt_memcpy. rewrite wp_bind, wp_bind, wp_reads, Hws. cbn [owp].
  rewrite wp_bind, wp_reads, Hst. cbn [owp]. rewrite wp_modify.
  apply (free_ok (h1 <| ram := l' |>) bs1 p c); [done| |].
  { rewrite Hb2, Hb1, insert_insert, decide_True by done. by rewrite lookup_insert_ne. }
  intros h2 bs2 Hrep3 Hb3. rewrite wp_ret.
  destruct (splice_byte c1 0 ws 0) as [Hzs _]; [lia..|].
  apply (HQ _ _ bs2 (splice c1 0 ws)); [done| | |].
  - split_and!; [by rewrite lookup_delete_ne|done|done|lia|lia].
  - intros i Hi Hic. destruct (splice_byte c1 0 ws i) as [_ ->]; [lia..|]. rewrite decide_True by lia.
    rewrite Z.sub_0_r. by rewrite Hb by lia.
  - rewrite Hb3, Hb2, Hb1, insert_insert, decide_True by done. by rewrite delete_insert_ne.
Qed.

(** The shrinking path. *)
Lemma shrink_ok hp msa rb mm l bs1 m bs2 n a (Q : unit → heap → Prop) :
  let N := zlen l in let bs := bs1 ++ mk_block true m :: bs2 in
  let p := hp + span bs1 + SIZEOF_STRUCT_MEM in let c := bytes_at l (p - rb) m in
  let B := contents hp rb l bs in
  geometry hp msa rb N → laid hp msa rb N l bs → apart bs → 0 < n ≤ a → 4 ≤ a → a mod 4 = 0 → a + 24 < m →
  (∀ l' bs' c', laid hp msa rb N l' bs' → apart bs' → fresh (delete p B) p n c' →
     (∀ i, 0 ≤ i < n → i < zlen c → byte c' i = byte c i) →
     contents hp rb l' bs' = <[p := c']> (delete p B) →
     Q tt (mk_heap hp (hp + (msa + SIZEOF_STRUCT_MEM)) (hp + first_free 0 bs') 0 msa (in_use bs') mm rb l')) →
  wp (shrink_block (span bs1) m a) Q
    (mk_heap hp (hp + (msa + SIZEOF_STRUCT_MEM)) (hp + first_free 0 bs) 0 msa (in_use bs) mm rb l).
Proof.
  intros N bs p c B Hg Hl Ha Hn Ha4 Ham Hlt HQ.
  destruct (laid_middle _ _ _ _ _ _ _ _ Hl) as (_ & _ & _ & _ & Hok1 & [Hm4 Hmm] & Hok2 & Hoff & Hoff4 & _).
  cbn [b_size] in *. pose proof (geo_base _ _ _ _ Hg) as [Hhp Hhp4].
  apply (shrink_block_ok hp msa rb N Hg); [done..|]. intros l' Hl' Ha' Hd. rewrite <- app_assoc in Hl', Ha', Hd |- *.
  cbn [app] in Hl', Ha', Hd |- *. set (r := m - a - SIZEOF_STRUCT_MEM) in *. set (rest := mk_block false r :: bs2) in *.
  assert (Forall block_ok (bs1 ++ mk_block true a :: rest)) as Hok.
  { apply Forall_app. split; [done|]. constructor; [split; cbn; lia|]. constructor; [|done].
    unfold r, block_ok, SIZEOF_STRUCT_MEM. cbn. lia. }
  apply same_data_app in Hd as [Hd1 [Hd2 Hd3]]. cbn [b_used b_size] in Hd2, Hd3.
  assert (same_data hp rb l l' 0 (bs1 ++ mk_block false a :: rest)) as Hd by (apply same_data_app; by split).
  destruct (contents_use hp rb l l' bs1 a rest Hok Hd) as [Hc' Hnone]. fold p in Hc', Hnone.
  destruct (contents_use hp rb l l bs1 m bs2 (laid_ok _ _ _ _ _ _ Hl) (same_data_refl _ _ _ _ _)) as [HB HnB].
  fold bs p B c in HB, HnB.
  destruct (carve_same hp rb l l bs1 m a [mk_block false r] bs2) as [_ Hct].
  { cbn. unfold r, SIZEOF_STRUCT_MEM. lia. }
  { eauto. }
  cbn [app] in Hct. fold rest in Hct.
  assert (delete p B = contents hp rb l (bs1 ++ mk_block false m :: bs2)) as HdB by (rewrite HB; by apply delete_insert_id).
  apply (HQ _ _ (bytes_at l' (p - rb) a)); [done..| | |].
  - rewrite HdB. split_and!; [done|unfold p, RT_NULL, SIZEOF_STRUCT_MEM; lia|unfold p, RT_ALIGN_SIZE, SIZEOF_STRUCT_MEM; lia|lia|].
    rewrite zlen_bytes_at; lia.
  - intros i Hi Hic. unfold c. rewrite !byte_bytes_at by lia.
    specialize (Hd2 eq_refl (p + i)). unfold p in *. rewrite Z.add_0_l in Hd2.
    replace (hp + span bs1 + SIZEOF_STRUCT_MEM - rb + i) with (hp + span bs1 + SIZEOF_STRUCT_MEM + i - rb) by lia.
    apply Hd2. lia.
  - by rewrite contents_coalesce, Hc', Hct, HdB.
Qed.

Lemma realloc_ok h bs p c n (Q : Z → heap → Prop) :
  heap_rep h bs → blocks h bs !! p = Some c → size_ok n →
  (n = 0 → ∀ h' bs', heap_rep h' bs' → blocks h' bs' = delete p (blocks h bs) → Q RT_NULL h') →
  (0 < n → Q RT_NULL h) →
  (∀ p' h' bs' c', heap_rep h' bs' → fresh (delete p (blocks h bs)) p' n c' →
     (∀ i, 0 ≤ i < n → i < zlen c → byte c' i = byte c i) →
     blocks h' bs' = <[p' := c']> (delete p (blocks h bs)) → Q p' h') →
  wp (rt_realloc p n) Q h.
Proof.
  intros Hrep Hp Hn Hfree Hnull HQ. unfold size_ok in Hn.
  pose proof (RT_ALIGN_eq n ltac:(unfold is_u32; lia)) as Hal. rewrite decide_True in Hal by lia.
  unfold rt_realloc. rewrite Hal. set (a := (n + 3) / 4 * 4) in *.
  assert (n ≤ a ∧ a < n + 4 ∧ a mod 4 = 0) as (Hna & Hna2 & Ham) by (unfold a; lia).
  apply wp_gets_bind. pose proof (rep_geometry _ _ Hrep) as Hg. destruct (geo_size _ _ _ _ Hg) as [Hm12 Hmm].
  destruct (decide (a > mem_size_aligned h)) as [Hbig|Hsmall]; [apply Hnull; lia|].
  destruct (decide (a = 0)) as [Ha0|Ha0].
  { rewrite wp_bind. apply (free_ok h bs p c); [done..|]. intros h' bs' ? ?. rewrite wp_ret. eapply Hfree; [lia|done..]. }
  destruct (rep_elim h bs Hrep) as (hp & msa & rb & mm & l & Hg' & Hl & Hap & ->). cbn [mem_size_aligned] in *. clear Hg.
  unfold blocks in Hp. cbn [heap_ptr ram_base ram] in Hp.
  destruct (contents_block hp rb l bs p c (laid_ok _ _ _ _ _ _ Hl) Hp) as (bs1 & m & bs2 & -> & Ep & Ec & Hc).
  destruct (laid_middle _ _ _ _ _ _ _ _ Hl) as (_ & Hh & _ & _ & _ & [Hm4 Hmm4] & _ & Hoff & Hoff4 & Hsp & Hsp2 & _ & Hz & _).
  cbn [b_size b_used] in *. pose proof (geo_ram _ _ _ _ Hg') as (Hr & Hr1 & Hr2). pose proof (geo_base _ _ _ _ Hg') as [Hhp Hhp4].
  unfold RT_NULL, SIZEOF_STRUCT_MEM, MIN_SIZE in *. rewrite decide_False by lia.
  unfold rt_sem_take. rewrite wp_bind. apply wp_gets_bind. cbn [heap_sem]. rewrite decide_True by done.
  rewrite wp_modify. unfold upd at 1. cbn. do 2 apply wp_gets_bind. cbn [heap_ptr heap_end]. rewrite decide_False by lia.
  replace (p - 12) with (hp + span bs1) by lia. replace (hp + span bs1 - hp) with (span bs1) by lia.
  rewrite (u32_id (span bs1)) by (unfold is_u32; lia).
  eapply (wp_next hp msa rb (zlen l)); [done|done|lia|exact Hh|].
  replace (span bs1 + 12 + m - span bs1 - 12) with m by lia. rewrite !u32_id by (unfold is_u32; lia).
  unfold rt_sem_release.
  destruct (decide (m = a)) as [->|Hma]; [|destruct (decide (a + 12 + 12 < m)) as [Hshrink|Hgrow]].
  - rewrite wp_bind. apply wp_gets_bind. cbn [heap_sem]. rewrite decide_True by done. rewrite wp_modify, wp_ret. unfold upd. cbn.
    eapply HQ; [exact Hrep| |done|].
    + split_and!; [apply lookup_delete_eq|unfold RT_NULL; lia|unfold RT_ALIGN_SIZE; lia|lia..].
    + unfold blocks. cbn. by rewrite insert_delete_id.
  - rewrite wp_bind. apply (shrink_ok hp msa rb mm l bs1 m bs2 n a); [done..|lia|lia|done|lia|].
    unfold SIZEOF_STRUCT_MEM. rewrite <- Ep, <- Ec. intros l' bs' c' Hl' Ha' Hf Hb Hct.
    rewrite wp_bind. apply wp_gets_bind. cbn [heap_sem]. rewrite decide_True by done. rewrite wp_modify, wp_ret. unfold upd. cbn.
    eapply HQ; [by eapply rep_intro|done..].
  - rewrite wp_bind. apply wp_gets_bind. cbn [heap_sem]. rewrite decide_True by done. rewrite wp_modify. unfold upd. cbn.
    subst m. eapply (move_ok _ _ p c n a); [exact Hrep|exact Hp|unfold size_ok; lia|lia|apply Hnull; lia|exact HQ].
Qed.

(** ** The refinement *)

Lemma realloc_null_ok h bs n (Q : Z → heap → Prop) :
  heap_rep h bs → size_ok n → Q RT_NULL h →
  (∀ p h' bs' c, heap_rep h' bs' → fresh (blocks h bs) p n c → blocks h' bs' = <[p := c]> (blocks h bs) → Q p h') →
  wp (rt_realloc RT_NULL n) Q h.
Proof.
  intros Hrep Hn Hnull HQ. unfold size_ok in Hn.
  pose proof (RT_ALIGN_eq n ltac:(unfold is_u32; lia)) as Hal. rewrite decide_True in Hal by lia.
  unfold rt_realloc. rewrite Hal. apply wp_gets_bind. case_decide; [done|].
  case_decide as Ha0; [done|]. rewrite decide_True by done. apply (malloc_ok h bs); [done|unfold size_ok; lia|done|].
  intros p h' bs' c Hrep' (Hf1 & Hf2 & Hf3 & Hf4) _ Hb. eapply HQ; [done| |done]. split_and!; (done || lia).
Qed.

Lemma heap_perform_refines h bs op :
  heap_rep h bs → op_ok (blocks h bs) op →
  wp (heap_perform op) (λ o h', ∃ bs', heap_rep h' bs' ∧ heap_step (blocks h bs) op o (blocks h' bs')) h.
Proof.
  intros Hrep. destruct op as [n|count size|p n|p|p i|p i v]; cbn [op_ok heap_perform].
  - intros Hn. rewrite wp_bind. apply (malloc_ok h bs); [done..| |].
    + rewrite wp_ret. exists bs. split; [done|constructor].
    + intros p h' bs' c Hrep' Hf _ Hb. rewrite wp_ret. exists bs'. split; [done|]. rewrite Hb. by constructor.
  - intros (Hc & Hs & Hn). rewrite wp_bind. apply (calloc_ok h bs); [done..| |].
    + rewrite wp_ret. exists bs. split; [done|constructor].
    + intros p h' bs' c Hrep' Hf Hz Hb. rewrite wp_ret. exists bs'. split; [done|]. rewrite Hb. by constructor.
  - intros [[-> | [c Hp]] Hn].
    + rewrite wp_bind. apply (realloc_null_ok h bs n); [done..| |].
      * rewrite wp_ret. exists bs. split; [done|]. do 2 constructor.
      * intros p h' bs' c Hrep' Hf Hb. rewrite wp_ret. exists bs'. split; [done|]. rewrite Hb. by do 2 constructor.
    + rewrite wp_bind. apply (realloc_ok h bs p c); [done..| | |].
      * intros -> h' bs' Hrep' Hb. rewrite wp_ret. exists bs'. split; [done|]. rewrite Hb. by econstructor.
      * intros Hn0. rewrite wp_ret. exists bs. split; [done|]. by econstructor.
      * intros p' h' bs' c' Hrep' Hf Hc Hb. rewrite wp_ret. exists bs'. split; [done|]. rewrite Hb. by econstructor.
  - intros [-> | [c Hp]].
    + exists bs. split; [done|constructor].
    + rewrite wp_bind. apply (free_ok h bs p c); [done..|]. intros h' bs' Hrep' Hb. rewrite wp_ret.
      exists bs'. split; [done|]. rewrite Hb. by econstructor.
  - intros (c & Hp & Hi). destruct (data_read h bs p c i 1) as (ws & Hws & Hz & Hu & Hb); [done..|lia|lia|lia|].
    unfold ld. change (Z.of_nat 1) with 1. rewrite wp_bind, wp_reads, owp_bind, Hws. cbn [owp]. rewrite wp_ret. exists bs. split; [done|].
    replace (le_value ws) with (byte c i); [by constructor|].
    destruct ws as [|w []]; unfold zlen in Hz; cbn in Hz; [lia| |lia]. specialize (Hb 0 ltac:(lia)).
    rewrite Z.add_0_r in Hb. rewrite <- Hb. cbn. by rewrite Z.lor_0_r.
  - intros (c & Hp & Hi & Hv). unfold st. rewrite !wp_bind, wp_reads.
    assert (le_bytes 1 v = [v]) as -> by (cbn; by rewrite u8_id).
    destruct (data_write h bs p c i [v]) as (l' & Hst & Hrep' & Hb); [done..|lia|unfold zlen in *; cbn; lia|by constructor|].
    rewrite Hst. cbn [owp]. rewrite wp_modify, wp_ret. exists bs. split; [done|]. rewrite Hb.
    replace (splice c i [v]) with (<[Z.to_nat i := v]> c); [by constructor|].
    unfold splice, zlen in *. rewrite (insert_take_drop c) by lia. do 3 f_equal. cbn. lia.
Qed.

(** Blocks are apart from each other. *)
Definition disjoint_blocks (m : gmap Z (list Z)) : Prop :=
  ∀ p q c d, m !! p = Some c → m !! q = Some d → p ≠ q → p + zlen c ≤ q ∨ q + zlen d ≤ p.

Lemma blocks_disjoint h bs : heap_rep h bs → disjoint_blocks (blocks h bs).
Proof.
  intros Hrep p q c d Hp Hq Hpq. pose proof (laid_ok _ _ _ _ _ _ (rep_laid _ _ Hrep)) as Hok.
  unfold blocks in *. apply contents_lookup in Hp, Hq; [|done..].
  pose proof (owned_sorted (heap_ptr h) (ram_base h) (ram h) 0 bs Hok) as Hs.
  induction Hs as [|x xs _ IH Hx]; [by apply elem_of_nil in Hp|].
  assert (∀ y, y ∈ xs → before x y) as Hx' by (intros y Hy; rewrite Forall_forall in Hx; by apply Hx, list_elem_of_In).
  unfold before, SIZEOF_STRUCT_MEM in Hx'.
  apply elem_of_cons in Hp as [Hp|Hp], Hq as [Hq|Hq]; [subst x; congruence| | |by apply IH].
  - subst x. specialize (Hx' _ Hq). cbn in Hx'. lia.
  - subst x. specialize (Hx' _ Hp). cbn in Hx'. lia.
Qed.

(** A client decides on its next operation by what it has seen so far. *)
Section client.
Context (client : list (heap_op * heap_out) → option heap_op).

Fixpoint run_client (k : nat) (hist : list (heap_op * heap_out)) : prog heap (list (heap_op * heap_out)) :=
  match k with
  | O => mret hist
  | S k =>
      match client hist with
      | Some op => o ← heap_perform op; run_client k (hist ++ [(op, o)])
      | None => mret hist
      end
  end.

(** What it can see when its operations act on a store of blocks. *)
Inductive history : list (heap_op * heap_out) → gmap Z (list Z) → Prop :=
  | history_nil : history [] ∅
  | history_step hist m op o m' :
      history hist m → client hist = Some op → heap_step m op o m' → history (hist ++ [(op, o)]) m'.

Definition well_behaved : Prop := ∀ hist m op, history hist m → client hist = Some op → op_ok m op.

Lemma heap_run_refines k hist h bs :
  well_behaved → heap_rep h bs → history hist (blocks h bs) →
  wp (run_client k hist) (λ hist' h', ∃ bs', heap_rep h' bs' ∧ history hist' (blocks h' bs')) h.
Proof.
  intros Hwb. revert hist h bs. induction k as [|k IH]; intros hist h bs Hrep Hh; cbn [run_client]; [by exists bs|].
  destruct (client hist) as [op|] eqn:Hop; [|by exists bs].
  rewrite wp_bind. eapply wp_mono; [apply (heap_perform_refines h bs op); [done|by eapply Hwb]|].
  intros o h' (bs' & Hrep' & Hst). eapply IH; [done|by econstructor].
Qed.
End client.

(** Memory from [begin_addr] to [end_addr] that [rt_system_heap_init] can use. *)
Record heap_area (h : heap) (begin_addr end_addr : Z) : Prop := {
  area_begin : 0 < begin_addr ∧ ram_base h ≤ begin_addr;
  area_size : begin_addr + 42 ≤ end_addr;
  area_end : end_addr ≤ ram_base h + zlen (ram h) ∧ ram_base h + zlen (ram h) ≤ 4294967296;
  area_u8 : Forall is_u8 (ram h);
  area_used : used_mem h = 0;
}.

Lemma heap_ready h begin_addr end_addr (Q : unit → heap → Prop) :
  heap_area h begin_addr end_addr →
  (∀ h' n, heap_rep h' [mk_block false n] → mem_size_aligned h' = n →
     end_addr - begin_addr - 30 ≤ n → blocks h' [mk_block false n] = ∅ → Q tt h') →
  wp (rt_system_heap_init begin_addr end_addr) Q h.
Proof.
  intros [[Hb Hrb] Hs [He Hw] Hu Hum] HQ.
  pose proof (RT_ALIGN_eq begin_addr ltac:(unfold is_u32; lia)) as Hal. rewrite decide_True in Hal by lia.
  assert (RT_ALIGN_DOWN end_addr RT_ALIGN_SIZE = end_addr - end_addr mod 4) as Had by apply ldiff_aligned.
  set (hp := (begin_addr + 3) / 4 * 4) in *. set (n := end_addr - end_addr mod 4 - hp - 24).
  assert (geometry hp n (ram_base h) (zlen (ram h))) as Hg by (unfold hp, n; split; lia).
  apply (heap_init_ok hp n (ram_base h) (zlen (ram h)) Hg); try done.
  { rewrite Had. unfold n. lia. }
  intros l' Hl'. apply (HQ _ n); [|done|unfold n, hp; lia|done].
  assert (hp = hp + first_free 0 [mk_block false n]) as Ehp by (cbn; lia). rewrite Ehp at 3.
  by eapply (rep_intro hp n (ram_base h) (max_mem h)).
Qed.

(** ** Properties *)

(** C6: the heap is a store of disjoint blocks. Whatever a client does that passes only
    pointers it owns, sizes the rounding does not wrap and addresses inside its blocks, no
    operation of the heap, [rt_system_heap_init] first, runs into a fault or a failing
    assertion or waits for the heap's own semaphore; what the client sees is what a store
    of blocks would show it; and the blocks it holds at the end do not overlap. *)
Theorem heap_refines_store client k h begin_addr end_addr :
  heap_area h begin_addr end_addr → well_behaved client →
  wp (rt_system_heap_init begin_addr end_addr;; run_client client k [])
    (λ hist h', ∃ bs, heap_rep h' bs ∧ history client hist (blocks h' bs) ∧ disjoint_blocks (blocks h' bs)) h.
Proof.
  intros Ha Hwb. rewrite wp_bind. apply (heap_ready h begin_addr end_addr); [done|]. intros h' n Hrep _ _ Hb.
  eapply wp_mono; [apply (heap_run_refines client k [] h' [mk_block false n]); [done..|rewrite Hb; constructor]|].
  intros hist h'' (bs & Hrep' & Hh). exists bs. split; [done|]. split; [done|by apply blocks_disjoint].
Qed.

(** Allocates and frees in turns. *)
Definition sample_client (hist : list (heap_op * heap_out)) : option heap_op :=
  match rev hist with
  | (Malloc n, Pointer p) :: _ => Some (Free p)
  | _ => Some (Malloc 100)
  end.
Definition sample_heap : heap := mk_heap 0 0 0 0 0 0 0 0x20000000 (zeros 400).

Lemma sample_area : heap_area sample_heap 0x20000002 0x20000190.
Proof. split; try (vm_compute; intuition congruence). by apply Forall_replicate. Qed.

Definition sample_program : prog heap (list (heap_op * heap_out)) :=
  rt_system_heap_init 0x20000002 0x20000190;; run_client sample_client 3 [].
Definition sample_history : list (heap_op * heap_out) :=
  [(Malloc 100, Pointer 0x20000010); (Free 0x20000010, NoValue); (Malloc 100, Pointer 0x20000010)].

Lemma sample_run :
  match sample_program sample_heap with Ok (hist, _) => Some hist | Fault _ => None end = Some sample_history.
Proof. vm_compute. reflexivity. Qed.

Lemma heap_refines_store_witness :
  ∃ h bs, sample_program sample_heap = Ok (sample_history, h) ∧
    heap_rep h bs ∧ disjoint_blocks (blocks h bs).
Proof.
  assert (well_behaved sample_client) as Hwb.
  { intros hist m op Hh Hop. destruct Hh as [|hist m op' o m' Hh Hop' Hst]; [by injection Hop as <-|].
    unfold sample_client in Hop. rewrite rev_app_distr in Hop. cbn in Hop.
    destruct Hst; injection Hop as <-; try done; try (by left); cbn; try (by right; rewrite lookup_insert_eq). }
  pose proof (heap_refines_store sample_client 3 sample_heap 0x20000002 0x20000190 sample_area Hwb) as Hw.
  fold sample_program in Hw. destruct (proj1 (wp_ok _ _ _) Hw) as (hist & h & Hrun & bs & Hrep & _ & Hd).
  pose proof sample_run as Hr. rewrite Hrun in Hr. injection Hr as ->.
  exists h, bs. split; [exact Hrun|]. split; [exact Hrep|exact Hd].
Defined.

(** C7: what is allocated and given back leaves no trace. After an allocation that
    succeeds, however the heap has been used in between, freeing the block once the other
    blocks are as they were right after the allocation brings the heap back to the blocks
    it had before: the same free blocks, the same lowest free block, the same number of
    bytes in use. *)
Theorem malloc_free_restores h bs n :
  heap_rep h bs → size_ok n →
  wp (rt_malloc n) (λ p h1,
    p = RT_NULL ∧ h1 = h ∨
    p ≠ RT_NULL ∧ ∃ bs1, heap_rep h1 bs1 ∧ heap_ptr h1 = heap_ptr h ∧
      ∀ h2, heap_rep h2 bs1 → heap_ptr h2 = heap_ptr h1 →
        wp (rt_free p) (λ _ h3, heap_rep h3 bs ∧ lfree h3 = lfree h ∧ used_mem h3 = used_mem h) h2) h.
Proof.
  intros Hrep Hn. apply (malloc_cut_ok h bs n); [done..|by left|].
  intros bs1 m bs2 k rest h' c p bs' -> _ Hsp Hrest _ Hrep' Hhp Hmsa Hf _ _ _. right.
  split; [apply Hf|]. exists bs'. split; [done|]. split; [done|]. intros h2 Hrep2 Hhp2.
  pose proof (uncut_blocks bs1 m k rest bs2 Hsp Hrest (rep_apart _ _ Hrep)) as Hun.
  destruct (rep_elim h2 bs' Hrep2) as (hp & msa & rb & mm & l & Hg & Hl & Ha & ->). cbn [heap_ptr] in Hhp2.
  unfold p. rewrite <- Hhp, <- Hhp2. unfold bs' in *. apply (rt_free_ok hp msa rb (zlen l)); [done..|].
  rewrite Hun. intros l' Hl' Ha' _. split; [by eapply rep_intro|]. cbn [lfree used_mem].
  by rewrite (rep_lfree _ _ Hrep), (rep_used _ _ Hrep), Hhp2, Hhp.
Qed.

(** C39: an allocation fails exactly when no free block that begins far enough from the
    end is large enough. "Far enough" is stricter than it needs to be: a block must begin
    more than the requested size before the last header, so a block at the end of the heap
    that fits exactly is passed over. *)
Theorem malloc_null_exactly h bs n :
  heap_rep h bs → size_ok n →
  wp (rt_malloc n) (λ p _,
    p = RT_NULL ↔ n = 0 ∨
      ∀ bs1 k bs2, bs = bs1 ++ k :: bs2 → b_used k = false → block_size n ≤ b_size k →
        mem_size_aligned h - block_size n ≤ span bs1) h.
Proof.
  intros Hrep Hn. pose proof (laid_ok _ _ _ _ _ _ (rep_laid _ _ Hrep)) as Hok.
  pose proof (alloc_none (mem_size_aligned h - block_size n) (block_size n) 0 bs Hok) as Hnone.
  destruct (geo_size _ _ _ _ (rep_geometry _ _ Hrep)) as [Hm _].
  pose proof (RT_ALIGN_eq n ltac:(unfold is_u32, size_ok in *; lia)) as Hal.
  rewrite decide_True in Hal by (unfold size_ok in Hn; lia).
  apply (malloc_cut_ok h bs n); [done..| |].
  - unfold malloc_spec. intros Hspec. split; [|done]. intros _.
    destruct (decide (n = 0)) as [|Hn0]; [by left|right]. destruct (decide (RT_ALIGN n RT_ALIGN_SIZE > mem_size_aligned h)) as [Hbig|Hsmall].
    + intros bs1 k bs2 -> _ Hk. destruct (laid_middle _ _ _ _ _ _ _ _ (rep_laid _ _ Hrep)) as (_ & _ & _ & _ & _ & _ & _ & Hoff & _ & Hsp & Hsp2 & _).
      unfold block_size, MIN_SIZE_ALIGNED in *. destruct (decide (RT_ALIGN n RT_ALIGN_SIZE < 12)); lia.
    + rewrite decide_False in Hspec by tauto. by apply Hnone.
  - intros bs1 m bs2 k rest h' c p bs' -> Hspec _ _ _ _ _ _ Hf _ _ _. split; [intros Hp; by destruct Hf as (_ & ? & _)|].
    unfold malloc_spec in Hspec. case_decide as Hno; [done|]. intros [Hn0|Hall]; [tauto|].
    apply Hnone in Hall. congruence.
Qed.

(** The last three sizes. RT_ALIGN wraps to 0 for them, so [rt_malloc] goes on to
    look for the smallest block: a request for nearly four gigabytes is met, when any
    request is, with a block of at most thirty-two bytes. *)
Theorem malloc_size_wraps h bs n :
  heap_rep h bs → 4294967292 < n < 4294967296 →
  wp (rt_malloc n) (λ p h',
    p = RT_NULL ∨ ∃ bs' c, heap_rep h' bs' ∧ blocks h' bs' !! p = Some c ∧ zlen c ≤ 32) h.
Proof.
  intros Hrep Hn. destruct (geo_size _ _ _ _ (rep_geometry _ _ Hrep)) as [Hm _].
  assert (rt_malloc n h = rt_malloc 12 h) as Heq.
  { unfold rt_malloc. rewrite !decide_False by lia.
    rewrite (RT_ALIGN_eq n), (RT_ALIGN_eq 12) by (unfold is_u32; lia).
    rewrite (decide_False (P := n ≤ 4294967292)), (decide_True (P := 12 ≤ 4294967292)) by lia.
    unfold mbind, prog_bind, gets. cbn -[malloc_loop rt_sem_take].
    change ((12 + 3) / 4 * 4) with 12.
    rewrite (decide_False (P := 12 = 0)), (decide_False (P := 0 > _)), (decide_False (P := 12 > _)) by lia. reflexivity. }
  unfold wp. rewrite Heq. fold (wp (rt_malloc 12) (λ p h', p = RT_NULL ∨ ∃ bs' c, heap_rep h' bs' ∧
    blocks h' bs' !! p = Some c ∧ zlen c ≤ 32) h).
  apply (malloc_cut_ok h bs 12); [done|unfold size_ok; lia|by left|].
  intros bs1 m bs2 k rest h' c p bs' -> _ Hsp Hrest Hk Hrep' _ _ Hf Hc _ Hb. right. exists bs', c.
  split; [done|]. rewrite Hb. split; [apply lookup_insert_eq|]. change (block_size 12) with 12 in Hk.
  pose proof (laid_ok _ _ _ _ _ _ (rep_laid _ _ Hrep')) as [_ Hok']%Forall_app. inversion_clear Hok' as [|?? [_ Hk4] _].
  cbn in Hk4. lia.
Qed.

(** *** Witnesses *)

Definition started : heap :=
  match rt_system_heap_init 0x20000002 0x20000190 sample_heap with Ok (_, h) => h | Fault _ => sample_heap end.

Lemma started_rep : heap_rep started [mk_block false 372].
Proof.
  assert (mem_size_aligned started = 372) as Hm by (vm_compute; reflexivity).
  assert (wp (rt_system_heap_init 0x20000002 0x20000190) (λ _ h', heap_rep h' [mk_block false (mem_size_aligned h')]) sample_heap) as Hw
    by (apply (heap_ready sample_heap _ _ _ sample_area); by intros h' n Hrep -> _ _).
  destruct (proj1 (wp_ok _ _ _) Hw) as (u & h & Hrun & Hrep).
  assert (started = h) as Hst by (unfold started; by rewrite Hrun). rewrite <- Hst, Hm in Hrep. exact Hrep.
Qed.

Definition result {S A} (o : outcome (A * S)) : option A := match o with Ok (a, _) => Some a | Fault _ => None end.

Lemma malloc_free_restores_witness :
  ∃ h1 h2, rt_malloc 100 started = Ok (0x20000010, h1) ∧ rt_free 0x20000010 h1 = Ok (tt, h2) ∧
    heap_rep h2 [mk_block false 372].
Proof.
  pose proof (malloc_free_restores started _ 100 started_rep ltac:(unfold size_ok; lia)) as Hw.
  destruct (proj1 (wp_ok _ _ _) Hw) as (p & h1 & Hrun & Hp).
  assert (result (rt_malloc 100 started) = Some 0x20000010) as Hr by (vm_compute; reflexivity).
  rewrite Hrun in Hr. injection Hr as ->. destruct Hp as [[Hp _]|(_ & bs1 & Hrep1 & _ & Hfree)]; [discriminate Hp|].
  pose proof (Hfree h1 Hrep1 eq_refl) as Hw2. destruct (proj1 (wp_ok _ _ _) Hw2) as ([] & h2 & Hrun2 & Hrep2 & _).
  exists h1, h2. split; [exact Hrun|]. split; [exact Hrun2|exact Hrep2].
Defined.

(** A fresh heap of 372 bytes refuses 372 bytes, its one free block notwithstanding. *)
Lemma malloc_null_exactly_witness :
  ∃ h1, rt_malloc 372 started = Ok (RT_NULL, h1) ∧
    ∀ bs1 k bs2, [mk_block false 372] = bs1 ++ k :: bs2 → b_used k = false → block_size 372 ≤ b_size k →
      mem_size_aligned started - block_size 372 ≤ span bs1.
Proof.
  pose proof (malloc_null_exactly started _ 372 started_rep ltac:(unfold size_ok; lia)) as Hw.
  destruct (proj1 (wp_ok _ _ _) Hw) as (p & h1 & Hrun & Hp).
  assert (result (rt_malloc 372 started) = Some RT_NULL) as Hr by (vm_compute; reflexivity).
  rewrite Hrun in Hr. injection Hr as ->. exists h1. split; [exact Hrun|].
  destruct (proj1 Hp eq_refl) as [H0|Hall]; [discriminate H0|]. exact Hall.
Defined.

Lemma malloc_size_wraps_witness :
  ∃ h1 bs' c, rt_malloc 0xFFFFFFFF started = Ok (0x20000010, h1) ∧ blocks h1 bs' !! 0x20000010 = Some c ∧ zlen c ≤ 32.
Proof.
  pose proof (malloc_size_wraps started _ 0xFFFFFFFF started_rep ltac:(lia)) as Hw.
  destruct (proj1 (wp_ok _ _ _) Hw) as (p & h1 & Hrun & Hp).
  assert (result (rt_malloc 0xFFFFFFFF started) = Some 0x20000010) as Hr by (vm_compute; reflexivity).
  rewrite Hrun in Hr. injection Hr as ->. destruct Hp as [Hp|(bs' & c & _ & Hb & Hc)]; [discriminate Hp|].
  exists h1, bs', c. split; [exact Hrun|]. split; [exact Hb|exact Hc].
Defined.
