(* ===== verification/Buffers.v ===== *)
(** Blocks of the heap as the firmware's C code uses them: allocated, filled as an array of
    bytes of their own, and given back. *)
From stdpp Require Import list_numbers gmap.
From S2P Require Import Prelude Mem MemLayout MemHeap.

(** ** Blocks as C objects *)

(** A client that works on a block of its own, as a list of the bytes behind the pointer
    up to the next header, and gives it back. *)
Definition alloc_block (n : Z) : prog heap (option (Z * list Z)) :=
  p ← rt_malloc n;
  if decide (p = RT_NULL) then mret None
  else
    hp ← gets heap_ptr;
    next ← mem_next (p - SIZEOF_STRUCT_MEM);
    b ← reads (λ h, load_bytes (ram h) (p - ram_base h) (hp + next - p));
    mret (Some (p, b)).
Definition free_block (p : Z) (b : list Z) : prog heap unit :=
  l ← reads (λ h, store_bytes (ram h) (p - ram_base h) b);
  modify (λ h, h <| ram := l |>);;
  rt_free p.

(** Where the heap lies and how it is divided. *)
Record heap_shape := mk_shape { sh_ptr : Z; sh_size : Z; sh_blocks : list block }.
Record heap_is (h : heap) (sh : heap_shape) : Prop := {
  is_ptr : heap_ptr h = sh_ptr sh;
  is_size : mem_size_aligned h = sh_size sh;
  is_rep : heap_rep h (sh_blocks sh);
}.

(** A block on loan: [p] points to at least [n] bytes, the heap has the shape [sh'] as long
    as the loan lasts, and giving the block back, whatever is in it by then, restores the
    shape [sh]. *)
Record lent (sh : heap_shape) (n p : Z) (b : list Z) (sh' : heap_shape) : Prop := {
  lent_size : block_size n ≤ zlen b;
  lent_u8 : Forall is_u8 b;
  lent_back h b' : heap_is h sh' → zlen b' = zlen b → Forall is_u8 b' →
    wp (free_block p b') (λ _ h', heap_is h' sh) h;
}.

(** ** Borrowing and giving back *)

Definition same_place (h h' : heap) : Prop :=
  heap_ptr h' = heap_ptr h ∧ mem_size_aligned h' = mem_size_aligned h.

Lemma free_block_ok h bs1 k bs2 b (Q : unit → heap → Prop) :
  let bs := bs1 ++ mk_block true k :: bs2 in let bs' := coalesce (bs1 ++ mk_block false k :: bs2) in
  heap_rep h bs → zlen b = k → Forall is_u8 b →
  (∀ h', heap_rep h' bs' → same_place h h' → Q tt h') →
  wp (free_block (heap_ptr h + span bs1 + SIZEOF_STRUCT_MEM) b) Q h.
Proof.
  intros bs bs' Hrep Hz Hu HQ. destruct (rep_elim h bs Hrep) as (hp & msa & rb & mm & l & Hg & Hl & Ha & ->).
  cbn [heap_ptr] in *. set (p := hp + span bs1 + SIZEOF_STRUCT_MEM).
  destruct (contents_use hp rb l l bs1 k bs2 (laid_ok _ _ _ _ _ _ Hl) (same_data_refl _ _ _ _ _)) as [Hc _].
  fold p in Hc. set (c := bytes_at l (p - rb) k) in *.
  assert (zlen c = k) as Hzc by (unfold c; apply zlen_bytes_at; unfold zlen in Hz; lia).
  destruct (data_write _ bs p c 0 b Hrep) as (l' & Hst & Hrep' & _); [|done|lia|done|].
  { unfold blocks. cbn [heap_ptr ram_base ram]. fold bs in Hc. rewrite Hc. apply lookup_insert_eq. }
  rewrite Z.add_0_r in Hst. unfold free_block. rewrite wp_bind, wp_reads, Hst. cbn [owp].
  rewrite wp_bind, wp_modify. unfold upd in *. cbn in *.
  destruct (rep_elim _ bs Hrep') as (? & ? & ? & ? & ? & Hg' & Hl' & Ha' & [= <- _ _ <- _ <- <-]).
  apply (rt_free_ok hp msa rb (zlen l')); [done..|]. intros l2 Hl2 Ha2 _. apply HQ; [by eapply rep_intro|done].
Qed.

Lemma alloc_block_ok h sh n (Q : option (Z * list Z) → heap → Prop) :
  heap_is h sh → size_ok n →
  (malloc_spec (sh_size sh) n (sh_blocks sh) = None → Q None h) →
  (∀ p b h' off bs', let sh' := mk_shape (sh_ptr sh) (sh_size sh) bs' in
     malloc_spec (sh_size sh) n (sh_blocks sh) = Some (off, bs') →
     lent sh n p b sh' → heap_is h' sh' → Q (Some (p, b)) h') →
  wp (alloc_block n) Q h.
Proof.
  destruct sh as [hp0 msa0 bs]. intros [Hp0 Hm0 Hrep] Hn Hnull HQ. cbn [sh_ptr sh_size sh_blocks] in *. subst hp0 msa0. unfold alloc_block. rewrite wp_bind. apply (malloc_cut_ok h bs n); [done..| |].
  { intros Hs. rewrite decide_True by done. by apply Hnull. }
  intros bs1 m bs2 k rest h' c p bs' -> Hspec Hsp Hrest Hk Hrep' Hhp Hmsa Hf Hc _ Hb.
  rewrite decide_False by apply Hf.
  destruct (data_read h' bs' p c 0 k Hrep') as (ws & Hws & Hz & Hu & _); [|lia| |lia|].
  { rewrite Hb. apply lookup_insert_eq. }
  { pose proof (zlen c). unfold zlen in Hc. lia. }
  destruct (rep_elim h' bs' Hrep') as (hp & msa & rb & mm & l & Hg & Hl & Ha & ->).
  cbn [heap_ptr mem_size_aligned ram ram_base] in *.
  destruct (laid_middle _ _ _ _ _ _ _ _ Hl) as (_ & Hh & _ & _ & _ & [Hk4 _] & _ & Hoff & _ & Hsp' & Hsp2 & _ & _ & _).
  cbn [b_used b_size] in *. pose proof (geo_ram _ _ _ _ Hg) as (Hr & Hr1 & _).
  assert (p = hp + span bs1 + SIZEOF_STRUCT_MEM) as Ep by (unfold p; lia).
  apply wp_gets_bind. cbn [heap_ptr]. replace (p - SIZEOF_STRUCT_MEM) with (hp + span bs1) by lia.
  unfold SIZEOF_STRUCT_MEM in *. eapply (wp_next hp msa rb (zlen l)); [done|done|lia|exact Hh|].
  replace (hp + (span bs1 + 12 + k) - p) with k by lia. rewrite Z.add_0_r in Hws.
  rewrite wp_bind, wp_reads. cbn [ram ram_base]. rewrite Hws. cbn [owp]. rewrite wp_ret.
  eapply HQ; [exact Hspec| |by split]. split; [lia|done|].
  intros h2 b2 [Hp2 Hm2 Hrep2] Hz2 Hu2. cbn [sh_ptr sh_size sh_blocks] in *. rewrite Ep.
  replace hp with (heap_ptr h2) by congruence.
  apply (free_block_ok h2 bs1 k (rest ++ bs2)); [done|lia|done|].
  rewrite (uncut_blocks bs1 m k rest bs2) by (done || apply Hrep). intros h3 Hrep3 [Hp3 Hm3].
  split; cbn; congruence || done.
Qed.

(** Enough room for a series of requests: one free block that can be cut for each. *)
Definition room (bs : list block) (k : Z) : Prop :=
  ∃ bs1 m bs2, bs = bs1 ++ mk_block false m :: bs2 ∧ k ≤ m.

Lemma room_alloc h bs n k :
  heap_rep h bs → size_ok n → 0 < n → room bs (block_size n + SIZEOF_STRUCT_MEM + k) → 12 ≤ k →
  ∃ off bs', malloc_spec (mem_size_aligned h) n bs = Some (off, bs') ∧ room bs' k.
Proof.
  intros Hrep Hn Hn0 (bs1 & m & bs2 & -> & Hm) Hk. unfold size_ok in Hn.
  destruct (laid_middle _ _ _ _ _ _ _ _ (rep_laid _ _ Hrep)) as (_ & _ & _ & _ & Hok1 & _ & _ & Hoff & _ & Hsp & Hsp2 & _).
  cbn [b_size] in Hsp. pose proof (RT_ALIGN_eq n ltac:(unfold is_u32; lia)) as Hal. rewrite decide_True in Hal by lia.
  assert (RT_ALIGN n RT_ALIGN_SIZE ≤ block_size n ∧ 12 ≤ block_size n) as Hbs
    by (unfold block_size, MIN_SIZE_ALIGNED; case_decide; lia).
  pose proof (laid_ok _ _ _ _ _ _ (rep_laid _ _ Hrep)) as Hok. unfold SIZEOF_STRUCT_MEM in *.
  destruct (malloc_spec (mem_size_aligned h) n (bs1 ++ mk_block false m :: bs2)) as [[off bs']|] eqn:Hspec.
  2: { exfalso. unfold malloc_spec in Hspec. rewrite decide_False in Hspec by lia.
       pose proof (proj1 (alloc_none _ _ 0 _ Hok) Hspec bs1 _ bs2 eq_refl eq_refl) as Hlim. cbn in Hlim. lia. }
  exists off, bs'. split; [done|].
  destruct (malloc_spec_inv (mem_size_aligned h) n _ _ _ ltac:(unfold is_u32; lia) ltac:(lia) Hspec) as (_ & bsa & m' & bsb & Heq & _ & Hm' & _ & ->).
  (* the block found is this one or another *)
  assert (∀ pre post, room (pre ++ carve (block_size n) m ++ post) k) as Hroom.
  { intros pre post. exists (pre ++ [mk_block true (block_size n)]), (m - block_size n - SIZEOF_STRUCT_MEM), post.
    unfold carve, SIZEOF_STRUCT_MEM, MIN_SIZE_ALIGNED. rewrite decide_True by lia. rewrite <- !app_assoc. split; [done|lia]. }
  destruct (app_eq_app _ _ _ _ Heq) as (bsm & [[-> Hb]|[-> Hb]]); destruct bsm as [|k0 bsm]; cbn [app] in Hb.
  - injection Hb as <- <-. apply Hroom.
  - injection Hb as <- ->. exists (bsa ++ carve (block_size n) m' ++ bsm), m, bs2. rewrite <- !app_assoc. split; [done|lia].
  - injection Hb as <- <-. apply Hroom.
  - injection Hb as <- ->. exists bs1, m, (bsm ++ carve (block_size n) m' ++ bsb). rewrite <- !app_assoc. split; [done|lia].
Qed.

Lemma alloc_block_room h sh n k (Q : option (Z * list Z) → heap → Prop) :
  heap_is h sh → size_ok n → 0 < n → room (sh_blocks sh) (block_size n + SIZEOF_STRUCT_MEM + k) → 12 ≤ k →
  (∀ p b h' sh', lent sh n p b sh' → heap_is h' sh' → room (sh_blocks sh') k → Q (Some (p, b)) h') →
  wp (alloc_block n) Q h.
Proof.
  intros Hh Hn Hn0 Hroom Hk HQ. pose proof (room_alloc h _ n k (is_rep _ _ Hh) Hn Hn0 Hroom Hk) as (off & bs & Hs & Hr).
  rewrite (is_size _ _ Hh) in Hs. apply (alloc_block_ok h sh n); [done..|by rewrite Hs|].
  intros p b h' off' bs' sh' Hs'. rewrite Hs in Hs'. injection Hs' as <- <-. intros Hlent Hh'. by eapply HQ.
Qed.

Lemma room_le bs k k' : room bs k → k' ≤ k → room bs k'.
Proof. intros (bs1 & m & bs2 & -> & Hm) Hk. exists bs1, m, bs2. split; [done|lia]. Qed.
