(* ===== verification/Crc.v ===== *)
(** The checksums of the firmware: the Modbus CRC-16 and the exclusive-or check
    of main.c, the table-driven CRC-32 of crc_32.c. *)
From S2P Require Import Prelude.

(** ** Modbus CRC-16 (main.c, [usModbusRTU_CRC]) *)

Definition crc16_step (usCRC : Z) : Z :=
  if decide (Z.land usCRC 1 ≠ 0)
  then Z.lxor (Z.shiftr usCRC 1) 0xA001
  else Z.shiftr usCRC 1.

(** [while (ucIndex < 8U)] with [n] rounds left. *)
Definition crc16_rounds (n : nat) (usCRC : Z) : Z := Nat.iter n crc16_step usCRC.

(** The outer loop: [ulLen] bytes from offset [p] of the array [pucData]. *)
Fixpoint crc16_loop (pucData : list Z) (p : Z) (ulLen : nat) (usCRC : Z) : outcome Z :=
  match ulLen with
  | O => Ok usCRC
  | S ulLen =>
      b ← load pucData p;
      crc16_loop pucData (p + 1) ulLen (crc16_rounds 8 (Z.lxor usCRC b))
  end.

Definition usModbusRTU_CRC (pucData : list Z) (ulLen : Z) : outcome Z :=
  crc16_loop pucData 0 (Z.to_nat ulLen) 0xFFFF.

(** ** Exclusive-or check (main.c, [checkResult]) *)

Fixpoint checkResult_loop (data : list Z) (index : Z) (n : nat) (crc : Z) : outcome Z :=
  match n with
  | O => Ok (Z.land crc 0xff)
  | S n => b ← load data index; checkResult_loop data (index + 1) n (Z.lxor crc b)
  end.
Definition checkResult (data : list Z) (len : Z) : outcome Z :=
  checkResult_loop data 0 (Z.to_nat len) 0.

(** ** CRC-32 (crc_32.c) *)

Definition CRC32_INIT_VAL : Z := 0xFFFFFFFF.

Definition crc32_table : list Z :=
  [
    0x00000000; 0x77073096; 0xEE0E612C; 0x990951BA; 0x076DC419; 0x706AF48F; 0xE963A535; 0x9E6495A3;
    0x0EDB8832; 0x79DCB8A4; 0xE0D5E91E; 0x97D2D988; 0x09B64C2B; 0x7EB17CBD; 0xE7B82D07; 0x90BF1D91;
    0x1DB71064; 0x6AB020F2; 0xF3B97148; 0x84BE41DE; 0x1ADAD47D; 0x6DDDE4EB; 0xF4D4B551; 0x83D385C7;
    0x136C9856; 0x646BA8C0; 0xFD62F97A; 0x8A65C9EC; 0x14015C4F; 0x63066CD9; 0xFA0F3D63; 0x8D080DF5;
    0x3B6E20C8; 0x4C69105E; 0xD56041E4; 0xA2677172; 0x3C03E4D1; 0x4B04D447; 0xD20D85FD; 0xA50AB56B;
    0x35B5A8FA; 0x42B2986C; 0xDBBBC9D6; 0xACBCF940; 0x32D86CE3; 0x45DF5C75; 0xDCD60DCF; 0xABD13D59;
    0x26D930AC; 0x51DE003A; 0xC8D75180; 0xBFD06116; 0x21B4F4B5; 0x56B3C423; 0xCFBA9599; 0xB8BDA50F;
    0x2802B89E; 0x5F058808; 0xC60CD9B2; 0xB10BE924; 0x2F6F7C87; 0x58684C11; 0xC1611DAB; 0xB6662D3D;
    0x76DC4190; 0x01DB7106; 0x98D220BC; 0xEFD5102A; 0x71B18589; 0x06B6B51F; 0x9FBFE4A5; 0xE8B8D433;
    0x7807C9A2; 0x0F00F934; 0x9609A88E; 0xE10E9818; 0x7F6A0DBB; 0x086D3D2D; 0x91646C97; 0xE6635C01;
    0x6B6B51F4; 0x1C6C6162; 0x856530D8; 0xF262004E; 0x6C0695ED; 0x1B01A57B; 0x8208F4C1; 0xF50FC457;
    0x65B0D9C6; 0x12B7E950; 0x8BBEB8EA; 0xFCB9887C; 0x62DD1DDF; 0x15DA2D49; 0x8CD37CF3; 0xFBD44C65;
    0x4DB26158; 0x3AB551CE; 0xA3BC0074; 0xD4BB30E2; 0x4ADFA541; 0x3DD895D7; 0xA4D1C46D; 0xD3D6F4FB;
    0x4369E96A; 0x346ED9FC; 0xAD678846; 0xDA60B8D0; 0x44042D73; 0x33031DE5; 0xAA0A4C5F; 0xDD0D7CC9;
    0x5005713C; 0x270241AA; 0xBE0B1010; 0xC90C2086; 0x5768B525; 0x206F85B3; 0xB966D409; 0xCE61E49F;
    0x5EDEF90E; 0x29D9C998; 0xB0D09822; 0xC7D7A8B4; 0x59B33D17; 0x2EB40D81; 0xB7BD5C3B; 0xC0BA6CAD;
    0xEDB88320; 0x9ABFB3B6; 0x03B6E20C; 0x74B1D29A; 0xEAD54739; 0x9DD277AF; 0x04DB2615; 0x73DC1683;
    0xE3630B12; 0x94643B84; 0x0D6D6A3E; 0x7A6A5AA8; 0xE40ECF0B; 0x9309FF9D; 0x0A00AE27; 0x7D079EB1;
    0xF00F9344; 0x8708A3D2; 0x1E01F268; 0x6906C2FE; 0xF762575D; 0x806567CB; 0x196C3671; 0x6E6B06E7;
    0xFED41B76; 0x89D32BE0; 0x10DA7A5A; 0x67DD4ACC; 0xF9B9DF6F; 0x8EBEEFF9; 0x17B7BE43; 0x60B08ED5;
    0xD6D6A3E8; 0xA1D1937E; 0x38D8C2C4; 0x4FDFF252; 0xD1BB67F1; 0xA6BC5767; 0x3FB506DD; 0x48B2364B;
    0xD80D2BDA; 0xAF0A1B4C; 0x36034AF6; 0x41047A60; 0xDF60EFC3; 0xA867DF55; 0x316E8EEF; 0x4669BE79;
    0xCB61B38C; 0xBC66831A; 0x256FD2A0; 0x5268E236; 0xCC0C7795; 0xBB0B4703; 0x220216B9; 0x5505262F;
    0xC5BA3BBE; 0xB2BD0B28; 0x2BB45A92; 0x5CB36A04; 0xC2D7FFA7; 0xB5D0CF31; 0x2CD99E8B; 0x5BDEAE1D;
    0x9B64C2B0; 0xEC63F226; 0x756AA39C; 0x026D930A; 0x9C0906A9; 0xEB0E363F; 0x72076785; 0x05005713;
    0x95BF4A82; 0xE2B87A14; 0x7BB12BAE; 0x0CB61B38; 0x92D28E9B; 0xE5D5BE0D; 0x7CDCEFB7; 0x0BDBDF21;
    0x86D3D2D4; 0xF1D4E242; 0x68DDB3F8; 0x1FDA836E; 0x81BE16CD; 0xF6B9265B; 0x6FB077E1; 0x18B74777;
    0x88085AE6; 0xFF0F6A70; 0x66063BCA; 0x11010B5C; 0x8F659EFF; 0xF862AE69; 0x616BFFD3; 0x166CCF45;
    0xA00AE278; 0xD70DD2EE; 0x4E048354; 0x3903B3C2; 0xA7672661; 0xD06016F7; 0x4969474D; 0x3E6E77DB;
    0xAED16A4A; 0xD9D65ADC; 0x40DF0B66; 0x37D83BF0; 0xA9BCAE53; 0xDEBB9EC5; 0x47B2CF7F; 0x30B5FFE9;
    0xBDBDF21C; 0xCABAC28A; 0x53B39330; 0x24B4A3A6; 0xBAD03605; 0xCDD70693; 0x54DE5729; 0x23D967BF;
    0xB3667A2E; 0xC4614AB8; 0x5D681B02; 0x2A6F2B94; 0xB40BBE37; 0xC30C8EA1; 0x5A05DF1B; 0x2D02EF8D ].

Fixpoint crc32_cyc_loop (pdata : list Z) (i : Z) (len : nat) (crc32 : Z) : outcome Z :=
  match len with
  | O => Ok crc32
  | S len =>
      b ← load pdata i;
      t ← load crc32_table (Z.lxor (u8 crc32) b);
      crc32_cyc_loop pdata (i + 1) len (Z.lxor (Z.shiftr crc32 8) t)
  end.

Definition crc32_cyc_cal (init_val : Z) (pdata : list Z) (len : Z) : outcome Z :=
  crc32_cyc_loop pdata 0 (Z.to_nat len) init_val.

Definition crc32_cal (pdata : list Z) (len : Z) : outcome Z :=
  crc32 ← crc32_cyc_cal CRC32_INIT_VAL pdata len;
  mret (Z.lxor crc32 CRC32_INIT_VAL).

(** ** Reference definitions *)

(** One step of the reflected shift register with feedback polynomial [poly]. *)
Definition lfsr_step (poly x : Z) : Z :=
  Z.lxor (Z.div2 x) (if Z.odd x then poly else 0).
Definition lfsr_byte (poly crc b : Z) : Z := Nat.iter 8 (lfsr_step poly) (Z.lxor crc b).
(** The CRC of a byte string, one register step per message bit. *)
Definition lfsr_crc (poly init : Z) (bs : list Z) : Z := foldl (lfsr_byte poly) init bs.

Definition POLY16 : Z := 0xA001.
Definition POLY32 : Z := 0xEDB88320.

Definition crc16 (bs : list Z) : Z := lfsr_crc POLY16 0xFFFF bs.
Definition crc32 (bs : list Z) : Z :=
  Z.lxor (lfsr_crc POLY32 CRC32_INIT_VAL bs) CRC32_INIT_VAL.
Definition xor_sum (bs : list Z) : Z := foldl Z.lxor 0 bs.

(** ** The shift register *)

Section lfsr.
Context (poly : Z) (p : Z) (Hp : 0 ≤ p).
Hypothesis Hpoly : 2 ^ p ≤ poly < 2 ^ (p + 1).

Lemma lfsr_step_range x : 0 ≤ x < 2 ^ (p + 1) → 0 ≤ lfsr_step poly x < 2 ^ (p + 1).
Proof using Hp Hpoly.
  intros Hx. unfold lfsr_step. apply lxor_range; [lia| |].
  - rewrite Z.div2_div. lia.
  - destruct (Z.odd x); lia.
Qed.

Lemma lfsr_iter_range n x :
  0 ≤ x < 2 ^ (p + 1) → 0 ≤ Nat.iter n (lfsr_step poly) x < 2 ^ (p + 1).
Proof using Hp Hpoly.
  intros Hx. induction n as [|n IH]; cbn; [done|]. by apply lfsr_step_range.
Qed.

(** The top bit of the result tells the bit shifted out, so a step loses nothing. *)
Lemma lfsr_step_top x : 0 ≤ x < 2 ^ (p + 1) → Z.testbit (lfsr_step poly x) p = Z.odd x.
Proof using Hp Hpoly.
  intros Hx. unfold lfsr_step. rewrite Z.lxor_spec.
  rewrite (testbit_above (Z.div2 x) p p), xorb_false_l; [|..|lia].
  - destruct (Z.odd x); [|apply Z.bits_0].
    rewrite Z.testbit_true by lia. rewrite Z.pow_add_r in Hpoly by lia.
    replace (poly / 2 ^ p) with 1 by (apply Z.div_unique with (poly - 2 ^ p); lia).
    done.
  - rewrite Z.div2_div, Z.pow_add_r in * by lia. change (2 ^ 1) with 2 in Hx. lia.
Qed.

Lemma lfsr_step_inj x y :
  0 ≤ x < 2 ^ (p + 1) → 0 ≤ y < 2 ^ (p + 1) →
  lfsr_step poly x = lfsr_step poly y → x = y.
Proof using Hp Hpoly.
  intros Hx Hy Heq. assert (Z.odd x = Z.odd y) as Hodd
    by (rewrite <- !lfsr_step_top by done; by rewrite Heq).
  unfold lfsr_step in Heq. rewrite Hodd in Heq.
  assert (Z.div2 x = Z.div2 y) as Hdiv.
  { apply (f_equal (λ z, Z.lxor z (if Z.odd y then poly else 0))) in Heq.
    by rewrite !Z.lxor_assoc, !Z.lxor_nilpotent, !Z.lxor_0_r in Heq. }
  by rewrite (Z.div2_odd x), (Z.div2_odd y), Hodd, Hdiv.
Qed.

Lemma lfsr_iter_inj n x y :
  0 ≤ x < 2 ^ (p + 1) → 0 ≤ y < 2 ^ (p + 1) →
  Nat.iter n (lfsr_step poly) x = Nat.iter n (lfsr_step poly) y → x = y.
Proof using Hp Hpoly.
  intros Hx Hy. induction n as [|n IH]; cbn; [done|]. intros Heq. apply IH.
  apply lfsr_step_inj in Heq; [done|..]; by apply lfsr_iter_range.
Qed.

End lfsr.

Lemma lfsr_step_lxor poly x y :
  lfsr_step poly (Z.lxor x y) = Z.lxor (lfsr_step poly x) (lfsr_step poly y).
Proof.
  unfold lfsr_step. rewrite <- !Z.bit0_odd, Z.lxor_spec.
  apply Z.bits_inj'. intros n Hn. rewrite !Z.lxor_spec, !Z.div2_spec, !Z.shiftr_spec, Z.lxor_spec by done.
  destruct (Z.testbit x 0), (Z.testbit y 0); cbn [xorb]; rewrite ?Z.bits_0;
    destruct (Z.testbit x (n + 1)), (Z.testbit y (n + 1)), (Z.testbit poly n); done.
Qed.

Lemma lfsr_iter_lxor poly n x y :
  Nat.iter n (lfsr_step poly) (Z.lxor x y) =
  Z.lxor (Nat.iter n (lfsr_step poly) x) (Nat.iter n (lfsr_step poly) y).
Proof. induction n as [|n IH]; [done|]. by rewrite !Nat.iter_succ, IH, lfsr_step_lxor. Qed.

(** Zeros shifted out leave no feedback. *)
Lemma lfsr_iter_shiftl poly n z :
  Nat.iter n (lfsr_step poly) (Z.shiftl z (Z.of_nat n)) = z.
Proof.
  revert z. induction n as [|n IH]; intros z; [apply Z.shiftl_0_r|].
  rewrite Nat.iter_succ_r. rewrite <- (IH z) at 2. f_equal.
  replace (Z.of_nat (S n)) with (Z.of_nat n + 1) by lia.
  rewrite <- Z.shiftl_shiftl by lia. rewrite (Z.shiftl_mul_pow2 _ 1) by lia.
  unfold lfsr_step. rewrite Z.div2_div, Z.div_mul by lia.
  rewrite Z.odd_mul, andb_false_r. apply Z.lxor_0_r.
Qed.

Lemma byte_split x : x = Z.lxor (Z.shiftl (Z.shiftr x 8) 8) (u8 x).
Proof.
  rewrite Z.lxor_comm, lxor_byte by apply u8_range. rewrite shiftr8_div. unfold u8. lia.
Qed.

(** A byte step as one table look-up. *)
Lemma lfsr_byte_table poly crc b :
  lfsr_byte poly crc b =
  Z.lxor (Z.shiftr crc 8) (Nat.iter 8 (lfsr_step poly) (Z.lxor (u8 crc) b)).
Proof.
  unfold lfsr_byte. rewrite (byte_split crc) at 1. rewrite Z.lxor_assoc, lfsr_iter_lxor.
  f_equal. apply (lfsr_iter_shiftl poly 8).
Qed.

(** ** CRC-16 *)

Lemma crc16_step_lfsr x : crc16_step x = lfsr_step POLY16 x.
Proof.
  unfold crc16_step, lfsr_step. rewrite <- Z.div2_spec.
  change 1 with (Z.ones 1). rewrite Z.land_ones, Z.pow_1_r, Zmod_odd by lia.
  destruct (Z.odd x); case_decide; done || by rewrite Z.lxor_0_r.
Qed.

Lemma crc16_rounds_lfsr n x : crc16_rounds n x = Nat.iter n (lfsr_step POLY16) x.
Proof.
  unfold crc16_rounds. induction n as [|n IH]; [done|].
  by rewrite !Nat.iter_succ, IH, crc16_step_lfsr.
Qed.

Lemma crc16_rounds_byte crc b : crc16_rounds 8 (Z.lxor crc b) = lfsr_byte POLY16 crc b.
Proof. apply crc16_rounds_lfsr. Qed.

Lemma poly16_bounds : 2 ^ 15 ≤ POLY16 < 2 ^ (15 + 1).
Proof. done. Qed.

Lemma lfsr16_range crc b : is_u16 crc → is_u8 b → is_u16 (lfsr_byte POLY16 crc b).
Proof.
  intros Hc Hb. apply (lfsr_iter_range POLY16 15 ltac:(lia) poly16_bounds).
  apply lxor_u16; [done|]. unfold is_u8, is_u16 in *. lia.
Qed.

Lemma lfsr16_crc_range init bs :
  is_u16 init → Forall is_u8 bs → is_u16 (lfsr_crc POLY16 init bs).
Proof.
  intros Hi Hbs. revert init Hi. induction Hbs as [|b bs Hb Hbs IH]; intros; [done|].
  apply IH. by apply lfsr16_range.
Qed.

Lemma crc16_range bs : Forall is_u8 bs → is_u16 (crc16 bs).
Proof. by apply lfsr16_crc_range. Qed.

Lemma lfsr16_byte_inj c c' b b' :
  is_u16 c → is_u16 c' → is_u8 b → is_u8 b' →
  lfsr_byte POLY16 c b = lfsr_byte POLY16 c' b' → Z.lxor c b = Z.lxor c' b'.
Proof.
  intros Hc Hc' Hb Hb'. apply (lfsr_iter_inj POLY16 15 ltac:(lia) poly16_bounds);
    (apply lxor_u16; [done|unfold is_u8, is_u16 in *; lia]).
Qed.

Lemma lxor_cancel_r x y z : Z.lxor x z = Z.lxor y z → x = y.
Proof.
  intros H. apply (f_equal (λ w, Z.lxor w z)) in H.
  by rewrite !Z.lxor_assoc, !Z.lxor_nilpotent, !Z.lxor_0_r in H.
Qed.

Lemma lxor_cancel_l x y z : Z.lxor z x = Z.lxor z y → x = y.
Proof. rewrite !(Z.lxor_comm z). apply lxor_cancel_r. Qed.

(** Two register states never meet again on the same input. *)
Lemma lfsr16_crc_inj c c' bs :
  is_u16 c → is_u16 c' → Forall is_u8 bs →
  lfsr_crc POLY16 c bs = lfsr_crc POLY16 c' bs → c = c'.
Proof.
  intros Hc Hc' Hbs. revert c c' Hc Hc'.
  induction Hbs as [|b bs Hb Hbs IH]; intros c c' Hc Hc' Heq; [done|].
  apply IH in Heq; [|by apply lfsr16_range..].
  apply lfsr16_byte_inj in Heq; [|done..]. by apply (lxor_cancel_r _ _ b) in Heq.
Qed.

Lemma lfsr_crc_app poly init bs1 bs2 :
  lfsr_crc poly init (bs1 ++ bs2) = lfsr_crc poly (lfsr_crc poly init bs1) bs2.
Proof. apply foldl_app. Qed.

Lemma take_drop_S {A} (l : list A) p n b :
  l !! p = Some b → take (S n) (drop p l) = b :: take n (drop (S p) l).
Proof. intros Hl. by rewrite (drop_S l b p Hl). Qed.

Lemma crc16_loop_ok data p n crc :
  0 ≤ p → p + Z.of_nat n ≤ zlen data →
  crc16_loop data p n crc = Ok (lfsr_crc POLY16 crc (take n (drop (Z.to_nat p) data))).
Proof.
  revert p crc. induction n as [|n IH]; intros p crc Hp Hn; cbn [crc16_loop]; [done|].
  destruct (load_in data p) as (b & -> & Hb); [lia|].
  cbn [mbind outcome_bind]. rewrite IH, (take_drop_S _ _ _ b Hb) by lia.
  replace (Z.to_nat (p + 1)) with (S (Z.to_nat p)) by lia.
  by rewrite crc16_rounds_byte.
Qed.

Lemma usModbusRTU_CRC_ok data n :
  0 ≤ n ≤ zlen data → usModbusRTU_CRC data n = Ok (crc16 (take (Z.to_nat n) data)).
Proof. intros Hn. unfold usModbusRTU_CRC. by rewrite crc16_loop_ok by lia. Qed.

Lemma crc16_app_residue bs : Forall is_u8 bs → crc16 (bs ++ le_bytes 2 (crc16 bs)) = 0.
Proof.
  intros Hbs. unfold crc16 at 1. rewrite lfsr_crc_app. fold (crc16 bs).
  pose proof (crc16_range bs Hbs) as Hr. set (s := crc16 bs) in *.
  unfold lfsr_crc. cbn [le_bytes foldl].
  rewrite (lfsr_byte_table _ s), Z.lxor_nilpotent. rewrite shiftr8_div.
  assert (u8 (s / 256) = s / 256) as -> by (unfold u8, is_u16 in *; lia).
  change (Nat.iter 8 (lfsr_step POLY16) 0) with 0. rewrite Z.lxor_0_r.
  unfold lfsr_byte. by rewrite Z.lxor_nilpotent.
Qed.

(** ** Exclusive-or check *)

Lemma xor_sum_acc a bs : foldl Z.lxor a bs = Z.lxor a (xor_sum bs).
Proof.
  revert a. unfold xor_sum. induction bs as [|b bs IH]; intros a; cbn.
  - by rewrite Z.lxor_0_r.
  - by rewrite IH, Z.lxor_0_l, (IH b), Z.lxor_assoc.
Qed.

Lemma xor_sum_u8 bs : Forall is_u8 bs → is_u8 (xor_sum bs).
Proof.
  induction 1 as [|b bs Hb Hbs IH]; [done|].
  unfold xor_sum. cbn. rewrite Z.lxor_0_l, xor_sum_acc. by apply lxor_u8.
Qed.

Lemma xor_sum_app bs1 bs2 : xor_sum (bs1 ++ bs2) = Z.lxor (xor_sum bs1) (xor_sum bs2).
Proof. unfold xor_sum at 1. rewrite foldl_app. apply xor_sum_acc. Qed.

Lemma xor_sum_checked bs : xor_sum (bs ++ [xor_sum bs]) = 0.
Proof.
  rewrite xor_sum_app. unfold xor_sum at 2. cbn. by rewrite Z.lxor_0_l, Z.lxor_nilpotent.
Qed.

Lemma checkResult_loop_ok data i n crc :
  0 ≤ i → i + Z.of_nat n ≤ zlen data →
  checkResult_loop data i n crc =
    Ok (Z.land (foldl Z.lxor crc (take n (drop (Z.to_nat i) data))) 0xff).
Proof.
  revert i crc. induction n as [|n IH]; intros i crc Hi Hn; cbn [checkResult_loop]; [done|].
  destruct (load_in data i) as (b & -> & Hb); [lia|].
  cbn [mbind outcome_bind]. rewrite IH, (take_drop_S _ _ _ b Hb) by lia.
  by replace (Z.to_nat (i + 1)) with (S (Z.to_nat i)) by lia.
Qed.

Lemma checkResult_ok data n :
  0 ≤ n ≤ zlen data → Forall is_u8 data →
  checkResult data n = Ok (xor_sum (take (Z.to_nat n) data)).
Proof.
  intros Hn Hd. unfold checkResult. rewrite checkResult_loop_ok by lia.
  fold (xor_sum (take (Z.to_nat n) data)).
  assert (is_u8 (xor_sum (take (Z.to_nat n) data))) as Hr by (by apply xor_sum_u8, Forall_take).
  change 0xff with (Z.ones 8). rewrite Z.land_ones by lia. f_equal. by apply u8_id.
Qed.

(** ** CRC-32 *)

Lemma crc32_table_lfsr : crc32_table = map (Nat.iter 8 (lfsr_step POLY32)) (seqZ 0 256).
Proof. vm_compute. reflexivity. Qed.

Lemma crc32_table_load i :
  is_u8 i → load crc32_table i = Ok (Nat.iter 8 (lfsr_step POLY32) i).
Proof.
  intros Hi. apply load_ok; [unfold is_u8 in Hi; lia|].
  rewrite crc32_table_lfsr, list_lookup_fmap, lookup_seqZ_lt by (unfold is_u8 in Hi; lia).
  replace (0 + Z.of_nat (Z.to_nat i)) with i by (unfold is_u8 in Hi; lia). done.
Qed.

Lemma crc32_loop_ok pdata i n crc :
  0 ≤ i → i + Z.of_nat n ≤ zlen pdata → Forall is_u8 pdata →
  crc32_cyc_loop pdata i n crc =
    Ok (lfsr_crc POLY32 crc (take n (drop (Z.to_nat i) pdata))).
Proof.
  intros Hi Hn Hd. revert i crc Hi Hn.
  induction n as [|n IH]; intros i crc Hi Hn; cbn [crc32_cyc_loop]; [done|].
  destruct (load_in pdata i) as (b & -> & Hb); [lia|].
  cbn [mbind outcome_bind]. assert (is_u8 b) by (by eapply Forall_lookup_1).
  rewrite crc32_table_load by (apply lxor_u8; [apply u8_range|done]).
  cbn [mbind outcome_bind]. rewrite IH, (take_drop_S _ _ _ b Hb) by lia.
  replace (Z.to_nat (i + 1)) with (S (Z.to_nat i)) by lia.
  unfold lfsr_crc. cbn [foldl]. by rewrite lfsr_byte_table.
Qed.

Lemma crc32_cal_ok pdata n :
  0 ≤ n ≤ zlen pdata → Forall is_u8 pdata →
  crc32_cal pdata n = Ok (crc32 (take (Z.to_nat n) pdata)).
Proof.
  intros Hn Hd. unfold crc32_cal, crc32_cyc_cal. by rewrite crc32_loop_ok by (done || lia).
Qed.

(** Two byte strings that differ in exactly one byte have different CRCs. *)
Lemma crc16_single_byte l1 b b' l2 :
  Forall is_u8 (l1 ++ b :: l2) → is_u8 b' → b ≠ b' →
  crc16 (l1 ++ b :: l2) ≠ crc16 (l1 ++ b' :: l2).
Proof.
  intros Hl Hb' Hne Heq. apply Forall_app in Hl as [H1 [Hb H2]%Forall_cons_1].
  unfold crc16 in Heq. rewrite !lfsr_crc_app in Heq.
  set (s := lfsr_crc POLY16 0xFFFF l1) in *.
  assert (is_u16 s) as Hs by (by apply (lfsr16_crc_range 0xFFFF l1)).
  apply (lfsr16_crc_inj (lfsr_byte POLY16 s b) (lfsr_byte POLY16 s b') l2) in Heq;
    [|by apply lfsr16_range..|done].
  apply lfsr16_byte_inj in Heq; [|done..]. by apply (lxor_cancel_l _ _ s) in Heq.
Qed.

(** ** Properties *)

(** C20: the CRC-16 routine of the Modbus frames computes the CRC of the first
    [ulLen] bytes with the reflected polynomial 0xA001 and start value 0xFFFF,
    reading only inside the array it is given, and returns a 16-bit value. *)
Theorem modbus_crc_reference (data : list Z) (n : Z) :
  0 ≤ n ≤ zlen data → Forall is_u8 data →
  usModbusRTU_CRC data n = Ok (crc16 (take (Z.to_nat n) data)) ∧
  is_u16 (crc16 (take (Z.to_nat n) data)).
Proof.
  intros Hn Hd. split; [by apply usModbusRTU_CRC_ok|]. by apply crc16_range, Forall_take.
Qed.

Definition crc_digits : list Z := [0x31;0x32;0x33;0x34;0x35;0x36;0x37;0x38;0x39].

Lemma modbus_crc_reference_witness :
  usModbusRTU_CRC crc_digits 9 = Ok 0x4B37.
Proof.
  rewrite (proj1 (modbus_crc_reference crc_digits 9 ltac:(vm_compute; done)
    ltac:(repeat constructor; vm_compute; done))). reflexivity.
Defined.

(** C21: the table-driven CRC-32 of crc_32.c equals the bit-by-bit CRC with the
    reflected polynomial 0xEDB88320: the look-up never leaves the 256-entry
    table and every entry is the register's response to its index. *)
Theorem crc32_table_driven (pdata : list Z) (len : Z) :
  0 ≤ len ≤ zlen pdata → Forall is_u8 pdata →
  crc32_cal pdata len = Ok (crc32 (take (Z.to_nat len) pdata)).
Proof. apply crc32_cal_ok. Qed.

Lemma crc32_table_driven_witness : crc32_cal crc_digits 9 = Ok 0xCBF43926.
Proof.
  rewrite (crc32_table_driven crc_digits 9 ltac:(vm_compute; done)
    ltac:(repeat constructor; vm_compute; done)). vm_compute. reflexivity.
Defined.
