(* ===== verification/Flash.v ===== *)
(** On-chip flash: the HAL's program and erase loops, the driver of
    drv_flash_f1.c on top of them, and the two wrappers of module.c through which
    the firmware keeps its settings. *)
From S2P Require Import Prelude.

(** ** The flash controller *)

(** Flash contents, by address, and the LOCK bit of the control register FLASH->CR. *)
Record flash := mk_flash { cells :> Z → Z; locked : bool }.
#[export] Instance eta_flash : Eta flash := λ m, mk_flash (cells m) (locked m).

Definition FLASH_PAGE_SIZE : Z := 0x400.
Definition STM32_FLASH_START_ADRESS : Z := 0x08000000.
Definition STM32_FLASH_END_ADDRESS : Z := 0x08000000 + 128 * 1024.

(** The hardware behind the controller's registers: writing a half-word with the
    PG bit set, erasing the page whose address is in AR; each reports whether the
    operation ended without an error flag. *)
Class FlashHw := {
  hw_program_halfword : Z → Z → flash → bool * flash;
  hw_erase_page : Z → flash → bool * flash;
}.

(** What the reference manual promises of an unprotected device: with the LOCK bit clear an
    erased half-word takes the value programmed, and erasing a page of the device sets
    its bytes to 0xFF; neither touches any other byte or the LOCK bit. With the LOCK bit set
    the control register cannot be written: neither does anything. *)
Class FlashHwOk `{FlashHw} := {
  hw_program_erased a d m :
    locked m = false → a mod 2 = 0 → STM32_FLASH_START_ADRESS ≤ a < STM32_FLASH_END_ADDRESS →
    m a = 0xFF → m (a + 1) = 0xFF → is_u16 d →
    ∃ m', hw_program_halfword a d m = (true, m') ∧ locked m' = false ∧
      m' a = u8 d ∧ m' (a + 1) = Z.shiftr d 8 ∧
      ∀ x, x ≠ a → x ≠ a + 1 → m' x = m x;
  hw_erase_erases p m :
    locked m = false → p mod FLASH_PAGE_SIZE = 0 → STM32_FLASH_START_ADRESS ≤ p < STM32_FLASH_END_ADDRESS →
    ∃ m', hw_erase_page p m = (true, m') ∧ locked m' = false ∧
      ∀ x, m' x = if decide (p ≤ x < p + FLASH_PAGE_SIZE) then 0xFF else m x;
  hw_locked m : locked m = true →
    (∀ a d, hw_program_halfword a d m = (false, m)) ∧ (∀ p, hw_erase_page p m = (false, m));
}.

(** A device that behaves so; a half-word that is not erased raises PGERR. *)
#[export] Instance stm32f1_flash : FlashHw := {|
  hw_program_halfword a d m :=
    if decide (locked m = false ∧ m a = 0xFF ∧ m (a + 1) = 0xFF)
    then (true, m <| cells := λ x, if decide (x = a) then u8 d
                                   else if decide (x = a + 1) then Z.shiftr d 8 else m x |>)
    else (false, m);
  hw_erase_page p m :=
    if locked m then (false, m)
    else (true, m <| cells := λ x, if decide (p ≤ x < p + FLASH_PAGE_SIZE) then 0xFF else m x |>);
|}.

#[export] Instance stm32f1_flash_ok : FlashHwOk.
Proof.
  split; cbn [hw_program_halfword hw_erase_page stm32f1_flash].
  - intros a d m Hl _ _ Ha Ha' _. rewrite decide_True by done. eexists; split; [done|].
    split; [done|]. unfold upd. cbn [cells]. split; [by rewrite decide_True|].
    split; [by rewrite decide_False, decide_True by lia|].
    intros x Hx Hx'. by rewrite !decide_False.
  - intros p m Hl _ _. rewrite Hl. by eexists.
  - intros m Hl. rewrite Hl. split; [|done]. intros a d. by rewrite decide_False by (by intros [? _]).
Qed.

(** ** The HAL loops (stm32f1xx_hal_flash.c, stm32f1xx_hal_flash_ex.c) *)

Inductive hal_status : Set := HAL_OK | HAL_ERROR.

Inductive flash_type : Set :=
  | FLASH_TYPEPROGRAM_HALFWORD | FLASH_TYPEPROGRAM_WORD | FLASH_TYPEPROGRAM_DOUBLEWORD.

Definition RT_EOK : Z := 0.
Definition RT_ERROR : Z := 1.
Definition RT_EINVAL : Z := 10.

Section driver.
Context `{FlashHw}.

(** The key sequence clears the LOCK bit, and only that sequence; setting it needs none. *)
Definition HAL_FLASH_Unlock : prog flash hal_status :=
  l ← gets locked;
  when l (modify (λ m, m <| locked := false |>));;
  mret HAL_OK.
Definition HAL_FLASH_Lock : prog flash hal_status := modify (λ m, m <| locked := true |>);; mret HAL_OK.

(** FLASH_Program_HalfWord followed by FLASH_WaitForLastOperation. *)
Definition FLASH_Program_HalfWord (Address Data : Z) : prog flash hal_status := λ m,
  let '(ok, m) := hw_program_halfword Address Data m in
  Ok (if ok then HAL_OK else HAL_ERROR, m).

(** The rounds of HAL_FLASH_Program from [index] on; stops at the first error. *)
Fixpoint HAL_FLASH_Program_loop (n : nat) (index Address Data : Z) : prog flash hal_status :=
  match n with
  | O => mret HAL_OK
  | S n =>
      status ← FLASH_Program_HalfWord (Address + 2 * index) (u16 (Z.shiftr Data (16 * index)));
      match status with
      | HAL_OK => HAL_FLASH_Program_loop n (index + 1) Address Data
      | HAL_ERROR => mret HAL_ERROR
      end
  end.

Definition HAL_FLASH_Program (TypeProgram : flash_type) (Address Data : Z)
    : prog flash hal_status :=
  let nbiterations := match TypeProgram with
    | FLASH_TYPEPROGRAM_HALFWORD => 1%nat
    | FLASH_TYPEPROGRAM_WORD => 2%nat
    | FLASH_TYPEPROGRAM_DOUBLEWORD => 4%nat
    end in
  HAL_FLASH_Program_loop nbiterations 0 Address Data.

Definition FLASH_PageErase (PageAddress : Z) : prog flash hal_status := λ m,
  let '(ok, m) := hw_erase_page PageAddress m in
  Ok (if ok then HAL_OK else HAL_ERROR, m).

(** Page by page, [n] pages left; stops at the first error. *)
Fixpoint HAL_FLASHEx_Erase (address : Z) (n : nat) : prog flash hal_status :=
  match n with
  | O => mret HAL_OK
  | S n =>
      status ← FLASH_PageErase address;
      match status with
      | HAL_OK => HAL_FLASHEx_Erase (address + FLASH_PAGE_SIZE) n
      | HAL_ERROR => mret HAL_ERROR
      end
  end.

(** ** The driver (drv_flash_f1.c) *)

Definition GetPage (addr : Z) : Z := Z.land addr (Z.lnot (FLASH_PAGE_SIZE - 1)).

Definition read_word (addr : Z) (m : flash) : Z :=
  le_value [m addr; m (addr + 1); m (addr + 2); m (addr + 3)].

(** Copies into [buf] and gives back the result code and the buffer. *)
Fixpoint stm32_flash_read_loop (n : nat) (i addr : Z) (buf : list Z) (m : flash)
    : outcome (list Z) :=
  match n with
  | O => Ok buf
  | S n => buf ← store buf i (m addr); stm32_flash_read_loop n (i + 1) (addr + 1) buf m
  end.

Definition stm32_flash_read (addr : Z) (buf : list Z) (size : Z)
    : prog flash (Z * list Z) :=
  if decide (u32 (addr + size) > STM32_FLASH_END_ADDRESS) then mret (- RT_EINVAL, buf)
  else
    m ← gets id;
    buf ← lift (stm32_flash_read_loop (Z.to_nat size) 0 addr buf m);
    mret (size, buf).

Fixpoint stm32_flash_write_loop (fuel : nat) (addr end_addr : Z) (buf : list Z) (p : Z)
    : prog flash Z :=
  match fuel with
  | O => fail NoFuel
  | S fuel =>
      if decide (addr < end_addr) then
        w ← lift (load_bytes buf p 4);
        status ← HAL_FLASH_Program FLASH_TYPEPROGRAM_WORD addr (le_value w);
        match status with
        | HAL_OK =>
            back ← gets (read_word addr);
            if decide (back ≠ le_value w) then mret (- RT_ERROR)
            else stm32_flash_write_loop fuel (addr + 4) end_addr buf (p + 4)
        | HAL_ERROR => mret (- RT_ERROR)
        end
      else mret RT_EOK
  end.

Definition stm32_flash_write (addr : Z) (buf : list Z) (size : Z) : prog flash Z :=
  let end_addr := u32 (addr + size) in
  if decide (addr mod 4 ≠ 0) then mret (- RT_EINVAL)
  else if decide (end_addr > STM32_FLASH_END_ADDRESS) then mret (- RT_EINVAL)
  else
    _ ← HAL_FLASH_Unlock;
    result ← stm32_flash_write_loop (S (Z.to_nat (end_addr - addr))) addr end_addr buf 0;
    _ ← HAL_FLASH_Lock;
    mret (if decide (result ≠ RT_EOK) then result else size).

Definition stm32_flash_erase_bank (addr size : Z) : prog flash Z :=
  if decide (u32 (addr + size) > STM32_FLASH_END_ADDRESS) then mret (- RT_EINVAL)
  else
    _ ← HAL_FLASH_Unlock;
    let NbPages := (size + FLASH_PAGE_SIZE - 1) / FLASH_PAGE_SIZE in
    status ← HAL_FLASHEx_Erase (GetPage addr) (Z.to_nat NbPages);
    _ ← HAL_FLASH_Lock;
    mret (match status with HAL_OK => size | HAL_ERROR => - RT_ERROR end).

(** The part has a single bank (FLASH_BANK2_END is not defined). *)
Definition stm32_flash_erase (addr size : Z) : prog flash Z :=
  stm32_flash_erase_bank addr size.

(** ** The settings' wrappers (module.c) *)

Definition setDataToFlah (addr : Z) (data : list Z) (size : Z) : prog flash unit :=
  stm32_flash_erase addr size;;
  stm32_flash_write addr data size;;
  mret tt.

Definition getDataFromFlash (addr : Z) (data : list Z) (size : Z) : prog flash (list Z) :=
  r ← stm32_flash_read addr data size;
  mret r.2.
End driver.

(** ** Lemmas *)

Section driver_facts.
Context `{FlashHwOk}.

Lemma GetPage_spec addr : GetPage addr = addr - addr mod FLASH_PAGE_SIZE.
Proof using.
  unfold GetPage. change (FLASH_PAGE_SIZE - 1) with (Z.ones 10).
  rewrite <- Z.ldiff_land, Z.ldiff_ones_r by lia.
  rewrite Z.shiftr_div_pow2, Z.shiftl_mul_pow2 by lia.
  change (2 ^ 10) with FLASH_PAGE_SIZE. unfold FLASH_PAGE_SIZE. lia.
Qed.

Lemma GetPage_aligned addr : addr mod FLASH_PAGE_SIZE = 0 → GetPage addr = addr.
Proof using. rewrite GetPage_spec. lia. Qed.

Lemma wp_program_halfword a d m Q :
  locked m = false → a mod 2 = 0 → STM32_FLASH_START_ADRESS ≤ a < STM32_FLASH_END_ADDRESS →
  m a = 0xFF → m (a + 1) = 0xFF → is_u16 d →
  (∀ m', locked m' = false → m' a = u8 d → m' (a + 1) = Z.shiftr d 8 →
         (∀ x, x ≠ a → x ≠ a + 1 → m' x = m x) → Q HAL_OK m') →
  wp (FLASH_Program_HalfWord a d) Q m.
Proof using Type*.
  intros Hu Ha Hr Hlo Hhi Hd HQ.
  destruct (hw_program_erased a d m Hu Ha Hr Hlo Hhi Hd) as (m' & Hm' & ? & ? & ? & ?).
  unfold wp, FLASH_Program_HalfWord. rewrite Hm'. auto.
Qed.

Lemma wp_page_erase p m Q :
  locked m = false → p mod FLASH_PAGE_SIZE = 0 → STM32_FLASH_START_ADRESS ≤ p < STM32_FLASH_END_ADDRESS →
  (∀ m', locked m' = false → (∀ x, m' x = if decide (p ≤ x < p + FLASH_PAGE_SIZE) then 0xFF else m x) →
         Q HAL_OK m') →
  wp (FLASH_PageErase p) Q m.
Proof using Type*.
  intros Hu Hp Hr HQ. destruct (hw_erase_erases p m Hu Hp Hr) as (m' & Hm' & ? & ?).
  unfold wp, FLASH_PageErase. rewrite Hm'. auto.
Qed.

(** The four bytes of a word, in memory order. *)
Definition bytes4 (a : Z) (m : flash) : list Z := [m a; m (a + 1); m (a + 2); m (a + 3)].

Lemma le_word_halves d :
  is_u32 d →
  [u8 (u16 d); Z.shiftr (u16 d) 8;
   u8 (u16 (Z.shiftr d 16)); Z.shiftr (u16 (Z.shiftr d 16)) 8] = le_bytes 4 d.
Proof using.
  intros Hd. unfold le_bytes. rewrite (Z.shiftr_div_pow2 d 16), !shiftr8_div by lia.
  change (2 ^ 16) with 65536. unfold is_u32, u8, u16 in *.
  f_equal; [lia|]. f_equal; [lia|]. f_equal; [lia|]. f_equal. lia.
Qed.

(** Two half-words of an erased word. *)
Lemma HAL_FLASH_Program_word a d m :
  locked m = false → a mod 4 = 0 → STM32_FLASH_START_ADRESS ≤ a → a + 4 ≤ STM32_FLASH_END_ADDRESS →
  is_u32 d → (∀ x, a ≤ x < a + 4 → m x = 0xFF) →
  wp (HAL_FLASH_Program FLASH_TYPEPROGRAM_WORD a d) (λ st m',
    st = HAL_OK ∧ locked m' = false ∧ bytes4 a m' = le_bytes 4 d ∧
    ∀ x, ¬ (a ≤ x < a + 4) → m' x = m x) m.
Proof using Type*.
  intros Hu Ha Hlo Hhi Hd Her.
  unfold HAL_FLASH_Program. cbn [HAL_FLASH_Program_loop].
  rewrite wp_bind. replace (a + 2 * 0) with a by lia. change (16 * 0) with 0.
  rewrite Z.shiftr_0_r.
  apply wp_program_halfword; [done|lia|lia|apply Her; lia|apply Her; lia|apply u16_range|].
  intros m1 Hu1 E0 E1 Ex. rewrite wp_bind. replace (a + 2 * (0 + 1)) with (a + 2) by lia.
  apply wp_program_halfword; [done|lia|lia|rewrite Ex, Her; lia|rewrite Ex, Her; lia|apply u16_range|].
  intros m2 Hu2 E2 E3 Ex2. rewrite wp_ret. split; [done|]. split; [done|]. split.
  - unfold bytes4. rewrite E2, (Ex2 a), (Ex2 (a + 1)), E0, E1 by lia.
    replace (a + 3) with (a + 2 + 1) by lia. rewrite E3. by apply le_word_halves.
  - intros x Hx. rewrite Ex2, Ex by lia. done.
Qed.

(** Erasing [n] pages from an aligned address. *)
Lemma HAL_FLASHEx_Erase_pages n p m :
  locked m = false → p mod FLASH_PAGE_SIZE = 0 → STM32_FLASH_START_ADRESS ≤ p →
  p + Z.of_nat n * FLASH_PAGE_SIZE ≤ STM32_FLASH_END_ADDRESS →
  wp (HAL_FLASHEx_Erase p n) (λ st m', st = HAL_OK ∧ locked m' = false ∧
    ∀ x, m' x = if decide (p ≤ x < p + Z.of_nat n * FLASH_PAGE_SIZE) then 0xFF else m x) m.
Proof using Type*.
  revert p m. induction n as [|n IH]; intros p m Hu Hp Hlo Hhi; cbn [HAL_FLASHEx_Erase].
  - rewrite wp_ret. split; [done|]. split; [done|]. intros x. by rewrite decide_False by lia.
  - rewrite wp_bind. apply wp_page_erase; [done|done|unfold FLASH_PAGE_SIZE in *; lia|].
    intros m1 Hu1 Em1. eapply wp_mono; [apply IH; [done|unfold FLASH_PAGE_SIZE in *; lia..]|].
    intros st m2 (-> & Hu2 & Em2). split; [done|]. split; [done|]. intros x. rewrite Em2, Em1.
    unfold FLASH_PAGE_SIZE. repeat case_decide; done || lia.
Qed.

Lemma load_word buf p :
  0 ≤ p → p + 4 ≤ zlen buf → Forall is_u8 buf →
  ∃ w, load_bytes buf p 4 = Ok w ∧ length w = 4%nat ∧ Forall is_u8 w ∧
    ∀ i, 0 ≤ i < 4 → buf !! Z.to_nat (p + i) = w !! Z.to_nat i.
Proof using.
  intros Hp Hlen Hb. rewrite load_bytes_in by lia. eexists; split; [done|].
  unfold zlen in Hlen. change (Z.to_nat 4) with 4%nat. split; [|split].
  - rewrite length_take, length_drop. lia.
  - by apply Forall_take, Forall_drop.
  - intros i Hi. rewrite lookup_take_lt, lookup_drop by lia. f_equal. lia.
Qed.

Lemma bytes4_lookup a m i : 0 ≤ i < 4 → bytes4 a m !! Z.to_nat i = Some (m (a + i)).
Proof using.
  intros Hi. unfold bytes4.
  assert (i = 0 ∨ i = 1 ∨ i = 2 ∨ i = 3) as [-> | [-> | [-> | ->]]] by lia;
    [by rewrite Z.add_0_r|done..].
Qed.

Lemma le_value_u32 w : length w = 4%nat → Forall is_u8 w → is_u32 (le_value w).
Proof using.
  intros Hl Hw. destruct w as [|b0 [|b1 [|b2 [|b3 [|]]]]]; try done.
  decompose_Forall_hyps. unfold le_value. rewrite Z.shiftl_0_l, Z.lor_0_r.
  rewrite !lor_byte by done. unfold is_u8, is_u32 in *. lia.
Qed.

(** The driver's program loop writes and verifies [k] words of an erased range. *)
Lemma stm32_flash_write_loop_ok k fuel addr buf p m :
  locked m = false → (k < fuel)%nat → 0 ≤ p → p + 4 * Z.of_nat k ≤ zlen buf → Forall is_u8 buf →
  addr mod 4 = 0 → STM32_FLASH_START_ADRESS ≤ addr →
  addr + 4 * Z.of_nat k ≤ STM32_FLASH_END_ADDRESS →
  (∀ x, addr ≤ x < addr + 4 * Z.of_nat k → m x = 0xFF) →
  wp (stm32_flash_write_loop fuel addr (addr + 4 * Z.of_nat k) buf p) (λ r m', r = RT_EOK ∧
    (∀ i, 0 ≤ i < 4 * Z.of_nat k → buf !! Z.to_nat (p + i) = Some (m' (addr + i))) ∧
    ∀ x, ¬ (addr ≤ x < addr + 4 * Z.of_nat k) → m' x = m x) m.
Proof using Type*.
  revert fuel addr p m.
  induction k as [|k IH]; intros fuel addr p m Hu Hf Hp Hlen Hb Ha Hlo Hhi Her;
    (destruct fuel as [|fuel]; [lia|]); cbn [stm32_flash_write_loop].
  { rewrite decide_False by lia. rewrite wp_ret. split; [done|]. split; [lia|done]. }
  rewrite decide_True, wp_bind, wp_lift by lia.
  destruct (load_word buf p) as (w & -> & Hwl & Hwb & Hw); [lia..|done|]. cbn [owp].
  rewrite wp_bind. eapply wp_mono; [apply HAL_FLASH_Program_word; try lia; try done|].
  { by apply le_value_u32. }
  { intros x Hx. apply Her. lia. }
  intros st m1 (-> & Hu1 & Hw1 & Hx1). rewrite wp_bind, wp_gets.
  rewrite <- Hwl, le_bytes_value in Hw1 by done.
  unfold read_word. fold (bytes4 addr m1). rewrite Hw1, decide_False by auto.
  replace (addr + 4 * Z.of_nat (S k)) with (addr + 4 + 4 * Z.of_nat k) in * by lia.
  eapply wp_mono; [apply IH; try lia; try done|].
  { intros x Hx. rewrite Hx1, Her by lia. done. }
  intros r m2 (-> & Hw2 & Hx2). split; [done|]. split.
  - intros i Hi. destruct (decide (i < 4)).
    + rewrite Hw by lia. rewrite <- Hw1, bytes4_lookup by lia. by rewrite Hx2 by lia.
    + specialize (Hw2 (i - 4)). replace (p + 4 + (i - 4)) with (p + i) in Hw2 by lia.
      replace (addr + 4 + (i - 4)) with (addr + i) in Hw2 by lia. apply Hw2. lia.
  - intros x Hx. rewrite Hx2, Hx1 by lia. done.
Qed.

Lemma stm32_flash_read_loop_ok n i addr buf m :
  0 ≤ i → i + Z.of_nat n ≤ zlen buf →
  ∃ buf', stm32_flash_read_loop n i addr buf m = Ok buf' ∧ length buf' = length buf ∧
    (∀ j, 0 ≤ j < Z.of_nat n → buf' !! Z.to_nat (i + j) = Some (m (addr + j))) ∧
    (∀ j, 0 ≤ j < i → buf' !! Z.to_nat j = buf !! Z.to_nat j).
Proof using.
  revert i addr buf. induction n as [|n IH]; intros i addr buf Hi Hn; cbn [stm32_flash_read_loop].
  { exists buf. split; [done|]. split; [done|]. split; [lia|done]. }
  rewrite store_in by lia. cbn [mbind outcome_bind].
  destruct (IH (i + 1) (addr + 1) (<[Z.to_nat i := m addr]> buf)) as (b & Hb & Hl & Hnew & Hold);
    [lia|rewrite zlen_insert; lia|].
  exists b. split; [done|]. rewrite length_insert in Hl. split; [done|]. split.
  - intros j Hj. destruct (decide (j = 0)) as [->|Hj0].
    + rewrite Hold by lia. rewrite !Z.add_0_r, list_lookup_insert_eq; [done|].
      unfold zlen in Hn. lia.
    + specialize (Hnew (j - 1)). replace (i + 1 + (j - 1)) with (i + j) in Hnew by lia.
      replace (addr + 1 + (j - 1)) with (addr + j) in Hnew by lia. apply Hnew. lia.
  - intros j Hj. rewrite Hold, list_lookup_insert_ne by lia. done.
Qed.
End driver_facts.

(** ** Driver contracts *)

Section driver_contracts.
Context `{FlashHwOk}.

Lemma wp_unlock {A} (k : hal_status → prog flash A) Q (m : flash) :
  (∀ m' : flash, (∀ x, m' x = m x) → locked m' = false → wp (k HAL_OK) Q m') → wp (HAL_FLASH_Unlock ≫= k) Q m.
Proof using.
  intros HQ. unfold HAL_FLASH_Unlock. rewrite wp_bind, wp_bind, wp_gets, wp_bind. apply wp_when.
  - intros _. rewrite wp_modify, wp_ret. by apply HQ.
  - intros Hl. rewrite wp_ret. by apply HQ.
Qed.

Definition pages (size : Z) : Z := (size + FLASH_PAGE_SIZE - 1) / FLASH_PAGE_SIZE.

Lemma stm32_flash_erase_ok addr size (m : flash) :
  addr mod FLASH_PAGE_SIZE = 0 → STM32_FLASH_START_ADRESS ≤ addr → 0 ≤ size →
  addr + size ≤ STM32_FLASH_END_ADDRESS →
  wp (stm32_flash_erase addr size) (λ r m', r = size ∧
    ∀ x, m' x = if decide (addr ≤ x < addr + pages size * FLASH_PAGE_SIZE)
                then 0xFF else m x) m.
Proof using Type*.
  intros Ha Hlo Hs Hhi. unfold stm32_flash_erase, stm32_flash_erase_bank.
  unfold STM32_FLASH_START_ADRESS, STM32_FLASH_END_ADDRESS, FLASH_PAGE_SIZE in *.
  rewrite decide_False by (unfold u32; lia).
  apply wp_unlock. intros m0 Hm0 Hu. cbv zeta. rewrite wp_bind, GetPage_aligned by done.
  eapply wp_mono; [apply HAL_FLASHEx_Erase_pages; [done|
    unfold STM32_FLASH_START_ADRESS, STM32_FLASH_END_ADDRESS, FLASH_PAGE_SIZE; lia..]|].
  intros st m' (-> & _ & Hm'). unfold HAL_FLASH_Lock. rewrite wp_bind, wp_bind, wp_modify, !wp_ret.
  split; [done|]. intros x. change ((m' <| locked := true |>) x) with (m' x). rewrite Hm', Hm0.
  rewrite Z2Nat.id by (unfold FLASH_PAGE_SIZE; lia). done.
Qed.

Lemma stm32_flash_write_ok addr buf (m : flash) :
  addr mod 4 = 0 → zlen buf mod 4 = 0 → STM32_FLASH_START_ADRESS ≤ addr →
  addr + zlen buf ≤ STM32_FLASH_END_ADDRESS → Forall is_u8 buf →
  (∀ x, addr ≤ x < addr + zlen buf → m x = 0xFF) →
  wp (stm32_flash_write addr buf (zlen buf)) (λ r m', r = zlen buf ∧
    (∀ i, 0 ≤ i < zlen buf → buf !! Z.to_nat i = Some (m' (addr + i))) ∧
    ∀ x, ¬ (addr ≤ x < addr + zlen buf) → m' x = m x) m.
Proof using Type*.
  intros Ha Hs Hlo Hhi Hb Her. unfold stm32_flash_write.
  assert (u32 (addr + zlen buf) = addr + zlen buf) as ->.
  { apply u32_id. unfold is_u32, STM32_FLASH_START_ADRESS, STM32_FLASH_END_ADDRESS in *.
    unfold zlen in *. lia. }
  rewrite (decide_False (P := addr mod 4 ≠ 0)), decide_False by lia.
  apply wp_unlock. intros m0 Hm0 Hu. rewrite wp_bind.
  set (k := Z.to_nat (zlen buf / 4)).
  assert (zlen buf = 4 * Z.of_nat k) as Hk by (unfold k, zlen in *; lia).
  eapply wp_mono.
  { rewrite Hk. apply (stm32_flash_write_loop_ok k); try lia; try done.
    intros x Hx. rewrite Hm0. apply Her. lia. }
  intros r m' (-> & Hr & Hx). unfold HAL_FLASH_Lock. rewrite wp_bind, wp_bind, wp_modify, !wp_ret, decide_False by auto.
  rewrite Hk. split; [done|]. split; [intros i Hi; apply (Hr i); lia|].
  intros x Hx'. change ((m' <| locked := true |>) x) with (m' x). by rewrite Hx, Hm0.
Qed.

Lemma getDataFromFlash_ok addr data (m : flash) Q :
  STM32_FLASH_START_ADRESS ≤ addr → addr + zlen data ≤ STM32_FLASH_END_ADDRESS →
  (∀ data', length data' = length data →
    (∀ i, 0 ≤ i < zlen data → data' !! Z.to_nat i = Some (m (addr + i))) → Q data' m) →
  wp (getDataFromFlash addr data (zlen data)) Q m.
Proof using.
  intros Hlo Hhi HQ. unfold getDataFromFlash, stm32_flash_read.
  assert (u32 (addr + zlen data) = addr + zlen data) as ->.
  { apply u32_id. unfold is_u32, STM32_FLASH_START_ADRESS, STM32_FLASH_END_ADDRESS in *.
    unfold zlen in *. lia. }
  rewrite decide_False by lia. rewrite !wp_bind, wp_gets, wp_bind, wp_lift.
  destruct (stm32_flash_read_loop_ok (Z.to_nat (zlen data)) 0 addr data m)
    as (b & Hb & Hl & Hnew & _); [lia|unfold zlen; lia|].
  unfold id. rewrite Hb. cbn [owp]. rewrite !wp_ret. cbn. apply HQ; [done|].
  intros i Hi. apply (Hnew i). lia.
Qed.
End driver_contracts.

(** Saving, then reading back. *)
Lemma settings_roundtrip `{FlashHwOk} (addr : Z) (data junk : list Z) (m : flash) :
  addr mod FLASH_PAGE_SIZE = 0 → zlen data mod 4 = 0 → length junk = length data →
  STM32_FLASH_START_ADRESS ≤ addr → addr + zlen data ≤ STM32_FLASH_END_ADDRESS →
  Forall is_u8 data →
  wp (setDataToFlah addr data (zlen data);; getDataFromFlash addr junk (zlen data))
     (λ r m', r = data ∧
       ∀ x, ¬ (addr ≤ x < addr + pages (zlen data) * FLASH_PAGE_SIZE) → m' x = m x) m.
Proof.
  intros Ha Hs Hj Hlo Hhi Hb. unfold setDataToFlah. rewrite !wp_bind.
  assert (addr mod 4 = 0 ∧ zlen data ≤ pages (zlen data) * FLASH_PAGE_SIZE) as [Ha4 Hpg]
    by (unfold pages, FLASH_PAGE_SIZE in *; lia).
  eapply wp_mono; [apply stm32_flash_erase_ok; try done; unfold zlen; lia|].
  intros r m1 [_ Hm1]. rewrite wp_bind.
  eapply wp_mono; [apply stm32_flash_write_ok; try done; try lia|].
  { intros x Hx. rewrite Hm1, decide_True by lia. done. }
  intros r2 m2 (_ & Hw & Hx). rewrite wp_ret.
  assert (zlen junk = zlen data) as Hjz by (unfold zlen; by rewrite Hj). rewrite <- Hjz.
  apply getDataFromFlash_ok; [done|lia|]. intros data' Hl Hd'. split.
  - apply list_eq_same_length with (length data); [done|by rewrite Hl|].
    intros i x y Hi Hx1 Hy1. specialize (Hw (Z.of_nat i)). specialize (Hd' (Z.of_nat i)).
    rewrite Nat2Z.id in *. unfold zlen in *.
    rewrite Hw in Hy1 by lia. rewrite Hd' in Hx1 by lia. congruence.
  - intros x Hout. rewrite Hjz in Hout. rewrite Hx, Hm1, decide_False by lia. done.
Qed.

(** ** Properties *)


