(* ===== verification/Fonts.v ===== *)
(** The font tables of ascii_fonts.c, byte for byte, and the font descriptors
    built from them. *)
From S2P Require Import Prelude.

(** [FontDef_t] of ascii_fonts.h; [f_data] is what the pointer [data] refers to. *)
Record FontDef_t := {
  f_width : Z;
  f_height : Z;
  f_order : Z;
  f_bytes : Z;
  f_data : list Z;
}.

Definition Font3x5 : list Z := [
  0; 0; 0; 0; 0; 2; 2; 2; 0; 2; 5; 5; 0; 0; 0; 5; 7; 5; 7; 5; 6; 3; 6; 3;
  2; 1; 4; 2; 1; 4; 3; 3; 7; 5; 6; 2; 2; 0; 0; 0; 4; 2; 2; 2; 4; 1; 2; 2;
  2; 1; 5; 2; 5; 0; 0; 0; 2; 7; 2; 0; 0; 0; 0; 2; 1; 0; 0; 7; 0; 0; 0; 0;
  0; 0; 2; 0; 4; 2; 1; 0; 7; 5; 5; 5; 7; 2; 3; 2; 2; 7; 7; 4; 7; 1; 7; 7;
  4; 6; 4; 7; 5; 5; 7; 4; 4; 7; 1; 7; 4; 7; 7; 1; 7; 5; 7; 7; 4; 4; 4; 4;
  7; 5; 7; 5; 7; 7; 5; 7; 4; 7; 0; 2; 0; 2; 0; 0; 2; 0; 2; 1; 4; 2; 1; 2;
  4; 0; 7; 0; 7; 0; 1; 2; 4; 2; 1; 7; 4; 2; 0; 2; 2; 5; 7; 1; 6; 2; 5; 7;
  5; 5; 3; 5; 3; 5; 3; 6; 1; 1; 1; 6; 3; 5; 5; 5; 3; 7; 1; 7; 1; 7; 7; 1;
  7; 1; 1; 6; 1; 7; 5; 6; 5; 5; 7; 5; 5; 7; 2; 2; 2; 7; 4; 4; 4; 5; 2; 5;
  5; 3; 5; 5; 1; 1; 1; 1; 7; 5; 7; 7; 5; 5; 5; 7; 7; 7; 5; 2; 5; 5; 5; 2;
  3; 5; 3; 1; 1; 2; 5; 5; 5; 6; 3; 5; 7; 3; 5; 6; 1; 2; 4; 3; 7; 2; 2; 2;
  2; 5; 5; 5; 5; 2; 5; 5; 5; 2; 2; 5; 5; 7; 7; 5; 5; 5; 2; 5; 5; 5; 5; 2;
  2; 2; 7; 4; 2; 1; 7; 3; 1; 1; 1; 3; 0; 1; 2; 4; 0; 6; 4; 4; 4; 6; 2; 5;
  0; 0; 0; 0; 0; 0; 0; 7; 1; 2; 0; 0; 0; 0; 3; 6; 5; 7; 1; 3; 5; 5; 3; 0;
  6; 1; 1; 6; 4; 6; 5; 5; 6; 0; 6; 5; 3; 6; 4; 2; 7; 2; 2; 6; 5; 7; 4; 2;
  1; 3; 5; 5; 5; 2; 0; 2; 2; 2; 4; 0; 4; 4; 3; 1; 5; 3; 3; 5; 3; 2; 2; 2;
  7; 0; 7; 7; 7; 5; 0; 3; 5; 5; 5; 0; 2; 5; 5; 2; 0; 3; 5; 3; 1; 0; 6; 5;
  6; 4; 0; 6; 1; 1; 1; 0; 6; 3; 6; 3; 2; 7; 2; 2; 6; 0; 5; 5; 5; 6; 0; 5;
  5; 5; 2; 0; 5; 7; 7; 7; 0; 5; 2; 2; 5; 0; 5; 6; 4; 6; 0; 7; 6; 3; 7; 6;
  2; 1; 2; 6; 2; 2; 2; 2; 2; 3; 2; 4; 2; 3; 0; 6; 3; 0; 0; 7; 7; 7; 7; 7 ].

Definition Font5x7 : list Z := [
  0; 0; 0; 0; 0; 0; 0; 4; 4; 4; 4; 0; 4; 0; 10; 10; 10; 0; 0; 0; 0; 10; 10; 31;
  10; 31; 10; 10; 4; 30; 5; 14; 20; 15; 4; 0; 25; 26; 4; 11; 19; 0; 6; 9; 5; 2; 21; 9;
  22; 6; 4; 2; 0; 0; 0; 0; 8; 4; 2; 2; 2; 4; 8; 2; 4; 8; 8; 8; 4; 2; 0; 4;
  21; 14; 21; 4; 0; 0; 4; 4; 31; 4; 4; 0; 0; 0; 0; 0; 12; 8; 4; 0; 0; 0; 0; 31;
  0; 0; 0; 0; 0; 0; 0; 6; 6; 0; 16; 8; 4; 2; 1; 0; 14; 17; 25; 21; 19; 17; 14; 4;
  6; 4; 4; 4; 4; 14; 14; 17; 16; 8; 4; 2; 31; 31; 8; 4; 8; 16; 17; 14; 8; 12; 10; 9;
  31; 8; 8; 31; 1; 15; 16; 16; 17; 14; 12; 2; 1; 15; 17; 17; 14; 31; 16; 8; 4; 2; 2; 2;
  14; 17; 17; 14; 17; 17; 14; 14; 17; 17; 30; 16; 8; 6; 0; 6; 6; 0; 6; 6; 0; 0; 6; 6;
  0; 6; 4; 2; 8; 4; 2; 1; 2; 4; 8; 0; 0; 31; 0; 31; 0; 0; 2; 4; 8; 16; 8; 4;
  2; 14; 17; 16; 8; 4; 0; 4; 14; 17; 16; 22; 29; 17; 14; 14; 17; 17; 17; 31; 17; 17; 15; 17;
  17; 15; 17; 17; 15; 14; 17; 1; 1; 1; 17; 14; 7; 9; 17; 17; 17; 9; 7; 31; 1; 1; 15; 1;
  1; 31; 31; 1; 1; 15; 1; 1; 1; 14; 17; 1; 29; 17; 17; 30; 17; 17; 17; 31; 17; 17; 17; 14;
  4; 4; 4; 4; 4; 14; 28; 8; 8; 8; 8; 9; 6; 17; 9; 5; 3; 5; 9; 17; 1; 1; 1; 1;
  1; 1; 31; 17; 27; 21; 21; 17; 17; 17; 17; 17; 19; 21; 25; 17; 17; 14; 17; 17; 17; 17; 17; 14;
  15; 17; 17; 15; 1; 1; 1; 14; 17; 17; 17; 21; 9; 22; 15; 17; 17; 15; 5; 9; 17; 30; 1; 1;
  14; 16; 16; 15; 31; 4; 4; 4; 4; 4; 4; 17; 17; 17; 17; 17; 17; 14; 17; 17; 17; 17; 17; 10;
  4; 17; 17; 17; 21; 21; 21; 10; 17; 17; 10; 4; 10; 17; 17; 17; 17; 17; 10; 4; 4; 4; 31; 16;
  8; 4; 2; 1; 31; 14; 2; 2; 2; 2; 2; 14; 21; 10; 21; 10; 21; 10; 21; 14; 8; 8; 8; 8;
  8; 14; 4; 10; 17; 0; 0; 0; 0; 0; 0; 0; 0; 0; 0; 31; 2; 4; 8; 0; 0; 0; 0; 0;
  0; 14; 16; 30; 17; 30; 1; 1; 13; 19; 17; 17; 15; 0; 0; 14; 1; 1; 17; 14; 16; 16; 22; 25;
  17; 17; 30; 0; 0; 14; 17; 31; 1; 14; 12; 18; 2; 7; 2; 2; 2; 0; 30; 17; 17; 30; 16; 14;
  1; 1; 13; 19; 17; 17; 17; 4; 0; 6; 4; 4; 4; 14; 8; 0; 12; 8; 8; 9; 6; 1; 1; 9;
  5; 3; 5; 9; 6; 4; 4; 4; 4; 4; 14; 0; 0; 11; 21; 21; 17; 17; 0; 0; 13; 19; 17; 17;
  17; 0; 0; 14; 17; 17; 17; 14; 0; 0; 15; 17; 15; 1; 1; 0; 0; 22; 25; 30; 16; 16; 0; 0;
  13; 19; 1; 1; 1; 0; 0; 14; 1; 14; 16; 15; 2; 2; 7; 2; 2; 18; 12; 0; 0; 17; 17; 17;
  25; 22; 0; 0; 17; 17; 17; 10; 4; 0; 0; 17; 17; 21; 21; 10; 0; 0; 17; 10; 4; 10; 17; 0;
  0; 17; 17; 30; 16; 14; 0; 0; 31; 8; 4; 2; 31; 8; 4; 4; 2; 4; 4; 8; 4; 4; 4; 4;
  4; 4; 4; 2; 4; 4; 8; 4; 4; 2; 0; 0; 2; 21; 8; 0; 0; 0; 31; 31; 31; 31; 31; 0 ].

Definition Font6x8 : list Z := [
  0; 0; 0; 0; 0; 0; 0; 0; 32; 32; 32; 32; 32; 0; 32; 0; 80; 80; 80; 0; 0; 0; 0; 0;
  80; 80; 248; 80; 248; 80; 80; 0; 32; 120; 160; 112; 40; 240; 32; 0; 192; 200; 16; 32; 64; 152; 24; 0;
  64; 160; 160; 64; 168; 144; 104; 0; 48; 48; 32; 64; 0; 0; 0; 0; 16; 32; 64; 64; 64; 32; 16; 0;
  64; 32; 16; 16; 16; 32; 64; 0; 32; 168; 112; 248; 112; 168; 32; 0; 0; 32; 32; 248; 32; 32; 0; 0;
  0; 0; 0; 0; 48; 48; 32; 0; 0; 0; 0; 248; 0; 0; 0; 0; 0; 0; 0; 0; 0; 48; 48; 0;
  0; 8; 16; 32; 64; 128; 0; 0; 112; 136; 152; 168; 200; 136; 112; 0; 32; 96; 32; 32; 32; 32; 112; 0;
  112; 136; 8; 112; 128; 128; 248; 0; 248; 8; 16; 48; 8; 136; 112; 0; 16; 48; 80; 144; 248; 16; 16; 0;
  248; 128; 240; 8; 8; 136; 112; 0; 56; 64; 128; 240; 136; 136; 112; 0; 248; 8; 8; 16; 32; 64; 128; 0;
  112; 136; 136; 112; 136; 136; 112; 0; 112; 136; 136; 120; 8; 16; 224; 0; 0; 0; 32; 0; 32; 0; 0; 0;
  0; 0; 32; 0; 32; 32; 64; 0; 8; 16; 32; 64; 32; 16; 8; 0; 0; 0; 248; 0; 248; 0; 0; 0;
  64; 32; 16; 8; 16; 32; 64; 0; 112; 136; 8; 48; 32; 0; 32; 0; 112; 136; 168; 184; 176; 128; 120; 0;
  32; 80; 136; 136; 248; 136; 136; 0; 240; 136; 136; 240; 136; 136; 240; 0; 112; 136; 128; 128; 128; 136; 112; 0;
  240; 136; 136; 136; 136; 136; 240; 0; 248; 128; 128; 240; 128; 128; 248; 0; 248; 128; 128; 240; 128; 128; 128; 0;
  120; 136; 128; 128; 152; 136; 120; 0; 136; 136; 136; 248; 136; 136; 136; 0; 112; 32; 32; 32; 32; 32; 112; 0;
  56; 16; 16; 16; 16; 144; 96; 0; 136; 144; 160; 192; 160; 144; 136; 0; 128; 128; 128; 128; 128; 128; 248; 0;
  136; 216; 168; 168; 168; 136; 136; 0; 136; 136; 200; 168; 152; 136; 136; 0; 112; 136; 136; 136; 136; 136; 112; 0;
  240; 136; 136; 240; 128; 128; 128; 0; 112; 136; 136; 136; 168; 144; 104; 0; 240; 136; 136; 240; 160; 144; 136; 0;
  112; 136; 128; 112; 8; 136; 112; 0; 248; 168; 32; 32; 32; 32; 32; 0; 136; 136; 136; 136; 136; 136; 112; 0;
  136; 136; 136; 136; 136; 80; 32; 0; 136; 136; 136; 168; 168; 168; 80; 0; 136; 136; 80; 32; 80; 136; 136; 0;
  136; 136; 80; 32; 32; 32; 32; 0; 248; 8; 16; 112; 64; 128; 248; 0; 120; 64; 64; 64; 64; 64; 120; 0;
  0; 128; 64; 32; 16; 8; 0; 0; 120; 8; 8; 8; 8; 8; 120; 0; 32; 80; 136; 0; 0; 0; 0; 0;
  0; 0; 0; 0; 0; 0; 248; 0; 96; 96; 32; 16; 0; 0; 0; 0; 0; 0; 96; 16; 112; 144; 120; 0;
  128; 128; 176; 200; 136; 200; 176; 0; 0; 0; 112; 136; 128; 136; 112; 0; 8; 8; 104; 152; 136; 152; 104; 0;
  0; 0; 112; 136; 248; 128; 112; 0; 16; 40; 32; 112; 32; 32; 32; 0; 0; 0; 112; 152; 152; 104; 8; 0;
  128; 128; 176; 200; 136; 136; 136; 0; 32; 0; 96; 32; 32; 32; 112; 0; 16; 0; 16; 16; 16; 144; 96; 0;
  128; 128; 144; 160; 192; 160; 144; 0; 96; 32; 32; 32; 32; 32; 112; 0; 0; 0; 208; 168; 168; 168; 168; 0;
  0; 0; 176; 200; 136; 136; 136; 0; 0; 0; 112; 136; 136; 136; 112; 0; 0; 0; 176; 200; 200; 176; 128; 0;
  0; 0; 104; 152; 152; 104; 8; 0; 0; 0; 176; 200; 128; 128; 128; 0; 0; 0; 120; 128; 112; 8; 240; 0;
  32; 32; 248; 32; 32; 40; 16; 0; 0; 0; 136; 136; 136; 152; 104; 0; 0; 0; 136; 136; 136; 80; 32; 0;
  0; 0; 136; 136; 168; 168; 80; 0; 0; 0; 136; 80; 32; 80; 136; 0; 0; 0; 136; 136; 120; 8; 112; 0;
  0; 0; 248; 16; 32; 64; 248; 0; 16; 32; 32; 64; 32; 32; 16; 0; 32; 32; 32; 0; 32; 32; 32; 0;
  64; 32; 32; 16; 32; 32; 64; 0; 64; 168; 16; 0; 0; 0; 0; 0; 0; 0; 0; 0; 0; 0; 0; 0 ].

Definition Font6x12 : list Z := [
  0; 0; 0; 0; 0; 0; 0; 0; 0; 0; 0; 0; 0; 0; 4; 4; 4; 4; 4; 0; 0; 4; 0; 0;
  20; 20; 10; 0; 0; 0; 0; 0; 0; 0; 0; 0; 0; 0; 10; 10; 31; 10; 10; 31; 10; 10; 0; 0;
  0; 4; 14; 21; 5; 6; 12; 20; 21; 14; 4; 0; 0; 0; 18; 21; 13; 21; 46; 44; 42; 18; 0; 0;
  0; 0; 4; 10; 10; 54; 21; 21; 41; 22; 0; 0; 2; 2; 1; 0; 0; 0; 0; 0; 0; 0; 0; 0;
  16; 8; 8; 4; 4; 4; 4; 4; 8; 8; 16; 0; 2; 4; 4; 8; 8; 8; 8; 8; 4; 4; 2; 0;
  0; 0; 0; 4; 21; 14; 14; 21; 4; 0; 0; 0; 0; 0; 0; 8; 8; 62; 8; 8; 0; 0; 0; 0;
  0; 0; 0; 0; 0; 0; 0; 0; 2; 2; 1; 0; 0; 0; 0; 0; 0; 63; 0; 0; 0; 0; 0; 0;
  0; 0; 0; 0; 0; 0; 0; 0; 0; 2; 0; 0; 0; 32; 16; 16; 8; 8; 4; 4; 2; 2; 1; 0;
  0; 0; 14; 17; 17; 17; 17; 17; 17; 14; 0; 0; 0; 0; 4; 6; 4; 4; 4; 4; 4; 14; 0; 0;
  0; 0; 14; 17; 17; 8; 4; 2; 1; 31; 0; 0; 0; 0; 14; 17; 16; 12; 16; 16; 17; 14; 0; 0;
  0; 0; 8; 12; 12; 10; 9; 31; 8; 28; 0; 0; 0; 0; 31; 1; 1; 15; 17; 16; 17; 14; 0; 0;
  0; 0; 12; 18; 1; 13; 19; 17; 17; 14; 0; 0; 0; 0; 30; 16; 8; 8; 4; 4; 4; 4; 0; 0;
  0; 0; 14; 17; 17; 14; 17; 17; 17; 14; 0; 0; 0; 0; 14; 17; 17; 25; 22; 16; 9; 6; 0; 0;
  0; 0; 0; 0; 4; 0; 0; 0; 0; 4; 0; 0; 0; 0; 0; 0; 0; 4; 0; 0; 0; 4; 4; 0;
  0; 0; 16; 8; 4; 2; 2; 4; 8; 16; 0; 0; 0; 0; 0; 0; 63; 0; 63; 0; 0; 0; 0; 0;
  0; 0; 2; 4; 8; 16; 16; 8; 4; 2; 0; 0; 0; 0; 14; 17; 17; 8; 4; 4; 0; 4; 0; 0;
  0; 0; 28; 34; 41; 45; 45; 29; 34; 28; 0; 0; 0; 0; 4; 4; 12; 10; 10; 30; 18; 51; 0; 0;
  0; 0; 15; 18; 18; 14; 18; 18; 18; 15; 0; 0; 0; 0; 30; 17; 1; 1; 1; 1; 17; 14; 0; 0;
  0; 0; 15; 18; 18; 18; 18; 18; 18; 15; 0; 0; 0; 0; 31; 18; 10; 14; 10; 2; 18; 31; 0; 0;
  0; 0; 31; 18; 10; 14; 10; 2; 2; 7; 0; 0; 0; 0; 28; 18; 1; 1; 57; 17; 18; 12; 0; 0;
  0; 0; 51; 18; 18; 30; 18; 18; 18; 51; 0; 0; 0; 0; 31; 4; 4; 4; 4; 4; 4; 31; 0; 0;
  0; 0; 62; 8; 8; 8; 8; 8; 8; 8; 9; 7; 0; 0; 55; 18; 10; 6; 10; 18; 18; 55; 0; 0;
  0; 0; 7; 2; 2; 2; 2; 2; 34; 63; 0; 0; 0; 0; 59; 27; 27; 27; 21; 21; 21; 53; 0; 0;
  0; 0; 59; 18; 22; 22; 26; 26; 18; 23; 0; 0; 0; 0; 14; 17; 17; 17; 17; 17; 17; 14; 0; 0;
  0; 0; 15; 18; 18; 14; 2; 2; 2; 7; 0; 0; 0; 0; 14; 17; 17; 17; 17; 23; 25; 14; 24; 0;
  0; 0; 15; 18; 18; 14; 10; 18; 18; 55; 0; 0; 0; 0; 30; 17; 1; 6; 8; 16; 17; 15; 0; 0;
  0; 0; 31; 21; 4; 4; 4; 4; 4; 14; 0; 0; 0; 0; 51; 18; 18; 18; 18; 18; 18; 12; 0; 0;
  0; 0; 51; 18; 18; 10; 10; 12; 4; 4; 0; 0; 0; 0; 21; 21; 21; 21; 14; 10; 10; 10; 0; 0;
  0; 0; 27; 10; 10; 4; 4; 10; 10; 27; 0; 0; 0; 0; 27; 10; 10; 10; 4; 4; 4; 14; 0; 0;
  0; 0; 31; 9; 8; 4; 4; 2; 18; 31; 0; 0; 28; 4; 4; 4; 4; 4; 4; 4; 4; 4; 28; 0;
  0; 2; 2; 4; 4; 4; 8; 8; 8; 16; 16; 0; 14; 8; 8; 8; 8; 8; 8; 8; 8; 8; 14; 0;
  4; 10; 0; 0; 0; 0; 0; 0; 0; 0; 0; 0; 0; 0; 0; 0; 0; 0; 0; 0; 0; 0; 0; 63;
  2; 4; 0; 0; 0; 0; 0; 0; 0; 0; 0; 0; 0; 0; 0; 0; 0; 12; 18; 28; 18; 60; 0; 0;
  0; 3; 2; 2; 2; 14; 18; 18; 18; 14; 0; 0; 0; 0; 0; 0; 0; 28; 18; 2; 18; 12; 0; 0;
  0; 24; 16; 16; 16; 28; 18; 18; 18; 60; 0; 0; 0; 0; 0; 0; 0; 12; 18; 30; 2; 28; 0; 0;
  0; 24; 36; 4; 4; 30; 4; 4; 4; 30; 0; 0; 0; 0; 0; 0; 0; 60; 18; 12; 2; 28; 34; 28;
  0; 3; 2; 2; 2; 14; 18; 18; 18; 55; 0; 0; 0; 4; 4; 0; 0; 6; 4; 4; 4; 14; 0; 0;
  0; 8; 8; 0; 0; 12; 8; 8; 8; 8; 8; 7; 0; 3; 2; 2; 2; 26; 10; 6; 10; 19; 0; 0;
  0; 7; 4; 4; 4; 4; 4; 4; 4; 31; 0; 0; 0; 0; 0; 0; 0; 15; 21; 21; 21; 21; 0; 0;
  0; 0; 0; 0; 0; 15; 18; 18; 18; 55; 0; 0; 0; 0; 0; 0; 0; 12; 18; 18; 18; 12; 0; 0;
  0; 0; 0; 0; 0; 15; 18; 18; 18; 14; 2; 7; 0; 0; 0; 0; 0; 28; 18; 18; 18; 28; 16; 56;
  0; 0; 0; 0; 0; 27; 6; 2; 2; 7; 0; 0; 0; 0; 0; 0; 0; 30; 2; 12; 16; 30; 0; 0;
  0; 0; 0; 4; 4; 30; 4; 4; 4; 28; 0; 0; 0; 0; 0; 0; 0; 27; 18; 18; 18; 60; 0; 0;
  0; 0; 0; 0; 0; 27; 10; 10; 4; 4; 0; 0; 0; 0; 0; 0; 0; 21; 21; 14; 10; 10; 0; 0;
  0; 0; 0; 0; 0; 27; 10; 4; 10; 27; 0; 0; 0; 0; 0; 0; 0; 51; 18; 18; 12; 8; 4; 3;
  0; 0; 0; 0; 0; 30; 8; 4; 4; 30; 0; 0; 24; 8; 8; 8; 8; 12; 8; 8; 8; 8; 24; 0;
  8; 8; 8; 8; 8; 8; 8; 8; 8; 8; 8; 8; 6; 4; 4; 4; 4; 8; 4; 4; 4; 4; 6; 0;
  22; 9; 0; 0; 0; 0; 0; 0; 0; 0; 0; 0 ].

Definition Font7x10 : list Z := [
  0; 0; 0; 0; 0; 0; 0; 0; 0; 0; 16; 16; 16; 16; 16; 16; 0; 16; 0; 0; 40; 40; 40; 0;
  0; 0; 0; 0; 0; 0; 36; 36; 124; 36; 72; 124; 72; 72; 0; 0; 56; 84; 80; 56; 20; 84; 84; 56;
  16; 0; 32; 84; 88; 48; 40; 84; 20; 8; 0; 0; 16; 40; 40; 16; 52; 72; 72; 52; 0; 0; 16; 16;
  16; 0; 0; 0; 0; 0; 0; 0; 8; 16; 32; 32; 32; 32; 32; 32; 16; 8; 32; 16; 8; 8; 8; 8;
  8; 8; 16; 32; 16; 56; 16; 40; 0; 0; 0; 0; 0; 0; 0; 0; 16; 16; 124; 16; 16; 0; 0; 0;
  0; 0; 0; 0; 0; 0; 0; 16; 16; 16; 0; 0; 0; 0; 0; 56; 0; 0; 0; 0; 0; 0; 0; 0;
  0; 0; 0; 16; 0; 0; 8; 8; 16; 16; 16; 16; 32; 32; 0; 0; 56; 68; 68; 84; 68; 68; 68; 56;
  0; 0; 16; 48; 80; 16; 16; 16; 16; 16; 0; 0; 56; 68; 68; 4; 8; 16; 32; 124; 0; 0; 56; 68;
  4; 24; 4; 4; 68; 56; 0; 0; 8; 24; 40; 40; 72; 124; 8; 8; 0; 0; 124; 64; 64; 120; 4; 4;
  68; 56; 0; 0; 56; 68; 64; 120; 68; 68; 68; 56; 0; 0; 124; 4; 8; 16; 16; 32; 32; 32; 0; 0;
  56; 68; 68; 56; 68; 68; 68; 56; 0; 0; 56; 68; 68; 68; 60; 4; 68; 56; 0; 0; 0; 0; 16; 0;
  0; 0; 0; 16; 0; 0; 0; 0; 0; 16; 0; 0; 0; 16; 16; 16; 0; 0; 12; 48; 64; 48; 12; 0;
  0; 0; 0; 0; 0; 124; 0; 124; 0; 0; 0; 0; 0; 0; 96; 24; 4; 24; 96; 0; 0; 0; 56; 68;
  4; 8; 16; 16; 0; 16; 0; 0; 56; 68; 76; 84; 92; 64; 64; 56; 0; 0; 16; 40; 40; 40; 40; 124;
  68; 68; 0; 0; 120; 68; 68; 120; 68; 68; 68; 120; 0; 0; 56; 68; 64; 64; 64; 64; 68; 56; 0; 0;
  112; 72; 68; 68; 68; 68; 72; 112; 0; 0; 124; 64; 64; 124; 64; 64; 64; 124; 0; 0; 124; 64; 64; 120;
  64; 64; 64; 64; 0; 0; 56; 68; 64; 64; 92; 68; 68; 56; 0; 0; 68; 68; 68; 124; 68; 68; 68; 68;
  0; 0; 56; 16; 16; 16; 16; 16; 16; 56; 0; 0; 4; 4; 4; 4; 4; 4; 68; 56; 0; 0; 68; 72;
  80; 96; 80; 72; 72; 68; 0; 0; 64; 64; 64; 64; 64; 64; 64; 124; 0; 0; 68; 108; 108; 84; 68; 68;
  68; 68; 0; 0; 68; 100; 100; 84; 84; 76; 76; 68; 0; 0; 56; 68; 68; 68; 68; 68; 68; 56; 0; 0;
  120; 68; 68; 68; 120; 64; 64; 64; 0; 0; 56; 68; 68; 68; 68; 68; 84; 56; 4; 0; 120; 68; 68; 68;
  120; 72; 72; 68; 0; 0; 56; 68; 64; 48; 8; 4; 68; 56; 0; 0; 124; 16; 16; 16; 16; 16; 16; 16;
  0; 0; 68; 68; 68; 68; 68; 68; 68; 56; 0; 0; 68; 68; 68; 40; 40; 40; 16; 16; 0; 0; 68; 68;
  84; 84; 84; 108; 40; 40; 0; 0; 68; 40; 40; 16; 16; 40; 40; 68; 0; 0; 68; 68; 40; 40; 16; 16;
  16; 16; 0; 0; 124; 4; 8; 16; 16; 32; 64; 124; 0; 0; 24; 16; 16; 16; 16; 16; 16; 16; 16; 24;
  32; 32; 16; 16; 16; 16; 8; 8; 0; 0; 48; 16; 16; 16; 16; 16; 16; 16; 16; 48; 16; 40; 40; 68;
  0; 0; 0; 0; 0; 0; 0; 0; 0; 0; 0; 0; 0; 0; 0; 254; 32; 16; 0; 0; 0; 0; 0; 0;
  0; 0; 0; 0; 56; 68; 60; 68; 76; 52; 0; 0; 64; 64; 88; 100; 68; 68; 100; 88; 0; 0; 0; 0;
  56; 68; 64; 64; 68; 56; 0; 0; 4; 4; 52; 76; 68; 68; 76; 52; 0; 0; 0; 0; 56; 68; 124; 64;
  68; 56; 0; 0; 12; 16; 124; 16; 16; 16; 16; 16; 0; 0; 0; 0; 52; 76; 68; 68; 76; 52; 4; 120;
  64; 64; 88; 100; 68; 68; 68; 68; 0; 0; 16; 0; 112; 16; 16; 16; 16; 16; 0; 0; 16; 0; 112; 16;
  16; 16; 16; 16; 16; 224; 64; 64; 72; 80; 96; 80; 72; 68; 0; 0; 112; 16; 16; 16; 16; 16; 16; 16;
  0; 0; 0; 0; 120; 84; 84; 84; 84; 84; 0; 0; 0; 0; 88; 100; 68; 68; 68; 68; 0; 0; 0; 0;
  56; 68; 68; 68; 68; 56; 0; 0; 0; 0; 88; 100; 68; 68; 100; 88; 64; 64; 0; 0; 52; 76; 68; 68;
  76; 52; 4; 4; 0; 0; 88; 100; 64; 64; 64; 64; 0; 0; 0; 0; 56; 68; 48; 8; 68; 56; 0; 0;
  32; 32; 120; 32; 32; 32; 32; 24; 0; 0; 0; 0; 68; 68; 68; 68; 76; 52; 0; 0; 0; 0; 68; 68;
  40; 40; 40; 16; 0; 0; 0; 0; 84; 84; 84; 108; 40; 40; 0; 0; 0; 0; 68; 40; 16; 16; 40; 68;
  0; 0; 0; 0; 68; 68; 40; 40; 16; 16; 16; 96; 0; 0; 124; 8; 16; 32; 64; 124; 0; 0; 24; 16;
  16; 16; 32; 32; 16; 16; 16; 24; 16; 16; 16; 16; 16; 16; 16; 16; 16; 16; 48; 16; 16; 16; 8; 8;
  16; 16; 16; 48; 0; 0; 0; 116; 76; 0; 0; 0; 0; 0 ].

Definition Font8x16 : list Z := [
  0; 0; 0; 0; 0; 0; 0; 0; 0; 0; 0; 0; 0; 0; 0; 0; 0; 0; 0; 8; 8; 8; 8; 8;
  8; 8; 0; 0; 24; 24; 0; 0; 0; 72; 108; 36; 18; 0; 0; 0; 0; 0; 0; 0; 0; 0; 0; 0;
  0; 0; 0; 36; 36; 36; 127; 18; 18; 18; 127; 18; 18; 18; 0; 0; 0; 0; 8; 28; 42; 42; 10; 12;
  24; 40; 40; 42; 42; 28; 8; 8; 0; 0; 0; 34; 37; 21; 21; 21; 42; 88; 84; 84; 84; 34; 0; 0;
  0; 0; 0; 12; 18; 18; 18; 10; 118; 37; 41; 17; 145; 110; 0; 0; 0; 6; 6; 4; 3; 0; 0; 0;
  0; 0; 0; 0; 0; 0; 0; 0; 0; 64; 32; 16; 16; 8; 8; 8; 8; 8; 8; 16; 16; 32; 64; 0;
  0; 2; 4; 8; 8; 16; 16; 16; 16; 16; 16; 8; 8; 4; 2; 0; 0; 0; 0; 0; 8; 8; 107; 28;
  28; 107; 8; 8; 0; 0; 0; 0; 0; 0; 0; 0; 8; 8; 8; 8; 127; 8; 8; 8; 8; 0; 0; 0;
  0; 0; 0; 0; 0; 0; 0; 0; 0; 0; 0; 0; 6; 6; 4; 3; 0; 0; 0; 0; 0; 0; 0; 0;
  254; 0; 0; 0; 0; 0; 0; 0; 0; 0; 0; 0; 0; 0; 0; 0; 0; 0; 0; 0; 6; 6; 0; 0;
  0; 0; 128; 64; 64; 32; 32; 16; 16; 8; 8; 4; 4; 2; 2; 0; 0; 0; 0; 24; 36; 66; 66; 66;
  66; 66; 66; 66; 36; 24; 0; 0; 0; 0; 0; 8; 14; 8; 8; 8; 8; 8; 8; 8; 8; 62; 0; 0;
  0; 0; 0; 60; 66; 66; 66; 32; 32; 16; 8; 4; 66; 126; 0; 0; 0; 0; 0; 60; 66; 66; 32; 24;
  32; 64; 64; 66; 34; 28; 0; 0; 0; 0; 0; 32; 48; 40; 36; 36; 34; 34; 126; 32; 32; 120; 0; 0;
  0; 0; 0; 126; 2; 2; 2; 26; 38; 64; 64; 66; 34; 28; 0; 0; 0; 0; 0; 56; 36; 2; 2; 26;
  38; 66; 66; 66; 36; 24; 0; 0; 0; 0; 0; 126; 34; 34; 16; 16; 8; 8; 8; 8; 8; 8; 0; 0;
  0; 0; 0; 60; 66; 66; 66; 36; 24; 36; 66; 66; 66; 60; 0; 0; 0; 0; 0; 24; 36; 66; 66; 66;
  100; 88; 64; 64; 36; 28; 0; 0; 0; 0; 0; 0; 0; 0; 24; 24; 0; 0; 0; 0; 24; 24; 0; 0;
  0; 0; 0; 0; 0; 0; 0; 8; 0; 0; 0; 0; 0; 8; 8; 4; 0; 0; 0; 64; 32; 16; 8; 4;
  2; 4; 8; 16; 32; 64; 0; 0; 0; 0; 0; 0; 0; 0; 127; 0; 0; 0; 127; 0; 0; 0; 0; 0;
  0; 0; 0; 2; 4; 8; 16; 32; 64; 32; 16; 8; 4; 2; 0; 0; 0; 0; 0; 60; 66; 66; 70; 64;
  32; 16; 16; 0; 24; 24; 0; 0; 0; 0; 0; 28; 34; 90; 85; 85; 85; 85; 45; 66; 34; 28; 0; 0;
  0; 0; 0; 8; 8; 24; 20; 20; 36; 60; 34; 66; 66; 231; 0; 0; 0; 0; 0; 31; 34; 34; 34; 30;
  34; 66; 66; 66; 34; 31; 0; 0; 0; 0; 0; 124; 66; 66; 1; 1; 1; 1; 1; 66; 34; 28; 0; 0;
  0; 0; 0; 31; 34; 66; 66; 66; 66; 66; 66; 66; 34; 31; 0; 0; 0; 0; 0; 63; 66; 18; 18; 30;
  18; 18; 2; 66; 66; 63; 0; 0; 0; 0; 0; 63; 66; 18; 18; 30; 18; 18; 2; 2; 2; 7; 0; 0;
  0; 0; 0; 60; 34; 34; 1; 1; 1; 113; 33; 34; 34; 28; 0; 0; 0; 0; 0; 231; 66; 66; 66; 66;
  126; 66; 66; 66; 66; 231; 0; 0; 0; 0; 0; 62; 8; 8; 8; 8; 8; 8; 8; 8; 8; 62; 0; 0;
  0; 0; 0; 124; 16; 16; 16; 16; 16; 16; 16; 16; 16; 16; 17; 15; 0; 0; 0; 119; 34; 18; 10; 14;
  10; 18; 18; 34; 34; 119; 0; 0; 0; 0; 0; 7; 2; 2; 2; 2; 2; 2; 2; 2; 66; 127; 0; 0;
  0; 0; 0; 119; 54; 54; 54; 54; 42; 42; 42; 42; 42; 107; 0; 0; 0; 0; 0; 227; 70; 70; 74; 74;
  82; 82; 82; 98; 98; 71; 0; 0; 0; 0; 0; 28; 34; 65; 65; 65; 65; 65; 65; 65; 34; 28; 0; 0;
  0; 0; 0; 63; 66; 66; 66; 66; 62; 2; 2; 2; 2; 7; 0; 0; 0; 0; 0; 28; 34; 65; 65; 65;
  65; 65; 77; 83; 50; 28; 96; 0; 0; 0; 0; 63; 66; 66; 66; 62; 18; 18; 34; 34; 66; 199; 0; 0;
  0; 0; 0; 124; 66; 66; 2; 4; 24; 32; 64; 66; 66; 62; 0; 0; 0; 0; 0; 127; 73; 8; 8; 8;
  8; 8; 8; 8; 8; 28; 0; 0; 0; 0; 0; 231; 66; 66; 66; 66; 66; 66; 66; 66; 66; 60; 0; 0;
  0; 0; 0; 231; 66; 66; 34; 36; 36; 20; 20; 24; 8; 8; 0; 0; 0; 0; 0; 107; 73; 73; 73; 73;
  85; 85; 54; 34; 34; 34; 0; 0; 0; 0; 0; 231; 66; 36; 36; 24; 24; 24; 36; 36; 66; 231; 0; 0;
  0; 0; 0; 119; 34; 34; 20; 20; 8; 8; 8; 8; 8; 28; 0; 0; 0; 0; 0; 126; 33; 32; 16; 16;
  8; 4; 4; 66; 66; 63; 0; 0; 0; 120; 8; 8; 8; 8; 8; 8; 8; 8; 8; 8; 8; 8; 120; 0;
  0; 0; 2; 2; 4; 4; 8; 8; 8; 16; 16; 32; 32; 32; 64; 64; 0; 30; 16; 16; 16; 16; 16; 16;
  16; 16; 16; 16; 16; 16; 30; 0; 0; 56; 68; 0; 0; 0; 0; 0; 0; 0; 0; 0; 0; 0; 0; 0;
  0; 0; 0; 0; 0; 0; 0; 0; 0; 0; 0; 0; 0; 0; 0; 255; 0; 6; 8; 0; 0; 0; 0; 0;
  0; 0; 0; 0; 0; 0; 0; 0; 0; 0; 0; 0; 0; 0; 0; 60; 66; 120; 68; 66; 66; 252; 0; 0;
  0; 0; 0; 3; 2; 2; 2; 26; 38; 66; 66; 66; 38; 26; 0; 0; 0; 0; 0; 0; 0; 0; 0; 56;
  68; 2; 2; 2; 68; 56; 0; 0; 0; 0; 0; 96; 64; 64; 64; 120; 68; 66; 66; 66; 100; 216; 0; 0;
  0; 0; 0; 0; 0; 0; 0; 60; 66; 126; 2; 2; 66; 60; 0; 0; 0; 0; 0; 240; 136; 8; 8; 126;
  8; 8; 8; 8; 8; 62; 0; 0; 0; 0; 0; 0; 0; 0; 0; 124; 34; 34; 28; 2; 60; 66; 66; 60;
  0; 0; 0; 3; 2; 2; 2; 58; 70; 66; 66; 66; 66; 231; 0; 0; 0; 0; 0; 12; 12; 0; 0; 14;
  8; 8; 8; 8; 8; 62; 0; 0; 0; 0; 0; 48; 48; 0; 0; 56; 32; 32; 32; 32; 32; 32; 34; 30;
  0; 0; 0; 3; 2; 2; 2; 114; 18; 10; 22; 18; 34; 119; 0; 0; 0; 0; 0; 14; 8; 8; 8; 8;
  8; 8; 8; 8; 8; 62; 0; 0; 0; 0; 0; 0; 0; 0; 0; 127; 146; 146; 146; 146; 146; 183; 0; 0;
  0; 0; 0; 0; 0; 0; 0; 59; 70; 66; 66; 66; 66; 231; 0; 0; 0; 0; 0; 0; 0; 0; 0; 60;
  66; 66; 66; 66; 66; 60; 0; 0; 0; 0; 0; 0; 0; 0; 0; 27; 38; 66; 66; 66; 34; 30; 2; 7;
  0; 0; 0; 0; 0; 0; 0; 120; 68; 66; 66; 66; 68; 120; 64; 224; 0; 0; 0; 0; 0; 0; 0; 119;
  76; 4; 4; 4; 4; 31; 0; 0; 0; 0; 0; 0; 0; 0; 0; 124; 66; 2; 60; 64; 66; 62; 0; 0;
  0; 0; 0; 0; 0; 8; 8; 62; 8; 8; 8; 8; 8; 48; 0; 0; 0; 0; 0; 0; 0; 0; 0; 99;
  66; 66; 66; 66; 98; 220; 0; 0; 0; 0; 0; 0; 0; 0; 0; 231; 66; 36; 36; 20; 8; 8; 0; 0;
  0; 0; 0; 0; 0; 0; 0; 235; 73; 73; 85; 85; 34; 34; 0; 0; 0; 0; 0; 0; 0; 0; 0; 118;
  36; 24; 24; 24; 36; 110; 0; 0; 0; 0; 0; 0; 0; 0; 0; 231; 66; 36; 36; 20; 24; 8; 8; 7;
  0; 0; 0; 0; 0; 0; 0; 126; 34; 16; 8; 8; 68; 126; 0; 0; 0; 192; 32; 32; 32; 32; 32; 16;
  32; 32; 32; 32; 32; 32; 192; 0; 16; 16; 16; 16; 16; 16; 16; 16; 16; 16; 16; 16; 16; 16; 16; 16;
  0; 6; 8; 8; 8; 8; 8; 16; 8; 8; 8; 8; 8; 8; 6; 0; 12; 50; 194; 0; 0; 0; 0; 0;
  0; 0; 0; 0; 0; 0; 0; 0 ].

Definition Font11x18 : list Z := [
  0; 0; 0; 0; 0; 0; 0; 0; 0; 0; 0; 0; 0; 0; 0; 0; 0; 0; 0; 0; 0; 0; 0; 0;
  0; 0; 0; 0; 0; 0; 0; 0; 0; 0; 0; 0; 0; 0; 12; 0; 12; 0; 12; 0; 12; 0; 12; 0;
  12; 0; 12; 0; 12; 0; 12; 0; 12; 0; 12; 0; 0; 0; 12; 0; 12; 0; 0; 0; 0; 0; 0; 0;
  0; 0; 27; 0; 27; 0; 27; 0; 27; 0; 27; 0; 0; 0; 0; 0; 0; 0; 0; 0; 0; 0; 0; 0;
  0; 0; 0; 0; 0; 0; 0; 0; 0; 0; 0; 0; 0; 0; 25; 128; 25; 128; 25; 128; 25; 128; 127; 192;
  127; 192; 25; 128; 51; 0; 127; 192; 127; 192; 51; 0; 51; 0; 51; 0; 51; 0; 0; 0; 0; 0; 0; 0;
  0; 0; 30; 0; 63; 0; 117; 128; 101; 128; 116; 0; 60; 0; 30; 0; 7; 0; 5; 128; 101; 128; 101; 128;
  117; 128; 63; 0; 30; 0; 4; 0; 4; 0; 0; 0; 0; 0; 112; 0; 216; 0; 216; 64; 216; 192; 217; 128;
  115; 0; 6; 0; 12; 0; 27; 128; 54; 192; 102; 192; 70; 192; 6; 192; 3; 128; 0; 0; 0; 0; 0; 0;
  0; 0; 30; 0; 63; 0; 51; 0; 51; 0; 51; 0; 30; 0; 12; 0; 60; 192; 102; 192; 99; 128; 97; 128;
  99; 128; 62; 192; 28; 128; 0; 0; 0; 0; 0; 0; 0; 0; 12; 0; 12; 0; 12; 0; 12; 0; 12; 0;
  0; 0; 0; 0; 0; 0; 0; 0; 0; 0; 0; 0; 0; 0; 0; 0; 0; 0; 0; 0; 0; 0; 0; 0;
  0; 128; 1; 0; 3; 0; 6; 0; 6; 0; 4; 0; 12; 0; 12; 0; 12; 0; 12; 0; 12; 0; 12; 0;
  4; 0; 6; 0; 6; 0; 3; 0; 1; 0; 0; 128; 32; 0; 16; 0; 24; 0; 12; 0; 12; 0; 4; 0;
  6; 0; 6; 0; 6; 0; 6; 0; 6; 0; 6; 0; 4; 0; 12; 0; 12; 0; 24; 0; 16; 0; 32; 0;
  0; 0; 12; 0; 45; 0; 63; 0; 30; 0; 51; 0; 0; 0; 0; 0; 0; 0; 0; 0; 0; 0; 0; 0;
  0; 0; 0; 0; 0; 0; 0; 0; 0; 0; 0; 0; 0; 0; 0; 0; 0; 0; 12; 0; 12; 0; 12; 0;
  12; 0; 255; 192; 255; 192; 12; 0; 12; 0; 12; 0; 12; 0; 0; 0; 0; 0; 0; 0; 0; 0; 0; 0;
  0; 0; 0; 0; 0; 0; 0; 0; 0; 0; 0; 0; 0; 0; 0; 0; 0; 0; 0; 0; 0; 0; 0; 0;
  0; 0; 12; 0; 12; 0; 4; 0; 4; 0; 8; 0; 0; 0; 0; 0; 0; 0; 0; 0; 0; 0; 0; 0;
  0; 0; 0; 0; 0; 0; 30; 0; 30; 0; 0; 0; 0; 0; 0; 0; 0; 0; 0; 0; 0; 0; 0; 0;
  0; 0; 0; 0; 0; 0; 0; 0; 0; 0; 0; 0; 0; 0; 0; 0; 0; 0; 0; 0; 0; 0; 0; 0;
  0; 0; 12; 0; 12; 0; 0; 0; 0; 0; 0; 0; 0; 0; 3; 0; 3; 0; 3; 0; 6; 0; 6; 0;
  6; 0; 6; 0; 12; 0; 12; 0; 12; 0; 12; 0; 24; 0; 24; 0; 24; 0; 0; 0; 0; 0; 0; 0;
  0; 0; 30; 0; 63; 0; 51; 0; 97; 128; 97; 128; 97; 128; 109; 128; 109; 128; 97; 128; 97; 128; 97; 128;
  51; 0; 63; 0; 30; 0; 0; 0; 0; 0; 0; 0; 0; 0; 6; 0; 14; 0; 30; 0; 54; 0; 38; 0;
  6; 0; 6; 0; 6; 0; 6; 0; 6; 0; 6; 0; 6; 0; 6; 0; 6; 0; 0; 0; 0; 0; 0; 0;
  0; 0; 30; 0; 63; 0; 115; 128; 97; 128; 97; 128; 1; 128; 3; 0; 6; 0; 12; 0; 24; 0; 48; 0;
  96; 0; 127; 128; 127; 128; 0; 0; 0; 0; 0; 0; 0; 0; 28; 0; 62; 0; 99; 0; 99; 0; 3; 0;
  14; 0; 14; 0; 3; 0; 1; 128; 1; 128; 97; 128; 115; 128; 63; 0; 30; 0; 0; 0; 0; 0; 0; 0;
  0; 0; 6; 0; 14; 0; 14; 0; 30; 0; 30; 0; 22; 0; 54; 0; 54; 0; 102; 0; 127; 128; 127; 128;
  6; 0; 6; 0; 6; 0; 0; 0; 0; 0; 0; 0; 0; 0; 127; 0; 127; 0; 96; 0; 96; 0; 96; 0;
  110; 0; 127; 0; 99; 128; 1; 128; 1; 128; 97; 128; 115; 128; 63; 0; 30; 0; 0; 0; 0; 0; 0; 0;
  0; 0; 30; 0; 63; 0; 51; 128; 97; 128; 96; 0; 110; 0; 127; 0; 115; 128; 97; 128; 97; 128; 97; 128;
  51; 128; 63; 0; 30; 0; 0; 0; 0; 0; 0; 0; 0; 0; 127; 128; 127; 128; 1; 128; 3; 0; 3; 0;
  6; 0; 6; 0; 12; 0; 12; 0; 12; 0; 8; 0; 24; 0; 24; 0; 24; 0; 0; 0; 0; 0; 0; 0;
  0; 0; 30; 0; 63; 0; 99; 128; 97; 128; 97; 128; 33; 0; 30; 0; 63; 0; 97; 128; 97; 128; 97; 128;
  97; 128; 63; 0; 30; 0; 0; 0; 0; 0; 0; 0; 0; 0; 30; 0; 63; 0; 115; 0; 97; 128; 97; 128;
  97; 128; 115; 128; 63; 128; 29; 128; 1; 128; 97; 128; 115; 0; 63; 0; 30; 0; 0; 0; 0; 0; 0; 0;
  0; 0; 0; 0; 0; 0; 0; 0; 0; 0; 12; 0; 12; 0; 0; 0; 0; 0; 0; 0; 0; 0; 0; 0;
  0; 0; 12; 0; 12; 0; 0; 0; 0; 0; 0; 0; 0; 0; 0; 0; 0; 0; 0; 0; 0; 0; 0; 0;
  12; 0; 12; 0; 0; 0; 0; 0; 0; 0; 0; 0; 0; 0; 12; 0; 12; 0; 4; 0; 4; 0; 8; 0;
  0; 0; 0; 0; 0; 0; 0; 0; 0; 128; 3; 128; 14; 0; 56; 0; 96; 0; 56; 0; 14; 0; 3; 128;
  0; 128; 0; 0; 0; 0; 0; 0; 0; 0; 0; 0; 0; 0; 0; 0; 0; 0; 0; 0; 0; 0; 127; 128;
  127; 128; 0; 0; 0; 0; 127; 128; 127; 128; 0; 0; 0; 0; 0; 0; 0; 0; 0; 0; 0; 0; 0; 0;
  0; 0; 0; 0; 0; 0; 0; 0; 64; 0; 112; 0; 28; 0; 7; 0; 1; 128; 7; 0; 28; 0; 112; 0;
  64; 0; 0; 0; 0; 0; 0; 0; 0; 0; 0; 0; 0; 0; 31; 0; 63; 128; 113; 192; 96; 192; 0; 192;
  1; 192; 3; 128; 7; 0; 14; 0; 12; 0; 12; 0; 0; 0; 12; 0; 12; 0; 0; 0; 0; 0; 0; 0;
  0; 0; 30; 0; 63; 0; 49; 128; 113; 128; 99; 128; 111; 128; 109; 128; 109; 128; 111; 128; 103; 128; 96; 0;
  50; 0; 62; 0; 28; 0; 0; 0; 0; 0; 0; 0; 0; 0; 14; 0; 14; 0; 27; 0; 27; 0; 27; 0;
  27; 0; 49; 128; 49; 128; 63; 128; 63; 128; 49; 128; 96; 192; 96; 192; 96; 192; 0; 0; 0; 0; 0; 0;
  0; 0; 124; 0; 126; 0; 99; 0; 99; 0; 99; 0; 99; 0; 126; 0; 126; 0; 99; 0; 97; 128; 97; 128;
  99; 128; 127; 0; 126; 0; 0; 0; 0; 0; 0; 0; 0; 0; 30; 0; 63; 0; 49; 128; 97; 128; 96; 0;
  96; 0; 96; 0; 96; 0; 96; 0; 96; 0; 97; 128; 49; 128; 63; 0; 30; 0; 0; 0; 0; 0; 0; 0;
  0; 0; 124; 0; 127; 0; 99; 0; 99; 128; 97; 128; 97; 128; 97; 128; 97; 128; 97; 128; 97; 128; 99; 0;
  99; 0; 126; 0; 124; 0; 0; 0; 0; 0; 0; 0; 0; 0; 127; 128; 127; 128; 96; 0; 96; 0; 96; 0;
  96; 0; 127; 0; 127; 0; 96; 0; 96; 0; 96; 0; 96; 0; 127; 128; 127; 128; 0; 0; 0; 0; 0; 0;
  0; 0; 127; 128; 127; 128; 96; 0; 96; 0; 96; 0; 96; 0; 127; 0; 127; 0; 96; 0; 96; 0; 96; 0;
  96; 0; 96; 0; 96; 0; 0; 0; 0; 0; 0; 0; 0; 0; 30; 0; 63; 0; 49; 128; 97; 128; 96; 0;
  96; 0; 96; 0; 99; 128; 99; 128; 97; 128; 97; 128; 49; 128; 63; 128; 30; 0; 0; 0; 0; 0; 0; 0;
  0; 0; 97; 128; 97; 128; 97; 128; 97; 128; 97; 128; 97; 128; 127; 128; 127; 128; 97; 128; 97; 128; 97; 128;
  97; 128; 97; 128; 97; 128; 0; 0; 0; 0; 0; 0; 0; 0; 63; 0; 63; 0; 12; 0; 12; 0; 12; 0;
  12; 0; 12; 0; 12; 0; 12; 0; 12; 0; 12; 0; 12; 0; 63; 0; 63; 0; 0; 0; 0; 0; 0; 0;
  0; 0; 1; 128; 1; 128; 1; 128; 1; 128; 1; 128; 1; 128; 1; 128; 1; 128; 1; 128; 97; 128; 97; 128;
  115; 128; 63; 0; 30; 0; 0; 0; 0; 0; 0; 0; 0; 0; 96; 192; 97; 128; 99; 0; 102; 0; 102; 0;
  108; 0; 120; 0; 124; 0; 102; 0; 102; 0; 99; 0; 97; 128; 97; 128; 96; 192; 0; 0; 0; 0; 0; 0;
  0; 0; 96; 0; 96; 0; 96; 0; 96; 0; 96; 0; 96; 0; 96; 0; 96; 0; 96; 0; 96; 0; 96; 0;
  96; 0; 127; 128; 127; 128; 0; 0; 0; 0; 0; 0; 0; 0; 113; 192; 113; 192; 123; 192; 122; 192; 106; 192;
  106; 192; 110; 192; 100; 192; 96; 192; 96; 192; 96; 192; 96; 192; 96; 192; 96; 192; 0; 0; 0; 0; 0; 0;
  0; 0; 113; 128; 113; 128; 121; 128; 121; 128; 121; 128; 109; 128; 109; 128; 109; 128; 101; 128; 103; 128; 103; 128;
  103; 128; 99; 128; 99; 128; 0; 0; 0; 0; 0; 0; 0; 0; 30; 0; 63; 0; 51; 0; 97; 128; 97; 128;
  97; 128; 97; 128; 97; 128; 97; 128; 97; 128; 97; 128; 51; 0; 63; 0; 30; 0; 0; 0; 0; 0; 0; 0;
  0; 0; 126; 0; 127; 0; 99; 128; 97; 128; 97; 128; 97; 128; 99; 128; 127; 0; 126; 0; 96; 0; 96; 0;
  96; 0; 96; 0; 96; 0; 0; 0; 0; 0; 0; 0; 0; 0; 30; 0; 63; 0; 51; 0; 97; 128; 97; 128;
  97; 128; 97; 128; 97; 128; 97; 128; 101; 128; 103; 128; 51; 0; 63; 128; 30; 64; 0; 0; 0; 0; 0; 0;
  0; 0; 126; 0; 127; 0; 99; 128; 97; 128; 97; 128; 99; 128; 127; 0; 126; 0; 102; 0; 99; 0; 99; 0;
  97; 128; 97; 128; 96; 192; 0; 0; 0; 0; 0; 0; 0; 0; 14; 0; 31; 0; 49; 128; 49; 128; 48; 0;
  56; 0; 30; 0; 7; 0; 3; 128; 97; 128; 97; 128; 49; 128; 63; 0; 30; 0; 0; 0; 0; 0; 0; 0;
  0; 0; 255; 192; 255; 192; 12; 0; 12; 0; 12; 0; 12; 0; 12; 0; 12; 0; 12; 0; 12; 0; 12; 0;
  12; 0; 12; 0; 12; 0; 0; 0; 0; 0; 0; 0; 0; 0; 97; 128; 97; 128; 97; 128; 97; 128; 97; 128;
  97; 128; 97; 128; 97; 128; 97; 128; 97; 128; 97; 128; 115; 128; 63; 0; 30; 0; 0; 0; 0; 0; 0; 0;
  0; 0; 96; 192; 96; 192; 96; 192; 49; 128; 49; 128; 49; 128; 27; 0; 27; 0; 27; 0; 27; 0; 14; 0;
  14; 0; 14; 0; 4; 0; 0; 0; 0; 0; 0; 0; 0; 0; 192; 192; 192; 192; 192; 192; 192; 192; 192; 192;
  204; 192; 76; 128; 76; 128; 94; 128; 82; 128; 82; 128; 115; 128; 97; 128; 97; 128; 0; 0; 0; 0; 0; 0;
  0; 0; 192; 192; 96; 128; 97; 128; 51; 0; 59; 0; 30; 0; 12; 0; 12; 0; 30; 0; 31; 0; 59; 0;
  113; 128; 97; 128; 192; 192; 0; 0; 0; 0; 0; 0; 0; 0; 192; 192; 97; 128; 97; 128; 51; 0; 51; 0;
  30; 0; 30; 0; 12; 0; 12; 0; 12; 0; 12; 0; 12; 0; 12; 0; 12; 0; 0; 0; 0; 0; 0; 0;
  0; 0; 63; 128; 63; 128; 1; 128; 3; 0; 3; 0; 6; 0; 12; 0; 12; 0; 24; 0; 24; 0; 48; 0;
  96; 0; 127; 128; 127; 128; 0; 0; 0; 0; 0; 0; 15; 0; 15; 0; 12; 0; 12; 0; 12; 0; 12; 0;
  12; 0; 12; 0; 12; 0; 12; 0; 12; 0; 12; 0; 12; 0; 12; 0; 12; 0; 12; 0; 15; 0; 15; 0;
  0; 0; 24; 0; 24; 0; 24; 0; 12; 0; 12; 0; 12; 0; 12; 0; 6; 0; 6; 0; 6; 0; 6; 0;
  3; 0; 3; 0; 3; 0; 0; 0; 0; 0; 0; 0; 30; 0; 30; 0; 6; 0; 6; 0; 6; 0; 6; 0;
  6; 0; 6; 0; 6; 0; 6; 0; 6; 0; 6; 0; 6; 0; 6; 0; 6; 0; 6; 0; 30; 0; 30; 0;
  0; 0; 12; 0; 12; 0; 30; 0; 18; 0; 51; 0; 51; 0; 97; 128; 97; 128; 0; 0; 0; 0; 0; 0;
  0; 0; 0; 0; 0; 0; 0; 0; 0; 0; 0; 0; 0; 0; 0; 0; 0; 0; 0; 0; 0; 0; 0; 0;
  0; 0; 0; 0; 0; 0; 0; 0; 0; 0; 0; 0; 0; 0; 0; 0; 0; 0; 0; 0; 255; 224; 0; 0;
  0; 0; 56; 0; 24; 0; 12; 0; 0; 0; 0; 0; 0; 0; 0; 0; 0; 0; 0; 0; 0; 0; 0; 0;
  0; 0; 0; 0; 0; 0; 0; 0; 0; 0; 0; 0; 0; 0; 0; 0; 0; 0; 0; 0; 0; 0; 31; 0;
  63; 128; 97; 128; 1; 128; 31; 128; 63; 128; 97; 128; 99; 128; 127; 128; 56; 192; 0; 0; 0; 0; 0; 0;
  0; 0; 96; 0; 96; 0; 96; 0; 96; 0; 110; 0; 127; 0; 115; 128; 97; 128; 97; 128; 97; 128; 97; 128;
  115; 128; 127; 0; 110; 0; 0; 0; 0; 0; 0; 0; 0; 0; 0; 0; 0; 0; 0; 0; 0; 0; 30; 0;
  63; 0; 115; 128; 97; 128; 96; 0; 96; 0; 97; 128; 115; 128; 63; 0; 30; 0; 0; 0; 0; 0; 0; 0;
  0; 0; 1; 128; 1; 128; 1; 128; 1; 128; 29; 128; 63; 128; 115; 128; 97; 128; 97; 128; 97; 128; 97; 128;
  115; 128; 63; 128; 29; 128; 0; 0; 0; 0; 0; 0; 0; 0; 0; 0; 0; 0; 0; 0; 0; 0; 30; 0;
  63; 0; 115; 0; 97; 128; 127; 128; 127; 128; 96; 0; 113; 128; 63; 0; 30; 0; 0; 0; 0; 0; 0; 0;
  0; 0; 7; 192; 15; 192; 12; 0; 12; 0; 127; 128; 127; 128; 12; 0; 12; 0; 12; 0; 12; 0; 12; 0;
  12; 0; 12; 0; 12; 0; 0; 0; 0; 0; 0; 0; 0; 0; 0; 0; 0; 0; 0; 0; 29; 128; 63; 128;
  115; 128; 97; 128; 97; 128; 97; 128; 97; 128; 115; 128; 63; 128; 29; 128; 1; 128; 99; 128; 127; 0; 62; 0;
  0; 0; 96; 0; 96; 0; 96; 0; 96; 0; 111; 0; 127; 128; 113; 128; 97; 128; 97; 128; 97; 128; 97; 128;
  97; 128; 97; 128; 97; 128; 0; 0; 0; 0; 0; 0; 0; 0; 6; 0; 6; 0; 0; 0; 0; 0; 62; 0;
  62; 0; 6; 0; 6; 0; 6; 0; 6; 0; 6; 0; 6; 0; 6; 0; 6; 0; 0; 0; 0; 0; 0; 0;
  6; 0; 6; 0; 0; 0; 0; 0; 62; 0; 62; 0; 6; 0; 6; 0; 6; 0; 6; 0; 6; 0; 6; 0;
  6; 0; 6; 0; 6; 0; 70; 0; 126; 0; 60; 0; 0; 0; 96; 0; 96; 0; 96; 0; 96; 0; 97; 128;
  99; 0; 102; 0; 108; 0; 124; 0; 118; 0; 99; 0; 99; 0; 97; 128; 96; 192; 0; 0; 0; 0; 0; 0;
  0; 0; 62; 0; 62; 0; 6; 0; 6; 0; 6; 0; 6; 0; 6; 0; 6; 0; 6; 0; 6; 0; 6; 0;
  6; 0; 6; 0; 6; 0; 0; 0; 0; 0; 0; 0; 0; 0; 0; 0; 0; 0; 0; 0; 0; 0; 221; 128;
  255; 192; 206; 192; 204; 192; 204; 192; 204; 192; 204; 192; 204; 192; 204; 192; 204; 192; 0; 0; 0; 0; 0; 0;
  0; 0; 0; 0; 0; 0; 0; 0; 0; 0; 111; 0; 127; 128; 113; 128; 97; 128; 97; 128; 97; 128; 97; 128;
  97; 128; 97; 128; 97; 128; 0; 0; 0; 0; 0; 0; 0; 0; 0; 0; 0; 0; 0; 0; 0; 0; 30; 0;
  63; 0; 115; 128; 97; 128; 97; 128; 97; 128; 97; 128; 115; 128; 63; 0; 30; 0; 0; 0; 0; 0; 0; 0;
  0; 0; 0; 0; 0; 0; 0; 0; 110; 0; 127; 0; 115; 128; 97; 128; 97; 128; 97; 128; 97; 128; 115; 128;
  127; 0; 110; 0; 96; 0; 96; 0; 96; 0; 96; 0; 0; 0; 0; 0; 0; 0; 0; 0; 29; 128; 63; 128;
  115; 128; 97; 128; 97; 128; 97; 128; 97; 128; 115; 128; 63; 128; 29; 128; 1; 128; 1; 128; 1; 128; 1; 128;
  0; 0; 0; 0; 0; 0; 0; 0; 0; 0; 103; 0; 63; 128; 57; 0; 48; 0; 48; 0; 48; 0; 48; 0;
  48; 0; 48; 0; 48; 0; 0; 0; 0; 0; 0; 0; 0; 0; 0; 0; 0; 0; 0; 0; 0; 0; 30; 0;
  63; 128; 97; 128; 96; 0; 127; 0; 63; 128; 1; 128; 97; 128; 127; 0; 30; 0; 0; 0; 0; 0; 0; 0;
  0; 0; 0; 0; 8; 0; 24; 0; 24; 0; 127; 0; 127; 0; 24; 0; 24; 0; 24; 0; 24; 0; 24; 0;
  24; 0; 31; 128; 15; 128; 0; 0; 0; 0; 0; 0; 0; 0; 0; 0; 0; 0; 0; 0; 0; 0; 97; 128;
  97; 128; 97; 128; 97; 128; 97; 128; 97; 128; 97; 128; 99; 128; 127; 128; 61; 128; 0; 0; 0; 0; 0; 0;
  0; 0; 0; 0; 0; 0; 0; 0; 0; 0; 96; 192; 49; 128; 49; 128; 49; 128; 27; 0; 27; 0; 27; 0;
  14; 0; 14; 0; 6; 0; 0; 0; 0; 0; 0; 0; 0; 0; 0; 0; 0; 0; 0; 0; 0; 0; 221; 128;
  221; 128; 221; 128; 85; 0; 85; 0; 85; 0; 119; 0; 119; 0; 34; 0; 34; 0; 0; 0; 0; 0; 0; 0;
  0; 0; 0; 0; 0; 0; 0; 0; 0; 0; 97; 128; 51; 0; 51; 0; 30; 0; 12; 0; 12; 0; 30; 0;
  51; 0; 51; 0; 97; 128; 0; 0; 0; 0; 0; 0; 0; 0; 0; 0; 0; 0; 0; 0; 97; 128; 97; 128;
  49; 128; 51; 0; 51; 0; 27; 0; 27; 0; 27; 0; 14; 0; 14; 0; 14; 0; 28; 0; 124; 0; 112; 0;
  0; 0; 0; 0; 0; 0; 0; 0; 0; 0; 127; 192; 127; 192; 1; 128; 3; 0; 6; 0; 12; 0; 24; 0;
  48; 0; 127; 192; 127; 192; 0; 0; 0; 0; 0; 0; 3; 128; 7; 128; 6; 0; 6; 0; 6; 0; 6; 0;
  6; 0; 14; 0; 28; 0; 28; 0; 14; 0; 6; 0; 6; 0; 6; 0; 6; 0; 6; 0; 7; 128; 3; 128;
  6; 0; 6; 0; 6; 0; 6; 0; 6; 0; 6; 0; 6; 0; 6; 0; 6; 0; 6; 0; 6; 0; 6; 0;
  6; 0; 6; 0; 6; 0; 6; 0; 6; 0; 6; 0; 56; 0; 60; 0; 12; 0; 12; 0; 12; 0; 12; 0;
  12; 0; 14; 0; 7; 0; 7; 0; 14; 0; 12; 0; 12; 0; 12; 0; 12; 0; 12; 0; 60; 0; 56; 0;
  0; 0; 0; 0; 0; 0; 0; 0; 0; 0; 0; 0; 0; 0; 56; 128; 127; 128; 71; 0; 0; 0; 0; 0;
  0; 0; 0; 0; 0; 0; 0; 0; 0; 0; 0; 0 ].

Definition Font16x26 : list Z := [
  0; 0; 0; 0; 0; 0; 0; 0; 0; 0; 0; 0; 0; 0; 0; 0; 0; 0; 0; 0; 0; 0; 0; 0;
  0; 0; 0; 0; 0; 0; 0; 0; 0; 0; 0; 0; 0; 0; 0; 0; 0; 0; 0; 0; 0; 0; 0; 0;
  0; 0; 0; 0; 3; 224; 3; 224; 3; 224; 3; 224; 3; 224; 3; 224; 3; 224; 3; 224; 3; 192; 3; 192;
  1; 192; 1; 192; 1; 192; 1; 192; 1; 192; 0; 0; 0; 0; 0; 0; 3; 224; 3; 224; 3; 224; 0; 0;
  0; 0; 0; 0; 0; 0; 0; 0; 30; 60; 30; 60; 30; 60; 30; 60; 30; 60; 30; 60; 30; 60; 0; 0;
  0; 0; 0; 0; 0; 0; 0; 0; 0; 0; 0; 0; 0; 0; 0; 0; 0; 0; 0; 0; 0; 0; 0; 0;
  0; 0; 0; 0; 0; 0; 0; 0; 0; 0; 0; 0; 1; 206; 3; 206; 3; 222; 3; 158; 3; 156; 7; 156;
  63; 255; 127; 255; 7; 56; 15; 56; 15; 120; 15; 120; 14; 120; 255; 255; 255; 255; 30; 240; 28; 240; 28; 224;
  60; 224; 61; 224; 57; 224; 0; 0; 0; 0; 0; 0; 0; 0; 0; 0; 3; 252; 15; 254; 31; 238; 30; 224;
  30; 224; 30; 224; 30; 224; 31; 224; 15; 224; 7; 224; 3; 240; 1; 252; 1; 254; 1; 254; 1; 254; 1; 254;
  1; 254; 1; 254; 61; 254; 63; 252; 15; 240; 1; 224; 1; 224; 0; 0; 0; 0; 0; 0; 62; 3; 247; 7;
  231; 143; 231; 142; 227; 158; 227; 188; 231; 184; 231; 248; 247; 240; 63; 224; 1; 192; 3; 255; 7; 255; 7; 243;
  15; 243; 30; 243; 60; 243; 56; 243; 120; 243; 240; 127; 224; 63; 0; 0; 0; 0; 0; 0; 0; 0; 0; 0;
  7; 224; 15; 248; 15; 120; 31; 120; 31; 120; 31; 120; 15; 120; 15; 240; 15; 224; 31; 128; 127; 195; 251; 195;
  243; 231; 241; 247; 240; 247; 240; 255; 240; 127; 248; 62; 124; 127; 63; 255; 31; 239; 0; 0; 0; 0; 0; 0;
  0; 0; 0; 0; 3; 224; 3; 224; 3; 224; 3; 224; 3; 224; 3; 192; 1; 192; 0; 0; 0; 0; 0; 0;
  0; 0; 0; 0; 0; 0; 0; 0; 0; 0; 0; 0; 0; 0; 0; 0; 0; 0; 0; 0; 0; 0; 0; 0;
  0; 0; 0; 0; 0; 0; 0; 0; 0; 63; 0; 124; 1; 240; 1; 224; 3; 192; 7; 192; 7; 128; 7; 128;
  15; 128; 15; 0; 15; 0; 15; 0; 15; 0; 15; 0; 15; 0; 15; 128; 7; 128; 7; 128; 7; 192; 3; 192;
  1; 224; 1; 240; 0; 124; 0; 63; 0; 15; 0; 0; 126; 0; 31; 0; 7; 192; 3; 192; 1; 224; 1; 240;
  0; 240; 0; 240; 0; 248; 0; 120; 0; 120; 0; 120; 0; 120; 0; 120; 0; 120; 0; 248; 0; 240; 0; 240;
  1; 240; 1; 224; 3; 192; 7; 192; 31; 0; 126; 0; 120; 0; 0; 0; 3; 224; 3; 192; 1; 192; 57; 206;
  63; 255; 63; 127; 3; 32; 3; 112; 7; 248; 15; 120; 31; 60; 6; 56; 0; 0; 0; 0; 0; 0; 0; 0;
  0; 0; 0; 0; 0; 0; 0; 0; 0; 0; 0; 0; 0; 0; 0; 0; 0; 0; 0; 0; 0; 0; 0; 0;
  0; 0; 0; 0; 0; 0; 0; 0; 1; 192; 1; 192; 1; 192; 1; 192; 1; 192; 1; 192; 1; 192; 255; 255;
  255; 255; 1; 192; 1; 192; 1; 192; 1; 192; 1; 192; 1; 192; 0; 0; 0; 0; 0; 0; 0; 0; 0; 0;
  0; 0; 0; 0; 0; 0; 0; 0; 0; 0; 0; 0; 0; 0; 0; 0; 0; 0; 0; 0; 0; 0; 0; 0;
  0; 0; 0; 0; 0; 0; 0; 0; 0; 0; 3; 224; 3; 224; 3; 224; 3; 224; 1; 224; 1; 224; 1; 224;
  1; 192; 3; 128; 0; 0; 0; 0; 0; 0; 0; 0; 0; 0; 0; 0; 0; 0; 0; 0; 0; 0; 0; 0;
  0; 0; 63; 254; 63; 254; 0; 0; 0; 0; 0; 0; 0; 0; 0; 0; 0; 0; 0; 0; 0; 0; 0; 0;
  0; 0; 0; 0; 0; 0; 0; 0; 0; 0; 0; 0; 0; 0; 0; 0; 0; 0; 0; 0; 0; 0; 0; 0;
  0; 0; 0; 0; 0; 0; 0; 0; 0; 0; 0; 0; 0; 0; 0; 0; 0; 0; 3; 224; 3; 224; 3; 224;
  3; 224; 0; 0; 0; 0; 0; 0; 0; 0; 0; 0; 0; 15; 0; 15; 0; 30; 0; 30; 0; 60; 0; 60;
  0; 120; 0; 120; 0; 240; 0; 240; 1; 224; 1; 224; 3; 192; 3; 192; 7; 128; 7; 128; 15; 0; 15; 0;
  30; 0; 30; 0; 60; 0; 60; 0; 120; 0; 120; 0; 240; 0; 0; 0; 7; 240; 15; 248; 31; 124; 62; 62;
  60; 30; 124; 31; 124; 31; 120; 15; 120; 15; 120; 15; 120; 15; 120; 15; 120; 15; 120; 15; 124; 31; 124; 31;
  60; 30; 62; 62; 31; 124; 15; 248; 7; 240; 0; 0; 0; 0; 0; 0; 0; 0; 0; 0; 0; 240; 7; 240;
  63; 240; 63; 240; 1; 240; 1; 240; 1; 240; 1; 240; 1; 240; 1; 240; 1; 240; 1; 240; 1; 240; 1; 240;
  1; 240; 1; 240; 1; 240; 1; 240; 1; 240; 63; 255; 63; 255; 0; 0; 0; 0; 0; 0; 0; 0; 0; 0;
  15; 224; 63; 248; 60; 124; 0; 60; 0; 62; 0; 62; 0; 62; 0; 60; 0; 60; 0; 124; 0; 248; 1; 240;
  3; 224; 7; 192; 7; 128; 15; 0; 30; 0; 62; 0; 60; 0; 63; 254; 63; 254; 0; 0; 0; 0; 0; 0;
  0; 0; 0; 0; 15; 240; 31; 248; 28; 124; 0; 62; 0; 62; 0; 62; 0; 60; 0; 60; 0; 248; 15; 240;
  15; 248; 0; 124; 0; 62; 0; 30; 0; 30; 0; 30; 0; 30; 0; 62; 28; 124; 31; 248; 31; 224; 0; 0;
  0; 0; 0; 0; 0; 0; 0; 0; 0; 120; 0; 248; 0; 248; 1; 248; 3; 248; 7; 248; 7; 248; 15; 120;
  30; 120; 30; 120; 60; 120; 120; 120; 120; 120; 255; 255; 255; 255; 0; 120; 0; 120; 0; 120; 0; 120; 0; 120;
  0; 120; 0; 0; 0; 0; 0; 0; 0; 0; 0; 0; 31; 252; 31; 252; 31; 252; 30; 0; 30; 0; 30; 0;
  30; 0; 30; 0; 31; 224; 31; 248; 0; 252; 0; 124; 0; 62; 0; 62; 0; 30; 0; 62; 0; 62; 0; 60;
  28; 124; 31; 248; 31; 224; 0; 0; 0; 0; 0; 0; 0; 0; 0; 0; 1; 252; 7; 254; 15; 142; 31; 0;
  30; 0; 62; 0; 60; 0; 60; 0; 61; 248; 63; 252; 127; 62; 126; 31; 60; 15; 60; 15; 60; 15; 60; 15;
  62; 15; 30; 31; 31; 62; 15; 252; 3; 240; 0; 0; 0; 0; 0; 0; 0; 0; 0; 0; 63; 255; 63; 255;
  63; 255; 0; 15; 0; 30; 0; 30; 0; 60; 0; 56; 0; 120; 0; 240; 0; 240; 1; 224; 1; 224; 3; 192;
  3; 192; 7; 128; 15; 128; 15; 128; 15; 0; 31; 0; 31; 0; 0; 0; 0; 0; 0; 0; 0; 0; 0; 0;
  7; 248; 15; 252; 31; 62; 30; 30; 62; 30; 62; 30; 30; 30; 31; 60; 15; 248; 7; 240; 15; 248; 30; 252;
  62; 62; 60; 31; 124; 31; 124; 15; 124; 15; 60; 31; 63; 62; 31; 252; 7; 240; 0; 0; 0; 0; 0; 0;
  0; 0; 0; 0; 7; 240; 15; 248; 30; 124; 60; 62; 60; 30; 124; 31; 124; 31; 124; 31; 124; 31; 60; 31;
  62; 63; 31; 255; 7; 239; 0; 31; 0; 30; 0; 30; 0; 62; 0; 60; 56; 248; 63; 240; 31; 224; 0; 0;
  0; 0; 0; 0; 0; 0; 0; 0; 0; 0; 0; 0; 0; 0; 0; 0; 0; 0; 0; 0; 3; 224; 3; 224;
  3; 224; 3; 224; 0; 0; 0; 0; 0; 0; 0; 0; 0; 0; 0; 0; 0; 0; 3; 224; 3; 224; 3; 224;
  3; 224; 0; 0; 0; 0; 0; 0; 0; 0; 0; 0; 0; 0; 0; 0; 0; 0; 0; 0; 0; 0; 0; 0;
  3; 224; 3; 224; 3; 224; 3; 224; 0; 0; 0; 0; 0; 0; 0; 0; 0; 0; 0; 0; 0; 0; 3; 224;
  3; 224; 3; 224; 3; 224; 1; 224; 1; 224; 1; 224; 3; 192; 3; 128; 0; 0; 0; 0; 0; 0; 0; 0;
  0; 0; 0; 0; 0; 3; 0; 15; 0; 63; 0; 252; 3; 240; 15; 192; 63; 0; 254; 0; 63; 0; 15; 192;
  3; 240; 0; 252; 0; 63; 0; 15; 0; 3; 0; 0; 0; 0; 0; 0; 0; 0; 0; 0; 0; 0; 0; 0;
  0; 0; 0; 0; 0; 0; 0; 0; 0; 0; 0; 0; 0; 0; 0; 0; 255; 255; 255; 255; 0; 0; 0; 0;
  0; 0; 255; 255; 255; 255; 0; 0; 0; 0; 0; 0; 0; 0; 0; 0; 0; 0; 0; 0; 0; 0; 0; 0;
  0; 0; 0; 0; 0; 0; 0; 0; 0; 0; 0; 0; 224; 0; 248; 0; 126; 0; 31; 128; 7; 224; 1; 248;
  0; 126; 0; 31; 0; 126; 1; 248; 7; 224; 31; 128; 126; 0; 248; 0; 224; 0; 0; 0; 0; 0; 0; 0;
  0; 0; 0; 0; 31; 240; 63; 252; 56; 62; 56; 31; 56; 31; 0; 30; 0; 30; 0; 60; 0; 120; 0; 240;
  1; 224; 3; 192; 3; 192; 7; 192; 7; 192; 0; 0; 0; 0; 0; 0; 7; 192; 7; 192; 7; 192; 0; 0;
  0; 0; 0; 0; 0; 0; 0; 0; 3; 248; 15; 254; 31; 30; 62; 15; 60; 127; 120; 255; 121; 239; 115; 199;
  243; 199; 243; 143; 243; 143; 243; 143; 243; 159; 243; 159; 115; 255; 123; 255; 121; 247; 60; 0; 31; 28; 15; 252;
  3; 248; 0; 0; 0; 0; 0; 0; 0; 0; 0; 0; 0; 0; 0; 0; 0; 0; 3; 224; 3; 224; 7; 240;
  7; 240; 7; 240; 15; 120; 15; 120; 14; 124; 30; 60; 30; 60; 60; 62; 63; 254; 63; 255; 120; 31; 120; 15;
  240; 15; 240; 7; 240; 7; 0; 0; 0; 0; 0; 0; 0; 0; 0; 0; 0; 0; 0; 0; 0; 0; 63; 248;
  63; 252; 60; 62; 60; 30; 60; 30; 60; 30; 60; 62; 60; 124; 63; 240; 63; 248; 60; 126; 60; 31; 60; 31;
  60; 15; 60; 15; 60; 31; 63; 254; 63; 248; 0; 0; 0; 0; 0; 0; 0; 0; 0; 0; 0; 0; 0; 0;
  0; 0; 1; 255; 7; 255; 31; 135; 62; 0; 60; 0; 124; 0; 120; 0; 120; 0; 120; 0; 120; 0; 120; 0;
  124; 0; 124; 0; 62; 0; 63; 0; 31; 131; 7; 255; 1; 255; 0; 0; 0; 0; 0; 0; 0; 0; 0; 0;
  0; 0; 0; 0; 0; 0; 127; 240; 127; 252; 120; 126; 120; 31; 120; 31; 120; 15; 120; 15; 120; 15; 120; 15;
  120; 15; 120; 15; 120; 15; 120; 15; 120; 31; 120; 30; 120; 126; 127; 248; 127; 224; 0; 0; 0; 0; 0; 0;
  0; 0; 0; 0; 0; 0; 0; 0; 0; 0; 63; 255; 63; 255; 62; 0; 62; 0; 62; 0; 62; 0; 62; 0;
  62; 0; 63; 254; 63; 254; 62; 0; 62; 0; 62; 0; 62; 0; 62; 0; 62; 0; 63; 255; 63; 255; 0; 0;
  0; 0; 0; 0; 0; 0; 0; 0; 0; 0; 0; 0; 0; 0; 31; 255; 31; 255; 30; 0; 30; 0; 30; 0;
  30; 0; 30; 0; 30; 0; 31; 255; 31; 255; 30; 0; 30; 0; 30; 0; 30; 0; 30; 0; 30; 0; 30; 0;
  30; 0; 0; 0; 0; 0; 0; 0; 0; 0; 0; 0; 0; 0; 0; 0; 0; 0; 3; 254; 15; 255; 31; 135;
  62; 0; 124; 0; 124; 0; 120; 0; 248; 0; 248; 0; 248; 127; 248; 127; 120; 15; 124; 15; 124; 15; 62; 15;
  31; 143; 15; 255; 3; 254; 0; 0; 0; 0; 0; 0; 0; 0; 0; 0; 0; 0; 0; 0; 0; 0; 124; 31;
  124; 31; 124; 31; 124; 31; 124; 31; 124; 31; 124; 31; 124; 31; 127; 255; 127; 255; 124; 31; 124; 31; 124; 31;
  124; 31; 124; 31; 124; 31; 124; 31; 124; 31; 0; 0; 0; 0; 0; 0; 0; 0; 0; 0; 0; 0; 0; 0;
  0; 0; 63; 255; 63; 255; 3; 224; 3; 224; 3; 224; 3; 224; 3; 224; 3; 224; 3; 224; 3; 224; 3; 224;
  3; 224; 3; 224; 3; 224; 3; 224; 3; 224; 63; 255; 63; 255; 0; 0; 0; 0; 0; 0; 0; 0; 0; 0;
  0; 0; 0; 0; 0; 0; 31; 252; 31; 252; 0; 124; 0; 124; 0; 124; 0; 124; 0; 124; 0; 124; 0; 124;
  0; 124; 0; 124; 0; 124; 0; 124; 0; 120; 0; 120; 56; 248; 63; 240; 63; 192; 0; 0; 0; 0; 0; 0;
  0; 0; 0; 0; 0; 0; 0; 0; 0; 0; 60; 31; 60; 30; 60; 60; 60; 120; 60; 240; 61; 224; 63; 224;
  63; 192; 63; 128; 63; 192; 63; 224; 61; 240; 60; 240; 60; 120; 60; 124; 60; 62; 60; 31; 60; 15; 0; 0;
  0; 0; 0; 0; 0; 0; 0; 0; 0; 0; 0; 0; 0; 0; 62; 0; 62; 0; 62; 0; 62; 0; 62; 0;
  62; 0; 62; 0; 62; 0; 62; 0; 62; 0; 62; 0; 62; 0; 62; 0; 62; 0; 62; 0; 62; 0; 63; 255;
  63; 255; 0; 0; 0; 0; 0; 0; 0; 0; 0; 0; 0; 0; 0; 0; 0; 0; 248; 31; 252; 31; 252; 31;
  254; 63; 254; 63; 254; 63; 255; 127; 255; 119; 255; 119; 247; 247; 247; 231; 243; 231; 243; 231; 243; 199; 240; 7;
  240; 7; 240; 7; 240; 7; 0; 0; 0; 0; 0; 0; 0; 0; 0; 0; 0; 0; 0; 0; 0; 0; 124; 15;
  124; 15; 126; 15; 127; 15; 127; 15; 127; 143; 127; 143; 127; 207; 123; 239; 121; 239; 121; 255; 120; 255; 120; 255;
  120; 127; 120; 63; 120; 63; 120; 31; 120; 31; 0; 0; 0; 0; 0; 0; 0; 0; 0; 0; 0; 0; 0; 0;
  0; 0; 7; 240; 31; 252; 62; 62; 124; 31; 120; 15; 120; 15; 248; 15; 248; 15; 248; 15; 248; 15; 248; 15;
  248; 15; 120; 15; 120; 15; 124; 31; 62; 62; 31; 252; 7; 240; 0; 0; 0; 0; 0; 0; 0; 0; 0; 0;
  0; 0; 0; 0; 0; 0; 63; 252; 63; 255; 62; 31; 62; 15; 62; 15; 62; 15; 62; 15; 62; 31; 62; 63;
  63; 252; 63; 240; 62; 0; 62; 0; 62; 0; 62; 0; 62; 0; 62; 0; 62; 0; 0; 0; 0; 0; 0; 0;
  0; 0; 0; 0; 0; 0; 0; 0; 0; 0; 7; 240; 31; 252; 62; 62; 124; 31; 120; 15; 120; 15; 248; 15;
  248; 15; 248; 15; 248; 15; 248; 15; 248; 15; 120; 15; 120; 15; 124; 31; 62; 62; 31; 252; 7; 248; 0; 124;
  0; 63; 0; 15; 0; 3; 0; 0; 0; 0; 0; 0; 0; 0; 63; 240; 63; 252; 60; 126; 60; 62; 60; 30;
  60; 30; 60; 62; 60; 60; 60; 252; 63; 240; 63; 224; 61; 240; 60; 248; 60; 124; 60; 62; 60; 30; 60; 31;
  60; 15; 0; 0; 0; 0; 0; 0; 0; 0; 0; 0; 0; 0; 0; 0; 0; 0; 7; 252; 31; 254; 62; 14;
  60; 0; 60; 0; 60; 0; 62; 0; 31; 192; 15; 248; 3; 254; 0; 127; 0; 31; 0; 15; 0; 15; 32; 31;
  60; 62; 63; 252; 31; 240; 0; 0; 0; 0; 0; 0; 0; 0; 0; 0; 0; 0; 0; 0; 0; 0; 255; 255;
  255; 255; 3; 224; 3; 224; 3; 224; 3; 224; 3; 224; 3; 224; 3; 224; 3; 224; 3; 224; 3; 224; 3; 224;
  3; 224; 3; 224; 3; 224; 3; 224; 3; 224; 0; 0; 0; 0; 0; 0; 0; 0; 0; 0; 0; 0; 0; 0;
  0; 0; 124; 15; 124; 15; 124; 15; 124; 15; 124; 15; 124; 15; 124; 15; 124; 15; 124; 15; 124; 15; 124; 15;
  124; 15; 124; 15; 60; 30; 60; 30; 62; 62; 31; 252; 7; 240; 0; 0; 0; 0; 0; 0; 0; 0; 0; 0;
  0; 0; 0; 0; 0; 0; 240; 7; 240; 7; 248; 7; 120; 15; 124; 15; 60; 30; 60; 30; 62; 30; 30; 60;
  31; 60; 31; 120; 15; 120; 15; 248; 7; 240; 7; 240; 7; 240; 3; 224; 3; 224; 0; 0; 0; 0; 0; 0;
  0; 0; 0; 0; 0; 0; 0; 0; 0; 0; 224; 3; 240; 3; 240; 3; 240; 7; 243; 231; 243; 231; 243; 231;
  115; 231; 123; 247; 127; 247; 127; 255; 127; 127; 127; 127; 127; 126; 63; 126; 62; 62; 62; 62; 62; 62; 0; 0;
  0; 0; 0; 0; 0; 0; 0; 0; 0; 0; 0; 0; 0; 0; 248; 7; 124; 15; 62; 30; 62; 62; 31; 60;
  15; 248; 7; 240; 7; 224; 3; 224; 3; 224; 7; 240; 15; 248; 15; 124; 30; 124; 60; 62; 120; 31; 120; 15;
  240; 15; 0; 0; 0; 0; 0; 0; 0; 0; 0; 0; 0; 0; 0; 0; 0; 0; 248; 7; 120; 7; 124; 15;
  60; 30; 62; 30; 31; 60; 15; 120; 15; 248; 7; 240; 3; 224; 3; 224; 3; 224; 3; 224; 3; 224; 3; 224;
  3; 224; 3; 224; 3; 224; 0; 0; 0; 0; 0; 0; 0; 0; 0; 0; 0; 0; 0; 0; 0; 0; 127; 255;
  127; 255; 0; 15; 0; 31; 0; 62; 0; 124; 0; 248; 0; 240; 1; 224; 3; 224; 7; 192; 15; 128; 15; 0;
  30; 0; 62; 0; 124; 0; 127; 255; 127; 255; 0; 0; 0; 0; 0; 0; 0; 0; 0; 0; 7; 255; 7; 128;
  7; 128; 7; 128; 7; 128; 7; 128; 7; 128; 7; 128; 7; 128; 7; 128; 7; 128; 7; 128; 7; 128; 7; 128;
  7; 128; 7; 128; 7; 128; 7; 128; 7; 128; 7; 128; 7; 128; 7; 128; 7; 128; 7; 255; 7; 255; 0; 0;
  120; 0; 120; 0; 60; 0; 60; 0; 30; 0; 30; 0; 15; 0; 15; 0; 7; 128; 7; 128; 3; 192; 3; 192;
  1; 224; 1; 224; 0; 240; 0; 240; 0; 120; 0; 120; 0; 60; 0; 60; 0; 30; 0; 30; 0; 15; 0; 15;
  0; 7; 0; 0; 127; 240; 0; 240; 0; 240; 0; 240; 0; 240; 0; 240; 0; 240; 0; 240; 0; 240; 0; 240;
  0; 240; 0; 240; 0; 240; 0; 240; 0; 240; 0; 240; 0; 240; 0; 240; 0; 240; 0; 240; 0; 240; 0; 240;
  0; 240; 127; 240; 127; 240; 0; 0; 0; 192; 1; 192; 1; 192; 3; 224; 3; 224; 7; 240; 7; 240; 7; 120;
  15; 120; 15; 56; 30; 60; 30; 60; 60; 30; 60; 30; 56; 15; 120; 15; 120; 7; 0; 0; 0; 0; 0; 0;
  0; 0; 0; 0; 0; 0; 0; 0; 0; 0; 0; 0; 0; 0; 0; 0; 0; 0; 0; 0; 0; 0; 0; 0;
  0; 0; 0; 0; 0; 0; 0; 0; 0; 0; 0; 0; 0; 0; 0; 0; 0; 0; 0; 0; 0; 0; 0; 0;
  0; 0; 0; 0; 0; 0; 255; 255; 255; 255; 0; 0; 0; 0; 0; 0; 0; 240; 0; 0; 0; 0; 0; 0;
  0; 0; 0; 0; 0; 0; 0; 0; 0; 0; 0; 0; 0; 0; 0; 0; 0; 0; 0; 0; 0; 0; 0; 0;
  0; 0; 0; 0; 0; 0; 0; 0; 0; 0; 0; 0; 0; 0; 0; 0; 0; 0; 0; 0; 0; 0; 0; 0;
  0; 0; 0; 0; 0; 0; 0; 0; 15; 248; 63; 252; 60; 124; 0; 62; 0; 62; 0; 62; 7; 254; 31; 254;
  62; 62; 124; 62; 120; 62; 124; 62; 124; 126; 63; 255; 31; 207; 0; 0; 0; 0; 0; 0; 0; 0; 0; 0;
  60; 0; 60; 0; 60; 0; 60; 0; 60; 0; 60; 0; 61; 248; 63; 254; 63; 62; 62; 31; 60; 15; 60; 15;
  60; 15; 60; 15; 60; 15; 60; 15; 60; 31; 60; 30; 63; 62; 63; 252; 59; 240; 0; 0; 0; 0; 0; 0;
  0; 0; 0; 0; 0; 0; 0; 0; 0; 0; 0; 0; 0; 0; 0; 0; 3; 254; 15; 255; 31; 135; 62; 0;
  62; 0; 60; 0; 124; 0; 124; 0; 124; 0; 60; 0; 62; 0; 62; 0; 31; 135; 15; 255; 3; 254; 0; 0;
  0; 0; 0; 0; 0; 0; 0; 0; 0; 31; 0; 31; 0; 31; 0; 31; 0; 31; 0; 31; 7; 255; 31; 255;
  62; 63; 60; 31; 124; 31; 124; 31; 124; 31; 120; 31; 120; 31; 124; 31; 124; 31; 60; 63; 62; 127; 31; 255;
  15; 223; 0; 0; 0; 0; 0; 0; 0; 0; 0; 0; 0; 0; 0; 0; 0; 0; 0; 0; 0; 0; 0; 0;
  3; 248; 15; 252; 31; 62; 62; 30; 60; 31; 124; 31; 127; 255; 127; 255; 124; 0; 124; 0; 60; 0; 62; 0;
  31; 7; 15; 255; 3; 254; 0; 0; 0; 0; 0; 0; 0; 0; 0; 0; 1; 255; 3; 225; 3; 192; 7; 192;
  7; 192; 7; 192; 127; 255; 127; 255; 7; 192; 7; 192; 7; 192; 7; 192; 7; 192; 7; 192; 7; 192; 7; 192;
  7; 192; 7; 192; 7; 192; 7; 192; 7; 192; 0; 0; 0; 0; 0; 0; 0; 0; 0; 0; 0; 0; 0; 0;
  0; 0; 0; 0; 0; 0; 0; 0; 7; 239; 31; 255; 62; 127; 60; 31; 124; 31; 124; 31; 120; 31; 120; 31;
  120; 31; 124; 31; 124; 31; 60; 63; 62; 127; 31; 255; 15; 223; 0; 30; 0; 30; 0; 30; 56; 124; 63; 248;
  60; 0; 60; 0; 60; 0; 60; 0; 60; 0; 60; 0; 61; 252; 63; 254; 63; 158; 63; 31; 62; 31; 60; 31;
  60; 31; 60; 31; 60; 31; 60; 31; 60; 31; 60; 31; 60; 31; 60; 31; 60; 31; 0; 0; 0; 0; 0; 0;
  0; 0; 0; 0; 1; 240; 1; 240; 0; 0; 0; 0; 0; 0; 0; 0; 127; 224; 127; 224; 1; 224; 1; 224;
  1; 224; 1; 224; 1; 224; 1; 224; 1; 224; 1; 224; 1; 224; 1; 224; 1; 224; 1; 224; 1; 224; 0; 0;
  0; 0; 0; 0; 0; 0; 0; 0; 0; 248; 0; 248; 0; 0; 0; 0; 0; 0; 0; 0; 63; 248; 63; 248;
  0; 248; 0; 248; 0; 248; 0; 248; 0; 248; 0; 248; 0; 248; 0; 248; 0; 248; 0; 248; 0; 248; 0; 248;
  0; 248; 0; 248; 0; 248; 0; 240; 113; 240; 127; 224; 60; 0; 60; 0; 60; 0; 60; 0; 60; 0; 60; 0;
  60; 31; 60; 62; 60; 124; 60; 248; 61; 240; 61; 224; 63; 192; 63; 192; 63; 224; 61; 240; 60; 248; 60; 124;
  60; 62; 60; 31; 60; 31; 0; 0; 0; 0; 0; 0; 0; 0; 0; 0; 127; 240; 1; 240; 1; 240; 1; 240;
  1; 240; 1; 240; 1; 240; 1; 240; 1; 240; 1; 240; 1; 240; 1; 240; 1; 240; 1; 240; 1; 240; 1; 240;
  1; 240; 1; 240; 1; 240; 1; 240; 1; 240; 0; 0; 0; 0; 0; 0; 0; 0; 0; 0; 0; 0; 0; 0;
  0; 0; 0; 0; 0; 0; 0; 0; 247; 158; 255; 255; 255; 255; 255; 255; 251; 231; 249; 231; 241; 199; 241; 199;
  241; 199; 241; 199; 241; 199; 241; 199; 241; 199; 241; 199; 241; 199; 0; 0; 0; 0; 0; 0; 0; 0; 0; 0;
  0; 0; 0; 0; 0; 0; 0; 0; 0; 0; 0; 0; 61; 252; 63; 254; 63; 158; 63; 31; 62; 31; 60; 31;
  60; 31; 60; 31; 60; 31; 60; 31; 60; 31; 60; 31; 60; 31; 60; 31; 60; 31; 0; 0; 0; 0; 0; 0;
  0; 0; 0; 0; 0; 0; 0; 0; 0; 0; 0; 0; 0; 0; 0; 0; 7; 240; 31; 252; 62; 62; 60; 31;
  124; 31; 120; 15; 120; 15; 120; 15; 120; 15; 120; 15; 124; 31; 60; 31; 62; 62; 31; 252; 7; 240; 0; 0;
  0; 0; 0; 0; 0; 0; 0; 0; 0; 0; 0; 0; 0; 0; 0; 0; 0; 0; 0; 0; 61; 248; 63; 254;
  63; 62; 62; 31; 60; 15; 60; 15; 60; 15; 60; 15; 60; 15; 60; 15; 60; 31; 62; 30; 63; 62; 63; 252;
  63; 248; 60; 0; 60; 0; 60; 0; 60; 0; 60; 0; 0; 0; 0; 0; 0; 0; 0; 0; 0; 0; 0; 0;
  7; 238; 31; 254; 62; 126; 60; 30; 124; 30; 120; 30; 120; 30; 120; 30; 120; 30; 120; 30; 124; 30; 124; 62;
  62; 126; 31; 254; 15; 222; 0; 30; 0; 30; 0; 30; 0; 30; 0; 30; 0; 0; 0; 0; 0; 0; 0; 0;
  0; 0; 0; 0; 31; 127; 31; 255; 31; 231; 31; 199; 31; 135; 31; 0; 31; 0; 31; 0; 31; 0; 31; 0;
  31; 0; 31; 0; 31; 0; 31; 0; 31; 0; 0; 0; 0; 0; 0; 0; 0; 0; 0; 0; 0; 0; 0; 0;
  0; 0; 0; 0; 0; 0; 0; 0; 7; 252; 31; 254; 30; 14; 62; 0; 62; 0; 63; 0; 31; 224; 7; 252;
  0; 254; 0; 62; 0; 30; 0; 30; 60; 62; 63; 252; 31; 240; 0; 0; 0; 0; 0; 0; 0; 0; 0; 0;
  0; 0; 0; 0; 0; 0; 7; 128; 7; 128; 7; 128; 127; 255; 127; 255; 7; 128; 7; 128; 7; 128; 7; 128;
  7; 128; 7; 128; 7; 128; 7; 128; 7; 128; 7; 128; 7; 192; 3; 255; 1; 255; 0; 0; 0; 0; 0; 0;
  0; 0; 0; 0; 0; 0; 0; 0; 0; 0; 0; 0; 0; 0; 0; 0; 60; 30; 60; 30; 60; 30; 60; 30;
  60; 30; 60; 30; 60; 30; 60; 30; 60; 30; 60; 30; 60; 62; 60; 126; 62; 254; 31; 254; 15; 222; 0; 0;
  0; 0; 0; 0; 0; 0; 0; 0; 0; 0; 0; 0; 0; 0; 0; 0; 0; 0; 0; 0; 240; 7; 120; 15;
  120; 15; 60; 30; 60; 30; 62; 30; 30; 60; 30; 60; 15; 120; 15; 120; 15; 240; 7; 240; 7; 240; 3; 224;
  3; 224; 0; 0; 0; 0; 0; 0; 0; 0; 0; 0; 0; 0; 0; 0; 0; 0; 0; 0; 0; 0; 0; 0;
  240; 3; 241; 227; 243; 227; 243; 231; 243; 247; 243; 247; 127; 247; 127; 119; 127; 127; 127; 127; 127; 127; 62; 62;
  62; 62; 62; 62; 62; 62; 0; 0; 0; 0; 0; 0; 0; 0; 0; 0; 0; 0; 0; 0; 0; 0; 0; 0;
  0; 0; 0; 0; 124; 15; 62; 30; 62; 60; 31; 60; 15; 248; 7; 240; 7; 240; 3; 224; 7; 240; 7; 248;
  15; 248; 30; 124; 62; 62; 60; 31; 120; 31; 0; 0; 0; 0; 0; 0; 0; 0; 0; 0; 0; 0; 0; 0;
  0; 0; 0; 0; 0; 0; 0; 0; 248; 7; 120; 15; 124; 15; 60; 30; 60; 30; 30; 60; 30; 60; 31; 60;
  15; 120; 15; 248; 7; 240; 7; 240; 3; 224; 3; 224; 3; 192; 3; 192; 3; 192; 7; 128; 15; 128; 127; 0;
  0; 0; 0; 0; 0; 0; 0; 0; 0; 0; 0; 0; 63; 255; 63; 255; 0; 31; 0; 62; 0; 124; 0; 248;
  1; 240; 3; 224; 7; 192; 15; 128; 31; 0; 30; 0; 60; 0; 127; 255; 127; 255; 0; 0; 0; 0; 0; 0;
  0; 0; 0; 0; 1; 254; 3; 224; 3; 192; 3; 192; 3; 192; 3; 192; 1; 224; 1; 224; 1; 224; 1; 192;
  3; 192; 63; 128; 63; 128; 3; 192; 1; 192; 1; 224; 1; 224; 1; 224; 3; 192; 3; 192; 3; 192; 3; 192;
  3; 224; 1; 254; 0; 126; 0; 0; 1; 192; 1; 192; 1; 192; 1; 192; 1; 192; 1; 192; 1; 192; 1; 192;
  1; 192; 1; 192; 1; 192; 1; 192; 1; 192; 1; 192; 1; 192; 1; 192; 1; 192; 1; 192; 1; 192; 1; 192;
  1; 192; 1; 192; 1; 192; 1; 192; 1; 192; 0; 0; 63; 192; 3; 224; 1; 224; 1; 224; 1; 224; 1; 224;
  1; 192; 3; 192; 3; 192; 1; 192; 1; 224; 0; 254; 0; 254; 1; 224; 1; 192; 3; 192; 3; 192; 1; 192;
  1; 224; 1; 224; 1; 224; 1; 224; 3; 224; 63; 192; 63; 0; 0; 0; 0; 0; 0; 0; 0; 0; 0; 0;
  0; 0; 0; 0; 0; 0; 0; 0; 0; 0; 0; 0; 0; 0; 63; 7; 127; 199; 115; 231; 241; 255; 240; 126;
  0; 0; 0; 0; 0; 0; 0; 0; 0; 0; 0; 0; 0; 0; 0; 0; 0; 0; 0; 0 ].

Definition Font12x24 : list Z := [
  0; 0; 0; 0; 0; 0; 0; 0; 0; 0; 0; 0; 0; 0; 0; 0; 0; 0; 0; 0; 0; 0; 0; 0;
  0; 0; 0; 0; 0; 0; 0; 0; 0; 0; 0; 0; 0; 0; 0; 0; 0; 0; 0; 0; 0; 0; 0; 0;
  0; 0; 0; 0; 0; 0; 0; 0; 96; 0; 96; 0; 96; 0; 96; 0; 96; 0; 96; 0; 96; 0; 64; 0;
  32; 0; 32; 0; 32; 0; 0; 0; 0; 0; 0; 0; 96; 0; 96; 0; 96; 0; 0; 0; 0; 0; 0; 0;
  0; 0; 0; 0; 96; 6; 96; 6; 48; 3; 152; 1; 136; 0; 68; 0; 0; 0; 0; 0; 0; 0; 0; 0;
  0; 0; 0; 0; 0; 0; 0; 0; 0; 0; 0; 0; 0; 0; 0; 0; 0; 0; 0; 0; 0; 0; 0; 0;
  0; 0; 0; 0; 0; 0; 0; 0; 16; 2; 16; 2; 16; 2; 16; 2; 254; 7; 254; 7; 8; 2; 8; 1;
  8; 1; 8; 1; 8; 1; 254; 7; 254; 7; 4; 1; 4; 1; 4; 1; 4; 1; 0; 0; 0; 0; 0; 0;
  0; 0; 0; 0; 0; 0; 64; 0; 64; 0; 240; 1; 88; 3; 76; 3; 204; 3; 76; 0; 88; 0; 112; 0;
  224; 0; 192; 1; 192; 1; 64; 3; 76; 3; 92; 3; 76; 3; 72; 1; 240; 0; 64; 0; 64; 0; 0; 0;
  0; 0; 0; 0; 0; 0; 0; 0; 14; 1; 10; 1; 145; 0; 145; 0; 145; 0; 81; 0; 81; 0; 58; 0;
  174; 3; 160; 2; 80; 4; 80; 4; 72; 4; 72; 4; 72; 4; 132; 2; 132; 3; 0; 0; 0; 0; 0; 0;
  0; 0; 0; 0; 0; 0; 0; 0; 56; 0; 108; 0; 108; 0; 108; 0; 108; 0; 108; 0; 44; 0; 152; 7;
  28; 1; 26; 1; 51; 1; 51; 1; 99; 1; 227; 0; 195; 8; 198; 9; 60; 7; 0; 0; 0; 0; 0; 0;
  0; 0; 0; 0; 12; 0; 28; 0; 16; 0; 16; 0; 8; 0; 4; 0; 0; 0; 0; 0; 0; 0; 0; 0;
  0; 0; 0; 0; 0; 0; 0; 0; 0; 0; 0; 0; 0; 0; 0; 0; 0; 0; 0; 0; 0; 0; 0; 0;
  0; 0; 0; 0; 0; 4; 0; 2; 0; 1; 128; 0; 128; 0; 64; 0; 64; 0; 32; 0; 32; 0; 32; 0;
  32; 0; 32; 0; 32; 0; 32; 0; 64; 0; 64; 0; 128; 0; 128; 0; 0; 1; 0; 2; 0; 4; 0; 0;
  0; 0; 0; 0; 2; 0; 4; 0; 8; 0; 16; 0; 16; 0; 32; 0; 32; 0; 64; 0; 64; 0; 64; 0;
  64; 0; 64; 0; 64; 0; 64; 0; 32; 0; 32; 0; 16; 0; 16; 0; 8; 0; 4; 0; 2; 0; 0; 0;
  0; 0; 0; 0; 0; 0; 0; 0; 0; 0; 0; 0; 64; 0; 192; 0; 64; 0; 70; 12; 78; 15; 208; 1;
  240; 1; 94; 15; 70; 12; 64; 0; 64; 0; 64; 0; 0; 0; 0; 0; 0; 0; 0; 0; 0; 0; 0; 0;
  0; 0; 0; 0; 0; 0; 0; 0; 0; 0; 0; 0; 0; 0; 64; 0; 64; 0; 64; 0; 64; 0; 64; 0;
  254; 15; 64; 0; 64; 0; 64; 0; 64; 0; 64; 0; 0; 0; 0; 0; 0; 0; 0; 0; 0; 0; 0; 0;
  0; 0; 0; 0; 0; 0; 0; 0; 0; 0; 0; 0; 0; 0; 0; 0; 0; 0; 0; 0; 0; 0; 0; 0;
  0; 0; 0; 0; 0; 0; 0; 0; 0; 0; 0; 0; 12; 0; 28; 0; 16; 0; 16; 0; 8; 0; 4; 0;
  0; 0; 0; 0; 0; 0; 0; 0; 0; 0; 0; 0; 0; 0; 0; 0; 0; 0; 0; 0; 0; 0; 0; 0;
  254; 7; 0; 0; 0; 0; 0; 0; 0; 0; 0; 0; 0; 0; 0; 0; 0; 0; 0; 0; 0; 0; 0; 0;
  0; 0; 0; 0; 0; 0; 0; 0; 0; 0; 0; 0; 0; 0; 0; 0; 0; 0; 0; 0; 0; 0; 0; 0;
  0; 0; 0; 0; 0; 0; 0; 0; 0; 0; 0; 0; 28; 0; 28; 0; 28; 0; 0; 0; 0; 0; 0; 0;
  0; 0; 0; 0; 0; 4; 0; 6; 0; 2; 0; 3; 0; 1; 0; 1; 128; 0; 128; 0; 64; 0; 64; 0;
  96; 0; 32; 0; 32; 0; 16; 0; 16; 0; 8; 0; 8; 0; 12; 0; 4; 0; 6; 0; 2; 0; 0; 0;
  0; 0; 0; 0; 0; 0; 0; 0; 0; 0; 240; 0; 152; 1; 12; 3; 12; 3; 6; 6; 6; 6; 6; 6;
  6; 6; 6; 6; 6; 6; 6; 6; 6; 6; 12; 3; 12; 3; 152; 1; 240; 0; 0; 0; 0; 0; 0; 0;
  0; 0; 0; 0; 0; 0; 0; 0; 0; 0; 64; 0; 124; 0; 96; 0; 96; 0; 96; 0; 96; 0; 96; 0;
  96; 0; 96; 0; 96; 0; 96; 0; 96; 0; 96; 0; 96; 0; 96; 0; 252; 3; 0; 0; 0; 0; 0; 0;
  0; 0; 0; 0; 0; 0; 0; 0; 0; 0; 248; 0; 132; 1; 2; 3; 6; 3; 6; 3; 0; 3; 0; 1;
  128; 1; 192; 0; 96; 0; 32; 0; 16; 0; 8; 2; 4; 2; 6; 2; 254; 3; 0; 0; 0; 0; 0; 0;
  0; 0; 0; 0; 0; 0; 0; 0; 0; 0; 120; 0; 198; 0; 134; 1; 134; 1; 128; 1; 128; 1; 192; 0;
  112; 0; 128; 1; 0; 1; 0; 3; 0; 3; 6; 3; 6; 3; 134; 1; 248; 0; 0; 0; 0; 0; 0; 0;
  0; 0; 0; 0; 0; 0; 0; 0; 0; 0; 128; 1; 128; 1; 192; 1; 160; 1; 160; 1; 144; 1; 136; 1;
  136; 1; 132; 1; 130; 1; 254; 15; 128; 1; 128; 1; 128; 1; 128; 1; 224; 7; 0; 0; 0; 0; 0; 0;
  0; 0; 0; 0; 0; 0; 0; 0; 0; 0; 252; 3; 4; 0; 4; 0; 4; 0; 4; 0; 4; 0; 244; 0;
  140; 1; 4; 3; 0; 3; 0; 3; 6; 3; 6; 3; 130; 1; 132; 1; 248; 0; 0; 0; 0; 0; 0; 0;
  0; 0; 0; 0; 0; 0; 0; 0; 0; 0; 224; 1; 24; 3; 12; 3; 12; 0; 4; 0; 6; 0; 230; 1;
  22; 3; 14; 6; 6; 6; 6; 6; 6; 6; 4; 6; 12; 2; 24; 3; 240; 0; 0; 0; 0; 0; 0; 0;
  0; 0; 0; 0; 0; 0; 0; 0; 0; 0; 248; 7; 12; 6; 4; 2; 4; 1; 0; 1; 0; 1; 128; 0;
  128; 0; 64; 0; 64; 0; 64; 0; 96; 0; 96; 0; 96; 0; 96; 0; 96; 0; 0; 0; 0; 0; 0; 0;
  0; 0; 0; 0; 0; 0; 0; 0; 0; 0; 248; 1; 12; 3; 6; 6; 6; 6; 6; 6; 12; 2; 28; 3;
  240; 0; 200; 1; 12; 3; 6; 6; 6; 6; 6; 6; 6; 6; 12; 3; 240; 1; 0; 0; 0; 0; 0; 0;
  0; 0; 0; 0; 0; 0; 0; 0; 0; 0; 240; 0; 12; 1; 12; 3; 6; 2; 6; 6; 6; 6; 6; 6;
  6; 7; 140; 6; 120; 6; 0; 6; 0; 3; 0; 3; 12; 1; 140; 1; 120; 0; 0; 0; 0; 0; 0; 0;
  0; 0; 0; 0; 0; 0; 0; 0; 0; 0; 0; 0; 0; 0; 0; 0; 0; 0; 0; 0; 224; 0; 224; 0;
  224; 0; 0; 0; 0; 0; 0; 0; 0; 0; 0; 0; 224; 0; 224; 0; 224; 0; 0; 0; 0; 0; 0; 0;
  0; 0; 0; 0; 0; 0; 0; 0; 0; 0; 0; 0; 0; 0; 0; 0; 0; 0; 0; 0; 96; 0; 96; 0;
  0; 0; 0; 0; 0; 0; 0; 0; 0; 0; 0; 0; 0; 0; 96; 0; 96; 0; 64; 0; 32; 0; 32; 0;
  0; 0; 0; 0; 0; 0; 0; 0; 0; 4; 0; 2; 0; 1; 128; 0; 64; 0; 32; 0; 16; 0; 8; 0;
  4; 0; 8; 0; 16; 0; 32; 0; 64; 0; 128; 0; 0; 1; 0; 2; 0; 4; 0; 0; 0; 0; 0; 0;
  0; 0; 0; 0; 0; 0; 0; 0; 0; 0; 0; 0; 0; 0; 0; 0; 0; 0; 0; 0; 254; 7; 0; 0;
  0; 0; 0; 0; 254; 7; 0; 0; 0; 0; 0; 0; 0; 0; 0; 0; 0; 0; 0; 0; 0; 0; 0; 0;
  0; 0; 0; 0; 0; 0; 0; 0; 4; 0; 8; 0; 16; 0; 32; 0; 64; 0; 128; 0; 0; 1; 0; 2;
  0; 4; 0; 2; 0; 1; 128; 0; 64; 0; 32; 0; 16; 0; 8; 0; 4; 0; 0; 0; 0; 0; 0; 0;
  0; 0; 0; 0; 0; 0; 0; 0; 0; 0; 224; 3; 24; 6; 4; 12; 4; 12; 12; 12; 12; 12; 0; 7;
  128; 1; 64; 0; 64; 0; 64; 0; 0; 0; 0; 0; 224; 0; 224; 0; 224; 0; 0; 0; 0; 0; 0; 0;
  0; 0; 0; 0; 0; 0; 0; 0; 224; 0; 24; 3; 12; 2; 204; 5; 100; 5; 102; 5; 166; 5; 182; 4;
  182; 4; 182; 4; 182; 4; 182; 2; 228; 1; 12; 4; 12; 2; 24; 3; 240; 0; 0; 0; 0; 0; 0; 0;
  0; 0; 0; 0; 0; 0; 0; 0; 0; 0; 96; 0; 96; 0; 80; 0; 208; 0; 144; 0; 144; 0; 136; 0;
  136; 1; 8; 1; 248; 1; 4; 3; 4; 3; 4; 2; 2; 2; 2; 6; 15; 15; 0; 0; 0; 0; 0; 0;
  0; 0; 0; 0; 0; 0; 0; 0; 0; 0; 254; 0; 140; 3; 12; 3; 12; 3; 12; 3; 12; 3; 140; 1;
  252; 0; 12; 3; 12; 2; 12; 6; 12; 6; 12; 6; 12; 6; 12; 3; 254; 1; 0; 0; 0; 0; 0; 0;
  0; 0; 0; 0; 0; 0; 0; 0; 0; 0; 224; 3; 24; 3; 12; 6; 12; 4; 4; 4; 6; 0; 6; 0;
  6; 0; 6; 0; 6; 0; 6; 0; 6; 4; 12; 4; 12; 2; 24; 3; 240; 0; 0; 0; 0; 0; 0; 0;
  0; 0; 0; 0; 0; 0; 0; 0; 0; 0; 127; 0; 140; 1; 12; 3; 12; 3; 12; 6; 12; 6; 12; 6;
  12; 6; 12; 6; 12; 6; 12; 6; 12; 6; 12; 3; 12; 3; 140; 1; 127; 0; 0; 0; 0; 0; 0; 0;
  0; 0; 0; 0; 0; 0; 0; 0; 0; 0; 255; 3; 6; 3; 6; 4; 6; 4; 6; 0; 134; 0; 134; 0;
  254; 0; 134; 0; 134; 0; 134; 0; 6; 0; 6; 4; 6; 4; 6; 2; 255; 3; 0; 0; 0; 0; 0; 0;
  0; 0; 0; 0; 0; 0; 0; 0; 0; 0; 255; 3; 6; 3; 6; 4; 6; 4; 6; 0; 134; 0; 134; 0;
  254; 0; 134; 0; 134; 0; 134; 0; 6; 0; 6; 0; 6; 0; 6; 0; 31; 0; 0; 0; 0; 0; 0; 0;
  0; 0; 0; 0; 0; 0; 0; 0; 0; 0; 240; 0; 24; 1; 12; 2; 12; 2; 4; 2; 6; 0; 6; 0;
  6; 0; 6; 0; 198; 15; 6; 3; 6; 3; 12; 3; 12; 3; 24; 3; 240; 0; 0; 0; 0; 0; 0; 0;
  0; 0; 0; 0; 0; 0; 0; 0; 0; 0; 15; 15; 6; 6; 6; 6; 6; 6; 6; 6; 6; 6; 6; 6;
  254; 7; 6; 6; 6; 6; 6; 6; 6; 6; 6; 6; 6; 6; 6; 6; 15; 15; 0; 0; 0; 0; 0; 0;
  0; 0; 0; 0; 0; 0; 0; 0; 0; 0; 252; 3; 96; 0; 96; 0; 96; 0; 96; 0; 96; 0; 96; 0;
  96; 0; 96; 0; 96; 0; 96; 0; 96; 0; 96; 0; 96; 0; 96; 0; 252; 3; 0; 0; 0; 0; 0; 0;
  0; 0; 0; 0; 0; 0; 0; 0; 0; 0; 248; 7; 192; 0; 192; 0; 192; 0; 192; 0; 192; 0; 192; 0;
  192; 0; 192; 0; 192; 0; 192; 0; 192; 0; 192; 0; 192; 0; 192; 0; 192; 0; 198; 0; 102; 0; 60; 0;
  0; 0; 0; 0; 0; 0; 0; 0; 0; 0; 207; 3; 134; 1; 198; 0; 70; 0; 38; 0; 22; 0; 54; 0;
  46; 0; 110; 0; 70; 0; 198; 0; 134; 0; 134; 1; 6; 1; 6; 3; 143; 7; 0; 0; 0; 0; 0; 0;
  0; 0; 0; 0; 0; 0; 0; 0; 0; 0; 31; 0; 6; 0; 6; 0; 6; 0; 6; 0; 6; 0; 6; 0;
  6; 0; 6; 0; 6; 0; 6; 0; 6; 0; 6; 4; 6; 4; 6; 2; 255; 3; 0; 0; 0; 0; 0; 0;
  0; 0; 0; 0; 0; 0; 0; 0; 0; 0; 7; 7; 134; 3; 134; 3; 142; 3; 142; 3; 78; 3; 78; 3;
  74; 3; 90; 3; 90; 3; 58; 3; 50; 3; 50; 3; 50; 3; 18; 3; 135; 7; 0; 0; 0; 0; 0; 0;
  0; 0; 0; 0; 0; 0; 0; 0; 0; 0; 142; 15; 12; 2; 28; 2; 28; 2; 52; 2; 52; 2; 100; 2;
  100; 2; 68; 2; 196; 2; 132; 2; 132; 3; 132; 3; 4; 3; 4; 3; 31; 2; 0; 0; 0; 0; 0; 0;
  0; 0; 0; 0; 0; 0; 0; 0; 0; 0; 240; 0; 152; 1; 12; 3; 12; 2; 6; 6; 6; 6; 6; 6;
  6; 6; 6; 6; 6; 6; 6; 6; 6; 6; 12; 2; 12; 3; 152; 1; 240; 0; 0; 0; 0; 0; 0; 0;
  0; 0; 0; 0; 0; 0; 0; 0; 0; 0; 255; 0; 6; 3; 6; 6; 6; 6; 6; 6; 6; 6; 6; 6;
  134; 3; 254; 0; 6; 0; 6; 0; 6; 0; 6; 0; 6; 0; 6; 0; 31; 0; 0; 0; 0; 0; 0; 0;
  0; 0; 0; 0; 0; 0; 0; 0; 0; 0; 240; 0; 152; 1; 12; 3; 12; 2; 6; 6; 6; 6; 6; 6;
  6; 6; 6; 6; 6; 6; 6; 6; 118; 6; 76; 2; 204; 3; 152; 1; 240; 0; 128; 7; 0; 3; 0; 0;
  0; 0; 0; 0; 0; 0; 0; 0; 0; 0; 255; 1; 6; 3; 6; 6; 6; 6; 6; 6; 6; 6; 6; 3;
  254; 0; 70; 0; 198; 0; 134; 0; 134; 1; 6; 3; 6; 3; 6; 6; 15; 14; 0; 0; 0; 0; 0; 0;
  0; 0; 0; 0; 0; 0; 0; 0; 0; 0; 248; 2; 12; 3; 6; 2; 6; 2; 6; 0; 14; 0; 60; 0;
  248; 0; 224; 3; 128; 3; 0; 7; 2; 6; 2; 6; 6; 6; 12; 3; 240; 1; 0; 0; 0; 0; 0; 0;
  0; 0; 0; 0; 0; 0; 0; 0; 0; 0; 254; 7; 98; 4; 97; 8; 97; 8; 96; 0; 96; 0; 96; 0;
  96; 0; 96; 0; 96; 0; 96; 0; 96; 0; 96; 0; 96; 0; 96; 0; 248; 1; 0; 0; 0; 0; 0; 0;
  0; 0; 0; 0; 0; 0; 0; 0; 0; 0; 30; 7; 12; 2; 12; 2; 12; 2; 12; 2; 12; 2; 12; 2;
  12; 2; 12; 2; 12; 2; 12; 2; 12; 2; 12; 2; 12; 2; 24; 1; 240; 0; 0; 0; 0; 0; 0; 0;
  0; 0; 0; 0; 0; 0; 0; 0; 0; 0; 15; 7; 6; 2; 4; 1; 4; 1; 12; 1; 12; 1; 136; 0;
  136; 0; 152; 0; 152; 0; 80; 0; 80; 0; 112; 0; 48; 0; 32; 0; 32; 0; 0; 0; 0; 0; 0; 0;
  0; 0; 0; 0; 0; 0; 0; 0; 0; 0; 247; 14; 98; 4; 66; 4; 70; 4; 70; 4; 100; 2; 100; 2;
  228; 2; 228; 2; 156; 2; 156; 1; 152; 1; 152; 1; 136; 1; 136; 0; 136; 0; 0; 0; 0; 0; 0; 0;
  0; 0; 0; 0; 0; 0; 0; 0; 0; 0; 158; 7; 12; 1; 8; 1; 24; 1; 144; 0; 176; 0; 96; 0;
  32; 0; 96; 0; 96; 0; 208; 0; 144; 0; 136; 1; 8; 1; 4; 3; 142; 7; 0; 0; 0; 0; 0; 0;
  0; 0; 0; 0; 0; 0; 0; 0; 0; 0; 15; 15; 6; 4; 4; 2; 12; 2; 8; 1; 24; 1; 184; 0;
  176; 0; 112; 0; 96; 0; 96; 0; 96; 0; 96; 0; 96; 0; 96; 0; 248; 1; 0; 0; 0; 0; 0; 0;
  0; 0; 0; 0; 0; 0; 0; 0; 0; 0; 252; 7; 12; 2; 6; 3; 2; 1; 128; 1; 128; 0; 64; 0;
  64; 0; 32; 0; 32; 0; 16; 0; 24; 0; 8; 4; 12; 4; 4; 2; 254; 3; 0; 0; 0; 0; 0; 0;
  0; 0; 0; 0; 224; 3; 32; 0; 32; 0; 32; 0; 32; 0; 32; 0; 32; 0; 32; 0; 32; 0; 32; 0;
  32; 0; 32; 0; 32; 0; 32; 0; 32; 0; 32; 0; 32; 0; 32; 0; 32; 0; 32; 0; 224; 3; 0; 0;
  0; 0; 0; 0; 0; 0; 0; 0; 4; 0; 4; 0; 8; 0; 8; 0; 16; 0; 16; 0; 16; 0; 32; 0;
  32; 0; 64; 0; 64; 0; 192; 0; 128; 0; 128; 0; 0; 1; 0; 1; 0; 2; 0; 2; 0; 2; 0; 4;
  0; 0; 0; 0; 124; 0; 64; 0; 64; 0; 64; 0; 64; 0; 64; 0; 64; 0; 64; 0; 64; 0; 64; 0;
  64; 0; 64; 0; 64; 0; 64; 0; 64; 0; 64; 0; 64; 0; 64; 0; 64; 0; 64; 0; 124; 0; 0; 0;
  0; 0; 96; 0; 144; 0; 8; 1; 0; 0; 0; 0; 0; 0; 0; 0; 0; 0; 0; 0; 0; 0; 0; 0;
  0; 0; 0; 0; 0; 0; 0; 0; 0; 0; 0; 0; 0; 0; 0; 0; 0; 0; 0; 0; 0; 0; 0; 0;
  0; 0; 0; 0; 0; 0; 0; 0; 0; 0; 0; 0; 0; 0; 0; 0; 0; 0; 0; 0; 0; 0; 0; 0;
  0; 0; 0; 0; 0; 0; 0; 0; 0; 0; 0; 0; 0; 0; 0; 0; 0; 0; 0; 0; 0; 0; 255; 15;
  0; 0; 0; 0; 24; 0; 96; 0; 0; 0; 0; 0; 0; 0; 0; 0; 0; 0; 0; 0; 0; 0; 0; 0;
  0; 0; 0; 0; 0; 0; 0; 0; 0; 0; 0; 0; 0; 0; 0; 0; 0; 0; 0; 0; 0; 0; 0; 0;
  0; 0; 0; 0; 0; 0; 0; 0; 0; 0; 0; 0; 0; 0; 0; 0; 0; 0; 0; 0; 240; 1; 12; 3;
  12; 3; 0; 3; 224; 3; 28; 3; 14; 3; 6; 3; 6; 3; 142; 11; 124; 14; 0; 0; 0; 0; 0; 0;
  0; 0; 0; 0; 0; 0; 0; 0; 8; 0; 14; 0; 12; 0; 12; 0; 12; 0; 12; 0; 204; 1; 60; 3;
  28; 6; 12; 6; 12; 6; 12; 6; 12; 6; 12; 6; 12; 2; 28; 3; 228; 1; 0; 0; 0; 0; 0; 0;
  0; 0; 0; 0; 0; 0; 0; 0; 0; 0; 0; 0; 0; 0; 0; 0; 0; 0; 0; 0; 240; 0; 140; 1;
  140; 1; 134; 1; 6; 0; 6; 0; 6; 0; 6; 2; 12; 2; 12; 1; 240; 0; 0; 0; 0; 0; 0; 0;
  0; 0; 0; 0; 0; 0; 0; 0; 0; 2; 192; 3; 0; 3; 0; 3; 0; 3; 0; 3; 120; 3; 140; 3;
  12; 3; 6; 3; 6; 3; 6; 3; 6; 3; 6; 3; 4; 3; 140; 7; 120; 1; 0; 0; 0; 0; 0; 0;
  0; 0; 0; 0; 0; 0; 0; 0; 0; 0; 0; 0; 0; 0; 0; 0; 0; 0; 0; 0; 224; 1; 24; 3;
  8; 2; 12; 6; 12; 6; 252; 7; 12; 0; 12; 0; 24; 4; 24; 2; 224; 1; 0; 0; 0; 0; 0; 0;
  0; 0; 0; 0; 0; 0; 0; 0; 0; 0; 192; 3; 96; 6; 48; 6; 48; 0; 48; 0; 254; 1; 48; 0;
  48; 0; 48; 0; 48; 0; 48; 0; 48; 0; 48; 0; 48; 0; 48; 0; 252; 1; 0; 0; 0; 0; 0; 0;
  0; 0; 0; 0; 0; 0; 0; 0; 0; 0; 0; 0; 0; 0; 0; 0; 0; 0; 0; 0; 240; 7; 216; 6;
  140; 1; 140; 1; 140; 1; 152; 1; 248; 0; 12; 0; 252; 0; 204; 3; 6; 3; 6; 3; 142; 3; 248; 0;
  0; 0; 0; 0; 0; 0; 0; 0; 8; 0; 14; 0; 12; 0; 12; 0; 12; 0; 12; 0; 236; 1; 28; 3;
  12; 3; 12; 3; 12; 3; 12; 3; 12; 3; 12; 3; 12; 3; 12; 3; 158; 7; 0; 0; 0; 0; 0; 0;
  0; 0; 0; 0; 0; 0; 0; 0; 0; 0; 96; 0; 96; 0; 0; 0; 0; 0; 64; 0; 124; 0; 96; 0;
  96; 0; 96; 0; 96; 0; 96; 0; 96; 0; 96; 0; 96; 0; 96; 0; 252; 3; 0; 0; 0; 0; 0; 0;
  0; 0; 0; 0; 0; 0; 0; 0; 0; 0; 192; 1; 192; 1; 0; 0; 0; 0; 0; 1; 240; 1; 128; 1;
  128; 1; 128; 1; 128; 1; 128; 1; 128; 1; 128; 1; 128; 1; 128; 1; 128; 1; 128; 1; 204; 0; 124; 0;
  0; 0; 0; 0; 0; 0; 0; 0; 8; 0; 14; 0; 12; 0; 12; 0; 12; 0; 12; 0; 140; 3; 140; 0;
  140; 0; 76; 0; 108; 0; 92; 0; 140; 0; 140; 1; 12; 1; 12; 3; 158; 7; 0; 0; 0; 0; 0; 0;
  0; 0; 0; 0; 0; 0; 0; 0; 64; 0; 124; 0; 96; 0; 96; 0; 96; 0; 96; 0; 96; 0; 96; 0;
  96; 0; 96; 0; 96; 0; 96; 0; 96; 0; 96; 0; 96; 0; 96; 0; 252; 3; 0; 0; 0; 0; 0; 0;
  0; 0; 0; 0; 0; 0; 0; 0; 0; 0; 0; 0; 0; 0; 0; 0; 0; 0; 0; 0; 55; 7; 238; 6;
  102; 6; 102; 6; 102; 6; 102; 6; 102; 6; 102; 6; 102; 6; 102; 6; 255; 15; 0; 0; 0; 0; 0; 0;
  0; 0; 0; 0; 0; 0; 0; 0; 0; 0; 0; 0; 0; 0; 0; 0; 0; 0; 0; 0; 238; 1; 28; 3;
  12; 3; 12; 3; 12; 3; 12; 3; 12; 3; 12; 3; 12; 3; 12; 3; 158; 7; 0; 0; 0; 0; 0; 0;
  0; 0; 0; 0; 0; 0; 0; 0; 0; 0; 0; 0; 0; 0; 0; 0; 0; 0; 0; 0; 240; 0; 152; 1;
  12; 3; 6; 6; 6; 6; 6; 6; 6; 6; 6; 6; 12; 3; 12; 3; 240; 0; 0; 0; 0; 0; 0; 0;
  0; 0; 0; 0; 0; 0; 0; 0; 0; 0; 0; 0; 0; 0; 0; 0; 0; 0; 0; 0; 238; 1; 28; 3;
  12; 6; 12; 6; 12; 6; 12; 6; 12; 6; 12; 6; 12; 3; 28; 3; 236; 1; 12; 0; 12; 0; 62; 0;
  0; 0; 0; 0; 0; 0; 0; 0; 0; 0; 0; 0; 0; 0; 0; 0; 0; 0; 0; 0; 120; 2; 140; 3;
  12; 3; 6; 3; 6; 3; 6; 3; 6; 3; 6; 3; 4; 3; 140; 3; 120; 3; 0; 3; 0; 3; 192; 7;
  0; 0; 0; 0; 0; 0; 0; 0; 0; 0; 0; 0; 0; 0; 0; 0; 0; 0; 0; 0; 159; 3; 88; 6;
  56; 6; 24; 0; 24; 0; 24; 0; 24; 0; 24; 0; 24; 0; 24; 0; 255; 0; 0; 0; 0; 0; 0; 0;
  0; 0; 0; 0; 0; 0; 0; 0; 0; 0; 0; 0; 0; 0; 0; 0; 0; 0; 0; 0; 240; 3; 28; 3;
  12; 2; 12; 2; 56; 0; 240; 0; 192; 3; 4; 3; 4; 3; 140; 3; 252; 1; 0; 0; 0; 0; 0; 0;
  0; 0; 0; 0; 0; 0; 0; 0; 0; 0; 0; 0; 32; 0; 32; 0; 48; 0; 48; 0; 254; 1; 48; 0;
  48; 0; 48; 0; 48; 0; 48; 0; 48; 0; 48; 0; 48; 2; 48; 2; 224; 1; 0; 0; 0; 0; 0; 0;
  0; 0; 0; 0; 0; 0; 0; 0; 0; 0; 0; 0; 0; 0; 0; 0; 0; 0; 8; 2; 142; 3; 12; 3;
  12; 3; 12; 3; 12; 3; 12; 3; 12; 3; 12; 3; 12; 3; 156; 7; 120; 1; 0; 0; 0; 0; 0; 0;
  0; 0; 0; 0; 0; 0; 0; 0; 0; 0; 0; 0; 0; 0; 0; 0; 0; 0; 0; 0; 30; 7; 12; 2;
  8; 1; 8; 1; 24; 1; 144; 0; 176; 0; 176; 0; 96; 0; 96; 0; 32; 0; 0; 0; 0; 0; 0; 0;
  0; 0; 0; 0; 0; 0; 0; 0; 0; 0; 0; 0; 0; 0; 0; 0; 0; 0; 0; 0; 247; 14; 98; 4;
  70; 4; 100; 2; 100; 2; 236; 2; 156; 1; 152; 1; 152; 1; 152; 1; 8; 0; 0; 0; 0; 0; 0; 0;
  0; 0; 0; 0; 0; 0; 0; 0; 0; 0; 0; 0; 0; 0; 0; 0; 0; 0; 0; 0; 188; 7; 24; 1;
  16; 1; 176; 0; 96; 0; 96; 0; 224; 0; 144; 0; 8; 1; 8; 3; 158; 7; 0; 0; 0; 0; 0; 0;
  0; 0; 0; 0; 0; 0; 0; 0; 0; 0; 0; 0; 0; 0; 0; 0; 0; 0; 0; 0; 158; 7; 8; 1;
  8; 1; 8; 1; 144; 0; 144; 0; 176; 0; 96; 0; 96; 0; 96; 0; 32; 0; 32; 0; 36; 0; 28; 0;
  0; 0; 0; 0; 0; 0; 0; 0; 0; 0; 0; 0; 0; 0; 0; 0; 0; 0; 0; 0; 252; 1; 132; 1;
  196; 0; 68; 0; 96; 0; 32; 0; 48; 0; 24; 2; 8; 2; 12; 3; 252; 1; 0; 0; 0; 0; 0; 0;
  0; 0; 0; 0; 0; 3; 128; 0; 128; 0; 128; 0; 128; 0; 128; 0; 128; 0; 128; 0; 128; 0; 64; 0;
  32; 0; 64; 0; 128; 0; 128; 0; 128; 0; 128; 0; 128; 0; 128; 0; 128; 0; 128; 0; 0; 3; 0; 0;
  64; 0; 64; 0; 64; 0; 64; 0; 64; 0; 64; 0; 64; 0; 64; 0; 64; 0; 64; 0; 64; 0; 64; 0;
  64; 0; 64; 0; 64; 0; 64; 0; 64; 0; 64; 0; 64; 0; 64; 0; 64; 0; 64; 0; 64; 0; 64; 0;
  0; 0; 0; 0; 12; 0; 16; 0; 16; 0; 16; 0; 16; 0; 16; 0; 16; 0; 16; 0; 16; 0; 32; 0;
  64; 0; 32; 0; 16; 0; 16; 0; 16; 0; 16; 0; 16; 0; 16; 0; 16; 0; 16; 0; 12; 0; 0; 0;
  0; 0; 28; 0; 34; 4; 194; 4; 128; 3; 0; 0; 0; 0; 0; 0; 0; 0; 0; 0; 0; 0; 0; 0;
  0; 0; 0; 0; 0; 0; 0; 0; 0; 0; 0; 0; 0; 0; 0; 0; 0; 0; 0; 0; 0; 0; 0; 0 ].

Definition Font16x32 : list Z := [
  0; 0; 0; 0; 0; 0; 0; 0; 0; 0; 0; 0; 0; 0; 0; 0; 0; 0; 0; 0; 0; 0; 0; 0;
  0; 0; 0; 0; 0; 0; 0; 0; 0; 0; 0; 0; 0; 0; 0; 0; 0; 0; 0; 0; 0; 0; 0; 0;
  0; 0; 0; 0; 0; 0; 0; 0; 0; 0; 0; 0; 0; 0; 0; 0; 0; 0; 0; 0; 0; 0; 0; 0;
  0; 0; 192; 1; 192; 1; 192; 1; 192; 1; 192; 1; 192; 1; 192; 1; 128; 0; 128; 0; 128; 0; 128; 0;
  128; 0; 128; 0; 128; 0; 0; 0; 0; 0; 0; 0; 0; 0; 128; 1; 192; 3; 192; 3; 128; 1; 0; 0;
  0; 0; 0; 0; 0; 0; 0; 0; 0; 0; 0; 0; 0; 0; 224; 28; 224; 28; 240; 30; 112; 14; 56; 7;
  24; 3; 8; 1; 132; 0; 0; 0; 0; 0; 0; 0; 0; 0; 0; 0; 0; 0; 0; 0; 0; 0; 0; 0;
  0; 0; 0; 0; 0; 0; 0; 0; 0; 0; 0; 0; 0; 0; 0; 0; 0; 0; 0; 0; 0; 0; 0; 0;
  0; 0; 0; 0; 0; 0; 0; 0; 0; 0; 0; 0; 32; 16; 32; 16; 32; 16; 32; 16; 32; 16; 254; 127;
  254; 127; 16; 8; 16; 8; 16; 8; 16; 8; 16; 8; 16; 8; 16; 8; 254; 127; 254; 127; 8; 4; 8; 4;
  8; 4; 8; 4; 8; 4; 0; 0; 0; 0; 0; 0; 0; 0; 0; 0; 0; 0; 0; 0; 0; 0; 0; 0;
  0; 1; 0; 1; 192; 7; 96; 25; 16; 49; 24; 49; 24; 57; 24; 57; 56; 1; 112; 1; 224; 1; 192; 3;
  128; 7; 0; 15; 0; 29; 0; 57; 0; 49; 28; 49; 28; 49; 12; 49; 12; 17; 24; 13; 224; 7; 0; 1;
  0; 1; 0; 1; 0; 0; 0; 0; 0; 0; 0; 0; 0; 0; 0; 0; 0; 0; 0; 0; 28; 16; 54; 24;
  99; 8; 99; 12; 99; 4; 99; 4; 99; 2; 99; 2; 99; 1; 54; 29; 156; 55; 128; 34; 128; 99; 64; 99;
  64; 99; 32; 99; 32; 99; 48; 99; 16; 34; 24; 54; 8; 28; 0; 0; 0; 0; 0; 0; 0; 0; 0; 0;
  0; 0; 0; 0; 0; 0; 0; 0; 0; 0; 0; 0; 240; 0; 152; 1; 140; 1; 140; 1; 140; 1; 140; 1;
  140; 0; 204; 0; 120; 0; 24; 62; 28; 8; 54; 8; 50; 8; 99; 4; 99; 4; 195; 4; 195; 3; 131; 67;
  6; 67; 142; 38; 120; 28; 0; 0; 0; 0; 0; 0; 0; 0; 0; 0; 0; 0; 0; 0; 0; 0; 28; 0;
  60; 0; 60; 0; 48; 0; 48; 0; 16; 0; 12; 0; 6; 0; 0; 0; 0; 0; 0; 0; 0; 0; 0; 0;
  0; 0; 0; 0; 0; 0; 0; 0; 0; 0; 0; 0; 0; 0; 0; 0; 0; 0; 0; 0; 0; 0; 0; 0;
  0; 0; 0; 0; 0; 0; 0; 0; 0; 0; 0; 0; 0; 0; 0; 64; 0; 32; 0; 16; 0; 8; 0; 12;
  0; 4; 0; 6; 0; 3; 0; 3; 0; 3; 128; 1; 128; 1; 128; 1; 128; 1; 128; 1; 128; 1; 128; 1;
  128; 1; 0; 3; 0; 3; 0; 3; 0; 6; 0; 6; 0; 12; 0; 8; 0; 16; 0; 32; 0; 64; 0; 0;
  0; 0; 0; 0; 0; 0; 2; 0; 4; 0; 8; 0; 16; 0; 48; 0; 32; 0; 96; 0; 192; 0; 192; 0;
  192; 0; 128; 1; 128; 1; 128; 1; 128; 1; 128; 1; 128; 1; 128; 1; 128; 1; 192; 0; 192; 0; 192; 0;
  96; 0; 96; 0; 48; 0; 16; 0; 8; 0; 4; 0; 2; 0; 0; 0; 0; 0; 0; 0; 0; 0; 0; 0;
  0; 0; 0; 0; 0; 0; 0; 0; 0; 1; 128; 3; 128; 3; 0; 1; 28; 113; 60; 121; 120; 61; 192; 7;
  0; 1; 192; 7; 120; 61; 60; 121; 28; 113; 0; 1; 128; 3; 128; 3; 128; 1; 0; 0; 0; 0; 0; 0;
  0; 0; 0; 0; 0; 0; 0; 0; 0; 0; 0; 0; 0; 0; 0; 0; 0; 0; 0; 0; 0; 0; 0; 0;
  0; 0; 0; 1; 0; 1; 0; 1; 0; 1; 0; 1; 0; 1; 0; 1; 252; 127; 0; 1; 0; 1; 0; 1;
  0; 1; 0; 1; 0; 1; 0; 1; 0; 0; 0; 0; 0; 0; 0; 0; 0; 0; 0; 0; 0; 0; 0; 0;
  0; 0; 0; 0; 0; 0; 0; 0; 0; 0; 0; 0; 0; 0; 0; 0; 0; 0; 0; 0; 0; 0; 0; 0;
  0; 0; 0; 0; 0; 0; 0; 0; 0; 0; 0; 0; 0; 0; 0; 0; 0; 0; 0; 0; 0; 0; 0; 0;
  28; 0; 60; 0; 60; 0; 48; 0; 48; 0; 16; 0; 12; 0; 6; 0; 0; 0; 0; 0; 0; 0; 0; 0;
  0; 0; 0; 0; 0; 0; 0; 0; 0; 0; 0; 0; 0; 0; 0; 0; 0; 0; 0; 0; 0; 0; 0; 0;
  254; 127; 0; 0; 0; 0; 0; 0; 0; 0; 0; 0; 0; 0; 0; 0; 0; 0; 0; 0; 0; 0; 0; 0;
  0; 0; 0; 0; 0; 0; 0; 0; 0; 0; 0; 0; 0; 0; 0; 0; 0; 0; 0; 0; 0; 0; 0; 0;
  0; 0; 0; 0; 0; 0; 0; 0; 0; 0; 0; 0; 0; 0; 0; 0; 0; 0; 0; 0; 0; 0; 0; 0;
  0; 0; 0; 0; 0; 0; 24; 0; 60; 0; 60; 0; 24; 0; 0; 0; 0; 0; 0; 0; 0; 0; 0; 0;
  0; 0; 0; 0; 0; 0; 0; 64; 0; 96; 0; 32; 0; 48; 0; 16; 0; 24; 0; 8; 0; 12; 0; 4;
  0; 6; 0; 2; 0; 3; 0; 1; 128; 1; 128; 0; 192; 0; 64; 0; 96; 0; 32; 0; 48; 0; 16; 0;
  24; 0; 8; 0; 12; 0; 4; 0; 6; 0; 2; 0; 0; 0; 0; 0; 0; 0; 0; 0; 0; 0; 0; 0;
  0; 0; 0; 0; 192; 7; 96; 12; 48; 24; 24; 48; 24; 48; 24; 32; 12; 96; 12; 96; 12; 96; 12; 96;
  12; 96; 12; 96; 12; 96; 12; 96; 12; 96; 24; 32; 24; 48; 24; 48; 48; 24; 96; 12; 192; 7; 0; 0;
  0; 0; 0; 0; 0; 0; 0; 0; 0; 0; 0; 0; 0; 0; 0; 0; 0; 0; 0; 0; 0; 1; 128; 1;
  248; 1; 128; 1; 128; 1; 128; 1; 128; 1; 128; 1; 128; 1; 128; 1; 128; 1; 128; 1; 128; 1; 128; 1;
  128; 1; 128; 1; 128; 1; 128; 1; 128; 1; 192; 3; 248; 31; 0; 0; 0; 0; 0; 0; 0; 0; 0; 0;
  0; 0; 0; 0; 0; 0; 0; 0; 0; 0; 0; 0; 224; 7; 16; 28; 8; 24; 4; 48; 4; 48; 12; 48;
  12; 48; 0; 48; 0; 24; 0; 8; 0; 4; 0; 2; 0; 1; 128; 0; 64; 0; 32; 32; 16; 32; 8; 32;
  4; 48; 252; 31; 252; 31; 0; 0; 0; 0; 0; 0; 0; 0; 0; 0; 0; 0; 0; 0; 0; 0; 0; 0;
  0; 0; 0; 0; 224; 3; 24; 14; 12; 12; 12; 24; 12; 24; 12; 24; 0; 24; 0; 12; 0; 6; 192; 3;
  0; 14; 0; 24; 0; 16; 0; 48; 0; 48; 12; 48; 12; 48; 12; 16; 12; 24; 24; 12; 224; 3; 0; 0;
  0; 0; 0; 0; 0; 0; 0; 0; 0; 0; 0; 0; 0; 0; 0; 0; 0; 0; 0; 0; 0; 12; 0; 14;
  0; 14; 0; 15; 128; 14; 128; 14; 64; 14; 96; 14; 32; 14; 16; 14; 16; 14; 8; 14; 4; 14; 4; 14;
  254; 127; 0; 14; 0; 14; 0; 14; 0; 14; 0; 14; 0; 14; 192; 127; 0; 0; 0; 0; 0; 0; 0; 0;
  0; 0; 0; 0; 0; 0; 0; 0; 0; 0; 0; 0; 240; 63; 240; 63; 16; 0; 16; 0; 16; 0; 8; 0;
  8; 0; 200; 7; 40; 12; 24; 24; 8; 16; 0; 48; 0; 48; 0; 48; 0; 48; 12; 48; 12; 48; 4; 24;
  4; 24; 8; 12; 240; 3; 0; 0; 0; 0; 0; 0; 0; 0; 0; 0; 0; 0; 0; 0; 0; 0; 0; 0;
  0; 0; 0; 0; 128; 15; 192; 16; 32; 48; 16; 48; 24; 0; 24; 0; 8; 0; 12; 0; 140; 15; 108; 24;
  60; 48; 28; 96; 12; 96; 12; 96; 12; 96; 12; 96; 24; 96; 24; 32; 48; 48; 96; 24; 192; 7; 0; 0;
  0; 0; 0; 0; 0; 0; 0; 0; 0; 0; 0; 0; 0; 0; 0; 0; 0; 0; 0; 0; 248; 63; 248; 63;
  28; 16; 12; 8; 4; 8; 4; 4; 0; 4; 0; 2; 0; 2; 0; 1; 0; 1; 0; 1; 128; 0; 128; 0;
  128; 0; 192; 0; 192; 0; 192; 0; 192; 0; 192; 0; 192; 0; 0; 0; 0; 0; 0; 0; 0; 0; 0; 0;
  0; 0; 0; 0; 0; 0; 0; 0; 0; 0; 0; 0; 224; 7; 48; 12; 24; 24; 12; 48; 12; 48; 12; 48;
  28; 48; 56; 24; 112; 8; 224; 7; 176; 7; 24; 14; 12; 28; 6; 56; 6; 48; 6; 48; 6; 48; 6; 48;
  12; 24; 24; 12; 224; 3; 0; 0; 0; 0; 0; 0; 0; 0; 0; 0; 0; 0; 0; 0; 0; 0; 0; 0;
  0; 0; 0; 0; 224; 3; 24; 4; 12; 8; 12; 24; 6; 16; 6; 48; 6; 48; 6; 48; 6; 48; 6; 56;
  12; 60; 24; 54; 240; 49; 0; 48; 0; 24; 0; 24; 0; 24; 12; 12; 12; 6; 12; 3; 240; 1; 0; 0;
  0; 0; 0; 0; 0; 0; 0; 0; 0; 0; 0; 0; 0; 0; 0; 0; 0; 0; 0; 0; 0; 0; 0; 0;
  0; 0; 0; 0; 0; 0; 0; 0; 0; 0; 128; 1; 192; 3; 192; 3; 128; 1; 0; 0; 0; 0; 0; 0;
  0; 0; 0; 0; 0; 0; 128; 1; 192; 3; 192; 3; 128; 1; 0; 0; 0; 0; 0; 0; 0; 0; 0; 0;
  0; 0; 0; 0; 0; 0; 0; 0; 0; 0; 0; 0; 0; 0; 0; 0; 0; 0; 0; 0; 0; 0; 0; 0;
  0; 0; 192; 0; 192; 0; 0; 0; 0; 0; 0; 0; 0; 0; 0; 0; 0; 0; 0; 0; 0; 0; 0; 0;
  0; 0; 192; 0; 192; 0; 128; 0; 128; 0; 64; 0; 64; 0; 0; 0; 0; 0; 0; 0; 0; 0; 0; 0;
  0; 0; 0; 32; 0; 16; 0; 8; 0; 4; 0; 6; 0; 3; 128; 1; 192; 0; 96; 0; 48; 0; 24; 0;
  12; 0; 24; 0; 48; 0; 96; 0; 192; 0; 128; 1; 0; 3; 0; 6; 0; 4; 0; 8; 0; 16; 0; 32;
  0; 0; 0; 0; 0; 0; 0; 0; 0; 0; 0; 0; 0; 0; 0; 0; 0; 0; 0; 0; 0; 0; 0; 0;
  0; 0; 0; 0; 0; 0; 0; 0; 0; 0; 254; 127; 0; 0; 0; 0; 0; 0; 0; 0; 0; 0; 254; 127;
  0; 0; 0; 0; 0; 0; 0; 0; 0; 0; 0; 0; 0; 0; 0; 0; 0; 0; 0; 0; 0; 0; 0; 0;
  0; 0; 0; 0; 0; 0; 0; 0; 0; 0; 4; 0; 8; 0; 16; 0; 32; 0; 96; 0; 192; 0; 128; 1;
  0; 3; 0; 6; 0; 12; 0; 24; 0; 48; 0; 24; 0; 12; 0; 6; 0; 3; 128; 1; 192; 0; 96; 0;
  32; 0; 16; 0; 8; 0; 4; 0; 0; 0; 0; 0; 0; 0; 0; 0; 0; 0; 0; 0; 0; 0; 0; 0;
  0; 0; 192; 7; 48; 24; 8; 48; 8; 96; 12; 96; 28; 96; 28; 96; 28; 96; 0; 48; 0; 28; 0; 6;
  0; 1; 128; 0; 128; 0; 128; 0; 128; 0; 0; 0; 0; 0; 128; 1; 192; 3; 192; 3; 128; 1; 0; 0;
  0; 0; 0; 0; 0; 0; 0; 0; 0; 0; 0; 0; 0; 0; 0; 0; 0; 0; 0; 0; 192; 7; 96; 24;
  16; 48; 24; 32; 12; 47; 140; 77; 134; 76; 198; 76; 198; 76; 102; 76; 102; 68; 102; 68; 102; 38; 102; 38;
  102; 21; 204; 28; 12; 64; 8; 32; 24; 48; 48; 24; 192; 7; 0; 0; 0; 0; 0; 0; 0; 0; 0; 0;
  0; 0; 0; 0; 0; 0; 0; 0; 0; 0; 0; 1; 192; 1; 192; 1; 192; 1; 64; 1; 96; 3; 32; 3;
  32; 3; 32; 3; 48; 6; 16; 6; 16; 6; 16; 6; 248; 15; 8; 12; 8; 12; 8; 12; 12; 12; 4; 24;
  4; 24; 6; 24; 31; 124; 0; 0; 0; 0; 0; 0; 0; 0; 0; 0; 0; 0; 0; 0; 0; 0; 0; 0;
  0; 0; 0; 0; 254; 7; 24; 28; 24; 56; 24; 48; 24; 48; 24; 48; 24; 48; 24; 24; 24; 12; 248; 7;
  24; 24; 24; 48; 24; 32; 24; 96; 24; 96; 24; 96; 24; 96; 24; 96; 24; 48; 24; 24; 254; 15; 0; 0;
  0; 0; 0; 0; 0; 0; 0; 0; 0; 0; 0; 0; 0; 0; 0; 0; 0; 0; 0; 0; 192; 39; 96; 56;
  16; 48; 24; 32; 12; 64; 12; 64; 4; 0; 6; 0; 6; 0; 6; 0; 6; 0; 6; 0; 6; 0; 6; 0;
  6; 0; 12; 64; 12; 64; 12; 32; 24; 48; 48; 24; 192; 7; 0; 0; 0; 0; 0; 0; 0; 0; 0; 0;
  0; 0; 0; 0; 0; 0; 0; 0; 0; 0; 0; 0; 254; 3; 24; 14; 24; 24; 24; 48; 24; 48; 24; 48;
  24; 96; 24; 96; 24; 96; 24; 96; 24; 96; 24; 96; 24; 96; 24; 96; 24; 96; 24; 48; 24; 48; 24; 16;
  24; 24; 24; 14; 254; 3; 0; 0; 0; 0; 0; 0; 0; 0; 0; 0; 0; 0; 0; 0; 0; 0; 0; 0;
  0; 0; 0; 0; 254; 63; 24; 48; 24; 32; 24; 96; 24; 64; 24; 0; 24; 8; 24; 8; 24; 12; 248; 15;
  24; 12; 24; 8; 24; 8; 24; 0; 24; 0; 24; 0; 24; 64; 24; 64; 24; 32; 24; 48; 254; 63; 0; 0;
  0; 0; 0; 0; 0; 0; 0; 0; 0; 0; 0; 0; 0; 0; 0; 0; 0; 0; 0; 0; 254; 127; 24; 112;
  24; 64; 24; 192; 24; 128; 24; 0; 24; 16; 24; 16; 24; 24; 248; 31; 24; 24; 24; 16; 24; 16; 24; 0;
  24; 0; 24; 0; 24; 0; 24; 0; 24; 0; 24; 0; 126; 0; 0; 0; 0; 0; 0; 0; 0; 0; 0; 0;
  0; 0; 0; 0; 0; 0; 0; 0; 0; 0; 0; 0; 192; 19; 112; 28; 16; 16; 24; 16; 12; 32; 12; 32;
  4; 0; 6; 0; 6; 0; 6; 0; 6; 0; 6; 0; 6; 252; 6; 48; 6; 48; 12; 48; 12; 48; 24; 48;
  24; 48; 48; 8; 192; 7; 0; 0; 0; 0; 0; 0; 0; 0; 0; 0; 0; 0; 0; 0; 0; 0; 0; 0;
  0; 0; 0; 0; 63; 126; 12; 24; 12; 24; 12; 24; 12; 24; 12; 24; 12; 24; 12; 24; 12; 24; 12; 24;
  252; 31; 12; 24; 12; 24; 12; 24; 12; 24; 12; 24; 12; 24; 12; 24; 12; 24; 12; 24; 63; 126; 0; 0;
  0; 0; 0; 0; 0; 0; 0; 0; 0; 0; 0; 0; 0; 0; 0; 0; 0; 0; 0; 0; 248; 31; 128; 1;
  128; 1; 128; 1; 128; 1; 128; 1; 128; 1; 128; 1; 128; 1; 128; 1; 128; 1; 128; 1; 128; 1; 128; 1;
  128; 1; 128; 1; 128; 1; 128; 1; 128; 1; 128; 1; 248; 31; 0; 0; 0; 0; 0; 0; 0; 0; 0; 0;
  0; 0; 0; 0; 0; 0; 0; 0; 0; 0; 0; 0; 224; 127; 0; 6; 0; 6; 0; 6; 0; 6; 0; 6;
  0; 6; 0; 6; 0; 6; 0; 6; 0; 6; 0; 6; 0; 6; 0; 6; 0; 6; 0; 6; 0; 6; 0; 6;
  0; 6; 0; 6; 0; 6; 0; 6; 14; 6; 14; 3; 142; 1; 252; 0; 0; 0; 0; 0; 0; 0; 0; 0;
  0; 0; 0; 0; 126; 124; 24; 24; 24; 8; 24; 4; 24; 6; 24; 2; 24; 1; 152; 1; 152; 1; 216; 1;
  184; 3; 56; 3; 24; 7; 24; 6; 24; 14; 24; 12; 24; 28; 24; 24; 24; 48; 24; 48; 126; 252; 0; 0;
  0; 0; 0; 0; 0; 0; 0; 0; 0; 0; 0; 0; 0; 0; 0; 0; 0; 0; 0; 0; 126; 0; 24; 0;
  24; 0; 24; 0; 24; 0; 24; 0; 24; 0; 24; 0; 24; 0; 24; 0; 24; 0; 24; 0; 24; 0; 24; 0;
  24; 0; 24; 0; 24; 64; 24; 64; 24; 32; 24; 48; 254; 63; 0; 0; 0; 0; 0; 0; 0; 0; 0; 0;
  0; 0; 0; 0; 0; 0; 0; 0; 0; 0; 0; 0; 31; 248; 28; 56; 28; 56; 28; 56; 28; 60; 52; 52;
  52; 52; 52; 52; 52; 54; 116; 50; 100; 50; 100; 50; 100; 50; 100; 49; 196; 49; 196; 49; 196; 49; 196; 48;
  196; 48; 132; 48; 159; 252; 0; 0; 0; 0; 0; 0; 0; 0; 0; 0; 0; 0; 0; 0; 0; 0; 0; 0;
  0; 0; 0; 0; 31; 124; 28; 16; 60; 16; 52; 16; 52; 16; 116; 16; 100; 16; 228; 16; 196; 16; 196; 17;
  132; 17; 132; 19; 4; 19; 4; 23; 4; 22; 4; 30; 4; 28; 4; 28; 4; 28; 4; 24; 31; 24; 0; 0;
  0; 0; 0; 0; 0; 0; 0; 0; 0; 0; 0; 0; 0; 0; 0; 0; 0; 0; 0; 0; 192; 3; 48; 12;
  24; 24; 8; 16; 12; 48; 12; 48; 6; 96; 6; 96; 6; 96; 6; 96; 6; 96; 6; 96; 6; 96; 6; 96;
  6; 96; 12; 32; 12; 48; 8; 16; 24; 24; 48; 12; 192; 3; 0; 0; 0; 0; 0; 0; 0; 0; 0; 0;
  0; 0; 0; 0; 0; 0; 0; 0; 0; 0; 0; 0; 254; 15; 24; 24; 24; 48; 24; 96; 24; 96; 24; 96;
  24; 96; 24; 96; 24; 48; 24; 24; 248; 15; 24; 0; 24; 0; 24; 0; 24; 0; 24; 0; 24; 0; 24; 0;
  24; 0; 24; 0; 126; 0; 0; 0; 0; 0; 0; 0; 0; 0; 0; 0; 0; 0; 0; 0; 0; 0; 0; 0;
  0; 0; 0; 0; 192; 3; 48; 12; 24; 24; 12; 16; 12; 48; 12; 32; 6; 96; 6; 96; 6; 96; 6; 96;
  6; 96; 6; 96; 6; 96; 6; 96; 6; 96; 228; 97; 44; 51; 28; 50; 24; 22; 48; 14; 192; 7; 0; 76;
  0; 124; 0; 56; 0; 0; 0; 0; 0; 0; 0; 0; 0; 0; 0; 0; 0; 0; 0; 0; 254; 7; 24; 28;
  24; 56; 24; 48; 24; 48; 24; 48; 24; 48; 24; 24; 24; 12; 248; 7; 152; 3; 24; 3; 24; 7; 24; 6;
  24; 6; 24; 14; 24; 12; 24; 12; 24; 28; 24; 24; 126; 120; 0; 0; 0; 0; 0; 0; 0; 0; 0; 0;
  0; 0; 0; 0; 0; 0; 0; 0; 0; 0; 0; 0; 224; 39; 48; 56; 24; 48; 12; 32; 12; 32; 12; 0;
  12; 0; 24; 0; 120; 0; 224; 3; 128; 15; 0; 30; 0; 56; 0; 112; 0; 96; 4; 96; 4; 96; 8; 96;
  24; 48; 56; 24; 200; 15; 0; 0; 0; 0; 0; 0; 0; 0; 0; 0; 0; 0; 0; 0; 0; 0; 0; 0;
  0; 0; 0; 0; 252; 63; 140; 33; 132; 97; 130; 65; 130; 65; 128; 1; 128; 1; 128; 1; 128; 1; 128; 1;
  128; 1; 128; 1; 128; 1; 128; 1; 128; 1; 128; 1; 128; 1; 128; 1; 128; 1; 128; 1; 224; 7; 0; 0;
  0; 0; 0; 0; 0; 0; 0; 0; 0; 0; 0; 0; 0; 0; 0; 0; 0; 0; 0; 0; 63; 124; 12; 16;
  12; 16; 12; 16; 12; 16; 12; 16; 12; 16; 12; 16; 12; 16; 12; 16; 12; 16; 12; 16; 12; 16; 12; 16;
  12; 16; 12; 16; 12; 16; 12; 16; 8; 8; 56; 4; 224; 3; 0; 0; 0; 0; 0; 0; 0; 0; 0; 0;
  0; 0; 0; 0; 0; 0; 0; 0; 0; 0; 0; 0; 62; 248; 24; 32; 24; 32; 24; 32; 48; 16; 48; 16;
  48; 16; 48; 16; 96; 8; 96; 8; 96; 8; 224; 12; 192; 4; 192; 4; 192; 4; 128; 3; 128; 3; 128; 3;
  128; 3; 0; 1; 0; 1; 0; 0; 0; 0; 0; 0; 0; 0; 0; 0; 0; 0; 0; 0; 0; 0; 0; 0;
  0; 0; 0; 0; 223; 243; 134; 97; 134; 33; 134; 33; 140; 33; 12; 33; 140; 35; 140; 19; 140; 19; 140; 19;
  76; 19; 88; 18; 88; 22; 88; 14; 56; 14; 56; 14; 56; 14; 48; 12; 16; 4; 16; 4; 16; 4; 0; 0;
  0; 0; 0; 0; 0; 0; 0; 0; 0; 0; 0; 0; 0; 0; 0; 0; 0; 0; 0; 0; 126; 62; 24; 8;
  56; 8; 48; 4; 48; 4; 112; 2; 96; 2; 224; 1; 192; 1; 192; 1; 128; 1; 128; 3; 64; 3; 64; 7;
  32; 6; 32; 6; 16; 12; 16; 12; 8; 24; 8; 24; 62; 124; 0; 0; 0; 0; 0; 0; 0; 0; 0; 0;
  0; 0; 0; 0; 0; 0; 0; 0; 0; 0; 0; 0; 126; 124; 28; 16; 24; 16; 24; 8; 48; 8; 48; 12;
  112; 4; 96; 4; 96; 2; 192; 2; 192; 2; 192; 1; 128; 1; 128; 1; 128; 1; 128; 1; 128; 1; 128; 1;
  128; 1; 128; 1; 224; 7; 0; 0; 0; 0; 0; 0; 0; 0; 0; 0; 0; 0; 0; 0; 0; 0; 0; 0;
  0; 0; 0; 0; 248; 63; 24; 24; 8; 24; 4; 12; 4; 14; 0; 6; 0; 7; 0; 3; 128; 3; 128; 1;
  192; 1; 192; 0; 224; 0; 96; 0; 112; 0; 48; 0; 56; 32; 24; 32; 28; 16; 12; 24; 254; 31; 0; 0;
  0; 0; 0; 0; 0; 0; 0; 0; 0; 0; 0; 0; 0; 0; 192; 63; 64; 0; 64; 0; 64; 0; 64; 0;
  64; 0; 64; 0; 64; 0; 64; 0; 64; 0; 64; 0; 64; 0; 64; 0; 64; 0; 64; 0; 64; 0; 64; 0;
  64; 0; 64; 0; 64; 0; 64; 0; 64; 0; 64; 0; 64; 0; 64; 0; 64; 0; 192; 63; 0; 0; 0; 0;
  0; 0; 0; 0; 0; 0; 0; 0; 0; 0; 8; 0; 24; 0; 24; 0; 16; 0; 48; 0; 32; 0; 96; 0;
  96; 0; 64; 0; 192; 0; 128; 0; 128; 1; 128; 1; 0; 1; 0; 3; 0; 2; 0; 6; 0; 6; 0; 4;
  0; 12; 0; 8; 0; 24; 0; 24; 0; 16; 0; 48; 0; 32; 0; 0; 0; 0; 0; 0; 0; 0; 252; 3;
  0; 2; 0; 2; 0; 2; 0; 2; 0; 2; 0; 2; 0; 2; 0; 2; 0; 2; 0; 2; 0; 2; 0; 2;
  0; 2; 0; 2; 0; 2; 0; 2; 0; 2; 0; 2; 0; 2; 0; 2; 0; 2; 0; 2; 0; 2; 0; 2;
  0; 2; 252; 3; 0; 0; 0; 0; 0; 0; 0; 0; 0; 0; 128; 7; 192; 6; 32; 8; 16; 16; 0; 0;
  0; 0; 0; 0; 0; 0; 0; 0; 0; 0; 0; 0; 0; 0; 0; 0; 0; 0; 0; 0; 0; 0; 0; 0;
  0; 0; 0; 0; 0; 0; 0; 0; 0; 0; 0; 0; 0; 0; 0; 0; 0; 0; 0; 0; 0; 0; 0; 0;
  0; 0; 0; 0; 0; 0; 0; 0; 0; 0; 0; 0; 0; 0; 0; 0; 0; 0; 0; 0; 0; 0; 0; 0;
  0; 0; 0; 0; 0; 0; 0; 0; 0; 0; 0; 0; 0; 0; 0; 0; 0; 0; 0; 0; 0; 0; 0; 0;
  0; 0; 0; 0; 0; 0; 0; 0; 0; 0; 0; 0; 0; 0; 255; 255; 0; 0; 0; 0; 0; 0; 120; 0;
  192; 0; 0; 1; 0; 0; 0; 0; 0; 0; 0; 0; 0; 0; 0; 0; 0; 0; 0; 0; 0; 0; 0; 0;
  0; 0; 0; 0; 0; 0; 0; 0; 0; 0; 0; 0; 0; 0; 0; 0; 0; 0; 0; 0; 0; 0; 0; 0;
  0; 0; 0; 0; 0; 0; 0; 0; 0; 0; 0; 0; 0; 0; 0; 0; 0; 0; 0; 0; 0; 0; 0; 0;
  0; 0; 0; 0; 0; 0; 0; 0; 0; 0; 240; 3; 24; 6; 12; 12; 12; 12; 0; 12; 128; 15; 112; 12;
  28; 12; 12; 12; 6; 12; 6; 12; 6; 76; 12; 79; 248; 56; 0; 0; 0; 0; 0; 0; 0; 0; 0; 0;
  0; 0; 0; 0; 0; 0; 0; 0; 0; 0; 16; 0; 30; 0; 24; 0; 24; 0; 24; 0; 24; 0; 24; 0;
  24; 0; 24; 15; 216; 24; 56; 48; 56; 96; 24; 96; 24; 96; 24; 96; 24; 96; 24; 96; 24; 96; 24; 32;
  56; 48; 120; 24; 200; 7; 0; 0; 0; 0; 0; 0; 0; 0; 0; 0; 0; 0; 0; 0; 0; 0; 0; 0;
  0; 0; 0; 0; 0; 0; 0; 0; 0; 0; 0; 0; 0; 0; 0; 0; 0; 0; 192; 7; 112; 12; 24; 24;
  24; 24; 12; 24; 12; 0; 12; 0; 12; 0; 12; 0; 12; 32; 24; 32; 24; 16; 48; 8; 192; 7; 0; 0;
  0; 0; 0; 0; 0; 0; 0; 0; 0; 0; 0; 0; 0; 0; 0; 0; 0; 0; 0; 16; 0; 30; 0; 24;
  0; 24; 0; 24; 0; 24; 0; 24; 0; 24; 224; 27; 48; 28; 24; 24; 24; 24; 12; 24; 12; 24; 12; 24;
  12; 24; 12; 24; 12; 24; 8; 24; 24; 28; 48; 122; 224; 9; 0; 0; 0; 0; 0; 0; 0; 0; 0; 0;
  0; 0; 0; 0; 0; 0; 0; 0; 0; 0; 0; 0; 0; 0; 0; 0; 0; 0; 0; 0; 0; 0; 0; 0;
  0; 0; 192; 7; 48; 12; 24; 24; 8; 16; 12; 48; 12; 48; 252; 63; 12; 0; 12; 0; 12; 0; 24; 32;
  24; 16; 112; 24; 192; 7; 0; 0; 0; 0; 0; 0; 0; 0; 0; 0; 0; 0; 0; 0; 0; 0; 0; 0;
  0; 0; 0; 0; 0; 62; 128; 195; 128; 192; 192; 192; 192; 0; 192; 0; 192; 0; 252; 31; 192; 0; 192; 0;
  192; 0; 192; 0; 192; 0; 192; 0; 192; 0; 192; 0; 192; 0; 192; 0; 192; 0; 192; 0; 248; 15; 0; 0;
  0; 0; 0; 0; 0; 0; 0; 0; 0; 0; 0; 0; 0; 0; 0; 0; 0; 0; 0; 0; 0; 0; 0; 0;
  0; 0; 0; 0; 0; 0; 0; 0; 0; 0; 192; 119; 48; 108; 16; 24; 24; 24; 24; 24; 24; 24; 16; 24;
  48; 12; 240; 7; 24; 0; 24; 0; 240; 15; 240; 63; 8; 112; 12; 96; 12; 96; 12; 96; 56; 56; 224; 15;
  0; 0; 0; 0; 0; 0; 0; 0; 0; 0; 16; 0; 30; 0; 24; 0; 24; 0; 24; 0; 24; 0; 24; 0;
  24; 0; 152; 15; 216; 24; 56; 48; 24; 48; 24; 48; 24; 48; 24; 48; 24; 48; 24; 48; 24; 48; 24; 48;
  24; 48; 24; 48; 126; 252; 0; 0; 0; 0; 0; 0; 0; 0; 0; 0; 0; 0; 0; 0; 0; 0; 0; 0;
  0; 0; 0; 0; 128; 3; 128; 3; 128; 3; 0; 0; 0; 0; 0; 0; 0; 1; 248; 1; 128; 1; 128; 1;
  128; 1; 128; 1; 128; 1; 128; 1; 128; 1; 128; 1; 128; 1; 128; 1; 128; 1; 128; 1; 248; 31; 0; 0;
  0; 0; 0; 0; 0; 0; 0; 0; 0; 0; 0; 0; 0; 0; 0; 0; 0; 0; 0; 0; 0; 56; 0; 56;
  0; 56; 0; 0; 0; 0; 0; 0; 0; 16; 128; 31; 0; 24; 0; 24; 0; 24; 0; 24; 0; 24; 0; 24;
  0; 24; 0; 24; 0; 24; 0; 24; 0; 24; 0; 24; 0; 24; 0; 24; 0; 24; 24; 12; 24; 6; 240; 3;
  0; 0; 0; 0; 0; 0; 0; 0; 0; 0; 16; 0; 30; 0; 24; 0; 24; 0; 24; 0; 24; 0; 24; 0;
  24; 0; 24; 62; 24; 12; 24; 6; 24; 3; 24; 1; 152; 1; 216; 1; 56; 3; 24; 7; 24; 6; 24; 12;
  24; 28; 24; 24; 126; 124; 0; 0; 0; 0; 0; 0; 0; 0; 0; 0; 0; 0; 0; 0; 0; 0; 0; 0;
  0; 0; 0; 1; 248; 1; 128; 1; 128; 1; 128; 1; 128; 1; 128; 1; 128; 1; 128; 1; 128; 1; 128; 1;
  128; 1; 128; 1; 128; 1; 128; 1; 128; 1; 128; 1; 128; 1; 128; 1; 128; 1; 128; 1; 248; 31; 0; 0;
  0; 0; 0; 0; 0; 0; 0; 0; 0; 0; 0; 0; 0; 0; 0; 0; 0; 0; 0; 0; 0; 0; 0; 0;
  0; 0; 0; 0; 0; 0; 0; 0; 8; 0; 238; 28; 156; 51; 140; 49; 140; 49; 140; 49; 140; 49; 140; 49;
  140; 49; 140; 49; 140; 49; 140; 49; 140; 49; 140; 49; 222; 123; 0; 0; 0; 0; 0; 0; 0; 0; 0; 0;
  0; 0; 0; 0; 0; 0; 0; 0; 0; 0; 0; 0; 0; 0; 0; 0; 0; 0; 0; 0; 0; 0; 0; 0;
  16; 0; 30; 15; 216; 24; 56; 48; 24; 48; 24; 48; 24; 48; 24; 48; 24; 48; 24; 48; 24; 48; 24; 48;
  24; 48; 24; 48; 126; 252; 0; 0; 0; 0; 0; 0; 0; 0; 0; 0; 0; 0; 0; 0; 0; 0; 0; 0;
  0; 0; 0; 0; 0; 0; 0; 0; 0; 0; 0; 0; 0; 0; 0; 0; 0; 0; 192; 7; 112; 28; 16; 48;
  24; 48; 12; 96; 12; 96; 12; 96; 12; 96; 12; 96; 12; 96; 24; 48; 24; 48; 48; 24; 192; 7; 0; 0;
  0; 0; 0; 0; 0; 0; 0; 0; 0; 0; 0; 0; 0; 0; 0; 0; 0; 0; 0; 0; 0; 0; 0; 0;
  0; 0; 0; 0; 0; 0; 0; 0; 16; 0; 158; 15; 88; 24; 56; 48; 24; 32; 24; 96; 24; 96; 24; 96;
  24; 96; 24; 96; 24; 96; 24; 48; 56; 48; 120; 24; 152; 7; 24; 0; 24; 0; 24; 0; 24; 0; 126; 0;
  0; 0; 0; 0; 0; 0; 0; 0; 0; 0; 0; 0; 0; 0; 0; 0; 0; 0; 0; 0; 0; 0; 0; 0;
  0; 0; 192; 35; 48; 60; 24; 56; 24; 48; 12; 48; 12; 48; 12; 48; 12; 48; 12; 48; 12; 48; 8; 48;
  24; 56; 48; 60; 224; 51; 0; 48; 0; 48; 0; 48; 0; 48; 0; 252; 0; 0; 0; 0; 0; 0; 0; 0;
  0; 0; 0; 0; 0; 0; 0; 0; 0; 0; 0; 0; 0; 0; 0; 0; 96; 0; 126; 60; 96; 102; 96; 97;
  224; 0; 224; 0; 96; 0; 96; 0; 96; 0; 96; 0; 96; 0; 96; 0; 96; 0; 96; 0; 254; 7; 0; 0;
  0; 0; 0; 0; 0; 0; 0; 0; 0; 0; 0; 0; 0; 0; 0; 0; 0; 0; 0; 0; 0; 0; 0; 0;
  0; 0; 0; 0; 0; 0; 0; 0; 0; 0; 224; 39; 48; 56; 24; 48; 24; 32; 24; 0; 112; 0; 224; 3;
  128; 15; 0; 28; 4; 48; 4; 48; 12; 48; 28; 24; 236; 15; 0; 0; 0; 0; 0; 0; 0; 0; 0; 0;
  0; 0; 0; 0; 0; 0; 0; 0; 0; 0; 0; 0; 0; 0; 0; 0; 128; 0; 128; 0; 128; 0; 192; 0;
  224; 0; 252; 31; 192; 0; 192; 0; 192; 0; 192; 0; 192; 0; 192; 0; 192; 0; 192; 0; 192; 0; 192; 32;
  192; 32; 128; 17; 0; 15; 0; 0; 0; 0; 0; 0; 0; 0; 0; 0; 0; 0; 0; 0; 0; 0; 0; 0;
  0; 0; 0; 0; 0; 0; 0; 0; 0; 0; 0; 0; 0; 0; 0; 0; 16; 32; 30; 60; 24; 48; 24; 48;
  24; 48; 24; 48; 24; 48; 24; 48; 24; 48; 24; 48; 24; 48; 24; 48; 24; 56; 48; 244; 224; 19; 0; 0;
  0; 0; 0; 0; 0; 0; 0; 0; 0; 0; 0; 0; 0; 0; 0; 0; 0; 0; 0; 0; 0; 0; 0; 0;
  0; 0; 0; 0; 0; 0; 0; 0; 0; 0; 126; 60; 24; 24; 24; 8; 56; 8; 48; 4; 48; 4; 112; 2;
  96; 2; 96; 2; 224; 1; 192; 1; 192; 1; 192; 0; 128; 0; 0; 0; 0; 0; 0; 0; 0; 0; 0; 0;
  0; 0; 0; 0; 0; 0; 0; 0; 0; 0; 0; 0; 0; 0; 0; 0; 0; 0; 0; 0; 0; 0; 0; 0;
  0; 0; 223; 247; 142; 99; 12; 35; 140; 35; 140; 35; 152; 19; 152; 19; 88; 22; 88; 22; 112; 14; 112; 14;
  112; 14; 32; 4; 32; 4; 0; 0; 0; 0; 0; 0; 0; 0; 0; 0; 0; 0; 0; 0; 0; 0; 0; 0;
  0; 0; 0; 0; 0; 0; 0; 0; 0; 0; 0; 0; 0; 0; 0; 0; 0; 0; 252; 62; 112; 8; 112; 4;
  224; 4; 192; 2; 192; 1; 128; 3; 128; 3; 64; 7; 96; 6; 32; 12; 16; 12; 24; 24; 62; 126; 0; 0;
  0; 0; 0; 0; 0; 0; 0; 0; 0; 0; 0; 0; 0; 0; 0; 0; 0; 0; 0; 0; 0; 0; 0; 0;
  0; 0; 0; 0; 0; 0; 0; 0; 0; 0; 126; 124; 24; 24; 24; 8; 48; 8; 48; 8; 48; 4; 96; 4;
  96; 4; 192; 2; 192; 2; 192; 2; 128; 1; 128; 1; 128; 1; 128; 0; 128; 0; 128; 0; 76; 0; 60; 0;
  0; 0; 0; 0; 0; 0; 0; 0; 0; 0; 0; 0; 0; 0; 0; 0; 0; 0; 0; 0; 0; 0; 0; 0;
  0; 0; 252; 31; 12; 12; 4; 14; 4; 6; 0; 3; 128; 3; 128; 1; 192; 0; 224; 0; 112; 32; 48; 32;
  56; 48; 28; 24; 252; 31; 0; 0; 0; 0; 0; 0; 0; 0; 0; 0; 0; 0; 0; 0; 0; 0; 0; 48;
  0; 8; 0; 4; 0; 4; 0; 4; 0; 4; 0; 4; 0; 4; 0; 4; 0; 4; 0; 4; 0; 4; 0; 2;
  128; 1; 0; 2; 0; 4; 0; 4; 0; 4; 0; 4; 0; 4; 0; 4; 0; 4; 0; 4; 0; 4; 0; 4;
  0; 4; 0; 8; 0; 48; 0; 0; 0; 1; 0; 1; 0; 1; 0; 1; 0; 1; 0; 1; 0; 1; 0; 1;
  0; 1; 0; 1; 0; 1; 0; 1; 0; 1; 0; 1; 0; 1; 0; 1; 0; 1; 0; 1; 0; 1; 0; 1;
  0; 1; 0; 1; 0; 1; 0; 1; 0; 1; 0; 1; 0; 1; 0; 1; 0; 1; 0; 1; 0; 1; 0; 1;
  0; 0; 0; 0; 0; 0; 12; 0; 16; 0; 32; 0; 32; 0; 32; 0; 32; 0; 32; 0; 32; 0; 32; 0;
  32; 0; 32; 0; 32; 0; 64; 0; 128; 1; 64; 0; 32; 0; 32; 0; 32; 0; 32; 0; 32; 0; 32; 0;
  32; 0; 32; 0; 32; 0; 32; 0; 32; 0; 16; 0; 12; 0; 0; 0; 0; 0; 56; 0; 196; 0; 134; 64;
  2; 97; 0; 34; 0; 28; 0; 0; 0; 0; 0; 0; 0; 0; 0; 0; 0; 0; 0; 0; 0; 0; 0; 0;
  0; 0; 0; 0; 0; 0; 0; 0; 0; 0; 0; 0; 0; 0; 0; 0; 0; 0; 0; 0; 0; 0; 0; 0;
  0; 0; 0; 0; 0; 0; 0; 0 ].

Definition Font11x18_usr : list Z := [
  0; 0; 0; 0; 0; 0; 0; 0; 0; 0; 0; 0; 0; 0; 0; 0; 0; 0; 0; 0; 0; 0; 0; 0;
  0; 0; 0; 0; 0; 0; 0; 0; 0; 0; 0; 0; 0; 0; 0; 0; 0; 0; 28; 0; 62; 0; 62; 0;
  62; 0; 28; 0; 28; 0; 0; 0; 28; 0; 28; 0; 0; 0; 0; 0; 0; 0; 0; 0; 0; 0; 0; 0;
  0; 0; 0; 0; 0; 0; 119; 0; 119; 0; 119; 0; 0; 0; 0; 0; 0; 0; 0; 0; 0; 0; 0; 0;
  0; 0; 0; 0; 0; 0; 0; 0; 0; 0; 0; 0; 0; 0; 0; 0; 0; 0; 63; 0; 63; 0; 127; 128;
  63; 0; 63; 0; 63; 0; 127; 128; 63; 0; 63; 0; 0; 0; 0; 0; 0; 0; 0; 0; 0; 0; 0; 0;
  0; 0; 28; 0; 28; 0; 62; 0; 119; 0; 112; 0; 56; 0; 28; 0; 14; 0; 7; 0; 119; 0; 62; 0;
  28; 0; 28; 0; 0; 0; 0; 0; 0; 0; 0; 0; 0; 0; 0; 0; 120; 0; 252; 0; 255; 0; 127; 0;
  14; 0; 28; 0; 56; 0; 127; 0; 127; 128; 31; 128; 15; 0; 0; 0; 0; 0; 0; 0; 0; 0; 0; 0;
  0; 0; 0; 0; 0; 0; 60; 0; 126; 0; 126; 0; 60; 0; 112; 0; 127; 128; 119; 0; 119; 0; 63; 128;
  0; 0; 0; 0; 0; 0; 0; 0; 0; 0; 0; 0; 0; 0; 0; 0; 0; 0; 28; 0; 28; 0; 28; 0;
  0; 0; 0; 0; 0; 0; 0; 0; 0; 0; 0; 0; 0; 0; 0; 0; 0; 0; 0; 0; 0; 0; 0; 0;
  0; 0; 0; 0; 0; 0; 14; 0; 28; 0; 28; 0; 56; 0; 56; 0; 56; 0; 56; 0; 56; 0; 28; 0;
  28; 0; 14; 0; 0; 0; 0; 0; 0; 0; 0; 0; 0; 0; 0; 0; 0; 0; 56; 0; 28; 0; 28; 0;
  14; 0; 14; 0; 14; 0; 14; 0; 14; 0; 28; 0; 28; 0; 56; 0; 0; 0; 0; 0; 0; 0; 0; 0;
  0; 0; 0; 0; 0; 0; 0; 0; 0; 0; 63; 0; 30; 0; 127; 128; 30; 0; 63; 0; 0; 0; 0; 0;
  0; 0; 0; 0; 0; 0; 0; 0; 0; 0; 0; 0; 0; 0; 0; 0; 0; 0; 0; 0; 0; 0; 28; 0;
  28; 0; 127; 0; 28; 0; 28; 0; 0; 0; 0; 0; 0; 0; 0; 0; 0; 0; 0; 0; 0; 0; 0; 0;
  0; 0; 0; 0; 0; 0; 0; 0; 0; 0; 0; 0; 0; 0; 0; 0; 0; 0; 0; 0; 30; 0; 30; 0;
  14; 0; 28; 0; 0; 0; 0; 0; 0; 0; 0; 0; 0; 0; 0; 0; 0; 0; 0; 0; 0; 0; 0; 0;
  0; 0; 127; 0; 0; 0; 0; 0; 0; 0; 0; 0; 0; 0; 0; 0; 0; 0; 0; 0; 0; 0; 0; 0;
  0; 0; 0; 0; 0; 0; 0; 0; 0; 0; 0; 0; 0; 0; 0; 0; 0; 0; 0; 0; 30; 0; 30; 0;
  0; 0; 0; 0; 0; 0; 0; 0; 0; 0; 0; 0; 0; 0; 0; 0; 0; 0; 7; 0; 7; 0; 14; 0;
  14; 0; 28; 0; 28; 0; 56; 0; 56; 0; 112; 0; 112; 0; 0; 0; 0; 0; 0; 0; 0; 0; 0; 0;
  0; 0; 0; 0; 0; 0; 31; 0; 59; 128; 63; 128; 63; 128; 59; 128; 63; 128; 63; 128; 59; 128; 31; 0;
  0; 0; 0; 0; 0; 0; 0; 0; 0; 0; 0; 0; 0; 0; 0; 0; 0; 0; 14; 0; 30; 0; 126; 0;
  14; 0; 14; 0; 14; 0; 14; 0; 14; 0; 14; 0; 0; 0; 0; 0; 0; 0; 0; 0; 0; 0; 0; 0;
  0; 0; 0; 0; 0; 0; 62; 0; 119; 0; 119; 0; 7; 0; 14; 0; 28; 0; 56; 0; 112; 0; 127; 0;
  0; 0; 0; 0; 0; 0; 0; 0; 0; 0; 0; 0; 0; 0; 0; 0; 0; 0; 62; 0; 119; 0; 119; 0;
  7; 0; 30; 0; 7; 0; 119; 0; 119; 0; 62; 0; 0; 0; 0; 0; 0; 0; 0; 0; 0; 0; 0; 0;
  0; 0; 0; 0; 0; 0; 56; 0; 56; 0; 63; 0; 63; 0; 63; 0; 119; 0; 127; 128; 7; 0; 7; 0;
  0; 0; 0; 0; 0; 0; 0; 0; 0; 0; 0; 0; 0; 0; 0; 0; 0; 0; 127; 0; 112; 0; 112; 0;
  112; 0; 126; 0; 7; 0; 7; 0; 14; 0; 124; 0; 0; 0; 0; 0; 0; 0; 0; 0; 0; 0; 0; 0;
  0; 0; 0; 0; 0; 0; 30; 0; 28; 0; 56; 0; 126; 0; 119; 0; 119; 0; 119; 0; 119; 0; 62; 0;
  0; 0; 0; 0; 0; 0; 0; 0; 0; 0; 0; 0; 0; 0; 0; 0; 0; 0; 127; 0; 7; 0; 14; 0;
  14; 0; 28; 0; 28; 0; 56; 0; 56; 0; 56; 0; 0; 0; 0; 0; 0; 0; 0; 0; 0; 0; 0; 0;
  0; 0; 0; 0; 0; 0; 62; 0; 119; 0; 119; 0; 127; 0; 62; 0; 127; 0; 119; 0; 119; 0; 62; 0;
  0; 0; 0; 0; 0; 0; 0; 0; 0; 0; 0; 0; 0; 0; 0; 0; 0; 0; 62; 0; 119; 0; 119; 0;
  119; 0; 119; 0; 63; 0; 14; 0; 28; 0; 60; 0; 0; 0; 0; 0; 0; 0; 0; 0; 0; 0; 0; 0;
  0; 0; 0; 0; 0; 0; 0; 0; 0; 0; 30; 0; 30; 0; 0; 0; 0; 0; 0; 0; 30; 0; 30; 0;
  0; 0; 0; 0; 0; 0; 0; 0; 0; 0; 0; 0; 0; 0; 0; 0; 0; 0; 0; 0; 0; 0; 30; 0;
  30; 0; 0; 0; 0; 0; 0; 0; 30; 0; 30; 0; 14; 0; 28; 0; 0; 0; 0; 0; 0; 0; 0; 0;
  0; 0; 0; 0; 0; 0; 7; 0; 14; 0; 28; 0; 56; 0; 112; 0; 56; 0; 28; 0; 14; 0; 7; 0;
  0; 0; 0; 0; 0; 0; 0; 0; 0; 0; 0; 0; 0; 0; 0; 0; 0; 0; 0; 0; 0; 0; 0; 0;
  127; 0; 0; 0; 127; 0; 0; 0; 0; 0; 0; 0; 0; 0; 0; 0; 0; 0; 0; 0; 0; 0; 0; 0;
  0; 0; 0; 0; 0; 0; 112; 0; 56; 0; 28; 0; 14; 0; 7; 0; 14; 0; 28; 0; 56; 0; 112; 0;
  0; 0; 0; 0; 0; 0; 0; 0; 0; 0; 0; 0; 0; 0; 0; 0; 0; 0; 62; 0; 119; 0; 119; 0;
  14; 0; 28; 0; 28; 0; 0; 0; 28; 0; 28; 0; 0; 0; 0; 0; 0; 0; 0; 0; 0; 0; 0; 0;
  0; 0; 0; 0; 0; 0; 127; 0; 227; 128; 227; 128; 239; 128; 255; 128; 255; 128; 239; 128; 224; 0; 127; 128;
  0; 0; 0; 0; 0; 0; 0; 0; 0; 0; 0; 0; 0; 0; 0; 0; 0; 0; 28; 0; 62; 0; 119; 0;
  119; 0; 119; 0; 127; 0; 119; 0; 119; 0; 119; 0; 0; 0; 0; 0; 0; 0; 0; 0; 0; 0; 0; 0;
  0; 0; 0; 0; 0; 0; 126; 0; 119; 0; 119; 0; 119; 0; 126; 0; 119; 0; 119; 0; 119; 0; 126; 0;
  0; 0; 0; 0; 0; 0; 0; 0; 0; 0; 0; 0; 0; 0; 0; 0; 0; 0; 62; 0; 119; 0; 119; 0;
  112; 0; 112; 0; 112; 0; 119; 0; 119; 0; 62; 0; 0; 0; 0; 0; 0; 0; 0; 0; 0; 0; 0; 0;
  0; 0; 0; 0; 0; 0; 124; 0; 126; 0; 119; 0; 119; 0; 119; 0; 119; 0; 119; 0; 126; 0; 124; 0;
  0; 0; 0; 0; 0; 0; 0; 0; 0; 0; 0; 0; 0; 0; 0; 0; 0; 0; 127; 0; 112; 0; 112; 0;
  112; 0; 126; 0; 112; 0; 112; 0; 112; 0; 127; 0; 0; 0; 0; 0; 0; 0; 0; 0; 0; 0; 0; 0;
  0; 0; 0; 0; 0; 0; 127; 0; 112; 0; 112; 0; 112; 0; 126; 0; 112; 0; 112; 0; 112; 0; 112; 0;
  0; 0; 0; 0; 0; 0; 0; 0; 0; 0; 0; 0; 0; 0; 0; 0; 0; 0; 62; 0; 119; 0; 119; 0;
  112; 0; 112; 0; 127; 0; 119; 0; 119; 0; 63; 0; 0; 0; 0; 0; 0; 0; 0; 0; 0; 0; 0; 0;
  0; 0; 0; 0; 0; 0; 119; 0; 119; 0; 119; 0; 119; 0; 127; 0; 119; 0; 119; 0; 119; 0; 119; 0;
  0; 0; 0; 0; 0; 0; 0; 0; 0; 0; 0; 0; 0; 0; 0; 0; 0; 0; 62; 0; 28; 0; 28; 0;
  28; 0; 28; 0; 28; 0; 28; 0; 28; 0; 62; 0; 0; 0; 0; 0; 0; 0; 0; 0; 0; 0; 0; 0;
  0; 0; 0; 0; 0; 0; 7; 0; 7; 0; 7; 0; 7; 0; 7; 0; 7; 0; 119; 0; 119; 0; 62; 0;
  0; 0; 0; 0; 0; 0; 0; 0; 0; 0; 0; 0; 0; 0; 0; 0; 0; 0; 119; 0; 119; 0; 126; 0;
  126; 0; 124; 0; 126; 0; 126; 0; 119; 0; 119; 0; 0; 0; 0; 0; 0; 0; 0; 0; 0; 0; 0; 0;
  0; 0; 0; 0; 0; 0; 112; 0; 112; 0; 112; 0; 112; 0; 112; 0; 112; 0; 112; 0; 112; 0; 127; 0;
  0; 0; 0; 0; 0; 0; 0; 0; 0; 0; 0; 0; 0; 0; 0; 0; 0; 0; 115; 128; 115; 128; 127; 128;
  127; 128; 127; 128; 127; 128; 115; 128; 115; 128; 115; 128; 0; 0; 0; 0; 0; 0; 0; 0; 0; 0; 0; 0;
  0; 0; 0; 0; 0; 0; 115; 128; 115; 128; 123; 128; 127; 128; 127; 128; 119; 128; 115; 128; 115; 128; 115; 128;
  0; 0; 0; 0; 0; 0; 0; 0; 0; 0; 0; 0; 0; 0; 0; 0; 0; 0; 62; 0; 119; 0; 119; 0;
  119; 0; 119; 0; 119; 0; 119; 0; 119; 0; 62; 0; 0; 0; 0; 0; 0; 0; 0; 0; 0; 0; 0; 0;
  0; 0; 0; 0; 0; 0; 126; 0; 119; 0; 119; 0; 119; 0; 126; 0; 112; 0; 112; 0; 112; 0; 112; 0;
  0; 0; 0; 0; 0; 0; 0; 0; 0; 0; 0; 0; 0; 0; 0; 0; 0; 0; 62; 0; 119; 0; 119; 0;
  119; 0; 119; 0; 119; 0; 119; 0; 119; 0; 62; 0; 14; 0; 7; 0; 0; 0; 0; 0; 0; 0; 0; 0;
  0; 0; 0; 0; 0; 0; 126; 0; 119; 0; 119; 0; 119; 0; 126; 0; 126; 0; 119; 0; 119; 0; 119; 0;
  0; 0; 0; 0; 0; 0; 0; 0; 0; 0; 0; 0; 0; 0; 0; 0; 0; 0; 62; 0; 119; 0; 112; 0;
  56; 0; 28; 0; 14; 0; 7; 0; 119; 0; 62; 0; 0; 0; 0; 0; 0; 0; 0; 0; 0; 0; 0; 0;
  0; 0; 0; 0; 0; 0; 127; 0; 28; 0; 28; 0; 28; 0; 28; 0; 28; 0; 28; 0; 28; 0; 28; 0;
  0; 0; 0; 0; 0; 0; 0; 0; 0; 0; 0; 0; 0; 0; 0; 0; 0; 0; 119; 0; 119; 0; 119; 0;
  119; 0; 119; 0; 119; 0; 119; 0; 119; 0; 62; 0; 0; 0; 0; 0; 0; 0; 0; 0; 0; 0; 0; 0;
  0; 0; 0; 0; 0; 0; 119; 0; 119; 0; 119; 0; 119; 0; 119; 0; 119; 0; 119; 0; 62; 0; 28; 0;
  0; 0; 0; 0; 0; 0; 0; 0; 0; 0; 0; 0; 0; 0; 0; 0; 0; 0; 115; 128; 115; 128; 115; 128;
  127; 128; 127; 128; 127; 128; 63; 0; 63; 0; 63; 0; 0; 0; 0; 0; 0; 0; 0; 0; 0; 0; 0; 0;
  0; 0; 0; 0; 0; 0; 119; 0; 119; 0; 62; 0; 28; 0; 28; 0; 62; 0; 119; 0; 119; 0; 119; 0;
  0; 0; 0; 0; 0; 0; 0; 0; 0; 0; 0; 0; 0; 0; 0; 0; 0; 0; 119; 0; 119; 0; 119; 0;
  119; 0; 62; 0; 28; 0; 28; 0; 28; 0; 28; 0; 0; 0; 0; 0; 0; 0; 0; 0; 0; 0; 0; 0;
  0; 0; 0; 0; 0; 0; 127; 0; 7; 0; 7; 0; 14; 0; 28; 0; 56; 0; 112; 0; 112; 0; 127; 0;
  0; 0; 0; 0; 0; 0; 0; 0; 0; 0; 0; 0; 0; 0; 0; 0; 0; 0; 62; 0; 56; 0; 56; 0;
  56; 0; 56; 0; 56; 0; 56; 0; 56; 0; 56; 0; 56; 0; 56; 0; 62; 0; 0; 0; 0; 0; 0; 0;
  0; 0; 0; 0; 0; 0; 112; 0; 112; 0; 56; 0; 56; 0; 28; 0; 28; 0; 14; 0; 14; 0; 7; 0;
  7; 0; 0; 0; 0; 0; 0; 0; 0; 0; 0; 0; 0; 0; 0; 0; 0; 0; 62; 0; 14; 0; 14; 0;
  14; 0; 14; 0; 14; 0; 14; 0; 14; 0; 14; 0; 14; 0; 14; 0; 62; 0; 0; 0; 0; 0; 0; 0;
  0; 0; 28; 0; 62; 0; 119; 0; 0; 0; 0; 0; 0; 0; 0; 0; 0; 0; 0; 0; 0; 0; 0; 0;
  0; 0; 0; 0; 0; 0; 0; 0; 0; 0; 0; 0; 0; 0; 0; 0; 0; 0; 0; 0; 0; 0; 0; 0;
  0; 0; 0; 0; 0; 0; 0; 0; 0; 0; 0; 0; 0; 0; 0; 0; 255; 128; 0; 0; 0; 0; 0; 0;
  0; 0; 60; 0; 28; 0; 14; 0; 0; 0; 0; 0; 0; 0; 0; 0; 0; 0; 0; 0; 0; 0; 0; 0;
  0; 0; 0; 0; 0; 0; 0; 0; 0; 0; 0; 0; 0; 0; 0; 0; 0; 0; 0; 0; 0; 0; 62; 0;
  7; 0; 7; 0; 63; 0; 119; 0; 119; 0; 63; 0; 0; 0; 0; 0; 0; 0; 0; 0; 0; 0; 0; 0;
  0; 0; 0; 0; 0; 0; 112; 0; 112; 0; 126; 0; 119; 0; 119; 0; 119; 0; 119; 0; 119; 0; 126; 0;
  0; 0; 0; 0; 0; 0; 0; 0; 0; 0; 0; 0; 0; 0; 0; 0; 0; 0; 0; 0; 0; 0; 62; 0;
  119; 0; 112; 0; 112; 0; 112; 0; 119; 0; 62; 0; 0; 0; 0; 0; 0; 0; 0; 0; 0; 0; 0; 0;
  0; 0; 0; 0; 0; 0; 7; 0; 7; 0; 63; 0; 119; 0; 119; 0; 119; 0; 119; 0; 119; 0; 63; 0;
  0; 0; 0; 0; 0; 0; 0; 0; 0; 0; 0; 0; 0; 0; 0; 0; 0; 0; 0; 0; 0; 0; 62; 0;
  119; 0; 119; 0; 127; 0; 112; 0; 112; 0; 62; 0; 0; 0; 0; 0; 0; 0; 0; 0; 0; 0; 0; 0;
  0; 0; 0; 0; 0; 0; 31; 0; 56; 0; 56; 0; 56; 0; 127; 0; 56; 0; 56; 0; 56; 0; 56; 0;
  0; 0; 0; 0; 0; 0; 0; 0; 0; 0; 0; 0; 0; 0; 0; 0; 0; 0; 0; 0; 0; 0; 63; 0;
  119; 0; 119; 0; 119; 0; 119; 0; 119; 0; 63; 0; 7; 0; 7; 0; 126; 0; 0; 0; 0; 0; 0; 0;
  0; 0; 0; 0; 0; 0; 112; 0; 112; 0; 126; 0; 119; 0; 119; 0; 119; 0; 119; 0; 119; 0; 119; 0;
  0; 0; 0; 0; 0; 0; 0; 0; 0; 0; 0; 0; 0; 0; 0; 0; 28; 0; 28; 0; 0; 0; 124; 0;
  28; 0; 28; 0; 28; 0; 28; 0; 28; 0; 127; 0; 0; 0; 0; 0; 0; 0; 0; 0; 0; 0; 0; 0;
  0; 0; 0; 0; 14; 0; 14; 0; 0; 0; 62; 0; 14; 0; 14; 0; 14; 0; 14; 0; 14; 0; 14; 0;
  14; 0; 14; 0; 124; 0; 0; 0; 0; 0; 0; 0; 0; 0; 0; 0; 0; 0; 112; 0; 112; 0; 119; 0;
  119; 0; 126; 0; 124; 0; 126; 0; 119; 0; 119; 0; 0; 0; 0; 0; 0; 0; 0; 0; 0; 0; 0; 0;
  0; 0; 0; 0; 0; 0; 124; 0; 28; 0; 28; 0; 28; 0; 28; 0; 28; 0; 28; 0; 28; 0; 127; 0;
  0; 0; 0; 0; 0; 0; 0; 0; 0; 0; 0; 0; 0; 0; 0; 0; 0; 0; 0; 0; 0; 0; 127; 0;
  127; 128; 127; 128; 127; 128; 127; 128; 127; 128; 115; 128; 0; 0; 0; 0; 0; 0; 0; 0; 0; 0; 0; 0;
  0; 0; 0; 0; 0; 0; 0; 0; 0; 0; 126; 0; 119; 0; 119; 0; 119; 0; 119; 0; 119; 0; 119; 0;
  0; 0; 0; 0; 0; 0; 0; 0; 0; 0; 0; 0; 0; 0; 0; 0; 0; 0; 0; 0; 0; 0; 62; 0;
  119; 0; 119; 0; 119; 0; 119; 0; 119; 0; 62; 0; 0; 0; 0; 0; 0; 0; 0; 0; 0; 0; 0; 0;
  0; 0; 0; 0; 0; 0; 0; 0; 0; 0; 126; 0; 119; 0; 119; 0; 119; 0; 119; 0; 119; 0; 126; 0;
  112; 0; 112; 0; 112; 0; 0; 0; 0; 0; 0; 0; 0; 0; 0; 0; 0; 0; 0; 0; 0; 0; 63; 0;
  119; 0; 119; 0; 119; 0; 119; 0; 119; 0; 63; 0; 7; 0; 7; 0; 7; 0; 0; 0; 0; 0; 0; 0;
  0; 0; 0; 0; 0; 0; 0; 0; 0; 0; 119; 0; 127; 0; 120; 0; 112; 0; 112; 0; 112; 0; 112; 0;
  0; 0; 0; 0; 0; 0; 0; 0; 0; 0; 0; 0; 0; 0; 0; 0; 0; 0; 0; 0; 0; 0; 63; 0;
  112; 0; 112; 0; 62; 0; 7; 0; 7; 0; 126; 0; 0; 0; 0; 0; 0; 0; 0; 0; 0; 0; 0; 0;
  0; 0; 0; 0; 0; 0; 56; 0; 56; 0; 127; 0; 56; 0; 56; 0; 56; 0; 56; 0; 56; 0; 31; 0;
  0; 0; 0; 0; 0; 0; 0; 0; 0; 0; 0; 0; 0; 0; 0; 0; 0; 0; 0; 0; 0; 0; 119; 0;
  119; 0; 119; 0; 119; 0; 119; 0; 119; 0; 63; 0; 0; 0; 0; 0; 0; 0; 0; 0; 0; 0; 0; 0;
  0; 0; 0; 0; 0; 0; 0; 0; 0; 0; 119; 0; 119; 0; 119; 0; 119; 0; 119; 0; 62; 0; 28; 0;
  0; 0; 0; 0; 0; 0; 0; 0; 0; 0; 0; 0; 0; 0; 0; 0; 0; 0; 0; 0; 0; 0; 115; 128;
  127; 128; 127; 128; 127; 128; 127; 128; 63; 0; 63; 0; 0; 0; 0; 0; 0; 0; 0; 0; 0; 0; 0; 0;
  0; 0; 0; 0; 0; 0; 0; 0; 0; 0; 119; 0; 119; 0; 62; 0; 28; 0; 62; 0; 119; 0; 119; 0;
  0; 0; 0; 0; 0; 0; 0; 0; 0; 0; 0; 0; 0; 0; 0; 0; 0; 0; 0; 0; 0; 0; 119; 0;
  119; 0; 119; 0; 119; 0; 119; 0; 119; 0; 62; 0; 14; 0; 28; 0; 248; 0; 0; 0; 0; 0; 0; 0;
  0; 0; 0; 0; 0; 0; 0; 0; 0; 0; 127; 0; 7; 0; 14; 0; 28; 0; 56; 0; 112; 0; 127; 0;
  0; 0; 0; 0; 0; 0; 0; 0; 0; 0; 0; 0; 0; 0; 0; 0; 0; 0; 14; 0; 28; 0; 28; 0;
  28; 0; 56; 0; 112; 0; 56; 0; 28; 0; 28; 0; 28; 0; 14; 0; 0; 0; 0; 0; 0; 0; 0; 0;
  0; 0; 0; 0; 0; 0; 28; 0; 28; 0; 28; 0; 28; 0; 28; 0; 28; 0; 28; 0; 28; 0; 28; 0;
  28; 0; 28; 0; 28; 0; 0; 0; 0; 0; 0; 0; 0; 0; 0; 0; 0; 0; 56; 0; 28; 0; 28; 0;
  28; 0; 14; 0; 7; 0; 14; 0; 28; 0; 28; 0; 28; 0; 56; 0; 0; 0; 0; 0; 0; 0; 0; 0;
  0; 0; 0; 0; 0; 0; 121; 128; 255; 128; 207; 0; 0; 0; 0; 0; 0; 0; 0; 0; 0; 0; 0; 0;
  0; 0; 0; 0; 0; 0; 0; 0; 0; 0; 0; 0 ].

Definition Font_3x5 : FontDef_t :=
  {| f_width := 3; f_height := 5; f_order := 1; f_bytes := 1; f_data := Font3x5 |}.
Definition Font_5x7 : FontDef_t :=
  {| f_width := 5; f_height := 7; f_order := 1; f_bytes := 1; f_data := Font5x7 |}.
Definition Font_6x12 : FontDef_t :=
  {| f_width := 6; f_height := 12; f_order := 1; f_bytes := 1; f_data := Font6x12 |}.
Definition Font_8x16 : FontDef_t :=
  {| f_width := 8; f_height := 16; f_order := 1; f_bytes := 1; f_data := Font8x16 |}.
Definition Font_12x24 : FontDef_t :=
  {| f_width := 12; f_height := 24; f_order := 1; f_bytes := 2; f_data := Font12x24 |}.
Definition Font_16x32 : FontDef_t :=
  {| f_width := 16; f_height := 32; f_order := 1; f_bytes := 2; f_data := Font16x32 |}.
Definition Font_6x8 : FontDef_t :=
  {| f_width := 6; f_height := 8; f_order := 0; f_bytes := 1; f_data := Font6x8 |}.
Definition Font_7x10 : FontDef_t :=
  {| f_width := 7; f_height := 10; f_order := 0; f_bytes := 1; f_data := Font7x10 |}.
Definition Font_11x18 : FontDef_t :=
  {| f_width := 11; f_height := 18; f_order := 0; f_bytes := 2; f_data := Font11x18 |}.
Definition Font_16x26 : FontDef_t :=
  {| f_width := 16; f_height := 26; f_order := 0; f_bytes := 2; f_data := Font16x26 |}.
Definition Font_usr_11x18 : FontDef_t :=
  {| f_width := 11; f_height := 18; f_order := 0; f_bytes := 2; f_data := Font11x18_usr |}.
