(* ===== verification/Display.v ===== *)
(** The LCD driver of ST7567.c: the frame buffer and its drawing routines, text,
    and the bit-banged serial wire to the display controller. *)
From stdpp Require Import sets.
From S2P Require Import Prelude Fonts.

(** ** State *)

(** The pins of ST7567.h, all on GPIOB, as [HAL_GPIO_WritePin] drives them. *)
Inductive lcd_pin : Set := CS | SCK | MOSI | DC | RES | BL.
#[export] Instance lcd_pin_eq_dec : EqDecision lcd_pin.
Proof. solve_decision. Defined.

Inductive lcd_event : Set :=
  | WritePin (p : lcd_pin) (high : bool)
  | Delay (ms : Z).
#[export] Instance lcd_event_eq_dec : EqDecision lcd_event.
Proof. solve_decision. Defined.

Definition ST7567_WIDTH : Z := 128.
Definition ST7567_HEIGHT : Z := 64.
Definition ST7567_SEG_EXPAND : Z := 4.
(** ST7567_X_ORIENT is ST7567_SEG_DIRECTION_NORMAL. *)
Definition ST7567_X_OFFSET : Z := 0.
Definition BUFFER_SIZE : Z := (ST7567_WIDTH + ST7567_SEG_EXPAND) * ST7567_HEIGHT / 8.

Definition ST7567_COLOR_BACK : Z := 0x00.
Definition ST7567_COLOR_FRONT : Z := 0x01.

Definition ST7567_DISPLAY_ON : Z := 0xAF.
Definition ST7567_SET_START_LINE : Z := 0x40.
Definition ST7567_SET_START_LINE_MASK : Z := 0x3f.
Definition ST7567_SET_PAGE_ADDRESS : Z := 0xB0.
Definition ST7567_SET_PAGE_ADDRESS_MASK : Z := 0x07.
Definition ST7567_SET_COLUMN_ADDRESS_MSB : Z := 0x10.
Definition ST7567_SET_COLUMN_ADDRESS_LSB : Z := 0x00.
Definition ST7567_SEG_DIRECTION_NORMAL : Z := 0xA0.
Definition ST7567_COM_DIRECTION_REVERSE : Z := 0xC8.
Definition ST7567_X_ORIENT : Z := ST7567_SEG_DIRECTION_NORMAL.
Definition ST7567_Y_ORIENT : Z := ST7567_COM_DIRECTION_REVERSE.
Definition ST7567_INVERSE_DISPLAY_OFF : Z := 0xA6.
Definition ST7567_INVERSE_DISPLAY_ON : Z := 0xA7.
Definition ST7567_ALL_PIXEL_NORMAL : Z := 0xA4.
Definition ST7567_BIAS_1_9 : Z := 0xA2.
Definition ST7567_RESET : Z := 0xE2.
Definition ST7567_POWER_CONTROL : Z := 0x28.
Definition ST7567_POWER_CONTROL_VF : Z := 0x01.
Definition ST7567_POWER_CONTROL_VR : Z := 0x02.
Definition ST7567_POWER_CONTROL_VB : Z := 0x04.
Definition ST7567_REGULATION_RATIO : Z := 0x20.
Definition ST7567_REGULATION_RATIO_4_5 : Z := 0x03.
Definition ST7567_SET_EV : Z := 0x81.
Definition ST7567_SET_EV_MASK : Z := 0x3F.

(** [ST7567_Buffer_all] and the fields of [ST7567_t] the driver uses.
    [lcd_beyond] is what memory holds behind the buffer, which
    [ST7567_UpdateScreen] reads; [lcd_over] lists the positions of the reads that leave
    the buffer and [lcd_wire] the pin events, both latest first. *)
Record lcd := mk_lcd {
  lcd_buffer : list Z;
  lcd_beyond : list Z;
  CurrentX : Z;
  CurrentY : Z;
  Inverted : Z;
  lcd_over : list Z;
  lcd_wire : list lcd_event;
}.
#[export] Instance eta_lcd : Eta lcd := λ r,
  mk_lcd (lcd_buffer r) (lcd_beyond r) (CurrentX r) (CurrentY r) (Inverted r) (lcd_over r) (lcd_wire r).

(** ** The wire *)

Definition HAL_GPIO_WritePin (p : lcd_pin) (high : bool) : prog lcd unit :=
  modify (λ d, d <| lcd_wire := WritePin p high :: lcd_wire d |>).
Definition HAL_Delay (ms : Z) : prog lcd unit :=
  modify (λ d, d <| lcd_wire := Delay ms :: lcd_wire d |>).

(** The loop of [ST7567_TransmitByte]: [n] bits left of [dat]. *)
Fixpoint transmit_bits (n : nat) (dat : Z) : prog lcd unit :=
  match n with
  | O => mret tt
  | S n =>
      HAL_GPIO_WritePin SCK false;;
      HAL_GPIO_WritePin MOSI (bool_decide (Z.land dat 0x80 ≠ 0));;
      HAL_GPIO_WritePin SCK true;;
      transmit_bits n (u8 (Z.shiftl dat 1))
  end.

Definition ST7567_TransmitByte (dat : Z) : prog lcd unit :=
  HAL_GPIO_WritePin CS false;;
  transmit_bits 8 dat;;
  HAL_GPIO_WritePin CS true.

(** [pData] points into the array [l] at offset [i]. *)
Fixpoint ST7567_Transmit (l : list Z) (i : Z) (Size : nat) : prog lcd unit :=
  match Size with
  | O => mret tt
  | S Size =>
      b ← lift (load l i);
      ST7567_TransmitByte b;;
      ST7567_Transmit l (i + 1) Size
  end.

Definition ST7567_WriteCommand (command : Z) : prog lcd unit :=
  HAL_GPIO_WritePin DC false;;
  ST7567_TransmitByte command;;
  HAL_GPIO_WritePin DC true.

Definition ST7567_WriteData (data : Z) : prog lcd unit := ST7567_TransmitByte data.

Definition ST7567_Reset : prog lcd unit :=
  HAL_GPIO_WritePin RES false;;
  HAL_Delay 5;;
  HAL_GPIO_WritePin RES true.

Definition ST7567_BackLight_On : prog lcd unit := HAL_GPIO_WritePin BL true.
Definition ST7567_BackLight_Off : prog lcd unit := HAL_GPIO_WritePin BL false.

Definition ST7567_Init : prog lcd unit :=
  ST7567_Reset;;
  ST7567_BackLight_Off;;
  ST7567_WriteCommand ST7567_RESET;;
  ST7567_WriteCommand (Z.lor (Z.lor (Z.lor ST7567_POWER_CONTROL ST7567_POWER_CONTROL_VB)
                                    ST7567_POWER_CONTROL_VR) ST7567_POWER_CONTROL_VF);;
  ST7567_WriteCommand ST7567_SET_EV;;
  ST7567_WriteCommand (Z.land ST7567_SET_EV_MASK 0x020);;
  ST7567_WriteCommand ST7567_BIAS_1_9;;
  ST7567_WriteCommand ST7567_X_ORIENT;;
  ST7567_WriteCommand ST7567_Y_ORIENT;;
  ST7567_WriteCommand (Z.lor ST7567_REGULATION_RATIO ST7567_REGULATION_RATIO_4_5);;
  ST7567_WriteCommand ST7567_INVERSE_DISPLAY_OFF;;
  ST7567_WriteCommand ST7567_DISPLAY_ON;;
  ST7567_WriteCommand ST7567_ALL_PIXEL_NORMAL;;
  ST7567_WriteCommand (Z.lor ST7567_SET_START_LINE (Z.land 0x00 ST7567_SET_START_LINE_MASK));;
  ST7567_WriteCommand (Z.lor ST7567_SET_PAGE_ADDRESS (Z.land 0x00 ST7567_SET_PAGE_ADDRESS_MASK));;
  ST7567_WriteCommand ST7567_SET_COLUMN_ADDRESS_MSB;;
  ST7567_WriteCommand ST7567_SET_COLUMN_ADDRESS_LSB.

Definition ST7567_SetContrast (val : Z) : prog lcd unit :=
  ST7567_WriteCommand ST7567_SET_EV;;
  ST7567_WriteCommand (Z.land ST7567_SET_EV_MASK val).

(** A read of [ST7567_Buffer_all[i]]. One that leaves the buffer is put on record and
    answered by the memory behind it. *)
Definition buffer_read (i : Z) : prog lcd Z :=
  d ← gets id;
  when (bool_decide (¬ 0 ≤ i < zlen (lcd_buffer d))) (modify (λ d, d <| lcd_over := i :: lcd_over d |>));;
  lift (load (lcd_buffer d ++ lcd_beyond d) i).

Definition ST7567_UpdateScreen : prog lcd unit :=
  for_range 0 9 (λ i,
    ST7567_WriteCommand (u8 (0xb0 + i));;
    ST7567_WriteCommand ST7567_SET_COLUMN_ADDRESS_MSB;;
    ST7567_WriteCommand ST7567_SET_COLUMN_ADDRESS_LSB;;
    for_range 0 132 (λ j,
      b ← buffer_read (i * 132 + j);
      ST7567_WriteData b)).

Definition ST7567_ToggleInvert : prog lcd unit :=
  modify (λ d, d <| Inverted := (if decide (Inverted d = 0) then 1 else 0) |>);;
  inv ← gets Inverted;
  if decide (inv ≠ 0) then ST7567_WriteCommand ST7567_INVERSE_DISPLAY_ON
  else ST7567_WriteCommand ST7567_INVERSE_DISPLAY_OFF.

(** ** Pixels *)

Definition ST7567_Fill (color : Z) : prog lcd unit :=
  modify (λ d, d <| lcd_buffer :=
    replicate (Z.to_nat BUFFER_SIZE)
      (if decide (color = ST7567_COLOR_BACK) then 0x00 else 0xFF) |>).

Definition pixel_index (x y : Z) : Z :=
  ST7567_X_OFFSET + x + y / 8 * (ST7567_WIDTH + ST7567_SEG_EXPAND).

Definition ST7567_DrawPixel (x y color : Z) : prog lcd unit :=
  if decide (ST7567_WIDTH ≤ x ∨ ST7567_HEIGHT ≤ y) then mret tt
  else
    let i := pixel_index x y in
    buf ← gets lcd_buffer;
    b ← lift (load buf i);
    buf' ← lift (store buf i
      (if decide (color = ST7567_COLOR_FRONT)
       then Z.lor b (Z.shiftl 1 (y mod 8))
       else Z.land b (Z.lnot (Z.shiftl 1 (y mod 8)))));
    modify (λ d, d <| lcd_buffer := buf' |>).

Definition ST7567_GotoXY (x y : Z) : prog lcd unit :=
  modify (λ d, d <| CurrentX := x |> <| CurrentY := y |>).

(** ** Text *)

(** The innermost loop of [ST7567_Putc]: column [k] of byte [b], up to 8 columns
    and the font's width; [rem] is [font->width - j * 8], an unsigned value. *)
Fixpoint putc_bits (n : nat) (k : Z) (b rem x y order color : Z) : prog lcd unit :=
  match n with
  | O => mret tt
  | S n =>
      if decide (k < rem) then
        let set := if decide (order = 0)
          then bool_decide (Z.land (u32 (Z.shiftl b k)) 0x80 ≠ 0)
          else bool_decide (Z.land b (Z.shiftl 0x0001 k) ≠ 0) in
        ST7567_DrawPixel (u16 (x + k)) (u16 y)
          (if set then color else (if decide (color = 0) then 1 else 0));;
        putc_bits n (k + 1) b rem x y order color
      else mret tt
  end.

(** [complement] is [~] on the font byte, as [ST7567_Putc_Hightlight] has it. *)
Definition putc_gen (complement : bool) (ch : Z) (font : FontDef_t) (color : Z)
    : prog lcd Z :=
  for_range 0 (f_height font) (λ i,
    for_range 0 (f_bytes font) (λ j,
      b0 ← lift (load (f_data font)
        (u32 (u32 ((ch - 32) * f_height font + i) * f_bytes font + j)));
      let b := if complement then u32 (Z.lnot b0) else b0 in
      x ← gets CurrentX;
      y ← gets CurrentY;
      putc_bits 8 0 b (u32 (f_width font - j * 8)) (x + j * 8) (y + i) (f_order font) color));;
  modify (λ d, d <| CurrentX := u16 (CurrentX d + f_width font) |>);;
  mret ch.

Definition ST7567_Putc : Z → FontDef_t → Z → prog lcd Z := putc_gen false.
Definition ST7567_Putc_Hightlight : Z → FontDef_t → Z → prog lcd Z := putc_gen true.

(** [str] is the character array the pointer walks through, from offset [p]. *)
Fixpoint puts_loop (putc : Z → prog lcd Z) (fuel : nat) (str : list Z) (p : Z) : prog lcd Z :=
  match fuel with
  | O => fail NoFuel
  | S fuel =>
      c ← lift (load str p);
      if decide (c ≠ 0) then
        r ← putc c;
        if decide (r ≠ c) then mret c
        else puts_loop putc fuel str (p + 1)
      else mret c
  end.

Definition ST7567_Puts (str : list Z) (Font : FontDef_t) (color : Z) : prog lcd Z :=
  puts_loop (λ c, ST7567_Putc c Font color) (S (length str)) str 0.
Definition ST7567_Puts_HightLight (str : list Z) (Font : FontDef_t) (color : Z) : prog lcd Z :=
  puts_loop (λ c, ST7567_Putc_Hightlight c Font color) (S (length str)) str 0.

(** ** Lines and shapes *)

(** The [while (1)] of [ST7567_DrawLine]; the coordinates are 16-bit. *)
Fixpoint line_loop (fuel : nat) (x0 y0 x1 y1 dx dy sx sy err c : Z) : prog lcd unit :=
  match fuel with
  | O => fail NoFuel
  | S fuel =>
      ST7567_DrawPixel x0 y0 c;;
      if decide (x0 = x1 ∧ y0 = y1) then mret tt
      else
        let e2 := err in
        let '(err, x0) :=
          if decide (e2 > - dx) then (s16 (err - dy), u16 (x0 + sx)) else (err, x0) in
        let '(err, y0) :=
          if decide (e2 < dy) then (s16 (err + dx), u16 (y0 + sy)) else (err, y0) in
        line_loop fuel x0 y0 x1 y1 dx dy sx sy err c
  end.

(** A line on the screen has at most [ST7567_WIDTH] points. *)
Definition LINE_FUEL : nat := 128.

Definition clamp (v limit : Z) : Z := if decide (limit ≤ v) then limit - 1 else v.

Definition ST7567_DrawLine (x0 y0 x1 y1 c : Z) : prog lcd unit :=
  let x0 := clamp x0 ST7567_WIDTH in
  let x1 := clamp x1 ST7567_WIDTH in
  let y0 := clamp y0 ST7567_HEIGHT in
  let y1 := clamp y1 ST7567_HEIGHT in
  let dx := if decide (x0 < x1) then x1 - x0 else x0 - x1 in
  let dy := if decide (y0 < y1) then y1 - y0 else y0 - y1 in
  let sx := if decide (x0 < x1) then 1 else -1 in
  let sy := if decide (y0 < y1) then 1 else -1 in
  let err := Z.quot (if decide (dx > dy) then dx else - dy) 2 in
  if decide (dx = 0) then
    let '(y0, y1) := if decide (y1 < y0) then (y1, y0) else (y0, y1) in
    for_range y0 (y1 + 1) (λ i, ST7567_DrawPixel x0 i c)
  else if decide (dy = 0) then
    let '(x0, x1) := if decide (x1 < x0) then (x1, x0) else (x0, x1) in
    for_range x0 (x1 + 1) (λ i, ST7567_DrawPixel i y0 c)
  else line_loop LINE_FUEL x0 y0 x1 y1 dx dy sx sy err c.

Definition ST7567_DrawRectangle (x y w h c : Z) : prog lcd unit :=
  if decide (ST7567_WIDTH ≤ x ∨ ST7567_HEIGHT ≤ y) then mret tt
  else
    let w := if decide (ST7567_WIDTH ≤ x + w) then ST7567_WIDTH - x else w in
    let h := if decide (ST7567_HEIGHT ≤ y + h) then ST7567_HEIGHT - y else h in
    ST7567_DrawLine x y (x + w) y c;;
    ST7567_DrawLine x (y + h) (x + w) (y + h) c;;
    ST7567_DrawLine x y x (y + h) c;;
    ST7567_DrawLine (x + w) y (x + w) (y + h) c.

Definition ST7567_DrawFilledRectangle (x y w h c : Z) : prog lcd unit :=
  if decide (ST7567_WIDTH ≤ x ∨ ST7567_HEIGHT ≤ y) then mret tt
  else
    let w := if decide (ST7567_WIDTH ≤ x + w) then ST7567_WIDTH - x else w in
    let h := if decide (ST7567_HEIGHT ≤ y + h) then ST7567_HEIGHT - y else h in
    for_range 0 (h + 1) (λ i, ST7567_DrawLine x (y + i) (x + w) (y + i) c).

Definition ST7567_DrawTriangle (x1 y1 x2 y2 x3 y3 color : Z) : prog lcd unit :=
  ST7567_DrawLine x1 y1 x2 y2 color;;
  ST7567_DrawLine x2 y2 x3 y3 color;;
  ST7567_DrawLine x3 y3 x1 y1 color.

(** The scan of [ST7567_DrawFilledTriangle]: [n] values of [curpixel] left. *)
Fixpoint triangle_loop (n : nat) (x y x3 y3 num numadd den xinc1 yinc1 xinc2 yinc2 color : Z)
    : prog lcd unit :=
  match n with
  | O => mret tt
  | S n =>
      ST7567_DrawLine (u16 x) (u16 y) x3 y3 color;;
      let num := s16 (num + numadd) in
      let '(num, x, y) :=
        if decide (den ≤ num) then (s16 (num - den), s16 (x + xinc1), s16 (y + yinc1))
        else (num, x, y) in
      triangle_loop n (s16 (x + xinc2)) (s16 (y + yinc2)) x3 y3 num numadd den
        xinc1 yinc1 xinc2 yinc2 color
  end.

Definition ST7567_DrawFilledTriangle (x1 y1 x2 y2 x3 y3 color : Z) : prog lcd unit :=
  let deltax := s16 (Z.abs (x2 - x1)) in
  let deltay := s16 (Z.abs (y2 - y1)) in
  let xinc := if decide (x1 ≤ x2) then 1 else -1 in
  let yinc := if decide (y1 ≤ y2) then 1 else -1 in
  if decide (deltay ≤ deltax) then
    triangle_loop (Z.to_nat (deltax + 1)) (s16 x1) (s16 y1) x3 y3
      (Z.quot deltax 2) deltay deltax 0 yinc xinc 0 color
  else
    triangle_loop (Z.to_nat (deltay + 1)) (s16 x1) (s16 y1) x3 y3
      (Z.quot deltay 2) deltax deltay xinc 0 0 yinc color.

(** One turn of the circle loops: the next [x], [y], [f], [ddF_x], [ddF_y]. *)
Definition circle_step (x y f ddF_x ddF_y : Z) : Z * Z * Z * Z * Z :=
  let '(y, ddF_y, f) :=
    if decide (0 ≤ f) then (s16 (y - 1), s16 (ddF_y + 2), s16 (f + s16 (ddF_y + 2)))
    else (y, ddF_y, f) in
  (s16 (x + 1), y, s16 (f + s16 (ddF_x + 2)), s16 (ddF_x + 2), ddF_y).

Fixpoint circle_loop (fuel : nat) (draw : Z → Z → prog lcd unit) (x y f ddF_x ddF_y : Z)
    : prog lcd unit :=
  match fuel with
  | O => fail NoFuel
  | S fuel =>
      if decide (x < y) then
        let '(x, y, f, ddF_x, ddF_y) := circle_step x y f ddF_x ddF_y in
        draw x y;;
        circle_loop fuel draw x y f ddF_x ddF_y
      else mret tt
  end.

(** [x] grows by one per turn and [y] never grows. *)
Definition circle_fuel (r : Z) : nat := S (Z.to_nat r).

Definition ST7567_DrawCircle (x0 y0 r c : Z) : prog lcd unit :=
  let px x y := ST7567_DrawPixel (u16 x) (u16 y) c in
  px x0 (y0 + r);;
  px x0 (y0 - r);;
  px (x0 + r) y0;;
  px (x0 - r) y0;;
  circle_loop (circle_fuel r) (λ x y,
    px (x0 + x) (y0 + y);; px (x0 - x) (y0 + y);;
    px (x0 + x) (y0 - y);; px (x0 - x) (y0 - y);;
    px (x0 + y) (y0 + x);; px (x0 - y) (y0 + x);;
    px (x0 + y) (y0 - x);; px (x0 - y) (y0 - x))
    0 r (s16 (1 - r)) 1 (s16 (-2 * r)).

Definition ST7567_DrawFilledCircle (x0 y0 r c : Z) : prog lcd unit :=
  let px x y := ST7567_DrawPixel (u16 x) (u16 y) c in
  let line x y x' y' := ST7567_DrawLine (u16 x) (u16 y) (u16 x') (u16 y') c in
  px x0 (y0 + r);;
  px x0 (y0 - r);;
  px (x0 + r) y0;;
  px (x0 - r) y0;;
  line (x0 - r) y0 (x0 + r) y0;;
  circle_loop (circle_fuel r) (λ x y,
    line (x0 - x) (y0 + y) (x0 + x) (y0 + y);;
    line (x0 + x) (y0 - y) (x0 - x) (y0 - y);;
    line (x0 + y) (y0 + x) (x0 - y) (y0 + x);;
    line (x0 + y) (y0 - x) (x0 - y) (y0 - x))
    0 r (s16 (1 - r)) 1 (s16 (-2 * r)).

(** ** Images *)

Definition ST7567_Image (img : list Z) (frame x y : Z) : prog lcd unit :=
  w ← lift (load img 0);
  h ← lift (load img 1);
  frames ← lift (load img 2);
  if decide (frames ≤ frame) then mret tt
  else
    lo ← lift (load img 3);
    hi ← lift (load img 4);
    let start := frame * (lo + Z.shiftl hi 8) in
    for_range 0 h (λ i, for_range 0 w (λ j,
      let b := i * w + j in
      v ← lift (load img (b / 8 + 5 + start));
      ST7567_DrawPixel (u16 (x + j)) (u16 (y + i)) (Z.land (u8 (Z.shiftr v (b mod 8))) 1))).

Definition ST7567_TestDisplayRAM : prog lcd unit :=
  for_range 0 2 (λ y,
    for_range 0 ST7567_WIDTH (λ x,
      buf ← gets lcd_buffer;
      buf' ← lift (store buf (y * 132 + x) x);
      modify (λ d, d <| lcd_buffer := buf' |>));;
    for_range 0 4 (λ k,
      buf ← gets lcd_buffer;
      buf' ← lift (store buf (y * 132 + 128 + k) 0x11);
      modify (λ d, d <| lcd_buffer := buf' |>)));;
  buf ← gets lcd_buffer;
  ST7567_Transmit buf 0 (length buf).

Definition ST7567_Show_Image (image : list Z) : prog lcd unit :=
  for_range 0 9 (λ i,
    ST7567_WriteCommand (u8 (0xb0 + i));;
    ST7567_WriteCommand ST7567_SET_COLUMN_ADDRESS_MSB;;
    ST7567_WriteCommand ST7567_SET_COLUMN_ADDRESS_LSB;;
    for_range 0 128 (λ j,
      b ← lift (load image (i * 128 + j));
      ST7567_WriteData b)).

(** ** Invariant and pixels *)

Definition lcd_wf (d : lcd) : Prop :=
  zlen (lcd_buffer d) = BUFFER_SIZE ∧ Forall is_u8 (lcd_buffer d) ∧
  132 ≤ zlen (lcd_beyond d) ∧ Forall is_u8 (lcd_beyond d) ∧
  Forall (λ i, BUFFER_SIZE ≤ i < BUFFER_SIZE + 132) (lcd_over d).

Definition on_screen (x y : Z) : Prop := 0 ≤ x < ST7567_WIDTH ∧ 0 ≤ y < ST7567_HEIGHT.
#[export] Instance on_screen_dec x y : Decision (on_screen x y).
Proof. unfold on_screen. apply _. Defined.

(** The picture the frame buffer holds. *)
Definition pixel (d : lcd) (x y : Z) : bool :=
  Z.testbit (default 0 (lcd_buffer d !! Z.to_nat (pixel_index x y))) (y mod 8).

Lemma pixel_index_bounds x y : on_screen x y → 0 ≤ pixel_index x y < BUFFER_SIZE.
Proof.
  unfold on_screen, pixel_index. change BUFFER_SIZE with 1056.
  unfold ST7567_WIDTH, ST7567_HEIGHT, ST7567_SEG_EXPAND, ST7567_X_OFFSET. lia.
Qed.

Lemma pixel_index_inj x y x' y' :
  on_screen x y → on_screen x' y' → pixel_index x y = pixel_index x' y' →
  x = x' ∧ y / 8 = y' / 8.
Proof.
  unfold on_screen, pixel_index.
  unfold ST7567_WIDTH, ST7567_HEIGHT, ST7567_SEG_EXPAND, ST7567_X_OFFSET. lia.
Qed.

Lemma byte_plot b n (front : bool) :
  is_u8 b → 0 ≤ n < 8 →
  let b' := if front then Z.lor b (Z.shiftl 1 n) else Z.land b (Z.lnot (Z.shiftl 1 n)) in
  is_u8 b' ∧ ∀ m, 0 ≤ m → Z.testbit b' m = if decide (m = n) then front else Z.testbit b m.
Proof.
  intros Hb Hn. destruct front; cbn zeta.
  - split; [by apply (setbit_u8 b n)|]. intros m Hm.
    change (Z.lor b (Z.shiftl 1 n)) with (Z.setbit b n). rewrite Z.setbit_eqb by lia.
    case_decide; subst; [by rewrite Z.eqb_refl|]. by rewrite (proj2 (Z.eqb_neq n m)) by auto.
  - rewrite <- Z.ldiff_land. change (Z.ldiff b (Z.shiftl 1 n)) with (Z.clearbit b n).
    split; [by apply clearbit_u8|]. intros m Hm. rewrite Z.clearbit_eqb.
    case_decide; subst; [by rewrite Z.eqb_refl, andb_false_r|].
    by rewrite (proj2 (Z.eqb_neq n m)), andb_true_r by auto.
Qed.

(** A pixel written is the pixel read back, and no other pixel changes. *)
Lemma wp_DrawPixel d x y color Q :
  lcd_wf d → 0 ≤ x → 0 ≤ y →
  (∀ d', lcd_wf d' → d' = d <| lcd_buffer := lcd_buffer d' |> →
    (∀ x' y', on_screen x' y' → pixel d' x' y' =
       if decide (x' = x ∧ y' = y) then bool_decide (color = ST7567_COLOR_FRONT)
       else pixel d x' y') → Q tt d') →
  wp (ST7567_DrawPixel x y color) Q d.
Proof.
  intros (Hlen & Hbuf & Hbl & Hbb) Hx Hy HQ. unfold ST7567_DrawPixel.
  destruct (decide (ST7567_WIDTH ≤ x ∨ ST7567_HEIGHT ≤ y)) as [Hoff|Hoff].
  { rewrite wp_ret. apply HQ; [done|by destruct d|].
    intros x' y' Hon. rewrite decide_False; [done|]. unfold on_screen in Hon. lia. }
  assert (on_screen x y) as Hon by (unfold on_screen; lia).
  pose proof (pixel_index_bounds x y Hon) as Hi. set (i := pixel_index x y) in *.
  rewrite wp_bind, wp_gets, wp_bind, wp_lift.
  destruct (load_in (lcd_buffer d) i) as (b & -> & Hb); [lia|]. cbn [owp].
  assert (is_u8 b) as Hbu by (exact (Forall_lookup_1 _ _ _ _ Hbuf Hb)).
  destruct (byte_plot b (y mod 8) (bool_decide (color = ST7567_COLOR_FRONT)) Hbu)
    as [Hb'u Hbits]; [lia|].
  set (b' := if decide (color = ST7567_COLOR_FRONT) then _ else _).
  assert (b' = if bool_decide (color = ST7567_COLOR_FRONT)
               then Z.lor b (Z.shiftl 1 (y mod 8))
               else Z.land b (Z.lnot (Z.shiftl 1 (y mod 8)))) as Hb'.
  { unfold b'. by case_decide; case_bool_decide. }
  cbn zeta in Hbits, Hb'u. rewrite <- Hb' in Hbits, Hb'u.
  rewrite wp_bind, wp_lift, store_in by lia. cbn [owp]. rewrite wp_modify.
  apply HQ.
  - split; [|split; [|done]]; unfold upd; cbn; [by rewrite zlen_insert|by apply Forall_insert].
  - by destruct d.
  - intros x' y' Hon'. unfold pixel. unfold upd; cbn.
    destruct (decide (pixel_index x' y' = i)) as [Heq|Hne].
    + apply pixel_index_inj in Heq as [-> Hdiv]; [|done..].
      assert (pixel_index x y' = i) as -> by (unfold i, pixel_index; by rewrite Hdiv).
      rewrite list_lookup_insert_eq by (unfold zlen in Hlen; lia). cbn.
      rewrite Hbits, Hb by (apply Z.mod_pos_bound; lia). cbn.
      assert (y' mod 8 = y mod 8 ↔ y' = y) as Hiff by lia.
      repeat case_decide; try done; exfalso; tauto.
    + rewrite list_lookup_insert_ne; [|pose proof (pixel_index_bounds x' y' Hon'); lia].
      rewrite decide_False; [done|]. intros [-> ->]. by apply Hne.
Qed.

Lemma DrawPixel_safe x y color : 0 ≤ x → 0 ≤ y → preserves lcd_wf (ST7567_DrawPixel x y color).
Proof. intros Hx Hy d Hd. by apply wp_DrawPixel. Qed.

(** ** Every routine keeps the frame buffer's shape and never faults *)

Lemma WritePin_safe p h : preserves lcd_wf (HAL_GPIO_WritePin p h).
Proof. by apply preserves_modify. Qed.
Lemma Delay_safe ms : preserves lcd_wf (HAL_Delay ms).
Proof. by apply preserves_modify. Qed.
#[export] Hint Resolve WritePin_safe Delay_safe : preserves.

Lemma transmit_bits_safe n dat : preserves lcd_wf (transmit_bits n dat).
Proof. revert dat. induction n; intros; cbn [transmit_bits]; preserves_all; auto. Qed.
#[export] Hint Resolve transmit_bits_safe : preserves.

Lemma TransmitByte_safe dat : preserves lcd_wf (ST7567_TransmitByte dat).
Proof. unfold ST7567_TransmitByte. preserves_all. Qed.
#[export] Hint Resolve TransmitByte_safe : preserves.

Lemma WriteCommand_safe c : preserves lcd_wf (ST7567_WriteCommand c).
Proof. unfold ST7567_WriteCommand. preserves_all. Qed.
Lemma WriteData_safe b : preserves lcd_wf (ST7567_WriteData b).
Proof. unfold ST7567_WriteData. preserves_all. Qed.
#[export] Hint Resolve WriteCommand_safe WriteData_safe : preserves.

Lemma Init_safe : preserves lcd_wf ST7567_Init.
Proof. unfold ST7567_Init, ST7567_Reset, ST7567_BackLight_Off. preserves_all. Qed.

Lemma Fill_safe c : preserves lcd_wf (ST7567_Fill c).
Proof.
  apply preserves_modify. intros d (Hl & Hb & Hbl & Hbb).
  split; [|split; [|done]]; unfold upd; cbn [lcd_buffer].
  - unfold zlen. rewrite length_replicate. done.
  - apply Forall_replicate. by case_decide.
Qed.

Lemma GotoXY_safe x y : preserves lcd_wf (ST7567_GotoXY x y).
Proof. by apply preserves_modify. Qed.
#[export] Hint Resolve Init_safe Fill_safe GotoXY_safe : preserves.

(** The record after a read of position [i]. *)
Definition read_at (i : Z) (d : lcd) : lcd :=
  d <| lcd_over := (if decide (BUFFER_SIZE ≤ i) then i :: lcd_over d else lcd_over d) |>.

Lemma buffer_read_ok d i :
  lcd_wf d → 0 ≤ i < 9 * 132 →
  ∃ b, buffer_read i d = Ok (b, read_at i d) ∧ is_u8 b ∧
    (lcd_buffer d ++ lcd_beyond d) !! Z.to_nat i = Some b ∧ lcd_wf (read_at i d).
Proof.
  intros (Hl & Hb & Hbl & Hbb & Hov) Hi. change BUFFER_SIZE with 1056 in *. unfold buffer_read, mbind, prog_bind, gets, id, lift, read_at.
  destruct (load_in (lcd_buffer d ++ lcd_beyond d) i) as (b & Hld & Hlk).
  { unfold zlen in *. rewrite length_app. lia. }
  exists b. split; [|split; [|split; [exact Hlk|]]].
  - rewrite Hl. change BUFFER_SIZE with 1056. case_decide.
    + rewrite bool_decide_true by lia. unfold when, modify. by rewrite Hld.
    + rewrite bool_decide_false by lia. unfold when, mret, prog_ret. rewrite Hld. by destruct d.
  - eapply (Forall_lookup_1 is_u8); [|exact Hlk]. by apply Forall_app.
  - do 4 (split; [done|]). unfold upd. cbn [lcd_over]. change BUFFER_SIZE with 1056. case_decide; [|done].
    apply Forall_cons; [lia|done].
Qed.

Lemma buffer_read_safe i : 0 ≤ i < 9 * 132 → preserves lcd_wf (buffer_read i).
Proof. intros Hi d Hd. destruct (buffer_read_ok d i Hd Hi) as (b & Hrun & _ & _ & Hwf). unfold wp. by rewrite Hrun. Qed.

Lemma UpdateScreen_safe : preserves lcd_wf ST7567_UpdateScreen.
Proof.
  unfold ST7567_UpdateScreen. apply preserves_for_range. intros i Hi. preserves_all. apply buffer_read_safe. lia.
Qed.
#[export] Hint Resolve UpdateScreen_safe : preserves.

(** A font covers the printable characters. *)
Definition font_ok (f : FontDef_t) : Prop :=
  0 < f_height f < 256 ∧ 0 < f_bytes f < 256 ∧
  95 * f_height f * f_bytes f ≤ zlen (f_data f).
#[export] Instance font_ok_dec f : Decision (font_ok f).
Proof. unfold font_ok. apply _. Defined.

Definition printable (c : Z) : Prop := 32 ≤ c < 127.
#[export] Instance printable_dec c : Decision (printable c).
Proof. unfold printable. apply _. Defined.

Lemma fonts_ok :
  Forall font_ok [Font_3x5; Font_5x7; Font_6x8; Font_6x12; Font_7x10; Font_8x16;
                  Font_11x18; Font_12x24; Font_16x26; Font_16x32; Font_usr_11x18].
Proof. repeat (constructor; [by vm_compute|]). constructor. Qed.

Lemma putc_bits_safe n k b rem x y order color :
  preserves lcd_wf (putc_bits n k b rem x y order color).
Proof.
  revert k. induction n as [|n IH]; intros k; cbn [putc_bits]; preserves_all.
  apply DrawPixel_safe; [pose proof (u16_range (x + k))|pose proof (u16_range y)];
    unfold is_u16 in *; lia.
Qed.

(** The index into the font table stays inside the character's glyph. *)
Lemma glyph_index ch f i j :
  font_ok f → printable ch → 0 ≤ i < f_height f → 0 ≤ j < f_bytes f →
  let p := u32 (u32 ((ch - 32) * f_height f + i) * f_bytes f + j) in
  p = ((ch - 32) * f_height f + i) * f_bytes f + j ∧ 0 ≤ p < zlen (f_data f).
Proof.
  intros (Hh & Hb & Hd) Hc Hi Hj. unfold printable in Hc. cbn zeta.
  assert (0 ≤ (ch - 32) * f_height f + i < 95 * f_height f) as Hrow by nia.
  rewrite (u32_id ((ch - 32) * f_height f + i)) by (unfold is_u32; nia).
  assert (0 ≤ ((ch - 32) * f_height f + i) * f_bytes f + j < 95 * f_height f * f_bytes f)
    as Hp by nia.
  rewrite u32_id by (unfold is_u32; nia). lia.
Qed.

Lemma putc_gen_safe comp ch f color :
  font_ok f → printable ch → preserves lcd_wf (putc_gen comp ch f color).
Proof.
  intros Hf Hc. unfold putc_gen. preserves_all.
  - apply preserves_lift. destruct (glyph_index ch f i i0 Hf Hc) as [_ Hp]; [lia..|].
    destruct (load_in (f_data f) _ Hp) as (b & -> & _). done.
  - apply putc_bits_safe.
  - by apply preserves_modify.
Qed.

(** A C string: characters up to a terminating zero, inside the array. *)
Definition c_string (str : list Z) : Prop :=
  ∃ s rest, str = s ++ 0 :: rest ∧ Forall printable s.

Lemma puts_loop_safe (putc : Z → prog lcd Z) s rest fuel p pre :
  (∀ c, printable c → preserves lcd_wf (putc c)) →
  (length s < fuel)%nat → Forall printable s → p = Z.of_nat (length pre) →
  preserves lcd_wf (puts_loop putc fuel (pre ++ s ++ 0 :: rest) p).
Proof.
  intros Hputc. revert fuel p pre.
  induction s as [|c s IH]; intros fuel p pre Hf Hs ->;
    (destruct fuel as [|fuel]; [cbn in Hf; lia|]); cbn [puts_loop app]; intros d Hd;
    rewrite wp_bind, wp_lift.
  - rewrite (load_ok _ _ 0); [|lia|by rewrite Nat2Z.id, list_lookup_middle].
    cbn [owp]. by rewrite decide_False by auto.
  - apply Forall_cons_1 in Hs as [Hc Hs].
    rewrite (load_ok _ _ c); [|lia|by rewrite Nat2Z.id, list_lookup_middle].
    cbn [owp]. rewrite decide_True by (unfold printable in Hc; lia).
    rewrite wp_bind. eapply wp_mono; [by apply Hputc|]. intros r d' Hd'.
    case_decide; [by apply preserves_ret|].
    replace (pre ++ c :: s ++ 0 :: rest) with ((pre ++ [c]) ++ s ++ 0 :: rest)
      by (by rewrite <- app_assoc).
    apply IH; [cbn in Hf; lia|done| |done]. rewrite length_app. cbn. lia.
Qed.

Lemma Puts_safe str f color :
  font_ok f → c_string str → preserves lcd_wf (ST7567_Puts str f color).
Proof.
  intros Hf (s & rest & -> & Hs). unfold ST7567_Puts.
  apply (puts_loop_safe _ s rest _ 0 []); [|rewrite length_app; lia|done..].
  intros c Hc. by apply putc_gen_safe.
Qed.

(** ** Lines: the rasterisation *)

(** Drawing a list of points in one colour. *)
Definition draw_points (ps : list (Z * Z)) (c : Z) : prog lcd unit :=
  foldr (λ p m, ST7567_DrawPixel p.1 p.2 c;; m) (mret tt) ps.

Lemma draw_points_cons p ps c :
  draw_points (p :: ps) c = (ST7567_DrawPixel p.1 p.2 c;; draw_points ps c).
Proof. done. Qed.

(** Rounded position on the minor axis after [k] steps on the major axis, for a
    line of [a] major and [b] minor steps. *)
Definition minor (a b k : Z) : Z := (k * b - a / 2 + a - 1) / a.

(** The points of a line, in closed form. *)
Definition line_points (x0 y0 x1 y1 : Z) : list (Z * Z) :=
  let dx := Z.abs (x1 - x0) in
  let dy := Z.abs (y1 - y0) in
  let sx := if decide (x0 < x1) then 1 else -1 in
  let sy := if decide (y0 < y1) then 1 else -1 in
  if decide (dy < dx)
  then map (λ k, (x0 + sx * k, y0 + sy * minor dx dy k)) (seqZ 0 (dx + 1))
  else map (λ k, (x0 + sx * minor dy dx k, y0 + sy * k)) (seqZ 0 (dy + 1)).

Lemma minor_bounds a b k : 0 < a → 0 ≤ b → 0 ≤ k ≤ a → 0 ≤ minor a b k ≤ b.
Proof.
  intros Ha Hb Hk. unfold minor. split.
  - apply Z.div_pos; [nia|lia].
  - apply Z.lt_succ_r, Z.div_lt_upper_bound; nia.
Qed.

Lemma minor_0 a b : 0 < a → minor a b 0 = 0.
Proof. intros Ha. unfold minor. apply Z.div_small. lia. Qed.

Lemma minor_end a b : 0 < a → minor a b a = b.
Proof.
  intros Ha. unfold minor. symmetry. apply Z.div_unique with (a - 1 - a / 2); lia.
Qed.

(** [minor] is the value that keeps the error term of the loop in its band. *)
Lemma minor_unique a b k v :
  0 < a → 0 ≤ a / 2 - k * b + v * a < a → v = minor a b k.
Proof.
  intros Ha Hv. unfold minor.
  apply Z.div_unique with (k * b - a / 2 + a - 1 - a * v); lia.
Qed.

Lemma minor_band a b k : 0 < a → 0 ≤ a / 2 - k * b + minor a b k * a < a.
Proof.
  intros Ha. unfold minor.
  pose proof (Z.div_mod (k * b - a / 2 + a - 1) a) as Hd.
  pose proof (Z.mod_pos_bound (k * b - a / 2 + a - 1) a). lia.
Qed.

Lemma wp_draw_points ps c d Q :
  lcd_wf d → Forall (λ p, 0 ≤ p.1 ∧ 0 ≤ p.2) ps →
  (∀ d', lcd_wf d' → (∀ x y, on_screen x y → pixel d' x y =
      if decide ((x, y) ∈ ps) then bool_decide (c = ST7567_COLOR_FRONT) else pixel d x y) →
    Q tt d') →
  wp (draw_points ps c) Q d.
Proof.
  intros Hd Hps. revert d Hd. induction Hps as [|[px py] ps [Hx Hy] Hps IH]; intros d Hd HQ.
  { change (Q tt d). apply HQ; [done|]. intros x y _. rewrite decide_False; [done|apply not_elem_of_nil]. }
  rewrite draw_points_cons, wp_bind.
  apply wp_DrawPixel; [done..|]. intros d1 Hd1 _ Hpx. apply IH; [done|].
  intros d2 Hd2 Hps2. apply HQ; [done|]. intros x y Hon. rewrite Hps2, Hpx by done. cbn.
  destruct (decide ((x, y) ∈ ps)) as [Hin|Hin].
  - by rewrite decide_True by (by right).
  - destruct (decide (x = px ∧ y = py)) as [[-> ->]|Hne].
    + by rewrite decide_True by left.
    + rewrite decide_False; [done|]. intros [[= -> ->]|?]%elem_of_cons; tauto.
Qed.

Lemma for_range_draw_points a b (f : Z → Z * Z) c d :
  for_range a b (λ i, ST7567_DrawPixel (f i).1 (f i).2 c) d =
  draw_points (map f (seqZ a (b - a))) c d.
Proof.
  unfold for_range. remember (Z.to_nat (b - a)) as n eqn:Hn.
  revert a d Hn. induction n as [|n IH]; intros a d Hn.
  - by rewrite seqZ_nil by lia.
  - rewrite seqZ_cons by lia. cbn [for_loop map]. rewrite draw_points_cons. unfold mbind, prog_bind.
    destruct (ST7567_DrawPixel _ _ c d) as [[[] d']|]; [|done].
    replace (Z.pred (b - a)) with (b - (a + 1)) by lia. change (Z.succ a) with (a + 1).
    apply IH. lia.
Qed.

Lemma s16_id x : -32768 ≤ x < 32768 → s16 x = x.
Proof. unfold s16. lia. Qed.

(** The loop on a line with more horizontal than vertical steps. *)
Lemma line_loop_x fuel k x0 y0 sx sy dx dy c d :
  0 < dy < dx → dx < 128 → (sx = 1 ∨ sx = -1) → (sy = 1 ∨ sy = -1) →
  0 ≤ x0 < 128 → 0 ≤ x0 + sx * dx < 128 → 0 ≤ y0 < 64 → 0 ≤ y0 + sy * dy < 64 →
  0 ≤ k ≤ dx → (Z.to_nat (dx - k) < fuel)%nat →
  line_loop fuel (x0 + sx * k) (y0 + sy * minor dx dy k) (x0 + sx * dx) (y0 + sy * dy)
    dx dy sx sy (dx / 2 - k * dy + minor dx dy k * dx) c d =
  draw_points (map (λ k, (x0 + sx * k, y0 + sy * minor dx dy k)) (seqZ k (dx + 1 - k))) c d.
Proof.
  intros Hdy Hdx Hsx Hsy Hx0 Hx1 Hy0 Hy1. revert k d.
  induction fuel as [|fuel IH]; intros k d Hk Hf; [lia|].
  rewrite seqZ_cons by lia. cbn [line_loop map]. rewrite draw_points_cons. cbn [fst snd]. unfold mbind, prog_bind.
  destruct (ST7567_DrawPixel _ _ c d) as [[[] d']|]; [|done].
  pose proof (minor_band dx dy k ltac:(lia)) as Hband.
  pose proof (minor_bounds dx dy k ltac:(lia) ltac:(lia) Hk) as Hmb.
  destruct (decide (k = dx)) as [->|Hne].
  { rewrite minor_end by lia. rewrite decide_True by done.
    by rewrite seqZ_nil by lia. }
  rewrite decide_False by (destruct Hsx; subst; lia).
  set (e := dx / 2 - k * dy + minor dx dy k * dx) in *.
  rewrite (decide_True (P := e > - dx)) by lia.
  assert (e - dy < dx) by lia. rewrite (s16_id (e - dy)) by lia.
  assert (u16 (x0 + sx * k + sx) = x0 + sx * (k + 1)) as ->.
  { rewrite u16_id; [lia|]. unfold is_u16. destruct Hsx; subst; lia. }
  replace (Z.pred (dx + 1 - k)) with (dx + 1 - (k + 1)) by lia.
  change (Z.succ k) with (k + 1).
  pose proof (minor_bounds dx dy (k + 1) ltac:(lia) ltac:(lia) ltac:(lia)) as Hmb'.
  destruct (decide (e < dy)) as [Hlt|Hge].
  - assert (minor dx dy (k + 1) = minor dx dy k + 1) as Hm
      by (symmetry; apply minor_unique; unfold e in *; lia).
    rewrite <- IH by lia. rewrite Hm.
    rewrite s16_id by lia. f_equal; [|unfold e; lia].
    rewrite u16_id; [lia|]. unfold is_u16. destruct Hsy; subst; lia.
  - assert (minor dx dy (k + 1) = minor dx dy k) as Hm
      by (symmetry; apply minor_unique; unfold e in *; lia).
    rewrite <- IH by lia. rewrite Hm. f_equal. unfold e. lia.
Qed.

(** The loop on a line with at least as many vertical steps. *)
Lemma line_loop_y fuel k x0 y0 sx sy dx dy c d :
  0 < dx ≤ dy → dy < 64 → (sx = 1 ∨ sx = -1) → (sy = 1 ∨ sy = -1) →
  0 ≤ x0 < 128 → 0 ≤ x0 + sx * dx < 128 → 0 ≤ y0 < 64 → 0 ≤ y0 + sy * dy < 64 →
  0 ≤ k ≤ dy → (Z.to_nat (dy - k) < fuel)%nat →
  line_loop fuel (x0 + sx * minor dy dx k) (y0 + sy * k) (x0 + sx * dx) (y0 + sy * dy)
    dx dy sx sy (- (dy / 2 - k * dx + minor dy dx k * dy)) c d =
  draw_points (map (λ k, (x0 + sx * minor dy dx k, y0 + sy * k)) (seqZ k (dy + 1 - k))) c d.
Proof.
  intros Hdx Hdy Hsx Hsy Hx0 Hx1 Hy0 Hy1. revert k d.
  induction fuel as [|fuel IH]; intros k d Hk Hf; [lia|].
  rewrite seqZ_cons by lia. cbn [line_loop map]. rewrite draw_points_cons. cbn [fst snd].
  unfold mbind, prog_bind.
  destruct (ST7567_DrawPixel _ _ c d) as [[[] d']|]; [|done].
  pose proof (minor_band dy dx k ltac:(lia)) as Hband.
  pose proof (minor_bounds dy dx k ltac:(lia) ltac:(lia) Hk) as Hmb.
  destruct (decide (k = dy)) as [->|Hne].
  { rewrite minor_end by lia. rewrite decide_True by done.
    by rewrite seqZ_nil by lia. }
  rewrite decide_False by (destruct Hsy; subst; lia).
  set (e := dy / 2 - k * dx + minor dy dx k * dy) in *.
  assert (u16 (y0 + sy * k + sy) = y0 + sy * (k + 1)) as Hu.
  { rewrite u16_id; [lia|]. unfold is_u16. destruct Hsy; subst; lia. }
  replace (Z.pred (dy + 1 - k)) with (dy + 1 - (k + 1)) by lia.
  change (Z.succ k) with (k + 1).
  pose proof (minor_bounds dy dx (k + 1) ltac:(lia) ltac:(lia) ltac:(lia)) as Hmb'.
  destruct (decide (- e > - dx)) as [Hgt|Hle].
  - assert (minor dy dx (k + 1) = minor dy dx k + 1) as Hm
      by (symmetry; apply minor_unique; unfold e in *; lia).
    rewrite (decide_True (P := - e < dy)) by lia.
    rewrite <- IH by lia. rewrite Hm, Hu, (s16_id (- e - dy)), s16_id by lia.
    f_equal; [|unfold e; lia].
    rewrite u16_id; [lia|]. unfold is_u16. destruct Hsx; subst; lia.
  - assert (minor dy dx (k + 1) = minor dy dx k) as Hm
      by (symmetry; apply minor_unique; unfold e in *; lia).
    rewrite (decide_True (P := - e < dy)) by lia.
    rewrite <- IH by lia. rewrite Hm, Hu, s16_id by lia. f_equal. unfold e. lia.
Qed.

(** A line is its points, whatever order the straight cases draw them in. *)
Lemma elem_of_map_seqZ {A} (f : Z → A) m n (p : A) :
  p ∈ map f (seqZ m n) ↔ ∃ k, p = f k ∧ m ≤ k < m + n.
Proof. rewrite list_elem_of_fmap. by setoid_rewrite elem_of_seqZ. Qed.

Lemma line_points_box x0 y0 x1 y1 x y :
  (x, y) ∈ line_points x0 y0 x1 y1 →
  Z.min x0 x1 ≤ x ≤ Z.max x0 x1 ∧ Z.min y0 y1 ≤ y ≤ Z.max y0 y1.
Proof.
  unfold line_points.
  destruct (decide (Z.abs (y1 - y0) < Z.abs (x1 - x0))) as [Hmaj|Hmaj];
    rewrite elem_of_map_seqZ; intros (k & [= -> ->] & Hk).
  - pose proof (minor_bounds (Z.abs (x1 - x0)) (Z.abs (y1 - y0)) k). repeat case_decide; lia.
  - destruct (decide (y1 = y0 ∧ x1 = x0)) as [[-> ->]|].
    { rewrite !Z.sub_diag in *. replace k with 0 by lia.
      change (minor (Z.abs 0) (Z.abs 0) 0) with 0. repeat case_decide; lia. }
    pose proof (minor_bounds (Z.abs (y1 - y0)) (Z.abs (x1 - x0)) k). repeat case_decide; lia.
Qed.

Lemma line_points_ends x0 y0 x1 y1 :
  (x0, y0) ∈ line_points x0 y0 x1 y1 ∧ (x1, y1) ∈ line_points x0 y0 x1 y1.
Proof.
  unfold line_points.
  destruct (decide (Z.abs (y1 - y0) < Z.abs (x1 - x0))) as [Hmaj|Hmaj];
    rewrite !elem_of_map_seqZ.
  - split; [exists 0|exists (Z.abs (x1 - x0))]; rewrite ?minor_0, ?minor_end by lia;
      (split; [|lia]); f_equal; repeat case_decide; lia.
  - destruct (decide (y1 = y0 ∧ x1 = x0)) as [[-> ->]|].
    { rewrite !Z.sub_diag. split; exists 0;
        change (minor (Z.abs 0) (Z.abs 0) 0) with 0;
        (split; [|lia]); f_equal; repeat case_decide; lia. }
    split; [exists 0|exists (Z.abs (y1 - y0))]; rewrite ?minor_0, ?minor_end by lia;
      (split; [|lia]); f_equal; repeat case_decide; lia.
Qed.

Lemma clamp_range v limit : 0 < limit → 0 ≤ v → 0 ≤ clamp v limit < limit.
Proof. unfold clamp. case_decide; lia. Qed.

Lemma line_points_vertical x0 y0 y1 x y :
  (x, y) ∈ line_points x0 y0 x0 y1 ↔ x = x0 ∧ Z.min y0 y1 ≤ y ≤ Z.max y0 y1.
Proof.
  split; [intros H%line_points_box; lia|]. intros [-> Hy].
  unfold line_points. rewrite Z.sub_diag. change (Z.abs 0) with 0.
  rewrite (decide_False (P := Z.abs (y1 - y0) < 0)), elem_of_map_seqZ by lia.
  exists (Z.abs (y - y0)). split; [|lia].
  destruct (decide (y1 = y0)) as [->|Hne].
  { replace y with y0 by lia. rewrite !Z.sub_diag.
    change (minor (Z.abs 0) 0 (Z.abs 0)) with 0. f_equal; repeat case_decide; lia. }
  pose proof (minor_bounds (Z.abs (y1 - y0)) 0 (Z.abs (y - y0))).
  f_equal; repeat case_decide; lia.
Qed.

Lemma line_points_horizontal x0 x1 y0 x y :
  (x, y) ∈ line_points x0 y0 x1 y0 ↔ y = y0 ∧ Z.min x0 x1 ≤ x ≤ Z.max x0 x1.
Proof.
  split; [intros H%line_points_box; lia|]. intros [-> Hx].
  destruct (decide (x1 = x0)) as [->|Hne].
  { apply line_points_vertical. lia. }
  unfold line_points. rewrite Z.sub_diag. change (Z.abs 0) with 0.
  rewrite (decide_True (P := 0 < Z.abs (x1 - x0))), elem_of_map_seqZ by lia.
  exists (Z.abs (x - x0)). split; [|lia].
  pose proof (minor_bounds (Z.abs (x1 - x0)) 0 (Z.abs (x - x0))).
  f_equal; repeat case_decide; lia.
Qed.

(** The two loops for straight lines, from the smaller end to the larger. *)
Lemma vertical_draws X Y0 Y1 c d : ∃ ps,
  (let '(y0, y1) := if decide (Y1 < Y0) then (Y1, Y0) else (Y0, Y1) in
   for_range y0 (y1 + 1) (λ i, ST7567_DrawPixel X i c)) d = draw_points ps c d ∧
  (∀ p, p ∈ ps ↔ p ∈ line_points X Y0 X Y1).
Proof.
  exists (map (λ i, (X, i)) (seqZ (Z.min Y0 Y1) (Z.max Y0 Y1 + 1 - Z.min Y0 Y1))). split.
  - rewrite <- (for_range_draw_points _ _ (λ i, (X, i))). case_decide; cbn [fst snd]; do 2 f_equal; lia.
  - intros [x y]. rewrite line_points_vertical, elem_of_map_seqZ. split; [intros (k & [= -> ->] & Hk); lia|].
    intros [-> Hy]. exists y. split; [done|lia].
Qed.

Lemma horizontal_draws X0 X1 Y c d : ∃ ps,
  (let '(x0, x1) := if decide (X1 < X0) then (X1, X0) else (X0, X1) in
   for_range x0 (x1 + 1) (λ i, ST7567_DrawPixel i Y c)) d = draw_points ps c d ∧
  (∀ p, p ∈ ps ↔ p ∈ line_points X0 Y X1 Y).
Proof.
  exists (map (λ i, (i, Y)) (seqZ (Z.min X0 X1) (Z.max X0 X1 + 1 - Z.min X0 X1))). split.
  - rewrite <- (for_range_draw_points _ _ (λ i, (i, Y))). case_decide; cbn [fst snd]; do 2 f_equal; lia.
  - intros [x y]. rewrite line_points_horizontal, elem_of_map_seqZ. split; [intros (k & [= -> ->] & Hk); lia|].
    intros [-> Hx]. exists x. split; [done|lia].
Qed.

(** The drawing loops of [ST7567_DrawLine] draw a list with the line's points. *)
Lemma DrawLine_draws x0 y0 x1 y1 c d :
  0 ≤ x0 → 0 ≤ y0 → 0 ≤ x1 → 0 ≤ y1 →
  let X0 := clamp x0 ST7567_WIDTH in let X1 := clamp x1 ST7567_WIDTH in
  let Y0 := clamp y0 ST7567_HEIGHT in let Y1 := clamp y1 ST7567_HEIGHT in
  ∃ ps, ST7567_DrawLine x0 y0 x1 y1 c d = draw_points ps c d ∧
    (∀ p, p ∈ ps ↔ p ∈ line_points X0 Y0 X1 Y1).
Proof.
  intros Hx0 Hy0 Hx1 Hy1 X0 X1 Y0 Y1.
  assert (0 ≤ X0 < 128) as HX0 by (by apply clamp_range).
  assert (0 ≤ X1 < 128) as HX1 by (by apply clamp_range).
  assert (0 ≤ Y0 < 64) as HY0 by (by apply clamp_range).
  assert (0 ≤ Y1 < 64) as HY1 by (by apply clamp_range).
  unfold ST7567_DrawLine. fold X0 X1 Y0 Y1. clearbody X0 X1 Y0 Y1.
  replace (if decide (X0 < X1) then X1 - X0 else X0 - X1) with (Z.abs (X1 - X0))
    by (case_decide; lia).
  replace (if decide (Y0 < Y1) then Y1 - Y0 else Y0 - Y1) with (Z.abs (Y1 - Y0))
    by (case_decide; lia).
  set (sx := if decide (X0 < X1) then 1 else -1). set (sy := if decide (Y0 < Y1) then 1 else -1).
  destruct (decide (Z.abs (X1 - X0) = 0)) as [Hv|Hv].
  { replace X1 with X0 by lia. apply vertical_draws. }
  destruct (decide (Z.abs (Y1 - Y0) = 0)) as [Hh|Hh].
  { replace Y1 with Y0 by lia. apply horizontal_draws. }
  exists (line_points X0 Y0 X1 Y1). split; [|done].
  set (dx := Z.abs (X1 - X0)) in *. set (dy := Z.abs (Y1 - Y0)) in *.
  assert (X1 = X0 + sx * dx) as HX by (unfold sx, dx; case_decide; lia).
  assert (Y1 = Y0 + sy * dy) as HY by (unfold sy, dy; case_decide; lia).
  assert (sx = 1 ∨ sx = -1) by (unfold sx; case_decide; auto).
  assert (sy = 1 ∨ sy = -1) by (unfold sy; case_decide; auto).
  unfold line_points. fold dx dy sx sy.
  destruct (decide (dy < dx)) as [Hmaj|Hmaj].
  - rewrite (decide_True (P := dx > dy)) by lia.
    rewrite Z.quot_div_nonneg by lia.
    pose proof (line_loop_x LINE_FUEL 0 X0 Y0 sx sy dx dy c d) as Hl.
    rewrite minor_0, !Z.mul_0_r, !Z.mul_0_l, !Z.add_0_r, !Z.sub_0_r in Hl by lia.
    rewrite <- Hl by (unfold LINE_FUEL; lia). by rewrite HX, HY at 1.
  - rewrite (decide_False (P := dx > dy)) by lia.
    rewrite Z.quot_opp_l, Z.quot_div_nonneg by lia.
    pose proof (line_loop_y LINE_FUEL 0 X0 Y0 sx sy dx dy c d) as Hl.
    rewrite minor_0, !Z.mul_0_r, !Z.mul_0_l, !Z.add_0_r, !Z.sub_0_r in Hl by lia.
    rewrite <- Hl by (unfold LINE_FUEL; lia). by rewrite HX, HY at 1.
Qed.

Lemma wp_DrawLine x0 y0 x1 y1 c d Q :
  lcd_wf d → 0 ≤ x0 → 0 ≤ y0 → 0 ≤ x1 → 0 ≤ y1 →
  (∀ d', lcd_wf d' → (∀ x y, on_screen x y → pixel d' x y =
      if decide ((x, y) ∈ line_points (clamp x0 ST7567_WIDTH) (clamp y0 ST7567_HEIGHT)
                                      (clamp x1 ST7567_WIDTH) (clamp y1 ST7567_HEIGHT))
      then bool_decide (c = ST7567_COLOR_FRONT) else pixel d x y) → Q tt d') →
  wp (ST7567_DrawLine x0 y0 x1 y1 c) Q d.
Proof.
  intros Hd Hx0 Hy0 Hx1 Hy1 HQ.
  destruct (DrawLine_draws x0 y0 x1 y1 c d) as (ps & Heq & Hps); [done..|].
  unfold wp. rewrite Heq. apply (wp_draw_points ps c d Q Hd).
  - apply list.Forall_forall. intros [x y] [Hbx Hby]%Hps%line_points_box. cbn.
    pose proof (clamp_range x0 ST7567_WIDTH ltac:(done) Hx0).
    pose proof (clamp_range x1 ST7567_WIDTH ltac:(done) Hx1).
    pose proof (clamp_range y0 ST7567_HEIGHT ltac:(done) Hy0).
    pose proof (clamp_range y1 ST7567_HEIGHT ltac:(done) Hy1). lia.
  - intros d' Hd' Hpx. apply HQ; [done|]. intros x y Hon. rewrite Hpx by done.
    specialize (Hps (x, y)). repeat case_decide; done || tauto.
Qed.

Lemma DrawLine_safe x0 y0 x1 y1 c :
  0 ≤ x0 → 0 ≤ y0 → 0 ≤ x1 → 0 ≤ y1 → preserves lcd_wf (ST7567_DrawLine x0 y0 x1 y1 c).
Proof. intros ???? d Hd. by apply wp_DrawLine. Qed.

Lemma u16_nonneg x : 0 ≤ u16 x.
Proof. apply u16_range. Qed.

Lemma DrawRectangle_safe x y w h c :
  0 ≤ x → 0 ≤ y → 0 ≤ w → 0 ≤ h → preserves lcd_wf (ST7567_DrawRectangle x y w h c).
Proof.
  intros. unfold ST7567_DrawRectangle. cbn zeta. preserves_all;
    apply DrawLine_safe; repeat case_decide; lia.
Qed.

Lemma DrawFilledRectangle_safe x y w h c :
  0 ≤ x → 0 ≤ y → 0 ≤ w → 0 ≤ h → preserves lcd_wf (ST7567_DrawFilledRectangle x y w h c).
Proof.
  intros. unfold ST7567_DrawFilledRectangle. cbn zeta. preserves_all;
    apply DrawLine_safe; repeat case_decide; lia.
Qed.

Lemma triangle_loop_safe n x y x3 y3 num numadd den a b a' b' c :
  0 ≤ x3 → 0 ≤ y3 → preserves lcd_wf (triangle_loop n x y x3 y3 num numadd den a b a' b' c).
Proof.
  intros Hx Hy. revert x y num. induction n as [|n IH]; intros x y num; cbn [triangle_loop];
    preserves_all; [apply DrawLine_safe; auto using u16_nonneg|].
  case_decide; apply IH.
Qed.

Lemma DrawFilledTriangle_safe x1 y1 x2 y2 x3 y3 c :
  0 ≤ x3 → 0 ≤ y3 → preserves lcd_wf (ST7567_DrawFilledTriangle x1 y1 x2 y2 x3 y3 c).
Proof. intros. unfold ST7567_DrawFilledTriangle. cbn zeta. case_decide; by apply triangle_loop_safe. Qed.

(** The circle loops end: [x] grows, [y] does not, so [y - x] bounds the turns. *)
Lemma circle_loop_safe fuel draw x y f fx fy :
  (∀ x y, preserves lcd_wf (draw x y)) →
  0 ≤ x → -32768 < y < 32768 → (Z.to_nat (y - x) < fuel)%nat →
  preserves lcd_wf (circle_loop fuel draw x y f fx fy).
Proof.
  intros Hdraw. revert x y f fx fy.
  induction fuel as [|fuel IH]; intros x y f fx fy Hx Hy Hf; [lia|]. cbn [circle_loop].
  destruct (decide (x < y)) as [Hlt|]; [|apply preserves_ret].
  unfold circle_step. destruct (decide (0 ≤ f)); cbn zeta iota beta;
    (apply preserves_bind; [apply Hdraw|intros _; apply IH; unfold s16; lia]).
Qed.

Lemma DrawCircle_safe x0 y0 r c : 0 ≤ r < 32768 → preserves lcd_wf (ST7567_DrawCircle x0 y0 r c).
Proof.
  intros Hr. unfold ST7567_DrawCircle. cbn zeta.
  assert (∀ x y, preserves lcd_wf (ST7567_DrawPixel (u16 x) (u16 y) c)) as Hpx
    by (intros; apply DrawPixel_safe; apply u16_nonneg).
  preserves_all. apply circle_loop_safe; [|lia|lia|unfold circle_fuel; lia].
  intros x y. preserves_all.
Qed.

Lemma DrawFilledCircle_safe x0 y0 r c :
  0 ≤ r < 32768 → preserves lcd_wf (ST7567_DrawFilledCircle x0 y0 r c).
Proof.
  intros Hr. unfold ST7567_DrawFilledCircle. cbn zeta.
  assert (∀ x y, preserves lcd_wf (ST7567_DrawPixel (u16 x) (u16 y) c)) as Hpx
    by (intros; apply DrawPixel_safe; apply u16_nonneg).
  assert (∀ x y x' y', preserves lcd_wf (ST7567_DrawLine (u16 x) (u16 y) (u16 x') (u16 y') c))
    as Hline by (intros; apply DrawLine_safe; apply u16_nonneg).
  preserves_all. apply circle_loop_safe; [|lia|lia|unfold circle_fuel; lia].
  intros x y. preserves_all.
Qed.


(** ** Text: what a string puts on the screen *)

(** The bit of character [ch] in column [col] and row [row] of a font. *)
Definition glyph_bit (f : FontDef_t) (comp : bool) (ch col row : Z) : bool :=
  let b := default 0
    (f_data f !! Z.to_nat (((ch - 32) * f_height f + row) * f_bytes f + col / 8)) in
  let b := if comp then u32 (Z.lnot b) else b in
  if decide (f_order f = 0) then Z.testbit b (7 - col mod 8) else Z.testbit b (col mod 8).

(** A glyph's columns fill its bytes, the last one not necessarily. *)
Definition font_cols (f : FontDef_t) : Prop :=
  8 * (f_bytes f - 1) < f_width f ≤ 8 * f_bytes f.
#[export] Instance font_cols_dec f : Decision (font_cols f).
Proof. unfold font_cols. apply _. Defined.

(** The colours the pages use. *)
Definition is_color (c : Z) : Prop := c = ST7567_COLOR_BACK ∨ c = ST7567_COLOR_FRONT.

Lemma land_bit_neq_0 b n : 0 ≤ n →
  bool_decide (Z.land b (Z.shiftl 1 n) ≠ 0) = Z.testbit b n.
Proof.
  intros Hn. rewrite Z.shiftl_1_l. destruct (Z.testbit b n) eqn:Hb.
  - apply bool_decide_eq_true. intros H0. assert (Z.testbit (Z.land b (2 ^ n)) n = false) as Hf
      by (by rewrite H0, Z.bits_0). rewrite Z.land_spec, Hb, Z.pow2_bits_true in Hf; done.
  - apply bool_decide_eq_false. intros H0. apply H0. apply Z.bits_inj'. intros m Hm.
    rewrite Z.land_spec, Z.bits_0. destruct (decide (m = n)) as [->|]; [by rewrite Hb|].
    by rewrite Z.pow2_bits_false, andb_false_r by auto.
Qed.

Lemma putc_set b k order : 0 ≤ k < 8 →
  (if decide (order = 0)
   then bool_decide (Z.land (u32 (Z.shiftl b k)) 0x80 ≠ 0)
   else bool_decide (Z.land b (Z.shiftl 0x0001 k) ≠ 0)) =
  if decide (order = 0) then Z.testbit b (7 - k) else Z.testbit b k.
Proof.
  intros Hk. case_decide; [|apply land_bit_neq_0; lia].
  change 0x80 with (Z.shiftl 1 7). rewrite land_bit_neq_0 by lia.
  unfold u32. change 4294967296 with (2 ^ 32).
  by rewrite Z.mod_pow2_bits_low, Z.shiftl_spec by lia.
Qed.

Section glyph.
Context (f : FontDef_t) (comp : bool) (ch color X Y : Z) (d0 : lcd).
Context (Hf : font_ok f) (Hcols : font_cols f) (Hch : printable ch) (Hcol : is_color color).
Context (HX : 0 ≤ X ∧ X + 8 * f_bytes f ≤ 65536) (HY : 0 ≤ Y ∧ Y + f_height f ≤ 65536).

Definition glyph_pixel (x y : Z) : bool :=
  Bool.eqb (glyph_bit f comp ch (x - X) (y - Y)) (bool_decide (color = ST7567_COLOR_FRONT)).

(** Rows below [i], and [c] columns of row [i], are drawn. *)
Definition glyph_done (i c x y : Z) : Prop :=
  X ≤ x < X + f_width f ∧ Y ≤ y ∧ (y - Y < i ∨ y - Y = i ∧ x - X < c).
Local Instance glyph_done_dec i c x y : Decision (glyph_done i c x y).
Proof. unfold glyph_done. apply _. Defined.

Definition glyph_inv (i c : Z) (d : lcd) : Prop :=
  lcd_wf d ∧ CurrentX d = X ∧ CurrentY d = Y ∧
  ∀ x y, on_screen x y →
    pixel d x y = if decide (glyph_done i c x y) then glyph_pixel x y else pixel d0 x y.

Lemma glyph_inv_ext i c i' c' d :
  (∀ x y, glyph_done i c x y ↔ glyph_done i' c' x y) → glyph_inv i c d → glyph_inv i' c' d.
Proof.
  intros Hiff (Hwf & Hx & Hy & Hpx). do 3 (split; [done|]). intros x y Hon.
  rewrite Hpx by done. apply decide_ext, Hiff.
Qed.

Lemma glyph_plot i c b d :
  0 ≤ i < f_height f → 0 ≤ c < f_width f → b = glyph_bit f comp ch c i → glyph_inv i c d →
  wp (ST7567_DrawPixel (u16 (X + c)) (u16 (Y + i))
        (if b then color else (if decide (color = 0) then 1 else 0)))
     (λ _, glyph_inv i (c + 1)) d.
Proof using Hcols Hcol HX HY.
  intros Hi Hc -> (Hwf & Hx & Hy & Hpx). unfold font_cols in Hcols.
  rewrite !u16_id by (unfold is_u16; lia).
  apply wp_DrawPixel; [done|lia..|]. intros d' Hwf' Heq Hpx'.
  split; [done|]. rewrite Heq. split; [done|]. split; [done|]. rewrite <- Heq.
  intros x y Hon. rewrite Hpx', Hpx by done.
  destruct (decide (x = X + c ∧ y = Y + i)) as [[-> ->]|Hne].
  - rewrite (decide_True (P := glyph_done _ _ _ _)) by (unfold glyph_done; lia).
    unfold glyph_pixel.
    replace (X + c - X) with c by lia. replace (Y + i - Y) with i by lia.
    destruct Hcol as [-> | ->], (glyph_bit f comp ch c i); done.
  - apply decide_ext. unfold glyph_done. lia.
Qed.

Lemma glyph_bits n k j i d :
  0 ≤ i < f_height f → 0 ≤ j < f_bytes f → 0 ≤ k → k + Z.of_nat n = 8 →
  (∀ c, 8 * j ≤ c < 8 * j + 8 → c / 8 = j ∧ c mod 8 = c - 8 * j) →
  let b0 := default 0 (f_data f !!
    Z.to_nat (((ch - 32) * f_height f + i) * f_bytes f + j)) in
  let b := if comp then u32 (Z.lnot b0) else b0 in
  glyph_inv i (8 * j + k) d →
  wp (putc_bits n k b (u32 (f_width f - j * 8)) (X + j * 8) (Y + i) (f_order f) color)
     (λ _, glyph_inv i (8 * j + 8)) d.
Proof using Hcols Hf Hcol HX HY.
  intros Hi Hj Hk Hn Hdiv b0 b. revert k d Hk Hn.
  induction n as [|n IH]; intros k d Hk Hn Hinv; cbn [putc_bits].
  { rewrite wp_ret. by replace (8 * j + 8) with (8 * j + k) by lia. }
  destruct Hf as (Hh & Hby & _). unfold font_cols in Hcols.
  rewrite u32_id by (unfold is_u32; lia).
  destruct (decide (k < f_width f - j * 8)) as [Hlt|Hge].
  - rewrite wp_bind. replace (X + j * 8 + k) with (X + (8 * j + k)) by lia.
    rewrite putc_set by lia. eapply wp_mono.
    + apply glyph_plot; [lia|lia| |exact Hinv]. unfold glyph_bit.
      destruct (Hdiv (8 * j + k)) as [-> ->]; [lia|]. fold b0. fold b.
      by replace (8 * j + k - 8 * j) with k by lia.
    + intros ? d' Hd'. specialize (IH (k + 1) d').
      rewrite u32_id in IH by (unfold is_u32; lia). apply IH; [lia|lia|].
      by replace (8 * j + (k + 1)) with (8 * j + k + 1) by lia.
  - rewrite wp_ret. revert Hinv. apply glyph_inv_ext. intros x y. unfold glyph_done. lia.
Qed.

(** One character: its glyph at the cursor, which moves on by the width. *)
Lemma wp_putc_gen Q :
  lcd_wf d0 → CurrentX d0 = X → CurrentY d0 = Y →
  (∀ d, lcd_wf d → CurrentX d = u16 (X + f_width f) → CurrentY d = Y →
     (∀ x y, on_screen x y → pixel d x y =
        if decide (X ≤ x < X + f_width f ∧ Y ≤ y < Y + f_height f)
        then glyph_pixel x y else pixel d0 x y) → Q ch d) →
  wp (putc_gen comp ch f color) Q d0.
Proof using Hcols Hf Hcol HX HY Hch.
  intros Hwf Hx Hy HQ. unfold putc_gen.
  destruct Hf as (Hh & Hby & _).
  rewrite wp_bind. eapply wp_mono.
  { apply (wp_for_range (λ i, glyph_inv i 0)); [lia| |].
    { split; [done|]. split; [done|]. split; [done|]. intros x y _.
      rewrite decide_False; [done|]. unfold glyph_done. lia. }
    intros i d Hi Hinv. eapply wp_mono.
    { apply (wp_for_range (λ j, glyph_inv i (8 * j))); [lia|done|].
      intros j d1 Hj Hinv1. rewrite wp_bind, wp_lift.
      destruct (glyph_index ch f i j Hf Hch Hi Hj) as [-> Hp].
      destruct (load_in (f_data f) _ Hp) as (b0 & -> & Hb0). cbn [owp].
      rewrite wp_bind, wp_gets, wp_bind, wp_gets.
      destruct Hinv1 as (Hwf1 & HX1 & HY1 & Hpx1). rewrite HX1, HY1.
      replace (8 * (j + 1)) with (8 * j + 8) by lia.
      pose proof (glyph_bits 8 0 j i d1 Hi Hj) as Hg. cbn zeta in Hg. rewrite Hb0 in Hg.
      apply Hg; [lia|lia|lia|]. by rewrite Z.add_0_r. }
    intros ? d'. cbn beta. apply glyph_inv_ext. intros x y. unfold glyph_done.
    unfold font_cols in Hcols. lia. }
  intros ? d (Hwf' & HX' & HY' & Hpx). rewrite wp_bind, wp_modify, wp_ret.
  apply HQ; [done|unfold upd; cbn; by rewrite HX'|done|].
  intros x y Hon. change (pixel (d <| CurrentX := ?v |>) x y) with (pixel d x y).
  rewrite Hpx by done. apply decide_ext. unfold glyph_done. lia.
Qed.
End glyph.

(** The picture of a line of text whose top left corner is [(X, Y)]. *)
Definition text_pixel (f : FontDef_t) (comp : bool) (s : list Z) (color X Y x y : Z) : bool :=
  let n := (x - X) / f_width f in
  glyph_pixel f comp (default 0 (s !! Z.to_nat n)) color (X + n * f_width f) Y x y.

Definition in_text (f : FontDef_t) (s : list Z) (X Y x y : Z) : Prop :=
  X ≤ x < X + zlen s * f_width f ∧ Y ≤ y < Y + f_height f.
#[export] Instance in_text_dec f s X Y x y : Decision (in_text f s X Y x y).
Proof. unfold in_text. apply _. Defined.

Lemma text_pixel_cons f comp c s color X Y x y :
  0 < f_width f → X ≤ x →
  text_pixel f comp (c :: s) color X Y x y =
    if decide (x < X + f_width f) then glyph_pixel f comp c color X Y x y
    else text_pixel f comp s color (X + f_width f) Y x y.
Proof.
  intros Hw Hx. unfold text_pixel. case_decide as Hlt.
  - replace ((x - X) / f_width f) with 0 by (symmetry; apply Z.div_small; lia).
    by rewrite Z.mul_0_l, Z.add_0_r.
  - assert ((x - X) / f_width f = 1 + (x - (X + f_width f)) / f_width f) as ->.
    { replace (x - X) with (x - (X + f_width f) + 1 * f_width f) by lia.
      rewrite Z.div_add by lia. lia. }
    assert (0 ≤ (x - (X + f_width f)) / f_width f) as Hn by (apply Z.div_pos; lia).
    set (n := (x - (X + f_width f)) / f_width f) in *.
    replace (Z.to_nat (1 + n)) with (S (Z.to_nat n)) by lia. cbn [lookup list_lookup].
    f_equal. lia.
Qed.

Lemma wp_puts_loop f comp color Y s rest pre p fuel X d Q :
  font_ok f → font_cols f → is_color color →
  0 ≤ X → X + zlen s * f_width f + 8 ≤ 65536 → 0 ≤ Y → Y + f_height f ≤ 65536 →
  (length s < fuel)%nat → Forall printable s → p = Z.of_nat (length pre) →
  lcd_wf d → CurrentX d = X → CurrentY d = Y →
  (∀ d', lcd_wf d' → CurrentX d' = X + zlen s * f_width f → CurrentY d' = Y →
     (∀ x y, on_screen x y → pixel d' x y =
        if decide (in_text f s X Y x y) then text_pixel f comp s color X Y x y
        else pixel d x y) → Q 0 d') →
  wp (puts_loop (λ c, putc_gen comp c f color) fuel (pre ++ s ++ 0 :: rest) p) Q d.
Proof.
  intros Hf Hcols Hcol. pose proof Hf as (Hh & Hb & _). pose proof Hcols as Hcols'.
  unfold font_cols in Hcols'.
  revert rest pre p fuel X d Q.
  induction s as [|c s IH]; intros rest pre p fuel X d Q HX HXw HY HYh Hfuel Hs -> Hwf Hcx Hcy HQ;
    (destruct fuel as [|fuel]; [cbn in Hfuel; lia|]); cbn [puts_loop app];
    rewrite wp_bind, wp_lift.
  - change (zlen (@nil Z)) with 0 in *.
    rewrite (load_ok _ _ 0); [|lia|by rewrite Nat2Z.id, list_lookup_middle].
    cbn [owp]. rewrite decide_False by auto. rewrite wp_ret.
    apply HQ; [done|lia|done|]. intros x y _.
    rewrite decide_False; [done|]. unfold in_text.
    change (zlen (@nil Z)) with 0. lia.
  - apply Forall_cons_1 in Hs as [Hc Hs].
    change (zlen (c :: s)) with (Z.of_nat (S (length s))) in *.
    rewrite (load_ok _ _ c); [|lia|by rewrite Nat2Z.id, list_lookup_middle].
    cbn [owp]. rewrite decide_True by (unfold printable in Hc; lia). rewrite wp_bind.
    apply (wp_putc_gen f comp c color X Y d Hf Hcols Hc Hcol); [nia|lia|done..|].
    intros d1 Hwf1 Hcx1 Hcy1 Hpx1. rewrite decide_False by auto.
    replace (pre ++ c :: s ++ 0 :: rest) with ((pre ++ [c]) ++ s ++ 0 :: rest)
      by (by rewrite <- app_assoc).
    rewrite u16_id in Hcx1 by (unfold is_u16; nia).
    apply (IH _ _ _ _ (X + f_width f)); unfold zlen; [lia|nia|lia|lia|cbn in Hfuel; lia|done| |done..|].
    { rewrite length_app. cbn. lia. }
    intros d' Hwf' Hcx' Hcy' Hpx'. apply HQ; [done|rewrite Hcx'; lia|done|].
    intros x y Hon. rewrite Hpx', Hpx1 by done. unfold in_text, zlen. cbn [length].
    destruct (decide (X ≤ x < X + Z.of_nat (S (length s)) * f_width f ∧ Y ≤ y < Y + f_height f))
      as [Hin|Hout].
    + rewrite text_pixel_cons by lia. repeat case_decide; try done; lia.
    + rewrite !decide_False by nia. done.
Qed.

(** ** The contract of a line *)

(** What a rasterised segment is, whichever way it is drawn: both ends, nothing
    outside the segment's box, every point within half a pixel of the segment, and
    exactly one point per step of the longer axis. *)
Record raster_line (x0 y0 x1 y1 : Z) (P : Z → Z → Prop) : Prop := mk_raster_line {
  raster_ends : P x0 y0 ∧ P x1 y1;
  raster_box x y : P x y →
    Z.min x0 x1 ≤ x ≤ Z.max x0 x1 ∧ Z.min y0 y1 ≤ y ≤ Z.max y0 y1;
  raster_close x y : P x y →
    2 * Z.abs ((y - y0) * (x1 - x0) - (x - x0) * (y1 - y0)) ≤
      Z.max (Z.abs (x1 - x0)) (Z.abs (y1 - y0));
  raster_columns x : Z.abs (y1 - y0) < Z.abs (x1 - x0) →
    Z.min x0 x1 ≤ x ≤ Z.max x0 x1 → ∃ y, P x y ∧ ∀ y', P x y' → y' = y;
  raster_rows y : Z.abs (x1 - x0) ≤ Z.abs (y1 - y0) →
    Z.min y0 y1 ≤ y ≤ Z.max y0 y1 → ∃ x, P x y ∧ ∀ x', P x' y → x' = x;
}.

Lemma minor_close a b k : 0 < a → 2 * Z.abs (minor a b k * a - k * b) ≤ a.
Proof. intros Ha. pose proof (minor_band a b k Ha). lia. Qed.

Lemma line_points_close x0 y0 x1 y1 x y :
  (x, y) ∈ line_points x0 y0 x1 y1 →
  2 * Z.abs ((y - y0) * (x1 - x0) - (x - x0) * (y1 - y0)) ≤
    Z.max (Z.abs (x1 - x0)) (Z.abs (y1 - y0)).
Proof.
  unfold line_points. set (dx := Z.abs (x1 - x0)). set (dy := Z.abs (y1 - y0)).
  set (sx := if decide (x0 < x1) then 1 else -1). set (sy := if decide (y0 < y1) then 1 else -1).
  assert (x1 - x0 = sx * dx ∧ (sx = 1 ∨ sx = -1)) as [-> Hsx]
    by (unfold sx, dx; case_decide; (split; [lia|auto])).
  assert (y1 - y0 = sy * dy ∧ (sy = 1 ∨ sy = -1)) as [-> Hsy]
    by (unfold sy, dy; case_decide; (split; [lia|auto])).
  destruct (decide (dy < dx)) as [Hmaj|Hmaj]; rewrite elem_of_map_seqZ;
    intros (k & [= -> ->] & Hk).
  - pose proof (minor_close dx dy k ltac:(lia)) as Hc. set (m := minor dx dy k) in *.
    replace ((y0 + sy * m - y0) * (sx * dx) - (x0 + sx * k - x0) * (sy * dy))
      with (sx * sy * (m * dx - k * dy)) by ring.
    destruct Hsx as [-> | ->], Hsy as [-> | ->]; lia.
  - destruct (decide (dy = 0)) as [Hz|Hnz].
    { assert (dx = 0) as -> by (unfold dx in *; lia). rewrite Hz. lia. }
    pose proof (minor_close dy dx k ltac:(lia)) as Hc. set (m := minor dy dx k) in *.
    replace ((y0 + sy * k - y0) * (sx * dx) - (x0 + sx * m - x0) * (sy * dy))
      with (- (sx * sy * (m * dy - k * dx))) by ring.
    destruct Hsx as [-> | ->], Hsy as [-> | ->]; lia.
Qed.

Lemma line_points_raster x0 y0 x1 y1 :
  raster_line x0 y0 x1 y1 (λ x y, (x, y) ∈ line_points x0 y0 x1 y1).
Proof.
  split; [apply line_points_ends|apply line_points_box|apply line_points_close|..].
  - intros x Hmaj Hx. unfold line_points. rewrite decide_True by done.
    eexists. rewrite elem_of_map_seqZ. split.
    + exists (Z.abs (x - x0)). split; [|lia]. f_equal. case_decide; lia.
    + intros y'. rewrite elem_of_map_seqZ. intros (k & [= Hk ->] & _).
      replace k with (Z.abs (x - x0)); [done|]. case_decide; lia.
  - intros y Hmaj Hy. unfold line_points. rewrite decide_False by lia.
    eexists. rewrite elem_of_map_seqZ. split.
    + exists (Z.abs (y - y0)). split; [|lia]. f_equal. case_decide; lia.
    + intros x'. rewrite elem_of_map_seqZ. intros (k & [= -> Hk] & Hr).
      replace k with (Z.abs (y - y0)); [done|]. case_decide; lia.
Qed.

(** ** Properties *)

(** C18: [ST7567_DrawLine] from any 16-bit coordinates ends, stays inside the frame
    buffer and changes exactly the pixels of a rasterised segment between the two
    end points brought onto the screen: both ends, one point per step of the longer
    axis, each within half a pixel of the segment; these take the colour asked
    for and every other pixel keeps its value. *)
Theorem line_drawn x0 y0 x1 y1 c d :
  lcd_wf d → is_u16 x0 → is_u16 y0 → is_u16 x1 → is_u16 y1 →
  ∃ d' (P : Z → Z → Prop),
    ST7567_DrawLine x0 y0 x1 y1 c d = Ok (tt, d') ∧ lcd_wf d' ∧
    raster_line (clamp x0 ST7567_WIDTH) (clamp y0 ST7567_HEIGHT)
                (clamp x1 ST7567_WIDTH) (clamp y1 ST7567_HEIGHT) P ∧
    ∀ x y, on_screen x y →
      (P x y → pixel d' x y = bool_decide (c = ST7567_COLOR_FRONT)) ∧
      (¬ P x y → pixel d' x y = pixel d x y).
Proof.
  intros Hd Hx0 Hy0 Hx1 Hy1. unfold is_u16 in *.
  assert (wp (ST7567_DrawLine x0 y0 x1 y1 c) (λ _ d', lcd_wf d' ∧
    ∀ x y, on_screen x y → pixel d' x y =
      if decide ((x, y) ∈ line_points (clamp x0 ST7567_WIDTH) (clamp y0 ST7567_HEIGHT)
                                      (clamp x1 ST7567_WIDTH) (clamp y1 ST7567_HEIGHT))
      then bool_decide (c = ST7567_COLOR_FRONT) else pixel d x y) d) as Hwp
    by (apply wp_DrawLine; auto; lia).
  apply wp_ok in Hwp as ([] & d' & Heq & Hwf & Hpx).
  eexists d', _. split; [done|]. split; [done|]. split; [apply line_points_raster|].
  intros x y Hon. rewrite Hpx by done.
  split; intros Hin; [by rewrite decide_True|by rewrite decide_False].
Qed.

Definition blank_lcd : lcd := mk_lcd (zeros 1056) (zeros 132) 0 0 0 [] [].
Lemma blank_lcd_wf : lcd_wf blank_lcd.
Proof. apply (bool_decide_unpack _). vm_compute. done. Qed.

Lemma line_drawn_witness :
  ∃ d' (P : Z → Z → Prop),
    ST7567_DrawLine 3 60 200 10 1 blank_lcd = Ok (tt, d') ∧ lcd_wf d' ∧
    raster_line (clamp 3 ST7567_WIDTH) (clamp 60 ST7567_HEIGHT)
                (clamp 200 ST7567_WIDTH) (clamp 10 ST7567_HEIGHT) P ∧
    ∀ x y, on_screen x y →
      (P x y → pixel d' x y = bool_decide (1 = ST7567_COLOR_FRONT)) ∧
      (¬ P x y → pixel d' x y = pixel blank_lcd x y).
Proof. apply line_drawn; [apply blank_lcd_wf|unfold is_u16; lia..]. Defined.

(** C19: a string of printable characters written with [ST7567_Puts] or
    [ST7567_Puts_HightLight] ends with result 0, leaves the cursor behind the text,
    and shows, character after character, the glyphs of the font table in the
    colour asked for (inverted for the highlighted form); no other pixel changes. *)
Theorem text_shows_glyphs (highlight : bool) f s rest color d :
  font_ok f → font_cols f → is_color color → Forall printable s → lcd_wf d →
  0 ≤ CurrentX d → CurrentX d + zlen s * f_width f + 8 ≤ 65536 →
  0 ≤ CurrentY d → CurrentY d + f_height f ≤ 65536 →
  ∃ d', (if highlight then ST7567_Puts_HightLight else ST7567_Puts) (s ++ 0 :: rest) f color d
          = Ok (0, d') ∧ lcd_wf d' ∧
    CurrentX d' = CurrentX d + zlen s * f_width f ∧ CurrentY d' = CurrentY d ∧
    ∀ x y, on_screen x y → pixel d' x y =
      if decide (in_text f s (CurrentX d) (CurrentY d) x y)
      then text_pixel f highlight s color (CurrentX d) (CurrentY d) x y else pixel d x y.
Proof.
  intros Hf Hcols Hcol Hs Hwf HX HXw HY HYh.
  set (Q := λ (r : Z) d', r = 0 ∧ lcd_wf d' ∧
    CurrentX d' = CurrentX d + zlen s * f_width f ∧ CurrentY d' = CurrentY d ∧
    ∀ x y, on_screen x y → pixel d' x y =
      if decide (in_text f s (CurrentX d) (CurrentY d) x y)
      then text_pixel f highlight s color (CurrentX d) (CurrentY d) x y else pixel d x y).
  assert (wp ((if highlight then ST7567_Puts_HightLight else ST7567_Puts) (s ++ 0 :: rest) f color)
             Q d) as Hwp.
  { pose proof (wp_puts_loop f highlight color (CurrentY d) s rest [] 0
      (S (length (s ++ 0 :: rest))) (CurrentX d) d Q) as Hp. cbn [app] in Hp.
    destruct highlight; apply Hp; try done; try (rewrite length_app; lia);
      unfold Q; auto. }
  apply wp_ok in Hwp as (r & d' & Heq & -> & HQ). eauto.
Qed.

Lemma text_shows_glyphs_witness :
  ∃ d', ST7567_Puts_HightLight ([82; 101; 99] ++ 0 :: []) Font_8x16 ST7567_COLOR_FRONT blank_lcd
          = Ok (0, d') ∧ lcd_wf d' ∧
    CurrentX d' = 24 ∧ CurrentY d' = 0 ∧
    ∀ x y, on_screen x y → pixel d' x y =
      if decide (in_text Font_8x16 [82; 101; 99] 0 0 x y)
      then text_pixel Font_8x16 true [82; 101; 99] ST7567_COLOR_FRONT 0 0 x y
      else pixel blank_lcd x y.
Proof.
  apply (text_shows_glyphs true Font_8x16 [82; 101; 99] [] ST7567_COLOR_FRONT blank_lcd);
    try (apply (bool_decide_unpack _); vm_compute; reflexivity).
Defined.
