(* ===== verification/Panel.v ===== *)
(** The display panel at the other end of the LCD's wire, and what it shows after
    the frame buffer is sent to it ([ST7567_UpdateScreen] of ST7567.c). *)
From stdpp Require Import sets.
From S2P Require Import Prelude Fonts Display.

(** ** The ST7567's serial interface and display RAM *)

(** Bits are taken on the rising clock edge while CS is low; a completed byte is a
    command or data by the level of DC. Page and column address are set by separate
    commands, and a data byte moves the column on. *)
Record panel := mk_panel { p_page : Z; p_col : Z; p_ram : Z → Z → Z }.
#[export] Instance eta_panel : Eta panel := λ r, mk_panel (p_page r) (p_col r) (p_ram r).

Record controller := mk_ctl {
  k_cs : bool; k_sck : bool; k_mosi : bool; k_dc : bool;
  k_bits : list bool;
  k_panel : panel;
}.
#[export] Instance eta_ctl : Eta controller := λ r,
  mk_ctl (k_cs r) (k_sck r) (k_mosi r) (k_dc r) (k_bits r) (k_panel r).

Definition bits_value (bits : list bool) : Z := foldl (λ a b, 2 * a + Z.b2z b) 0 bits.

Definition panel_byte (dc : bool) (p : panel) (b : Z) : panel :=
  if dc then
    mk_panel (p_page p) (p_col p + 1)
      (λ r c, if decide (r = p_page p ∧ c = p_col p) then b else p_ram p r c)
  else if decide (0xB0 ≤ b < 0xC0) then p <| p_page := b - 0xB0 |>
  else if decide (0x10 ≤ b < 0x20) then p <| p_col := (b - 0x10) * 16 + p_col p mod 16 |>
  else if decide (0 ≤ b < 0x10) then p <| p_col := p_col p / 16 * 16 + b |>
  else p.

Definition ctl_shift (k : controller) : controller :=
  let bits := k_bits k ++ [k_mosi k] in
  if decide (length bits = 8%nat)
  then k <| k_bits := [] |> <| k_panel := panel_byte (k_dc k) (k_panel k) (bits_value bits) |>
  else k <| k_bits := bits |>.

Definition ctl_pin (e : lcd_event) (k : controller) : controller :=
  match e with
  | WritePin CS h => k <| k_cs := h |> <| k_bits := [] |>
  | WritePin SCK h =>
      let k' := k <| k_sck := h |> in
      if h && negb (k_sck k) && negb (k_cs k) then ctl_shift k' else k'
  | WritePin MOSI h => k <| k_mosi := h |>
  | WritePin DC h => k <| k_dc := h |>
  | _ => k
  end.

(** The controller after a history of pin events, latest first. *)
Definition ctl_run (k : controller) (wire : list lcd_event) : controller := foldr ctl_pin k wire.

(** Between two transfers: not selected, data mode. *)
Definition idle (k : controller) : Prop := k_cs k = true ∧ k_dc k = true.

(** ** What a byte on the wire does *)

(** The bits that [transmit_bits] puts on MOSI, and the events it leaves. *)
Fixpoint tx_bits (n : nat) (dat : Z) : list bool :=
  match n with
  | O => []
  | S n => bool_decide (Z.land dat 0x80 ≠ 0) :: tx_bits n (u8 (Z.shiftl dat 1))
  end.

Definition bit_events (b : bool) : list lcd_event :=
  [WritePin SCK true; WritePin MOSI b; WritePin SCK false].

Definition add_bits (w : list lcd_event) (bits : list bool) : list lcd_event :=
  foldl (λ w b, bit_events b ++ w) w bits.

Lemma transmit_bits_wire n dat d :
  transmit_bits n dat d = Ok (tt, d <| lcd_wire := add_bits (lcd_wire d) (tx_bits n dat) |>).
Proof.
  revert dat d. induction n as [|n IH]; intros dat d; [by destruct d|].
  cbn [transmit_bits tx_bits]. unfold mbind, prog_bind, HAL_GPIO_WritePin, modify. by rewrite IH.
Qed.

Lemma tx_bits_value dat : is_u8 dat → bits_value (tx_bits 8 dat) = dat.
Proof.
  intros Hd. assert (Forall (λ d, bits_value (tx_bits 8 d) = d) (seqZ 0 256)) as Hall.
  { apply (bool_decide_unpack _). vm_compute. done. }
  apply (proj1 (list.Forall_forall _ _) Hall), elem_of_seqZ. unfold is_u8 in Hd. lia.
Qed.

Lemma ctl_bit b w k :
  k_cs (ctl_run k w) = false →
  ctl_run k (bit_events b ++ w) =
    ctl_shift (ctl_run k w <| k_mosi := b |> <| k_sck := true |>).
Proof.
  unfold ctl_run. intros Hcs. cbn [bit_events app foldr].
  destruct (foldr ctl_pin k w). cbn in Hcs. by subst.
Qed.

(** Shifting in the last bits of a byte. *)
Lemma ctl_bits bits w k :
  let k1 := ctl_run k w in
  k_cs k1 = false → bits ≠ [] → (length (k_bits k1) + length bits = 8)%nat →
  let k2 := ctl_run k (add_bits w bits) in
  k_cs k2 = false ∧ k_dc k2 = k_dc k1 ∧
  k_panel k2 = panel_byte (k_dc k1) (k_panel k1) (bits_value (k_bits k1 ++ bits)).
Proof.
  revert w. induction bits as [|b bits IH]; intros w; cbn zeta; intros Hcs Hne Hlen; [done|].
  unfold add_bits. cbn [foldl]. fold (add_bits (bit_events b ++ w) bits).
  pose proof (ctl_bit b w k Hcs) as Hb. unfold ctl_shift in Hb.
  change (k_bits (_ <| k_sck := true |>)) with (k_bits (ctl_run k w)) in Hb.
  change (k_mosi (_ <| k_sck := true |>)) with b in Hb.
  change (length (b :: bits)) with (S (length bits)) in Hlen.
  destruct bits as [|b' bits].
  - rewrite decide_True in Hb by (rewrite length_app; cbn in *; lia).
    unfold add_bits. cbn [foldl]. rewrite Hb. done.
  - rewrite decide_False in Hb by (rewrite length_app; cbn in *; lia).
    destruct (IH (bit_events b ++ w)) as (H1 & H2 & H3).
    + by rewrite Hb.
    + done.
    + rewrite Hb. change (k_bits (_ <| k_bits := ?x |>)) with x. rewrite length_app. cbn in *. lia.
    + split; [done|]. rewrite H2, H3, Hb. split; [done|].
      change (k_bits (_ <| k_bits := ?x |>)) with x. by rewrite <- app_assoc.
Qed.

(** The panel behind the wire of a display state. *)
Definition shown (k : controller) (d : lcd) : panel := k_panel (ctl_run k (lcd_wire d)).

(** A step that only adds to the wire. *)
Definition same_picture (d d' : lcd) : Prop := d' = d <| lcd_wire := lcd_wire d' |>.
Lemma same_picture_trans d1 d2 d3 : same_picture d1 d2 → same_picture d2 d3 → same_picture d1 d3.
Proof. unfold same_picture. intros -> ->. by destruct d1. Qed.

Lemma wp_TransmitByte k dat d Q :
  is_u8 dat → let k1 := ctl_run k (lcd_wire d) in
  (∀ d', same_picture d d' → k_cs (ctl_run k (lcd_wire d')) = true →
     k_dc (ctl_run k (lcd_wire d')) = k_dc k1 →
     shown k d' = panel_byte (k_dc k1) (shown k d) dat → Q tt d') →
  wp (ST7567_TransmitByte dat) Q d.
Proof.
  intros Hd k1 HQ. unfold ST7567_TransmitByte, HAL_GPIO_WritePin.
  rewrite wp_bind, wp_modify, wp_bind. unfold wp at 1. rewrite transmit_bits_wire.
  cbv beta iota. rewrite wp_modify. pose proof (tx_bits_value dat Hd) as Hval.
  assert (length (tx_bits 8 dat) = 8%nat ∧ tx_bits 8 dat ≠ []) as [Hlen Hne] by done.
  generalize dependent (tx_bits 8 dat). intros bits Hval Hlen Hne.
  set (w := lcd_wire (d <| lcd_wire := _ |>)).
  assert (k_bits (ctl_run k w) = []) as Hnil by done.
  destruct (ctl_bits bits w k) as (H1 & H2 & H3); [done|done|by rewrite Hnil|].
  assert (k_panel (ctl_run k w) = shown k d) as Hp by done.
  assert (k_dc (ctl_run k w) = k_dc k1) as Hdc by done.
  rewrite Hnil, Hp, Hdc in *. cbn [app] in H3. rewrite Hval in H3.
  generalize dependent (add_bits w bits). intros w2 H1 H2 H3.
  apply HQ; [by destruct d|done|exact H2|exact H3].
Qed.

Lemma wp_WriteData k b d Q :
  is_u8 b → idle (ctl_run k (lcd_wire d)) →
  (∀ d', same_picture d d' → idle (ctl_run k (lcd_wire d')) →
     shown k d' = panel_byte true (shown k d) b → Q tt d') →
  wp (ST7567_WriteData b) Q d.
Proof.
  intros Hb [Hcs Hdc] HQ. unfold ST7567_WriteData. apply (wp_TransmitByte k); [done|].
  rewrite Hdc. intros d' ????. by apply HQ.
Qed.

Lemma wp_WriteCommand k b d Q :
  is_u8 b → idle (ctl_run k (lcd_wire d)) →
  (∀ d', same_picture d d' → idle (ctl_run k (lcd_wire d')) →
     shown k d' = panel_byte false (shown k d) b → Q tt d') →
  wp (ST7567_WriteCommand b) Q d.
Proof.
  intros Hb [Hcs Hdc] HQ. unfold ST7567_WriteCommand, HAL_GPIO_WritePin.
  rewrite wp_bind, wp_modify, wp_bind. apply (wp_TransmitByte k); [done|].
  intros d' Hsame Hcs' Hdc' Hsh. rewrite wp_modify. apply HQ.
  - unfold same_picture in *. rewrite Hsame. by destruct d.
  - done.
  - exact Hsh.
Qed.

(** ** The screen refresh *)

(** Byte [n] of memory from the start of the frame buffer. *)
Definition memory_byte (d : lcd) (n : Z) : Z :=
  default 0 ((lcd_buffer d ++ lcd_beyond d) !! Z.to_nat n).

(** Steps that add to the wire and read [l] behind the buffer. *)
Definition redrawn (l : list Z) (d d' : lcd) : Prop :=
  d' = d <| lcd_over := l ++ lcd_over d |> <| lcd_wire := lcd_wire d' |>.
Lemma redrawn_same l d1 d2 d3 : redrawn l d1 d2 → same_picture d2 d3 → redrawn l d1 d3.
Proof. unfold redrawn, same_picture. intros -> ->. by destruct d1. Qed.
Lemma memory_byte_redrawn l d d' n : redrawn l d d' → memory_byte d' n = memory_byte d n.
Proof. by intros ->. Qed.

Section refresh.
Context (k : controller) (d0 : lcd) (Hd0 : lcd_wf d0).

(** The positions behind the buffer among the first [n], the latest first. *)
Definition behind (n : Z) : list Z := reverse (seqZ BUFFER_SIZE (n - BUFFER_SIZE)).

Lemma behind_next n : 0 ≤ n → behind (n + 1) = if decide (BUFFER_SIZE ≤ n) then n :: behind n else behind n.
Proof using.
  intros Hn. unfold behind. change BUFFER_SIZE with 1056. case_decide.
  - replace (n + 1 - 1056) with (n - 1056 + 1) by lia. rewrite seqZ_app by lia.
    replace (seqZ (1056 + (n - 1056)) 1) with [n] by (rewrite seqZ_cons by lia; rewrite seqZ_nil by lia; f_equal; lia).
    by rewrite reverse_app.
  - by rewrite !seqZ_nil by lia.
Qed.

(** The first [n] panel pages, and [m] columns of page [n], show the memory. *)
Definition sent (n m : Z) (d : lcd) : Prop :=
  redrawn (behind (n * 132 + m)) d0 d ∧ idle (ctl_run k (lcd_wire d)) ∧
  ∀ r c, p_ram (shown k d) r c =
    if decide (0 ≤ r ∧ 0 ≤ c < 132 ∧ (r < n ∨ r = n ∧ c < m)) then memory_byte d0 (r * 132 + c)
    else p_ram (shown k d0) r c.

Lemma sent_command b i d Q :
  is_u8 b → sent i 0 d →
  (∀ d', sent i 0 d' → shown k d' = panel_byte false (shown k d) b → Q tt d') →
  wp (ST7567_WriteCommand b) Q d.
Proof.
  intros Hb (Hs & Hi & Hr) HQ. apply (wp_WriteCommand k); [done..|].
  intros d' Hs' Hi' Hsh. apply HQ; [|done].
  split; [by eapply redrawn_same|]. split; [done|]. intros r c. rewrite <- Hr, Hsh.
  unfold panel_byte. by repeat case_decide.
Qed.

Lemma sent_address i d (m : prog lcd unit) Q :
  0 ≤ i < 9 → sent i 0 d →
  (∀ d', sent i 0 d' → p_page (shown k d') = i → p_col (shown k d') = 0 → wp m Q d') →
  wp (ST7567_WriteCommand (u8 (0xb0 + i));;
      ST7567_WriteCommand ST7567_SET_COLUMN_ADDRESS_MSB;;
      ST7567_WriteCommand ST7567_SET_COLUMN_ADDRESS_LSB;; m) Q d.
Proof.
  intros Hi Hs HQ. rewrite wp_bind. apply (sent_command _ i); [apply u8_range|done|].
  intros d1 Hs1 H1. rewrite wp_bind. apply (sent_command _ i); [done|done|].
  intros d2 Hs2 H2. rewrite wp_bind. apply (sent_command _ i); [done|done|].
  intros d3 Hs3 H3. rewrite u8_id in H1 by (unfold is_u8; lia).
  unfold panel_byte in H1. rewrite decide_True in H1 by lia.
  change (panel_byte false ?p ST7567_SET_COLUMN_ADDRESS_MSB)
    with (p <| p_col := 0 * 16 + p_col p mod 16 |>) in H2.
  change (panel_byte false ?p ST7567_SET_COLUMN_ADDRESS_LSB)
    with (p <| p_col := p_col p / 16 * 16 + 0 |>) in H3.
  apply HQ; [done|rewrite H3, H2, H1; unfold upd; cbn [p_page]; lia|].
  rewrite H3, H2, H1. unfold upd; cbn [p_col]. lia.
Qed.

Lemma sent_wf n m d : 0 ≤ n * 132 + m ≤ 9 * 132 → sent n m d → lcd_wf d.
Proof using Hd0.
  intros Hn (Hs & _). unfold redrawn in Hs. rewrite Hs. destruct Hd0 as (? & ? & ? & ? & Hov). do 4 (split; [done|]).
  apply Forall_app_2; [|done]. unfold behind. apply list.Forall_reverse, list.Forall_forall.
  intros i Hi%elem_of_seqZ. change BUFFER_SIZE with 1056 in *. lia.
Qed.

Lemma sent_byte i j d :
  0 ≤ i < 9 → 0 ≤ j < 132 →
  sent i j d ∧ p_page (shown k d) = i ∧ p_col (shown k d) = j →
  wp (b ← buffer_read (i * 132 + j); ST7567_WriteData b)
    (λ _ d', sent i (j + 1) d' ∧ p_page (shown k d') = i ∧ p_col (shown k d') = j + 1) d.
Proof using Hd0.
  intros Hi Hj (Hsent & Hp & Hc). pose proof (sent_wf i j d ltac:(lia) Hsent) as Hwf.
  destruct Hsent as (Hs & Hid & Hr). rewrite wp_bind.
  destruct (buffer_read_ok d (i * 132 + j) Hwf) as (b & Hrun & Hb & Hlk & Hwf'); [lia|].
  eapply wp_run; [exact Hrun|].
  assert (redrawn (behind (i * 132 + j + 1)) d0 (read_at (i * 132 + j) d)) as Hs1.
  { rewrite behind_next by lia. unfold redrawn, read_at in *. rewrite Hs. case_decide; by destruct d0. }
  change (shown k d) with (shown k (read_at (i * 132 + j) d)) in *.
  change (lcd_wire d) with (lcd_wire (read_at (i * 132 + j) d)) in Hid.
  assert (memory_byte d0 (i * 132 + j) = b) as Hm.
  { rewrite <- (memory_byte_redrawn _ d0 d _ Hs). unfold memory_byte. by rewrite Hlk. }
  apply (wp_WriteData k); [done..|]. intros d' Hs' Hid' Hsh. rewrite Hsh.
  unfold panel_byte. cbn [p_page p_col]. split; [|split; [done|lia]].
  split; [rewrite Z.add_assoc; by eapply redrawn_same|]. split; [done|]. intros r c. rewrite Hsh.
  cbn [panel_byte p_ram]. rewrite Hp, Hc, Hr.
  destruct (decide (r = i ∧ c = j)) as [[-> ->]|Hne].
  - by rewrite decide_True by lia.
  - apply decide_ext. lia.
Qed.

Lemma wp_UpdateScreen :
  idle (ctl_run k (lcd_wire d0)) → wp ST7567_UpdateScreen (λ _, sent 9 0) d0.
Proof using Hd0.
  intros Hid. unfold ST7567_UpdateScreen.
  apply (wp_for_range (λ i, sent i 0)); [lia| |].
  { split; [unfold redrawn; by destruct d0|]. split; [done|]. intros r c. by rewrite decide_False by lia. }
  intros i d Hi Hs.
  apply (sent_address i); [done..|]. intros d1 Hs1 Hp Hc.
  eapply wp_mono.
  - apply (wp_for_range (λ j d, sent i j d ∧ p_page (shown k d) = i ∧ p_col (shown k d) = j));
      [lia|done|]. intros j d' Hj Hd'. by apply sent_byte.
  - intros ? d' ((Hs' & Hid' & Hr') & _). split; [by replace ((i + 1) * 132 + 0) with (i * 132 + 132) by lia|]. split; [done|].
    intros r c. rewrite Hr'. apply decide_ext. lia.
Qed.
End refresh.

(** ** Properties *)

(** C17: [ST7567_UpdateScreen] ends without a fault, touches nothing but the
    wire and leaves the frame buffer with 132 reads, of the bytes right behind it; afterwards the panel behind the wire shows the frame buffer pixel by
    pixel on its 64 rows, whatever it held before; its ninth page (the icon row)
    shows the 132 bytes of memory behind the frame buffer. *)
Theorem screen_shows_buffer k d :
  lcd_wf d → idle (ctl_run k (lcd_wire d)) →
  ∃ d', ST7567_UpdateScreen d = Ok (tt, d') ∧ redrawn (reverse (seqZ BUFFER_SIZE 132)) d d' ∧
    idle (ctl_run k (lcd_wire d')) ∧
    (∀ x y, on_screen x y → Z.testbit (p_ram (shown k d') (y / 8) x) (y mod 8) = pixel d x y) ∧
    (∀ c, 0 ≤ c < 132 → lcd_beyond d !! Z.to_nat c = Some (p_ram (shown k d') 8 c)).
Proof.
  intros Hwf Hid. pose proof (wp_UpdateScreen k d Hwf Hid) as Hw.
  apply wp_ok in Hw as ([] & d' & Heq & Hs & Hid' & Hr).
  exists d'. split; [done|]. split; [done|]. split; [done|].
  destruct Hwf as (Hl & _ & Hbl & _). change BUFFER_SIZE with 1056 in Hl. unfold zlen in Hl, Hbl.
  split.
  - intros x y [Hx Hy]. unfold ST7567_WIDTH, ST7567_HEIGHT in *. rewrite Hr, decide_True by lia.
    unfold pixel, memory_byte. f_equal.
    replace (pixel_index x y) with (y / 8 * 132 + x)
      by (unfold pixel_index, ST7567_X_OFFSET, ST7567_WIDTH, ST7567_SEG_EXPAND; lia).
    by rewrite lookup_app_l by lia.
  - intros c Hc. rewrite Hr, decide_True by lia. unfold memory_byte.
    rewrite lookup_app_r by lia.
    replace (Z.to_nat (8 * 132 + c) - length (lcd_buffer d))%nat with (Z.to_nat c) by lia.
    destruct (lookup_lt_is_Some_2 (lcd_beyond d) (Z.to_nat c)) as [b Hb]; [lia|].
    by rewrite Hb.
Qed.

Definition reset_ctl : controller := mk_ctl true false false true [] (mk_panel 0 0 (λ _ _, 0)).

Lemma screen_shows_buffer_witness :
  ∃ d', ST7567_UpdateScreen blank_lcd = Ok (tt, d') ∧ redrawn (reverse (seqZ 1056 132)) blank_lcd d' ∧
    idle (ctl_run reset_ctl (lcd_wire d')) ∧
    (∀ x y, on_screen x y →
       Z.testbit (p_ram (shown reset_ctl d') (y / 8) x) (y mod 8) = pixel blank_lcd x y) ∧
    (∀ c, 0 ≤ c < 132 →
       lcd_beyond blank_lcd !! Z.to_nat c = Some (p_ram (shown reset_ctl d') 8 c)).
Proof. apply screen_shows_buffer; [apply blank_lcd_wf|by split]. Defined.
