(* ===== verification/State.v ===== *)
(** The firmware's shared state: the globals of Uart.c, module.c, infrared.c,
    Oled1309.c and OledPage.c, the static variables of the tasks, and the trace of
    what the tasks do to the outside world. *)
From Stdlib Require Import String Ascii.
From S2P Require Import Prelude Mem Flash Fonts Display.

(** ** Constants *)

(** Uart.h *)
Definition UART_MSG_SIZE : Z := 100.
Definition START_CODE : Z := 0xAA55.
Definition DATA_BLOCK_START : Z := 0x801FC00.
Definition CODE_RECV_FAIL : Z := 0.
Definition CODE_RECV_SUCCESS : Z := 1.
Definition CODE_RECV_TIMEOUT : Z := 2.
Definition READ_MUTI : Z := 0x03.
Definition WRITE_SINGLE : Z := 0x06.
Definition WRITE_MUTI : Z := 0x10.
Definition REGISTER_CODE : Z := 0xFA.
Definition INFRARED_TYPE : Z := 0xB4.
Definition REGISTER_LOCATION : Z := 0x0000.
Definition REGISTER_VERSION : Z := 0x0001.
Definition REGISTER_UUID1 : Z := 0x0003.
Definition REGISTER_UUID2 : Z := 0x0004.
Definition REGISTER_ADDR : Z := 0x0006.
Definition REGISTER_TYPE : Z := 0x0007.
Definition REGISTER_CTRL : Z := 0x0100.
Definition CB_IN_LEARN_ON : Z := 1.
Definition CB_IN_LEARN_OFF : Z := 2.
Definition SELECT_MATCH : Z := 0.
Definition SELECT_LEARN : Z := 1.

(** The events of the infrared side (the unnamed enum of Uart.h). *)
Inductive ir_event : Set :=
  | EVENT_NULL
  | EVENT_SEND_MATCH
  | EVENT_SEND_MATCH_OVER
  | EVENT_SEND_SAVE
  | EVENT_SEND_ON_TEST
  | EVENT_SEND_OFF_TEST
  | EVENT_SEND_LEARN_MODE_ON
  | EVENT_SEND_LEARN_MODE_OFF
  | EVENT_WAIT_LEARN_ON
  | EVENT_WAIT_LEARN_OFF
  | EVENT_SEND_LEARN_ON_OVER
  | EVENT_SEND_LEARN_OFF_OVER.
#[export] Instance ir_event_eq_dec : EqDecision ir_event.
Proof. solve_decision. Defined.

(** The events of the hub side. *)
Inductive hub_event : Set := EVENT_CLEAN | EVENT_REGISTER | EVENT_GET_ADDR | EVENT_SET_ADDR.
#[export] Instance hub_event_eq_dec : EqDecision hub_event.
Proof. solve_decision. Defined.

(** module.h *)
Definition REGISTER_NULL : Z := 0.
Definition REGISTER_SUCESS : Z := 1.
Definition REGISTER_FAIL : Z := 2.

(** infrared.h *)
Definition INFRARED_EVENT_MATCH_OK : Z := 1.
Definition INFRARED_EVENT_MATCH_FAIL : Z := 2.
Definition INFRARED_EVENT_SAVE_OK : Z := 3.
Definition INFRARED_EVENT_SAVE_FAIL : Z := 4.

(** Oled1309.h *)
Definition HOME_PAGE : Z := 0x00.
Definition SETTING_PAGE : Z := 0x01.
Definition ONEKEY_MATCH_PAGE : Z := 0x02.
Definition SELECT_MODE_PAGE : Z := 0x03.
Definition LEARN_MODE_PAGE : Z := 0x04.
Definition LEARN_ON_PAGE : Z := 0x05.
Definition LEARN_OFF_PAGE : Z := 0x06.
Definition TEST_PAGE : Z := 0x07.
Definition RES_NULL : Z := 0x00.

(** Gpio.h *)
Definition UART_PERIOD : Z := 50.
Definition BUTTON_TASK_PERIOD : Z := 20.

(** ** Data *)

(** [struct module_info]: twelve bytes, no padding. *)
Record module_info := mk_mi {
  mi_crc : Z;
  mi_addr : Z;
  mi_type : Z;
  mi_Version : Z;
  mi_register_state : Z;
  mi_brand_code : Z;
  mi_ctrl : Z;
  mi_select : Z;
  mi_find_location : Z;
}.
#[export] Instance eta_mi : Eta module_info := λ r,
  mk_mi (mi_crc r) (mi_addr r) (mi_type r) (mi_Version r) (mi_register_state r)
        (mi_brand_code r) (mi_ctrl r) (mi_select r) (mi_find_location r).
#[export] Instance mi_eq_dec : EqDecision module_info.
Proof. solve_decision. Defined.

Definition SIZEOF_MODULE_INFO : Z := 12.

(** The struct's bytes in memory, little-endian. *)
Definition mi_bytes (m : module_info) : list Z :=
  le_bytes 2 (mi_crc m) ++ [mi_addr m; mi_type m; mi_Version m; mi_register_state m] ++
  le_bytes 2 (mi_brand_code m) ++ le_bytes 2 (mi_ctrl m) ++ [mi_select m; mi_find_location m].

Definition mi_of_bytes (bs : list Z) : outcome module_info :=
  match bs with
  | [c0; c1; a; t; v; r; b0; b1; k0; k1; s; f] =>
      Ok (mk_mi (le_value [c0; c1]) a t v r (le_value [b0; b1]) (le_value [k0; k1]) s f)
  | _ => Fault OutOfBounds
  end.

(** [struct rx_msg], without the device handle. *)
Record rx_msg := mk_rx { rx_size : Z; messageFlag : Z; rx_data : list Z }.
#[export] Instance eta_rx : Eta rx_msg := λ r, mk_rx (rx_size r) (messageFlag r) (rx_data r).

(** What a [Call_Back] pointer of an infrared event holds: null, an automatic
    variable's leftover bits, or one of the two functions of OledPage.c. *)
Inductive call_back : Set := cb_null | cb_indeterminate | matchCallBack_p | learnCallBack_p.
#[export] Instance call_back_eq_dec : EqDecision call_back.
Proof. solve_decision. Defined.

Record infrared_event_t := mk_event { event : ir_event; ev_call_back : call_back }.
#[export] Instance eta_event : Eta infrared_event_t := λ r, mk_event (event r) (ev_call_back r).
#[export] Instance event_eq_dec : EqDecision infrared_event_t.
Proof. solve_decision. Defined.

(** [struct pageSelect]. *)
Record type_page_t := mk_page { cusor_home : Z; cusor_max : Z; cusor : Z; select : Z }.
#[export] Instance eta_page : Eta type_page_t := λ r,
  mk_page (cusor_home r) (cusor_max r) (cusor r) (select r).

Inductive uart : Set := uart1 | uart2.
Inductive io_pin : Set := UART1_EN | LED_STATE | OLED_BACK_LIGHT.
Inductive io_event : Set :=
  | DeviceWrite (dev : uart) (bytes : list Z)
  | PinWrite (p : io_pin) (high : bool)
  | MDelay (ms : Z).
#[export] Instance uart_eq_dec : EqDecision uart.
Proof. solve_decision. Defined.
#[export] Instance io_pin_eq_dec : EqDecision io_pin.
Proof. solve_decision. Defined.
#[export] Instance io_event_eq_dec : EqDecision io_event.
Proof. solve_decision. Defined.

(** An access that leaves its object: [module_info] of Uart.c or the argument [recv] of
    [codeDataRecvResult]; the [ov_count] bytes from [ov_first] on, counted from its start. *)
Inductive object : Set := module_info_object | recv_object.
Record overrun := mk_overrun { ov_object : object; ov_first : Z; ov_count : Z; ov_write : bool }.
Definition object_size (o : object) : Z :=
  match o with module_info_object => SIZEOF_MODULE_INFO | recv_object => 4 end.

(** The statics of [UartTaskEntry] and [IoCheckProgram] and the locals of the task
    that live across turns of its loop. *)
Record uart_task := mk_ut {
  Timer100msTouch : Z; Timer1sTouch : Z; Timer5sTouch : Z; Timer10sTouch : Z;
  time100ms : Z; time1S : Z; time5S : Z; time10S : Z;
  ut_event : infrared_event_t;
  ut_master_event : hub_event;
  modulePre : module_info;
  ctrl_pre : Z;
  find_location_cnt : Z;
  startFlag : Z;
  startCheckIo : Z;
  connect_monitor : Z;
  sendCmdCnt : Z;
  Laststate : Z;
  continueTime : Z;
  ut_data : list Z;
}.
#[export] Instance eta_ut : Eta uart_task := λ r,
  mk_ut (Timer100msTouch r) (Timer1sTouch r) (Timer5sTouch r) (Timer10sTouch r)
        (time100ms r) (time1S r) (time5S r) (time10S r) (ut_event r) (ut_master_event r)
        (modulePre r) (ctrl_pre r) (find_location_cnt r) (startFlag r) (startCheckIo r)
        (connect_monitor r) (sendCmdCnt r) (Laststate r) (continueTime r) (ut_data r).

(** The statics and locals of [OledTaskEntry] and [selectModePage]. *)
Record oled_task := mk_ot {
  ot_Timer1sTouch : Z; ot_time1S : Z; ot_Timer3sTouch : Z; ot_time3S : Z;
  nowPage : Z;
  nowPagePre : Z;
  ot_ctrl : Z;
  sm_cnt : Z;
  sm_show : list Z;
}.
#[export] Instance eta_ot : Eta oled_task := λ r,
  mk_ot (ot_Timer1sTouch r) (ot_time1S r) (ot_Timer3sTouch r) (ot_time3S r) (nowPage r)
        (nowPagePre r) (ot_ctrl r) (sm_cnt r) (sm_show r).

Record fw := mk_fw {
  fw_mi : module_info;             (* module_info, Uart.c *)
  fw_beyond : list Z;              (* memory behind module_info, which initModuleInfo reaches *)
  fw_over : list overrun;          (* the accesses that left their object, latest first *)
  fw_uart1 : rx_msg;               (* uart1_msg *)
  fw_uart2 : rx_msg;               (* uart2_msg *)
  switchState : Z;
  nowTemp : Z;
  infrared_event : infrared_event_t;   (* static of infrared.c *)
  mater_envent : hub_event;            (* static of module.c *)
  pageInfor : Z;
  pageSelect : type_page_t;
  reflash_flag : Z;
  backlightTime : Z;
  matchRes : Z;
  led_test_state : Z;              (* static of LED_TEST *)
  fw_lcd : lcd;
  fw_flash : flash;
  fw_heap : heap;                  (* the statics of mem.c and the memory behind them *)
  fw_ut : uart_task;
  fw_ot : oled_task;
  fw_trace : list io_event;        (* latest first *)
}.
#[export] Instance eta_fw : Eta fw := λ r,
  mk_fw (fw_mi r) (fw_beyond r) (fw_over r) (fw_uart1 r) (fw_uart2 r) (switchState r) (nowTemp r)
        (infrared_event r) (mater_envent r) (pageInfor r) (pageSelect r) (reflash_flag r)
        (backlightTime r) (matchRes r) (led_test_state r) (fw_lcd r) (fw_flash r) (fw_heap r)
        (fw_ut r) (fw_ot r) (fw_trace r).

(** ** The outside world *)

(** The unique-id words that [ReadUniqueId] reads at ID_ADDR1, ID_ADDR2, ID_ADDR3. *)
Class Chip := { id1 : Z; id2 : Z; id3 : Z }.

Definition emit (e : io_event) : prog fw unit :=
  modify (λ s, s <| fw_trace := e :: fw_trace s |>).
Definition rt_device_write (dev : uart) (bytes : list Z) : prog fw unit :=
  emit (DeviceWrite dev bytes).
Definition rt_pin_write (p : io_pin) (high : bool) : prog fw unit := emit (PinWrite p high).

(** An access to bytes [first] to [first + count] of an object; one that leaves the object
    is put on record. *)
Definition access (o : object) (first count : Z) (write : bool) : prog fw unit :=
  when (bool_decide (¬ (0 ≤ first ∧ first + count ≤ object_size o)))
    (modify (λ s, s <| fw_over := mk_overrun o first count write :: fw_over s |>)).
Definition rt_thread_mdelay (ms : Z) : prog fw unit := emit (MDelay ms).

(** ** Accessors of the source *)

Definition getModuleInfo : prog fw module_info := gets fw_mi.
Definition setModuleInfo (f : module_info → module_info) : prog fw unit :=
  modify (λ s, s <| fw_mi := f (fw_mi s) |>).
Definition getSwitchState : prog fw Z := gets switchState.
Definition setSwitchState (state : Z) : prog fw unit := modify (λ s, s <| switchState := state |>).
Definition getNowTemp : prog fw Z := gets nowTemp.
Definition setNowTemp (temp : Z) : prog fw unit := modify (λ s, s <| nowTemp := temp |>).
Definition getInfraredEvent : prog fw infrared_event_t := gets infrared_event.
Definition setinfraredEvent (e : infrared_event_t) : prog fw unit :=
  modify (λ s, s <| infrared_event := e |>).
Definition getMasterEvent : prog fw hub_event := gets mater_envent.
Definition setMasterEvent (e : hub_event) : prog fw unit :=
  modify (λ s, s <| mater_envent := e |>).

(** [pageReturn] of OledPage.c. *)
Definition pageReturn : prog fw unit :=
  modify (λ s, s <| pageInfor := Z.shiftr (pageInfor s) 8 |>).

(** The temperature nibble of a control word, [getTempByCtrl] of OledPage.c. *)
Definition getTempByCtrl (data : Z) : Z :=
  let temp := u8 (Z.land (Z.shiftr data 8) 0x0f) in
  let temp := u8 (temp + 16) in
  if decide (temp > 30 ∨ temp < 16) then 25 else temp.

(** [TimerTask] of main.c: the flag and the counter after one call. *)
Definition TimerTask (time touchTime : Z) : Z * Z :=
  if decide (time < touchTime) then (NO, u16 (time + 1)) else (YES, 0).

(** [LED_ON], [LED_OFF], [LED_TEST] of main.c. *)
Definition LED_ON : prog fw unit := rt_pin_write LED_STATE false.
Definition LED_OFF : prog fw unit := rt_pin_write LED_STATE true.
Definition LED_TEST : prog fw unit :=
  st ← gets led_test_state;
  modify (λ s, s <| led_test_state := u8 (st + 1) |>);;
  rt_pin_write LED_STATE (bool_decide (st mod 2 ≠ 0)).

Definition LED_TEST_LONG : prog fw unit :=
  for_range 0 40 (λ _, LED_TEST;; rt_thread_mdelay 50).

(** [sendMessageToMaster] of Uart.c: the transmitter is enabled around the write. *)
Definition sendMessageToMaster (data : list Z) (len : Z) : prog fw unit :=
  rt_pin_write UART1_EN true;;
  bs ← lift (load_bytes data 0 len);
  rt_device_write uart1 bs;;
  rt_pin_write UART1_EN false.

(** A string literal as a zero-terminated character array. *)
Fixpoint chars (s : string) : list Z :=
  match s with
  | EmptyString => []
  | String a s => Z.of_N (N_of_ascii a) :: chars s
  end.
Definition c_str (s : string) : list Z := chars s ++ [0].

(** ** The representation of [struct module_info] *)

Definition mi_wf (m : module_info) : Prop :=
  is_u16 (mi_crc m) ∧ is_u8 (mi_addr m) ∧ is_u8 (mi_type m) ∧ is_u8 (mi_Version m) ∧
  is_u8 (mi_register_state m) ∧ is_u16 (mi_brand_code m) ∧ is_u16 (mi_ctrl m) ∧
  is_u8 (mi_select m) ∧ is_u8 (mi_find_location m).
#[export] Instance mi_wf_dec m : Decision (mi_wf m).
Proof. unfold mi_wf. apply _. Defined.

Lemma mi_bytes_length m : length (mi_bytes m) = 12%nat.
Proof. done. Qed.

Lemma mi_bytes_u8 m : mi_wf m → Forall is_u8 (mi_bytes m).
Proof.
  intros (?&?&?&?&?&?&?&?&?). unfold mi_bytes.
  repeat apply Forall_app_2; try apply le_bytes_u8;
    repeat (apply Forall_cons; [done|]); apply Forall_nil_2.
Qed.

Lemma mi_roundtrip m : mi_wf m → mi_of_bytes (mi_bytes m) = Ok m.
Proof.
  destruct m as [crc a t v r b k s f]. unfold mi_wf. cbn.
  intros (Hc&?&?&?&?&Hb&Hk&?&?).
  assert (∀ x, is_u16 x → le_value [u8 x; u8 (Z.shiftr x 8)] = x) as Hle.
  { intros x Hx. by apply (le_value_bytes 2). }
  cbn [le_value] in Hle. by rewrite !Hle.
Qed.

Lemma getTempByCtrl_range c : 16 ≤ getTempByCtrl c ≤ 30.
Proof. unfold getTempByCtrl. case_decide; lia. Qed.

(** ** Concrete states *)

(** A module with stored settings, and the state before the tasks start, with a heap that
    [rt_hw_board_init] has set up. *)
Definition sample_mi : module_info := mk_mi 0 1 INFRARED_TYPE 2 REGISTER_NULL 0x0028 0xE500 SELECT_MATCH NO.
Definition zero_mi : module_info := mk_mi 0 0 0 0 0 0 0 0 0.
Definition null_event : infrared_event_t := mk_event EVENT_NULL cb_null.
Definition boot_ut : uart_task :=
  mk_ut NO NO NO NO 0 0 0 0 null_event EVENT_CLEAN zero_mi 0 0 NO NO 0 2 1 0 (zeros 16).
Definition boot_ot : oled_task := mk_ot NO 0 NO 0 0 0xFF 0 0 (c_str " "%string ++ zeros 4).
Definition boot_fw (h : heap) (m : module_info) : fw :=
  mk_fw m (zeros 64) [] (mk_rx 0 NO (zeros 100)) (mk_rx 0 NO (zeros 100)) NO 0 null_event EVENT_CLEAN
    0 (mk_page 0 0 0 0) NO 0 RES_NULL 0 blank_lcd (mk_flash (λ _, 0xFF) true) h boot_ut boot_ot [].
