(* ===== verification/Invariant.v ===== *)
(** The invariant of the firmware's shared state, and that the accessors and the
    outputs of State.v keep it. *)
From Stdlib Require Import String.
From stdpp Require Import sets.
From S2P Require Import Prelude Mem MemLayout MemHeap Buffers Flash Fonts Display State.

(** ** The invariant *)

(** The cursor of the page on the screen: before the first page it is all zero, from
    then on it counts from 1 to the page's last entry. *)
Definition cursor_ok (p : type_page_t) : Prop :=
  (cusor_home p = 0 ∧ cusor p = 0 ∧ cusor_max p = 0) ∨
  (cusor_home p = 1 ∧ 1 ≤ cusor p ≤ cusor_max p ∧ cusor_max p ≤ 4).
#[export] Instance cursor_ok_dec p : Decision (cursor_ok p).
Proof. unfold cursor_ok. apply _. Defined.

(** The page stacks of the menu: the byte on top is the page shown, below it the
    pages it was reached through, HOME at the bottom. *)
Definition page_stacks : list Z :=
  [ HOME_PAGE;
    SETTING_PAGE;
    0x100 * SETTING_PAGE + ONEKEY_MATCH_PAGE;
    0x100 * SETTING_PAGE + SELECT_MODE_PAGE;
    0x100 * SETTING_PAGE + LEARN_MODE_PAGE;
    0x100 * SETTING_PAGE + TEST_PAGE;
    0x10000 * SETTING_PAGE + 0x100 * LEARN_MODE_PAGE + LEARN_ON_PAGE;
    0x10000 * SETTING_PAGE + 0x100 * LEARN_MODE_PAGE + LEARN_OFF_PAGE ].
Definition stack_ok (pi : Z) : Prop := pi ∈ page_stacks.

(** An event whose handling calls back carries a function to call. *)
Definition event_ok (e : infrared_event_t) : Prop :=
  match event e with
  | EVENT_SEND_MATCH | EVENT_SEND_SAVE => ev_call_back e = matchCallBack_p
  | EVENT_SEND_LEARN_MODE_ON | EVENT_SEND_LEARN_MODE_OFF => ev_call_back e = learnCallBack_p
  | _ => True
  end.

(** A receive buffer with a message in it. *)
Definition rx_ok (m : rx_msg) : Prop :=
  zlen (rx_data m) = UART_MSG_SIZE ∧ Forall is_u8 (rx_data m) ∧
  0 ≤ rx_size m ≤ UART_MSG_SIZE.

(** The largest brand code with at most four decimal digits. *)
Definition BRAND_MAX : Z := 9999.

(** What the chip's match reply, seven bytes long, may say: bytes 4 and 5 hold the
    brand code. *)
Definition brand_in (data : list Z) : Prop :=
  ∀ h l, data !! 4%nat = Some h → data !! 5%nat = Some l → 256 * h + l ≤ BRAND_MAX.

(** The accesses that leave their object: the two of [initModuleInfo] to the ten bytes at
    [getModuleInfo() + 2], and the copy of eight bytes from the address of a pointer. *)
Definition known_overrun (o : overrun) : Prop :=
  o = mk_overrun module_info_object 24 10 false ∨ o = mk_overrun module_info_object 24 10 true ∨
  o = mk_overrun recv_object 0 8 false.

(** The heap's division into blocks, which every turn of a task restores. *)
Class HeapShape := heap_shape_now : heap_shape.

Record fw_inv `{HeapShape} (s : fw) : Prop := mk_inv {
  inv_heap : heap_is (fw_heap s) heap_shape_now;
  inv_lcd : lcd_wf (fw_lcd s);
  inv_cursor : cursor_ok (pageSelect s);
  inv_stack : stack_ok (pageInfor s);
  inv_show : c_string (sm_show (fw_ot s)) ∧ zlen (sm_show (fw_ot s)) = 6;
  inv_temp : 0 ≤ nowTemp s ≤ 30;
  inv_event : event_ok (infrared_event s);
  inv_ut_event : event_ok (ut_event (fw_ut s));
  inv_mi : mi_wf (fw_mi s);
  inv_brand : event (infrared_event s) = EVENT_SEND_SAVE ∨ event (ut_event (fw_ut s)) = EVENT_SEND_SAVE →
    mi_brand_code (fw_mi s) ≤ BRAND_MAX;
  inv_rx1 : rx_ok (fw_uart1 s);
  inv_rx2 : rx_ok (fw_uart2 s) ∧ (rx_size (fw_uart2 s) = 7 → brand_in (rx_data (fw_uart2 s)));
  inv_ut_data : zlen (ut_data (fw_ut s)) = 16;
  inv_over : Forall known_overrun (fw_over s);
}.

(** An update of the state keeps the invariant field by field. *)
Ltac inv_update :=
  apply preserves_modify; let s := fresh "s" in let Hs := fresh "Hs" in
  intros s Hs; destruct Hs; constructor; unfold upd; cbn [fw_mi fw_uart1 fw_uart2 switchState nowTemp
    infrared_event mater_envent pageInfor pageSelect reflash_flag backlightTime matchRes
    led_test_state fw_lcd fw_flash fw_heap fw_ut fw_ot fw_trace fw_beyond fw_over]; try assumption.

Lemma emit_inv `{HeapShape} e : preserves fw_inv (emit e).
Proof. inv_update. Qed.
#[export] Hint Resolve emit_inv : preserves.

Lemma access_inv `{HeapShape} o first n w :
  known_overrun (mk_overrun o first n w) → preserves fw_inv (access o first n w).
Proof. intros Ho. unfold access. apply preserves_when. intros _. inv_update. by apply Forall_cons. Qed.

Lemma getModuleInfo_inv `{HeapShape} : preserves fw_inv getModuleInfo.
Proof. apply preserves_gets. Qed.
Lemma getInfraredEvent_inv `{HeapShape} : preserves fw_inv getInfraredEvent.
Proof. apply preserves_gets. Qed.
Lemma getMasterEvent_inv `{HeapShape} : preserves fw_inv getMasterEvent.
Proof. apply preserves_gets. Qed.
#[export] Hint Resolve getModuleInfo_inv getInfraredEvent_inv getMasterEvent_inv : preserves.

Lemma device_write_inv `{HeapShape} d bs : preserves fw_inv (rt_device_write d bs).
Proof. apply emit_inv. Qed.
Lemma pin_write_inv `{HeapShape} p h : preserves fw_inv (rt_pin_write p h).
Proof. apply emit_inv. Qed.
Lemma mdelay_inv `{HeapShape} n : preserves fw_inv (rt_thread_mdelay n).
Proof. apply emit_inv. Qed.
Lemma setSwitchState_inv `{HeapShape} v : preserves fw_inv (setSwitchState v).
Proof. inv_update. Qed.
Lemma setNowTemp_inv `{HeapShape} v : 0 ≤ v ≤ 30 → preserves fw_inv (setNowTemp v).
Proof. intros. inv_update. Qed.
Lemma setinfraredEvent_inv `{HeapShape} e :
  event_ok e → event e ≠ EVENT_SEND_SAVE → preserves fw_inv (setinfraredEvent e).
Proof. intros. inv_update. intros [?|?]; [done|auto]. Qed.
Lemma setMasterEvent_inv `{HeapShape} e : preserves fw_inv (setMasterEvent e).
Proof. inv_update. Qed.
Lemma setModuleInfo_inv `{HeapShape} f :
  (∀ m, mi_wf m → mi_wf (f m)) →
  (∀ m, mi_brand_code (f m) = mi_brand_code m) →
  preserves fw_inv (setModuleInfo f).
Proof. intros Hf Hb. inv_update; [auto|]. by rewrite Hb. Qed.
#[export] Hint Resolve device_write_inv pin_write_inv mdelay_inv setSwitchState_inv
  setMasterEvent_inv : preserves.

Lemma setNowTemp_ctrl_inv `{HeapShape} c : preserves fw_inv (setNowTemp (getTempByCtrl c)).
Proof. apply setNowTemp_inv. pose proof (getTempByCtrl_range c). lia. Qed.
#[export] Hint Resolve setNowTemp_ctrl_inv : preserves.

Lemma LED_TEST_inv `{HeapShape} : preserves fw_inv LED_TEST.
Proof. unfold LED_TEST. preserves_all. inv_update. Qed.
Lemma LED_ON_inv `{HeapShape} : preserves fw_inv LED_ON.
Proof. apply pin_write_inv. Qed.
#[export] Hint Resolve LED_TEST_inv LED_ON_inv : preserves.

(** Leaving a page leads to a page of the menu. *)
Lemma stack_return pi : stack_ok pi → stack_ok (Z.shiftr pi 8).
Proof.
  unfold stack_ok, page_stacks. rewrite !list_elem_of_In. cbn [In].
  intros H. repeat destruct H as [<-|H]; [..|done]; vm_compute; tauto.
Qed.

Lemma pageReturn_inv `{HeapShape} : preserves fw_inv pageReturn.
Proof. unfold pageReturn. inv_update. by apply stack_return. Qed.
#[export] Hint Resolve pageReturn_inv : preserves.

Lemma sendMessage_inv `{HeapShape} bs len : 0 ≤ len ≤ zlen bs → preserves fw_inv (sendMessageToMaster bs len).
Proof.
  intros. unfold sendMessageToMaster. preserves_all. apply preserves_lift.
  rewrite load_bytes_in by lia. done.
Qed.

(** A drawing routine that keeps the display's shape keeps the firmware's invariant. *)
Lemma zoom_lcd_inv `{HeapShape} {A} (m : prog lcd A) : preserves lcd_wf m → preserves fw_inv (zoom fw_lcd m).
Proof.
  intros Hm. apply (preserves_zoom _ _ lcd_wf); [done|by intros s []|].
  intros s d [] Hd. constructor; unfold upd; cbn [fw_mi fw_uart1 fw_uart2 switchState nowTemp
    infrared_event mater_envent pageInfor pageSelect fw_lcd fw_heap fw_ut fw_ot]; done.
Qed.

(** ** Strings and fonts of the pages *)

Lemma c_str_ok s n : Forall printable (chars s) → c_string (c_str s ++ zeros n).
Proof. intros Hs. exists (chars s), (zeros n). unfold c_str. by rewrite <- app_assoc. Qed.
Lemma c_str_lit s : Forall printable (chars s) → c_string (c_str s).
Proof. intros Hs. exists (chars s), []. done. Qed.

Lemma Font_8x16_ok : font_ok Font_8x16.
Proof. by vm_compute. Qed.
Lemma Font_6x12_ok : font_ok Font_6x12.
Proof. by vm_compute. Qed.
Lemma Font_16x32_ok : font_ok Font_16x32.
Proof. by vm_compute. Qed.
Lemma Font_5x7_ok : font_ok Font_5x7.
Proof. by vm_compute. Qed.

(** The boot state satisfies the invariant. *)
Lemma boot_inv `{HeapShape} h m : heap_is h heap_shape_now → mi_wf m → fw_inv (boot_fw h m).
Proof.
  intros Hh Hm. constructor; cbn; try done.
  all: try by intros [?|?].
  - apply blank_lcd_wf.
  - by left.
  - by left.
  - split; [|done]. exists [32], (zeros 4). split; [done|]. repeat constructor; done.
  - split; [done|]. split; [|done]. by apply (bool_decide_unpack _).
  - split; [split; [done|]; split; [|done]; by apply (bool_decide_unpack _)|].
    done.
Qed.

(** A heap that has just been set up. *)
Definition started_shape : heap_shape := mk_shape (heap_ptr started) (mem_size_aligned started) [mk_block false 372].
Lemma started_is : heap_is started started_shape.
Proof. split; [reflexivity..|exact started_rep]. Qed.
Lemma booted_inv m : mi_wf m → @fw_inv started_shape (boot_fw started m).
Proof. apply boot_inv, started_is. Qed.
#[global] Opaque started.
