(* ===== verification/Infrared.v ===== *)
(** The link to the air-conditioner code-library chip: the frames of infrared.c. *)
From S2P Require Import Prelude Mem MemHeap Buffers Crc Flash Fonts Display State Invariant.

(** ** Frames *)

(** The common shape of the senders: an automatic array of [n] zeroed bytes, a run of
    assignments, the check byte in the last place, one write to the device. *)
Definition send_frame (device : uart) (n : Z) (ws : list (Z * Z)) : prog fw unit :=
  data ← lift (stores (zeros (Z.to_nat n)) ws);
  c ← lift (checkResult data (n - 1));
  data ← lift (store data (n - 1) c);
  rt_device_write device data.

Definition sendMatchDataToCodeData (device : uart) : prog fw unit :=
  data ← lift (stores (zeros 10)
    [(0, 0xAA); (1, 0x55); (2, 0x07); (3, 0x82); (4, 0x00); (5, 0x00); (6, 0x00);
     (7, 0x00); (8, 0x01); (9, 0x7B)]);
  rt_device_write device data.

Definition sendSaveCommandToCodeData (device : uart) : prog fw unit :=
  mi ← getModuleInfo;
  send_frame device 12
    [(0, 0xAA); (1, 0x55); (2, 0x09); (3, 0x91);
     (4, u8 (Z.shiftr (mi_brand_code mi) 8)); (5, u8 (mi_brand_code mi));
     (6, 0x00); (7, 0x82); (8, 0x21); (9, 0x99); (10, 0x07)].

Definition sendMatchOnTest (device : uart) : prog fw unit :=
  mi ← getModuleInfo;
  send_frame device 12
    [(0, 0xAA); (1, 0x55); (2, 0x09); (3, 0x00); (4, 0x00);
     (5, u8 (Z.shiftr (mi_brand_code mi) 8)); (6, u8 (mi_brand_code mi));
     (7, 0xE0); (8, 0x00); (9, 0x00); (10, 0x00)];;
  setSwitchState YES;;
  let ctr := 0xE000 in
  setModuleInfo (λ m, m <| mi_ctrl := ctr |>);;
  setNowTemp (getTempByCtrl ctr).

Definition sendMatchOffTest (device : uart) : prog fw unit :=
  mi ← getModuleInfo;
  send_frame device 12
    [(0, 0xAA); (1, 0x55); (2, 0x09); (3, 0x00); (4, 0x00);
     (5, u8 (Z.shiftr (mi_brand_code mi) 8)); (6, u8 (mi_brand_code mi));
     (7, 0x60); (8, 0x00); (9, 0x00); (10, 0x00)];;
  setSwitchState NO;;
  let ctr := 0x6000 in
  setModuleInfo (λ m, m <| mi_ctrl := ctr |>);;
  setNowTemp (getTempByCtrl ctr).

Definition sendlearnOn (device : uart) : prog fw unit :=
  send_frame device 10
    [(0, 0xAA); (1, 0x55); (2, 0x07); (3, 0x84); (4, 0x00); (5, 0x00); (6, 0x00);
     (7, 0x00); (8, 0x01)];;
  setSwitchState YES;;
  let ctr := 0xE000 in
  setModuleInfo (λ m, m <| mi_ctrl := ctr |>);;
  setNowTemp (getTempByCtrl ctr).

Definition sendlearnOff (device : uart) : prog fw unit :=
  send_frame device 10
    [(0, 0xAA); (1, 0x55); (2, 0x07); (3, 0x84); (4, 0x00); (5, 0x00); (6, 0x00);
     (7, 0x01); (8, 0x01)];;
  setSwitchState NO;;
  let ctr := 0x6000 in
  setModuleInfo (λ m, m <| mi_ctrl := ctr |>);;
  setNowTemp (getTempByCtrl ctr).

Definition sendInLearnOnMode (device : uart) : prog fw unit :=
  send_frame device 10
    [(0, 0xAA); (1, 0x55); (2, 0x07); (3, 0x80); (4, 0x00); (5, 0x00); (6, 0x00);
     (7, 0x00); (8, 0x01)].

Definition sendInLearnOffMode (device : uart) : prog fw unit :=
  send_frame device 10
    [(0, 0xAA); (1, 0x55); (2, 0x07); (3, 0x80); (4, 0x00); (5, 0x00); (6, 0x00);
     (7, 0x01); (8, 0x01)].

Definition sendMatchOver (device : uart) : prog fw unit :=
  send_frame device 10
    [(0, 0xAA); (1, 0x55); (2, 0x07); (3, 0x81); (4, 0x00); (5, 0x00); (6, 0x00);
     (7, 0x00); (8, 0x01)].

Definition sendLearnOnOver (device : uart) : prog fw unit :=
  send_frame device 10
    [(0, 0xAA); (1, 0x55); (2, 0x07); (3, 0x81); (4, 0x00); (5, 0x00); (6, 0x00);
     (7, 0x00); (8, 0x01)].

Definition sendLearnOffOver (device : uart) : prog fw unit :=
  send_frame device 10
    [(0, 0xAA); (1, 0x55); (2, 0x07); (3, 0x81); (4, 0x00); (5, 0x00); (6, 0x00);
     (7, 0x00); (8, 0x01)].

Definition sendCtrlCommandToCodeData (device : uart) : prog fw unit :=
  mi ← getModuleInfo;
  if decide (SELECT_MATCH = mi_select mi) then
    send_frame device 12
      [(0, 0xAA); (1, 0x55); (2, 0x09); (3, 0x00); (4, 0x00);
       (5, u8 (Z.shiftr (mi_brand_code mi) 8)); (6, u8 (mi_brand_code mi));
       (7, u8 (Z.shiftr (mi_ctrl mi) 8)); (8, u8 (mi_ctrl mi)); (9, 0x00); (10, 0x00)];;
    setSwitchState (if decide (Z.land (mi_ctrl mi) 0x8000 > 0) then YES else NO);;
    setNowTemp (getTempByCtrl (mi_ctrl mi))
  else if decide (SELECT_LEARN = mi_select mi) then
    if decide (Z.land (mi_ctrl mi) 0x8000 > 0) then sendlearnOn device else sendlearnOff device
  else mret tt.

(** ** Replies *)

(** [struct codeDataRecv]: a u16 and five bytes, padded to eight. *)
Record type_codedata_recv := mk_recv {
  start_code : Z; rcv_len : Z; command : Z; static_code : Z; state_code : Z; check : Z;
}.
Definition SIZEOF_CODEDATA_RECV : Z := 8.
Definition SIZEOF_RECV_MATCH : Z := 7.

Definition codedata_of_bytes (bs : list Z) : outcome type_codedata_recv :=
  match bs with
  | [s0; s1; l; c; f; st; k; _] => Ok (mk_recv (le_value [s0; s1]) l c f st k)
  | _ => Fault OutOfBounds
  end.

(** [codeDataRecvResult]: the [rt_memcpy] starts at [&recv], so the struct is filled
    from the stack: the four bytes of the pointer itself and the four behind it. *)
Definition codeDataRecvResult (recv : Z) (stack : list Z) : prog fw Z :=
  access recv_object 0 SIZEOF_CODEDATA_RECV false;;
  src ← lift (load_bytes (le_bytes 4 recv ++ stack) 0 SIZEOF_CODEDATA_RECV);
  code_recv ← lift (codedata_of_bytes src);
  mret (if decide (START_CODE = start_code code_recv) then
    if decide (0x40 = command code_recv) then
      let st := state_code code_recv in
      if decide (st = CODE_RECV_FAIL) then CODE_RECV_FAIL
      else if decide (st = CODE_RECV_SUCCESS) then CODE_RECV_SUCCESS
      else if decide (st = CODE_RECV_TIMEOUT) then CODE_RECV_TIMEOUT
      else 0
    else 0
  else 0).

(** ** The command language of the chip, independent of the senders *)

(** What the firmware can ask of the chip. *)
Inductive ir_command : Set :=
  | StartMatch
  | SaveBrand (brand : Z)
  | Control (brand ctrl : Z)
  | SendLearned (off : bool)
  | EnterLearn (off : bool)
  | LeaveMode.
#[export] Instance ir_command_eq_dec : EqDecision ir_command.
Proof. solve_decision. Defined.

Definition ir_command_wf (c : ir_command) : Prop :=
  match c with
  | SaveBrand b => is_u16 b
  | Control b k => is_u16 b ∧ is_u16 k
  | _ => True
  end.

Definition hi (x : Z) : Z := u8 (Z.shiftr x 8).
Definition lo (x : Z) : Z := u8 x.

(** A frame: preamble, length of what follows, command byte, payload, exclusive or. *)
Definition framed (cmd : Z) (payload : list Z) : list Z :=
  let body := [0xAA; 0x55; zlen payload + 2; cmd] ++ payload in
  body ++ [xor_sum body].

Definition encode (c : ir_command) : list Z :=
  match c with
  | StartMatch => framed 0x82 [0; 0; 0; 0; 1]
  | SaveBrand b => framed 0x91 [hi b; lo b; 0; 0x82; 0x21; 0x99; 0x07]
  | Control b k => framed 0x00 [0; hi b; lo b; hi k; lo k; 0; 0]
  | SendLearned off => framed 0x84 [0; 0; 0; (if off then 1 else 0); 1]
  | EnterLearn off => framed 0x80 [0; 0; 0; (if off then 1 else 0); 1]
  | LeaveMode => framed 0x81 [0; 0; 0; 0; 1]
  end.

(** What a receiver makes of a frame: preamble, length and check are verified. *)
Definition decode (bs : list Z) : option ir_command :=
  if decide (xor_sum bs = 0) then
    match bs with
    | 0xAA :: 0x55 :: len :: cmd :: rest =>
        if decide (len = zlen rest + 1) then
          match cmd, rest with
          | 0x82, [0; 0; 0; 0; 1; _] => Some StartMatch
          | 0x91, [h; l; 0; 0x82; 0x21; 0x99; 0x07; _] => Some (SaveBrand (256 * h + l))
          | 0x00, [0; h; l; kh; kl; 0; 0; _] => Some (Control (256 * h + l) (256 * kh + kl))
          | 0x84, [0; 0; 0; k; 1; _] => Some (SendLearned (bool_decide (k ≠ 0)))
          | 0x80, [0; 0; 0; k; 1; _] => Some (EnterLearn (bool_decide (k ≠ 0)))
          | 0x81, [0; 0; 0; 0; 1; _] => Some LeaveMode
          | _, _ => None
          end
        else None
    | _ => None
    end
  else None.

Lemma hi_lo x : is_u16 x → 256 * hi x + lo x = x.
Proof. unfold hi, lo, is_u16, u8. rewrite shiftr8_div. lia. Qed.

Lemma decode_encode c : ir_command_wf c → decode (encode c) = Some c.
Proof.
  intros Hc. unfold decode. rewrite decide_True.
  - destruct c as [|b|b k|off|off|]; cbn in Hc |- *; try done.
    + by rewrite hi_lo.
    + destruct Hc. by rewrite !hi_lo.
    + by destruct off.
    + by destruct off.
  - destruct c; apply xor_sum_checked.
Qed.

Lemma framed_u8 cmd payload :
  is_u8 cmd → Forall is_u8 payload → zlen payload ≤ 253 → Forall is_u8 (framed cmd payload).
Proof.
  intros Hc Hp Hl. unfold framed. set (body := _ ++ payload).
  assert (Forall is_u8 body) as Hb.
  { repeat (apply Forall_cons; [try done|]); [unfold is_u8, zlen in *; lia|done]. }
  apply Forall_app_2; [done|]. apply Forall_cons; [by apply xor_sum_u8|apply Forall_nil_2].
Qed.

(** ** The senders send these commands *)

(** The program ends, has written one frame to [device] and has otherwise done [f]. *)
Definition sends (device : uart) (c : fw → ir_command) (f : fw → fw) (m : prog fw unit) : Prop :=
  ∀ s, mi_wf (fw_mi s) →
    m s = Ok (tt, f s <| fw_trace := DeviceWrite device (encode (c s)) :: fw_trace s |>).

Lemma send_frame_ok device n ws body s :
  stores (zeros (Z.to_nat n)) ws = Ok (body ++ [0]) → zlen body = n - 1 → Forall is_u8 body →
  send_frame device n ws s =
    Ok (tt, s <| fw_trace := DeviceWrite device (body ++ [xor_sum body]) :: fw_trace s |>).
Proof.
  intros Hst Hlen Hu. unfold send_frame, mbind, prog_bind, lift. rewrite Hst. cbn iota beta.
  rewrite checkResult_ok.
  2: { unfold zlen in *. rewrite length_app. cbn. lia. }
  2: { apply Forall_app_2; [done|]. by apply Forall_cons. }
  replace (take (Z.to_nat (n - 1)) (body ++ [0])) with body
    by (rewrite take_app_length' by (unfold zlen in *; lia); done).
  rewrite store_in by (unfold zlen in *; rewrite length_app; cbn; lia).
  rewrite insert_app_r_alt by (unfold zlen in *; lia).
  replace (Z.to_nat (n - 1) - length body)%nat with 0%nat by (unfold zlen in *; lia).
  done.
Qed.

Lemma send_command device n ws cmd payload s :
  stores (zeros (Z.to_nat n)) ws = Ok (([0xAA; 0x55; zlen payload + 2; cmd] ++ payload) ++ [0]) →
  zlen payload = n - 5 → n ≤ 256 → is_u8 cmd → Forall is_u8 payload →
  send_frame device n ws s =
    Ok (tt, s <| fw_trace := DeviceWrite device (framed cmd payload) :: fw_trace s |>).
Proof.
  intros Hst Hlen Hn Hc Hp. unfold framed. cbv zeta. apply send_frame_ok; [done| |].
  - unfold zlen in *. rewrite length_app. cbn. lia.
  - repeat (apply Forall_cons; [try done|]); [unfold is_u8, zlen in *; lia|done].
Qed.

Ltac frame_bytes :=
  repeat (apply Forall_cons; [solve [apply u8_range | done]|]); apply Forall_nil_2.

(** The effect of the frames that switch the air conditioner on or off. *)
Definition after_switch (on : bool) (s : fw) : fw :=
  let ctr := if on then 0xE000 else 0x6000 in
  s <| switchState := if on then YES else NO |>
    <| fw_mi := fw_mi s <| mi_ctrl := ctr |> |>
    <| nowTemp := getTempByCtrl ctr |>.

Lemma sendMatchData_sends dev : sends dev (λ _, StartMatch) id (sendMatchDataToCodeData dev).
Proof. intros s _. by destruct s. Qed.

Lemma sendSave_sends dev :
  sends dev (λ s, SaveBrand (mi_brand_code (fw_mi s))) id (sendSaveCommandToCodeData dev).
Proof. intros s _. unfold encode, hi, lo. apply send_command; [done..|frame_bytes]. Qed.

Lemma sendMatchTest_sends dev (on : bool) :
  sends dev (λ s, Control (mi_brand_code (fw_mi s)) (if on then 0xE000 else 0x6000)) (after_switch on)
    (if on then sendMatchOnTest dev else sendMatchOffTest dev).
Proof.
  intros s _. unfold encode, hi, lo. set (bc := mi_brand_code (fw_mi s)).
  destruct on; unfold sendMatchOnTest, sendMatchOffTest, getModuleInfo, gets, mbind, prog_bind;
    fold bc; cbv beta iota;
    [erewrite (send_command _ _ _ 0x00 [0; u8 (Z.shiftr bc 8); u8 bc; 0xE0; 0; 0; 0])
    |erewrite (send_command _ _ _ 0x00 [0; u8 (Z.shiftr bc 8); u8 bc; 0x60; 0; 0; 0])];
    try done; try frame_bytes; by destruct s.
Qed.

Lemma sendlearn_sends dev (on : bool) :
  sends dev (λ _, SendLearned (negb on)) (after_switch on)
    (if on then sendlearnOn dev else sendlearnOff dev).
Proof.
  intros s _. unfold encode. destruct on; unfold sendlearnOn, sendlearnOff, mbind, prog_bind;
    [rewrite (send_command _ _ _ 0x84 [0; 0; 0; 0; 1])
    |rewrite (send_command _ _ _ 0x84 [0; 0; 0; 1; 1])];
    try done; try frame_bytes; by destruct s.
Qed.

Lemma sendInLearn_sends dev (off : bool) :
  sends dev (λ _, EnterLearn off) id
    (if off then sendInLearnOffMode dev else sendInLearnOnMode dev).
Proof.
  intros s _. unfold encode. destruct off; apply send_command; (done || frame_bytes).
Qed.

Lemma sendOver_sends dev (m : prog fw unit) :
  m = sendMatchOver dev ∨ m = sendLearnOnOver dev ∨ m = sendLearnOffOver dev →
  sends dev (λ _, LeaveMode) id m.
Proof.
  intros Hm s _. unfold encode.
  destruct Hm as [-> | [-> | ->]]; apply send_command; (done || frame_bytes).
Qed.

Lemma testbit_15 c : is_u16 c → bool_decide (Z.land c 0x8000 > 0) = Z.testbit c 15.
Proof.
  intros Hc. rewrite <- (land_bit_neq_0 c 15) by lia. apply bool_decide_ext.
  change (Z.shiftl 1 15) with 0x8000. pose proof (proj2 (Z.land_nonneg c 0x8000)). lia.
Qed.

(** The state after [sendCtrlCommandToCodeData], frame aside. *)
Definition after_control (s : fw) : fw :=
  let on := Z.testbit (mi_ctrl (fw_mi s)) 15 in
  if decide (mi_select (fw_mi s) = SELECT_MATCH) then
    s <| switchState := if on then YES else NO |>
      <| nowTemp := getTempByCtrl (mi_ctrl (fw_mi s)) |>
  else after_switch on s.

Definition control_command (s : fw) : ir_command :=
  if decide (mi_select (fw_mi s) = SELECT_MATCH)
  then Control (mi_brand_code (fw_mi s)) (mi_ctrl (fw_mi s))
  else SendLearned (negb (Z.testbit (mi_ctrl (fw_mi s)) 15)).

Lemma sendCtrl_ok dev s :
  mi_wf (fw_mi s) →
  sendCtrlCommandToCodeData dev s =
    if decide (mi_select (fw_mi s) = SELECT_MATCH ∨ mi_select (fw_mi s) = SELECT_LEARN)
    then Ok (tt, after_control s
                   <| fw_trace := DeviceWrite dev (encode (control_command s)) :: fw_trace s |>)
    else Ok (tt, s).
Proof.
  intros Hwf. pose proof Hwf as (_&_&_&_&_&_&Hk&_).
  pose proof (testbit_15 _ Hk) as Hon.
  unfold sendCtrlCommandToCodeData, getModuleInfo, gets, mbind, prog_bind. cbv beta iota.
  unfold after_control, control_command. set (k := mi_ctrl (fw_mi s)) in *.
  set (bc := mi_brand_code (fw_mi s)).
  destruct (decide (mi_select (fw_mi s) = SELECT_MATCH)) as [Hm|Hm].
  - rewrite (decide_True (P := SELECT_MATCH = _)), (decide_True (P := _ ∨ _)) by auto.
    rewrite (send_command _ _ _ 0x00
      [0; u8 (Z.shiftr bc 8); u8 bc; u8 (Z.shiftr k 8); u8 k; 0; 0]);
      [|done|done|done|done|frame_bytes].
    rewrite <- Hon. fold k. destruct (decide (Z.land k 0x8000 > 0)) as [Hgt|Hgt];
      [rewrite bool_decide_true by done|rewrite bool_decide_false by done]; by destruct s.
  - rewrite (decide_False (P := SELECT_MATCH = _)) by auto.
    destruct (decide (mi_select (fw_mi s) = SELECT_LEARN)) as [Hl|Hl].
    + rewrite (decide_True (P := SELECT_LEARN = _)), (decide_True (P := _ ∨ _)) by auto.
      rewrite <- Hon. destruct (decide (Z.land k 0x8000 > 0)).
      * rewrite bool_decide_true by done. by apply (sendlearn_sends dev true).
      * rewrite bool_decide_false by done. by apply (sendlearn_sends dev false).
    + rewrite (decide_False (P := SELECT_LEARN = _)) by auto.
      by rewrite (decide_False (P := _ ∨ _)) by tauto.
Qed.

(** ** The senders keep the firmware's invariant *)

Lemma sends_inv `{HeapShape} dev c f m :
  sends dev c f m → (∀ s, fw_inv s → fw_inv (f s)) → preserves fw_inv m.
Proof.
  intros Hm Hf s Hs. unfold wp. rewrite (Hm s (inv_mi s Hs)).
  pose proof (Hf s Hs) as Hfs. destruct Hfs. constructor; assumption.
Qed.

Lemma after_switch_inv `{HeapShape} on s : fw_inv s → fw_inv (after_switch on s).
Proof.
  intros []. constructor; unfold after_switch, upd; cbn [fw_mi fw_uart1 fw_uart2 switchState nowTemp
    infrared_event mater_envent pageInfor pageSelect fw_lcd fw_heap fw_ut fw_ot]; try assumption.
  - pose proof (getTempByCtrl_range (if on then 0xE000 else 0x6000)). lia.
  - unfold mi_wf in *; cbn. destruct inv_mi as (?&?&?&?&?&?&?&?&?). by destruct on.
Qed.

Lemma sendMatchData_inv `{HeapShape} dev : preserves fw_inv (sendMatchDataToCodeData dev).
Proof. by eapply sends_inv; [apply sendMatchData_sends|]. Qed.
Lemma sendSave_inv `{HeapShape} dev : preserves fw_inv (sendSaveCommandToCodeData dev).
Proof. by eapply sends_inv; [apply sendSave_sends|]. Qed.
Lemma sendMatchOn_inv `{HeapShape} dev : preserves fw_inv (sendMatchOnTest dev).
Proof. eapply sends_inv; [apply (sendMatchTest_sends dev true)|apply after_switch_inv]. Qed.
Lemma sendMatchOff_inv `{HeapShape} dev : preserves fw_inv (sendMatchOffTest dev).
Proof. eapply sends_inv; [apply (sendMatchTest_sends dev false)|apply after_switch_inv]. Qed.
Lemma sendlearnOn_inv `{HeapShape} dev : preserves fw_inv (sendlearnOn dev).
Proof. eapply sends_inv; [apply (sendlearn_sends dev true)|apply after_switch_inv]. Qed.
Lemma sendlearnOff_inv `{HeapShape} dev : preserves fw_inv (sendlearnOff dev).
Proof. eapply sends_inv; [apply (sendlearn_sends dev false)|apply after_switch_inv]. Qed.
Lemma sendInLearnOn_inv `{HeapShape} dev : preserves fw_inv (sendInLearnOnMode dev).
Proof. by eapply sends_inv; [apply (sendInLearn_sends dev false)|]. Qed.
Lemma sendInLearnOff_inv `{HeapShape} dev : preserves fw_inv (sendInLearnOffMode dev).
Proof. by eapply sends_inv; [apply (sendInLearn_sends dev true)|]. Qed.
Lemma sendMatchOver_inv `{HeapShape} dev : preserves fw_inv (sendMatchOver dev).
Proof. by eapply sends_inv; [apply sendOver_sends; auto|]. Qed.
Lemma sendLearnOnOver_inv `{HeapShape} dev : preserves fw_inv (sendLearnOnOver dev).
Proof. by eapply sends_inv; [apply sendOver_sends; auto|]. Qed.
Lemma sendLearnOffOver_inv `{HeapShape} dev : preserves fw_inv (sendLearnOffOver dev).
Proof. by eapply sends_inv; [apply sendOver_sends; auto|]. Qed.
#[export] Hint Resolve sendMatchData_inv sendSave_inv sendMatchOn_inv sendMatchOff_inv
  sendlearnOn_inv sendlearnOff_inv sendInLearnOn_inv sendInLearnOff_inv sendMatchOver_inv
  sendLearnOnOver_inv sendLearnOffOver_inv : preserves.

Lemma sendCtrl_inv `{HeapShape} dev : preserves fw_inv (sendCtrlCommandToCodeData dev).
Proof.
  intros s Hs. pose proof (sendCtrl_ok dev s (inv_mi s Hs)) as Hrun. unfold wp. rewrite Hrun.
  case_decide; [|done]. unfold after_control. case_decide.
  - destruct Hs. constructor; try assumption. unfold upd; cbn.
    pose proof (getTempByCtrl_range (mi_ctrl (fw_mi s))). lia.
  - pose proof (after_switch_inv (Z.testbit (mi_ctrl (fw_mi s)) 15) s Hs) as [].
    constructor; assumption.
Qed.
#[export] Hint Resolve sendCtrl_inv : preserves.

(** ** Properties *)

(** C22: each sender of infrared.c ends, writes exactly one frame to the device it is
    given, and a receiver that verifies preamble, length and check byte decodes
    that frame to the command meant, with the stored brand code in it. Apart from the frame
    the four senders that switch the air conditioner set switch state, control word and
    temperature to on (0xE000) or off (0x6000), and no other sender changes anything. *)
Theorem senders_understood dev s :
  mi_wf (fw_mi s) →
  let bc := mi_brand_code (fw_mi s) in
  let switched v ctr := s <| switchState := v |> <| fw_mi := fw_mi s <| mi_ctrl := ctr |> |>
                          <| nowTemp := getTempByCtrl ctr |> in
  Forall (λ '(m, c, t), ∃ bs, m s = Ok (tt, t <| fw_trace := DeviceWrite dev bs :: fw_trace s |>) ∧
            decode bs = Some c)
    [ (sendMatchDataToCodeData dev, StartMatch, s);
      (sendSaveCommandToCodeData dev, SaveBrand bc, s);
      (sendMatchOnTest dev, Control bc 0xE000, switched YES 0xE000);
      (sendMatchOffTest dev, Control bc 0x6000, switched NO 0x6000);
      (sendlearnOn dev, SendLearned false, switched YES 0xE000);
      (sendlearnOff dev, SendLearned true, switched NO 0x6000);
      (sendInLearnOnMode dev, EnterLearn false, s);
      (sendInLearnOffMode dev, EnterLearn true, s);
      (sendMatchOver dev, LeaveMode, s);
      (sendLearnOnOver dev, LeaveMode, s);
      (sendLearnOffOver dev, LeaveMode, s) ].
Proof.
  intros Hwf bc switched. pose proof Hwf as (_&_&_&_&_&Hb&_).
  assert (∀ c f m, sends dev c f m → ir_command_wf (c s) →
    ∃ bs, m s = Ok (tt, f s <| fw_trace := DeviceWrite dev bs :: fw_trace s |>) ∧ decode bs = Some (c s)) as Hs.
  { intros c f m Hm Hc. eexists. split; [by apply Hm|]. by apply decode_encode. }
  repeat constructor.
  - apply (Hs _ _ _ (sendMatchData_sends dev) I).
  - apply (Hs _ _ _ (sendSave_sends dev) Hb).
  - apply (Hs _ _ _ (sendMatchTest_sends dev true)). by split.
  - apply (Hs _ _ _ (sendMatchTest_sends dev false)). by split.
  - apply (Hs _ _ _ (sendlearn_sends dev true) I).
  - apply (Hs _ _ _ (sendlearn_sends dev false) I).
  - apply (Hs _ _ _ (sendInLearn_sends dev false) I).
  - apply (Hs _ _ _ (sendInLearn_sends dev true) I).
  - apply (Hs _ _ _ (sendOver_sends dev _ (or_introl eq_refl)) I).
  - apply (Hs _ _ _ (sendOver_sends dev _ (or_intror (or_introl eq_refl))) I).
  - apply (Hs _ _ _ (sendOver_sends dev _ (or_intror (or_intror eq_refl))) I).
Qed.

Lemma senders_understood_witness :
  let s := boot_fw started sample_mi in
  ∃ bs, sendMatchOnTest uart2 s =
      Ok (tt, s <| switchState := YES |> <| fw_mi := fw_mi s <| mi_ctrl := 0xE000 |> |>
                <| nowTemp := getTempByCtrl 0xE000 |> <| fw_trace := [DeviceWrite uart2 bs] |>) ∧
    decode bs = Some (Control 0x28 0xE000).
Proof.
  pose proof (senders_understood uart2 (boot_fw started sample_mi) ltac:(by vm_compute)) as H.
  cbn zeta in H. do 2 apply Forall_inv_tail in H. exact (Forall_inv H).
Defined.

(** C23: the control frame. In match mode it carries the stored brand code and control
    word, in learn mode the learned on or off key by the word's switch bit; either
    way the switch state and temperature shown on the home page are afterwards
    those of the control word, and in learn mode the word itself has become the
    plain on or off word. *)
Theorem control_frame dev s :
  mi_wf (fw_mi s) →
  mi_select (fw_mi s) = SELECT_MATCH ∨ mi_select (fw_mi s) = SELECT_LEARN →
  let on := Z.testbit (mi_ctrl (fw_mi s)) 15 in
  ∃ s' bs, sendCtrlCommandToCodeData dev s = Ok (tt, s') ∧
    fw_trace s' = DeviceWrite dev bs :: fw_trace s ∧
    decode bs = Some (if decide (mi_select (fw_mi s) = SELECT_MATCH)
                      then Control (mi_brand_code (fw_mi s)) (mi_ctrl (fw_mi s))
                      else SendLearned (negb on)) ∧
    switchState s' = (if on then YES else NO) ∧
    nowTemp s' = getTempByCtrl (mi_ctrl (fw_mi s')) ∧
    Z.testbit (mi_ctrl (fw_mi s')) 15 = on ∧
    mi_ctrl (fw_mi s') = (if decide (mi_select (fw_mi s) = SELECT_MATCH)
                          then mi_ctrl (fw_mi s) else if on then 0xE000 else 0x6000).
Proof.
  intros Hwf Hsel on. pose proof Hwf as (_&_&_&_&_&Hb&Hk&_).
  eexists _, _. split; [rewrite sendCtrl_ok by done; by rewrite decide_True|].
  split; [done|]. split.
  { rewrite decode_encode; [done|]. unfold control_command. case_decide; [by split|done]. }
  unfold after_control. fold on.
  destruct (decide (mi_select (fw_mi s) = SELECT_MATCH)); [done|]. by destruct on.
Qed.

Lemma control_frame_witness :
  ∃ s' bs, sendCtrlCommandToCodeData uart2 (boot_fw started sample_mi) = Ok (tt, s') ∧
    fw_trace s' = DeviceWrite uart2 bs :: [] ∧
    decode bs = Some (Control 0x28 0xE500) ∧
    switchState s' = YES ∧ nowTemp s' = 21.
Proof.
  destruct (control_frame uart2 (boot_fw started sample_mi)) as (s' & bs & H1 & H2 & H3 & H4 & H5 & _ & H7).
  - by vm_compute.
  - by left.
  - exists s', bs. split; [exact H1|]. split; [exact H2|]. split; [exact H3|].
    split; [exact H4|]. rewrite H5, H7. reflexivity.
Defined.


