(* ===== verification/Master.v ===== *)
(** The link to the hub (Modbus over UART 1): the register map, requests and replies
    of module.c, with the unique id of main.c. *)
From stdpp Require Import sets.
From S2P Require Import Prelude Mem MemLayout MemHeap Buffers Crc Flash Fonts Display State Invariant.

(** ** Blocks of the heap *)

(** [rt_malloc], with the block behind the pointer, and [rt_free], with what is in the block
    by then. *)
Definition alloc_buf (n : Z) : prog fw (option (Z * list Z)) := zoom fw_heap (alloc_block n).
Definition free_buf (p : Z) (b : list Z) : prog fw unit := zoom fw_heap (free_block p b).

Section module.
Context `{Chip}.

(** [ReadUniqueId] of main.c. *)
Definition ReadUniqueId : outcome Z :=
  data ← store_bytes (zeros 12) 0 (le_bytes 4 id1);
  data ← store_bytes data 4 (le_bytes 4 id2);
  data ← store_bytes data 8 (le_bytes 4 id3);
  crc32_cal data 12.

(** The two stores of a frame's CRC, low byte first. *)
Definition put_crc (buf : list Z) (n : Z) : outcome (list Z) :=
  c ← usModbusRTU_CRC buf n;
  buf ← store buf n (u8 c);
  c ← usModbusRTU_CRC buf n;
  store buf (n + 1) (u8 (Z.shiftr c 8)).

(** [data] is the sixteen-byte array of [UartTaskEntry]. *)
Definition sendRegisterToMaster (data : list Z) : prog fw (list Z) :=
  uuid ← lift ReadUniqueId;
  mi ← getModuleInfo;
  data ← lift (stores data
    [(0, REGISTER_CODE); (1, 0x00); (2, 0x00); (3, 0x00); (4, 0x00); (5, 0x00); (6, 0x06);
     (7, mi_addr mi); (8, INFRARED_TYPE);
     (9, u8 (Z.shiftr uuid 24)); (10, u8 (Z.shiftr uuid 16)); (11, u8 (Z.shiftr uuid 8));
     (12, u8 uuid)]);
  data ← lift (put_crc data 13);
  sendMessageToMaster data 15;;
  mret data.

(** ** Registers *)

Definition swap16 (x : Z) : Z := u16 (Z.lor (Z.shiftr x 8) (Z.shiftl x 8)).

Definition getRegister (addr : Z) : prog fw Z :=
  mi ← getModuleInfo;
  if decide (addr = REGISTER_LOCATION) then
    setModuleInfo (λ m, m <| mi_find_location := YES |>);; mret 0
  else if decide (addr = REGISTER_VERSION) then mret (mi_Version mi)
  else if decide (addr = REGISTER_UUID1) then
    id ← lift ReadUniqueId; mret (u16 (Z.shiftr id 16))
  else if decide (addr = REGISTER_UUID2) then
    id ← lift ReadUniqueId; mret (u16 id)
  else if decide (addr = REGISTER_ADDR) then mret (swap16 (mi_addr mi))
  else if decide (addr = REGISTER_TYPE) then mret (swap16 (mi_type mi))
  else if decide (addr = REGISTER_CTRL) then mret (swap16 (mi_ctrl mi))
  else mret 0.

Definition setRegister (addr data : Z) : prog fw unit :=
  if decide (addr = REGISTER_ADDR) then setModuleInfo (λ m, m <| mi_addr := u8 data |>)
  else if decide (addr = REGISTER_CTRL) then setModuleInfo (λ m, m <| mi_ctrl := data |>)
  else mret tt.

(** ** Replies and requests *)

Definition replyDataToMaster (rw : Z) (data : list Z) (reg len : Z) : prog fw unit :=
  buf ← alloc_buf (len + 3 + 2);
  match buf with
  | None => mret tt
  | Some (p, buf) =>
      mi ← getModuleInfo;
      buf ← (if decide (READ_MUTI = rw) then
        buf ← lift (stores buf [(0, mi_addr mi); (1, rw); (2, len)]);
        bs ← lift (load_bytes data 0 len);
        buf ← lift (store_bytes buf 3 bs);
        buf ← lift (put_crc buf (len + 3));
        sendMessageToMaster buf (u8 (len + 3 + 2));;
        mret buf
      else if decide (WRITE_SINGLE = rw) then
        buf ← lift (stores buf [(0, mi_addr mi); (1, rw); (2, u8 (Z.shiftr reg 8)); (3, u8 reg)]);
        bs ← lift (load_bytes data 0 len);
        buf ← lift (store_bytes buf 4 bs);
        buf ← lift (put_crc buf (len + 4));
        sendMessageToMaster buf (u8 (len + 4 + 2));;
        mret buf
      else mret buf);
      free_buf p buf
  end.

(** [replyData[index] = getRegister(temp + index)] for [num] registers. *)
Fixpoint read_registers (n : nat) (index temp : Z) (replyData : list Z) : prog fw (list Z) :=
  match n with
  | O => mret replyData
  | S n =>
      v ← getRegister (u16 (temp + index));
      replyData ← lift (store_bytes replyData (2 * index) (le_bytes 2 v));
      read_registers n (index + 1) temp replyData
  end.

Definition be16 (hi lo : Z) : Z := Z.lor (Z.shiftl hi 8) lo.

Definition analyzeMasterData (data : list Z) (size : Z) : prog fw Z :=
  d1 ← lift (load data 1);
  if decide (d1 = READ_MUTI) then
    num ← lift (load data 5);
    replyData ← alloc_buf (num * 2);
    match replyData with
    | None => mret RT_EOK
    | Some (p, replyData) =>
        d2 ← lift (load data 2);
        d3 ← lift (load data 3);
        replyData ← read_registers (Z.to_nat num) 0 (be16 d2 d3) replyData;
        replyDataToMaster READ_MUTI replyData 0 (u8 (num * 2));;
        free_buf p replyData;;
        mret RT_EOK
    end
  else if decide (d1 = WRITE_SINGLE) then
    if decide (8 = size) then
      d2 ← lift (load data 2);
      d3 ← lift (load data 3);
      let reg := be16 d2 d3 in
      d4 ← lift (load data 4);
      d5 ← lift (load data 5);
      setRegister reg (be16 d4 d5);;
      replyData ← alloc_buf 2;
      match replyData with
      | None => mret RT_EOK
      | Some (p, replyData) =>
          v ← getRegister reg;
          replyData ← lift (store_bytes replyData 0 (le_bytes 2 v));
          replyDataToMaster WRITE_SINGLE replyData reg 2;;
          free_buf p replyData;;
          mret RT_EOK
      end
    else mret RT_ERROR
  else mret RT_EOK.

End module.

(** ** Frames with a CRC *)

Definition with_crc (bs : list Z) : list Z := bs ++ le_bytes 2 (crc16 bs).

(** What one message leaves in the trace, latest first. *)
Definition message (bs : list Z) : list io_event :=
  [PinWrite UART1_EN false; DeviceWrite uart1 bs; PinWrite UART1_EN true].

Lemma store_at_app {A} (pre : list A) x v post i :
  i = zlen pre → store (pre ++ x :: post) i v = Ok (pre ++ v :: post).
Proof.
  intros ->. unfold zlen. rewrite store_in.
  - f_equal. rewrite insert_app_r_alt by lia.
    by replace (Z.to_nat (Z.of_nat (length pre)) - length pre)%nat with 0%nat by lia.
  - unfold zlen. rewrite length_app. cbn. lia.
Qed.

Lemma put_crc_ok bs x y rest :
  put_crc (bs ++ x :: y :: rest) (zlen bs) = Ok (with_crc bs ++ rest).
Proof.
  unfold put_crc, with_crc. cbn [le_bytes].
  assert (∀ tl, usModbusRTU_CRC (bs ++ tl) (zlen bs) = Ok (crc16 bs)) as Hc.
  { intros tl. rewrite usModbusRTU_CRC_ok; [|unfold zlen; rewrite length_app; lia].
    by rewrite take_app_length' by (unfold zlen; lia). }
  rewrite Hc. cbn [mbind outcome_bind]. rewrite store_at_app by done.
  cbn [mbind outcome_bind]. rewrite Hc. cbn [mbind outcome_bind].
  pose proof (store_at_app (bs ++ [u8 (crc16 bs)]) y (u8 (Z.shiftr (crc16 bs) 8)) rest
    (zlen bs + 1)) as Hs. rewrite <- !app_assoc in Hs. cbn [app] in Hs. rewrite Hs.
  - by rewrite <- app_assoc.
  - unfold zlen. rewrite length_app. cbn. lia.
Qed.

Lemma sendMessage_ok bs rest len s :
  len = zlen bs →
  sendMessageToMaster (bs ++ rest) len s =
    Ok (tt, s <| fw_trace := message bs ++ fw_trace s |>).
Proof.
  intros ->. unfold sendMessageToMaster, mbind, prog_bind, lift.
  rewrite load_bytes_in by (unfold zlen; rewrite ?length_app; lia).
  change (drop (Z.to_nat 0) ?l) with l.
  rewrite take_app_length' by (unfold zlen; lia). by destruct s.
Qed.

Lemma zlen_with_crc bs : zlen (with_crc bs) = zlen bs + 2.
Proof. unfold with_crc, zlen. rewrite length_app. cbn. lia. Qed.

(** Reading a reply back: the residue of its CRC is zero. *)
Lemma with_crc_valid bs : Forall is_u8 bs → crc16 (with_crc bs) = 0.
Proof. apply crc16_app_residue. Qed.

(** A run of assignments to consecutive cells. *)
Lemma stores_run {A} (pre old vs rest : list A) :
  length old = length vs →
  stores (pre ++ old ++ rest) (zip (seqZ (zlen pre) (zlen vs)) vs) = Ok (pre ++ vs ++ rest).
Proof.
  revert pre old. induction vs as [|v vs IH]; intros pre [|o old] Hl; cbn in Hl; try lia; [done|].
  rewrite seqZ_cons by (unfold zlen; cbn; lia). cbn [zip zip_with stores app].
  rewrite store_at_app by done. cbn [mbind outcome_bind].
  specialize (IH (pre ++ [v]) old ltac:(lia)). rewrite <- !app_assoc in IH. cbn [app] in IH.
  rewrite <- IH. do 2 f_equal. unfold zlen. rewrite length_app. cbn [length]. f_equal; lia.
Qed.

(** Header bytes, then the payload, in a fresh block. *)
Lemma header_payload (buf head bs : list Z) ws :
  ws = zip (seqZ 0 (zlen head)) head → zlen head + zlen bs ≤ zlen buf →
  (buf ← stores buf ws; store_bytes buf (zlen head) bs) =
    Ok (head ++ bs ++ drop (length head + length bs) buf).
Proof.
  intros -> Hl. unfold zlen in Hl.
  pose proof (stores_run [] (take (length head) buf) head (drop (length head) buf)) as Hs.
  cbn [app] in Hs. rewrite take_drop in Hs. change (zlen (@nil Z)) with 0 in Hs.
  rewrite Hs by (rewrite length_take; lia). cbn [mbind outcome_bind]. rewrite store_bytes_in.
  - f_equal. rewrite take_app_length' by (unfold zlen; lia). f_equal. f_equal.
    unfold zlen. rewrite Nat2Z.id, drop_app_ge by lia.
    rewrite drop_drop. f_equal. lia.
  - unfold zlen; lia.
  - unfold zlen. rewrite length_app, length_drop. lia.
Qed.

Lemma drop_two {A} n (l : list A) :
  (n + 2 ≤ length l)%nat → ∃ x y rest, drop n l = x :: y :: rest.
Proof.
  intros Hl. pose proof (length_drop l n) as Hd.
  destruct (drop n l) as [|x [|y rest]]; cbn in Hd; [lia|lia|eauto].
Qed.

(** ** The register map as the hub sees it *)

Section registers.
Context `{Chip}.

Definition uid_bytes : list Z := le_bytes 4 id1 ++ le_bytes 4 id2 ++ le_bytes 4 id3.
Definition unique_id : Z := crc32 uid_bytes.

Lemma ReadUniqueId_ok : ReadUniqueId = Ok unique_id.
Proof.
  assert (Forall is_u8 uid_bytes) as Hu by (repeat apply Forall_app_2; apply le_bytes_u8).
  pose proof (crc32_cal_ok uid_bytes 12 ltac:(unfold zlen; done) Hu) as Hc. exact Hc.
Qed.

Lemma read_registers_along (R : relation fw) `{!PreOrder R} n i temp b :
  (∀ a, along R (getRegister a)) → along R (read_registers n i temp b).
Proof.
  intros Hg. revert i b. induction n as [|n IH]; intros i b; cbn [read_registers]; [keeps_step|].
  keeps_step; [apply Hg|]. keeps_step; [keeps_step|]. apply IH.
Qed.

(** The registration message of a module with the address [addr]. *)
Definition registration (addr : Z) : list Z :=
  let id := unique_id in
  with_crc [REGISTER_CODE; 0; 0; 0; 0; 0; 6; addr; INFRARED_TYPE;
    u8 (Z.shiftr id 24); u8 (Z.shiftr id 16); u8 (Z.shiftr id 8); u8 id].

Lemma sendRegister_ok (data : list Z) s :
  zlen data = 16 →
  ∃ rest, zlen rest = 1 ∧ sendRegisterToMaster data s =
    Ok (registration (mi_addr (fw_mi s)) ++ rest,
        s <| fw_trace := message (registration (mi_addr (fw_mi s))) ++ fw_trace s |>).
Proof.
  intros Hlen. set (id := unique_id).
  set (head := [REGISTER_CODE; 0; 0; 0; 0; 0; 6; mi_addr (fw_mi s); INFRARED_TYPE;
    u8 (Z.shiftr id 24); u8 (Z.shiftr id 16); u8 (Z.shiftr id 8); u8 id]).
  pose proof (stores_run [] (take 13 data) head (drop 13 data)) as Hst.
  cbn [app] in Hst. rewrite take_drop in Hst.
  specialize (Hst ltac:(rewrite length_take; unfold zlen in Hlen; change (length head) with 13%nat; lia)).
  destruct (drop_two 13 data) as (x & y & rest & Hd); [unfold zlen in Hlen; lia|].
  rewrite Hd in Hst. exists rest. split.
  { apply (f_equal length) in Hd. rewrite length_drop in Hd. cbn in Hd. unfold zlen in *. lia. }
  unfold sendRegisterToMaster, mbind, prog_bind, lift. rewrite ReadUniqueId_ok.
  change (getModuleInfo s) with (@Ok (module_info * fw) (fw_mi s, s)). cbv beta iota.
  fold id. change (stores data _) with (stores data (zip (seqZ (zlen (@nil Z)) (zlen head)) head)).
  rewrite Hst. pose proof (put_crc_ok head x y rest) as Hc. change (zlen head) with 13 in Hc.
  rewrite Hc. change (registration (mi_addr (fw_mi s))) with (with_crc head).
  by rewrite (sendMessage_ok (with_crc head) rest 15).
Qed.

(** The value of a register, and whether reading it starts the locate flash. *)
Definition reg_value (mi : module_info) (a : Z) : Z :=
  if decide (a = REGISTER_LOCATION) then 0
  else if decide (a = REGISTER_VERSION) then mi_Version mi
  else if decide (a = REGISTER_UUID1) then u16 (Z.shiftr unique_id 16)
  else if decide (a = REGISTER_UUID2) then u16 unique_id
  else if decide (a = REGISTER_ADDR) then swap16 (mi_addr mi)
  else if decide (a = REGISTER_TYPE) then swap16 (mi_type mi)
  else if decide (a = REGISTER_CTRL) then swap16 (mi_ctrl mi)
  else 0.

Definition located (b : bool) (s : fw) : fw :=
  if b then s <| fw_mi := fw_mi s <| mi_find_location := YES |> |> else s.

Lemma getRegister_ok a s :
  getRegister a s =
    Ok (reg_value (fw_mi s) a, located (bool_decide (a = REGISTER_LOCATION)) s).
Proof.
  unfold getRegister, reg_value, getModuleInfo, gets, mbind, prog_bind. cbv beta iota.
  destruct (decide (a = REGISTER_LOCATION)) as [->|Hne]; [done|].
  rewrite (bool_decide_false (a = _)) by done. cbn [located].
  repeat (case_decide; [try done; unfold lift; by rewrite ReadUniqueId_ok|]). done.
Qed.

Lemma reg_value_located b s a : reg_value (fw_mi (located b s)) a = reg_value (fw_mi s) a.
Proof. by destruct b. Qed.

(** The bytes that [n] registers from [temp + i] put in the reply. *)
Definition read_values (mi : module_info) (temp i : Z) (n : nat) : list Z :=
  flat_map (λ j, le_bytes 2 (reg_value mi (u16 (temp + j)))) (seqZ i (Z.of_nat n)).
Definition reads_location (temp i : Z) (n : nat) : bool :=
  bool_decide (Exists (λ j, u16 (temp + j) = REGISTER_LOCATION) (seqZ i (Z.of_nat n))).

Lemma reads_location_S temp i n :
  reads_location temp i (S n) =
    bool_decide (u16 (temp + i) = REGISTER_LOCATION) || reads_location temp (i + 1) n.
Proof.
  unfold reads_location. rewrite seqZ_cons by lia.
  replace (Z.pred (Z.of_nat (S n))) with (Z.of_nat n) by lia. change (Z.succ i) with (i + 1).
  rewrite <- bool_decide_or. apply bool_decide_ext. by rewrite Exists_cons.
Qed.

Lemma read_registers_ok n i temp pre mid rest s :
  i * 2 = zlen pre → length mid = (2 * n)%nat →
  read_registers n i temp (pre ++ mid ++ rest) s =
    Ok (pre ++ read_values (fw_mi s) temp i n ++ rest, located (reads_location temp i n) s).
Proof.
  revert i pre mid s. induction n as [|n IH]; intros i pre mid s Hi Hm.
  { destruct mid; [done|cbn in Hm; lia]. }
  destruct mid as [|x [|y mid]]; cbn in Hm; try lia.
  cbn [read_registers]. unfold mbind, prog_bind. rewrite getRegister_ok. cbv beta iota.
  set (v := reg_value (fw_mi s) (u16 (temp + i))).
  unfold lift at 1. rewrite store_bytes_in.
  2: { unfold zlen in *. lia. }
  2: { unfold zlen in *. rewrite !length_app, length_le_bytes. cbn [length]. lia. }
  replace (Z.to_nat (2 * i)) with (length pre) by (unfold zlen in *; lia).
  rewrite take_app_length, length_le_bytes, drop_app_ge by lia.
  replace (length pre + 2 - length pre)%nat with 2%nat by lia. cbn [app drop].
  specialize (IH (i + 1) (pre ++ le_bytes 2 v) mid
    (located (bool_decide (u16 (temp + i) = REGISTER_LOCATION)) s)).
  rewrite <- !app_assoc in IH. cbv beta iota. rewrite drop_0, IH.
  - f_equal. f_equal.
    + f_equal. unfold read_values. rewrite (seqZ_cons i) by lia.
      replace (Z.pred (Z.of_nat (S n))) with (Z.of_nat n) by lia.
      change (Z.succ i) with (i + 1). cbn [flat_map]. fold v. rewrite <- app_assoc.
      f_equal. f_equal. apply flat_map_ext. intros j. by rewrite reg_value_located.
    + rewrite reads_location_S. by destruct (bool_decide (_ = _)), (reads_location _ _ _).
  - unfold zlen in *. rewrite length_app, length_le_bytes. lia.
  - lia.
Qed.

Lemma length_read_values mi temp i n : length (read_values mi temp i n) = (2 * n)%nat.
Proof.
  unfold read_values. revert i. induction n as [|n IH]; intros i; [done|].
  rewrite seqZ_cons by lia. cbn [flat_map]. rewrite length_app, length_le_bytes.
  replace (Z.pred (Z.of_nat (S n))) with (Z.of_nat n) by lia.
  change (Z.succ i) with (i + 1). rewrite IH. lia.
Qed.
End registers.

Lemma be16_val h l : is_u8 l → be16 h l = 256 * h + l.
Proof. apply lor_shiftl8. Qed.

Lemma swap16_bytes x : is_u16 x → le_bytes 2 (swap16 x) = [u8 (Z.shiftr x 8); u8 x].
Proof.
  intros Hx. unfold swap16. cbn [le_bytes].
  rewrite Z.lor_comm. assert (is_u8 (Z.shiftr x 8)) as Hh
    by (rewrite shiftr8_div; unfold is_u8, is_u16 in *; lia).
  rewrite lor_shiftl8 by done. rewrite !shiftr8_div in *. unfold u8, u16, is_u8, is_u16 in *.
  f_equal; [lia|f_equal; lia].
Qed.

(** ** Blocks on loan *)

Lemma block_size_le n : size_ok n → n ≤ block_size n ∧ 12 ≤ block_size n.
Proof.
  unfold size_ok, block_size, MIN_SIZE_ALIGNED. intros Hn.
  pose proof (RT_ALIGN_eq n ltac:(unfold is_u32; lia)) as Hal. rewrite decide_True in Hal by lia. case_decide; lia.
Qed.

Lemma alloc_buf_ok s sh n (Q : option (Z * list Z) → fw → Prop) :
  heap_is (fw_heap s) sh → size_ok n →
  (malloc_spec (sh_size sh) n (sh_blocks sh) = None → Q None s) →
  (∀ p b h' off bs', let sh' := mk_shape (sh_ptr sh) (sh_size sh) bs' in
     malloc_spec (sh_size sh) n (sh_blocks sh) = Some (off, bs') →
     lent sh n p b sh' → heap_is h' sh' → Q (Some (p, b)) (s <| fw_heap := h' |>)) →
  wp (alloc_buf n) Q s.
Proof.
  intros Hh Hn Hnull HQ. unfold alloc_buf. rewrite wp_zoom. apply (alloc_block_ok _ sh n); [done..| |].
  - intros Hs. specialize (Hnull Hs). by destruct s.
  - intros. by eapply HQ.
Qed.

Lemma free_buf_ok s sh n p b sh' b' (Q : unit → fw → Prop) :
  lent sh n p b sh' → heap_is (fw_heap s) sh' → zlen b' = zlen b → Forall is_u8 b' →
  (∀ h', heap_is h' sh → Q tt (s <| fw_heap := h' |>)) → wp (free_buf p b') Q s.
Proof.
  intros Hl Hh Hz Hu HQ. unfold free_buf. rewrite wp_zoom.
  eapply wp_mono; [by apply (lent_back _ _ _ _ _ Hl)|]. intros [] h' Hh'. by apply HQ.
Qed.

(** A block found means that there was room for it, and its size is known. *)
Lemma sized (n : Z) (b : list Z) : size_ok n → block_size n ≤ zlen b → n ≤ zlen b ∧ 12 ≤ zlen b.
Proof. intros Hn Hb. pose proof (block_size_le n Hn). lia. Qed.

(** ** Replies *)

(** A frame put together in a block that has room for it. *)
Lemma frame_in_block (b head bs : list Z) ws n :
  ws = zip (seqZ 0 (zlen head)) head → n = zlen head + zlen bs → n + 2 ≤ zlen b →
  Forall is_u8 b → Forall is_u8 (head ++ bs) →
  ∃ rest, (buf ← stores b ws; buf ← store_bytes buf (zlen head) bs; put_crc buf n) =
            Ok (with_crc (head ++ bs) ++ rest) ∧
    zlen (with_crc (head ++ bs) ++ rest) = zlen b ∧ Forall is_u8 (with_crc (head ++ bs) ++ rest).
Proof.
  intros Hws -> Hroom Hb Hu. pose proof (header_payload b head bs ws Hws ltac:(lia)) as Hh.
  destruct (stores b ws) as [b1|]; [|done]. cbn [mbind outcome_bind] in *. rewrite Hh.
  destruct (drop_two (length head + length bs) b) as (x & y & rest & Hd); [unfold zlen in *; lia|].
  rewrite Hd. pose proof (put_crc_ok (head ++ bs) x y rest) as Hc.
  assert (zlen (head ++ bs) = zlen head + zlen bs) as Hz by (unfold zlen; rewrite length_app; lia).
  rewrite Hz, <- app_assoc in Hc. cbn [mbind outcome_bind]. rewrite Hc.
  exists rest. split; [done|]. split.
  - pose proof (length_drop b (length head + length bs)) as Hl. rewrite Hd in Hl. cbn [length] in Hl.
    unfold with_crc, zlen in *. rewrite !length_app, length_le_bytes in *. lia.
  - apply Forall_app_2; [apply Forall_app_2; [done|apply le_bytes_u8]|].
    assert (Forall is_u8 (x :: y :: rest)) as Hr by (rewrite <- Hd; by apply Forall_drop).
    by do 2 apply Forall_cons_1 in Hr as [_ Hr].
Qed.

Lemma sendMessage_wp bs rest len (Q : unit → fw → Prop) s :
  0 ≤ len ≤ zlen bs → Q tt (s <| fw_trace := message (take (Z.to_nat len) bs) ++ fw_trace s |>) →
  wp (sendMessageToMaster (bs ++ rest) len) Q s.
Proof.
  intros Hl HQ. unfold wp. rewrite <- (take_drop (Z.to_nat len) bs), <- app_assoc.
  rewrite sendMessage_ok; [done|]. unfold zlen in *. rewrite length_take. lia.
Qed.

(** The part the two kinds of reply share: the payload behind a header of [k] bytes, the CRC,
    and the frame's transmission. *)
Lemma reply_sent b data head ws k len (Q : list Z → fw → Prop) s :
  ws = zip (seqZ 0 (zlen head)) head → k = zlen head → 0 ≤ len ≤ zlen data → len + k + 2 ≤ zlen b →
  Forall is_u8 b → Forall is_u8 head → Forall is_u8 data →
  (∀ buf, zlen buf = zlen b → Forall is_u8 buf →
     let frame := with_crc (head ++ take (Z.to_nat len) data) in
     Q buf (s <| fw_trace := message (take (Z.to_nat (u8 (zlen frame))) frame) ++ fw_trace s |>)) →
  wp (buf ← lift (stores b ws);
      bs ← lift (load_bytes data 0 len);
      buf ← lift (store_bytes buf k bs);
      buf ← lift (put_crc buf (len + k));
      sendMessageToMaster buf (u8 (len + k + 2));;
      mret buf) Q s.
Proof.
  intros Hws -> Hlen Hroom Hb Hhu Hu HQ.
  set (bs := take (Z.to_nat len) data) in *.
  assert (zlen bs = len) as Hzb by (unfold bs, zlen in *; rewrite length_take; lia).
  assert (load_bytes data 0 len = Ok bs) as Hld by (rewrite load_bytes_in by lia; done).
  assert (Forall is_u8 (head ++ bs)) as Hfr by (apply Forall_app_2; [done|by apply Forall_take]).
  destruct (frame_in_block b head bs ws (len + zlen head) Hws) as (rest & Hbuf & Hz & Hfu); [lia|lia|done..|].
  rewrite wp_bind, wp_lift. destruct (stores b _) as [b1|]; [|done]. cbn [mbind outcome_bind owp] in *.
  rewrite wp_bind, wp_lift, Hld. cbn [owp]. rewrite wp_bind, wp_lift.
  destruct (store_bytes b1 (zlen head) bs) as [b2|]; [|done]. cbn [mbind outcome_bind owp] in *.
  rewrite wp_bind, wp_lift, Hbuf. cbn [owp]. rewrite wp_bind.
  assert (zlen (with_crc (head ++ bs)) = len + zlen head + 2) as Hzf
    by (rewrite zlen_with_crc; unfold zlen in *; rewrite length_app; lia).
  apply sendMessage_wp; [rewrite Hzf; unfold u8, zlen in *; lia|]. rewrite wp_ret.
  rewrite <- Hzf. by apply HQ.
Qed.

(** The frame of a reply, by the kind of request. *)
Definition reply_frame (mi : module_info) (rw reg len : Z) (bs : list Z) : list Z :=
  with_crc ((if decide (READ_MUTI = rw) then [mi_addr mi; rw; len]
             else [mi_addr mi; rw; u8 (Z.shiftr reg 8); u8 reg]) ++ bs).

Lemma replyDataToMaster_ok rw data reg len s sh (Q : unit → fw → Prop) :
  heap_is (fw_heap s) sh → is_u8 (mi_addr (fw_mi s)) → Forall is_u8 data →
  is_u8 len → len ≤ zlen data →
  rw = READ_MUTI ∨ rw = WRITE_SINGLE ∧ len + 6 ≤ block_size (len + 5) →
  (malloc_spec (sh_size sh) (len + 5) (sh_blocks sh) = None → Q tt s) →
  (∀ h', heap_is h' sh →
     let frame := reply_frame (fw_mi s) rw reg len (take (Z.to_nat len) data) in
     Q tt (s <| fw_heap := h' |> <| fw_trace := message (take (Z.to_nat (u8 (zlen frame))) frame) ++ fw_trace s |>)) →
  wp (replyDataToMaster rw data reg len) Q s.
Proof.
  intros Hh Ha Hu Hlen Hdata Hrw Hnull HQ. unfold replyDataToMaster. rewrite wp_bind.
  replace (alloc_buf (len + 3 + 2)) with (alloc_buf (len + 5)) by (f_equal; lia). unfold is_u8 in Hlen.
  assert (size_ok (len + 5)) as Hsz by (unfold size_ok; lia).
  apply (alloc_buf_ok s sh); [done..|]. intros p b h' off bs' sh' _ Hlent Hh'.
  destruct (sized _ _ Hsz (lent_size _ _ _ _ _ Hlent)) as [Hroom _].
  pose proof (lent_u8 _ _ _ _ _ Hlent) as Hbu. pose proof (lent_size _ _ _ _ _ Hlent) as Hbs.
  apply wp_gets_bind. change (fw_mi (s <| fw_heap := h' |>)) with (fw_mi s).
  set (mi := fw_mi s) in *. unfold reply_frame in HQ. rewrite wp_bind. destruct Hrw as [->|[-> Hsix]].
  - rewrite !(decide_True (P := READ_MUTI = READ_MUTI)) in * by done.
    apply (reply_sent b data [mi_addr mi; READ_MUTI; len]); [done|done|lia|unfold zlen in *; lia|done| |done|].
    { repeat (apply Forall_cons; [done|]). apply Forall_nil_2. }
    intros buf Hz Hfu. apply (free_buf_ok _ sh (len + 5) p b sh'); [done..|]. intros h2 Hh2. exact (HQ h2 Hh2).
  - rewrite !(decide_False (P := READ_MUTI = WRITE_SINGLE)) in * by done.
    rewrite (decide_True (P := WRITE_SINGLE = WRITE_SINGLE)) by done.
    apply (reply_sent b data [mi_addr mi; WRITE_SINGLE; u8 (Z.shiftr reg 8); u8 reg]);
      [done|done|lia|unfold zlen in *; lia|done| |done|].
    { repeat (apply Forall_cons; [first [done|apply u8_range]|]). apply Forall_nil_2. }
    intros buf Hz Hfu. apply (free_buf_ok _ sh (len + 5) p b sh'); [done..|]. intros h2 Hh2. exact (HQ h2 Hh2).
Qed.

(** ** Requests *)

Section requests.
Context `{Chip}.

(** When the two blocks of a request are not to be had. *)
Definition no_memory (bs : list block) (n m : Z) : Prop :=
  n = 0 ∨ ¬ room bs (block_size n + SIZEOF_STRUCT_MEM + (block_size m + SIZEOF_STRUCT_MEM + 12)).

Lemma malloc_spec_none h sh n k :
  heap_is h sh → size_ok n → n ≠ 0 → malloc_spec (sh_size sh) n (sh_blocks sh) = None →
  12 ≤ k → ¬ room (sh_blocks sh) (block_size n + SIZEOF_STRUCT_MEM + k).
Proof.
  intros Hh Hn Hn0 Hnone Hk Hr. destruct (room_alloc h _ n k (is_rep _ _ Hh) Hn) as (off & bs & Hs & _);
    [unfold size_ok in Hn; lia|done|done|]. rewrite (is_size _ _ Hh) in Hs. congruence.
Qed.

(** What the second allocation of a request finds. *)
Lemma no_memory_second h h' sh n m off bs' :
  heap_is h sh → heap_is h' (mk_shape (sh_ptr sh) (sh_size sh) bs') → size_ok n → size_ok m → m ≠ 0 →
  malloc_spec (sh_size sh) n (sh_blocks sh) = Some (off, bs') →
  malloc_spec (sh_size sh) m bs' = None → no_memory (sh_blocks sh) n m.
Proof.
  intros Hh Hh' Hn Hm Hm0 Hs Hnone. right. intros Hr.
  assert (n ≠ 0) as Hn0 by (intros ->; unfold malloc_spec in Hs; by rewrite decide_True in Hs by auto).
  pose proof (block_size_le m Hm) as [_ Hb12]. unfold SIZEOF_STRUCT_MEM in *.
  destruct (room_alloc h _ n _ (is_rep _ _ Hh) Hn ltac:(unfold size_ok in Hn; lia) Hr) as (off' & bs'' & Hs' & Hr'); [lia|].
  rewrite (is_size _ _ Hh), Hs in Hs'. injection Hs' as <- <-.
  exact (malloc_spec_none h' _ m 12 Hh' Hm Hm0 Hnone ltac:(lia) Hr').
Qed.

Lemma Forall_read_values mi temp i n : Forall is_u8 (read_values mi temp i n).
Proof.
  unfold read_values. induction (seqZ i (Z.of_nat n)); [apply Forall_nil_2|].
  cbn [flat_map]. apply Forall_app_2; [apply le_bytes_u8|done].
Qed.

(** A request to read [num] registers: the reply holds the registers' values, and
    afterwards the heap is as it was. *)
Lemma read_request_ok addr rh rl nh num tl size s sh (Q : Z → fw → Prop) :
  heap_is (fw_heap s) sh → is_u8 (mi_addr (fw_mi s)) → is_u8 num →
  let n := Z.to_nat num in
  let temp := be16 rh rl in
  let s1 h := located (reads_location temp 0 n) (s <| fw_heap := h |>) in
  let len := u8 (num * 2) in
  let frame := reply_frame (fw_mi s) READ_MUTI 0 len (take (Z.to_nat len) (read_values (fw_mi s) temp 0 n)) in
  (no_memory (sh_blocks sh) (num * 2) (len + 5) → Q RT_EOK s ∧ ∀ h, heap_is h sh → Q RT_EOK (s1 h)) →
  (∀ h, heap_is h sh →
     Q RT_EOK (s1 h <| fw_trace := message (take (Z.to_nat (u8 (zlen frame))) frame) ++ fw_trace s |>)) →
  wp (analyzeMasterData (addr :: READ_MUTI :: rh :: rl :: nh :: num :: tl) size) Q s.
Proof.
  intros Hh Ha Hnum n temp s1 len frame Hnull HQ. unfold is_u8 in Hnum. unfold analyzeMasterData.
  rewrite wp_bind, wp_lift. change (load _ 1) with (@Ok Z READ_MUTI). cbn [owp].
  rewrite decide_True by done. rewrite wp_bind, wp_lift. change (load _ 5) with (@Ok Z num). cbn [owp].
  assert (size_ok (num * 2) ∧ size_ok (len + 5) ∧ 0 ≤ len < 256) as (Hsz & Hsz2 & Hlen) by (unfold size_ok, len, u8; lia).
  rewrite wp_bind. apply (alloc_buf_ok s sh); [done..| |].
  { intros Hs. apply Hnull. destruct (decide (num * 2 = 0)); [by left|right].
    apply (malloc_spec_none _ _ _ _ Hh); [done..|]. pose proof (block_size_le _ Hsz2). unfold SIZEOF_STRUCT_MEM. lia. }
  intros p b h1 off bs' sh' Hs Hlent Hh1.
  destruct (sized _ _ Hsz (lent_size _ _ _ _ _ Hlent)) as [Hroom _].
  rewrite wp_bind, wp_lift. change (load _ 2) with (@Ok Z rh). cbn [owp].
  rewrite wp_bind, wp_lift. change (load _ 3) with (@Ok Z rl). cbn [owp]. fold temp n.
  assert (length (take (2 * n) b) = (2 * n)%nat) as Hmid by (rewrite length_take; unfold zlen, n in *; lia).
  rewrite wp_bind. unfold wp at 1.
  pose proof (read_registers_ok n 0 temp [] (take (2 * n) b) (drop (2 * n) b) (s <| fw_heap := h1 |>) eq_refl Hmid) as Hrr.
  cbn [app] in Hrr. rewrite take_drop in Hrr. rewrite Hrr. clear Hrr.
  change (fw_mi (s <| fw_heap := h1 |>)) with (fw_mi s). set (vals := read_values _ _ _ _) in *. fold (s1 h1).
  assert (length vals = (2 * n)%nat) as Hv by apply length_read_values.
  assert (Forall is_u8 (vals ++ drop (2 * n) b)) as Hvu
    by (apply Forall_app_2; [apply Forall_read_values|apply Forall_drop, (lent_u8 _ _ _ _ _ Hlent)]).
  assert (fw_heap (s1 h1) = h1 ∧ mi_addr (fw_mi (s1 h1)) = mi_addr (fw_mi s) ∧ fw_trace (s1 h1) = fw_trace s) as (Eh & Ea & Et)
    by (unfold s1, located; by destruct (reads_location _ _ _)).
  assert (∀ h, s1 h1 <| fw_heap := h |> = s1 h) as Es by (intros h; unfold s1, located; by destruct (reads_location _ _ _)).
  assert (zlen (vals ++ drop (2 * n) b) = zlen b) as Hz by (unfold zlen in *; rewrite length_app, length_drop; lia).
  rewrite wp_bind. apply (replyDataToMaster_ok _ _ _ _ (s1 h1) sh').
  - by rewrite Eh.
  - by rewrite Ea.
  - done.
  - unfold is_u8. lia.
  - unfold len, u8 in *. lia.
  - by left.
  - intros Hnone. rewrite wp_bind. apply (free_buf_ok _ sh (num * 2) p b sh'); [done|by rewrite Eh|done..|].
    intros h2 Hh2. rewrite wp_ret, Es. apply Hnull; [|done]. eapply no_memory_second; [exact Hh|exact Hh1|done|done|lia|done..].
  - intros h2 Hh2. cbn zeta. rewrite wp_bind. apply (free_buf_ok _ sh (num * 2) p b sh'); [done..|].
    intros h3 Hh3. rewrite wp_ret. specialize (HQ h3 Hh3). fold len.
    assert (take (Z.to_nat len) (vals ++ drop (2 * n) b) = take (Z.to_nat len) vals) as ->
      by (rewrite take_app_le; [done|unfold len, u8, n in *; lia]).
    unfold reply_frame in *. rewrite Ea, Et. fold frame. rewrite <- (Es h3) in HQ. exact HQ.
Qed.

Definition set_register (reg v : Z) (mi : module_info) : module_info :=
  if decide (reg = REGISTER_ADDR) then mi <| mi_addr := u8 v |>
  else if decide (reg = REGISTER_CTRL) then mi <| mi_ctrl := v |> else mi.

Lemma setRegister_ok reg v s :
  setRegister reg v s = Ok (tt, s <| fw_mi := set_register reg v (fw_mi s) |>).
Proof. unfold setRegister, set_register. repeat case_decide; by destruct s. Qed.

(** A single write: the register is set, and the reply carries what reading the
    register back gives. *)
Lemma write_single_ok addr rh rl vh vl tl s sh (Q : Z → fw → Prop) :
  heap_is (fw_heap s) sh → is_u8 (mi_addr (fw_mi s)) →
  let reg := be16 rh rl in
  let mi' := set_register reg (be16 vh vl) (fw_mi s) in
  let s1 h := located (bool_decide (reg = REGISTER_LOCATION)) (s <| fw_mi := mi' |> <| fw_heap := h |>) in
  let frame := reply_frame mi' WRITE_SINGLE reg 2 (le_bytes 2 (reg_value mi' reg)) in
  (no_memory (sh_blocks sh) 2 7 → Q RT_EOK (s <| fw_mi := mi' |>) ∧ ∀ h, heap_is h sh → Q RT_EOK (s1 h)) →
  (∀ h, heap_is h sh → Q RT_EOK (s1 h <| fw_trace := message frame ++ fw_trace s |>)) →
  wp (analyzeMasterData (addr :: WRITE_SINGLE :: rh :: rl :: vh :: vl :: tl) 8) Q s.
Proof.
  intros Hh Ha reg mi' s1 frame Hnull HQ. unfold analyzeMasterData.
  rewrite wp_bind, wp_lift. change (load _ 1) with (@Ok Z WRITE_SINGLE). cbn [owp].
  rewrite decide_False, !decide_True by done.
  rewrite wp_bind, wp_lift. change (load _ 2) with (@Ok Z rh). cbn [owp].
  rewrite wp_bind, wp_lift. change (load _ 3) with (@Ok Z rl). cbn [owp]. cbn zeta. fold reg.
  rewrite wp_bind, wp_lift. change (load _ 4) with (@Ok Z vh). cbn [owp].
  rewrite wp_bind, wp_lift. change (load _ 5) with (@Ok Z vl). cbn [owp].
  rewrite wp_bind. unfold wp at 1. rewrite setRegister_ok. fold mi'.
  rewrite wp_bind. apply (alloc_buf_ok _ sh); [done|done| |].
  { intros Hs. apply Hnull. right. by apply (malloc_spec_none _ _ _ _ Hh). }
  intros p b h1 off bs' sh' Hs Hlent Hh1.
  destruct (sized _ _ ltac:(done) (lent_size _ _ _ _ _ Hlent)) as [_ Hroom].
  rewrite wp_bind. unfold wp at 1. rewrite getRegister_ok.
  change (s <| fw_mi := mi' |> <| fw_heap := h1 |>) with (s <| fw_mi := mi' |> <| fw_heap := h1 |>). fold (s1 h1).
  change (fw_mi (_ <| fw_heap := h1 |>)) with mi'. set (v := reg_value mi' reg) in *.
  destruct b as [|x [|y b]]; [unfold zlen in Hroom; cbn in Hroom; lia..|].
  assert (store_bytes (x :: y :: b) 0 (le_bytes 2 v) = Ok (le_bytes 2 v ++ b)) as Hst.
  { rewrite store_bytes_in; [done|lia|unfold zlen in *; rewrite length_le_bytes; lia]. }
  rewrite wp_bind, wp_lift, Hst. cbn [owp].
  assert (Forall is_u8 (le_bytes 2 v ++ b)) as Hvu.
  { pose proof (lent_u8 _ _ _ _ _ Hlent) as Hb. do 2 apply Forall_cons_1 in Hb as [_ Hb].
    apply Forall_app_2; [apply le_bytes_u8|done]. }
  assert (is_u8 (mi_addr mi')) as Ha'.
  { unfold mi', set_register. repeat case_decide; [apply u8_range|done|done]. }
  assert (fw_heap (s1 h1) = h1 ∧ mi_addr (fw_mi (s1 h1)) = mi_addr mi' ∧ fw_trace (s1 h1) = fw_trace s) as (Eh & Ea & Et)
    by (unfold s1, located; by destruct (bool_decide _)).
  assert (∀ h, s1 h1 <| fw_heap := h |> = s1 h) as Es by (intros h; unfold s1, located; by destruct (bool_decide _)).
  rewrite wp_bind. apply (replyDataToMaster_ok _ _ _ _ (s1 h1) sh').
  - by rewrite Eh.
  - by rewrite Ea.
  - done.
  - done.
  - unfold zlen. rewrite length_app, length_le_bytes. lia.
  - right. split; [done|by vm_compute].
  - intros Hnone. rewrite wp_bind. apply (free_buf_ok _ sh 2 p (x :: y :: b) sh'); [done|by rewrite Eh|done|done|].
    intros h2 Hh2. rewrite wp_ret, Es. apply Hnull; [|done]. by eapply (no_memory_second _ _ _ 2 7).
  - intros h2 Hh2. cbn zeta. rewrite wp_bind. apply (free_buf_ok _ sh 2 p (x :: y :: b) sh'); [done..|].
    intros h3 Hh3. rewrite wp_ret. specialize (HQ h3 Hh3).
    change (take (Z.to_nat 2) (le_bytes 2 v ++ b)) with (le_bytes 2 v).
    unfold reply_frame in *. rewrite Ea, Et. fold frame. rewrite <- (Es h3) in HQ. exact HQ.
Qed.
End requests.

(** ** Requests and replies keep the firmware's invariant *)

Section invariant.
Context `{Chip, HeapShape}.

Lemma heap_inv s h : fw_inv s → heap_is h heap_shape_now → fw_inv (s <| fw_heap := h |>).
Proof. intros [] Hh. by constructor. Qed.
Lemma trace_inv s t : fw_inv s → fw_inv (s <| fw_trace := t |>).
Proof. intros []. by constructor. Qed.

Lemma located_inv b s : fw_inv s → fw_inv (located b s).
Proof.
  intros Hs. destruct b; [|done]. destruct Hs. constructor; try assumption.
  unfold mi_wf, upd in *; cbn. assert (is_u8 YES) by done. tauto.
Qed.
Lemma set_register_inv reg v s :
  is_u16 v → fw_inv s → fw_inv (s <| fw_mi := set_register reg v (fw_mi s) |>).
Proof.
  intros Hv Hs. unfold set_register. destruct Hs. repeat case_decide; constructor; try assumption;
    unfold mi_wf, upd in *; cbn; pose proof (u8_range v); tauto.
Qed.

Lemma getRegister_inv a : preserves fw_inv (getRegister a).
Proof. intros s Hs. unfold wp. rewrite getRegister_ok. by apply located_inv. Qed.
Lemma setRegister_inv a v : is_u16 v → preserves fw_inv (setRegister a v).
Proof. intros Hv s Hs. unfold wp. rewrite setRegister_ok. by apply set_register_inv. Qed.

Lemma analyzeMasterData_inv data size :
  6 ≤ zlen data → Forall is_u8 data → preserves fw_inv (analyzeMasterData data size).
Proof.
  intros Hl Hu s Hs. pose proof (inv_heap s Hs) as Hh.
  assert (is_u8 (mi_addr (fw_mi s))) as Ha by apply (inv_mi s Hs).
  destruct data as [|d0 [|d1 [|d2 [|d3 [|d4 [|d5 tl]]]]]]; try (unfold zlen in Hl; cbn [length] in Hl; lia).
  do 6 (apply Forall_cons_1 in Hu as [? Hu]).
  destruct (decide (d1 = READ_MUTI)) as [->|Hr].
  { apply (read_request_ok _ _ _ _ _ _ _ s heap_shape_now); [done..| |].
    - intros _. split; [done|]. intros h Hh'. by apply located_inv, heap_inv.
    - intros h Hh'. by apply trace_inv, located_inv, heap_inv. }
  destruct (decide (d1 = WRITE_SINGLE ∧ size = 8)) as [[-> ->]|Hw].
  { assert (is_u16 (be16 d4 d5)) as Hv by (rewrite be16_val by done; unfold is_u8, is_u16 in *; lia).
    pose proof (set_register_inv (be16 d2 d3) _ s Hv Hs) as Hs1.
    apply (write_single_ok _ _ _ _ _ _ s heap_shape_now); [done..| |].
    - intros _. split; [done|]. intros h Hh'. by apply located_inv, heap_inv.
    - intros h Hh'. by apply trace_inv, located_inv, heap_inv. }
  unfold analyzeMasterData. rewrite wp_bind, wp_lift. change (load _ 1) with (@Ok Z d1). cbn [owp].
  rewrite decide_False by done. case_decide; [|done]. rewrite decide_False; [done|]. intros <-. tauto.
Qed.

Lemma sendRegister_inv data s :
  fw_inv s → zlen data = 16 →
  wp (sendRegisterToMaster data) (λ d s', fw_inv s' ∧ zlen d = 16) s.
Proof.
  intros Hs Hl. destruct (sendRegister_ok data s Hl) as (rest & Hrest & Hrun).
  unfold wp. rewrite Hrun. split; [by apply trace_inv|].
  unfold zlen in *. rewrite length_app. change (length (registration _)) with 15%nat. lia.
Qed.
End invariant.

(** A write of the control register, answered; nothing looks at the CRC behind the words. *)
Lemma control_write_ok `{Chip} vh vl tl s sh :
  is_u8 vh → is_u8 vl → is_u8 (mi_addr (fw_mi s)) →
  heap_is (fw_heap s) sh → room (sh_blocks sh) 60 →
  let body := [mi_addr (fw_mi s); WRITE_SINGLE; 0x01; 0x00; vh; vl] in
  ∃ s', analyzeMasterData (body ++ tl) 8 s = Ok (RT_EOK, s') ∧
    fw_trace s' = message (with_crc body) ++ fw_trace s ∧
    fw_mi s' = fw_mi s <| mi_ctrl := 256 * vh + vl |> ∧
    heap_is (fw_heap s') sh ∧
    s' = s <| fw_heap := fw_heap s' |> <| fw_mi := fw_mi s' |> <| fw_trace := fw_trace s' |>.
Proof.
  intros Hvh Hvl Ha Hh Hroom body.
  match goal with |- ∃ s', ?m s = _ ∧ _ => assert (wp m (λ a s', a = RT_EOK ∧
    fw_trace s' = message (with_crc body) ++ fw_trace s ∧ fw_mi s' = fw_mi s <| mi_ctrl := 256 * vh + vl |> ∧
    heap_is (fw_heap s') sh ∧
    s' = s <| fw_heap := fw_heap s' |> <| fw_mi := fw_mi s' |> <| fw_trace := fw_trace s' |>) s) as Hw end.
  - apply (write_single_ok _ 0x01 0x00 vh vl _ s sh); [done..| |].
    + intros [?|Hno]; [done|]. by destruct Hno.
    + intros h Hh'. split; [done|]. rewrite (be16_val vh vl) by done. change (be16 1 0) with REGISTER_CTRL.
      split; [|split; [done|split; [done|by destruct s]]]. set (mi' := set_register REGISTER_CTRL (256 * vh + vl) (fw_mi s)).
      change (fw_trace (_ <| fw_trace := ?t |>)) with t. do 2 f_equal.
      unfold reply_frame, body. rewrite decide_False by done. do 2 f_equal.
      change (reg_value mi' REGISTER_CTRL) with (swap16 (256 * vh + vl)).
      rewrite swap16_bytes by (unfold is_u16, is_u8 in *; lia).
      assert (u8 (Z.shiftr (256 * vh + vl) 8) = vh ∧ u8 (256 * vh + vl) = vl) as [-> ->]; [|done].
      rewrite shiftr8_div. unfold u8, is_u8 in *. lia.
  - apply wp_ok in Hw as (a & s' & Hrun & -> & Ht & Hm & Hh'). exists s'. done.
Qed.

(** ** Properties *)

(** C3: a request to read [num] registers, 1 to 125 of them, is answered with one
    Modbus frame, sent while the transmitter is enabled: the module's address, the
    function code, the byte count, the registers' values and a CRC that makes the
    receiver's residue zero. The settings change only in that reading register 0
    starts the locate flash, and the heap, if it had room for the two blocks the reply
    takes, is divided afterwards as it was before. *)
Theorem read_request_answered `{Chip} addr rh rl nh num tl size s sh :
  1 ≤ num ≤ 125 → is_u8 (mi_addr (fw_mi s)) → heap_is (fw_heap s) sh →
  room (sh_blocks sh) (block_size (num * 2) + block_size (num * 2 + 5) + 36) →
  let n := Z.to_nat num in
  let temp := be16 rh rl in
  let frame := with_crc ([mi_addr (fw_mi s); READ_MUTI; 2 * num] ++ read_values (fw_mi s) temp 0 n) in
  ∃ s', analyzeMasterData (addr :: READ_MUTI :: rh :: rl :: nh :: num :: tl) size s = Ok (RT_EOK, s') ∧
    fw_trace s' = message frame ++ fw_trace s ∧ crc16 frame = 0 ∧
    zlen frame = 2 * num + 5 ∧
    fw_mi s' = (if reads_location temp 0 n then fw_mi s <| mi_find_location := YES |> else fw_mi s) ∧
    heap_is (fw_heap s') sh.
Proof.
  intros Hnum Ha Hh Hroom n temp frame.
  assert (length (read_values (fw_mi s) temp 0 n) = (2 * n)%nat) as Hv by apply length_read_values.
  assert (zlen frame = 2 * num + 5) as Hzf.
  { unfold frame. rewrite zlen_with_crc. unfold zlen. rewrite length_app, Hv. unfold n. cbn [length]. lia. }
  assert (crc16 frame = 0) as Hc.
  { apply with_crc_valid. repeat (apply Forall_cons; [try done|]); [unfold is_u8; lia|apply Forall_read_values]. }
  match goal with |- ∃ s', ?m s = _ ∧ _ => assert (wp m (λ a s', a = RT_EOK ∧
    fw_trace s' = message frame ++ fw_trace s ∧ heap_is (fw_heap s') sh ∧
    fw_mi s' = (if reads_location temp 0 n then fw_mi s <| mi_find_location := YES |> else fw_mi s)) s) as Hw end.
  - apply (read_request_ok _ _ _ _ _ _ _ s sh); [done..|unfold is_u8; lia| |].
    + intros [?|Hno]; [lia|]. destruct Hno. rewrite (u8_id (num * 2)) by (unfold is_u8; lia).
      unfold SIZEOF_STRUCT_MEM. eapply room_le; [exact Hroom|lia].
    + intros h Hh'. rewrite (u8_id (num * 2)) by (unfold is_u8; lia). fold temp n.
      rewrite (firstn_all2 (read_values (fw_mi s) temp 0 n)) by lia.
      assert (reply_frame (fw_mi s) READ_MUTI 0 (num * 2) (read_values (fw_mi s) temp 0 n) = frame) as ->
        by (unfold reply_frame, frame; rewrite decide_True by done; by replace (num * 2) with (2 * num) by lia).
      rewrite (u8_id (zlen frame)) by (unfold is_u8; lia). rewrite (firstn_all2 frame) by (unfold zlen; lia).
      unfold located. by destruct (reads_location temp 0 n).
  - apply wp_ok in Hw as (a & s' & Hrun & -> & Ht & Hh' & Hm). exists s'. done.
Qed.

(** C4: writing the control register is acknowledged as Modbus prescribes, by the
    request itself sent back byte for byte; the control word is the one written and no
    other setting changes, the heap is divided afterwards as it was before, and nothing
    else of the firmware's state - the temperature shown, the events, the pages - changes. *)
Theorem control_write_echoed `{Chip} vh vl tl s sh :
  is_u8 vh → is_u8 vl → is_u8 (mi_addr (fw_mi s)) →
  heap_is (fw_heap s) sh → room (sh_blocks sh) 60 →
  let request := with_crc [mi_addr (fw_mi s); WRITE_SINGLE; 0x01; 0x00; vh; vl] in
  ∃ s', analyzeMasterData (request ++ tl) (zlen request) s = Ok (RT_EOK, s') ∧
    fw_trace s' = message request ++ fw_trace s ∧
    fw_mi s' = fw_mi s <| mi_ctrl := 256 * vh + vl |> ∧
    heap_is (fw_heap s') sh ∧
    s' = s <| fw_heap := fw_heap s' |> <| fw_mi := fw_mi s' |> <| fw_trace := fw_trace s' |>.
Proof.
  intros Hvh Hvl Ha Hh Hroom request. unfold request, with_crc. rewrite <- app_assoc.
  exact (control_write_ok vh vl _ s sh Hvh Hvl Ha Hh Hroom).
Qed.

(** A request that is neither a read nor a single write, or a single write whose
    message is not eight bytes long, is not answered and changes nothing; only the
    latter is reported as an error. *)
Theorem other_requests_ignored `{Chip} addr fn tl size s :
  fn ≠ READ_MUTI → fn ≠ WRITE_SINGLE ∨ size ≠ 8 →
  analyzeMasterData (addr :: fn :: tl) size s =
    Ok (if decide (fn = WRITE_SINGLE) then RT_ERROR else RT_EOK, s).
Proof.
  intros Hr Hw. unfold analyzeMasterData, mbind, prog_bind.
  change (lift (load (addr :: fn :: tl) 1) s) with (@Ok (Z * fw) (fn, s)). cbv beta iota.
  rewrite decide_False by done. destruct (decide (fn = WRITE_SINGLE)) as [->|]; [|done].
  rewrite decide_False; [done|]. intros <-. tauto.
Qed.

(** C33: the registration message is one frame of fifteen bytes with a valid CRC: the
    registration code, the module's address and type and its 32-bit unique id, most
    significant byte first. Nothing but the task's scratch array changes. *)
Theorem registration_frame `{Chip} (data : list Z) s :
  zlen data = 16 → is_u8 (mi_addr (fw_mi s)) →
  let id := unique_id in
  let frame := with_crc [REGISTER_CODE; 0; 0; 0; 0; 0; 6; mi_addr (fw_mi s); INFRARED_TYPE;
    u8 (Z.shiftr id 24); u8 (Z.shiftr id 16); u8 (Z.shiftr id 8); u8 id] in
  crc16 frame = 0 ∧
  ∃ data', sendRegisterToMaster data s =
    Ok (data', s <| fw_trace := message frame ++ fw_trace s |>) ∧ take 15 data' = frame.
Proof.
  intros Hlen Haddr id frame. split.
  { apply with_crc_valid. repeat (apply Forall_cons; [first [apply u8_range|done]|]).
    apply Forall_nil_2. }
  destruct (sendRegister_ok data s Hlen) as (rest & _ & Hrun). exists (frame ++ rest).
  split; [exact Hrun|]. by rewrite take_app_length'.
Qed.

(** ** Witnesses *)

#[local] Instance sample_chip : Chip := {| id1 := 0x0669FF48; id2 := 0x51857852; id3 := 0x87123456 |}.
Lemma started_room k : k ≤ 372 → room (sh_blocks started_shape) k.
Proof. intros Hk. by exists [], 372, []. Qed.

Lemma read_request_answered_witness :
  ∃ s', analyzeMasterData [1; READ_MUTI; 0; 0; 0; 2; 0; 0] 8 (boot_fw started sample_mi) = Ok (RT_EOK, s') ∧
    fw_trace s' = message (with_crc [1; READ_MUTI; 4; 0; 0; 2; 0]) ∧
    mi_find_location (fw_mi s') = YES ∧ heap_is (fw_heap s') started_shape.
Proof.
  destruct (read_request_answered 1 0 0 0 2 [0; 0] 8 (boot_fw started sample_mi) started_shape)
    as (s' & Hrun & Htr & _ & _ & Hmi & Hh); [done|done|exact started_is|by apply started_room|].
  exists s'. split; [exact Hrun|]. split; [rewrite Htr; reflexivity|]. split; [rewrite Hmi; reflexivity|exact Hh].
Defined.

Lemma control_write_echoed_witness :
  ∃ s', analyzeMasterData (with_crc [1; WRITE_SINGLE; 1; 0; 0xE5; 0x00] ++ zeros 92) 8
          (boot_fw started sample_mi) = Ok (RT_EOK, s') ∧
    fw_trace s' = message (with_crc [1; WRITE_SINGLE; 1; 0; 0xE5; 0x00]) ∧
    mi_ctrl (fw_mi s') = 0xE500 ∧ heap_is (fw_heap s') started_shape.
Proof.
  destruct (control_write_echoed 0xE5 0x00 (zeros 92) (boot_fw started sample_mi) started_shape)
    as (s' & Hrun & Htr & Hmi & Hh & _); [done|done|done|exact started_is|by apply started_room|].
  exists s'. split; [exact Hrun|]. split; [exact Htr|]. split; [rewrite Hmi; reflexivity|exact Hh].
Defined.

Lemma other_requests_ignored_witness :
  analyzeMasterData [1; WRITE_SINGLE; 1; 0; 0xE5] 9 (boot_fw started sample_mi) =
    Ok (RT_ERROR, boot_fw started sample_mi).
Proof. apply other_requests_ignored; [done|right; done]. Defined.

Lemma registration_frame_witness :
  ∃ frame data', crc16 frame = 0 ∧
    sendRegisterToMaster (zeros 16) (boot_fw started sample_mi) =
      Ok (data', boot_fw started sample_mi <| fw_trace := message frame ++ [] |>).
Proof.
  destruct (registration_frame (zeros 16) (boot_fw started sample_mi)) as (Hc & data' & Hrun & _); [done..|].
  eexists _, data'. split; [exact Hc|exact Hrun].
Defined.

(** A read of 126 registers needs a reply of 257 bytes, and the length handed to the
    transmitter is one byte wide: with a heap of two kilobytes the hub gets the first byte
    of the reply only, with one that has no room for both blocks it gets nothing. *)
Definition roomy : heap :=
  match rt_system_heap_init 0x20000000 0x20000800 (mk_heap 0 0 0 0 0 0 0 0x20000000 (zeros 2048)) with
  | Ok (_, h) => h
  | Fault _ => started
  end.
Example read_126_truncated :
  (λ h, (λ '(_, s), fw_trace s) <$>
    match analyzeMasterData [1; READ_MUTI; 0; 1; 0; 126; 0; 0] 8 (boot_fw h sample_mi) with
    | Ok r => Some r
    | Fault _ => None
    end) <$> [roomy; started] = [Some (message [1]); Some []].
Proof. vm_compute. reflexivity. Qed.

(** The reply to a single write is one byte longer than the block requested for it: it is
    the allocator's rounding, of 7 to 12 bytes, that keeps its last byte in the block. *)
Example write_reply_needs_rounding :
  zlen (reply_frame sample_mi WRITE_SINGLE REGISTER_CTRL 2 [0; 0]) = 2 + 3 + 2 + 1 ∧ block_size (2 + 3 + 2) = 12.
Proof. vm_compute. done. Qed.
