(* ===== verification/Pages.v ===== *)
(** The user interface: the pages of OledPage.c, the buttons' call-backs, the page
    stack and the display task of Oled1309.c. *)
From Stdlib Require Import String.
From stdpp Require Import sets.
From S2P Require Import Prelude Mem MemHeap Buffers Flash Fonts Display State Invariant.

Definition EV (e : ir_event) (cb : call_back) : infrared_event_t := mk_event e cb.

(** ** Screen helpers *)

(** A drawing routine on the display of the firmware. *)
Definition draw {A} (m : prog lcd A) : prog fw A := zoom fw_lcd m.

Definition clear_screen : prog fw unit := draw (ST7567_Fill 0).

(** [ST7567_GotoXY(x, y); ST7567_Puts(s, font, color);], the result dropped. *)
Definition puts_at (x y : Z) (s : list Z) (font : FontDef_t) (color : Z) : prog fw unit :=
  draw (ST7567_GotoXY x y);;
  _ ← draw (ST7567_Puts s font color);
  mret tt.

Definition update_screen : prog fw unit := draw ST7567_UpdateScreen.

(** [itoa(value, str, 10)] of the C library on a non-negative value. *)
Fixpoint digits (fuel : nat) (n : Z) (acc : list Z) : list Z :=
  match fuel with
  | O => acc
  | S fuel =>
      let acc := (48 + n mod 10) :: acc in
      if decide (n < 10) then acc else digits fuel (n / 10) acc
  end.
Definition decimal (n : Z) : list Z := digits 10 n [].
Definition itoa (n : Z) (buf : list Z) : outcome (list Z) := store_bytes buf 0 (decimal n ++ [0]).

(** [strcpy] into an array. *)
Definition strcpy (dst src : list Z) : outcome (list Z) := store_bytes dst 0 src.

(** [strcat]: appends at the terminating zero of [dst]; [src] without its zero. *)
Fixpoint strlen (fuel : nat) (s : list Z) (i : Z) : outcome Z :=
  match fuel with
  | O => Fault NoFuel
  | S fuel => c ← load s i; if decide (c = 0) then mret i else strlen fuel s (i + 1)
  end.
Definition strcat (dst src : list Z) : outcome (list Z) :=
  n ← strlen (S (length dst)) dst 0; store_bytes dst n src.

(** ** Pages (OledPage.c) *)

Definition IAR_VERSION : list Z := c_str "V1.0.0".

Definition HomePage (page : type_page_t) : prog fw unit :=
  let temp := c_str " " ++ zeros 3 in
  let name := c_str " " ++ zeros 20 in
  clear_screen;;
  name ← lift (strcpy name (c_str " Setting       "));
  name ← lift (strcat name IAR_VERSION);
  puts_at 0 0 name Font_6x12 0;;
  t ← getNowTemp;
  temp ← lift (itoa t temp);
  puts_at 8 22 temp Font_16x32 1;;
  draw (ST7567_DrawCircle 42 30 1 1);;
  puts_at 44 30 (c_str "C") Font_8x16 1;;
  sw ← getSwitchState;
  puts_at 78 22 (if decide (YES = sw) then c_str "On" else c_str "Off") Font_8x16 1;;
  draw (ST7567_DrawLine (8 + 3 * 16) 38 127 38 1);;
  draw (ST7567_GotoXY 70 39);;
  mi ← getModuleInfo;
  (if decide (SELECT_MATCH = mi_select mi) then
     _ ← draw (ST7567_Puts (c_str "match") Font_8x16 1); mret tt
   else if decide (SELECT_LEARN = mi_select mi) then
     _ ← draw (ST7567_Puts (c_str "learn") Font_8x16 1); mret tt
   else mret tt);;
  update_screen.

(** [char show[4][16]]. *)
Definition setting_names : list (list Z) :=
  [c_str "Select Mode" ++ zeros 4; c_str "One Key Match" ++ zeros 2;
   c_str "Learn Mode" ++ zeros 5; c_str "Test Command" ++ zeros 3].

Definition SettingPage (page : type_page_t) : prog fw unit :=
  clear_screen;;
  let column := 16 in
  (if decide (cusor page ≤ 3) then
     for_range 0 3 (λ index,
       name ← lift (load setting_names index);
       puts_at 8 (column + index * 16) name Font_8x16
         (if decide (cusor page = index + 1) then 0 else 1))
   else
     for_range 0 3 (λ index,
       name ← lift (load setting_names (index + cusor page - 3));
       puts_at 8 (column + index * 16) name Font_8x16
         (if decide (cusor page = index + 1 + cusor page - 3) then 0 else 1)));;
  update_screen.

Definition oneKeyMatchPage : prog fw unit :=
  clear_screen;;
  puts_at 8 16 (c_str "Matching Now") Font_8x16 0;;
  update_screen;;
  setinfraredEvent (EV EVENT_SEND_MATCH matchCallBack_p).

(** [page] is [&pageSelect]. *)
Definition selectModePage : prog fw unit :=
  clear_screen;;
  page ← gets pageSelect;
  ot ← gets fw_ot;
  show ← lift (if decide (1 = cusor page) then strcpy (sm_show ot) (c_str "match")
               else if decide (2 = cusor page) then strcpy (sm_show ot) (c_str "learn")
               else Ok (sm_show ot));
  modify (λ s, s <| fw_ot := fw_ot s <| sm_show := show |> |>);;
  (if decide (YES = select page) then
     (if decide (1 = cusor page) then setModuleInfo (λ m, m <| mi_select := SELECT_MATCH |>)
      else if decide (2 = cusor page) then setModuleInfo (λ m, m <| mi_select := SELECT_LEARN |>)
      else mret tt);;
     pageReturn;;
     modify (λ s, s <| pageSelect := pageSelect s <| select := NO |> |>)
   else mret tt);;
  puts_at 8 16 (c_str "select") Font_8x16 1;;
  let color := if decide (sm_cnt ot mod 2 = 0) then 1 else 0 in
  modify (λ s, s <| fw_ot := fw_ot s <| sm_cnt := u8 (sm_cnt ot + 1) |> |>);;
  puts_at (8 * 8) 16 show Font_8x16 color;;
  update_screen.

(** The event's call-back is never assigned. *)
Definition testPage : prog fw unit :=
  clear_screen;;
  page ← gets pageSelect;
  puts_at 8 16 (c_str "Send On Command") Font_8x16 (if decide (cusor page = 1) then 0 else 1);;
  puts_at 8 (16 * 2) (c_str "Send Off Command") Font_8x16 (if decide (cusor page = 2) then 0 else 1);;
  update_screen;;
  if decide (YES = select page) then
    (if decide (1 = cusor page) then setinfraredEvent (EV EVENT_SEND_ON_TEST cb_indeterminate)
     else if decide (2 = cusor page) then setinfraredEvent (EV EVENT_SEND_OFF_TEST cb_indeterminate)
     else mret tt);;
    modify (λ s, s <| pageSelect := pageSelect s <| select := NO |> |>)
  else mret tt.

Definition learnPage (page : type_page_t) : prog fw unit :=
  clear_screen;;
  puts_at 8 16 (c_str "learn on") Font_8x16 (if decide (cusor page = 1) then 0 else 1);;
  puts_at 8 (16 * 2) (c_str "learn off") Font_8x16 (if decide (cusor page = 2) then 0 else 1);;
  update_screen.

Definition learnOnPage : prog fw unit :=
  clear_screen;;
  puts_at 8 16 (c_str "start send on") Font_8x16 1;;
  puts_at 8 (16 * 2) (c_str "command") Font_8x16 1;;
  update_screen;;
  setinfraredEvent (EV EVENT_SEND_LEARN_MODE_ON learnCallBack_p).

Definition learnOffPage : prog fw unit :=
  clear_screen;;
  puts_at 8 16 (c_str "start send off") Font_8x16 1;;
  puts_at 8 (16 * 2) (c_str "command") Font_8x16 1;;
  update_screen;;
  setinfraredEvent (EV EVENT_SEND_LEARN_MODE_OFF learnCallBack_p).

(** One message on an empty screen. *)
Definition message_page (s : list Z) (color : Z) : prog fw unit :=
  clear_screen;; puts_at 8 16 s Font_8x16 color;; update_screen.

(** [char brand_code[5]] is an automatic array; its bytes are overwritten before
    they are read. *)
Definition matchCallBack (result : Z) : prog fw unit :=
  if decide (result = INFRARED_EVENT_MATCH_OK) then message_page (c_str "Match Sucess") 0
  else if decide (result = INFRARED_EVENT_MATCH_FAIL) then message_page (c_str "Match Fail") 0
  else if decide (result = INFRARED_EVENT_SAVE_OK) then
    clear_screen;;
    mi ← getModuleInfo;
    brand_code ← lift (itoa (mi_brand_code mi) (zeros 5));
    puts_at 8 16 (c_str "Save Sucess") Font_8x16 0;;
    puts_at 8 (16 * 2) (c_str "key code = ") Font_8x16 0;;
    puts_at (12 * 8) (16 * 2) brand_code Font_8x16 0;;
    update_screen;;
    rt_thread_mdelay 1000;;
    pageReturn
  else if decide (result = INFRARED_EVENT_SAVE_FAIL) then message_page (c_str "Save Fail") 0
  else mret tt.

Definition sendOnTestCallBack (result : Z) : prog fw unit :=
  if decide (YES = result) then message_page (c_str "Send Off Command") 0 else mret tt.

Definition learnCallBack (result : Z) : prog fw unit :=
  if decide (result = CB_IN_LEARN_ON) then
    clear_screen;;
    puts_at 8 16 (c_str "Press the on") Font_8x16 1;;
    puts_at 8 (16 * 2) (c_str "key, please") Font_8x16 1;;
    update_screen
  else if decide (result = CB_IN_LEARN_OFF) then
    clear_screen;;
    puts_at 8 16 (c_str "Press the off") Font_8x16 1;;
    puts_at 8 (16 * 2) (c_str "key, please") Font_8x16 1;;
    update_screen
  else mret tt.

(** A call through the event's pointer. *)
Definition invoke (cb : call_back) (result : Z) : prog fw unit :=
  match cb with
  | matchCallBack_p => matchCallBack result
  | learnCallBack_p => learnCallBack result
  | cb_null | cb_indeterminate => fail WildCall
  end.

Definition cleanLastMatchRes : prog fw unit := modify (λ s, s <| matchRes := RES_NULL |>).

(** ** Oled1309.c *)

Definition st7567Init : prog fw unit :=
  draw ST7567_Init;; rt_thread_mdelay 100;; clear_screen.

Definition LCD_Test : prog fw unit :=
  puts_at 5 5 (c_str "ABCDEFGHIJKLMNOPQRSTUVWXYZ") Font_5x7 1;; update_screen.

(** The argument is [&backlightTime] at every call. *)
Definition wakeUpOledBackLight : prog fw unit :=
  modify (λ s, s <| backlightTime := 0 |>);; rt_pin_write OLED_BACK_LIGHT true.
Definition monitorBackLight : prog fw unit :=
  t ← gets backlightTime;
  if decide (t < 60) then modify (λ s, s <| backlightTime := t + 1 |>)
  else rt_pin_write OLED_BACK_LIGHT false.

Inductive press_type : Set := NULL_PRESS | SHORT_PRESS | LONG_PRESS.
#[export] Instance press_type_eq_dec : EqDecision press_type.
Proof. solve_decision. Defined.

Definition set_reflash : prog fw unit := modify (λ s, s <| reflash_flag := YES |>).
Definition set_page (f : type_page_t → type_page_t) : prog fw unit :=
  modify (λ s, s <| pageSelect := f (pageSelect s) |>).

(** [event.call_back] is left unassigned here too; [info] is a u8. *)
Definition EnterBtnCallBack (type : press_type) : prog fw unit :=
  match type with
  | SHORT_PRESS =>
      wakeUpOledBackLight;;
      clear_screen;;
      set_page (λ p, p <| select := YES |>);;
      set_reflash
  | LONG_PRESS =>
      pi ← gets pageInfor;
      let info := u8 pi in
      (if decide (ONEKEY_MATCH_PAGE = info) then
         cleanLastMatchRes;; setinfraredEvent (EV EVENT_SEND_MATCH_OVER cb_indeterminate)
       else if decide (LEARN_ON_PAGE = info) then
         setinfraredEvent (EV EVENT_SEND_LEARN_ON_OVER cb_indeterminate)
       else if decide (LEARN_OFF_PAGE = info) then
         setinfraredEvent (EV EVENT_SEND_LEARN_OFF_OVER cb_indeterminate)
       else mret tt);;
      modify (λ s, s <| pageInfor := Z.shiftr (pageInfor s) 8 |>)
  | NULL_PRESS => mret tt
  end.

Definition cursor_up (p : type_page_t) : type_page_t :=
  if decide (cusor p > cusor_home p) then p <| cusor := u8 (cusor p - 1) |>
  else p <| cusor := cusor_max p |>.
Definition cursor_down (p : type_page_t) : type_page_t :=
  if decide (cusor_max p > 0) then
    if decide (cusor p < cusor_max p) then p <| cusor := u8 (cusor p + 1) |>
    else p <| cusor := cusor_home p |>
  else p.

Definition UpBtnCallBack (type : press_type) : prog fw unit :=
  match type with
  | SHORT_PRESS => wakeUpOledBackLight;; clear_screen;; set_page cursor_up;; set_reflash
  | _ => mret tt
  end.
Definition DowmBtnCallBack (type : press_type) : prog fw unit :=
  match type with
  | SHORT_PRESS => wakeUpOledBackLight;; clear_screen;; set_page cursor_down;; set_reflash
  | _ => mret tt
  end.

Definition pageSelectSet (home max : Z) : prog fw unit :=
  set_page (λ p, p <| cusor_home := home |> <| cusor := home |> <| cusor_max := max |>).

Definition pageSetting (page : Z) : prog fw unit :=
  if decide (page = HOME_PAGE) then pageSelectSet 1 1
  else if decide (page = SETTING_PAGE) then pageSelectSet 1 4
  else if decide (page = LEARN_MODE_PAGE) then pageSelectSet 1 2
  else if decide (page = SELECT_MODE_PAGE) then
    pageSelectSet 1 2;;
    mi ← getModuleInfo;
    set_page (λ p, p <| cusor := if decide (mi_select mi = SELECT_MATCH) then 1 else 2 |>)
  else if decide (page = TEST_PAGE) then pageSelectSet 1 2
  else mret tt.

(** [pageInfor <<= 8; pageInfor |= page;] *)
Definition push_page (page : Z) : prog fw unit :=
  modify (λ s, s <| pageInfor := Z.lor (u32 (Z.shiftl (pageInfor s) 8)) page |>).

Definition unselect : prog fw unit := set_page (λ p, p <| select := NO |>).

Definition pageProgram (page : Z) : prog fw unit :=
  (if decide (page = HOME_PAGE) then
     p ← gets pageSelect; HomePage p;;
     p ← gets pageSelect;
     if decide (YES = select p) then
       (if decide (1 = cusor p) then push_page SETTING_PAGE else mret tt);; unselect
     else mret tt
   else if decide (page = SETTING_PAGE) then
     p ← gets pageSelect; SettingPage p;;
     p ← gets pageSelect;
     if decide (YES = select p) then
       (if decide (1 = cusor p) then push_page SELECT_MODE_PAGE
        else if decide (2 = cusor p) then push_page ONEKEY_MATCH_PAGE
        else if decide (3 = cusor p) then push_page LEARN_MODE_PAGE
        else if decide (4 = cusor p) then push_page TEST_PAGE
        else mret tt);; unselect
     else mret tt
   else if decide (page = ONEKEY_MATCH_PAGE) then oneKeyMatchPage
   else if decide (page = SELECT_MODE_PAGE) then selectModePage
   else if decide (page = LEARN_MODE_PAGE) then
     p ← gets pageSelect; learnPage p;;
     p ← gets pageSelect;
     if decide (YES = select p) then
       (if decide (1 = cusor p) then push_page LEARN_ON_PAGE
        else if decide (2 = cusor p) then push_page LEARN_OFF_PAGE
        else mret tt);; unselect
     else mret tt
   else if decide (page = LEARN_ON_PAGE) then learnOnPage
   else if decide (page = LEARN_OFF_PAGE) then learnOffPage
   else if decide (page = TEST_PAGE) then testPage
   else mret tt);;
  modify (λ s, s <| reflash_flag := NO |>).

(** [OledTaskEntry] before its loop. *)
Definition OledTaskEntry_init : prog fw unit :=
  st7567Init;; push_page HOME_PAGE;; wakeUpOledBackLight.

Definition set_ot (f : oled_task → oled_task) : prog fw unit :=
  modify (λ s, s <| fw_ot := f (fw_ot s) |>).

(** The two calls of [TimerTask]; the assignment stores the counter a second time. *)
Definition oled_timers (t : oled_task) : oled_task :=
  let '(f1, c1) := TimerTask (ot_time1S t) 20 in
  let '(f3, c3) := TimerTask (ot_time3S t) 60 in
  t <| ot_Timer1sTouch := f1 |> <| ot_time1S := c1 |>
    <| ot_Timer3sTouch := f3 |> <| ot_time3S := c3 |>.

(** One turn of the loop. *)
Definition OledTaskEntry_turn : prog fw unit :=
  set_ot oled_timers;;
  pi ← gets pageInfor;
  let now := u8 (Z.land pi 0x000000FF) in
  set_ot (λ t, t <| nowPage := now |>);;
  ot ← gets fw_ot;
  (if decide (nowPagePre ot ≠ now) then
     pageSetting now;;
     pageProgram now;;
     set_ot (λ t, t <| nowPagePre := now |>)
   else
     rf ← gets reflash_flag;
     if decide (YES = rf) then pageProgram now else mret tt);;
  mi ← getModuleInfo;
  ot ← gets fw_ot;
  (if decide (ot_ctrl ot ≠ mi_ctrl mi) then
     set_ot (λ t, t <| ot_ctrl := mi_ctrl mi |>);; set_reflash
   else mret tt);;
  ot ← gets fw_ot;
  (if decide (YES = ot_Timer1sTouch ot) then
     monitorBackLight;;
     if decide (SELECT_MODE_PAGE = now ∨ HOME_PAGE = now) then set_reflash else mret tt
   else mret tt);;
  rt_thread_mdelay 50.

(** ** Numbers on the screen *)

Lemma digits_printable fuel n acc :
  0 ≤ n → Forall printable acc → Forall printable (digits fuel n acc).
Proof.
  revert n acc. induction fuel as [|fuel IH]; intros n acc Hn Hacc; cbn [digits]; [done|].
  assert (Forall printable ((48 + n mod 10) :: acc)) as Hacc'
    by (apply Forall_cons; [unfold printable; lia|done]).
  case_decide; [done|]. apply IH; [lia|done].
Qed.

Lemma digits_length fuel k n acc :
  (k < fuel)%nat → 0 ≤ n →
  (n < 10 ^ Z.of_nat (S k) → (length (digits fuel n acc) ≤ length acc + S k)%nat) ∧
  (10 ^ Z.of_nat k ≤ n → (length acc + S k ≤ length (digits fuel n acc))%nat).
Proof.
  revert k n acc. induction fuel as [|fuel IH]; intros k n acc Hk Hn; [lia|]. cbn [digits].
  destruct (decide (n < 10)) as [Hlt|Hge].
  - cbn [length]. split; [lia|]. destruct k as [|k]; [lia|]. intros Hp.
    pose proof (Z.pow_le_mono_r 10 1 (Z.of_nat (S k))). lia.
  - destruct k as [|k].
    + split; [change (10 ^ Z.of_nat 1) with 10; lia|]. intros _.
      destruct fuel as [|fuel]; cbn [digits length]; [lia|].
      assert (∀ fuel n acc, (length acc ≤ length (digits fuel n acc))%nat) as Hmon.
      { clear. induction fuel as [|fuel IH]; intros n acc; cbn [digits]; [lia|].
        case_decide; [cbn; lia|]. etrans; [|apply IH]. cbn. lia. }
      case_decide; [cbn; lia|]. etrans; [|apply Hmon]. cbn. lia.
    + destruct (IH k (n / 10) ((48 + n mod 10) :: acc)) as [Hup Hlo]; [lia|lia|].
      cbn [length] in Hup, Hlo.
      replace (Z.of_nat (S (S k))) with (1 + Z.of_nat (S k)) by lia.
      replace (Z.of_nat (S k)) with (1 + Z.of_nat k) in * by lia.
      rewrite !Z.pow_add_r in * by lia. change (10 ^ 1) with 10 in *.
      split; intros Hp; [specialize (Hup ltac:(lia))|specialize (Hlo ltac:(lia))]; lia.
Qed.

Lemma decimal_short n buf k :
  (k < 10)%nat → 0 ≤ n < 10 ^ Z.of_nat (S k) → Z.of_nat k + 2 ≤ zlen buf →
  ∃ buf', itoa n buf = Ok buf' ∧ c_string buf' ∧ zlen buf' = zlen buf.
Proof.
  intros Hk Hn Hb. pose proof (proj1 (digits_length 10 k n [] Hk (proj1 Hn)) (proj2 Hn)) as Hl.
  cbn [length] in Hl. fold (decimal n) in Hl. unfold itoa.
  assert (0 + zlen (decimal n ++ [0]) ≤ zlen buf) as Hfit
    by (unfold zlen in *; rewrite length_app; cbn [length]; lia).
  rewrite store_bytes_in by (done || lia). eexists. split; [done|]. split.
  - exists (decimal n). eexists. cbn [take Z.to_nat app]. rewrite <- app_assoc. split; [done|].
    apply digits_printable; [lia|apply Forall_nil_2].
  - apply (store_bytes_zlen _ _ 0 (decimal n ++ [0])). rewrite store_bytes_in by (done || lia). done.
Qed.

Lemma itoa_long n buf k :
  (k < 10)%nat → 10 ^ Z.of_nat k ≤ n → zlen buf ≤ Z.of_nat (S k) →
  itoa n buf = Fault OutOfBounds.
Proof.
  intros Hk Hn Hb. pose proof (proj2 (digits_length 10 k n [] Hk ltac:(lia)) Hn) as Hl.
  cbn [length] in Hl. fold (decimal n) in Hl. unfold itoa. apply store_bytes_out; [lia|].
  unfold zlen in *. rewrite length_app. cbn [length]. lia.
Qed.

(** ** The pages keep the invariant *)

Lemma draw_inv `{HeapShape} {A} (m : prog lcd A) : preserves lcd_wf m → preserves fw_inv (draw m).
Proof. apply zoom_lcd_inv. Qed.

Lemma clear_screen_inv `{HeapShape} : preserves fw_inv clear_screen.
Proof. apply draw_inv, Fill_safe. Qed.
Lemma update_screen_inv `{HeapShape} : preserves fw_inv update_screen.
Proof. apply draw_inv, UpdateScreen_safe. Qed.
#[export] Hint Resolve clear_screen_inv update_screen_inv : preserves.

Lemma puts_inv `{HeapShape} s f c : font_ok f → c_string s → preserves fw_inv (draw (ST7567_Puts s f c)).
Proof. intros. by apply draw_inv, Puts_safe. Qed.
Lemma puts_at_inv `{HeapShape} x y s f c : font_ok f → c_string s → preserves fw_inv (puts_at x y s f c).
Proof.
  intros. unfold puts_at. preserves_all; [apply draw_inv, GotoXY_safe|by apply puts_inv].
Qed.

Ltac lit := first [ apply c_str_lit; repeat (apply Forall_cons; [done|]); apply Forall_nil_2
                  | apply c_str_ok; repeat (apply Forall_cons; [done|]); apply Forall_nil_2 ].
Ltac font := first [ exact Font_8x16_ok | exact Font_6x12_ok | exact Font_16x32_ok | exact Font_5x7_ok ].
#[export] Hint Extern 1 (preserves fw_inv (puts_at _ _ _ _ _)) =>
  (apply puts_at_inv; [font|lit]) : preserves.
#[export] Hint Extern 1 (preserves fw_inv (draw (ST7567_Puts _ _ _))) =>
  (apply puts_inv; [font|lit]) : preserves.

Lemma SettingPage_inv `{HeapShape} p : cursor_ok p → preserves fw_inv (SettingPage p).
Proof.
  intros Hp. unfold SettingPage. cbn zeta.
  assert (∀ i, 0 ≤ i < 4 → ∃ nm, load setting_names i = Ok nm ∧ c_string nm) as Hload.
  { intros i Hi. assert (i = 0 ∨ i = 1 ∨ i = 2 ∨ i = 3) as [-> | [-> | [-> | ->]]] by lia;
      (eexists; split; [reflexivity|lit]). }
  assert (0 ≤ cusor p ≤ 4) as Hc by (destruct Hp; lia).
  assert (∀ i col (k : Z → Z), 0 ≤ i < 4 → preserves fw_inv
    (name ← lift (load setting_names i); puts_at 8 col name Font_8x16 (k i))) as Hrow.
  { intros i col k Hi. destruct (Hload i Hi) as (nm & -> & Hnm). intros s Hs.
    rewrite wp_bind, wp_lift. cbn [owp]. by apply puts_at_inv; [font| |]. }
  preserves_step; [apply clear_screen_inv|]. preserves_step; [|apply update_screen_inv].
  preserves_step; apply preserves_for_range; intros i Hi.
  - apply (Hrow i (16 + i * 16) (λ _, _)). lia.
  - apply (Hrow (i + cusor p - 3) (16 + i * 16) (λ _, _)). lia.
Qed.

Lemma HomePage_inv `{HeapShape} p : preserves fw_inv (HomePage p).
Proof.
  unfold HomePage. cbn zeta.
  assert (∃ name, strcpy (c_str " " ++ zeros 20) (c_str " Setting       ") = Ok name ∧
    ∃ name', strcat name IAR_VERSION = Ok name' ∧ c_string name') as (name & Hn & name' & Hn' & Hs').
  { eexists. split; [vm_compute; reflexivity|]. eexists. split; [vm_compute; reflexivity|].
    exists (chars " Setting       V1.0.0"), []. split; [reflexivity|].
    repeat (apply Forall_cons; [done|]); apply Forall_nil_2. }
  preserves_step; [apply clear_screen_inv|].
  rewrite Hn. intros s Hs. rewrite wp_bind, wp_lift. cbn [owp].
  rewrite Hn', wp_bind, wp_lift. cbn [owp]. rewrite wp_bind.
  eapply wp_mono; [by apply puts_at_inv; [font| |]|]. clear s Hs. intros ? s Hs.
  rewrite wp_bind. unfold getNowTemp. rewrite wp_gets, wp_bind, wp_lift.
  destruct (decimal_short (nowTemp s) (c_str " " ++ zeros 3) 1) as (t & -> & Ht & _);
    [lia|pose proof (inv_temp s Hs); cbn; lia|done|]. cbn [owp]. revert s Hs.
  change (preserves fw_inv (puts_at 8 22 t Font_16x32 1;;
    draw (ST7567_DrawCircle 42 30 1 1);;
    puts_at 44 30 (c_str "C") Font_8x16 1;;
    sw ← getSwitchState;
    puts_at 78 22 (if decide (YES = sw) then c_str "On" else c_str "Off") Font_8x16 1;;
    draw (ST7567_DrawLine (8 + 3 * 16) 38 127 38 1);;
    draw (ST7567_GotoXY 70 39);;
    mi ← getModuleInfo;
    (if decide (SELECT_MATCH = mi_select mi) then
       _ ← draw (ST7567_Puts (c_str "match") Font_8x16 1); mret tt
     else if decide (SELECT_LEARN = mi_select mi) then
       _ ← draw (ST7567_Puts (c_str "learn") Font_8x16 1); mret tt
     else mret tt);;
    update_screen)).
  unfold getSwitchState, getModuleInfo. preserves_all.
  - by apply puts_at_inv; [font|].
  - apply draw_inv, DrawCircle_safe. lia.
  - apply puts_at_inv; [font|]. case_decide; lit.
  - apply draw_inv, DrawLine_safe; lia.
  - apply draw_inv, GotoXY_safe.
Qed.

Lemma set_page_inv `{HeapShape} f :
  (∀ p, cursor_ok p → cursor_ok (f p)) → preserves fw_inv (set_page f).
Proof. intros. unfold set_page. inv_update. auto. Qed.
Lemma set_reflash_inv `{HeapShape} : preserves fw_inv set_reflash.
Proof. unfold set_reflash. inv_update. Qed.
Lemma unselect_inv `{HeapShape} : preserves fw_inv unselect.
Proof. by apply set_page_inv. Qed.
#[export] Hint Resolve set_reflash_inv unselect_inv : preserves.

Lemma strcpy_show show lit :
  zlen show = 6 → (length lit = 5)%nat → Forall printable lit →
  ∃ show', strcpy show (lit ++ [0]) = Ok show' ∧ c_string show' ∧ zlen show' = 6.
Proof.
  intros Hs Hl Hp. unfold strcpy.
  assert (0 + zlen (lit ++ [0]) ≤ zlen show) as Hfit
    by (unfold zlen in *; rewrite length_app; cbn [length]; lia).
  rewrite store_bytes_in by (done || lia). eexists. split; [done|]. split.
  - exists lit. eexists. cbn [take Z.to_nat app]. by rewrite <- app_assoc.
  - rewrite <- Hs. apply (store_bytes_zlen _ _ 0 (lit ++ [0])).
    rewrite store_bytes_in by (done || lia). done.
Qed.

Lemma set_select_inv `{HeapShape} v : is_u8 v → preserves fw_inv (setModuleInfo (λ m, m <| mi_select := v |>)).
Proof. intros. apply setModuleInfo_inv; [|done]. unfold mi_wf, upd; cbn. tauto. Qed.

Lemma set_select_page_inv `{HeapShape} :
  preserves fw_inv (modify (λ s, s <| pageSelect := pageSelect s <| select := NO |> |>)).
Proof. apply unselect_inv. Qed.
#[export] Hint Resolve set_select_page_inv : preserves.

Lemma selectModePage_inv `{HeapShape} : preserves fw_inv selectModePage.
Proof.
  unfold selectModePage. preserves_step; [apply clear_screen_inv|].
  preserves_step; [apply preserves_gets|]. rename a0 into page.
  apply preserves_gets_bind. intros s0 [Hshow Hlen]%inv_show.
  set (ot := fw_ot s0) in *.
  assert (∃ show, (if decide (1 = cusor page) then strcpy (sm_show ot) (c_str "match")
               else if decide (2 = cusor page) then strcpy (sm_show ot) (c_str "learn")
               else Ok (sm_show ot)) = Ok show ∧ c_string show ∧ zlen show = 6)
    as (show & Hs & Hok & Hsl).
  { repeat case_decide; [apply strcpy_show|apply strcpy_show|eauto]; try done;
      repeat (apply Forall_cons; [done|]); apply Forall_nil_2. }
  apply (preserves_lift_bind _ _ show); [exact Hs|]. preserves_all.
  - by inv_update.
  - by apply set_select_inv.
  - by apply set_select_inv.
  - by inv_update.
  - by apply puts_at_inv; [font|].
Qed.

#[export] Hint Extern 1 (preserves fw_inv (setinfraredEvent _)) =>
  (apply setinfraredEvent_inv; done) : preserves.

Lemma oneKeyMatchPage_inv `{HeapShape} : preserves fw_inv oneKeyMatchPage.
Proof. unfold oneKeyMatchPage. preserves_all. Qed.
Lemma testPage_inv `{HeapShape} : preserves fw_inv testPage.
Proof. unfold testPage. preserves_all. Qed.
Lemma learnPage_inv `{HeapShape} p : preserves fw_inv (learnPage p).
Proof. unfold learnPage. preserves_all. Qed.
Lemma learnOnPage_inv `{HeapShape} : preserves fw_inv learnOnPage.
Proof. unfold learnOnPage. preserves_all. Qed.
Lemma learnOffPage_inv `{HeapShape} : preserves fw_inv learnOffPage.
Proof. unfold learnOffPage. preserves_all. Qed.
#[export] Hint Resolve selectModePage_inv oneKeyMatchPage_inv testPage_inv learnPage_inv
  learnOnPage_inv learnOffPage_inv HomePage_inv : preserves.

Lemma message_page_inv `{HeapShape} s c : c_string s → preserves fw_inv (message_page s c).
Proof. intros. unfold message_page. preserves_all. by apply puts_at_inv; [font|]. Qed.
#[export] Hint Extern 1 (preserves fw_inv (message_page _ _)) =>
  (apply message_page_inv; lit) : preserves.

(** The page that confirms a save prints the brand code into five bytes. *)
Lemma matchCallBack_inv `{HeapShape} r s :
  fw_inv s → (r = INFRARED_EVENT_SAVE_OK → mi_brand_code (fw_mi s) ≤ BRAND_MAX) →
  wp (matchCallBack r) (λ _, fw_inv) s.
Proof.
  intros Hs Hb. unfold matchCallBack.
  case_decide as H1; [refine (message_page_inv _ _ _ s Hs); lit|].
  case_decide as H2; [refine (message_page_inv _ _ _ s Hs); lit|].
  case_decide as H3; [|case_decide; [refine (message_page_inv _ _ _ s Hs); lit|done]].
  rewrite wp_bind. eapply wp_mono.
  { apply (wp_keeps fw_mi _ (λ _, fw_inv)); [apply keeps_zoom; by intros []|exact (clear_screen_inv s Hs)]. }
  intros _ s1 [Hs1 Hmi]. pose proof (inv_mi s1 Hs1) as (_&_&_&_&_&Hu&_).
  unfold getModuleInfo. rewrite wp_bind, wp_gets, Hmi in *. specialize (Hb H3).
  unfold BRAND_MAX, is_u16 in *.
  destruct (decimal_short (mi_brand_code (fw_mi s)) (zeros 5) 3) as (b & Hb' & Hok & _);
    [lia|cbn; lia|done|].
  rewrite wp_bind, wp_lift, Hb'. cbn [owp]. clear -Hs1 Hok. revert s1 Hs1.
  match goal with |- ∀ s1, fw_inv s1 → wp ?m _ s1 => change (preserves fw_inv m) end.
  preserves_all. by apply puts_at_inv; [font|].
Qed.

Lemma learnCallBack_inv `{HeapShape} r : preserves fw_inv (learnCallBack r).
Proof. unfold learnCallBack. preserves_all. Qed.

Lemma invoke_inv `{HeapShape} cb r s :
  cb = matchCallBack_p ∨ cb = learnCallBack_p →
  fw_inv s → (cb = matchCallBack_p → mi_brand_code (fw_mi s) ≤ BRAND_MAX) →
  wp (invoke cb r) (λ _, fw_inv) s.
Proof.
  intros [-> | ->] Hs Hb; [apply matchCallBack_inv; auto|apply (learnCallBack_inv r s Hs)].
Qed.

(** ** The display task and the buttons keep the invariant *)

Lemma monitorBackLight_inv `{HeapShape} : preserves fw_inv monitorBackLight.
Proof. unfold monitorBackLight. preserves_all. inv_update. Qed.
Lemma wakeUp_inv `{HeapShape} : preserves fw_inv wakeUpOledBackLight.
Proof. unfold wakeUpOledBackLight. preserves_all. inv_update. Qed.
#[export] Hint Resolve monitorBackLight_inv wakeUp_inv : preserves.

Lemma EnterBtn_inv `{HeapShape} t : preserves fw_inv (EnterBtnCallBack t).
Proof.
  destruct t; cbn [EnterBtnCallBack]; cbn zeta; preserves_all.
  - apply set_page_inv. done.
  - unfold cleanLastMatchRes. inv_update.
  - apply pageReturn_inv.
Qed.
Lemma UpBtn_inv `{HeapShape} t : preserves fw_inv (UpBtnCallBack t).
Proof.
  destruct t; cbn [UpBtnCallBack]; preserves_all. apply set_page_inv. intros p.
  unfold cursor_ok, cursor_up, u8. case_decide; unfold upd; cbn; lia.
Qed.
Lemma DownBtn_inv `{HeapShape} t : preserves fw_inv (DowmBtnCallBack t).
Proof.
  destruct t; cbn [DowmBtnCallBack]; preserves_all. apply set_page_inv. intros p.
  unfold cursor_ok, cursor_down, u8. repeat case_decide; unfold upd; cbn; lia.
Qed.

Lemma pageSelectSet_inv `{HeapShape} max : 1 ≤ max ≤ 4 → preserves fw_inv (pageSelectSet 1 max).
Proof. intros. apply set_page_inv. intros p _. right. unfold upd; cbn. lia. Qed.

(** The cursor of the mode page is on the mode chosen. *)
Lemma pageSetting_inv `{HeapShape} page : preserves fw_inv (pageSetting page).
Proof.
  unfold pageSetting. do 3 (preserves_step; [apply pageSelectSet_inv; lia|]).
  preserves_step; [|preserves_step; [apply pageSelectSet_inv; lia|apply preserves_ret]].
  intros s Hs. rewrite wp_bind. unfold pageSelectSet, set_page at 1. rewrite wp_modify.
  rewrite wp_bind. unfold getModuleInfo. rewrite wp_gets. unfold set_page. rewrite wp_modify.
  destruct Hs. constructor; try assumption. right. unfold upd; cbn. case_decide; lia.
Qed.
#[export] Hint Resolve pageSetting_inv : preserves.

(** ** Drawing touches nothing but the display *)

Definition lcd_blind {T} (f : fw → T) : Prop := ∀ s d, f (s <| fw_lcd := d |>) = f s.

Lemma draw_keeps {T A} (f : fw → T) (m : prog lcd A) : lcd_blind f → keeps f (draw m).
Proof. apply keeps_zoom. Qed.
Lemma clear_screen_keeps {T} (f : fw → T) : lcd_blind f → keeps f clear_screen.
Proof. apply draw_keeps. Qed.
Lemma update_screen_keeps {T} (f : fw → T) : lcd_blind f → keeps f update_screen.
Proof. apply draw_keeps. Qed.
Lemma puts_at_keeps {T} (f : fw → T) x y s ft c : lcd_blind f → keeps f (puts_at x y s ft c).
Proof. intros. unfold puts_at. keeps_all; by apply draw_keeps. Qed.
#[export] Hint Resolve draw_keeps clear_screen_keeps update_screen_keeps puts_at_keeps : keeps.

Lemma pageInfor_blind : lcd_blind pageInfor.
Proof. intros s d. reflexivity. Qed.
#[export] Hint Resolve pageInfor_blind : keeps.

Lemma HomePage_keeps {T} (f : fw → T) p : lcd_blind f → keeps f (HomePage p).
Proof. intros. unfold HomePage, getNowTemp, getSwitchState, getModuleInfo. cbn zeta. keeps_all. Qed.
Lemma SettingPage_keeps {T} (f : fw → T) p : lcd_blind f → keeps f (SettingPage p).
Proof. intros. unfold SettingPage. cbn zeta. keeps_all. Qed.
Lemma learnPage_keeps {T} (f : fw → T) p : lcd_blind f → keeps f (learnPage p).
Proof. intros. unfold learnPage. keeps_all. Qed.

(** ** The menu *)

(** Where the enter key leads from an entry of a menu page. *)
Definition menu (page cursor : Z) : option Z :=
  if decide (page = HOME_PAGE ∧ cursor = 1) then Some SETTING_PAGE
  else if decide (page = SETTING_PAGE ∧ cursor = 1) then Some SELECT_MODE_PAGE
  else if decide (page = SETTING_PAGE ∧ cursor = 2) then Some ONEKEY_MATCH_PAGE
  else if decide (page = SETTING_PAGE ∧ cursor = 3) then Some LEARN_MODE_PAGE
  else if decide (page = SETTING_PAGE ∧ cursor = 4) then Some TEST_PAGE
  else if decide (page = LEARN_MODE_PAGE ∧ cursor = 1) then Some LEARN_ON_PAGE
  else if decide (page = LEARN_MODE_PAGE ∧ cursor = 2) then Some LEARN_OFF_PAGE
  else None.

Definition menu_page (page : Z) : Prop :=
  page = HOME_PAGE ∨ page = SETTING_PAGE ∨ page = LEARN_MODE_PAGE.

Definition pushed (pi page : Z) : Z := Z.lor (u32 (Z.shiftl pi 8)) page.

(** What the enter key does once the page is drawn. *)
Definition after_enter (page : Z) (s : fw) : fw :=
  if decide (select (pageSelect s) = YES) then
    s <| pageInfor := match menu page (cusor (pageSelect s)) with
                      | Some p => pushed (pageInfor s) p
                      | None => pageInfor s
                      end |>
      <| pageSelect := pageSelect s <| select := NO |> |>
      <| reflash_flag := NO |>
  else s <| reflash_flag := NO |>.

Definition draw_page (page : Z) (p : type_page_t) : prog fw unit :=
  if decide (page = HOME_PAGE) then HomePage p
  else if decide (page = SETTING_PAGE) then SettingPage p else learnPage p.

Lemma pageProgram_menu page s a s1 :
  menu_page page → draw_page page (pageSelect s) s = Ok (a, s1) →
  pageProgram page s = Ok (tt, after_enter page s1).
Proof.
  intros Hpage. unfold pageProgram, draw_page, mbind, prog_bind, gets. cbv beta iota.
  unfold after_enter, menu.
  destruct Hpage as [-> | [-> | ->]]; known_decides; intros ->; cbv beta iota;
    (destruct (decide (select (pageSelect s1) = YES)) as [Hsel|Hsel];
      [rewrite (decide_True (P := YES = _)) by done
      |rewrite (decide_False (P := YES = _)) by auto; by destruct s1]);
    repeat case_decide; try (exfalso; lia); by destruct s1 as [? ? ? ? ? ? ? ? ? []].
Qed.

(** The menu leads from a page stack to a page stack, and back. *)
Lemma pushed_ok pi c p :
  stack_ok pi → menu (u8 pi) c = Some p →
  stack_ok (pushed pi p) ∧ u8 (pushed pi p) = p ∧ Z.shiftr (pushed pi p) 8 = pi.
Proof.
  unfold stack_ok, page_stacks. rewrite !list_elem_of_In. cbn [In]. unfold menu.
  intros H Hm. repeat destruct H as [<-|H]; try done.
  all: repeat (case_decide;
    [ first [ injection Hm as <-; (split; [vm_compute; tauto|done])
            | match goal with Hc : _ ∧ _ |- _ => exfalso; vm_compute in Hc; lia end ]
    | ]); done.
Qed.

Lemma stack_page_range pi : stack_ok pi → 0 ≤ u8 pi ≤ 7.
Proof.
  unfold stack_ok, page_stacks. rewrite !list_elem_of_In. cbn [In].
  intros H. repeat destruct H as [<-|H]; try done.
Qed.

Lemma after_enter_inv `{HeapShape} page s :
  fw_inv s → page = u8 (pageInfor s) → fw_inv (after_enter page s).
Proof.
  intros Hs ->. unfold after_enter. destruct (decide (select (pageSelect s) = YES)).
  - destruct Hs. constructor; unfold upd; cbn [fw_mi fw_uart1 fw_uart2 switchState nowTemp
      infrared_event mater_envent pageInfor pageSelect fw_lcd fw_heap fw_ut fw_ot]; try assumption.
    destruct (menu _ _) as [p|] eqn:Hm; [|done]. by eapply pushed_ok.
  - destruct Hs. by constructor.
Qed.

Lemma draw_page_inv `{HeapShape} page p : cursor_ok p → preserves fw_inv (draw_page page p).
Proof.
  intros. unfold draw_page. preserves_all. by apply SettingPage_inv.
Qed.

Lemma draw_page_keeps {T} (f : fw → T) page p : lcd_blind f → keeps f (draw_page page p).
Proof.
  intros. unfold draw_page. repeat case_decide;
    [by apply HomePage_keeps|by apply SettingPage_keeps|by apply learnPage_keeps].
Qed.

(** A menu page is drawn, then the enter key is served. *)
Lemma pageProgram_menu_ok `{HeapShape} page s :
  fw_inv s → menu_page page →
  ∃ s1, pageProgram page s = Ok (tt, after_enter page s1) ∧ fw_inv s1 ∧
        s1 = s <| fw_lcd := fw_lcd s1 |>.
Proof.
  intros Hs Hp. pose proof (inv_cursor s Hs) as Hc.
  pose proof (draw_page_inv page (pageSelect s) Hc s Hs) as Hw.
  assert (keeps (λ s, s <| fw_lcd := blank_lcd |>) (draw_page page (pageSelect s))) as Hk
    by (apply draw_page_keeps; by intros [] ?).
  apply wp_ok in Hw as (a & s1 & Hrun & Hs1). exists s1.
  split; [by eapply pageProgram_menu|]. split; [done|].
  pose proof (Hk _ _ _ Hrun) as Heq. cbv beta in Heq. destruct s, s1. unfold upd in *. cbn in *.
  by injection Heq as <- <- <- <- <- <- <- <- <- <- <- <- <- <- <- <- <- <- <- <-.
Qed.

#[export] Instance menu_page_dec page : Decision (menu_page page).
Proof. unfold menu_page. apply _. Defined.

Lemma clear_reflash_inv `{HeapShape} : preserves fw_inv (modify (λ s, s <| reflash_flag := NO |>)).
Proof. inv_update. Qed.

Lemma pageProgram_inv `{HeapShape} page s :
  fw_inv s → page = u8 (pageInfor s) → wp (pageProgram page) (λ _, fw_inv) s.
Proof.
  intros Hs Hpage. destruct (decide (menu_page page)) as [Hm|Hm].
  - destruct (pageProgram_menu_ok page s Hs Hm) as (s1 & Hrun & Hs1 & Heq).
    unfold wp. rewrite Hrun. apply after_enter_inv; [done|]. rewrite Heq, Hpage. done.
  - revert s Hs Hpage. intros s Hs _. revert s Hs.
    change (preserves fw_inv (pageProgram page)). unfold pageProgram, menu_page in *.
    apply preserves_bind; [|intros; apply clear_reflash_inv].
    do 2 (apply preserves_if; [intros; tauto|intros _]).
    do 2 (preserves_step; [preserves_all|]).
    apply preserves_if; [intros; tauto|intros _]. preserves_all.
Qed.

Lemma set_ot_inv `{HeapShape} f : (∀ t, sm_show (f t) = sm_show t) → preserves fw_inv (set_ot f).
Proof. intros Hf. unfold set_ot. inv_update. by rewrite Hf. Qed.

Lemma OledTaskEntry_init_inv `{HeapShape} :
  ∀ s, fw_inv s → pageInfor s = 0 → wp OledTaskEntry_init (λ _, fw_inv) s.
Proof.
  intros s Hs Hpi. unfold OledTaskEntry_init. rewrite wp_bind.
  assert (preserves fw_inv st7567Init) as Hi
    by (unfold st7567Init; preserves_all; apply draw_inv, Init_safe).
  assert (keeps pageInfor st7567Init) as Hk.
  { unfold st7567Init, rt_thread_mdelay, emit. keeps_all. }
  eapply wp_mono; [apply (wp_keeps pageInfor _ (λ _, fw_inv)); [done|by apply Hi]|].
  cbv beta. intros _ s1 [Hs1 Hpi1]. rewrite wp_bind. unfold push_page. rewrite wp_modify.
  apply wakeUp_inv. destruct Hs1. constructor; try assumption. unfold upd; cbn.
  rewrite Hpi1, Hpi. by left.
Qed.

Lemma OledTaskEntry_turn_inv `{HeapShape} : preserves fw_inv OledTaskEntry_turn.
Proof.
  intros s Hs. unfold OledTaskEntry_turn. rewrite wp_bind. unfold set_ot at 1. rewrite wp_modify.
  set (s1 := s <| fw_ot := _ |>).
  assert (fw_inv s1) as Hs1.
  { apply (set_ot_inv oled_timers). { intros t. unfold oled_timers, TimerTask. by repeat case_decide. }
    done. }
  rewrite wp_bind, wp_gets. cbn zeta.
  set (now := u8 (Z.land (pageInfor s1) 0x000000FF)).
  assert (now = u8 (pageInfor s1)) as Hnow.
  { unfold now. change 0xFF with (Z.ones 8). rewrite Z.land_ones by lia. unfold u8. lia. }
  rewrite wp_bind. unfold set_ot at 1. rewrite wp_modify. set (s2 := s1 <| fw_ot := _ |>).
  assert (fw_inv s2) as Hs2 by (by apply (set_ot_inv (λ t, t <| nowPage := now |>))).
  assert (now = u8 (pageInfor s2)) as Hnow2 by done. clearbody now.
  rewrite wp_bind, wp_gets, wp_bind.
  eapply (wp_mono _ (λ _, fw_inv)).
  - case_decide.
    + assert (keeps pageInfor (pageSetting now)) as Hk.
      { unfold pageSetting, pageSelectSet, set_page, getModuleInfo. keeps_all. }
      rewrite wp_bind. eapply wp_mono.
      { apply (wp_keeps pageInfor _ (λ _, fw_inv) _ Hk). by apply pageSetting_inv. }
      cbv beta. intros _ s3 [Hs3 Hpi3]. rewrite wp_bind. eapply wp_mono.
      { apply pageProgram_inv; [done|]. by rewrite Hpi3. }
      intros ? s4 Hs4. by apply set_ot_inv.
    + rewrite wp_bind, wp_gets. case_decide; [by apply pageProgram_inv|done].
  - clear. intros ? s Hs. revert s Hs.
    match goal with |- ∀ s, fw_inv s → wp ?m ?Q s => change (preserves fw_inv m) end.
    preserves_all; by apply set_ot_inv.
Qed.

(** ** Properties *)


(** A display task that stands on the settings page with the cursor on an entry. *)
Definition at_settings (c : Z) : fw :=
  boot_fw started sample_mi <| pageInfor := SETTING_PAGE |> <| pageSelect := mk_page 1 4 c YES |>.

Lemma at_settings_inv c : 1 ≤ c ≤ 4 → @fw_inv started_shape (at_settings c).
Proof.
  intros Hc. destruct (booted_inv sample_mi) as []; [by vm_compute|].
  constructor; try assumption; [right; unfold at_settings, upd; cbn; lia|right; left].
Qed.


(** The entries of a page, and the cursor [k] entries further, round the page. *)
Definition entries (p : type_page_t) : Z := cusor_max p - cusor_home p + 1.
Definition cursor_at (k : Z) (p : type_page_t) : type_page_t :=
  p <| cusor := cusor_home p + (cusor p - cusor_home p + k) mod entries p |>.

Lemma cursor_down_at p : cursor_ok p → cursor_down p = cursor_at 1 p.
Proof.
  destruct p as [home max c sel]. unfold cursor_ok, cursor_down, cursor_at, entries, upd, u8. cbn. intros Hp.
  case_decide; [|f_equal; assert (max - home + 1 = 1 ∧ c = home) as [-> ->] by lia; rewrite Z.mod_1_r; lia].
  case_decide; f_equal; [rewrite Z.mod_small by lia; rewrite Z.mod_small by lia; lia|].
  replace (c - home + 1) with (max - home + 1) by lia. rewrite Z.mod_same by lia. lia.
Qed.

Lemma cursor_up_at p : cursor_ok p → cursor_up p = cursor_at (-1) p.
Proof.
  destruct p as [home max c sel]. unfold cursor_ok, cursor_up, cursor_at, entries, upd, u8. cbn. intros Hp.
  case_decide; f_equal; [rewrite Z.mod_small by lia; rewrite Z.mod_small by lia; lia|].
  rewrite <- (Z.mod_unique (c - home + -1) (max - home + 1) (-1) (max - home)); lia.
Qed.

Lemma cursor_at_ok k p : cursor_ok p → cursor_ok (cursor_at k p).
Proof.
  destruct p as [home max c sel]. unfold cursor_ok, cursor_at, entries, upd. cbn. intros Hp.
  pose proof (Z.mod_pos_bound (c - home + k) (max - home + 1) ltac:(lia)). lia.
Qed.

Lemma cursor_at_0 p : cursor_ok p → cursor_at 0 p = p.
Proof.
  destruct p as [home max c sel]. unfold cursor_ok, cursor_at, entries, upd. cbn. intros Hp. f_equal.
  rewrite Z.add_0_r, Z.mod_small by lia. lia.
Qed.

Lemma cursor_at_add j k p : cursor_ok p → cursor_at j (cursor_at k p) = cursor_at (k + j) p.
Proof.
  destruct p as [home max c sel]. unfold cursor_ok, cursor_at, entries, upd. cbn. intros Hp. f_equal. f_equal.
  replace (home + (c - home + k) mod (max - home + 1) - home + j) with ((c - home + k) mod (max - home + 1) + j) by lia.
  rewrite Zplus_mod_idemp_l. f_equal. lia.
Qed.

(** C26: on every page a short press of the down key moves the cursor to the entry below, of the
    last entry to the first, and one of the up key to the entry above, of the first to the
    last; the frame buffer is cleared, the page is marked to be drawn again, the back light
    goes on, and nothing else changes. So [k] presses of the down key move it [k] entries round the page,
    which reaches every entry, and the two keys undo one another. *)
Theorem cursor_walk s :
  cursor_ok (pageSelect s) →
  let p := pageSelect s in
  let blank := fw_lcd s <| lcd_buffer := replicate (Z.to_nat BUFFER_SIZE) 0x00 |> in
  let moved k := s <| backlightTime := 0 |> <| fw_trace := PinWrite OLED_BACK_LIGHT true :: fw_trace s |>
                   <| fw_lcd := blank |> <| pageSelect := cursor_at k p |> <| reflash_flag := YES |> in
  DowmBtnCallBack SHORT_PRESS s = Ok (tt, moved 1) ∧
  UpBtnCallBack SHORT_PRESS s = Ok (tt, moved (-1)) ∧
  (∀ k : nat, Nat.iter k cursor_down p = cursor_at (Z.of_nat k) p) ∧
  (∀ e, cusor_home p ≤ e ≤ cusor_max p → ∃ k : nat, cusor (Nat.iter k cursor_down p) = e) ∧
  cursor_up (cursor_down p) = p ∧ cursor_down (cursor_up p) = p.
Proof.
  intros Hp p blank moved.
  assert (∀ k : nat, Nat.iter k cursor_down p = cursor_at (Z.of_nat k) p) as Hiter.
  { induction k as [|k IH].
    - symmetry. by apply cursor_at_0.
    - rewrite Nat.iter_succ, IH, cursor_down_at by (by apply cursor_at_ok). rewrite cursor_at_add by done. f_equal. lia. }
  split; [|split; [|split; [exact Hiter|split; [|split]]]].
  - cbn [DowmBtnCallBack]. unfold moved. rewrite <- cursor_down_at by done. destruct s. reflexivity.
  - cbn [UpBtnCallBack]. unfold moved. rewrite <- cursor_up_at by done. destruct s. reflexivity.
  - intros e He. exists (Z.to_nat ((e - cusor p) mod entries p)). rewrite Hiter. unfold cursor_at, entries, upd. cbn [cusor].
    pose proof (Z.mod_pos_bound (e - cusor p) (cusor_max p - cusor_home p + 1) ltac:(lia)). rewrite Z2Nat.id by lia.
    rewrite Zplus_mod_idemp_r. replace (cusor p - cusor_home p + (e - cusor p)) with (e - cusor_home p) by lia.
    rewrite Z.mod_small by lia. lia.
  - rewrite cursor_down_at, cursor_up_at, cursor_at_add by (try apply cursor_at_ok; done).
    by apply cursor_at_0.
  - rewrite cursor_up_at, cursor_down_at, cursor_at_add by (try apply cursor_at_ok; done).
    by apply cursor_at_0.
Qed.

Lemma cursor_walk_witness :
  ∃ s', DowmBtnCallBack SHORT_PRESS (at_settings 4) = Ok (tt, s') ∧ cusor (pageSelect s') = 1.
Proof.
  destruct (cursor_walk (at_settings 4)) as (Hrun & _); [right; vm_compute; repeat split; congruence|].
  eexists. split; [exact Hrun|]. reflexivity.
Defined.

(** C35: the page shown after a saved match writes the brand code into five bytes: a
    code of four decimal digits fits, and every longer one is written past the end
    of the array. *)
Theorem save_page_brand_digits `{HeapShape} s :
  fw_inv s → ∀ bc, is_u16 bc →
  let s := s <| fw_mi := fw_mi s <| mi_brand_code := bc |> |> in
  if decide (bc ≤ 9999)
  then ∃ s', matchCallBack INFRARED_EVENT_SAVE_OK s = Ok (tt, s') ∧ fw_inv s'
  else matchCallBack INFRARED_EVENT_SAVE_OK s = Fault OutOfBounds.
Proof.
  intros Hs bc Hbc s1. case_decide as Hle.
  - assert (fw_inv s1) as Hs1.
    { destruct Hs. constructor; try assumption; [unfold mi_wf, upd in *; cbn; tauto|done]. }
    pose proof (matchCallBack_inv INFRARED_EVENT_SAVE_OK s1 Hs1 ltac:(done)) as Hw.
    apply wp_ok in Hw as ([] & s' & Hrun & Hs'). eauto.
  - unfold matchCallBack. known_decides. unfold mbind, prog_bind, clear_screen, draw, zoom.
    unfold ST7567_Fill, modify at 1. cbv beta iota. unfold getModuleInfo, gets, lift.
    change (mi_brand_code _) with bc. by rewrite (itoa_long bc (zeros 5) 4) by (cbn; lia || done).
Qed.

Lemma save_page_brand_digits_witness :
  matchCallBack INFRARED_EVENT_SAVE_OK
    (boot_fw started (sample_mi <| mi_brand_code := 10000 |>)) = Fault OutOfBounds.
Proof.
  assert (mi_wf sample_mi) as Hm by (by vm_compute).
  apply (save_page_brand_digits (boot_fw started sample_mi) (booted_inv sample_mi Hm) 10000). done.
Defined.
