(* ===== verification/Buttons.v ===== *)
(** The key task (ButtonTask.c): sampling, press classification and the dispatch to
    the call-backs of Oled1309.c. *)
From S2P Require Import Prelude Mem MemHeap Buffers Fonts Display State Invariant Pages.

(** ** State *)

Definition BUTTON_MAX : Z := 3.
Definition KEY_ON : Z := 0.
Definition BAND_TIME : Z := 40.
Definition SHORT_TIME : Z := 60.
Definition LONG_TIME : Z := 600.
Definition BTN_COOL_TIME : Z := 2.

(** GET_PIN(B, 1), GET_PIN(B, 2), GET_PIN(B, 3). *)
Definition BUTTON_ENTER : Z := 17.
Definition BUTTON_UP : Z := 18.
Definition BUTTON_DOWN : Z := 19.

(** The functions a button's [call_back] pointer can hold. *)
Inductive button_cb : Set := btn_null | EnterBtn | UpBtn | DowmBtn.

Record buttonInfo := mk_btn {
  on_set : Z;
  btn_type : press_type;
  press_state : Z;
  have_read : Z;
  continue_time : Z;
  pin : Z;
  btn_call_back : button_cb;
}.
#[export] Instance eta_btn : Eta buttonInfo := λ r,
  mk_btn (on_set r) (btn_type r) (press_state r) (have_read r) (continue_time r) (pin r)
         (btn_call_back r).

(** The globals and statics of ButtonTask.c, and the rest of the firmware. *)
Record button_task := mk_bt {
  buttonList : list buttonInfo;
  btn_cooling : list Z;
  on_set_pre : list Z;
  add_index : Z;               (* static index of ButtonAdd *)
  bt_fw : fw;
}.
#[export] Instance eta_bt : Eta button_task := λ r,
  mk_bt (buttonList r) (btn_cooling r) (on_set_pre r) (add_index r) (bt_fw r).

(** ** Operations *)

Definition call (cb : button_cb) (t : press_type) : prog fw unit :=
  match cb with
  | btn_null => fail WildCall
  | EnterBtn => EnterBtnCallBack t
  | UpBtn => UpBtnCallBack t
  | DowmBtn => DowmBtnCallBack t
  end.

(** The counting part of the loop body: the pin's level and the cooling counter. *)
Definition sample (level period : Z) (b : buttonInfo) (cooling : Z) : buttonInfo * Z :=
  if decide (level = on_set b) then
    (if decide (BTN_COOL_TIME ≤ cooling)
     then b <| continue_time := u16 (continue_time b + period) |> <| press_state := YES |>
     else b, cooling)
  else
    (b <| press_state := NO |>, if decide (cooling < BTN_COOL_TIME) then u8 (cooling + 1) else cooling).

(** The classification part. *)
Definition classify (b : buttonInfo) : buttonInfo :=
  if decide (YES = press_state b) then
    if decide (LONG_TIME ≤ continue_time b) then
      b <| btn_type := if decide (NO = have_read b) then LONG_PRESS else NULL_PRESS |>
        <| have_read := YES |>
    else b
  else
    let short_max := u16 (LONG_TIME - BAND_TIME) in
    b <| btn_type := if decide (SHORT_TIME ≤ continue_time b ∧ continue_time b < short_max)
                     then SHORT_PRESS else NULL_PRESS |>
      <| have_read := NO |> <| continue_time := 0 |>.

(** [pins] gives the level [rt_pin_read] returns for a pin. *)
Definition button_body (pins : Z → Z) (period index : Z) : prog button_task unit :=
  bl ← gets buttonList;
  cl ← gets btn_cooling;
  b ← lift (load bl index);
  c ← lift (load cl index);
  let '(b, c) := sample (pins (pin b)) period b c in
  let b := classify b in
  bl ← lift (store bl index b);
  cl ← lift (store cl index c);
  modify (λ s, s <| buttonList := bl |> <| btn_cooling := cl |>);;
  zoom bt_fw (call (btn_call_back b) (btn_type b)).

Definition Buttonprogram (pins : Z → Z) (period : Z) : prog button_task unit :=
  bl ← gets buttonList;
  pre ← gets on_set_pre;
  b0 ← lift (load bl 0);
  p0 ← lift (load pre 0);
  (if decide (p0 ≠ on_set b0) then
     pre' ← lift (store pre 0 (on_set b0));
     modify (λ s, s <| on_set_pre := pre' |>);;
     if decide (pins (pin b0) ≠ on_set b0) then
       cl ← gets btn_cooling;
       cl ← lift (store cl 0 0);
       modify (λ s, s <| btn_cooling := cl |>)
     else mret tt
   else mret tt);;
  for_range 0 BUTTON_MAX (button_body pins period).

Definition ButtonAdd (p on : Z) (cb : button_cb) : prog button_task unit :=
  index ← gets add_index;
  if decide (index < BUTTON_MAX) then
    bl ← gets buttonList;
    b ← lift (load bl index);
    bl ← lift (store bl index (b <| pin := p |> <| on_set := on |> <| btn_call_back := cb |>
                                 <| press_state := NO |> <| have_read := NO |>));
    modify (λ s, s <| buttonList := bl |> <| add_index := u8 (index + 1) |>)
  else mret tt.

Definition ButtonRegister : prog button_task unit :=
  ButtonAdd BUTTON_ENTER KEY_ON EnterBtn;;
  ButtonAdd BUTTON_UP KEY_ON UpBtn;;
  ButtonAdd BUTTON_DOWN KEY_ON DowmBtn.

(** One turn of [ButtonTaskEntry]'s loop. *)
Definition ButtonTaskEntry_turn (pins : Z → Z) : prog button_task unit :=
  Buttonprogram pins BUTTON_TASK_PERIOD;;
  zoom bt_fw (rt_thread_mdelay BUTTON_TASK_PERIOD).

(** The zero-initialised statics. *)
Definition zero_btn : buttonInfo := mk_btn 0 NULL_PRESS 0 0 0 0 btn_null.
Definition boot_bt (s : fw) : button_task :=
  mk_bt (replicate 3 zero_btn) (zeros 3) (zeros 3) 0 s.

(** ** What one button reports *)

(** A button and its cooling counter, one sample of the pin. *)
Definition tick (level : Z) (bc : buttonInfo * Z) : buttonInfo * Z :=
  let '(b, c) := sample level BUTTON_TASK_PERIOD bc.1 bc.2 in (classify b, c).

(** The press types reported on a run of samples, and the button afterwards. *)
Fixpoint ticks (levels : list Z) (bc : buttonInfo * Z) : list press_type * (buttonInfo * Z) :=
  match levels with
  | [] => ([], bc)
  | l :: levels =>
      let bc := tick l bc in
      let '(ts, bc') := ticks levels bc in
      (btn_type bc.1 :: ts, bc')
  end.

Lemma ticks_app l1 l2 bc :
  ticks (l1 ++ l2) bc =
    let '(t1, bc1) := ticks l1 bc in let '(t2, bc2) := ticks l2 bc1 in (t1 ++ t2, bc2).
Proof.
  revert bc. induction l1 as [|l l1 IH]; intros bc; cbn [app ticks]; [by destruct (ticks l2 bc)|].
  rewrite IH. destruct (ticks l1 (tick l bc)) as [t1 bc1]. by destruct (ticks l2 bc1).
Qed.

(** A registered button that has been up for a while. *)
Definition idle_button (p : Z) (cb : button_cb) : buttonInfo * Z :=
  (mk_btn KEY_ON NULL_PRESS NO NO 0 p cb, BTN_COOL_TIME).

(** The same button after [j] samples down, [j < 30]. *)
Definition held (j : Z) (p : Z) (cb : button_cb) : buttonInfo * Z :=
  (mk_btn KEY_ON NULL_PRESS (if decide (j = 0) then NO else YES) NO (20 * j) p cb, BTN_COOL_TIME).

(** ... and after [j] samples down, [j ≥ 30]: the long press is reported. *)
Definition held_long (j : Z) (t : press_type) (p : Z) (cb : button_cb) : buttonInfo * Z :=
  (mk_btn KEY_ON t YES YES (20 * j) p cb, BTN_COOL_TIME).

Lemma tick_held j p cb : 0 ≤ j < 29 → tick KEY_ON (held j p cb) = held (j + 1) p cb.
Proof.
  intros Hj. unfold tick, sample, held, BUTTON_TASK_PERIOD. cbn [fst snd on_set].
  known_decides. unfold upd; cbn. unfold classify. cbn.
  rewrite u16_id by (unfold is_u16; lia). unfold LONG_TIME.
  rewrite decide_True by done. rewrite decide_False by lia. rewrite decide_False by lia.
  do 2 f_equal. lia.
Qed.

Ltac tick_simpl :=
  unfold tick, sample, held, held_long, idle_button, classify, BUTTON_TASK_PERIOD, upd;
  cbn [fst snd on_set press_state continue_time have_read btn_type pin btn_call_back].

Lemma tick_long p cb : tick KEY_ON (held 29 p cb) = held_long 30 LONG_PRESS p cb.
Proof. reflexivity. Qed.

Lemma tick_held_long j t p cb :
  30 ≤ j → 20 * (j + 1) < 65536 →
  tick KEY_ON (held_long j t p cb) = held_long (j + 1) NULL_PRESS p cb.
Proof.
  intros Hj Hw. tick_simpl. known_decides.
  cbn [fst snd on_set press_state continue_time have_read btn_type pin btn_call_back].
  known_decides. rewrite u16_id by (unfold is_u16; lia). unfold LONG_TIME.
  rewrite decide_True by lia. do 2 f_equal. lia.
Qed.

(** What the first sample up after [j] samples down reports. *)
Definition release_type (j : Z) : press_type :=
  if decide (SHORT_TIME ≤ 20 * j < LONG_TIME - BAND_TIME) then SHORT_PRESS else NULL_PRESS.

Definition released (t : press_type) (p : Z) (cb : button_cb) : buttonInfo * Z :=
  (mk_btn KEY_ON t NO NO 0 p cb, BTN_COOL_TIME).

Lemma tick_release off b j p cb :
  off ≠ KEY_ON → b = held j p cb ∨ (∃ t, b = held_long j t p cb) →
  tick off b = released (release_type j) p cb.
Proof.
  intros Hoff Hb.
  assert (∀ t ps hr, tick off (mk_btn KEY_ON t ps hr (20 * j) p cb, BTN_COOL_TIME) =
                       released (release_type j) p cb) as Hgen.
  { intros t ps hr. tick_simpl. rewrite decide_False by done. known_decides.
    cbn [fst snd on_set press_state continue_time have_read btn_type pin btn_call_back].
    known_decides. unfold released, release_type. change (u16 (LONG_TIME - BAND_TIME)) with 560.
    change (LONG_TIME - BAND_TIME) with 560. f_equal. }
  destruct Hb as [-> | [t ->]]; apply Hgen.
Qed.

Lemma tick_idle off t p cb : off ≠ KEY_ON → tick off (released t p cb) = idle_button p cb.
Proof. intros Hoff. unfold released. tick_simpl. rewrite decide_False by done. done. Qed.

Lemma held_0 p cb : idle_button p cb = held 0 p cb.
Proof. reflexivity. Qed.

Lemma ticks_held n j p cb :
  0 ≤ j → j + Z.of_nat n ≤ 29 →
  ticks (replicate n KEY_ON) (held j p cb) = (replicate n NULL_PRESS, held (j + Z.of_nat n) p cb).
Proof.
  revert j. induction n as [|n IH]; intros j Hj Hn; cbn [replicate ticks].
  { by rewrite Z.add_0_r. }
  rewrite tick_held by lia. rewrite IH by lia.
  by replace (j + 1 + Z.of_nat n) with (j + Z.of_nat (S n)) by lia.
Qed.

Lemma ticks_held_long n j t p cb :
  30 ≤ j → 20 * (j + Z.of_nat n) < 65536 →
  ∃ t', ticks (replicate n KEY_ON) (held_long j t p cb) =
    (replicate n NULL_PRESS, held_long (j + Z.of_nat n) t' p cb).
Proof.
  revert j t. induction n as [|n IH]; intros j t Hj Hn; cbn [replicate ticks].
  { exists t. by rewrite Z.add_0_r. }
  rewrite tick_held_long by lia. destruct (IH (j + 1) NULL_PRESS) as [t' ->]; [lia|lia|].
  exists t'. by replace (j + 1 + Z.of_nat n) with (j + Z.of_nat (S n)) by lia.
Qed.

(** The samples of one press: [k] down, two up. *)
Definition press (k : nat) (off : Z) : list Z := replicate k KEY_ON ++ [off; off].

(** What a press is reported as. *)
Definition press_report (k : nat) : list press_type :=
  if decide ((k < 30)%nat) then replicate k NULL_PRESS ++ [release_type (Z.of_nat k); NULL_PRESS]
  else replicate 29 NULL_PRESS ++ [LONG_PRESS] ++ replicate (k - 30) NULL_PRESS ++ [NULL_PRESS; NULL_PRESS].

Lemma ticks_press k off p cb :
  off ≠ KEY_ON → 20 * Z.of_nat k < 65536 →
  ticks (press k off) (idle_button p cb) = (press_report k, idle_button p cb).
Proof.
  intros Hoff Hk. unfold press, press_report. rewrite held_0. case_decide as Hlt.
  - rewrite ticks_app, ticks_held by lia. cbn [ticks]. rewrite Z.add_0_l.
    rewrite (tick_release off _ (Z.of_nat k) p cb) by auto. by rewrite tick_idle.
  - assert (k = (29 + (1 + (k - 30)))%nat) as Heq by lia.
    rewrite Heq at 1. rewrite !replicate_add, <- !app_assoc, ticks_app, ticks_held by lia.
    cbn [replicate app ticks]. change (0 + Z.of_nat 29) with 29. rewrite tick_long.
    rewrite ticks_app.
    destruct (ticks_held_long (k - 30) 30 LONG_PRESS p cb) as [t' ->]; [lia|lia|].
    cbn [ticks]. rewrite (tick_release off _ (30 + Z.of_nat (k - 30)) p cb) by eauto.
    rewrite tick_idle by done. cbn [btn_type fst released].
    replace (release_type (30 + Z.of_nat (k - 30))) with NULL_PRESS; [done|].
    unfold release_type, SHORT_TIME, LONG_TIME, BAND_TIME. rewrite decide_False by lia. done.
Qed.

(** A button pressed again after a single sample up keeps its last report. *)
Definition held_stale (j : Z) (p : Z) (cb : button_cb) : buttonInfo * Z :=
  (mk_btn KEY_ON SHORT_PRESS (if decide (j = 0) then NO else YES) NO (20 * j) p cb, BTN_COOL_TIME).

Lemma ticks_stale n j p cb :
  0 ≤ j → j + Z.of_nat n ≤ 29 →
  ticks (replicate n KEY_ON) (held_stale j p cb) =
    (replicate n SHORT_PRESS, held_stale (j + Z.of_nat n) p cb).
Proof.
  revert j. induction n as [|n IH]; intros j Hj Hn; cbn [replicate ticks].
  { by rewrite Z.add_0_r. }
  assert (tick KEY_ON (held_stale j p cb) = held_stale (j + 1) p cb) as ->.
  { unfold held_stale. tick_simpl. known_decides.
    cbn [fst snd on_set press_state continue_time have_read btn_type pin btn_call_back].
    known_decides. rewrite u16_id by (unfold is_u16; lia). unfold LONG_TIME.
    rewrite !decide_False by lia. do 2 f_equal. lia. }
  rewrite IH by lia.
  by replace (j + 1 + Z.of_nat n) with (j + Z.of_nat (S n)) by lia.
Qed.

(** ** One turn of the key task *)

(** The body on one registered button is [tick] and the call. *)
Lemma button_body_ok pins s i b c :
  0 ≤ i → buttonList s !! Z.to_nat i = Some b → btn_cooling s !! Z.to_nat i = Some c →
  button_body pins BUTTON_TASK_PERIOD i s =
    let bc := tick (pins (pin b)) (b, c) in
    match call (btn_call_back b) (btn_type bc.1) (bt_fw s) with
    | Ok (_, f) => Ok (tt, mk_bt (<[Z.to_nat i := bc.1]> (buttonList s))
                             (<[Z.to_nat i := bc.2]> (btn_cooling s)) (on_set_pre s) (add_index s) f)
    | Fault e => Fault e
    end.
Proof.
  intros Hi Hb Hc. unfold button_body, mbind, prog_bind, gets, lift. cbv beta iota.
  rewrite (load_ok _ _ _ Hi Hb), (load_ok _ _ _ Hi Hc).
  unfold tick. cbn [fst snd].
  destruct (sample (pins (pin b)) BUTTON_TASK_PERIOD b c) as [b1 c1] eqn:Hs.
  assert (btn_call_back (classify b1) = btn_call_back b) as Hcb.
  { unfold sample in Hs. unfold classify. repeat case_decide; injection Hs as <- <-; done. }
  rewrite !store_in by (pose proof (lookup_lt_Some _ _ _ Hb); pose proof (lookup_lt_Some _ _ _ Hc);
    unfold zlen; lia).
  cbv beta iota. unfold modify, zoom. rewrite Hcb. cbn [fst snd].
  change (bt_fw (_ <| btn_cooling := _ |>)) with (bt_fw s).
  destruct (call _ _ (bt_fw s)) as [[[] f]|e]; [|done]. by destruct s.
Qed.

(** The three calls of one turn. *)
Definition turn_calls (pins : Z → Z) (bs : list (buttonInfo * Z)) : prog fw unit :=
  foldr (λ bc m, call (btn_call_back bc.1) (btn_type (tick (pins (pin bc.1)) bc).1);; m) (mret tt) bs.

Lemma Buttonprogram_ok pins s b0 b1 b2 c0 c1 c2 :
  buttonList s = [b0; b1; b2] → btn_cooling s = [c0; c1; c2] →
  on_set_pre s = zeros 3 → on_set b0 = KEY_ON →
  Buttonprogram pins BUTTON_TASK_PERIOD s =
    let bs := [(b0, c0); (b1, c1); (b2, c2)] in
    match turn_calls pins bs (bt_fw s) with
    | Ok (_, f) =>
        let bs' := map (λ bc, tick (pins (pin bc.1)) bc) bs in
        Ok (tt, mk_bt (map fst bs') (map snd bs') (on_set_pre s) (add_index s) f)
    | Fault e => Fault e
    end.
Proof.
  destruct s as [bl cl pre idx f]. cbn [buttonList btn_cooling on_set_pre add_index bt_fw].
  intros -> -> -> Hon. unfold Buttonprogram, gets, lift.
  unfold mbind at 1 2 3 4, prog_bind at 1 2 3 4. cbn [buttonList on_set_pre].
  change (load [b0; b1; b2] 0) with (@Ok buttonInfo b0). change (load (zeros 3) 0) with (@Ok Z 0).
  cbv beta iota. rewrite Hon. known_decides.
  change (for_range 0 BUTTON_MAX ?body) with (body 0;; body 1;; body 2;; mret tt).
  cbn [turn_calls foldr map fst snd]. unfold mbind, prog_bind, mret, prog_ret. cbv beta iota.
  rewrite (button_body_ok _ _ 0 b0 c0) by done. cbn [fst snd bt_fw].
  destruct (call (btn_call_back b0) _ f) as [[[] f0]|e]; [|done]. cbv beta iota.
  rewrite (button_body_ok _ _ 1 b1 c1) by done. cbn [fst snd bt_fw].
  destruct (call (btn_call_back b1) _ f0) as [[[] f1]|e]; [|done]. cbv beta iota.
  rewrite (button_body_ok _ _ 2 b2 c2) by done. cbn [fst snd bt_fw].
  by destruct (call (btn_call_back b2) _ f1) as [[[] f2]|e].
Qed.

(** After registration: three buttons, and nothing else touched. *)
Definition fresh (p : Z) (cb : button_cb) : buttonInfo := mk_btn KEY_ON NULL_PRESS NO NO 0 p cb.
Lemma ButtonRegister_ok s :
  ButtonRegister (boot_bt s) =
    Ok (tt, mk_bt [fresh BUTTON_ENTER EnterBtn; fresh BUTTON_UP UpBtn; fresh BUTTON_DOWN DowmBtn]
              (zeros 3) (zeros 3) 3 s).
Proof. reflexivity. Qed.

(** ** The invariant of the key task *)

Definition bt_inv `{HeapShape} (s : button_task) : Prop :=
  fw_inv (bt_fw s) ∧ on_set_pre s = zeros 3 ∧
  (∃ c0 c1 c2, btn_cooling s = [c0; c1; c2]) ∧
  ∃ b0 b1 b2, buttonList s = [b0; b1; b2] ∧ on_set b0 = KEY_ON ∧
    btn_call_back b0 = EnterBtn ∧ btn_call_back b1 = UpBtn ∧ btn_call_back b2 = DowmBtn.

Lemma tick_fixed level bc :
  on_set (tick level bc).1 = on_set bc.1 ∧ btn_call_back (tick level bc).1 = btn_call_back bc.1 ∧
  pin (tick level bc).1 = pin bc.1.
Proof. unfold tick, sample, classify. by repeat case_decide. Qed.

Lemma call_inv `{HeapShape} cb t : cb ≠ btn_null → preserves fw_inv (call cb t).
Proof. destruct cb; [done|intros _..]; [apply EnterBtn_inv|apply UpBtn_inv|apply DownBtn_inv]. Qed.

Lemma turn_inv `{HeapShape} pins : preserves bt_inv (ButtonTaskEntry_turn pins).
Proof.
  intros s (Hf & Hpre & (c0 & c1 & c2 & Hc) & (b0 & b1 & b2 & Hb & Hon & H0 & H1 & H2)).
  unfold ButtonTaskEntry_turn. rewrite wp_bind. unfold wp at 1.
  rewrite (Buttonprogram_ok pins s b0 b1 b2 c0 c1 c2) by done. cbv zeta.
  assert (preserves fw_inv (turn_calls pins [(b0, c0); (b1, c1); (b2, c2)])) as Hcalls.
  { unfold turn_calls. cbn [foldr fst snd].
    repeat (apply preserves_bind; [apply call_inv; congruence|intros _]). apply preserves_ret. }
  specialize (Hcalls _ Hf). unfold wp in Hcalls.
  destruct (turn_calls _ _ (bt_fw s)) as [[[] f]|e]; [|done]. cbv beta iota.
  rewrite wp_zoom. unfold rt_thread_mdelay, emit. rewrite wp_modify.
  split; [by apply (emit_inv (MDelay BUTTON_TASK_PERIOD) f)|]. split; [done|].
  split; [by eexists _, _, _|]. eexists _, _, _. split; [reflexivity|]. cbn [fst].
  pose proof (tick_fixed (pins (pin b0)) (b0, c0)) as (E0 & E0' & _).
  pose proof (tick_fixed (pins (pin b1)) (b1, c1)) as (_ & E1 & _).
  pose proof (tick_fixed (pins (pin b2)) (b2, c2)) as (_ & E2 & _).
  cbn [fst] in E0, E0', E1, E2. rewrite E0, E0', E1, E2. done.
Qed.

(** ** Properties *)

Definition reported (t : press_type) (ts : list press_type) : nat := length (filter (λ x, x = t) ts).

Lemma reported_app t l1 l2 : reported t (l1 ++ l2) = (reported t l1 + reported t l2)%nat.
Proof. unfold reported. by rewrite list.filter_app, length_app. Qed.
Lemma reported_null t n : t ≠ NULL_PRESS → reported t (replicate n NULL_PRESS) = 0%nat.
Proof.
  intros Ht. induction n as [|n IH]; [done|]. unfold reported in *. cbn [replicate].
  by rewrite list.filter_cons_False by done.
Qed.

(** C27: a press of up to 65 seconds, followed by two samples up, is reported exactly
    as its length says: 3 to 27 samples of 20 ms as one short press, at the release;
    30 samples or more as one long press, while the key is still down, and as
    nothing else; 1, 2, 28 and 29 samples as nothing. Afterwards the button is as
    before, so that the same holds for the next press. *)
Theorem press_classified (k : nat) off p cb :
  off ≠ KEY_ON → 20 * Z.of_nat k < 65536 →
  ∃ ts, ticks (press k off) (idle_button p cb) = (ts, idle_button p cb) ∧
    length ts = (k + 2)%nat ∧
    reported SHORT_PRESS ts = (if decide (3 ≤ k ≤ 27)%nat then 1%nat else 0%nat) ∧
    reported LONG_PRESS ts = (if decide (30 ≤ k)%nat then 1%nat else 0%nat).
Proof.
  intros Hoff Hk. exists (press_report k). split; [by apply ticks_press|].
  unfold press_report. destruct (decide (k < 30)%nat) as [Hlt|Hge].
  - rewrite (decide_False (P := (30 ≤ k)%nat)) by lia.
    rewrite !reported_app, !reported_null, length_app, length_replicate by done.
    split; [done|]. unfold release_type, SHORT_TIME, LONG_TIME, BAND_TIME.
    destruct (decide (3 ≤ k ≤ 27)%nat).
    + rewrite decide_True by lia. done.
    + rewrite decide_False by lia. done.
  - rewrite decide_False, decide_True by lia.
    rewrite !reported_app, !length_app, !length_replicate, !reported_null by done.
    split; [cbn [length]; lia|done].
Qed.

Lemma press_classified_witness :
  ∃ ts, ticks (press 100 1) (idle_button BUTTON_ENTER EnterBtn) = (ts, idle_button BUTTON_ENTER EnterBtn) ∧
    reported SHORT_PRESS ts = 0%nat ∧ reported LONG_PRESS ts = 1%nat.
Proof.
  destruct (press_classified 100 1 BUTTON_ENTER EnterBtn) as (ts & Hr & _ & Hs & Hl); [done|lia|].
  exists ts. split; [exact Hr|]. split; [exact Hs|exact Hl].
Defined.

(** C28: one turn of the key task over the three keys: every key's pin is sampled
    once, and the call-backs are called in the order of registration, each exactly
    once and with the press type its own key reports. *)
Theorem keys_dispatched pins s b0 b1 b2 c0 c1 c2 f :
  buttonList s = [b0; b1; b2] → btn_cooling s = [c0; c1; c2] →
  on_set_pre s = zeros 3 → on_set b0 = KEY_ON →
  btn_call_back b0 = EnterBtn → btn_call_back b1 = UpBtn → btn_call_back b2 = DowmBtn →
  let t0 := tick (pins (pin b0)) (b0, c0) in
  let t1 := tick (pins (pin b1)) (b1, c1) in
  let t2 := tick (pins (pin b2)) (b2, c2) in
  (EnterBtnCallBack (btn_type t0.1);; UpBtnCallBack (btn_type t1.1);;
   DowmBtnCallBack (btn_type t2.1)) (bt_fw s) = Ok (tt, f) →
  Buttonprogram pins BUTTON_TASK_PERIOD s =
    Ok (tt, mk_bt [t0.1; t1.1; t2.1] [t0.2; t1.2; t2.2] (zeros 3) (add_index s) f).
Proof.
  intros Hb Hc Hpre Hon H0 H1 H2 t0 t1 t2 Hcalls.
  rewrite (Buttonprogram_ok pins s b0 b1 b2 c0 c1 c2) by done. cbv zeta.
  unfold turn_calls. cbn [foldr fst snd map]. rewrite H0, H1, H2. fold t0 t1 t2.
  unfold mbind, prog_bind, call in *.
  destruct (EnterBtnCallBack _ (bt_fw s)) as [[[] f0]|e]; [|done].
  destruct (UpBtnCallBack _ f0) as [[[] f1]|e]; [|done].
  destruct (DowmBtnCallBack _ f1) as [[[] f2]|e]; [|done]. injection Hcalls as <-.
  cbn. by rewrite Hpre.
Qed.

Lemma keys_dispatched_witness :
  Buttonprogram (λ _, KEY_ON) BUTTON_TASK_PERIOD
    (mk_bt [(idle_button 17 EnterBtn).1; (held 4 18 UpBtn).1; (held 29 19 DowmBtn).1] [2; 2; 2]
       (zeros 3) 3 (boot_fw started sample_mi)) =
  Ok (tt, mk_bt [(held 1 17 EnterBtn).1; (held 5 18 UpBtn).1; (held_long 30 LONG_PRESS 19 DowmBtn).1]
       [2; 2; 2] (zeros 3) 3 (boot_fw started sample_mi)).
Proof.
  apply (keys_dispatched (λ _, KEY_ON)
    (mk_bt [(idle_button 17 EnterBtn).1; (held 4 18 UpBtn).1; (held 29 19 DowmBtn).1] [2; 2; 2]
       (zeros 3) 3 (boot_fw started sample_mi))
    (idle_button 17 EnterBtn).1 (held 4 18 UpBtn).1 (held 29 19 DowmBtn).1 2 2 2); reflexivity.
Defined.

(** The report of a short press is not withdrawn when the key goes down again
    after a single sample up: every sample of the second press, up to the 29th, is
    reported as another short press. *)
Theorem bounce_repeats_short (k m : nat) off p cb :
  (3 ≤ k ≤ 27)%nat → (m ≤ 29)%nat → off ≠ KEY_ON →
  (ticks (replicate k KEY_ON ++ [off] ++ replicate m KEY_ON) (idle_button p cb)).1 =
    replicate k NULL_PRESS ++ replicate (S m) SHORT_PRESS.
Proof.
  intros Hk Hm Hoff. rewrite held_0, ticks_app, ticks_held by lia. cbn [app ticks].
  rewrite (tick_release off _ (Z.of_nat k) p cb) by (done || (left; f_equal; lia)).
  assert (release_type (Z.of_nat k) = SHORT_PRESS) as ->.
  { unfold release_type, SHORT_TIME, LONG_TIME, BAND_TIME. by rewrite decide_True by lia. }
  change (released SHORT_PRESS p cb) with (held_stale 0 p cb).
  by rewrite ticks_stale by lia.
Qed.

Lemma bounce_repeats_short_witness :
  (ticks (replicate 3 KEY_ON ++ [1] ++ replicate 4 KEY_ON) (idle_button BUTTON_UP UpBtn)).1 =
    [NULL_PRESS; NULL_PRESS; NULL_PRESS; SHORT_PRESS; SHORT_PRESS; SHORT_PRESS; SHORT_PRESS; SHORT_PRESS].
Proof. apply (bounce_repeats_short 3 4 1 BUTTON_UP UpBtn); [lia|lia|done]. Defined.

(** The 16-bit press time wraps: a key held for 65.6 seconds is reported, after the
    long press, as a short press when it is released. *)
Example long_hold_wraps :
  let ts := (ticks (press 3280 1) (idle_button BUTTON_ENTER EnterBtn)).1 in
  reported LONG_PRESS ts = 1%nat ∧ reported SHORT_PRESS ts = 1%nat.
Proof. vm_compute. split; reflexivity. Qed.

(** C29: whatever the levels of the key pins, registration and every following turn
    of the key task end without a fault, no call-back pointer is called that holds
    no function, and the firmware's invariant is kept. *)
Theorem key_task_safe `{HeapShape} s (levels : list (Z → Z)) :
  fw_inv s →
  ∃ s', (ButtonRegister;; foldr (λ pins m, ButtonTaskEntry_turn pins;; m) (mret tt) levels)
          (boot_bt s) = Ok (tt, s') ∧ fw_inv (bt_fw s').
Proof.
  intros Hs. unfold mbind at 1, prog_bind at 1. rewrite ButtonRegister_ok. cbv beta iota.
  set (s0 := mk_bt _ _ _ _ _).
  assert (bt_inv s0) as Hs0.
  { split; [done|]. split; [done|]. split; [by eexists 0, 0, 0|]. by eexists _, _, _. }
  assert (preserves bt_inv (foldr (λ pins m, ButtonTaskEntry_turn pins;; m) (mret tt) levels)) as Hp.
  { induction levels as [|pins levels IH]; cbn [foldr]; [apply preserves_ret|].
    apply preserves_bind; [apply turn_inv|done]. }
  specialize (Hp _ Hs0). apply wp_ok in Hp as ([] & s' & Hrun & Hs' & _). eauto.
Qed.

Lemma key_task_safe_witness :
  ∃ s', (ButtonRegister;; ButtonTaskEntry_turn (λ _, KEY_ON);; mret tt) (boot_bt (boot_fw started sample_mi)) =
          Ok (tt, s') ∧ @fw_inv started_shape (bt_fw s').
Proof. apply (key_task_safe _ [λ _, KEY_ON]). apply booted_inv. by vm_compute. Defined.
