(* ===== verification/UartTask.v ===== *)
(** The communication task of Uart.c: the two receive interrupts, the settings, the
    external switch input and one turn of the task's loop. *)
From Stdlib Require Import String.
From stdpp Require Import sets.
From S2P Require Import Prelude Mem MemHeap Buffers Crc Flash Fonts Display State Invariant Infrared Master Pages.

(** ** Receive interrupts *)

(** [rt_device_read(dev, 0, msg.data, msg.size)]: [rx] is what the driver's buffer
    holds; as many of its bytes as asked for are copied. *)
Definition receive (m : rx_msg) (rx : list Z) (size : Z) : outcome rx_msg :=
  data ← store_bytes (rx_data m) 0 (take (Z.to_nat size) rx);
  Ok (m <| rx_size := size |> <| rx_data := data |>).

Definition Uart1_input (rx : list Z) (size : Z) : prog fw Z :=
  m ← gets fw_uart1;
  m ← lift (receive m rx size);
  modify (λ s, s <| fw_uart1 := m |>);;
  if decide (2 > size) then mret RT_ERROR
  else
    d0 ← lift (load (rx_data m) 0);
    mi ← getModuleInfo;
    if decide (¬ (REGISTER_CODE = d0 ∨ mi_addr mi = d0)) then mret RT_ERROR
    else
      hi ← lift (load (rx_data m) (size - 1));
      lo ← lift (load (rx_data m) (size - 2));
      let crc16 := u16 (Z.lor (u16 (Z.shiftl hi 8)) lo) in
      c ← lift (usModbusRTU_CRC (rx_data m) (size - 2));
      if decide (crc16 = c) then
        modify (λ s, s <| fw_uart1 := fw_uart1 s <| messageFlag := YES |> |>);; mret RT_EOK
      else mret RT_ERROR.

Definition Uart2_input (rx : list Z) (size : Z) : prog fw Z :=
  m ← gets fw_uart2;
  m ← lift (receive m rx size);
  modify (λ s, s <| fw_uart2 := m |>);;
  (if decide (size > 2) then
     d0 ← lift (load (rx_data m) 0);
     d1 ← lift (load (rx_data m) 1);
     if decide (0xAA = d0 ∧ 0x55 = d1) then
       modify (λ s, s <| fw_uart2 := fw_uart2 s <| messageFlag := YES |> |>)
     else mret tt
   else mret tt);;
  mret RT_EOK.

(** ** Settings *)

(** Where things lie in memory: the address of [uart2_msg.data], and the stack behind
    the argument of [codeDataRecvResult]. *)
Class Layout := {
  uart2_msg_data : Z;
  stack_beyond : list Z;
  stack_long : (4 ≤ length stack_beyond)%nat;
}.

(** [getModuleInfo() + 2] counts in structs: the ten bytes examined and cleared start
    twenty-four bytes behind the struct's first, twelve behind its end, where [fw_beyond]
    begins. *)
Definition MODULE_INFO_PLUS_2 : Z := 2 * SIZEOF_MODULE_INFO.
Definition settings_crc : prog fw Z :=
  access module_info_object MODULE_INFO_PLUS_2 (SIZEOF_MODULE_INFO - 2) false;;
  beyond ← gets fw_beyond;
  bs ← lift (load_bytes beyond (MODULE_INFO_PLUS_2 - SIZEOF_MODULE_INFO) (SIZEOF_MODULE_INFO - 2));
  lift (usModbusRTU_CRC bs (SIZEOF_MODULE_INFO - 2)).
Definition clear_settings : prog fw unit :=
  access module_info_object MODULE_INFO_PLUS_2 (SIZEOF_MODULE_INFO - 2) true;;
  beyond ← gets fw_beyond;
  beyond ← lift (store_bytes beyond (MODULE_INFO_PLUS_2 - SIZEOF_MODULE_INFO) (zeros (Z.to_nat (SIZEOF_MODULE_INFO - 2))));
  modify (λ s, s <| fw_beyond := beyond |>).

Definition initModuleInfo : prog fw unit :=
  crc ← settings_crc;
  mi ← getModuleInfo;
  (if decide (crc ≠ mi_crc mi) then
     clear_settings;;
     setModuleInfo (λ m, m <| mi_addr := 0x01 |>)
   else mret tt);;
  setModuleInfo (λ m, m <| mi_register_state := REGISTER_NULL |>);;
  setModuleInfo (λ m, m <| mi_type := INFRARED_TYPE |>);;
  crc ← settings_crc;
  setModuleInfo (λ m, m <| mi_crc := crc |>).

(** ** The task *)

Definition set_ut (f : uart_task → uart_task) : prog fw unit :=
  modify (λ s, s <| fw_ut := f (fw_ut s) |>).

Section task.
Context `{Chip, FlashHw, Layout}.

Definition CHECK_IO_ON : Z := 0.
Definition CHECK_IO_OFF : Z := 1.

(** [io] is the level [rt_pin_read(IO_CHECK)] returns. *)
Definition IoCheckProgram (io period : Z) : prog fw unit :=
  ut ← gets fw_ut;
  let state := u8 io in
  if decide (Laststate ut ≠ state) then
    if decide (continueTime ut < period * 30) then
      set_ut (λ t, t <| continueTime := u16 (continueTime t + period) |>)
    else
      set_ut (λ t, t <| Laststate := state |>);;
      mi ← getModuleInfo;
      if decide (CHECK_IO_ON = state) then
        if decide (SELECT_MATCH = mi_select mi) then sendMatchOnTest uart2
        else if decide (SELECT_LEARN = mi_select mi) then sendlearnOn uart2 else mret tt
      else if decide (CHECK_IO_OFF = state) then
        if decide (SELECT_MATCH = mi_select mi) then sendMatchOffTest uart2
        else if decide (SELECT_LEARN = mi_select mi) then sendlearnOff uart2 else mret tt
      else mret tt
  else set_ut (λ t, t <| continueTime := 0 |>).

(** [UartTaskEntry] before its loop. *)
Definition UartTaskEntry_init : prog fw unit :=
  ev ← getInfraredEvent;
  me ← getMasterEvent;
  set_ut (λ t, t <| ut_data := zeros 16 |> <| ut_event := ev |> <| ut_master_event := me |>);;
  mi ← getModuleInfo;
  bs ← zoom fw_flash (getDataFromFlash DATA_BLOCK_START (mi_bytes mi) SIZEOF_MODULE_INFO);
  mi ← lift (mi_of_bytes bs);
  setModuleInfo (λ _, mi);;
  (if decide (SELECT_MATCH ≠ mi_select mi ∧ SELECT_LEARN ≠ mi_select mi)
   then setModuleInfo (λ m, m <| mi_select := SELECT_MATCH |>) else mret tt);;
  initModuleInfo;;
  setMasterEvent EVENT_REGISTER;;
  mi ← getModuleInfo;
  set_ut (λ t, t <| ctrl_pre := mi_ctrl mi |>);;
  setModuleInfo (λ m, m <| mi_find_location := NO |>);;
  setModuleInfo (λ m, m <| mi_Version := 2 |>);;
  setSwitchState NO;;
  setNowTemp (getTempByCtrl 0x6000).

(** The four calls of [TimerTask] at the head of the loop. *)
Definition uart_timers (t : uart_task) : uart_task :=
  let '(f1, c1) := TimerTask (time1S t) (1000 / UART_PERIOD) in
  let '(f5, c5) := TimerTask (time5S t) (5000 / UART_PERIOD) in
  let '(f10, c10) := TimerTask (time10S t) (10000 / UART_PERIOD) in
  let '(f100, c100) := TimerTask (time100ms t) (100 / UART_PERIOD) in
  t <| Timer1sTouch := f1 |> <| time1S := c1 |> <| Timer5sTouch := f5 |> <| time5S := c5 |>
    <| Timer10sTouch := f10 |> <| time10S := c10 |>
    <| Timer100msTouch := f100 |> <| time100ms := c100 |>.

(** A message from the hub. *)
Definition hub_message : prog fw unit :=
  m ← gets fw_uart1;
  mi ← getModuleInfo;
  d0 ← lift (load (rx_data m) 0);
  (if decide (REGISTER_CODE = d0) then
     if decide (6 ≤ rx_size m) then
       d2 ← lift (load (rx_data m) 2);
       d3 ← lift (load (rx_data m) 3);
       d4 ← lift (load (rx_data m) 4);
       d5 ← lift (load (rx_data m) 5);
       let uuid := u32 (Z.lor (Z.lor (Z.lor (Z.shiftl d2 24) (Z.shiftl d3 16)) (Z.shiftl d4 8)) d5) in
       id ← lift ReadUniqueId;
       (if decide (uuid = id) then
          setModuleInfo (λ m, m <| mi_register_state := REGISTER_SUCESS |>);;
          d7 ← lift (load (rx_data m) 7);
          setModuleInfo (λ m, m <| mi_addr := d7 |>)
        else mret tt);;
       setMasterEvent EVENT_CLEAN
     else mret tt
   else if decide (mi_addr mi = d0) then
     _ ← analyzeMasterData (rx_data m) (rx_size m);
     setModuleInfo (λ m, m <| mi_register_state := REGISTER_SUCESS |>);;
     setMasterEvent EVENT_CLEAN;;
     set_ut (λ t, t <| connect_monitor := 0 |>)
   else mret tt);;
  modify (λ s, s <| fw_uart1 := fw_uart1 s <| messageFlag := NO |> |>).

(** [infrared_event.event = e] on the task's copy, and its publication. *)
Definition set_local (e : ir_event) : prog fw unit :=
  set_ut (λ t, t <| ut_event := ut_event t <| event := e |> |>).
Definition publish : prog fw unit := ut ← gets fw_ut; setinfraredEvent (ut_event ut).
Definition call_local (r : Z) : prog fw unit := ut ← gets fw_ut; invoke (ev_call_back (ut_event ut)) r.

Definition learn_reply (m : rx_msg) (cb : Z) : prog fw unit :=
  if decide (rx_size m = SIZEOF_CODEDATA_RECV) then
    bs ← lift (load_bytes (rx_data m) 0 (rx_size m));
    recvResult ← lift (codedata_of_bytes bs);
    if decide (1 = state_code recvResult) then call_local cb;; publish
    else if decide (3 = state_code recvResult) then
      set_local EVENT_NULL;; publish;; pageReturn
    else mret tt
  else mret tt.

(** A message from the code-library chip, by the task's own copy of the event. *)
Definition chip_message : prog fw unit :=
  m ← gets fw_uart2;
  ut ← gets fw_ut;
  match event (ut_event ut) with
  | EVENT_SEND_MATCH =>
      (if decide (rx_size m = SIZEOF_CODEDATA_RECV) then
         _ ← codeDataRecvResult uart2_msg_data stack_beyond; mret tt
       else mret tt);;
      if decide (rx_size m = SIZEOF_RECV_MATCH) then
        bs ← lift (load_bytes (rx_data m) 0 SIZEOF_RECV_MATCH);
        s0 ← lift (load bs 0);
        s1 ← lift (load bs 1);
        cmd ← lift (load bs 3);
        b0 ← lift (load bs 4);
        b1 ← lift (load bs 5);
        if decide (Z.lor (Z.shiftl s0 8) s1 ≠ 0 ∧ 0x41 = cmd) then
          setModuleInfo (λ m, m <| mi_brand_code := be16 b0 b1 |>);;
          set_local EVENT_SEND_SAVE;;
          call_local INFRARED_EVENT_MATCH_OK;;
          publish
        else mret tt
      else mret tt
  | EVENT_SEND_SAVE =>
      if decide (rx_size m = SIZEOF_CODEDATA_RECV) then
        _ ← codeDataRecvResult uart2_msg_data stack_beyond;
        set_local EVENT_NULL;;
        call_local INFRARED_EVENT_SAVE_OK;;
        publish
      else mret tt
  | EVENT_SEND_LEARN_MODE_ON => learn_reply m CB_IN_LEARN_ON
  | EVENT_SEND_LEARN_MODE_OFF => learn_reply m CB_IN_LEARN_OFF
  | _ => mret tt
  end;;
  modify (λ s, s <| fw_uart2 := fw_uart2 s <| messageFlag := NO |> |>).

(** Changed settings go to flash. *)
Definition save_settings : prog fw unit :=
  ut ← gets fw_ut;
  mi ← getModuleInfo;
  if decide (mi_brand_code (modulePre ut) ≠ mi_brand_code mi ∨
             mi_addr (modulePre ut) ≠ mi_addr mi ∨ mi_select (modulePre ut) ≠ mi_select mi) then
    set_ut (λ t, t <| modulePre := mi |>);;
    zoom fw_flash (setDataToFlah DATA_BLOCK_START (mi_bytes mi) SIZEOF_MODULE_INFO)
  else mret tt.

(** The 100 ms event: the locate flash. *)
Definition locate_event : prog fw unit :=
  mi ← getModuleInfo;
  if decide (YES = mi_find_location mi) then
    ut ← gets fw_ut;
    if decide (find_location_cnt ut < 600) then
      set_ut (λ t, t <| find_location_cnt := u16 (find_location_cnt t + 1) |>);; LED_TEST
    else
      set_ut (λ t, t <| find_location_cnt := 0 |>);;
      setModuleInfo (λ m, m <| mi_find_location := NO |>)
  else mret tt.

Definition done_local : prog fw unit := set_local EVENT_NULL;; publish.

(** The switch on the event, once a second. *)
Definition second_command : prog fw unit :=
  ut ← gets fw_ut;
  mi ← getModuleInfo;
  match event (ut_event ut) with
  | EVENT_SEND_MATCH => sendMatchDataToCodeData uart2
  | EVENT_SEND_SAVE => sendSaveCommandToCodeData uart2
  | EVENT_SEND_ON_TEST =>
      (if decide (SELECT_MATCH = mi_select mi) then sendMatchOnTest uart2
       else if decide (SELECT_LEARN = mi_select mi) then sendlearnOn uart2 else mret tt);;
      done_local
  | EVENT_SEND_OFF_TEST =>
      (if decide (SELECT_MATCH = mi_select mi) then sendMatchOffTest uart2
       else sendlearnOff uart2);;
      done_local
  | EVENT_SEND_LEARN_MODE_ON => sendInLearnOnMode uart2
  | EVENT_SEND_LEARN_MODE_OFF => sendInLearnOffMode uart2
  | EVENT_SEND_MATCH_OVER => sendMatchOver uart2;; done_local
  | EVENT_SEND_LEARN_ON_OVER => sendLearnOnOver uart2;; done_local
  | EVENT_SEND_LEARN_OFF_OVER => sendLearnOffOver uart2;; done_local
  | EVENT_NULL | EVENT_WAIT_LEARN_ON | EVENT_WAIT_LEARN_OFF => mret tt
  end.

Definition send_registration : prog fw unit :=
  ut ← gets fw_ut;
  data ← sendRegisterToMaster (ut_data ut);
  set_ut (λ t, t <| ut_data := data |>).

(** Sending the control word: at once when it has changed, then twice more. *)
Definition control_repeat : prog fw unit :=
  ut ← gets fw_ut;
  mi ← getModuleInfo;
  if decide (ctrl_pre ut ≠ mi_ctrl mi) then
    set_ut (λ t, t <| ctrl_pre := mi_ctrl mi |>);;
    sendCtrlCommandToCodeData uart2;;
    set_ut (λ t, t <| sendCmdCnt := 0 |>)
  else if decide (sendCmdCnt ut < 2) then
    set_ut (λ t, t <| sendCmdCnt := u8 (sendCmdCnt t + 1) |>);;
    sendCtrlCommandToCodeData uart2
  else mret tt.

(** The 1 s event. *)
Definition second_event : prog fw unit :=
  ev ← getInfraredEvent;
  set_ut (λ t, t <| ut_event := ev |>);;
  me ← getMasterEvent;
  set_ut (λ t, t <| ut_master_event := me |>);;
  second_command;;
  mi ← getModuleInfo;
  (if decide (NO = mi_find_location mi) then
     if decide (Z.shiftr (mi_ctrl mi) 15 ≠ 0) then LED_ON else LED_TEST
   else mret tt);;
  ut ← gets fw_ut;
  (if decide (NO = startFlag ut) then
     send_registration;; set_ut (λ t, t <| startFlag := YES |>)
   else mret tt);;
  ut ← gets fw_ut;
  (if decide (connect_monitor ut < 30) then
     set_ut (λ t, t <| connect_monitor := u8 (connect_monitor t + 1) |>)
   else setMasterEvent EVENT_REGISTER);;
  control_repeat.

Definition five_second_event : prog fw unit :=
  mi ← getModuleInfo;
  if decide (REGISTER_SUCESS ≠ mi_register_state mi) then setMasterEvent EVENT_REGISTER else mret tt.

Definition ten_second_event : prog fw unit :=
  ut ← gets fw_ut;
  match ut_master_event ut with
  | EVENT_REGISTER => send_registration
  | _ => mret tt
  end;;
  set_ut (λ t, t <| startCheckIo := YES |>).

(** One turn of the loop. *)
Definition UartTaskEntry_turn (io : Z) : prog fw unit :=
  set_ut uart_timers;;
  mi ← getModuleInfo;
  (if decide (REGISTER_SUCESS ≠ mi_register_state mi) then IoCheckProgram io UART_PERIOD else mret tt);;
  m1 ← gets fw_uart1;
  (if decide (YES = messageFlag m1) then hub_message else mret tt);;
  m2 ← gets fw_uart2;
  (if decide (YES = messageFlag m2) then chip_message else mret tt);;
  save_settings;;
  ut ← gets fw_ut;
  (if decide (YES = Timer100msTouch ut) then locate_event else mret tt);;
  (if decide (YES = Timer1sTouch ut) then second_event else mret tt);;
  (if decide (YES = Timer5sTouch ut) then five_second_event else mret tt);;
  (if decide (YES = Timer10sTouch ut) then ten_second_event else mret tt);;
  rt_thread_mdelay UART_PERIOD.

End task.

(** ** The receive buffers *)

Lemma receive_ok m rx :
  rx_ok m → Forall is_u8 rx → zlen rx ≤ UART_MSG_SIZE →
  receive m rx (zlen rx) = Ok (m <| rx_size := zlen rx |> <| rx_data := rx ++ drop (length rx) (rx_data m) |>) ∧
  rx_ok (m <| rx_size := zlen rx |> <| rx_data := rx ++ drop (length rx) (rx_data m) |>).
Proof.
  intros (Hl & Hu & Hs) Hrx Hn. unfold receive. rewrite take_ge by (unfold zlen; lia).
  assert (0 + zlen rx ≤ zlen (rx_data m)) as Hfit by (rewrite Hl; lia).
  rewrite store_bytes_in by (done || lia). split; [done|]. unfold rx_ok, upd; cbn [rx_data rx_size].
  split; [|split; [|unfold zlen in *; lia]].
  - unfold zlen in *. rewrite length_app, length_drop. lia.
  - apply Forall_app_2; [done|by apply Forall_drop].
Qed.

Lemma receive_long m rx size :
  zlen (rx_data m) = UART_MSG_SIZE → UART_MSG_SIZE < size → size ≤ zlen rx →
  receive m rx size = Fault OutOfBounds.
Proof.
  intros Hl Hs Hrx. unfold receive. rewrite store_bytes_out; [done|lia|].
  rewrite Hl. unfold zlen in *. rewrite length_take. unfold UART_MSG_SIZE in *. lia.
Qed.

(** A message for the module: its CRC is right, and its first byte is the
    registration code or the module's own address. *)
Definition hub_frame (addr : Z) (rx : list Z) : Prop :=
  ∃ body, rx = with_crc body ∧ (rx !! 0%nat = Some REGISTER_CODE ∨ rx !! 0%nat = Some addr).

Lemma crc_tail body hi lo :
  Forall is_u8 body → is_u8 hi → is_u8 lo →
  u16 (Z.lor (u16 (Z.shiftl hi 8)) lo) = crc16 body ↔ [lo; hi] = le_bytes 2 (crc16 body).
Proof.
  intros Hb Hh Hl. pose proof (crc16_range body Hb) as Hc. set (c := crc16 body) in *.
  cbn [le_bytes]. rewrite shiftr8_div.
  rewrite (u16_id (Z.shiftl hi 8)) by (rewrite shiftl8_mul; unfold is_u16, is_u8 in *; lia).
  rewrite lor_shiftl8 by done. unfold u16, u8, is_u8, is_u16 in *. split.
  - intros Heq. f_equal; [lia|f_equal; lia].
  - intros [= -> ->]. lia.
Qed.

Lemma last_two (rx : list Z) :
  2 ≤ zlen rx → ∃ body lo hi, rx = body ++ [lo; hi].
Proof.
  intros Hl. exists (take (length rx - 2) rx).
  destruct (drop_two (length rx - 2) rx) as (lo & hi & rest & Hd); [unfold zlen in Hl; lia|].
  exists lo, hi. rewrite <- (take_drop (length rx - 2) rx) at 1. rewrite Hd.
  assert (length (drop (length rx - 2) rx) = 2%nat) as Hdl by (rewrite length_drop; unfold zlen in Hl; lia).
  rewrite Hd in Hdl. by destruct rest.
Qed.

Section input.
Context (s : fw) (rx : list Z).
Context (Hm : rx_ok (fw_uart1 s)) (Hrx : Forall is_u8 rx) (Hlen : zlen rx ≤ UART_MSG_SIZE).

(** The state after a message, accepted or not. *)
Definition heard (accepted : bool) : fw :=
  let m := fw_uart1 s <| rx_size := zlen rx |>
                      <| rx_data := rx ++ drop (length rx) (rx_data (fw_uart1 s)) |> in
  s <| fw_uart1 := if accepted then m <| messageFlag := YES |> else m |>.

Lemma Uart1_input_ok (acc : bool) :
  (acc = true ↔ 2 ≤ zlen rx ∧ hub_frame (mi_addr (fw_mi s)) rx) →
  Uart1_input rx (zlen rx) s = Ok (if acc then RT_EOK else RT_ERROR, heard acc).
Proof using Hm Hrx Hlen.
  intros Hacc. destruct (receive_ok _ _ Hm Hrx Hlen) as [Hr _].
  unfold Uart1_input, mbind, prog_bind, gets, lift. cbv beta iota. rewrite Hr.
  cbv beta iota. unfold modify at 1. cbv beta iota. fold (heard false).
  set (tail := drop (length rx) (rx_data (fw_uart1 s))).
  change (rx_data (_ <| rx_data := ?d |>)) with d.
  destruct (decide (2 > zlen rx)) as [Hshort|Hlong].
  { destruct acc; [lia|]. done. }
  destruct (last_two rx) as (body & lo & hi & Heq); [lia|].
  assert (Forall is_u8 body ∧ is_u8 lo ∧ is_u8 hi) as (Hb & Hlo & Hhi).
  { rewrite Heq in Hrx. apply Forall_app in Hrx as [? H2].
    apply Forall_cons_1 in H2 as [? H2]. apply Forall_cons_1 in H2 as [? _]. done. }
  assert (zlen rx = zlen body + 2) as Hz
    by (rewrite Heq; unfold zlen; rewrite length_app; cbn; lia).
  destruct (lookup_lt_is_Some_2 rx 0) as [d0 Hd0]; [unfold zlen in *; lia|].
  rewrite (load_ok (rx ++ tail) 0 d0) by (done || by apply lookup_app_l_Some).
  unfold getModuleInfo, gets. cbv beta iota. change (fw_mi (heard false)) with (fw_mi s).
  destruct (decide (¬ (REGISTER_CODE = d0 ∨ mi_addr (fw_mi s) = d0))) as [Hno|Hyes].
  { destruct acc; [|done]. destruct (proj1 Hacc eq_refl) as (_ & ? & _ & [Hc|Hc]);
      rewrite Hd0 in Hc; injection Hc as ->; tauto. }
  assert ((rx ++ tail) !! Z.to_nat (zlen rx - 2) = Some lo) as Hlk_lo.
  { replace (Z.to_nat (zlen rx - 2)) with (length body) by (unfold zlen in *; lia).
    rewrite Heq, <- app_assoc. by apply list_lookup_middle. }
  assert ((rx ++ tail) !! Z.to_nat (zlen rx - 1) = Some hi) as Hlk_hi.
  { replace (Z.to_nat (zlen rx - 1)) with (S (length body)) by (unfold zlen in *; lia).
    rewrite Heq, <- app_assoc. cbn [app].
    replace (body ++ lo :: hi :: tail) with ((body ++ [lo]) ++ hi :: tail) by (by rewrite <- app_assoc).
    apply list_lookup_middle. rewrite length_app. cbn. lia. }
  rewrite (load_ok _ (zlen rx - 1) hi ltac:(lia) Hlk_hi), (load_ok _ (zlen rx - 2) lo ltac:(lia) Hlk_lo).
  cbv beta iota. rewrite usModbusRTU_CRC_ok by (unfold zlen in *; rewrite length_app; lia).
  assert (take (Z.to_nat (zlen rx - 2)) (rx ++ tail) = body) as ->.
  { replace (Z.to_nat (zlen rx - 2)) with (length body) by (unfold zlen in *; lia).
    rewrite Heq, <- app_assoc. apply take_app_length. }
  pose proof (crc_tail body hi lo Hb Hhi Hlo) as Hcrc.
  destruct (decide (u16 (Z.lor (u16 (Z.shiftl hi 8)) lo) = crc16 body)) as [Hok|Hbad].
  - destruct acc; [done|]. enough (false = true) by done. apply Hacc. split; [lia|].
    exists body. split; [by rewrite Heq; apply Hcrc in Hok as ->|].
    rewrite Hd0. destruct (decide (REGISTER_CODE = d0)) as [<-|]; [by left|]. right. f_equal.
    destruct (decide (mi_addr (fw_mi s) = d0)) as [<-|]; [done|]. exfalso. tauto.
  - destruct acc; [|done]. destruct (proj1 Hacc eq_refl) as (_ & body' & Hw & _).
    exfalso. apply Hbad, Hcrc. rewrite Heq in Hw. unfold with_crc in Hw.
    apply app_inj_2 in Hw as [-> ?]; done.
Qed.
End input.

(** ** The interrupts keep the invariant *)

Lemma Uart1_input_inv `{HeapShape} rx :
  Forall is_u8 rx → zlen rx ≤ UART_MSG_SIZE → preserves fw_inv (Uart1_input rx (zlen rx)).
Proof.
  intros Hu Hl s Hs. pose proof (inv_rx1 s Hs) as Hm.
  destruct (receive_ok _ _ Hm Hu Hl) as [Hr (H1 & H2 & H3)].
  assert (∀ fl, fw_inv (s <| fw_uart1 := mk_rx (zlen rx) fl (rx ++ drop (length rx) (rx_data (fw_uart1 s))) |>))
    as Hinv by (intros fl; destruct Hs; constructor; try assumption; exact (conj H1 (conj H2 H3))).
  unfold Uart1_input. rewrite wp_bind, wp_gets, wp_bind, wp_lift, Hr. cbn [owp].
  rewrite wp_bind, wp_modify. case_decide as Hshort; [apply (Hinv (messageFlag (fw_uart1 s)))|].
  set (data := rx_data _). assert (zlen data = UART_MSG_SIZE) as Hdl by exact H1.
  rewrite wp_bind, wp_lift. destruct (load_in data 0) as (d0 & -> & _); [rewrite Hdl; done|]. cbn [owp].
  rewrite wp_bind. unfold getModuleInfo. rewrite wp_gets.
  case_decide; [apply (Hinv (messageFlag (fw_uart1 s)))|].
  rewrite wp_bind, wp_lift. destruct (load_in data (zlen rx - 1)) as (hi & -> & _); [lia|]. cbn [owp].
  rewrite wp_bind, wp_lift. destruct (load_in data (zlen rx - 2)) as (lo & -> & _); [lia|]. cbn [owp].
  cbn zeta. rewrite wp_bind, wp_lift, usModbusRTU_CRC_ok by lia. cbn [owp].
  case_decide; [|apply (Hinv (messageFlag (fw_uart1 s)))].
  rewrite wp_bind, wp_modify, wp_ret. apply (Hinv YES).
Qed.

Lemma Uart2_input_inv `{HeapShape} rx :
  Forall is_u8 rx → zlen rx ≤ UART_MSG_SIZE → (zlen rx = 7 → brand_in rx) →
  preserves fw_inv (Uart2_input rx (zlen rx)).
Proof.
  intros Hu Hl Hb s Hs. pose proof (inv_rx2 s Hs) as [Hm _].
  destruct (receive_ok _ _ Hm Hu Hl) as [Hr (H1 & H2 & H3)].
  set (data := rx ++ drop (length rx) (rx_data (fw_uart2 s))) in *.
  assert (∀ fl, fw_inv (s <| fw_uart2 := mk_rx (zlen rx) fl data |>)) as Hinv.
  { intros fl. destruct Hs. constructor; try assumption. split; [exact (conj H1 (conj H2 H3))|].
    unfold upd; cbn. intros H7 h l Hh Hlo. specialize (Hb H7).
    unfold data in Hh, Hlo. rewrite lookup_app_l in Hh, Hlo by (unfold zlen in H7; lia).
    by apply (Hb h l). }
  unfold Uart2_input. rewrite wp_bind, wp_gets, wp_bind, wp_lift, Hr. cbn [owp].
  rewrite wp_bind, wp_modify. change (rx_data (_ <| rx_data := ?d |>)) with d in *.
  rewrite wp_bind. apply (wp_mono _ (λ _, fw_inv)); [|by intros [] s' Hs'].
  case_decide; [|apply (Hinv (messageFlag (fw_uart2 s)))].
  rewrite wp_bind, wp_lift. destruct (load_in data 0) as (d0 & -> & _); [by rewrite H1|]. cbn [owp].
  rewrite wp_bind, wp_lift. destruct (load_in data 1) as (d1 & -> & _); [by rewrite H1|]. cbn [owp].
  case_decide; [apply (Hinv YES)|apply (Hinv (messageFlag (fw_uart2 s)))].
Qed.

(** ** The task keeps the invariant *)

Lemma set_ut_inv `{HeapShape} f :
  (∀ t, event_ok (ut_event t) → event_ok (ut_event (f t))) →
  (∀ t, event (ut_event (f t)) = EVENT_SEND_SAVE → event (ut_event t) = EVENT_SEND_SAVE) →
  (∀ t, zlen (ut_data t) = 16 → zlen (ut_data (f t)) = 16) → preserves fw_inv (set_ut f).
Proof. intros Hev Hsv Hd. unfold set_ut. inv_update; auto. intros [?|?]; auto. Qed.
#[export] Hint Extern 2 (preserves fw_inv (set_ut _)) => (apply set_ut_inv; done) : preserves.

Lemma clear_flag1_inv `{HeapShape} :
  preserves fw_inv (modify (λ s, s <| fw_uart1 := fw_uart1 s <| messageFlag := NO |> |>)).
Proof. inv_update. Qed.
Lemma clear_flag2_inv `{HeapShape} :
  preserves fw_inv (modify (λ s, s <| fw_uart2 := fw_uart2 s <| messageFlag := NO |> |>)).
Proof. inv_update. Qed.
#[export] Hint Resolve clear_flag1_inv clear_flag2_inv : preserves.

(** Writing the settings to flash ends, whatever the flash controller reports. *)
Lemma flash_write_loop_total `{FlashHw} fuel addr end_addr buf p m :
  0 ≤ p → end_addr - addr ≤ zlen buf - p → (end_addr - addr) mod 4 = 0 →
  (Z.to_nat (end_addr - addr) < fuel)%nat →
  wp (stm32_flash_write_loop fuel addr end_addr buf p) (λ _ _, True) m.
Proof.
  revert addr p m. induction fuel as [|fuel IH]; intros addr p m Hp Hb H4 Hf; [lia|].
  cbn [stm32_flash_write_loop]. case_decide; [|done].
  rewrite wp_bind, wp_lift, load_bytes_in by lia. cbn [owp]. rewrite wp_bind.
  set (w := take _ _).
  assert (∀ n i d m, wp (HAL_FLASH_Program_loop n i addr d) (λ _ _, True) m) as Hprog.
  { clear. induction n as [|n IHn]; intros i d m; cbn [HAL_FLASH_Program_loop]; [done|].
    rewrite wp_bind. unfold wp at 1, FLASH_Program_HalfWord.
    destruct (hw_program_halfword _ _ m) as [[] m']; [apply IHn|done]. }
  eapply wp_mono; [apply Hprog|]. intros [] m' _; [|done].
  rewrite wp_bind, wp_gets. case_decide; [done|]. apply IH; lia.
Qed.

Lemma setDataToFlah_total `{FlashHw} bs m :
  zlen bs = SIZEOF_MODULE_INFO → wp (setDataToFlah DATA_BLOCK_START bs SIZEOF_MODULE_INFO) (λ _ _, True) m.
Proof.
  intros Hl. unfold setDataToFlah. rewrite wp_bind.
  assert (∀ n a m, wp (HAL_FLASHEx_Erase a n) (λ _ _, True) m) as Her.
  { clear. induction n as [|n IHn]; intros a m; cbn [HAL_FLASHEx_Erase]; [done|].
    rewrite wp_bind. unfold wp at 1, FLASH_PageErase.
    destruct (hw_erase_page a m) as [[] m']; [apply IHn|done]. }
  apply (wp_mono _ (λ _ _, True)).
  { unfold stm32_flash_erase, stm32_flash_erase_bank. case_decide; [done|].
    apply wp_unlock. intros m0 _ _. cbv zeta. rewrite wp_bind. eapply wp_mono; [apply Her|]. done. }
  intros _ m' _. rewrite wp_bind. apply (wp_mono _ (λ _ _, True)); [|done].
  unfold stm32_flash_write. known_decides. apply wp_unlock. intros m0 _ _. rewrite wp_bind.
  apply (wp_mono _ (λ _ _, True)); [|done].
  apply flash_write_loop_total; [lia|rewrite Hl; vm_compute; congruence|done|lia].
Qed.

Section task_inv.
Context `{Chip, HeapShape, FlashHw, Layout}.

Lemma save_settings_inv : preserves fw_inv save_settings.
Proof using.
  unfold save_settings, getModuleInfo. preserves_all.
  intros s Hs. rewrite wp_zoom. eapply wp_mono; [apply setDataToFlah_total|].
  - done.
  - intros ? m _. destruct Hs. constructor; assumption.
Qed.

Lemma IoCheck_inv io p : preserves fw_inv (IoCheckProgram io p).
Proof using. unfold IoCheckProgram. cbn zeta. preserves_all. Qed.

Lemma send_registration_inv : preserves fw_inv send_registration.
Proof using.
  intros s Hs. unfold send_registration. rewrite wp_bind, wp_gets, wp_bind.
  eapply wp_mono; [apply (sendRegister_inv _ s Hs (inv_ut_data s Hs))|].
  intros d s' [Hs' Hd]. by apply set_ut_inv.
Qed.

Lemma register_state_inv v :
  is_u8 v → preserves fw_inv (setModuleInfo (λ m, m <| mi_register_state := v |>)).
Proof using. intros. apply setModuleInfo_inv; [unfold mi_wf, upd; cbn; tauto|done]. Qed.
Lemma addr_inv v : is_u8 v → preserves fw_inv (setModuleInfo (λ m, m <| mi_addr := v |>)).
Proof using. intros. apply setModuleInfo_inv; [unfold mi_wf, upd; cbn; tauto|done]. Qed.
Lemma find_location_inv v :
  is_u8 v → preserves fw_inv (setModuleInfo (λ m, m <| mi_find_location := v |>)).
Proof using. intros. apply setModuleInfo_inv; [unfold mi_wf, upd; cbn; tauto|done]. Qed.

Lemma load_u8 (l : list Z) i : Forall is_u8 l → 0 ≤ i < zlen l → ∃ v, load l i = Ok v ∧ is_u8 v.
Proof using.
  intros Hu Hi. destruct (load_in l i Hi) as (v & Hl & Hlk). exists v. split; [done|].
  exact (Forall_lookup_1 _ _ _ _ Hu Hlk).
Qed.

Lemma hub_message_inv : preserves fw_inv hub_message.
Proof using Type*.
  unfold hub_message. apply preserves_gets_bind. intros s0 Hs0.
  destruct (inv_rx1 s0 Hs0) as (Hl & Hu & Hn). set (m := fw_uart1 s0) in *.
  change UART_MSG_SIZE with 100 in Hl.
  preserves_step; [apply getModuleInfo_inv|].
  destruct (load_u8 _ 0 Hu ltac:(lia)) as (d0 & Hd0 & _).
  destruct (load_u8 _ 2 Hu ltac:(lia)) as (d2 & Hd2 & _).
  destruct (load_u8 _ 3 Hu ltac:(lia)) as (d3 & Hd3 & _).
  destruct (load_u8 _ 4 Hu ltac:(lia)) as (d4 & Hd4 & _).
  destruct (load_u8 _ 5 Hu ltac:(lia)) as (d5 & Hd5 & _).
  destruct (load_u8 _ 7 Hu ltac:(lia)) as (d7 & Hd7 & Hu7).
  apply (preserves_lift_bind _ _ d0 _ Hd0).
  preserves_step; [|intros; apply clear_flag1_inv].
  preserves_step; [|preserves_step; [|apply preserves_ret]].
  - preserves_step; [|apply preserves_ret].
    apply (preserves_lift_bind _ _ d2 _ Hd2), (preserves_lift_bind _ _ d3 _ Hd3),
      (preserves_lift_bind _ _ d4 _ Hd4), (preserves_lift_bind _ _ d5 _ Hd5). cbn zeta.
    apply (preserves_lift_bind _ _ _ _ ReadUniqueId_ok).
    preserves_step; [|apply setMasterEvent_inv]. preserves_step; [|apply preserves_ret].
    preserves_step; [by apply register_state_inv|].
    apply (preserves_lift_bind _ _ d7 _ Hd7). by apply addr_inv.
  - preserves_step; [apply analyzeMasterData_inv; [lia|done]|].
    preserves_step; [by apply register_state_inv|]. preserves_all.
Qed.

Lemma publish_inv : preserves fw_inv publish.
Proof using.
  intros s Hs. unfold publish. rewrite wp_bind, wp_gets. unfold setinfraredEvent. rewrite wp_modify.
  pose proof (inv_ut_event s Hs). pose proof (inv_brand s Hs) as Hb. destruct Hs.
  constructor; try assumption. intros [?|?]; apply Hb; by right.
Qed.
Hint Resolve publish_inv : preserves.

(** The local event is one of those that call back nothing. *)
Lemma set_local_null_inv : preserves fw_inv (set_local EVENT_NULL).
Proof using. apply set_ut_inv; done. Qed.
Hint Resolve set_local_null_inv : preserves.

Lemma done_local_inv : preserves fw_inv done_local.
Proof using. unfold done_local. preserves_all. Qed.
Hint Resolve done_local_inv : preserves.


Lemma codeData_inv : preserves fw_inv (codeDataRecvResult uart2_msg_data stack_beyond).
Proof using Type*.
  pose proof stack_long as Hs. unfold codeDataRecvResult.
  preserves_step; [apply access_inv; by right; right|].
  destruct stack_beyond as [|w [|x [|y [|z rest]]]]; cbn in Hs; try lia.
  eapply preserves_lift_bind; [apply load_bytes_in; done || (unfold SIZEOF_CODEDATA_RECV, zlen; cbn [le_bytes app length]; lia)|].
  eapply preserves_lift_bind; [reflexivity|]. apply preserves_ret.
Qed.

(** It touches neither the settings nor the task's variables. *)
Lemma codeData_cb s :
  fw_inv s → wp (codeDataRecvResult uart2_msg_data stack_beyond)
    (λ _ s', fw_inv s' ∧ fw_ut s' = fw_ut s ∧ fw_mi s' = fw_mi s) s.
Proof using Type*.
  intros Hs. pose proof (codeData_inv s Hs) as Hi. revert Hi. unfold codeDataRecvResult.
  rewrite !wp_bind. intros Hi. unfold access in *. apply wp_when; intros Hb; rewrite Hb in Hi.
  all: cbn [when] in Hi; rewrite ?wp_modify, ?wp_ret in *; rewrite wp_bind, wp_lift in *.
  all: destruct (load_bytes _ _ _); [|done]; cbn [owp] in *; rewrite wp_bind, wp_lift in *.
  all: destruct (codedata_of_bytes _); [|done]; cbn [owp] in *; rewrite wp_ret in *; done.
Qed.

(** The task's own event with a call-back that holds a function. *)
Definition local_cb (cb : call_back) (s : fw) : Prop :=
  fw_inv s ∧ ev_call_back (ut_event (fw_ut s)) = cb ∧
  (cb = matchCallBack_p → mi_brand_code (fw_mi s) ≤ BRAND_MAX).

Lemma call_local_inv cb r :
  cb = matchCallBack_p ∨ cb = learnCallBack_p →
  ∀ s, local_cb cb s → wp (call_local r) (λ _, fw_inv) s.
Proof using.
  intros Hcb s (Hs & Hc & Hb). unfold call_local. rewrite wp_bind, wp_gets, Hc. by apply invoke_inv.
Qed.

Lemma set_local_cb e cb s :
  local_cb cb s → event_ok (mk_event e cb) → (e = EVENT_SEND_SAVE → cb = matchCallBack_p) →
  wp (set_local e) (λ _, local_cb cb) s.
Proof using.
  intros (Hs & Hc & Hb) He Hsv. unfold set_local, set_ut. rewrite wp_modify. split; [|done].
  pose proof (inv_brand s Hs) as Hbr. destruct Hs. constructor; try assumption.
  - unfold upd; cbn. unfold event_ok in *. cbn in *. by rewrite Hc.
  - intros [?|?]; [apply Hbr; by left|auto].
Qed.

Lemma brand_cb v cb s :
  fw_inv s → ev_call_back (ut_event (fw_ut s)) = cb → is_u16 v → v ≤ BRAND_MAX →
  wp (setModuleInfo (λ m, m <| mi_brand_code := v |>)) (λ _, local_cb cb) s.
Proof using.
  intros Hs Hc Hv Hb. unfold setModuleInfo. rewrite wp_modify. split; [|done].
  destruct Hs. constructor; try assumption; [|done]. unfold mi_wf, upd in *; cbn. tauto.
Qed.

Lemma learn_reply_inv m cbr s :
  fw_inv s → rx_ok m → ev_call_back (ut_event (fw_ut s)) = learnCallBack_p →
  wp (learn_reply m cbr) (λ _, fw_inv) s.
Proof using.
  intros Hs (Hl & Hu & Hn) Hcb. unfold learn_reply. case_decide as H8; [|done].
  change UART_MSG_SIZE with 100 in Hl. rewrite H8. unfold SIZEOF_CODEDATA_RECV.
  rewrite wp_bind, wp_lift, load_bytes_in by lia. cbn [owp]. rewrite wp_bind, wp_lift.
  change (drop (Z.to_nat 0) ?l) with l. change (Z.to_nat 8) with 8%nat.
  destruct (rx_data m) as [|x0 [|x1 [|x2 [|x3 [|x4 [|x5 [|x6 [|x7 tl]]]]]]]];
    try (unfold zlen in Hl; cbn [length] in Hl; lia).
  cbn [firstn]. rewrite take_0. cbn [codedata_of_bytes owp state_code]. case_decide; [|case_decide; [|done]].
  - rewrite wp_bind. eapply wp_mono; [apply (call_local_inv learnCallBack_p); [by right|done]|].
    intros ? s1 Hs1. by apply publish_inv.
  - rewrite wp_bind. eapply wp_mono; [by apply set_local_null_inv|]. intros ? s1 Hs1.
    rewrite wp_bind. eapply wp_mono; [by apply publish_inv|]. intros ? s2 Hs2. by apply pageReturn_inv.
Qed.

Lemma chip_match_inv m s :
  fw_inv s → rx_ok m → (rx_size m = 7 → brand_in (rx_data m)) →
  ev_call_back (ut_event (fw_ut s)) = matchCallBack_p →
  wp (if decide (rx_size m = SIZEOF_RECV_MATCH) then
        bs ← lift (load_bytes (rx_data m) 0 SIZEOF_RECV_MATCH);
        s0 ← lift (load bs 0);
        s1 ← lift (load bs 1);
        cmd ← lift (load bs 3);
        b0 ← lift (load bs 4);
        b1 ← lift (load bs 5);
        if decide (Z.lor (Z.shiftl s0 8) s1 ≠ 0 ∧ 0x41 = cmd) then
          setModuleInfo (λ m, m <| mi_brand_code := be16 b0 b1 |>);;
          set_local EVENT_SEND_SAVE;;
          call_local INFRARED_EVENT_MATCH_OK;;
          publish
        else mret tt
      else mret tt) (λ _, fw_inv) s.
Proof using.
  intros Hs (Hl & Hu & Hn) Hbr Hcb. case_decide as H7; [|done]. specialize (Hbr H7).
  change UART_MSG_SIZE with 100 in Hl. unfold SIZEOF_RECV_MATCH in *.
  rewrite wp_bind, wp_lift, load_bytes_in by lia. cbn [owp].
  change (drop (Z.to_nat 0) ?l) with l. change (Z.to_nat 7) with 7%nat.
  destruct (rx_data m) as [|x0 [|x1 [|x2 [|x3 [|x4 [|x5 [|x6 tl]]]]]]];
    try (unfold zlen in Hl; cbn [length] in Hl; lia).
  do 6 (apply Forall_cons_1 in Hu as [? Hu]). cbn [firstn]. rewrite take_0.
  rewrite wp_bind, wp_lift. change (load _ 0) with (@Ok Z x0). cbn [owp].
  rewrite wp_bind, wp_lift. change (load _ 1) with (@Ok Z x1). cbn [owp].
  rewrite wp_bind, wp_lift. change (load _ 3) with (@Ok Z x3). cbn [owp].
  rewrite wp_bind, wp_lift. change (load _ 4) with (@Ok Z x4). cbn [owp].
  rewrite wp_bind, wp_lift. change (load _ 5) with (@Ok Z x5). cbn [owp].
  case_decide; [|done]. rewrite wp_bind.
  pose proof (Hbr x4 x5 eq_refl eq_refl) as Hle. rewrite be16_val by done.
  eapply wp_mono; [apply (brand_cb _ matchCallBack_p); [exact Hs|exact Hcb|unfold is_u8, is_u16 in *; lia|done]|].
  intros ? s1 Hs1. rewrite wp_bind.
  eapply wp_mono; [apply (set_local_cb _ matchCallBack_p); [exact Hs1|done..]|]. intros ? s2 Hs2.
  rewrite wp_bind. eapply wp_mono; [apply (call_local_inv matchCallBack_p); [by left|done]|].
  intros ? s3 Hs3. by apply publish_inv.
Qed.

Lemma chip_message_inv : preserves fw_inv chip_message.
Proof using Type*.
  intros s Hs. unfold chip_message. rewrite wp_bind, wp_gets, wp_bind, wp_gets, wp_bind.
  apply (wp_mono _ (λ _, fw_inv)); [|intros ? s' Hs'; by apply clear_flag2_inv].
  pose proof (inv_ut_event s Hs) as Hev. pose proof (inv_rx2 s Hs) as [Hm Hbr]. unfold event_ok in Hev.
  pose proof (codeData_cb s Hs) as Hr.
  destruct (event (ut_event (fw_ut s))) eqn:He; try done.
  - rewrite wp_bind. apply (wp_mono _ (λ _ s', fw_inv s' ∧ ut_event (fw_ut s') = ut_event (fw_ut s))).
    { case_decide; [|done]. rewrite wp_bind. eapply wp_mono; [exact Hr|]. intros ? s' (? & Hu & _).
      split; [done|by rewrite Hu]. }
    intros ? s' [Hs' Hu]. apply chip_match_inv; [done..|by rewrite Hu].
  - case_decide; [|done]. rewrite wp_bind. eapply wp_mono; [exact Hr|]. intros ? s0 (Hs0 & Hu & Hmi).
    rewrite wp_bind. rewrite <- Hu in Hev.
    eapply wp_mono; [apply (set_local_cb EVENT_NULL matchCallBack_p); [|done..];
      split; [exact Hs0|split; [exact Hev|intros _; apply (inv_brand s0 Hs0); right; by rewrite Hu]]|]. intros ? s1 Hs1.
    rewrite wp_bind. eapply wp_mono; [apply (call_local_inv matchCallBack_p); [by left|done]|].
    intros ? s2 Hs2. by apply publish_inv.
  - by apply learn_reply_inv.
  - by apply learn_reply_inv.
Qed.
Hint Resolve chip_message_inv hub_message_inv save_settings_inv IoCheck_inv send_registration_inv : preserves.

Lemma locate_event_inv : preserves fw_inv locate_event.
Proof using. unfold locate_event. preserves_all. by apply find_location_inv. Qed.

Lemma second_command_inv : preserves fw_inv second_command.
Proof using Type*.
  unfold second_command. apply preserves_bind; [apply preserves_gets|intros ut].
  apply preserves_bind; [apply getModuleInfo_inv|intros mi].
  destruct (event (ut_event ut)); cbv iota; preserves_all; apply done_local_inv.
Qed.

Lemma control_repeat_inv : preserves fw_inv control_repeat.
Proof using. unfold control_repeat. preserves_all. Qed.
Hint Resolve locate_event_inv second_command_inv control_repeat_inv : preserves.

Lemma second_event_inv : preserves fw_inv second_event.
Proof using Type*.
  intros s Hs. unfold second_event. unfold getInfraredEvent at 1. rewrite wp_bind, wp_gets, wp_bind. unfold set_ut at 1. rewrite wp_modify.
  set (s1 := s <| fw_ut := _ |>).
  assert (fw_inv s1) as Hs1.
  { pose proof (inv_brand s Hs) as Hb. pose proof (inv_event s Hs). destruct Hs.
    constructor; try assumption. intros [?|?]; apply Hb; by left. }
  revert Hs1. generalize s1. clear s1 Hs s.
  match goal with |- ∀ s1, fw_inv s1 → wp ?m _ s1 => change (preserves fw_inv m) end. preserves_all.
Qed.
Lemma five_second_inv : preserves fw_inv five_second_event.
Proof using. unfold five_second_event. preserves_all. Qed.
Lemma ten_second_inv : preserves fw_inv ten_second_event.
Proof using Type*.
  unfold ten_second_event. apply preserves_bind; [apply preserves_gets|intros ut].
  apply preserves_bind; [|intros; preserves_all].
  destruct (ut_master_event ut); preserves_all; apply send_registration_inv.
Qed.
Hint Resolve second_event_inv five_second_inv ten_second_inv : preserves.

Lemma UartTaskEntry_turn_inv io : preserves fw_inv (UartTaskEntry_turn io).
Proof using Type*.
  unfold UartTaskEntry_turn. preserves_step.
  { apply set_ut_inv; intros t; unfold uart_timers, TimerTask; by repeat case_decide. }
  preserves_all; (apply hub_message_inv || apply chip_message_inv || apply save_settings_inv || apply IoCheck_inv || apply second_event_inv || apply ten_second_inv).
Qed.
End task_inv.

(** ** Timers *)

(** The flag and the counter of [TimerTask] after [n] calls from zero. *)
Fixpoint timer_calls (n : nat) (touchTime : Z) : Z * Z :=
  match n with
  | O => (NO, 0)
  | S n => TimerTask (timer_calls n touchTime).2 touchTime
  end.

(** ** Debouncing of the switch input *)

Section polls.
Context `{Chip, FlashHw, Layout}.

Definition polls (n : nat) (io : Z) : prog fw unit := for_loop n 0 (λ _, IoCheckProgram io UART_PERIOD).

Definition counted (ct : Z) (s : fw) : fw := s <| fw_ut := fw_ut s <| continueTime := ct |> |>.

Lemma poll_counts io s :
  is_u8 io → Laststate (fw_ut s) ≠ io → 0 ≤ continueTime (fw_ut s) < 1500 →
  IoCheckProgram io UART_PERIOD s = Ok (tt, counted (continueTime (fw_ut s) + 50) s).
Proof using.
  intros Hio Hl Hc. unfold IoCheckProgram, mbind, prog_bind, gets. cbv beta iota zeta.
  rewrite u8_id by done. rewrite decide_True by done. unfold UART_PERIOD. rewrite decide_True by lia.
  unfold set_ut, modify, counted. rewrite u16_id by (unfold is_u16; lia). done.
Qed.

Lemma polls_count n i io s :
  is_u8 io → Laststate (fw_ut s) ≠ io → 0 ≤ continueTime (fw_ut s) →
  continueTime (fw_ut s) + 50 * Z.of_nat n ≤ 1500 →
  for_loop n i (λ _, IoCheckProgram io UART_PERIOD) s =
    Ok (tt, counted (continueTime (fw_ut s) + 50 * Z.of_nat n) s).
Proof using.
  intros Hio. revert i s. induction n as [|n IH]; intros i s Hl H0c Hc; cbn [for_loop].
  { unfold mret, prog_ret, counted. rewrite Z.mul_0_r, Z.add_0_r. by destruct s as [? ? ? ? ? ? ? ? ? ? ? ? ? ? ? ? ? ? []]. }
  unfold mbind, prog_bind. rewrite poll_counts by (done || lia). cbv beta iota.
  change (continueTime (fw_ut (counted ?c s))) with c in *.
  rewrite IH; [|done|cbn; unfold counted, upd; cbn; lia|unfold counted, upd; cbn; lia].
  f_equal. f_equal. unfold counted, upd; cbn. do 2 f_equal. lia.
Qed.

(** The level the task settles on. *)
Definition settled (io : Z) (s : fw) : fw := s <| fw_ut := fw_ut s <| Laststate := io |> |>.

Lemma poll_fires io s :
  io = CHECK_IO_ON ∨ io = CHECK_IO_OFF → Laststate (fw_ut s) ≠ io → 1500 ≤ continueTime (fw_ut s) →
  mi_wf (fw_mi s) → mi_select (fw_mi s) = SELECT_MATCH ∨ mi_select (fw_mi s) = SELECT_LEARN →
  let on := bool_decide (io = CHECK_IO_ON) in
  IoCheckProgram io UART_PERIOD s =
    Ok (tt, after_switch on (settled io s) <| fw_trace :=
      DeviceWrite uart2 (encode (if decide (mi_select (fw_mi s) = SELECT_MATCH)
        then Control (mi_brand_code (fw_mi s)) (if on then 0xE000 else 0x6000)
        else SendLearned (negb on))) :: fw_trace s |>).
Proof using.
  intros Hio Hl Hc Hwf Hsel on.
  unfold IoCheckProgram, mbind, prog_bind, gets. cbv beta iota zeta.
  assert (u8 io = io) as -> by (destruct Hio as [-> | ->]; done).
  rewrite decide_True, decide_False by (done || (unfold UART_PERIOD; lia)).
  unfold set_ut, modify. cbv beta iota. fold (settled io s).
  unfold getModuleInfo, gets. cbv beta iota. change (fw_mi (settled io s)) with (fw_mi s).
  assert (mi_wf (fw_mi (settled io s))) as Hwf' by exact Hwf.
  pose proof (sendMatchTest_sends uart2 on (settled io s) Hwf') as Hm.
  pose proof (sendlearn_sends uart2 on (settled io s) Hwf') as Hlearn.
  change (mi_brand_code (fw_mi (settled io s))) with (mi_brand_code (fw_mi s)) in Hm.
  change (fw_trace (settled io s)) with (fw_trace s) in *.
  destruct Hsel as [Hs|Hs]; rewrite Hs in *.
  - rewrite (decide_True (P := SELECT_MATCH = SELECT_MATCH)) by done.
    destruct Hio as [-> | ->]; known_decides; exact Hm.
  - rewrite (decide_False (P := SELECT_MATCH = SELECT_LEARN)), (decide_True (P := SELECT_LEARN = SELECT_LEARN)),
      (decide_False (P := SELECT_LEARN = SELECT_MATCH)) by done.
    destruct Hio as [-> | ->]; known_decides; exact Hlearn.
Qed.

Lemma poll_resets s :
  is_u8 (Laststate (fw_ut s)) →
  IoCheckProgram (Laststate (fw_ut s)) UART_PERIOD s = Ok (tt, counted 0 s).
Proof using.
  intros Hu. unfold IoCheckProgram, mbind, prog_bind, gets. cbv beta iota zeta.
  rewrite u8_id by done. by rewrite decide_False by auto.
Qed.
End polls.

(** ** Sending the control word *)

Section control.
Context (s : fw).

Definition control_frame_event : io_event := DeviceWrite uart2 (encode (control_command s)).
End control.

(** In match mode. *)
Lemma control_repeat_match s :
  mi_wf (fw_mi s) → mi_select (fw_mi s) = SELECT_MATCH →
  let ut := fw_ut s in
  let changed := bool_decide (ctrl_pre ut ≠ mi_ctrl (fw_mi s)) in
  let sending := changed || bool_decide (sendCmdCnt ut < 2) in
  ∃ s', control_repeat s = Ok (tt, s') ∧ fw_mi s' = fw_mi s ∧
    ctrl_pre (fw_ut s') = mi_ctrl (fw_mi s) ∧
    sendCmdCnt (fw_ut s') =
      (if changed then 0 else if sending then u8 (sendCmdCnt ut + 1) else sendCmdCnt ut) ∧
    fw_trace s' = (if sending then [control_frame_event s] else []) ++ fw_trace s.
Proof.
  intros Hwf Hsel ut changed sending.
  unfold control_repeat, getModuleInfo, mbind, prog_bind, gets. cbv beta iota.
  unfold sending, changed. clear sending changed. fold ut.
  destruct (decide (ctrl_pre ut ≠ mi_ctrl (fw_mi s))) as [Hch|Heq].
  - rewrite bool_decide_true by done. unfold set_ut, modify. cbv beta iota.
    match goal with |- context [sendCtrlCommandToCodeData uart2 ?x] => set (s1 := x) end.
    rewrite (sendCtrl_ok uart2 s1) by exact Hwf.
    rewrite decide_True by (by left). unfold after_control.
    rewrite (decide_True (P := mi_select (fw_mi s1) = SELECT_MATCH)) by exact Hsel.
    eexists. split; [reflexivity|]. done.
  - rewrite bool_decide_false by done. cbn [orb].
    assert (ctrl_pre ut = mi_ctrl (fw_mi s)) as Hpre by (destruct (decide (ctrl_pre ut = mi_ctrl (fw_mi s))); tauto).
    destruct (decide (sendCmdCnt ut < 2)) as [Hlt|Hge].
    + rewrite bool_decide_true by done. unfold set_ut, modify. cbv beta iota.
      match goal with |- context [sendCtrlCommandToCodeData uart2 ?x] => set (s1 := x) end.
    rewrite (sendCtrl_ok uart2 s1) by exact Hwf.
      rewrite decide_True by (by left). unfold after_control.
      rewrite (decide_True (P := mi_select (fw_mi s1) = SELECT_MATCH)) by exact Hsel.
      eexists. split; [reflexivity|]. done.
    + rewrite bool_decide_false by done. eexists. split; [reflexivity|]. done.
Qed.

(** Once the word is known and sent often enough, nothing more is sent. *)
Lemma control_quiet s n i :
  ctrl_pre (fw_ut s) = mi_ctrl (fw_mi s) → 2 ≤ sendCmdCnt (fw_ut s) →
  for_loop n i (λ _, control_repeat) s = Ok (tt, s).
Proof.
  intros Hpre Hcnt. revert i. induction n as [|n IH]; intros i; cbn [for_loop]; [done|].
  unfold mbind at 1, prog_bind at 1.
  assert (control_repeat s = Ok (tt, s)) as ->.
  { unfold control_repeat, getModuleInfo, mbind, prog_bind, gets. cbv beta iota.
    rewrite decide_False by auto. by rewrite decide_False by lia. }
  apply IH.
Qed.

(** ** Properties *)

(** C2: the interrupt of the hub's line. Of every message of up to 100 bytes it keeps
    the bytes and the length; it raises the message flag for exactly those that carry
    the CRC of their own contents and start with the registration code or the
    module's address, and leaves flag and everything else alone otherwise. *)
Theorem hub_input_accepts s rx :
  rx_ok (fw_uart1 s) → Forall is_u8 rx → zlen rx ≤ UART_MSG_SIZE →
  ∃ r s', Uart1_input rx (zlen rx) s = Ok (r, s') ∧
    (r = RT_EOK ↔ 2 ≤ zlen rx ∧ hub_frame (mi_addr (fw_mi s)) rx) ∧
    (r = RT_EOK ∨ r = RT_ERROR) ∧
    take (length rx) (rx_data (fw_uart1 s')) = rx ∧ rx_size (fw_uart1 s') = zlen rx ∧
    messageFlag (fw_uart1 s') = (if decide (r = RT_EOK) then YES else messageFlag (fw_uart1 s)) ∧
    s' = s <| fw_uart1 := fw_uart1 s' |>.
Proof.
  intros Hm Hrx Hlen.
  assert (∃ acc : bool, acc = true ↔ 2 ≤ zlen rx ∧ hub_frame (mi_addr (fw_mi s)) rx) as [acc Hacc].
  { destruct (decide (2 ≤ zlen rx)) as [H2|H2]; [|exists false; split; [done|tauto]].
    destruct (last_two rx H2) as (body & lo & hi & ->).
    destruct (decide ([lo; hi] = le_bytes 2 (crc16 body) ∧
      ((body ++ [lo; hi]) !! 0%nat = Some REGISTER_CODE ∨ (body ++ [lo; hi]) !! 0%nat = Some (mi_addr (fw_mi s)))))
      as [[Hc Hf]|Hno].
    - exists true. split; [|done]. intros _. split; [done|]. exists body.
      split; [unfold with_crc; by rewrite Hc|done].
    - exists false. split; [done|]. intros (_ & body' & Hw & Hf). exfalso. apply Hno. split; [|done].
      unfold with_crc in Hw. by apply app_inj_2 in Hw as [-> ?]. }
  rewrite (Uart1_input_ok s rx Hm Hrx Hlen acc Hacc). eexists _, _. split; [reflexivity|].
  assert (∀ tl, take (length rx) (rx ++ tl) = rx) as Htake by (intros; apply take_app_length).
  destruct acc.
  - split; [split; [intros _; by apply Hacc|done]|]. split; [by left|].
    unfold heard, upd; cbn [fw_uart1 rx_data rx_size messageFlag]. by rewrite Htake.
  - split; [split; [done|intros Hx; by apply Hacc in Hx]|]. split; [by right|].
    unfold heard, upd; cbn [fw_uart1 rx_data rx_size messageFlag]. by rewrite Htake.
Qed.

Lemma hub_input_accepts_witness :
  ∃ s', Uart1_input (with_crc [1; 6; 1; 0; 0xE5; 0]) 8 (boot_fw started sample_mi) = Ok (RT_EOK, s') ∧
    messageFlag (fw_uart1 s') = YES.
Proof.
  destruct (hub_input_accepts (boot_fw started sample_mi) (with_crc [1; 6; 1; 0; 0xE5; 0]))
    as (r & s' & Hrun & Hr & _ & _ & _ & Hflag & _).
  - split; [reflexivity|]. split; [apply (bool_decide_unpack _); vm_compute; reflexivity|done].
  - apply (bool_decide_unpack _); vm_compute; reflexivity.
  - vm_compute. congruence.
  - assert (r = RT_EOK) as ->.
    { apply Hr. split; [vm_compute; congruence|]. by eexists; split; [reflexivity|right]. }
    exists s'. split; [exact Hrun|exact Hflag].
Defined.

(** C24: a message that differs in a single byte from one the hub's line would accept
    is rejected: no flag is raised for it. *)
Theorem corrupted_byte_rejected s addr l1 b b' l2 :
  rx_ok (fw_uart1 s) → Forall is_u8 (l1 ++ b :: l2) → is_u8 b' → b ≠ b' →
  zlen (l1 ++ b :: l2) ≤ UART_MSG_SIZE → hub_frame addr (l1 ++ b :: l2) →
  ∃ s', Uart1_input (l1 ++ b' :: l2) (zlen (l1 ++ b' :: l2)) s = Ok (RT_ERROR, s') ∧
    messageFlag (fw_uart1 s') = messageFlag (fw_uart1 s).
Proof.
  intros Hm Hl Hb' Hne Hlen (body & Hw & _).
  assert (Forall is_u8 (l1 ++ b' :: l2)) as Hl'.
  { apply Forall_app in Hl as [? H2]. apply Forall_cons_1 in H2 as [_ ?].
    apply Forall_app_2; [done|by apply Forall_cons]. }
  assert (zlen (l1 ++ b' :: l2) ≤ UART_MSG_SIZE) as Hlen'
    by (unfold zlen in *; rewrite length_app in *; cbn in *; lia).
  rewrite (Uart1_input_ok s _ Hm Hl' Hlen' false); [by eexists|].
  split; [done|]. intros (_ & body' & Hw' & _). exfalso.
  apply (crc16_single_byte l1 b b' l2 Hl Hb' Hne). rewrite Hw, Hw'.
  assert (∀ bd, Forall is_u8 (with_crc bd) → crc16 (with_crc bd) = 0) as Hres
    by (intros bd Hbd; apply Forall_app in Hbd as [? _]; by apply with_crc_valid).
  rewrite !Hres by (by rewrite <- ?Hw, <- ?Hw'). done.
Qed.

Lemma corrupted_byte_rejected_witness :
  ∃ s', Uart1_input ([1; 6; 1; 0] ++ 0xE4 :: 0 :: le_bytes 2 (crc16 [1; 6; 1; 0; 0xE5; 0])) 8
          (boot_fw started sample_mi) = Ok (RT_ERROR, s') ∧ messageFlag (fw_uart1 s') = NO.
Proof.
  apply (corrupted_byte_rejected (boot_fw started sample_mi) 1 [1; 6; 1; 0] 0xE5 0xE4
    (0 :: le_bytes 2 (crc16 [1; 6; 1; 0; 0xE5; 0]))).
  - split; [reflexivity|]. split; [apply (bool_decide_unpack _); vm_compute; reflexivity|done].
  - apply (bool_decide_unpack _); vm_compute; reflexivity.
  - done.
  - done.
  - vm_compute. congruence.
  - exists [1; 6; 1; 0; 0xE5; 0]. split; [reflexivity|by right].
Defined.

(** C36: both interrupts hand the driver's length to the copy unchecked: a message of
    more than 100 bytes (the driver's own buffer holds 256) is written past the end
    of the receive buffer. *)
Theorem long_message_overruns s rx size :
  rx_ok (fw_uart1 s) → rx_ok (fw_uart2 s) → UART_MSG_SIZE < size → size ≤ zlen rx →
  Uart1_input rx size s = Fault OutOfBounds ∧ Uart2_input rx size s = Fault OutOfBounds.
Proof.
  intros [H1 _] [H2 _] Hs Hrx. unfold Uart1_input, Uart2_input, mbind, prog_bind, gets, lift.
  by rewrite !receive_long.
Qed.

Lemma long_message_overruns_witness :
  Uart1_input (zeros 101) 101 (boot_fw started sample_mi) = Fault OutOfBounds.
Proof.
  apply (long_message_overruns (boot_fw started sample_mi) (zeros 101) 101);
    [split; [reflexivity|]; split; [apply (bool_decide_unpack _); vm_compute; reflexivity|done]..|done|done].
Defined.

(** A task timer comes due on every [touchTime + 1]-th turn, not on every
    [touchTime]-th: at 50 ms a turn the second event has a period of 1050 ms and the
    100 ms event one of 150 ms, so that the locate flash of 600 such events lasts 90
    seconds. *)
Theorem timer_period (n : nat) touchTime :
  0 ≤ touchTime < 65535 →
  timer_calls (S n) touchTime =
    (if decide (Z.of_nat (S n) mod (touchTime + 1) = 0) then YES else NO,
     Z.of_nat (S n) mod (touchTime + 1)).
Proof.
  intros Ht. induction n as [|n IH].
  - cbn [timer_calls snd]. unfold TimerTask. change (Z.of_nat 1) with 1. case_decide as Hlt.
    + rewrite (Z.mod_small 1) by lia. by rewrite decide_False by lia.
    + replace touchTime with 0 by lia. done.
  - set (k := S n) in *. cbn [timer_calls]. rewrite IH. cbn [snd]. unfold TimerTask.
    replace (Z.of_nat (S k)) with (Z.of_nat k + 1) by lia.
    pose proof (Z.mod_pos_bound (Z.of_nat k) (touchTime + 1) ltac:(lia)) as Hb.
    pose proof (Z.div_mod (Z.of_nat k) (touchTime + 1) ltac:(lia)) as Hd.
    set (q := Z.of_nat k / (touchTime + 1)) in *. set (r := Z.of_nat k mod (touchTime + 1)) in *.
    clearbody q r. destruct (decide (r < touchTime)) as [Hlt|Hge].
    + assert ((Z.of_nat k + 1) mod (touchTime + 1) = r + 1) as ->.
      { symmetry. apply Z.mod_unique with q; [left; lia|rewrite Hd; ring]. }
      rewrite decide_False by lia. rewrite u16_id by (unfold is_u16; lia). done.
    + assert ((Z.of_nat k + 1) mod (touchTime + 1) = 0) as ->.
      { symmetry. apply Z.mod_unique with (q + 1); [left; lia|].
        replace touchTime with r in * by lia. rewrite Hd. ring. }
      done.
Qed.

Lemma timer_period_witness :
  timer_calls 42 (1000 / UART_PERIOD) = (YES, 0) ∧ (timer_calls 41 (1000 / UART_PERIOD)).1 = NO.
Proof.
  split.
  - etransitivity; [apply (timer_period 41); vm_compute; split; congruence|reflexivity].
  - rewrite (timer_period 40 (1000 / UART_PERIOD)); [reflexivity|vm_compute; split; congruence].
Defined.

(** C31: the switch input is debounced over thirty polls of the task: a level that
    differs from the settled one changes nothing on its first thirty polls and one
    poll at the settled level starts the count over; the thirty-first poll in a row
    settles it and sends one frame, switching the air conditioner on at level 0 and
    off at level 1 in the mode chosen. *)
Theorem switch_debounced `{Chip, FlashHw, Layout} io s :
  io = CHECK_IO_ON ∨ io = CHECK_IO_OFF → Laststate (fw_ut s) ≠ io → is_u8 (Laststate (fw_ut s)) →
  continueTime (fw_ut s) = 0 → mi_wf (fw_mi s) →
  mi_select (fw_mi s) = SELECT_MATCH ∨ mi_select (fw_mi s) = SELECT_LEARN →
  (∀ n, (n ≤ 30)%nat → polls n io s = Ok (tt, counted (50 * Z.of_nat n) s) ∧
     (polls n io;; IoCheckProgram (Laststate (fw_ut s)) UART_PERIOD) s = Ok (tt, s)) ∧
  ∃ s' bs, (polls 30 io;; IoCheckProgram io UART_PERIOD) s = Ok (tt, s') ∧
    fw_trace s' = DeviceWrite uart2 bs :: fw_trace s ∧ Laststate (fw_ut s') = io ∧
    decode bs = Some (if decide (mi_select (fw_mi s) = SELECT_MATCH)
      then Control (mi_brand_code (fw_mi s)) (if decide (io = CHECK_IO_ON) then 0xE000 else 0x6000)
      else SendLearned (bool_decide (io = CHECK_IO_OFF))).
Proof.
  intros Hio Hl Hu Hc Hwf Hsel.
  assert (is_u8 io) as Hiou by (destruct Hio as [-> | ->]; done).
  assert (∀ n, (n ≤ 30)%nat → polls n io s = Ok (tt, counted (50 * Z.of_nat n) s)) as Hpolls.
  { intros n Hn. unfold polls. rewrite polls_count by (done || lia). by rewrite Hc. }
  split.
  - intros n Hn. split; [by apply Hpolls|]. unfold mbind, prog_bind. rewrite Hpolls by done.
    cbv beta iota. pose proof (poll_resets (counted (50 * Z.of_nat n) s) Hu) as Hr.
    change (Laststate (fw_ut (counted _ s))) with (Laststate (fw_ut s)) in Hr. rewrite Hr.
    f_equal. f_equal. rewrite <- Hc. unfold counted, upd; cbn.
    by destruct s as [? ? ? ? ? ? ? ? ? ? ? ? ? ? ? ? ? ? []].
  - unfold mbind, prog_bind. rewrite Hpolls by lia. cbv beta iota.
    set (s1 := counted _ s).
    rewrite (poll_fires io s1) by (done || (unfold s1, counted, upd; cbn; lia)).
    eexists _, _. split; [reflexivity|]. split; [reflexivity|]. split; [done|].
    change (fw_mi s1) with (fw_mi s). rewrite decode_encode.
    + destruct Hio as [-> | ->]; reflexivity.
    + destruct Hwf as (_&_&_&_&_&Hb&_). case_decide; [|done].
      split; [done|]. by destruct (bool_decide _).
Qed.

Definition w_chip : Chip := {| id1 := 0x0669FF48; id2 := 0x51857852; id3 := 0x87123456 |}.
Definition w_layout : Layout :=
  {| uart2_msg_data := 0x20000800; stack_beyond := zeros 4; stack_long := le_n 4 |}.

Section witnesses.
#[local] Existing Instances w_chip w_layout.

Lemma switch_debounced_witness :
  ∃ s' bs, (polls 30 CHECK_IO_ON;; IoCheckProgram CHECK_IO_ON UART_PERIOD) (boot_fw started sample_mi) = Ok (tt, s') ∧
    fw_trace s' = [DeviceWrite uart2 bs] ∧ decode bs = Some (Control 0x28 0xE000).
Proof.
  destruct (switch_debounced CHECK_IO_ON (boot_fw started sample_mi)) as (_ & s' & bs & Hrun & Ht & _ & Hd).
  - by left.
  - done.
  - done.
  - reflexivity.
  - by vm_compute.
  - by left.
  - exists s', bs. split; [exact Hrun|]. split; [exact Ht|exact Hd].
Defined.
End witnesses.

(** C30: in match mode a new control word is sent exactly three times, on the second
    event that finds it changed and on the two that follow, the same frame each time;
    after that nothing is sent until it changes again. *)
Theorem control_sent_three_times s n :
  mi_wf (fw_mi s) → mi_select (fw_mi s) = SELECT_MATCH →
  ctrl_pre (fw_ut s) ≠ mi_ctrl (fw_mi s) →
  let frame := DeviceWrite uart2 (encode (Control (mi_brand_code (fw_mi s)) (mi_ctrl (fw_mi s)))) in
  ∃ s', for_loop (3 + n) 0 (λ _, control_repeat) s = Ok (tt, s') ∧
    fw_trace s' = frame :: frame :: frame :: fw_trace s ∧ fw_mi s' = fw_mi s.
Proof.
  intros Hwf Hsel Hch frame.
  assert (∀ x, fw_mi x = fw_mi s → control_frame_event x = frame) as Hframe.
  { intros x Hx. unfold control_frame_event, control_command, frame. rewrite Hx. by rewrite decide_True. }
  destruct (control_repeat_match s Hwf Hsel) as (s1 & H1 & M1 & P1 & N1 & T1).
  destruct (control_repeat_match s1) as (s2 & H2 & M2 & P2 & N2 & T2); [by rewrite M1..|].
  destruct (control_repeat_match s2) as (s3 & H3 & M3 & P3 & N3 & T3); [by rewrite M2, M1..|].
  rewrite bool_decide_true in N1, T1 by done.
  assert (ctrl_pre (fw_ut s1) = mi_ctrl (fw_mi s1)) as E1 by congruence.
  assert (ctrl_pre (fw_ut s2) = mi_ctrl (fw_mi s2)) as E2 by congruence.
  rewrite (bool_decide_false (ctrl_pre (fw_ut s1) ≠ _)) in N2, T2 by auto.
  rewrite (bool_decide_false (ctrl_pre (fw_ut s2) ≠ _)) in N3, T3 by auto.
  rewrite N1 in N2, T2. cbn in N2, T2, T1. rewrite N2 in N3, T3. cbn in N3, T3.
  exists s3. split; [|split].
  - cbn [for_loop Nat.add]. unfold mbind, prog_bind. rewrite H1, H2, H3.
    apply control_quiet; [congruence|]. rewrite N3. vm_compute. congruence.
  - rewrite T3, T2, T1, !Hframe by congruence. done.
  - congruence.
Qed.

Lemma control_sent_three_times_witness :
  ∃ s' f, for_loop 7 0 (λ _, control_repeat) (boot_fw started sample_mi) = Ok (tt, s') ∧ fw_trace s' = [f; f; f].
Proof.
  destruct (control_sent_three_times (boot_fw started sample_mi) 4) as (s' & Hrun & Ht & _);
    [by vm_compute|reflexivity|vm_compute; congruence|].
  eexists s', _. split; [exact Hrun|exact Ht].
Defined.

(** In learn mode sending the word rewrites it, which counts as a change of its own:
    a word other than the plain on and off words is sent four times. *)
Example learned_control_sent_four_times :
  (λ '(_, s), length (fw_trace s)) <$>
    match for_loop 8 0 (λ _, control_repeat)
            (boot_fw started (sample_mi <| mi_select := SELECT_LEARN |> <| mi_ctrl := 0xC500 |>)) with
    | Ok r => Some r
    | Fault _ => None
    end = Some 4%nat.
Proof. vm_compute. reflexivity. Qed.

(** ** The check of the settings *)

(** The CRC of the ten bytes examined, and the settings the check leaves. *)
Definition region_crc (beyond : list Z) : Z := crc16 (take 10 (drop 12 beyond)).
Definition cleared (beyond : list Z) : list Z := take 12 beyond ++ zeros 10 ++ drop 22 beyond.
Definition checked (beyond : list Z) (m : module_info) : module_info :=
  let ok := bool_decide (region_crc beyond = mi_crc m) in
  m <| mi_addr := if ok then mi_addr m else 0x01 |> <| mi_register_state := REGISTER_NULL |>
    <| mi_type := INFRARED_TYPE |> <| mi_crc := if ok then mi_crc m else crc16 (zeros 10) |>.

Lemma settings_crc_ok s :
  22 ≤ zlen (fw_beyond s) →
  settings_crc s = Ok (region_crc (fw_beyond s),
    s <| fw_over := mk_overrun module_info_object 24 10 false :: fw_over s |>).
Proof.
  intros Hl. unfold settings_crc, access. change MODULE_INFO_PLUS_2 with 24. change SIZEOF_MODULE_INFO with 12.
  rewrite bool_decide_true by (change (object_size module_info_object) with 12; lia). unfold when, modify, gets, lift, mbind, prog_bind. cbv beta iota.
  change (fw_beyond (_ <| fw_over := _ |>)) with (fw_beyond s). rewrite load_bytes_in by lia. cbv beta iota.
  assert (length (take 10 (drop 12 (fw_beyond s))) = 10%nat) as H10.
  { rewrite length_take, length_drop. unfold zlen in Hl. lia. }
  change (Z.to_nat (12 - 2)) with 10%nat. change (Z.to_nat (24 - 12)) with 12%nat.
  rewrite usModbusRTU_CRC_ok by (unfold zlen; rewrite H10; lia). by rewrite take_ge by (rewrite H10; vm_compute; lia).
Qed.

Lemma clear_settings_ok s :
  22 ≤ zlen (fw_beyond s) →
  clear_settings s = Ok (tt, s <| fw_over := mk_overrun module_info_object 24 10 true :: fw_over s |>
                              <| fw_beyond := cleared (fw_beyond s) |>).
Proof.
  intros Hl. unfold clear_settings, access. change MODULE_INFO_PLUS_2 with 24. change SIZEOF_MODULE_INFO with 12.
  rewrite bool_decide_true by (change (object_size module_info_object) with 12; lia). unfold when, modify, gets, lift, mbind, prog_bind. cbv beta iota.
  change (fw_beyond (_ <| fw_over := _ |>)) with (fw_beyond s). change (Z.to_nat (12 - 2)) with 10%nat.
  rewrite store_bytes_in by (change (zlen (zeros 10)) with 10; lia). done.
Qed.

Lemma cleared_length l : 22 ≤ zlen l → zlen (cleared l) = zlen l.
Proof.
  intros Hl. unfold cleared, zlen in *. rewrite !length_app, length_take, length_drop.
  change (length (zeros 10)) with 10%nat. lia.
Qed.

Lemma cleared_crc l : 22 ≤ zlen l → region_crc (cleared l) = crc16 (zeros 10).
Proof.
  intros Hl. unfold region_crc, cleared. rewrite drop_app_length'; [done|].
  rewrite length_take. unfold zlen in Hl. lia.
Qed.

Lemma initModuleInfo_ok s :
  22 ≤ zlen (fw_beyond s) →
  ∃ o b, Forall known_overrun o ∧
    initModuleInfo s = Ok (tt, s <| fw_over := o ++ fw_over s |> <| fw_beyond := b |>
                                <| fw_mi := checked (fw_beyond s) (fw_mi s) |>).
Proof.
  intros Hl. unfold initModuleInfo, getModuleInfo, setModuleInfo, checked, mbind, prog_bind, gets, modify.
  rewrite (settings_crc_ok s Hl). cbv beta iota.
  change (fw_mi (_ <| fw_over := _ |>)) with (fw_mi s).
  assert (∀ w, known_overrun (mk_overrun module_info_object 24 10 w)) as Hk by (intros []; [by right; left|by left]).
  case_decide as He.
  - assert (22 ≤ zlen (cleared (fw_beyond s))) as Hcl by (by rewrite cleared_length).
    rewrite clear_settings_ok by done. cbv beta iota. rewrite settings_crc_ok by exact Hcl.
    rewrite bool_decide_false by done. cbv beta iota.
    change (region_crc (fw_beyond _)) with (region_crc (cleared (fw_beyond s))). rewrite (cleared_crc _ Hl).
    exists [mk_overrun module_info_object 24 10 false; mk_overrun module_info_object 24 10 true;
            mk_overrun module_info_object 24 10 false], (cleared (fw_beyond s)).
    split; [repeat (apply Forall_cons_2; [apply Hk|]); apply Forall_nil_2|done].
  - rewrite (bool_decide_true _ He).
    change ((mret tt : prog fw unit) ?x) with (@Ok (unit * fw) (tt, x)). cbv beta iota.
    rewrite settings_crc_ok by done. cbv beta iota. change (region_crc (fw_beyond _)) with (region_crc (fw_beyond s)).
    rewrite He. exists [mk_overrun module_info_object 24 10 false; mk_overrun module_info_object 24 10 false], (fw_beyond s).
    split; [repeat (apply Forall_cons_2; [apply Hk|]); apply Forall_nil_2|]. by destruct s as [[] ].
Qed.

Lemma checked_wf b m : mi_wf m → mi_wf (checked b m).
Proof.
  unfold mi_wf, checked, upd. cbn. assert (is_u8 INFRARED_TYPE) by done. assert (is_u8 REGISTER_NULL) by done.
  assert (is_u16 (crc16 (zeros 10))) by (by vm_compute). assert (is_u8 1) by done. destruct (bool_decide _); tauto.
Qed.

(** C38: the check of the stored settings does not look at them. Whether
    [initModuleInfo] takes them for damaged depends on ten bytes of memory behind
    the structure and on the stored CRC alone, and settings taken for damaged keep
    brand code, control word and mode; only the address is reset. *)
Theorem settings_check_blind s :
  24 ≤ zlen (fw_beyond s) → Forall is_u8 (fw_beyond s) →
  let region := take 10 (drop 12 (fw_beyond s)) in
  ∃ s', initModuleInfo s = Ok (tt, s') ∧
    let m := fw_mi s in
    fw_mi s' = mk_mi (if decide (crc16 region = mi_crc m) then mi_crc m else crc16 (zeros 10))
                     (if decide (crc16 region = mi_crc m) then mi_addr m else 1)
                     INFRARED_TYPE (mi_Version m) REGISTER_NULL (mi_brand_code m) (mi_ctrl m)
                     (mi_select m) (mi_find_location m).
Proof.
  intros Hl Hu region. destruct (initModuleInfo_ok s ltac:(lia)) as (o & b & _ & ->).
  eexists. split; [reflexivity|]. cbv zeta. change (fw_mi (_ <| fw_mi := ?m |>)) with m.
  change (crc16 region) with (region_crc (fw_beyond s)). unfold checked.
  destruct (decide (region_crc (fw_beyond s) = mi_crc (fw_mi s))) as [He|Hn];
    [rewrite (bool_decide_true _ He)|rewrite (bool_decide_false _ Hn)]; done.
Qed.

Lemma settings_check_blind_witness :
  ∃ s', initModuleInfo (boot_fw started (sample_mi <| mi_brand_code := 0xFFFF |>)) = Ok (tt, s') ∧
    mi_brand_code (fw_mi s') = 0xFFFF ∧ mi_addr (fw_mi s') = 1.
Proof.
  destruct (settings_check_blind (boot_fw started (sample_mi <| mi_brand_code := 0xFFFF |>))) as (s' & Hrun & Hm).
  - vm_compute. congruence.
  - apply (bool_decide_unpack _); vm_compute; reflexivity.
  - exists s'. split; [exact Hrun|]. rewrite Hm. split; reflexivity.
Defined.

(** What the flash holds and what the task remembers of its last save. *)
Definition saved (s : fw) : flash * module_info := (fw_flash s, modulePre (fw_ut s)).

(** What reading the settings' place in flash gives. *)
Definition reads_settings `{FlashHw} (fl : flash) (m : module_info) : Prop :=
  ∀ old, ∃ bs, getDataFromFlash DATA_BLOCK_START (mi_bytes old) SIZEOF_MODULE_INFO fl = Ok (bs, fl) ∧
    mi_of_bytes bs = Ok m.

Lemma settings_read `{FlashHwOk} (fl : flash) old :
  ∃ bs, getDataFromFlash DATA_BLOCK_START (mi_bytes old) SIZEOF_MODULE_INFO fl = Ok (bs, fl) ∧
    length bs = 12%nat ∧ ∀ i, 0 ≤ i < 12 → bs !! Z.to_nat i = Some (fl (DATA_BLOCK_START + i)).
Proof.
  pose proof (getDataFromFlash_ok DATA_BLOCK_START (mi_bytes old) fl (λ bs fl', fl' = fl ∧
    length bs = 12%nat ∧ ∀ i, 0 ≤ i < 12 → bs !! Z.to_nat i = Some (fl (DATA_BLOCK_START + i))) ltac:(done) ltac:(done)) as Hw.
  change (zlen (mi_bytes old)) with SIZEOF_MODULE_INFO in Hw.
  apply wp_ok in Hw as (bs & fl' & Hrun & -> & Hl & Hb); [by eauto|]. intros bs Hl Hb. by rewrite Hl.
Qed.

(** Reading does not ask for the LOCK bit. *)
Lemma reads_same_cells `{FlashHwOk} (fl fl' : flash) m :
  (∀ x, fl' x = fl x) → reads_settings fl m → reads_settings fl' m.
Proof.
  intros Hc Hr old. destruct (Hr old) as (bs & Hget & Hm).
  destruct (settings_read fl old) as (bs0 & Hget0 & Hl & Hb). rewrite Hget in Hget0. injection Hget0 as <-.
  destruct (settings_read fl' old) as (bs' & Hget' & Hl' & Hb'). exists bs'. split; [done|]. rewrite <- Hm. f_equal.
  apply list_eq_same_length with 12%nat; [done..|]. intros i x y Hi Hx Hy.
  specialize (Hb (Z.of_nat i) ltac:(lia)). specialize (Hb' (Z.of_nat i) ltac:(lia)).
  rewrite Nat2Z.id in *. rewrite Hc in Hb'. congruence.
Qed.

Lemma settings_written `{FlashHwOk} m fl :
  mi_wf m → wp (setDataToFlah DATA_BLOCK_START (mi_bytes m) SIZEOF_MODULE_INFO) (λ _ fl', reads_settings fl' m) fl.
Proof.
  intros Hwf.
  assert (∀ old, wp (setDataToFlah DATA_BLOCK_START (mi_bytes m) SIZEOF_MODULE_INFO;;
    getDataFromFlash DATA_BLOCK_START (mi_bytes old) SIZEOF_MODULE_INFO) (λ r _, r = mi_bytes m) fl) as Hw.
  { intros old.
    pose proof (settings_roundtrip DATA_BLOCK_START (mi_bytes m) (mi_bytes old) fl ltac:(done) ltac:(done)
      ltac:(done) ltac:(vm_compute; congruence) ltac:(vm_compute; congruence) (mi_bytes_u8 _ Hwf)) as Hr.
    change (zlen (mi_bytes m)) with SIZEOF_MODULE_INFO in Hr. eapply wp_mono; [exact Hr|]. by intros r ? [-> _]. }
  destruct (proj1 (wp_ok _ _ _) (setDataToFlah_total (mi_bytes m) fl eq_refl)) as ([] & fl1 & Hrun & _).
  unfold wp at 1. rewrite Hrun. intros old.
  specialize (Hw old). rewrite wp_bind in Hw. unfold wp at 1 in Hw. rewrite Hrun in Hw.
  destruct (settings_read fl1 old) as (bs & Hget & _). unfold wp in Hw. rewrite Hget in Hw. subst bs.
  exists (mi_bytes m). split; [done|by apply mi_roundtrip].
Qed.

(** Changed settings survive a restart. When brand code, address or mode differ
    from what was last saved, [save_settings] ends with the settings in flash, and
    reading them back into the structure, whatever it holds then, gives the very
    settings saved. *)
Theorem settings_survive_restart `{FlashHwOk} s (old : module_info) :
  mi_wf (fw_mi s) →
  (let pre := modulePre (fw_ut s) in
   mi_brand_code pre ≠ mi_brand_code (fw_mi s) ∨ mi_addr pre ≠ mi_addr (fw_mi s) ∨
   mi_select pre ≠ mi_select (fw_mi s)) →
  ∃ s' m2, save_settings s = Ok (tt, s') ∧
    fw_mi s' = fw_mi s ∧ modulePre (fw_ut s') = fw_mi s ∧
    (bs ← getDataFromFlash DATA_BLOCK_START (mi_bytes old) SIZEOF_MODULE_INFO;
     lift (mi_of_bytes bs)) (fw_flash s') = Ok (fw_mi s, m2).
Proof.
  intros Hwf Hch. cbv zeta in Hch.
  destruct (proj1 (wp_ok _ _ _) (settings_written (fw_mi s) (fw_flash s) Hwf)) as ([] & m1 & Hrun & Hread).
  exists (s <| fw_ut := fw_ut s <| modulePre := fw_mi s |> |> <| fw_flash := m1 |>), m1.
  split; [|split; [done|split; [done|]]].
  - unfold save_settings, getModuleInfo, mbind, prog_bind, gets. cbv beta iota.
    rewrite decide_True by done. unfold set_ut, modify, zoom.
    change (fw_flash (s <| fw_ut := _ |>)) with (fw_flash s). by rewrite Hrun.
  - change (fw_flash (_ <| fw_flash := ?f |>)) with f. unfold mbind, prog_bind.
    destruct (Hread old) as (bs & -> & Hbs). unfold lift. by rewrite Hbs.
Qed.

Lemma settings_survive_restart_witness :
  ∃ s' m2, save_settings (boot_fw started sample_mi) = Ok (tt, s') ∧
    (bs ← getDataFromFlash DATA_BLOCK_START (mi_bytes zero_mi) SIZEOF_MODULE_INFO;
     lift (mi_of_bytes bs)) (fw_flash s') = Ok (sample_mi, m2).
Proof.
  destruct (settings_survive_restart (boot_fw started sample_mi) zero_mi) as (s' & m2 & Hrun & _ & _ & Hr).
  - by vm_compute.
  - left. vm_compute. congruence.
  - exists s', m2. split; [exact Hrun|exact Hr].
Defined.

(** What the pages' call-backs leave alone. *)
Lemma message_page_keeps {T} (f : fw → T) str c : lcd_blind f → keeps f (message_page str c).
Proof. intros. unfold message_page. keeps_all. Qed.

Lemma match_ok_keeps {T} (f : fw → T) : lcd_blind f → keeps f (matchCallBack INFRARED_EVENT_MATCH_OK).
Proof. intros. unfold matchCallBack. rewrite decide_True by done. by apply message_page_keeps. Qed.

Lemma match_ok_result s s' :
  matchCallBack INFRARED_EVENT_MATCH_OK s = Ok (tt, s') →
  fw_mi s' = fw_mi s ∧ fw_ut s' = fw_ut s ∧ fw_trace s' = fw_trace s.
Proof.
  intros Hrun. repeat split; by eapply match_ok_keeps; [|exact Hrun]; intros [].
Qed.

Lemma runs_ok `{HeapShape} {A} (m : prog fw A) s :
  preserves fw_inv m → fw_inv s → ∃ a s', m s = Ok (a, s') ∧ fw_inv s'.
Proof. intros Hm Hs. exact (proj1 (wp_ok m (λ _, fw_inv) s) (Hm s Hs)). Qed.

Lemma load_reply x0 x1 x2 x3 x4 x5 x6 tl :
  load_bytes (A := Z) (x0 :: x1 :: x2 :: x3 :: x4 :: x5 :: x6 :: tl) 0 SIZEOF_RECV_MATCH =
    Ok [x0; x1; x2; x3; x4; x5; x6].
Proof.
  rewrite load_bytes_in; [done..|]. unfold zlen. cbn [length].
  change SIZEOF_RECV_MATCH with 7. lia.
Qed.

(** The state in which the call-back of the match runs. *)
Definition matched (s : fw) (bc : Z) : fw :=
  let sb := s <| fw_mi := fw_mi s <| mi_brand_code := bc |> |> in
  sb <| fw_ut := fw_ut sb <| ut_event := ut_event (fw_ut sb) <| event := EVENT_SEND_SAVE |> |> |>.

Lemma matched_event s bc :
  ev_call_back (ut_event (fw_ut s)) = matchCallBack_p →
  ut_event (fw_ut (matched s bc)) = mk_event EVENT_SEND_SAVE matchCallBack_p.
Proof. intros Hev. unfold matched, upd. cbn. by rewrite Hev. Qed.

Lemma matched_inv `{HeapShape} s bc :
  fw_inv s → ev_call_back (ut_event (fw_ut s)) = matchCallBack_p → is_u16 bc → bc ≤ BRAND_MAX →
  fw_inv (matched s bc).
Proof.
  intros Hs Hev Hbc Hle.
  assert (mi_wf (fw_mi (matched s bc))) as Hm.
  { pose proof (inv_mi s Hs) as Hm. unfold matched, upd. cbn. unfold mi_wf in *. cbn. tauto. }
  destruct Hs. constructor; try assumption; done.
Qed.

Lemma chip_match_ok `{Layout} s sd x0 x1 x2 bh bl x6 tl :
  ut_event (fw_ut s) = mk_event EVENT_SEND_MATCH matchCallBack_p →
  rx_data (fw_uart2 s) = x0 :: x1 :: x2 :: 0x41 :: bh :: bl :: x6 :: tl → rx_size (fw_uart2 s) = 7 →
  0 < x0 → is_u8 x0 → is_u8 x1 →
  matchCallBack INFRARED_EVENT_MATCH_OK (matched s (be16 bh bl)) = Ok (tt, sd) →
  chip_message s = Ok (tt, sd <| infrared_event := ut_event (fw_ut sd) |>
                             <| fw_uart2 := fw_uart2 sd <| messageFlag := NO |> |>).
Proof.
  intros Hev Hdata Hsize Hx0 H8 H9 Hrun.
  assert (wp chip_message (λ _ s', s' = sd <| infrared_event := ut_event (fw_ut sd) |>
    <| fw_uart2 := fw_uart2 sd <| messageFlag := NO |> |>) s) as Hw.
  { unfold chip_message. rewrite wp_bind, wp_gets, wp_bind, wp_gets, Hev. cbn [event]. cbv beta iota. rewrite wp_bind, wp_bind.
    rewrite Hsize, decide_False by (vm_compute; congruence). rewrite wp_ret, decide_True by done.
    rewrite wp_bind, wp_lift, Hdata, load_reply. cbn [owp].
    rewrite wp_bind, wp_lift. change (load _ 0) with (@Ok Z x0). cbn [owp].
    rewrite wp_bind, wp_lift. change (load _ 1) with (@Ok Z x1). cbn [owp].
    rewrite wp_bind, wp_lift. change (load _ 3) with (@Ok Z 0x41). cbn [owp].
    rewrite wp_bind, wp_lift. change (load _ 4) with (@Ok Z bh). cbn [owp].
    rewrite wp_bind, wp_lift. change (load _ 5) with (@Ok Z bl). cbn [owp].
    rewrite decide_True by (split; [fold (be16 x0 x1); rewrite be16_val by done; unfold is_u8 in *; lia|done]).
    rewrite wp_bind. unfold setModuleInfo. rewrite wp_modify.
    rewrite wp_bind. unfold set_local, set_ut. rewrite wp_modify. fold (matched s (be16 bh bl)).
    rewrite wp_bind. unfold call_local. rewrite wp_bind, wp_gets, matched_event by (by rewrite Hev). cbn [ev_call_back invoke].
    unfold wp at 1. rewrite Hrun. cbv beta iota.
    unfold publish. rewrite wp_bind, wp_gets. unfold setinfraredEvent. by rewrite !wp_modify. }
  by apply wp_ok in Hw as ([] & ? & Hchip & ->).
Qed.

Lemma save_command_sent s :
  event (ut_event (fw_ut s)) = EVENT_SEND_SAVE → mi_wf (fw_mi s) →
  second_command s = Ok (tt, s <| fw_trace :=
    DeviceWrite uart2 (encode (SaveBrand (mi_brand_code (fw_mi s)))) :: fw_trace s |>).
Proof.
  intros Hev Hmi.
  assert (wp second_command (λ _ s', s' = s <| fw_trace :=
    DeviceWrite uart2 (encode (SaveBrand (mi_brand_code (fw_mi s)))) :: fw_trace s |>) s) as Hw.
  { unfold second_command. rewrite wp_bind, wp_gets, wp_bind. unfold getModuleInfo.
    rewrite wp_gets, Hev. cbv beta iota. unfold wp. by rewrite (sendSave_sends uart2 s Hmi). }
  by apply wp_ok in Hw as ([] & ? & Hrun & ->).
Qed.


(** A task that waits for the match, and the chip's reply in the buffer. *)
Definition sample_waiting : fw :=
  let s := boot_fw started sample_mi in
  s <| fw_ut := fw_ut s <| ut_event := mk_event EVENT_SEND_MATCH matchCallBack_p |> |>
    <| fw_uart2 := mk_rx 7 YES ([1; 0; 0; 0x41; 0x02; 0x9A; 0] ++ zeros 93) |>.

Lemma sample_waiting_inv : @fw_inv started_shape sample_waiting.
Proof.
  assert (mi_wf sample_mi) as Hm by (by vm_compute). destruct (booted_inv sample_mi Hm). constructor; try assumption; [done|done|].
  split; [split; [done|split; [|by vm_compute]]|].
  - apply (bool_decide_unpack _). vm_compute. reflexivity.
  - intros _ h l [= <-] [= <-]. by vm_compute.
Qed.

Section match_witness.
#[local] Existing Instances w_chip w_layout.

End match_witness.

(** ** Start-up *)

(** What start-up relies on: the flash holds settings, and the memory behind the settings
    that [getModuleInfo() + 2] reaches is RAM. *)
Definition boot_memory `{FlashHw} (m : module_info) (s : fw) : Prop :=
  (reads_settings (fw_flash s) m ∧ mi_wf m) ∧ 22 ≤ zlen (fw_beyond s).

Lemma mi_of_bytes_wf bs :
  zlen bs = SIZEOF_MODULE_INFO → Forall is_u8 bs → ∃ m, mi_of_bytes bs = Ok m ∧ mi_wf m.
Proof.
  intros Hl Hu. change SIZEOF_MODULE_INFO with 12 in Hl.
  do 12 (destruct bs as [|? bs]; [unfold zlen in Hl; cbn [length] in Hl; lia|]).
  destruct bs; [|unfold zlen in Hl; cbn [length] in Hl; lia].
  do 12 (apply Forall_cons_1 in Hu as [? Hu]). eexists. split; [reflexivity|].
  assert (∀ a b, is_u8 a → is_u8 b → is_u16 (le_value [a; b])) as Hle.
  { intros a b Ha Hb. cbn [le_value]. change (Z.shiftl 0 8) with 0. rewrite Z.lor_0_r, Z.lor_comm.
    rewrite lor_shiftl8 by done. unfold is_u8, is_u16 in *. lia. }
  unfold mi_wf. cbn [mi_crc mi_addr mi_type mi_Version mi_register_state mi_brand_code mi_ctrl
    mi_select mi_find_location]. repeat (split; [first [by apply Hle|done]|]). done.
Qed.

(** Any flash holds settings. *)
Lemma flash_readable `{FlashHwOk} (fl : flash) :
  (∀ i, is_u8 (fl i)) → ∃ m, reads_settings fl m ∧ mi_wf m.
Proof.
  intros Hf. destruct (settings_read fl zero_mi) as (bs & _ & Hl & Hb).
  destruct (mi_of_bytes_wf bs) as (m & Hm & Hwf).
  { unfold zlen. by rewrite Hl. }
  { apply Forall_lookup_2. intros i x Hx.
    assert (i < length bs)%nat as Hi by (by eapply lookup_lt_Some).
    specialize (Hb (Z.of_nat i) ltac:(lia)). rewrite Nat2Z.id in Hb. rewrite Hb in Hx. injection Hx as <-. apply Hf. }
  exists m. split; [|done]. intros old. destruct (settings_read fl old) as (bs' & Hget & Hl' & Hb').
  exists bs'. split; [done|]. rewrite <- Hm. f_equal.
  apply list_eq_same_length with 12%nat; [done..|]. intros i x y Hi Hx Hy.
  specialize (Hb (Z.of_nat i) ltac:(lia)). specialize (Hb' (Z.of_nat i) ltac:(lia)).
  rewrite Nat2Z.id in *. congruence.
Qed.

(** The mode that start-up makes of the byte in flash. *)
Definition mode_or_match (select : Z) : Z :=
  if decide (select = SELECT_LEARN) then SELECT_LEARN else SELECT_MATCH.

(** The settings after start-up from [m] in flash, with [beyond] in memory behind them: the
    check, which does not look at the settings, may reset the address. *)
Definition loaded (beyond : list Z) (m mi : module_info) : Prop :=
  let ok := region_crc beyond = mi_crc m in
  mi_brand_code mi = mi_brand_code m ∧ mi_select mi = mode_or_match (mi_select m) ∧
  mi_addr mi = (if decide ok then mi_addr m else 0x01) ∧
  mi_crc mi = (if decide ok then mi_crc m else crc16 (zeros 10)).

Section startup.
Context `{Chip, HeapShape, FlashHwOk, Layout}.

(** From flash to settings. *)
Lemma load_settings_ok (k : module_info → prog fw unit) m Q s :
  boot_memory m s → wp (k m) Q (s <| fw_mi := m |>) →
  wp (mi ← getModuleInfo;
      bs ← zoom fw_flash (getDataFromFlash DATA_BLOCK_START (mi_bytes mi) SIZEOF_MODULE_INFO);
      mi ← lift (mi_of_bytes bs);
      setModuleInfo (λ _, mi);; k mi) Q s.
Proof using.
  intros ((Hread & _) & _) HQ. unfold getModuleInfo. rewrite wp_bind, wp_gets, wp_bind, wp_zoom.
  destruct (Hread (fw_mi s)) as (bs & Hget & Hbs). unfold wp at 1. rewrite Hget.
  rewrite wp_bind, wp_lift, Hbs. cbn [owp]. unfold setModuleInfo. rewrite wp_bind, wp_modify.
  by destruct s.
Qed.

Lemma fresh_settings_inv s o b m :
  fw_inv s → event (infrared_event s) ≠ EVENT_SEND_SAVE → event (ut_event (fw_ut s)) ≠ EVENT_SEND_SAVE →
  Forall known_overrun o → mi_wf m →
  fw_inv (s <| fw_over := o ++ fw_over s |> <| fw_beyond := b |> <| fw_mi := m |>).
Proof using.
  intros Hs Hie Hue Ho Hm. destruct Hs. constructor; try assumption; [by intros [?|?]|by apply Forall_app_2].
Qed.

Lemma UartTaskEntry_init_ok m s :
  fw_inv s → boot_memory m s → event (infrared_event s) ≠ EVENT_SEND_SAVE →
  wp UartTaskEntry_init (λ _ s', fw_inv s' ∧ loaded (fw_beyond s) m (fw_mi s') ∧
    (pageInfor s', saved s') = (pageInfor s, saved s)) s.
Proof.
  intros Hs Hmem Hev. unfold UartTaskEntry_init, getInfraredEvent, getMasterEvent.
  rewrite wp_bind, wp_gets, wp_bind, wp_gets, wp_bind. unfold set_ut at 1. rewrite wp_modify.
  set (s1 := s <| fw_ut := _ |>).
  assert (fw_inv s1) as Hs1.
  { pose proof (inv_event s Hs). destruct Hs. constructor; try assumption; [|done]. by intros [?|?]. }
  destruct Hmem as ((Hread & Hwf) & Hl).
  apply (load_settings_ok _ m); [done|].
  set (m1 := m <| mi_select := mode_or_match (mi_select m) |>).
  rewrite wp_bind. apply (wp_mono _ (λ _ s', s' = s1 <| fw_mi := m1 |>)).
  { unfold m1, mode_or_match. unfold SELECT_MATCH, SELECT_LEARN. case_decide.
    - unfold setModuleInfo. rewrite wp_modify. by rewrite decide_False by lia.
    - rewrite wp_ret. destruct m; cbn in *. unfold upd; cbn. by repeat case_decide; do 2 f_equal; try lia. }
  intros _ s2 Es2. rewrite wp_bind.
  destruct (initModuleInfo_ok s2) as (o & b & Ho & Hrun); [by rewrite Es2|]. subst s2.
  eapply wp_run; [exact Hrun|]. clear Hrun.
  change (fw_mi (s1 <| fw_mi := m1 |>)) with m1. change (fw_beyond (s1 <| fw_mi := m1 |>)) with (fw_beyond s).
  assert (mi_wf m1) as Hwf1.
  { clear - Hwf. assert (is_u8 (mode_or_match (mi_select m))) by (unfold mode_or_match; by case_decide).
    unfold m1, mi_wf, upd in *. cbn. tauto. }
  pose proof (fresh_settings_inv s1 o b _ Hs1 Hev Hev Ho (checked_wf (fw_beyond s) m1 Hwf1)) as Hs3.
  match goal with |- wp _ _ ?s => set (s3 := s) end. change (fw_inv s3) in Hs3.
  eapply wp_mono.
  { apply (wp_keeps (λ s, (mi_brand_code (fw_mi s), mi_select (fw_mi s), mi_addr (fw_mi s), mi_crc (fw_mi s), pageInfor s, saved s)) _ (λ _, fw_inv));
      [unfold setModuleInfo, getModuleInfo, setMasterEvent, set_ut, setSwitchState, setNowTemp; keeps_all|].
    match goal with |- wp ?m _ _ => enough (preserves fw_inv m) as Hm by exact (Hm s3 Hs3) end.
    preserves_all; [by apply find_location_inv|].
    apply setModuleInfo_inv; [|done]. assert (is_u8 2) by done. unfold mi_wf, upd; cbn. tauto. }
  intros _ s4 [Hs4 Heq]. injection Heq as Hb4 Hm4 Ha4 Hc4 Hp4 Hf4 Hpre4.
  split; [done|]. split; [|unfold saved; by rewrite Hp4, Hf4, Hpre4].
  unfold loaded. rewrite Hb4, Hm4, Ha4, Hc4. change (fw_mi s3) with (checked (fw_beyond s) m1).
  unfold checked. change (mi_crc m1) with (mi_crc m).
  destruct (decide (region_crc (fw_beyond s) = mi_crc m)) as [He|Hn];
    [rewrite (bool_decide_true _ He)|rewrite (bool_decide_false _ Hn)]; done.
Qed.
End startup.
