(* ===== verification/System.v ===== *)
(** The firmware as a whole (main.c): start-up of the three tasks in the order [main]
    creates them, then receive interrupts and turns of the tasks' loops in any order. *)
From S2P Require Import Prelude Mem MemHeap Buffers Crc Flash Fonts Display State Invariant.
From S2P Require Import Infrared Master Pages Buttons UartTask.

Section system.
Context `{Chip, FlashHw, Layout}.

(** What can happen once the tasks run: bytes on the hub's or the infrared chip's line,
    or a turn of a task's loop with the pin levels it reads. *)
Inductive action : Type :=
  | HubBytes (rx : list Z)
  | ChipBytes (rx : list Z)
  | UartTurn (io : Z)
  | OledTurn
  | KeyTurn (pins : Z → Z).

Definition perform (a : action) : prog button_task unit :=
  match a with
  | HubBytes rx => _ ← zoom bt_fw (Uart1_input rx (zlen rx)); mret tt
  | ChipBytes rx => _ ← zoom bt_fw (Uart2_input rx (zlen rx)); mret tt
  | UartTurn io => zoom bt_fw (UartTaskEntry_turn io)
  | OledTurn => zoom bt_fw OledTaskEntry_turn
  | KeyTurn pins => ButtonTaskEntry_turn pins
  end.

(** [main]: what the three tasks do before their loops. *)
Definition startup : prog button_task unit :=
  zoom bt_fw UartTaskEntry_init;;
  ButtonRegister;;
  zoom bt_fw OledTaskEntry_init.

Definition perform_all (acts : list action) : prog button_task unit :=
  foldr (λ a m, perform a;; m) (mret tt) acts.

(** What the two lines may deliver: at most as many bytes as the receive buffers hold,
    and in a match reply a brand code of at most four digits. *)
Definition allowed (a : action) : Prop :=
  match a with
  | HubBytes rx => Forall is_u8 rx ∧ zlen rx ≤ UART_MSG_SIZE
  | ChipBytes rx => (Forall is_u8 rx ∧ zlen rx ≤ UART_MSG_SIZE) ∧ (zlen rx = 7 → brand_in rx)
  | _ => True
  end.

(** RAM as the loader leaves it, over some flash contents and what lies in memory
    behind the settings, with the heap as it is once [main] has created the threads: their
    stacks and whatever else the kernel keeps are allocated in it. The flash controller
    comes out of reset locked. *)
Definition power_on (h : heap) (flash : Z → Z) (beyond : list Z) : button_task :=
  boot_bt (boot_fw h zero_mi <| fw_flash := mk_flash flash true |> <| fw_beyond := beyond |>).

(** The states the firmware can be in. *)
Inductive reachable (h : heap) (flash : Z → Z) (beyond : list Z) : button_task → Prop :=
  | reach_boot s : startup (power_on h flash beyond) = Ok (tt, s) → reachable h flash beyond s
  | reach_step s a s' : reachable h flash beyond s → allowed a →
      perform a s = Ok (tt, s') → reachable h flash beyond s'.

End system.

(** ** The invariant holds from power-on *)

Lemma zoom_fw_inv `{HeapShape} {A} (m : prog fw A) : preserves fw_inv m → preserves bt_inv (zoom bt_fw m).
Proof.
  intros Hm. apply (preserves_zoom _ _ fw_inv); [exact Hm|by intros s [? _]|].
  intros s f [_ Hb] Hf. by split.
Qed.

Section inv.
Context `{Chip, HeapShape, FlashHwOk, Layout}.

Lemma perform_inv a : allowed a → preserves bt_inv (perform a).
Proof.
  destruct a as [rx|rx|io| |pins]; cbn [allowed perform]; intros Ha.
  - destruct Ha. apply preserves_bind; [|intros _; apply preserves_ret].
    by apply zoom_fw_inv, Uart1_input_inv.
  - destruct Ha as [[??]?]. apply preserves_bind; [|intros _; apply preserves_ret].
    by apply zoom_fw_inv, Uart2_input_inv.
  - apply zoom_fw_inv, UartTaskEntry_turn_inv.
  - apply zoom_fw_inv, OledTaskEntry_turn_inv.
  - apply turn_inv.
Qed.

Lemma perform_all_inv acts : Forall allowed acts → preserves bt_inv (perform_all acts).
Proof.
  induction 1 as [|a acts Ha _ IH]; cbn [perform_all foldr]; [apply preserves_ret|].
  apply preserves_bind; [by apply perform_inv|done].
Qed.

Lemma OledInit_keeps : keeps (λ s, (fw_mi s, saved s)) OledTaskEntry_init.
Proof using. keeps_walk. Qed.

(** Start-up from settings [m] in flash. *)
Lemma startup_ok h flash beyond m :
  heap_is h heap_shape_now →
  reads_settings (mk_flash flash true) m → mi_wf m → 22 ≤ zlen beyond →
  wp startup (λ _ s, bt_inv s ∧ loaded beyond m (fw_mi (bt_fw s)) ∧ saved (bt_fw s) = (mk_flash flash true, zero_mi))
    (power_on h flash beyond).
Proof using Type*.
  intros Hh Hr Hwf Hl. unfold startup. rewrite wp_bind, wp_zoom.
  set (s0 := bt_fw (power_on h flash beyond)).
  assert (fw_inv s0) as Hs0.
  { assert (mi_wf zero_mi) as Hm by (by vm_compute). destruct (boot_inv h zero_mi Hh Hm). by constructor. }
  eapply wp_mono; [by apply (UartTaskEntry_init_ok m s0)|].
  intros _ s1 (Hs1 & Hm1 & [= Hp1 Hf1 Hpre1]). rewrite wp_bind. unfold wp at 1.
  change (power_on h flash beyond <| bt_fw := s1 |>) with (boot_bt s1).
  rewrite ButtonRegister_ok. rewrite wp_zoom. cbn [bt_fw].
  eapply wp_mono; [apply (wp_keeps _ _ (λ _, fw_inv) _ OledInit_keeps); by apply OledTaskEntry_init_inv|].
  intros [] s2 [Hs2 Hk]. injection Hk as Hk1 Hk2 Hk3. split.
  { split; [done|]. split; [done|]. split; [by eexists 0, 0, 0|]. by eexists _, _, _. }
  cbn [bt_fw upd]. change (bt_fw (_ <| bt_fw := ?x |>)) with x. split; [by rewrite Hk1|].
  unfold saved. by rewrite Hk2, Hk3, Hf1, Hpre1.
Qed.
End inv.


