(* ===== verification/Settings.v ===== *)
(** The settings as the hub's and the user's changes leave them: after every turn of the
    communication task they are in flash, and a restart finds them there. *)
From Stdlib Require Import String.
From stdpp Require Import sets.
From S2P Require Import Prelude Mem MemHeap Buffers Crc Flash Fonts Display State Invariant.
From S2P Require Import Infrared Master Pages Buttons UartTask System.

(** ** What has been saved *)

(** The three settings whose change makes the task save. *)
Definition settings (m : module_info) : Z * Z * Z := (mi_brand_code m, mi_addr m, mi_select m).

(** The mode is one the firmware knows. *)
Definition mode_ok (m : module_info) : Prop := mi_select m = SELECT_MATCH ∨ mi_select m = SELECT_LEARN.

(** ** What steps leave alone *)

(** Flash, the memory of the last save and the settings' CRC stay, and the mode stays one the
    firmware knows. *)
Definition stays : relation fw := λ s s',
  (saved s', mi_crc (fw_mi s')) = (saved s, mi_crc (fw_mi s)) ∧ (mode_ok (fw_mi s) → mode_ok (fw_mi s')).
#[export] Instance stays_preorder : PreOrder stays.
Proof. split; [by split|]. intros s1 s2 s3 [E1 M1] [E2 M2]. split; [by rewrite E2|auto]. Qed.
#[local] Hint Extern 1 (stays _ _) =>
  (split; [reflexivity|first [done | intros _; left; reflexivity | intros _; right; reflexivity]]) : keeps.

Section quiet.
Context `{Chip, FlashHw, Layout}.

(** *** Only [save_settings] writes the flash *)

Lemma OledTurn_stays : along stays OledTaskEntry_turn.
Proof. keeps_walk. Qed.
Lemma KeyTurn_stays pins : along (under bt_fw stays) (ButtonTaskEntry_turn pins).
Proof. keeps_walk. Qed.
Lemma HubBytes_stays rx n : along stays (Uart1_input rx n).
Proof. keeps_walk. Qed.
Lemma ChipBytes_stays rx n : along stays (Uart2_input rx n).
Proof. keeps_walk. Qed.

Lemma uart_timers_stays : along stays (set_ut uart_timers).
Proof.
  apply along_modify. intros s. unfold stays, uart_timers.
  by destruct (TimerTask _ (1000 / _)), (TimerTask _ (5000 / _)), (TimerTask _ (10000 / _)), (TimerTask _ (100 / _)).
Qed.
Lemma IoCheck_stays io p : along stays (IoCheckProgram io p).
Proof. keeps_walk. Qed.
Lemma getRegister_stays a : along stays (getRegister a).
Proof. keeps_walk. Qed.
Lemma read_registers_stays n i temp b : along stays (read_registers n i temp b).
Proof. apply read_registers_along; [apply _|apply getRegister_stays]. Qed.
Hint Resolve getRegister_stays read_registers_stays : keeps.
Lemma hub_message_stays : along stays hub_message.
Proof. keeps_walk. Qed.
Lemma chip_message_stays : along stays chip_message.
Proof. keeps_walk. Qed.

(** *** What follows it in a turn changes none of the three settings *)

Definition settled (s : fw) : (flash * module_info) * (Z * Z * Z) * Z :=
  (saved s, settings (fw_mi s), mi_crc (fw_mi s)).

Lemma locate_event_settled : keeps settled locate_event.
Proof. keeps_walk. Qed.
Lemma second_event_settled : keeps settled second_event.
Proof. keeps_walk. Qed.
Lemma five_second_settled : keeps settled five_second_event.
Proof. keeps_walk. Qed.
Lemma ten_second_settled : keeps settled ten_second_event.
Proof. keeps_walk. Qed.
End quiet.

(** ** A turn of the communication task saves *)

(** The CRC and the mode are good, and either nothing has been saved since power-on, and the
    flash is as it was then, or the flash holds what the task remembers. *)
Definition durable `{FlashHw} (fl : flash) (c : Z) (s : fw) : Prop :=
  let pre := modulePre (fw_ut s) in
  mi_crc (fw_mi s) = c ∧ mode_ok (fw_mi s) ∧
  (saved s = (fl, zero_mi) ∨ reads_settings (fw_flash s) pre ∧ mi_wf pre ∧ mi_crc pre = c).

Lemma durable_stays `{FlashHw} fl c s s' : stays s s' → durable fl c s → durable fl c s'.
Proof. unfold stays, durable, saved. intros [[= -> -> ->] Hm] (? & ? & ?). auto. Qed.

Lemma durable_settled `{FlashHw} fl c s s' : settled s' = settled s → durable fl c s → durable fl c s'.
Proof.
  unfold settled, settings, durable, mode_ok, saved. intros [= Hf Hp _ _ Hs Hc]. by rewrite Hf, Hp, Hs, Hc.
Qed.

Section turn.
Context `{Chip, HeapShape, FlashHwOk, Layout}.

Lemma save_settings_ok fl c s :
  fw_inv s → durable fl c s →
  wp save_settings (λ _ s', fw_inv s' ∧ durable fl c s' ∧
    settings (modulePre (fw_ut s')) = settings (fw_mi s')) s.
Proof using Type*.
  intros Hs (Hc & Hm & Hd). pose proof (save_settings_inv s Hs) as Hinv. unfold save_settings, getModuleInfo in *.
  rewrite !wp_bind, !wp_gets, !wp_bind, !wp_gets in *. case_decide as Hch.
  - unfold set_ut in *. rewrite !wp_bind, !wp_modify, !wp_zoom in *.
    change (fw_flash (s <| fw_ut := _ |>)) with (fw_flash s) in *.
    destruct (proj1 (wp_ok _ _ _) (settings_written (fw_mi s) (fw_flash s) (inv_mi s Hs))) as ([] & m1 & Hrun & Hread).
    unfold wp in *. rewrite Hrun in *. split; [done|]. split; [|done].
    split; [done|]. split; [done|]. right. split; [exact Hread|]. split; [exact (inv_mi s Hs)|done].
  - rewrite wp_ret in *. split; [done|]. split; [done|]. unfold settings. f_equal; [f_equal|]; apply dec_stable; tauto.
Qed.

(** A step that keeps the invariant and changes little, before the rest. *)
Lemma wp_stays {A B} (m : prog fw A) (k : A → prog fw B) fl c Q s :
  along stays m → preserves fw_inv m → fw_inv s → durable fl c s →
  (∀ a s', fw_inv s' → durable fl c s' → wp (k a) Q s') → wp (m ≫= k) Q s.
Proof using.
  intros Hk Hm Hs Hd HQ. rewrite wp_bind.
  eapply wp_mono; [by apply (wp_along stays _ (λ _, fw_inv) _ Hk), Hm|].
  intros a s' [Hs' Hf]. apply HQ; [done|]. exact (durable_stays fl c _ _ Hf Hd).
Qed.

Lemma UartTurn_saves fl c io s :
  fw_inv s → durable fl c s →
  wp (UartTaskEntry_turn io) (λ _ s', durable fl c s' ∧
    settings (modulePre (fw_ut s')) = settings (fw_mi s')) s.
Proof using Type*.
  intros Hs Hd. unfold UartTaskEntry_turn, getModuleInfo.
  apply (wp_stays _ _ fl c); [apply uart_timers_stays| |done..|].
  { apply set_ut_inv; intros t; unfold uart_timers, TimerTask; by repeat case_decide. }
  intros _ s1 Hs1 Hd1. rewrite wp_bind, wp_gets.
  apply (wp_stays _ _ fl c); [apply along_if; [apply IoCheck_stays|keeps_step]| |done..|].
  { apply preserves_if; intros _; [apply IoCheck_inv|apply preserves_ret]. }
  intros _ s2 Hs2 Hd2. rewrite wp_bind, wp_gets.
  apply (wp_stays _ _ fl c); [apply along_if; [apply hub_message_stays|keeps_step]| |done..|].
  { apply preserves_if; intros _; [apply hub_message_inv|apply preserves_ret]. }
  intros _ s3 Hs3 Hd3. rewrite wp_bind, wp_gets.
  apply (wp_stays _ _ fl c); [apply along_if; [apply chip_message_stays|keeps_step]| |done..|].
  { apply preserves_if; intros _; [apply chip_message_inv|apply preserves_ret]. }
  intros _ s4 Hs4 Hd4. rewrite wp_bind.
  eapply wp_mono; [by apply (save_settings_ok fl c)|]. intros _ s5 (Hs5 & Hd5 & Heq5).
  match goal with |- wp ?m _ _ => assert (wp m (λ _ s', settled s' = settled s5) s5) as Hrest end.
  { eapply wp_mono; [apply (wp_keeps settled _ (λ _ _, True))|by intros ?? [_ ?]].
    - keeps_walk.
    - match goal with |- wp ?m _ _ => enough (preserves fw_inv m) as Hm by (eapply wp_mono; [exact (Hm s5 Hs5)|done]) end.
      preserves_all; (apply second_event_inv || apply ten_second_inv || apply locate_event_inv || apply five_second_inv). }
  eapply wp_mono; [exact Hrest|]. intros ? s6 Heq6. split; [exact (durable_settled fl c _ _ Heq6 Hd5)|].
  unfold settled, saved in Heq6. apply pair_eq in Heq6 as [Heq6 _]. apply pair_eq in Heq6 as [Hsv Hst].
  apply pair_eq in Hsv as [_ ->]. by rewrite Hst.
Qed.
End turn.

(** ** The system *)

Lemma wp_and {S A} (m : prog S A) (Q Q' : A → S → Prop) s :
  wp m Q s → wp m Q' s → wp m (λ a s', Q a s' ∧ Q' a s') s.
Proof. unfold wp. by destruct (m s) as [[]|]. Qed.

Section system.
Context `{Chip, HeapShape, FlashHwOk, Layout}.

Definition lasting (fl : flash) (c : Z) (s : button_task) : Prop := bt_inv s ∧ durable fl c (bt_fw s).

Lemma quiet_lasting fl c a :
  allowed a → along (under bt_fw stays) (perform a) → preserves (lasting fl c) (perform a).
Proof using Type*.
  intros Ha Hk s [Hs Hd]. eapply wp_mono; [by apply (wp_along _ _ (λ _, bt_inv) _ Hk), perform_inv|].
  intros [] s' [Hs' Hf]. split; [done|]. exact (durable_stays fl c _ _ Hf Hd).
Qed.

Lemma UartTurn_lasting fl c io s :
  lasting fl c s → wp (perform (UartTurn io)) (λ _ s', lasting fl c s' ∧
    settings (modulePre (fw_ut (bt_fw s'))) = settings (fw_mi (bt_fw s'))) s.
Proof using Type*.
  intros [Hs Hd]. eapply wp_mono.
  { apply (wp_and _ (λ _, bt_inv) (λ _ s', durable fl c (bt_fw s') ∧
      settings (modulePre (fw_ut (bt_fw s'))) = settings (fw_mi (bt_fw s'))));
      [by apply (perform_inv (UartTurn io) I s Hs)|].
    cbn [perform]. rewrite wp_zoom. apply (UartTurn_saves fl c); [apply Hs|exact Hd]. }
  intros [] s' [Hs' [Hd' Heq]]. done.
Qed.

Lemma perform_lasting fl c a : allowed a → preserves (lasting fl c) (perform a).
Proof using Type*.
  destruct a as [rx|rx|io| |pins]; intros Ha.
  - apply quiet_lasting; [done|]. keeps_walk.
  - apply quiet_lasting; [done|]. keeps_walk.
  - intros s Hs. eapply wp_mono; [by apply UartTurn_lasting|]. by intros [] s' [? _].
  - apply quiet_lasting; [done|]. apply along_zoom_under; [done|apply OledTurn_stays].
  - apply quiet_lasting; [done|]. apply KeyTurn_stays.
Qed.

Lemma perform_all_lasting fl c acts : Forall allowed acts → preserves (lasting fl c) (perform_all acts).
Proof using Type*.
  induction 1 as [|a acts Ha _ IH]; cbn [perform_all foldr]; [apply preserves_ret|].
  apply preserves_bind; [by apply perform_lasting|done].
Qed.

(** Right after start-up nothing has been saved. *)
Lemma startup_lasting h flash beyond m :
  heap_is h heap_shape_now → reads_settings (mk_flash flash true) m → mi_wf m → 22 ≤ zlen beyond →
  wp startup (λ _ s, lasting (mk_flash flash true) (mi_crc (fw_mi (bt_fw s))) s ∧ loaded beyond m (fw_mi (bt_fw s)))
    (power_on h flash beyond).
Proof using Type*.
  intros Hh Hr Hwf Hl. eapply wp_mono; [by apply (startup_ok h flash beyond m)|].
  intros [] s (Hs & Hld & Hsv). split; [|done]. split; [done|]. split; [done|]. split; [|by left].
  destruct Hld as (_ & Hm & _). unfold mode_ok. rewrite Hm. unfold mode_or_match. case_decide; [by right|by left].
Qed.
End system.

(** ** Properties *)

(** C9: the settings outlast the power. Whatever happens after power-on, once the
    communication task has had a turn the module can be switched off. Unless nothing was ever
    saved - then the flash is as it was at power-on, and brand code, address and mode are all
    zero - the next start-up finds the brand code and the mode exactly as they were, and the
    address too if the CRC over the ten bytes examined, which are not the settings, is the one
    on record; otherwise the address is 1. With zeros in those ten bytes at both power-ons
    the address is found. *)
Theorem settings_survive_power_cycle `{Chip, HeapShape, FlashHwOk, Layout} h h' flash beyond beyond' acts io :
  heap_is h heap_shape_now → heap_is h' heap_shape_now → (∀ i, is_u8 (flash i)) →
  22 ≤ zlen beyond → 22 ≤ zlen beyond' → Forall allowed acts →
  ∃ s s', (startup;; perform_all acts;; perform (UartTurn io)) (power_on h flash beyond) = Ok (tt, s) ∧
    startup (power_on h' (fw_flash (bt_fw s)) beyond') = Ok (tt, s') ∧
    let m := fw_mi (bt_fw s) in let m' := fw_mi (bt_fw s') in
    (fw_flash (bt_fw s) = mk_flash flash true ∧
       mi_brand_code m = 0 ∧ mi_addr m = 0 ∧ mi_select m = SELECT_MATCH) ∨
    (mi_brand_code m' = mi_brand_code m ∧ mi_select m' = mi_select m ∧
     mi_addr m' = (if decide (region_crc beyond' = mi_crc m) then mi_addr m else 1) ∧
     (take 10 (drop 12 beyond) = zeros 10 → take 10 (drop 12 beyond') = zeros 10 → mi_addr m' = mi_addr m)).
Proof.
  intros Hh Hh' Hf Hl Hl' Ha. destruct (flash_readable (mk_flash flash true) Hf) as (m0 & Hr0 & Hwf0).
  assert (wp (startup;; perform_all acts;; perform (UartTurn io)) (λ _ s, ∃ c,
    (take 10 (drop 12 beyond) = zeros 10 → c = crc16 (zeros 10)) ∧ lasting (mk_flash flash true) c s ∧
    settings (modulePre (fw_ut (bt_fw s))) = settings (fw_mi (bt_fw s))) (power_on h flash beyond)) as Hw.
  { rewrite wp_bind. eapply wp_mono; [by apply (startup_lasting h flash beyond m0)|].
    intros [] s (Hs & _ & _ & _ & Hc). set (c := mi_crc _) in *. rewrite wp_bind.
    eapply wp_mono; [by apply (perform_all_lasting (mk_flash flash true) c acts Ha)|].
    intros [] s1 Hs1. eapply wp_mono; [by apply (UartTurn_lasting (mk_flash flash true) c)|]. intros [] s2 [? ?].
    exists c. split; [|done]. intros Hz. unfold region_crc in Hc. rewrite Hz in Hc.
    rewrite Hc. destruct (decide (crc16 (zeros 10) = mi_crc m0)) as [E|_]; [symmetry; exact E|reflexivity]. }
  apply wp_ok in Hw as ([] & s & Hrun & c & Hz & (_ & Hc & Hm & [Hfl|(Hread & Hwf & Hpc)]) & Heq).
  - unfold saved in Hfl. apply pair_eq in Hfl as [Hfl Hpre].
    destruct (proj1 (wp_ok _ _ _) (startup_ok h' flash beyond' m0 Hh' Hr0 Hwf0 Hl')) as ([] & s' & Hrun' & _).
    exists s, s'. split; [exact Hrun|]. split; [rewrite Hfl; exact Hrun'|]. clear Hrun Hrun'. left. split; [exact Hfl|].
    rewrite Hpre in Heq. unfold settings in Heq. injection Heq as Eb Ea Es.
    exact (conj (eq_sym Eb) (conj (eq_sym Ea) (eq_sym Es))).
  - set (fl := fw_flash (bt_fw s)) in *.
    assert (reads_settings (mk_flash fl true) (modulePre (fw_ut (bt_fw s)))) as Hread'
      by exact (reads_same_cells fl (mk_flash fl true) _ (λ _, eq_refl) Hread).
    destruct (proj1 (wp_ok _ _ _) (startup_ok h' fl beyond' _ Hh' Hread' Hwf Hl')) as ([] & s' & Hrun' & _ & (Hb & Hs & Ha' & _) & _).
    exists s, s'. split; [exact Hrun|]. split; [exact Hrun'|]. clear Hrun Hrun'. right.
    unfold settings in Heq. injection Heq as Eb Ea Es. rewrite Hb, Hs, Ha', Eb, Ea, Es, Hpc, Hc.
    split; [done|]. split; [unfold mode_or_match; destruct Hm as [-> | ->]; by case_decide|]. split; [done|].
    intros Hz1 Hz2. unfold region_crc. rewrite Hz2, (Hz Hz1). by rewrite decide_True.
Qed.

(** Some settings in flash, a message that is not for the module, a page drawn, a turn. *)
Lemma settings_survive_power_cycle_witness :
  let w := w_chip in let l := w_layout in
  ∃ s s', (startup;; perform_all [HubBytes (with_crc [0xFA; 1; 2]); OledTurn];; perform (UartTurn 0))
      (power_on started (λ _, 0x41) (zeros 64)) = Ok (tt, s) ∧
    startup (power_on started (fw_flash (bt_fw s)) (zeros 64)) = Ok (tt, s') ∧
    let m := fw_mi (bt_fw s) in let m' := fw_mi (bt_fw s') in
    (fw_flash (bt_fw s) = mk_flash (λ _, 0x41) true ∧
       mi_brand_code m = 0 ∧ mi_addr m = 0 ∧ mi_select m = SELECT_MATCH) ∨
    (mi_brand_code m' = mi_brand_code m ∧ mi_select m' = mi_select m ∧ mi_addr m' = mi_addr m).
Proof.
  intros w l. destruct (@settings_survive_power_cycle _ started_shape _ _ _ started started (λ _, 0x41) (zeros 64) (zeros 64)
    [HubBytes (with_crc [0xFA; 1; 2]); OledTurn] 0) as (s & s' & Hrun & Hrun' & Hm).
  - exact started_is.
  - exact started_is.
  - done.
  - vm_compute. congruence.
  - vm_compute. congruence.
  - repeat (apply Forall_cons; [|]); [| |apply Forall_nil_2]; [|exact I].
    split; [apply (bool_decide_unpack _); vm_compute; reflexivity|vm_compute; congruence].
  - exists s, s'. split; [exact Hrun|]. split; [exact Hrun'|]. cbv zeta in *.
    destruct Hm as [Hm|(Hb & Hs & _ & Ha)]; [by left|right]. split; [done|]. split; [done|]. by apply Ha.
Defined.
