(* ===== verification/Registration.v ===== *)
(** A module that hears nothing from the hub registers again: how the timers, the connection
    monitor and the two copies of the hub event lead to the registration message, whatever
    the other tasks, the keys and the chip do meanwhile. *)
From Stdlib Require Import String.
From stdpp Require Import sets.
From S2P Require Import Prelude Mem MemHeap Buffers Crc Flash Fonts Display State Invariant.
From S2P Require Import Infrared Master Pages Buttons UartTask System.

(** ** What the registration depends on *)

Record link := mk_link {
  l_flag : Z;              (* a message of the hub is waiting *)
  l_addr : Z;
  l_event : hub_event;     (* mater_envent *)
  l_copy : hub_event;      (* the task's copy of it *)
  l_monitor : Z;
  l_t1 : Z; l_t10 : Z;
  l_due1 : Z; l_due10 : Z;
  l_data : Z;              (* size of the task's scratch array *)
}.
#[export] Instance eta_link : Eta link := λ l,
  mk_link (l_flag l) (l_addr l) (l_event l) (l_copy l) (l_monitor l) (l_t1 l) (l_t10 l)
    (l_due1 l) (l_due10 l) (l_data l).

Definition view (s : fw) : link :=
  mk_link (messageFlag (fw_uart1 s)) (mi_addr (fw_mi s)) (mater_envent s) (ut_master_event (fw_ut s))
    (connect_monitor (fw_ut s)) (time1S (fw_ut s)) (time10S (fw_ut s))
    (Timer1sTouch (fw_ut s)) (Timer10sTouch (fw_ut s)) (zlen (ut_data (fw_ut s))).

(** An observation does not change, and what is written to the devices is added to the trace. *)
Definition quiet {T} (f : fw → T) : relation fw := λ s s',
  f s' = f s ∧ suffix (fw_trace s) (fw_trace s').
Abbreviation quietly := (quiet view).

#[export] Instance quiet_preorder {T} (f : fw → T) : PreOrder (quiet f).
Proof.
  split; [done|]. intros s1 s2 s3 [H1 T1] [H2 T2]. split; [congruence|by etransitivity].
Qed.

Ltac quiet_update :=
  split; [reflexivity|first [apply suffix_cons_r; reflexivity | reflexivity]].
#[export] Hint Extern 0 (quiet _ _ _) => quiet_update : keeps.

(** A message of the hub moves the event and the monitor, never the clocks. *)
Definition clocks (l : link) : hub_event * Z * Z * Z * Z * Z :=
  (l_copy l, l_t1 l, l_t10 l, l_due1 l, l_due10 l, l_data l).
Definition heard_hub : relation fw := λ s s',
  (clocks (view s') = clocks (view s) ∧ suffix (fw_trace s) (fw_trace s')) ∧
  (l_monitor (view s') = l_monitor (view s) ∨ l_monitor (view s') = 0).

#[export] Instance heard_preorder : PreOrder heard_hub.
Proof.
  split; [intros s; split; [done|by left]|].
  intros s1 s2 s3 [[C1 T1] M1] [[C2 T2] M2]. split; [split; [congruence|by etransitivity]|].
  destruct M2 as [-> |]; [|by right]. exact M1.
Qed.
#[export] Hint Extern 0 (heard_hub _ _) => split; [quiet_update|first [left; reflexivity|right; reflexivity]] : keeps.

(** The message [bs] to the hub is among what has been written between two states. *)
Definition sends (bs : list Z) (s s' : fw) : Prop :=
  ∃ later earlier, fw_trace s' = later ++ message bs ++ earlier ++ fw_trace s.

Lemma sends_before bs s s1 s' : suffix (fw_trace s) (fw_trace s1) → sends bs s1 s' → sends bs s s'.
Proof. intros [e He] (l & e' & Hl). exists l, (e' ++ e). by rewrite Hl, He, <- !app_assoc. Qed.
Lemma sends_after bs s s1 s' : suffix (fw_trace s1) (fw_trace s') → sends bs s s1 → sends bs s s'.
Proof. intros [l Hl] (l' & e & He). exists (l ++ l'), e. by rewrite Hl, He, <- !app_assoc. Qed.

Lemma sends_suffix bs s s' : sends bs s s' → suffix (fw_trace s) (fw_trace s').
Proof. intros (l & e & ->). exists (l ++ message bs ++ e). by rewrite <- !app_assoc. Qed.

(** ** What each part of a turn does to it *)

Section parts.
Context `{Chip, FlashHw, Layout}.

Lemma IoCheck_quiet io p : along quietly (IoCheckProgram io p).
Proof. keeps_walk. Qed.
Lemma chip_message_quiet : along quietly chip_message.
Proof. keeps_walk. Qed.
Lemma save_settings_quiet : along quietly save_settings.
Proof. keeps_walk. Qed.
Lemma locate_event_quiet : along quietly locate_event.
Proof. keeps_walk. Qed.
Lemma second_command_quiet : along quietly second_command.
Proof. keeps_walk. Qed.
Lemma control_repeat_quiet : along quietly control_repeat.
Proof. keeps_walk. Qed.
Lemma OledTurn_quiet : along quietly OledTaskEntry_turn.
Proof. keeps_walk. Qed.
Lemma ChipBytes_quiet rx n : along quietly (Uart2_input rx n).
Proof. keeps_walk. Qed.
End parts.

Lemma KeyTurn_quiet `{Chip, FlashHw, Layout} pins :
  along (under bt_fw quietly) (ButtonTaskEntry_turn pins).
Proof. keeps_walk. Qed.

(** *** As a function of the link *)

Definition link_timers (l : link) : link :=
  let '(f1, c1) := TimerTask (l_t1 l) (1000 / UART_PERIOD) in
  let '(f10, c10) := TimerTask (l_t10 l) (10000 / UART_PERIOD) in
  mk_link (l_flag l) (l_addr l) (l_event l) (l_copy l) (l_monitor l) c1 c10 f1 f10 (l_data l).

Definition link_second (l : link) : link :=
  let '(e, m) := if decide (l_monitor l < 30) then (l_event l, u8 (l_monitor l + 1))
                 else (EVENT_REGISTER, l_monitor l) in
  mk_link (l_flag l) (l_addr l) e (l_event l) m (l_t1 l) (l_t10 l) (l_due1 l) (l_due10 l) (l_data l).

Section effects.
Context `{Chip, FlashHw, Layout}.

Lemma timers_view s : view (s <| fw_ut := uart_timers (fw_ut s) |>) = link_timers (view s).
Proof.
  unfold uart_timers, link_timers. cbn [view l_t1 l_t10].
  destruct (TimerTask (time1S _) _), (TimerTask (time5S _) _), (TimerTask (time10S _) _),
    (TimerTask (time100ms _) _). reflexivity.
Qed.

Lemma send_registration_ok s : l_data (view s) = 16 →
  wlp send_registration (λ _ s', view s' = view s ∧
    sends (registration (l_addr (view s))) s s') s.
Proof.
  intros Hd. unfold send_registration. apply wlp_gets, wlp_bind.
  destruct (sendRegister_ok (ut_data (fw_ut s)) s Hd) as (rest & Hrest & Hrun). unfold wlp at 1. rewrite Hrun.
  unfold set_ut, wlp, modify. split.
  - transitivity (view s <| l_data := zlen (registration (mi_addr (fw_mi s)) ++ rest) |>); [reflexivity|].
    unfold zlen in *. rewrite length_app. change (length (registration _)) with 15%nat.
    replace (Z.of_nat (15 + length rest)) with (l_data (view s)) by lia. reflexivity.
  - exists [], []. reflexivity.
Qed.

(** A quiet step before the rest. *)
Lemma wlp_quiet {A B} (m : prog fw A) (k : A → prog fw B) Q s :
  along quietly m →
  (∀ a s', view s' = view s → suffix (fw_trace s) (fw_trace s') → wlp (k a) Q s') → wlp (m ≫= k) Q s.
Proof. intros Hm Hk. apply (wlp_step quietly); [done|]. intros a s' []. by apply Hk. Qed.

(** A postcondition about what is added to the trace may be proved from any state before. *)
Definition extends (l : link) (s s' : fw) : Prop := view s' = l ∧ suffix (fw_trace s) (fw_trace s').

Lemma extends_before l s s1 s' : suffix (fw_trace s) (fw_trace s1) → extends l s1 s' → extends l s s'.
Proof. intros Ht [Hv Ht']. split; [done|by etransitivity]. Qed.

Lemma first_registration_ok s : l_data (view s) = 16 →
  wlp (if decide (NO = startFlag (fw_ut s)) then
         send_registration;; set_ut (λ t, t <| startFlag := YES |>)
       else mret tt) (λ _, extends (view s) s) s.
Proof.
  intros Hd. case_decide; [|done]. apply wlp_bind.
  eapply wlp_mono; [exact (send_registration_ok s Hd)|]. intros _ s1 [Hv Ht].
  unfold wlp, set_ut, modify. split; [exact Hv|exact (sends_suffix _ _ _ Ht)].
Qed.

Lemma monitor_ok s :
  wlp (if decide (connect_monitor (fw_ut s) < 30) then
         set_ut (λ t, t <| connect_monitor := u8 (connect_monitor t + 1) |>)
       else setMasterEvent EVENT_REGISTER)
    (λ _, extends (if decide (l_monitor (view s) < 30) then view s <| l_monitor := u8 (l_monitor (view s) + 1) |>
                   else view s <| l_event := EVENT_REGISTER |>) s) s.
Proof. cbn [view l_monitor]. case_decide; done. Qed.

Lemma second_event_view s : l_data (view s) = 16 →
  wlp second_event (λ _, extends (link_second (view s)) s) s.
Proof.
  intros Hd. unfold second_event, getInfraredEvent, getMasterEvent, getModuleInfo.
  apply wlp_gets, wlp_modify, wlp_gets, wlp_modify.
  match goal with |- wlp _ _ ?x => assert (extends (view s <| l_copy := l_event (view s) |>) s x) as [Hv0 Ht0] by done;
    revert Hv0 Ht0; generalize x end. intros s0 Hv0 Ht0.
  apply wlp_quiet; [apply second_command_quiet|]. intros _ s1 Hv1 Ht1. apply wlp_gets.
  apply wlp_quiet; [keeps_walk|]. intros _ s2 Hv2 Ht2.
  assert (view s2 = view s <| l_copy := l_event (view s) |>) as Hv by congruence.
  assert (suffix (fw_trace s) (fw_trace s2)) as Ht by (do 2 (etransitivity; [eassumption|]); done).
  clear Hv0 Hv1 Hv2 Ht0 Ht1 Ht2. apply wlp_gets, wlp_bind.
  eapply wlp_mono; [apply first_registration_ok; by rewrite Hv|]. intros _ s3 [Hv3 Ht3]. apply wlp_gets, wlp_bind.
  eapply wlp_mono; [apply monitor_ok|]. intros _ s4 [Hv4 Ht4].
  eapply wlp_mono; [apply wlp_along, control_repeat_quiet|]. intros _ s5 [Hv5 Ht5].
  split; [|by do 3 (etransitivity; [eassumption|])]. rewrite Hv5, Hv4, Hv3, Hv. unfold link_second.
  change (l_monitor (view s <| l_copy := _ |>)) with (l_monitor (view s)).
  destruct (decide (l_monitor (view s) < 30)); reflexivity.
Qed.

Lemma five_second_event_view s :
  wlp five_second_event (λ _ s', suffix (fw_trace s) (fw_trace s') ∧
    (view s' = view s ∨ view s' = view s <| l_event := EVENT_REGISTER |>)) s.
Proof. unfold five_second_event, getModuleInfo. apply wlp_gets. case_decide; (split; [done|]); [by right|by left]. Qed.

Lemma ten_second_event_view s : l_data (view s) = 16 →
  wlp ten_second_event (λ _ s', extends (view s) s s' ∧
    (l_copy (view s) = EVENT_REGISTER → sends (registration (l_addr (view s))) s s')) s.
Proof.
  intros Hd. unfold ten_second_event. apply wlp_gets, wlp_bind.
  assert (∀ s1, extends (view s) s s1 → (l_copy (view s) = EVENT_REGISTER → sends (registration (l_addr (view s))) s s1) →
    wlp (set_ut (λ t, t <| startCheckIo := YES |>)) (λ _ s', extends (view s) s s' ∧
      (l_copy (view s) = EVENT_REGISTER → sends (registration (l_addr (view s))) s s')) s1) as Hlast by done.
  change (ut_master_event (fw_ut s)) with (l_copy (view s)).
  destruct (l_copy (view s)); try (apply Hlast; done).
  eapply wlp_mono; [exact (send_registration_ok s Hd)|]. intros _ s1 [Hv Ht].
  apply Hlast; [|done]. split; [done|exact (sends_suffix _ _ _ Ht)].
Qed.

(** *** A turn *)

(** The part of a turn behind the hub's message. *)
Definition turn_rest : prog fw unit :=
  m2 ← gets fw_uart2;
  (if decide (YES = messageFlag m2) then chip_message else mret tt);;
  save_settings;;
  ut ← gets fw_ut;
  (if decide (YES = Timer100msTouch ut) then locate_event else mret tt);;
  (if decide (YES = Timer1sTouch ut) then second_event else mret tt);;
  (if decide (YES = Timer5sTouch ut) then five_second_event else mret tt);;
  (if decide (YES = Timer10sTouch ut) then ten_second_event else mret tt);;
  rt_thread_mdelay UART_PERIOD.

(** What it makes of the link: the second event if it is due, then perhaps the hub event. *)
Definition link_rest (l l' : link) : Prop :=
  let l1 := if decide (l_due1 l = YES) then link_second l else l in
  l' = l1 ∨ l' = l1 <| l_event := EVENT_REGISTER |>.

Lemma turn_rest_view s : l_data (view s) = 16 →
  wlp turn_rest (λ _ s', link_rest (view s) (view s') ∧ suffix (fw_trace s) (fw_trace s') ∧
    (l_due10 (view s) = YES → l_copy (view s') = EVENT_REGISTER →
     sends (registration (l_addr (view s))) s s')) s.
Proof.
  intros Hd. unfold turn_rest. apply wlp_gets, wlp_quiet.
  { apply along_if; [apply chip_message_quiet|keeps_step]. }
  intros _ s1 Hv1 Ht1. apply wlp_quiet; [apply save_settings_quiet|]. intros _ s2 Hv2 Ht2. apply wlp_gets.
  assert (view s2 = view s) as Hv by congruence. clear Hv1 Hv2.
  assert (Timer1sTouch (fw_ut s2) = l_due1 (view s)) as Hd1 by (by rewrite <- Hv).
  assert (Timer10sTouch (fw_ut s2) = l_due10 (view s)) as Hd10 by (by rewrite <- Hv).
  rewrite Hd1, Hd10. generalize (Timer5sTouch (fw_ut s2)) as d5. intros d5.
  apply wlp_quiet; [apply along_if; [apply locate_event_quiet|keeps_step]|].
  intros _ s3 Hv3 Ht3. apply wlp_bind.
  set (l1 := if decide (l_due1 (view s) = YES) then link_second (view s) else view s).
  assert (wlp (if decide (YES = l_due1 (view s)) then second_event else mret tt) (λ _, extends l1 s3) s3) as Hsec.
  { unfold l1. destruct (decide (l_due1 _ = YES)) as [Hy|Hn].
    - rewrite decide_True by done. rewrite <- Hv, <- Hv3. apply second_event_view. by rewrite Hv3, Hv.
    - rewrite decide_False by congruence. split; [congruence|done]. }
  eapply wlp_mono; [exact Hsec|]. intros _ s4 [Hv4 Ht4]. apply wlp_bind.
  assert (wlp (if decide (YES = d5) then five_second_event else mret tt) (λ _ s', suffix (fw_trace s4) (fw_trace s') ∧
    (view s' = view s4 ∨ view s' = view s4 <| l_event := EVENT_REGISTER |>)) s4) as Hfive.
  { destruct (decide (YES = d5)); [apply five_second_event_view|]. split; [done|by left]. }
  eapply wlp_mono; [exact Hfive|]. intros _ s5 [Ht5 Hv5]. apply wlp_bind.
  assert (l_data l1 = 16 ∧ l_addr l1 = l_addr (view s)) as [Hd1' Ha1].
  { unfold l1, link_second. repeat case_decide; done. }
  assert (link_rest (view s) (view s5) ∧ l_data (view s5) = 16 ∧ l_addr (view s5) = l_addr (view s)) as (Hr & Hd5 & Ha5).
  { rewrite Hv4 in Hv5. unfold link_rest. fold l1. destruct Hv5 as [-> | ->]; repeat split; auto. }
  assert (suffix (fw_trace s) (fw_trace s5)) as Ht by (do 4 (etransitivity; [eassumption|]); done).
  clear Hfive Hsec Ht1 Ht2 Ht3 Ht4 Ht5 Hv4 Hv5.
  destruct (decide (YES = l_due10 (view s))) as [Hy|Hn].
  - eapply wlp_mono; [exact (ten_second_event_view s5 Hd5)|]. intros _ s6 [[Hv6 Ht6] Hsend].
    unfold rt_thread_mdelay, emit, wlp, modify. change (view (_ <| fw_trace := _ |>)) with (view s6). rewrite Hv6.
    assert (suffix (fw_trace s6) (MDelay UART_PERIOD :: fw_trace s6)) as Htd by (by apply suffix_cons_r).
    split; [done|]. split; [by do 2 (etransitivity; [eassumption|])|]. intros _ Hreg.
    eapply sends_before; [exact Ht|]. eapply sends_after; [exact Htd|]. rewrite <- Ha5. by apply Hsend.
  - unfold rt_thread_mdelay, emit, wlp, modify, mret, prog_ret.
    split; [done|]. split; [|congruence]. etransitivity; [exact Ht|]. by apply suffix_cons_r.
Qed.

Lemma getRegister_heard a : along heard_hub (getRegister a).
Proof. keeps_walk. Qed.
Lemma read_registers_heard n i temp b : along heard_hub (read_registers n i temp b).
Proof. apply read_registers_along; [apply _|apply getRegister_heard]. Qed.
Hint Resolve getRegister_heard read_registers_heard : keeps.

Lemma hub_message_view s :
  wlp hub_message (λ _ s', heard_hub s s' ∧ l_flag (view s') = NO) s.
Proof.
  unfold hub_message, getModuleInfo. apply wlp_gets, wlp_gets, (wlp_step heard_hub); [keeps_step|].
  intros d0 s1 Hs1. apply (wlp_step heard_hub); [keeps_walk|]. intros _ s2 Hs2.
  unfold wlp, modify. split; [|done]. etransitivity; [exact Hs1|]. etransitivity; [exact Hs2|].
  split; [done|by left].
Qed.
End effects.

(** ** How long it can take *)

Definition ticking (l : link) : Prop :=
  0 ≤ l_t1 l ≤ 20 ∧ 0 ≤ l_t10 l ≤ 200 ∧ 0 ≤ l_monitor l ≤ 30 ∧ l_data l = 16.

Definition on_time : relation fw := λ s s', ticking (view s) → ticking (view s').
#[export] Instance on_time_preorder : PreOrder on_time.
Proof. split; [intros s Hs; exact Hs|]. intros s1 s2 s3 Ha Hb Hs. exact (Hb (Ha Hs)). Qed.
#[export] Hint Extern 0 (on_time _ _) =>
  first [exact (λ Hs, Hs) | intros (?&?&?&?); split; [assumption|]; split; [assumption|]; split; [assumption|reflexivity]] : keeps.

(** The turns that can pass without a registration before the one that sends it: up to 30
    seconds, of 21 turns each, until the monitor gives up, one more until the task's copy
    follows, and up to 200 turns to the next ten-second event. *)
Definition patience (l : link) : Z :=
  if decide (l_event l = EVENT_REGISTER) then
    if decide (l_copy l = EVENT_REGISTER) then 200 - l_t10 l else 201 + (20 - l_t1 l)
  else 222 + (30 - l_monitor l) * 21 + (20 - l_t1 l).

Lemma patience_range l : ticking l → 0 ≤ patience l ≤ 872.
Proof. intros (?&?&?&_). unfold patience. repeat case_decide; lia. Qed.

Lemma timer_step t n : 0 ≤ t ≤ n → n < 65535 →
  TimerTask t n = if decide (t < n) then (NO, t + 1) else (YES, 0).
Proof. intros. unfold TimerTask. by rewrite u16_id by (unfold is_u16; lia). Qed.

Lemma timers_ticking l : ticking l → ticking (link_timers l).
Proof.
  intros (?&?&?&?). unfold link_timers, TimerTask.
  change (1000 / UART_PERIOD) with 20. change (10000 / UART_PERIOD) with 200.
  repeat case_decide; unfold ticking, upd; cbn; rewrite ?u16_id by (unfold is_u16; lia); lia.
Qed.

Lemma rest_ticking l l' : ticking l → link_rest l l' → ticking l' ∧ l_addr l' = l_addr l ∧ l_flag l' = l_flag l.
Proof.
  destruct l. intros (?&?&?&?) Hr. unfold link_rest, link_second, upd in Hr. cbn in *.
  repeat case_decide; destruct Hr as [-> | ->]; unfold ticking, upd, u8; cbn; repeat split; lia.
Qed.

(** A turn without a message of the hub either sends the registration or shortens the wait. *)
Lemma patience_falls l l' : ticking l → link_rest (link_timers l) l' →
  (l_due10 (link_timers l) = YES ∧ l_copy l' = EVENT_REGISTER) ∨ patience l' < patience l.
Proof.
  destruct l as [fl ad ev cp mo t1 t10 d1 d10 da]. intros (Ht1&Ht10&Hmo&_). cbn in Ht1, Ht10, Hmo.
  unfold link_rest, link_timers. cbn [l_t1 l_t10].
  rewrite !timer_step by (change (1000 / UART_PERIOD) with 20; change (10000 / UART_PERIOD) with 200; lia).
  change (1000 / UART_PERIOD) with 20. change (10000 / UART_PERIOD) with 200.
  assert (mo < 30 → u8 (mo + 1) = mo + 1) as Hu by (intros; rewrite u8_id by (unfold is_u8; lia); done).
  unfold link_second.
  destruct (decide (t1 < 20)), (decide (t10 < 200)); cbn -[u8]; known_decides; cbn -[u8];
    destruct (decide (mo < 30)); rewrite ?Hu by done; intros [-> | ->]; destruct ev, cp;
    unfold patience, upd; cbn; known_decides; (right; lia) || (left; done).
Qed.

Lemma same_clocks_ticking l l' : ticking l → clocks l' = clocks l →
  l_monitor l' = l_monitor l ∨ l_monitor l' = 0 → ticking l'.
Proof.
  destruct l, l'. unfold ticking, clocks. cbn. intros (?&?&?&?) [= -> -> -> -> -> ->] [-> | ->]; repeat split; lia.
Qed.

Section turn.
Context `{Chip, FlashHw, Layout}.

(** Before the hub's message is looked at: the timers and the switch input. *)
Lemma turn_view io s : ticking (view s) →
  wlp (UartTaskEntry_turn io) (λ _ s', ticking (view s') ∧ l_flag (view s') ≠ YES ∧
    suffix (fw_trace s) (fw_trace s') ∧
    (l_flag (view s) ≠ YES → l_addr (view s') = l_addr (view s) ∧
      (patience (view s') < patience (view s) ∨ sends (registration (l_addr (view s))) s s'))) s.
Proof.
  intros Hok. unfold UartTaskEntry_turn, set_ut at 1, getModuleInfo. apply wlp_modify, wlp_gets.
  match goal with |- wlp _ _ ?x => assert (extends (link_timers (view s)) s x) as [Hv0 Ht0]
    by (split; [apply timers_view|done]); revert Hv0 Ht0; generalize x end. intros s0 Hv0 Ht0.
  apply wlp_quiet; [apply along_if; [apply IoCheck_quiet|keeps_step]|]. intros _ s1 Hv1 Ht1. apply wlp_gets, wlp_bind.
  apply timers_ticking in Hok as Hok1. rewrite Hv0 in Hv1. rewrite <- Hv1 in Hok1.
  match goal with |- wlp ?m _ _ => assert (wlp m (λ _ s2, suffix (fw_trace s1) (fw_trace s2) ∧ ticking (view s2) ∧
    l_flag (view s2) ≠ YES ∧ (l_flag (view s) ≠ YES → view s2 = view s1)) s1) as Hhub end.
  { destruct (decide (YES = messageFlag (fw_uart1 s1))) as [Hy|Hn].
    - eapply wlp_mono; [apply hub_message_view|]. intros _ s2 [[[Hc Ht] Hm] Hf].
      split; [done|]. split; [|split].
      + by eapply same_clocks_ticking.
      + by rewrite Hf.
      + intros Hn. exfalso. apply Hn. change (messageFlag (fw_uart1 s1)) with (l_flag (view s1)) in Hy. rewrite Hv1 in Hy.
        unfold link_timers in Hy. destruct (TimerTask _ (1000 / _)), (TimerTask _ (10000 / _)). done.
    - split; [done|]. split; [done|]. split; [|done]. intros He. by apply Hn. }
  eapply wlp_mono; [exact Hhub|]. intros _ s2 (Ht2 & Hok2 & Hf2 & Hq). clear Hhub.
  change (wlp turn_rest (λ _ s', ticking (view s') ∧ l_flag (view s') ≠ YES ∧ suffix (fw_trace s) (fw_trace s') ∧
    (l_flag (view s) ≠ YES → l_addr (view s') = l_addr (view s) ∧
      (patience (view s') < patience (view s) ∨ sends (registration (l_addr (view s))) s s'))) s2).
  assert (suffix (fw_trace s) (fw_trace s2)) as Ht by (by do 2 (etransitivity; [eassumption|])).
  eapply wlp_mono; [apply turn_rest_view; apply Hok2|]. intros _ s3 (Hr & Ht3 & Hsend).
  destruct (rest_ticking _ _ Hok2 Hr) as (Hok3 & Ha3 & Hf3).
  split; [done|]. split; [by rewrite Hf3|]. split; [by etransitivity|]. intros Hflag.
  assert (view s2 = link_timers (view s)) as Hv2 by (rewrite Hq by done; done).
  assert (l_addr (view s2) = l_addr (view s)) as Ha2.
  { rewrite Hv2. unfold link_timers. by destruct (TimerTask _ (1000 / _)), (TimerTask _ (10000 / _)). }
  split; [congruence|]. rewrite Hv2 in Hr.
  destruct (patience_falls _ _ Hok Hr) as [[Hd Hc]|Hlt]; [right|by left].
  eapply sends_before; [exact Ht|]. rewrite <- Ha2. apply Hsend; [by rewrite Hv2|done].
Qed.
End turn.

(** ** The system *)

Section system.
Context `{Chip, FlashHw, Layout}.

(** The hub's line is quiet. *)
Definition silent (a : action) : Prop := match a with HubBytes _ => False | _ => True end.
Definition is_turn (a : action) : Z := match a with UartTurn _ => 1 | _ => 0 end.
Definition turns (acts : list action) : Z := foldr (λ a n, is_turn a + n) 0 acts.

Definition bt_view (s : button_task) : link := view (bt_fw s).

Lemma startup_on_time : along (under bt_fw on_time) startup.
Proof. keeps_walk. Qed.
(** What a step does that takes [n] turns while the line is quiet: the wait gets shorter by
    these turns, unless the registration has been sent. *)
Definition passes (n : Z) (s s' : button_task) : Prop :=
  ticking (bt_view s') ∧ suffix (fw_trace (bt_fw s)) (fw_trace (bt_fw s')) ∧
  (n = 1 → l_flag (bt_view s') ≠ YES) ∧
  (l_flag (bt_view s) ≠ YES → l_flag (bt_view s') ≠ YES ∧ l_addr (bt_view s') = l_addr (bt_view s) ∧
    (patience (bt_view s') + n ≤ patience (bt_view s) ∨
     sends (registration (l_addr (bt_view s))) (bt_fw s) (bt_fw s'))).

Lemma quiet_passes {A} (m : prog button_task A) s :
  along (under bt_fw quietly) m → ticking (bt_view s) → wlp m (λ _, passes 0 s) s.
Proof.
  intros Hq Hok. eapply wlp_mono; [by apply wlp_along|]. intros _ s' [Hv Ht]. unfold passes, bt_view. rewrite Hv.
  split; [done|]. split; [done|]. split; [done|]. intros Hf. split; [done|]. split; [done|]. left. lia.
Qed.

Lemma perform_passes a s : silent a → ticking (bt_view s) →
  wlp (perform a) (λ _, passes (is_turn a) s) s.
Proof.
  intros Hsil Hok. destruct a as [rx|rx|io| |pins]; [done| | | |].
  - apply quiet_passes; [|done]. cbn [perform]. keeps_step; [|keeps_step].
    apply along_zoom_under; [done|apply ChipBytes_quiet].
  - cbn [perform]. unfold zoom, wlp. pose proof (turn_view io (bt_fw s) Hok) as Ht. unfold wlp in Ht.
    destruct (UartTaskEntry_turn io (bt_fw s)) as [[[] s']|]; [|done].
    destruct Ht as (Hok' & Hf & Ht & Hrest). split; [done|]. split; [done|]. split; [done|].
    intros Hflag. destruct (Hrest Hflag) as (Ha & Hp). split; [done|]. split; [done|].
    destruct Hp as [Hp|Hp]; [left|by right].
    change (patience (view s') + 1 ≤ patience (view (bt_fw s))). lia.
  - apply quiet_passes; [|done]. cbn [perform]. apply along_zoom_under; [done|apply OledTurn_quiet].
  - apply quiet_passes; [|done]. apply KeyTurn_quiet.
Qed.

Lemma run_quiet acts s : Forall silent acts → ticking (bt_view s) → l_flag (bt_view s) ≠ YES →
  wlp (perform_all acts) (λ _ s', l_addr (bt_view s') = l_addr (bt_view s) ∧
    suffix (fw_trace (bt_fw s)) (fw_trace (bt_fw s'))) s.
Proof.
  intros Ha. revert s. induction Ha as [|a acts Hsil _ IH]; intros s Hok Hf; [done|]. cbn [perform_all foldr].
  apply wlp_bind. eapply wlp_mono; [by apply perform_passes|].
  intros _ s1 (Hok1 & Ht1 & _ & Hp). destruct (Hp Hf) as (Hf1 & Ha1 & _).
  eapply wlp_mono; [by apply IH|]. intros _ s2 [-> Ht2]. split; [done|by etransitivity].
Qed.

Lemma run_sends acts s : Forall silent acts → ticking (bt_view s) → l_flag (bt_view s) ≠ YES →
  patience (bt_view s) < turns acts →
  wlp (perform_all acts) (λ _ s', l_addr (bt_view s') = l_addr (bt_view s) ∧
    sends (registration (l_addr (bt_view s))) (bt_fw s) (bt_fw s')) s.
Proof.
  intros Ha. revert s. induction Ha as [|a acts Hsil Hacts IH]; intros s Hok Hf Hn.
  { pose proof (patience_range _ Hok). change (turns []) with 0 in Hn. lia. }
  cbn [perform_all foldr turns] in *. apply wlp_bind. eapply wlp_mono; [by apply perform_passes|].
  intros _ s1 (Hok1 & Ht1 & _ & Hp). destruct (Hp Hf) as (Hf1 & Ha1 & [Hpat|Hsent]).
  - eapply wlp_mono; [apply IH; [done|done|]|].
    + fold (turns acts) in Hn. lia.
    + intros _ s2 [-> Ht2]. rewrite Ha1 in *. split; [done|]. by eapply sends_before.
  - eapply wlp_mono; [by apply run_quiet|]. intros _ s2 [-> Ht2]. split; [done|]. by eapply sends_after.
Qed.

(** A message that has come in before is dealt with in the first turn. *)
Lemma run_registers acts s : Forall silent acts → ticking (bt_view s) → 874 ≤ turns acts →
  wlp (perform_all acts) (λ _ s', sends (registration (l_addr (bt_view s'))) (bt_fw s) (bt_fw s')) s.
Proof.
  intros Ha. revert s. induction Ha as [|a acts Hsil Hacts IH]; intros s Hok Hn; [cbn in Hn; lia|].
  cbn [perform_all foldr turns] in *. fold (turns acts) in Hn. apply wlp_bind.
  eapply wlp_mono; [by apply perform_passes|]. intros _ s1 (Hok1 & Ht1 & Hf1 & _).
  destruct (decide (is_turn a = 1)) as [H1'|H0'].
  - pose proof (patience_range _ Hok1).
    eapply wlp_mono; [apply run_sends; [done|done|by apply Hf1|lia]|].
    intros _ s2 [Ha2 Hs2]. rewrite Ha2. by eapply sends_before.
  - eapply wlp_mono; [apply IH; [done|]|].
    + destruct a; cbn in *; lia.
    + intros [] s2 Hs2. by eapply sends_before.
Qed.
End system.

Lemma reachable_ok `{Chip, HeapShape, FlashHwOk, Layout} h flash beyond s :
  heap_is h heap_shape_now → (∀ i, is_u8 (flash i)) → 22 ≤ zlen beyond →
  reachable h flash beyond s → bt_inv s.
Proof.
  intros Hh Hf Hl. induction 1 as [s Hrun|s a s' _ IH Ha Hrun].
  - destruct (flash_readable (mk_flash flash true) Hf) as (m & Hr & Hwf).
    pose proof (startup_ok h flash beyond m Hh Hr Hwf Hl) as Hw. unfold wp in Hw. rewrite Hrun in Hw. apply Hw.
  - pose proof (perform_inv a Ha s IH) as Hw. unfold wp in Hw. by rewrite Hrun in Hw.
Qed.

Lemma perform_on_time `{Chip, FlashHw, Layout} a : along (under bt_fw on_time) (perform a).
Proof.
  assert (silent a → along (under bt_fw on_time) (perform a)) as Hsil.
  { intros Ha s [] s' Hrun Hs. pose proof (perform_passes a s Ha Hs) as Hp. unfold wlp in Hp.
    rewrite Hrun in Hp. apply Hp. }
  destruct a as [rx| | | |]; try (apply Hsil; exact I). cbn [perform]. keeps_walk.
Qed.

Lemma reachable_ticking `{Chip, FlashHw, Layout} h flash beyond s :
  reachable h flash beyond s → ticking (bt_view s).
Proof.
  induction 1 as [s Hrun|s a s' _ IH _ Hrun].
  - apply (startup_on_time _ _ _ Hrun). by vm_compute.
  - exact (perform_on_time a s tt s' Hrun IH).
Qed.

(** ** The property *)

(** C11: a module that the hub does not answer keeps asking. In whatever state it is, if the
    hub's line stays quiet for 874 turns of the communication task (44 seconds of the task's
    own time), the module sends the registration message with its address, registered or not,
    whatever the other tasks, the keys and the infrared chip do in between. *)
Theorem silent_hub_registration `{Chip, HeapShape, FlashHwOk, Layout} h flash beyond s acts :
  heap_is h heap_shape_now → (∀ i, is_u8 (flash i)) → 22 ≤ zlen beyond →
  reachable h flash beyond s → Forall allowed acts → Forall silent acts → 874 ≤ turns acts →
  ∃ s', perform_all acts s = Ok (tt, s') ∧
    sends (registration (mi_addr (fw_mi (bt_fw s')))) (bt_fw s) (bt_fw s').
Proof.
  intros Hh Hf Hl Hs Ha Hsil Hn.
  pose proof (reachable_ok h flash beyond s Hh Hf Hl Hs) as Hinv.
  pose proof (run_registers acts s Hsil (reachable_ticking _ _ _ _ Hs) Hn) as Hrun.
  pose proof (wp_wlp _ _ _ _ (perform_all_inv acts Ha s Hinv) Hrun) as Hw.
  apply wp_ok in Hw as ([] & s' & Hok & _ & Hsend). by exists s'.
Qed.

(** A module that has just started and 900 turns. *)
Lemma silent_hub_registration_witness :
  let w := w_chip in let l := w_layout in
  ∃ s s', reachable started (λ _, 0x41) (zeros 64) s ∧
    perform_all (replicate 900 (UartTurn 0)) s = Ok (tt, s') ∧
    sends (registration (mi_addr (fw_mi (bt_fw s')))) (bt_fw s) (bt_fw s').
Proof.
  intros w l.
  destruct (flash_readable (mk_flash (λ _, 0x41) true) ltac:(done)) as (m & Hr & Hwf).
  destruct (proj1 (wp_ok _ _ _) (startup_ok (H0 := started_shape) started (λ _, 0x41) (zeros 64) m
    started_is Hr Hwf ltac:(vm_compute; congruence)))
    as ([] & s & Hrun & _).
  destruct (@silent_hub_registration _ started_shape _ _ _ started (λ _, 0x41) (zeros 64) s (replicate 900 (UartTurn 0)))
    as (s' & Hs' & Hsend).
  - exact started_is.
  - intros _. unfold is_u8. clear. lia.
  - vm_compute. congruence.
  - exact (reach_boot _ _ _ s Hrun).
  - apply Forall_replicate. exact I.
  - apply Forall_replicate. exact I.
  - vm_compute. congruence.
  - exists s, s'. split; [exact (reach_boot _ _ _ s Hrun)|]. split; [exact Hs'|exact Hsend].
Defined.
