(* ===== verification/Line.v ===== *)
(** The firmware behind its serial driver: bursts on the two lines go through the receive
    path of Serial.v into the receive interrupts of Uart.c; what is written goes out as in
    Transmit.v. *)
From Stdlib Require Import String.
From stdpp Require Import sets.
From S2P Require Import Prelude Serial Timer Transmit Mem MemHeap Buffers Crc Flash Fonts Display State Invariant.
From S2P Require Import Infrared Master Pages Buttons UartTask System Registration.

(** ** State and steps *)

(** The two ports and the tasks. *)
Record board := mk_board { hub_port : serial; chip_port : serial; b_sys : button_task }.
#[export] Instance eta_board : Eta board := λ b, mk_board (hub_port b) (chip_port b) (b_sys b).

Section line.
Context `{Chip, FlashHw, Layout}.

(** A burst on a line and the idle-line interrupt after it; the driver's call-back reads as
    much as it is told there is. *)
Definition line (port : board → serial) `{!Upd port} (rx_indicate : list Z → Z → prog fw Z)
    (bs : list Z) : prog board unit :=
  zoom port (modify (dma_receive bs));;
  size ← zoom port uart_isr;
  match size with
  | None => mret tt
  | Some size =>
      rx ← zoom port (rt_serial_read size);
      _ ← zoom b_sys (zoom bt_fw (rx_indicate rx size)); mret tt
  end.

Inductive event : Type :=
  | HubLine (bs : list Z)
  | ChipLine (bs : list Z)
  | Task (a : action).

Definition happen (e : event) : prog board unit :=
  match e with
  | HubLine bs => line hub_port Uart1_input bs
  | ChipLine bs => line chip_port Uart2_input bs
  | Task a => zoom b_sys (perform a)
  end.
Definition happen_all (evs : list event) : prog board unit :=
  foldr (λ e m, happen e;; m) (mret tt) evs.

(** ** What it means for the firmware *)

Definition messages (e : event) : list action :=
  match e with
  | HubLine bs => match delivered bs with Some rx => [HubBytes rx] | None => [] end
  | ChipLine bs => match delivered bs with Some rx => [ChipBytes rx] | None => [] end
  | Task a => [a]
  end.

(** Both ports are between bursts. *)
Definition quiet_ports (b : board) : Prop :=
  (∃ p, ready p (hub_port b)) ∧ (∃ p, ready p (chip_port b)).

Lemma line_ok port `{!Upd port} input p bs b :
  (∀ b x, port (b <| port := x |>) = x) → (∀ b x y, b <| port := x |> <| port := y |> = b <| port := y |>) →
  ready p (port b) →
  ∃ x, ready ((p + zlen bs) mod bufsz) x ∧
    line port input bs b =
      match delivered bs with
      | None => Ok (tt, b <| port := x |>)
      | Some rx => (_ ← zoom b_sys (zoom bt_fw (input rx (zlen rx))); mret tt) (b <| port := x |>)
      end.
Proof.
  intros Hget Hset Hr. destruct (interrupt_ok p bs (port b) Hr) as (s1 & s2 & Hisr & Hread & Hr2).
  exists s2. split; [done|]. unfold line, mbind, prog_bind, zoom, modify. rewrite Hget, Hisr, Hset.
  destruct (delivered bs) as [rx|]; cbn; [|by rewrite Hread]. by rewrite Hget, Hread, Hset.
Qed.

Definition with_ports (h c : serial) (r : outcome (unit * button_task)) : outcome (unit * board) :=
  match r with Ok (_, s) => Ok (tt, mk_board h c s) | Fault f => Fault f end.

Lemma happen_ok e b : quiet_ports b →
  ∃ h c, (∃ p, ready p h) ∧ (∃ p, ready p c) ∧
    happen e b = with_ports h c (perform_all (messages e) (b_sys b)).
Proof.
  destruct b as [h c s]. intros [[p Hp] [q Hq]]. cbn in Hp, Hq. destruct e as [bs|bs|a].
  - destruct (line_ok hub_port Uart1_input p bs (mk_board h c s) ltac:(done) ltac:(done) Hp) as (x & Hx & Hrun).
    exists x, c. split; [by eexists|]. split; [by eexists|]. cbn [happen]. rewrite Hrun. cbn [messages b_sys].
    destruct (delivered bs) as [rx|]; [|done]. unfold perform_all, perform, mbind, prog_bind, zoom, upd. cbn [foldr b_sys eta_board].
    by destruct (Uart1_input rx (zlen rx) (bt_fw s)) as [[]|].
  - destruct (line_ok chip_port Uart2_input q bs (mk_board h c s) ltac:(done) ltac:(done) Hq) as (x & Hx & Hrun).
    exists h, x. split; [by eexists|]. split; [by eexists|]. cbn [happen]. rewrite Hrun. cbn [messages b_sys].
    destruct (delivered bs) as [rx|]; [|done]. unfold perform_all, perform, mbind, prog_bind, zoom, upd. cbn [foldr b_sys eta_board].
    by destruct (Uart2_input rx (zlen rx) (bt_fw s)) as [[]|].
  - exists h, c. split; [by eexists|]. split; [by eexists|]. cbn [happen messages].
    unfold perform_all, mbind, prog_bind, zoom. cbn [foldr b_sys].
    by destruct (perform a s) as [[[]]|].
Qed.

Lemma perform_all_app acts1 acts2 s :
  perform_all (acts1 ++ acts2) s =
  match perform_all acts1 s with Ok (_, s') => perform_all acts2 s' | Fault f => Fault f end.
Proof.
  revert s. induction acts1 as [|a acts IH]; intros s; [done|].
  cbn [app perform_all foldr]. unfold mbind, prog_bind.
  destruct (perform a s) as [[[] s1]|]; [|done]. apply IH.
Qed.

Lemma happen_all_ok evs b : quiet_ports b →
  ∃ h c, (∃ p, ready p h) ∧ (∃ p, ready p c) ∧
    happen_all evs b = with_ports h c (perform_all (concat (messages <$> evs)) (b_sys b)).
Proof.
  revert b. induction evs as [|e evs IH]; intros b Hb.
  - destruct b as [h c s]. exists h, c. by destruct Hb.
  - destruct (happen_ok e b Hb) as (h1 & c1 & Hh1 & Hc1 & Hrun). cbn [happen_all foldr fmap list_fmap concat].
    unfold mbind, prog_bind. rewrite Hrun, perform_all_app.
    destruct (perform_all (messages e) (b_sys b)) as [[u s1]|f]; [|by exists h1, c1].
    cbn [with_ports]. exact (IH (mk_board h1 c1 s1) (conj Hh1 Hc1)).
Qed.
End line.

(** ** A request on the line *)

Definition control_body (addr vh vl : Z) : list Z := [addr; WRITE_SINGLE; 0x01; 0x00; vh; vl].
Definition control_write (addr vh vl : Z) : list Z := with_crc (control_body addr vh vl).

(** What has to last from the interrupt to the task's turn. *)
Definition inbox (s : fw) : rx_msg * Z * heap := (fw_uart1 s, mi_addr (fw_mi s), fw_heap s).

(** Neither a message of the hub nor a turn of the communication task. *)
Definition bystander (a : action) : Prop :=
  match a with HubBytes _ | UartTurn _ => False | _ => True end.

Section request.
Context `{Chip, FlashHw, Layout}.

Lemma bystander_inbox a : bystander a → along (under bt_fw (quiet inbox)) (perform a).
Proof. destruct a as [rx|rx|io| |pins]; [done| |done| |]; intros _; keeps_walk. Qed.
Lemma bystanders_inbox acts : Forall bystander acts → along (under bt_fw (quiet inbox)) (perform_all acts).
Proof.
  induction 1 as [|a acts Ha _ IH]; cbn [perform_all foldr]; [keeps_step|].
  keeps_step; [by apply bystander_inbox|exact IH].
Qed.

Lemma turn_rest_grows : along (quiet (λ _, tt)) turn_rest.
Proof. keeps_walk. Qed.

Lemma IoCheck_inbox io p : along (quiet inbox) (IoCheckProgram io p).
Proof. keeps_walk. Qed.

Lemma timers_inbox s : quiet inbox s (s <| fw_ut := uart_timers (fw_ut s) |>).
Proof. by split. Qed.

Lemma hub_message_echoes vh vl tl s sh :
  is_u8 vh → is_u8 vl → is_u8 (mi_addr (fw_mi s)) → mi_addr (fw_mi s) ≠ REGISTER_CODE →
  heap_is (fw_heap s) sh → room (sh_blocks sh) 60 →
  let request := control_write (mi_addr (fw_mi s)) vh vl in
  fw_uart1 s = mk_rx 8 YES (control_body (mi_addr (fw_mi s)) vh vl ++ tl) →
  wlp hub_message (λ _ s', fw_trace s' = message request ++ fw_trace s) s.
Proof.
  intros Hvh Hvl Ha Hne Hh Hroom request Hm.
  destruct (control_write_ok vh vl tl s sh Hvh Hvl Ha Hh Hroom) as (s1 & Hrun & Ht & Hmi & _).
  fold (control_body (mi_addr (fw_mi s)) vh vl) in Hrun, Ht. fold (control_write (mi_addr (fw_mi s)) vh vl) in Ht.
  fold request in Ht.
  unfold hub_message, getModuleInfo. apply wlp_gets, wlp_gets. rewrite Hm. cbn [rx_data rx_size].
  apply wlp_bind. change (load (control_body (mi_addr (fw_mi s)) vh vl ++ tl) 0) with (@Ok Z (mi_addr (fw_mi s))).
  unfold wlp at 1, lift. rewrite decide_False by congruence. rewrite decide_True by done.
  apply wlp_bind, wlp_bind. unfold wlp at 1. rewrite Hrun.
  exact Ht.
Qed.

(** The words in the receive buffer are answered in the next turn. *)
Lemma waiting_request_echoed io vh vl tl s sh :
  is_u8 vh → is_u8 vl → is_u8 (mi_addr (fw_mi s)) → mi_addr (fw_mi s) ≠ REGISTER_CODE →
  heap_is (fw_heap s) sh → room (sh_blocks sh) 60 →
  let request := control_write (mi_addr (fw_mi s)) vh vl in
  fw_uart1 s = mk_rx 8 YES (control_body (mi_addr (fw_mi s)) vh vl ++ tl) →
  wlp (UartTaskEntry_turn io) (λ _ s', sends request s s') s.
Proof.
  intros Hvh Hvl Ha Hne Hh Hroom request Hm.
  unfold UartTaskEntry_turn, set_ut at 1, getModuleInfo at 1. apply wlp_modify, wlp_gets.
  destruct (timers_inbox s) as [Hi0 Ht0]. revert Hi0 Ht0. generalize (s <| fw_ut := uart_timers (fw_ut s) |>).
  intros s0 Hi0 Ht0.
  apply (wlp_step (quiet inbox)); [apply along_if; [apply IoCheck_inbox|keeps_step]|].
  intros _ s1 [Hi1 Ht1]. rewrite Hi0 in Hi1. injection Hi1 as Em Ea Eh.
  apply wlp_gets. rewrite Em, Hm, decide_True by done. apply wlp_bind.
  rewrite <- Ea in Ha, Hne. rewrite <- Eh in Hh. unfold request in *. rewrite <- Ea in *.
  eapply wlp_mono; [apply (hub_message_echoes vh vl tl s1 sh); try done; by rewrite Em|]. intros [] s2 Ht2.
  eapply wlp_mono; [exact (wlp_along _ turn_rest s2 turn_rest_grows)|]. intros _ s3 [_ Ht3].
  eapply sends_before; [by etransitivity|]. eapply sends_after; [exact Ht3|].
  exists [], []. exact Ht2.
Qed.
End request.

Section properties.
Context `{Chip, HeapShape, FlashHwOk, Layout}.

(** From the interrupt to the answer. *)
Lemma control_write_path vh vl acts io s :
  bt_inv s → is_u8 vh → is_u8 vl → mi_addr (fw_mi (bt_fw s)) ≠ REGISTER_CODE →
  room (sh_blocks heap_shape_now) 60 → Forall bystander acts →
  let request := control_write (mi_addr (fw_mi (bt_fw s))) vh vl in
  wlp (perform_all (HubBytes request :: acts ++ [UartTurn io])) (λ _ s', sends request (bt_fw s) (bt_fw s')) s.
Proof.
  intros [Hs _] Hvh Hvl Hne Hroom Hacts request. set (s0 := bt_fw s) in *.
  assert (is_u8 (mi_addr (fw_mi s0))) as Ha by apply (inv_mi s0 Hs).
  assert (Forall is_u8 request) as Hu.
  { apply Forall_app_2; [|apply le_bytes_u8]. repeat (apply Forall_cons; [done|]). apply Forall_nil_2. }
  assert (Uart1_input request (zlen request) s0 = Ok (RT_EOK, heard s0 request true)) as Hin.
  { apply (Uart1_input_ok s0 request (inv_rx1 s0 Hs) Hu ltac:(done) true). split; [|done]. intros _. split; [done|].
    eexists. split; [reflexivity|by right]. }
  set (s1 := s <| bt_fw := heard s0 request true |>).
  assert (perform (HubBytes request) s = Ok (tt, s1)) as Hfirst.
  { unfold perform, zoom, mbind, prog_bind. fold s0. by rewrite Hin. }
  change (perform_all (HubBytes request :: acts ++ [UartTurn io]))
    with (perform (HubBytes request);; perform_all (acts ++ [UartTurn io])).
  apply wlp_bind. unfold wlp at 1. rewrite Hfirst.
  assert (∀ m : prog button_task unit, wlp m (λ _ s', sends request (bt_fw s1) (bt_fw s')) s1 →
    wlp m (λ _ s', sends request s0 (bt_fw s')) s1) as Hstart.
  { intros m Hm. eapply wlp_mono; [exact Hm|]. intros [] s' Hs'. exact Hs'. }
  apply Hstart. unfold wlp. rewrite perform_all_app.
  destruct (perform_all acts s1) as [[[] s2]|] eqn:Hmid; [|done].
  destruct (bystanders_inbox acts Hacts _ _ _ Hmid) as [Hi Ht]. injection Hi as Em Ea Eh.
  change (perform_all [UartTurn io] s2) with ((zoom bt_fw (UartTaskEntry_turn io);; mret tt) s2).
  unfold mbind, prog_bind, zoom.
  pose proof (waiting_request_echoed io vh vl
    (le_bytes 2 (crc16 (control_body (mi_addr (fw_mi s0)) vh vl)) ++ drop (length request) (rx_data (fw_uart1 s0)))
    (bt_fw s2) heap_shape_now) as Hw.
  rewrite Ea, Eh in Hw. change (mi_addr (fw_mi (bt_fw s1))) with (mi_addr (fw_mi s0)) in Hw.
  change (fw_heap (bt_fw s1)) with (fw_heap s0) in Hw.
  specialize (Hw Hvh Hvl Ha Hne (inv_heap s0 Hs) Hroom). fold request in Hw. cbn zeta in Hw.
  specialize (Hw ltac:(rewrite Em; reflexivity)). unfold wlp in Hw.
  destruct (UartTaskEntry_turn io (bt_fw s2)) as [[[] s3]|]; [|done].
  eapply sends_before; [exact Ht|exact Hw].
Qed.

Lemma messages_app evs1 evs2 :
  concat (messages <$> evs1 ++ evs2) = concat (messages <$> evs1) ++ concat (messages <$> evs2).
Proof. by rewrite fmap_app, concat_app. Qed.
End properties.

(** ** Properties *)

(** C12: with the serial driver under them the tasks behave as if whole messages came in.
    Whatever bursts arrive on the two lines and however turns of the tasks lie between them,
    the tasks do exactly what they do on the messages that the driver makes of the bursts
    ([delivered]): the same state, the same fault if there is one; and the driver is ready for
    the next burst. What is proved of [perform_all] holds for bursts on the wire. *)
Theorem lines_refine_messages `{Chip, FlashHw, Layout} evs s :
  ∃ h c, (∃ p, ready p h) ∧ (∃ p, ready p c) ∧
    happen_all evs (mk_board rt_serial_open rt_serial_open s) =
      match perform_all (concat (messages <$> evs)) s with
      | Ok (_, s') => Ok (tt, mk_board h c s')
      | Fault f => Fault f
      end.
Proof.
  destruct (happen_all_ok evs (mk_board rt_serial_open rt_serial_open s)) as (h & c & Hh & Hc & Hb).
  { split; exists 0; exact open_ready. }
  exists h, c. split; [exact Hh|]. split; [exact Hc|]. rewrite Hb. cbn [b_sys]. unfold with_ports. reflexivity.
Qed.

(** C13: a write of the control register that arrives as a burst on the hub's line, with the
    ports in any position, is answered by its echo in the communication task's next turn,
    whatever the display, the keys and the infrared chip do before it; and the echo leaves
    byte for byte through a port that is open the way Uart.c opens it. *)
Theorem request_echoed_on_line `{Chip, HeapShape, FlashHwOk, Layout} b vh vl evs io :
  let s := bt_fw (b_sys b) in
  quiet_ports b → bt_inv (b_sys b) → mi_addr (fw_mi s) ≠ REGISTER_CODE →
  room (sh_blocks heap_shape_now) 60 → is_u8 vh → is_u8 vl →
  Forall (λ e, Forall allowed (messages e) ∧ Forall bystander (messages e)) evs →
  let request := control_write (mi_addr (fw_mi s)) vh vl in
  ∃ b', happen_all (HubLine request :: evs ++ [Task (UartTurn io)]) b = Ok (tt, b') ∧
    quiet_ports b' ∧ bt_inv (b_sys b') ∧ sends request s (bt_fw (b_sys b')) ∧
    ∀ p, plain_port p → serial_write request (zlen request) p = Ok (zlen request, p <| sent := sent p ++ request |>).
Proof.
  intros s Hports Hinv Hne Hroom Hvh Hvl Hevs request.
  assert (concat (messages <$> HubLine request :: evs ++ [Task (UartTurn io)]) =
    HubBytes request :: concat (messages <$> evs) ++ [UartTurn io]) as Hmsgs.
  { assert (delivered request = Some request) as Hd by (apply delivered_short; done).
    change (concat (messages <$> HubLine request :: ?l)) with (messages (HubLine request) ++ concat (messages <$> l)).
    change (messages (HubLine request)) with
      (match delivered request with Some rx => [HubBytes rx] | None => [] end).
    rewrite Hd, messages_app. reflexivity. }
  assert (Forall bystander (concat (messages <$> evs)) ∧ Forall allowed (concat (messages <$> evs))) as [Hby Hal].
  { clear Hmsgs. induction Hevs as [|e evs' [Hea Heb] _ [IHb IHa]]; [done|]. split; apply Forall_app_2; done. }
  assert (Forall is_u8 request) as Hu.
  { apply Forall_app_2; [|apply le_bytes_u8]. destruct Hinv as [Hfw _].
    repeat (apply Forall_cons; [first [done|apply (inv_mi _ Hfw)]|]). apply Forall_nil_2. }
  assert (Forall allowed (HubBytes request :: concat (messages <$> evs) ++ [UartTurn io])) as Hall.
  { apply Forall_cons; [|apply Forall_app_2; [done|by repeat constructor]]. by split. }
  pose proof (wp_wlp _ _ _ _ (perform_all_inv _ Hall _ Hinv)
    (control_write_path vh vl _ io _ Hinv Hvh Hvl Hne Hroom Hby)) as Hw.
  apply wp_ok in Hw as ([] & s' & Hrun & Hinv' & Hsend).
  destruct (happen_all_ok (HubLine request :: evs ++ [Task (UartTurn io)]) b Hports) as (h & c & Hh & Hc & Hb).
  rewrite Hmsgs in Hb. fold request in Hrun. rewrite Hrun in Hb.
  exists (mk_board h c s'). split; [exact Hb|]. split; [by split|]. split; [done|]. split; [done|].
  intros p Hp. by apply serial_write_ok.
Qed.

(** C34: the flag of a message that waits vouches for any message that comes behind it. While
    an accepted message has not been read, eight bytes with the module's address and a wrong
    CRC are refused by the interrupt, which has copied them over the message that waits all
    the same; the next turn carries them out as a write of the control register and answers
    them with a right CRC. *)
Theorem refused_message_executed `{Chip, HeapShape, FlashHwOk, Layout} s vh vl crc_lo crc_hi io :
  let f := bt_fw s in
  bt_inv s → messageFlag (fw_uart1 f) = YES → mi_addr (fw_mi f) ≠ REGISTER_CODE →
  room (sh_blocks heap_shape_now) 60 →
  is_u8 vh → is_u8 vl → is_u8 crc_lo → is_u8 crc_hi →
  let request := control_write (mi_addr (fw_mi f)) vh vl in
  let refused := control_body (mi_addr (fw_mi f)) vh vl ++ [crc_lo; crc_hi] in
  refused ≠ request →
  (∃ f', Uart1_input refused 8 f = Ok (RT_ERROR, f')) ∧
  ∃ s', perform_all [HubBytes refused; UartTurn io] s = Ok (tt, s') ∧ sends request f (bt_fw s').
Proof.
  intros f Hinv Hflag Hne Hroom Hvh Hvl Hlo Hhi request refused Hwrong. pose proof Hinv as [Hs _]. fold f in Hs.
  assert (is_u8 (mi_addr (fw_mi f))) as Ha by apply (inv_mi f Hs).
  assert (Forall is_u8 refused) as Hu by (unfold refused; repeat (apply Forall_cons; [done|]); apply Forall_nil_2).
  assert (Uart1_input refused 8 f = Ok (RT_ERROR, heard f refused false)) as Hin.
  { apply (Uart1_input_ok f refused (inv_rx1 f Hs) Hu ltac:(done) false). split; [done|].
    intros (_ & body & Hbody & _). exfalso. apply Hwrong. rewrite Hbody. unfold request, control_write, with_crc in *.
    apply app_inj_2 in Hbody as [<- _]; [done|by rewrite length_le_bytes]. }
  split; [by eexists|]. set (s1 := s <| bt_fw := heard f refused false |>).
  assert (perform (HubBytes refused) s = Ok (tt, s1)) as Hfirst.
  { unfold perform, zoom, mbind, prog_bind. fold f. change (zlen refused) with 8. by rewrite Hin. }
  assert (Forall allowed [HubBytes refused; UartTurn io]) as Hall.
  { apply Forall_cons; [by split|]. by apply Forall_cons. }
  pose proof (perform_all_inv _ Hall _ Hinv) as Hw. apply wp_ok in Hw as ([] & s' & Hrun & _).
  exists s'. split; [exact Hrun|].
  change (perform_all [HubBytes refused; UartTurn io]) with (perform (HubBytes refused);; perform_all [UartTurn io]) in Hrun.
  unfold mbind, prog_bind at 1 in Hrun. rewrite Hfirst in Hrun.
  change (perform_all [UartTurn io] s1) with ((zoom bt_fw (UartTaskEntry_turn io);; mret tt) s1) in Hrun.
  pose proof (waiting_request_echoed io vh vl ([crc_lo; crc_hi] ++ drop 8 (rx_data (fw_uart1 f))) (bt_fw s1) heap_shape_now
    Hvh Hvl Ha Hne (inv_heap f Hs) Hroom) as Hturn.
  cbn zeta in Hturn. specialize (Hturn ltac:(unfold s1, heard; cbn [bt_fw upd]; unfold upd; cbn; by rewrite Hflag)).
  unfold wlp, mbind, prog_bind, zoom in Hturn, Hrun.
  destruct (UartTaskEntry_turn io (bt_fw s1)) as [[[] f2]|]; [|done]. injection Hrun as <-. exact Hturn.
Qed.

(** A module that has been started, in between a burst from the chip and turns of the other
    tasks. *)
Definition sample_board : board :=
  mk_board rt_serial_open rt_serial_open
    (mk_bt [fresh BUTTON_ENTER EnterBtn; fresh BUTTON_UP UpBtn; fresh BUTTON_DOWN DowmBtn]
       (zeros 3) (zeros 3) 3 (boot_fw started sample_mi)).

Lemma sample_board_inv : @bt_inv started_shape (b_sys sample_board).
Proof.
  split; [apply booted_inv; by vm_compute|]. split; [done|]. split; [by eexists 0, 0, 0|]. by eexists _, _, _.
Qed.

Lemma request_echoed_on_line_witness :
  let w := w_chip in let l := w_layout in
  ∃ b', happen_all (HubLine (control_write 1 0xE5 0x00) ::
      [ChipLine (zeros 20); Task OledTurn; Task (KeyTurn (λ _, 0))] ++ [Task (UartTurn 0)]) sample_board = Ok (tt, b') ∧
    sends (control_write 1 0xE5 0x00) (boot_fw started sample_mi) (bt_fw (b_sys b')) ∧
    ∃ p p', rt_device_open RT_EOK RT_DEVICE_FLAG_DMA_RX (rt_hw_serial_register RT_DEVICE_FLAG_DMA_RX) = Ok (RT_EOK, p) ∧
      serial_write (control_write 1 0xE5 0x00) 8 p = Ok (8, p') ∧ sent p' = control_write 1 0xE5 0x00.
Proof.
  intros w l.
  destruct (@request_echoed_on_line _ started_shape _ _ _ sample_board 0xE5 0x00
    [ChipLine (zeros 20); Task OledTurn; Task (KeyTurn (λ _, 0))] 0) as (b' & Hrun & _ & _ & Hsend & Hsent).
  - split; exists 0; exact open_ready.
  - exact sample_board_inv.
  - vm_compute. congruence.
  - apply started_room. lia.
  - vm_compute. split; congruence.
  - vm_compute. split; congruence.
  - apply Forall_cons; [|apply Forall_cons; [|apply Forall_cons; [|apply Forall_nil_2]]].
    + change (messages (ChipLine (zeros 20))) with [ChipBytes (zeros 20)].
      split; (apply Forall_cons; [|apply Forall_nil_2]); [|exact I]. split.
      * split; [apply (bool_decide_unpack _); vm_compute; reflexivity|vm_compute; congruence].
      * intros Hz. exfalso. revert Hz. vm_compute. congruence.
    + split; (apply Forall_cons; [exact I|apply Forall_nil_2]).
    + split; (apply Forall_cons; [exact I|apply Forall_nil_2]).
  - exists b'. split; [exact Hrun|]. split; [exact Hsend|]. destruct opened_plain as (p & Hopen & Hp & _ & Hnone).
    eexists p, _. split; [exact Hopen|]. split; [exact (Hsent p Hp)|].
    change (sent p ++ control_write 1 0xE5 0x00 = control_write 1 0xE5 0x00). by rewrite Hnone.
Defined.

(** A write that waits, and behind it one with the CRC 0. *)
Lemma refused_message_executed_witness :
  let w := w_chip in let l := w_layout in
  ∃ s s', perform_all [HubBytes (control_write 1 0xE5 0x00)] (b_sys sample_board) = Ok (tt, s) ∧
    (∃ f', Uart1_input (control_body 1 0x65 0x01 ++ [0; 0]) 8 (bt_fw s) = Ok (RT_ERROR, f')) ∧
    perform_all [HubBytes (control_body 1 0x65 0x01 ++ [0; 0]); UartTurn 0] s = Ok (tt, s') ∧
    sends (control_write 1 0x65 0x01) (bt_fw s) (bt_fw s').
Proof.
  intros w l.
  assert (Forall allowed [HubBytes (control_write 1 0xE5 0x00)]) as Hall.
  { apply Forall_cons; [|apply Forall_nil_2]. split; [|vm_compute; congruence].
    apply (bool_decide_unpack _). vm_compute. reflexivity. }
  pose proof (perform_all_inv _ Hall _ sample_board_inv) as Hw.
  destruct (proj1 (wp_ok _ _ _) Hw) as ([] & s & Hrun & Hinv). exists s.
  set (see := λ o : outcome (unit * button_task), match o with
    Ok (_, s) => (messageFlag (fw_uart1 (bt_fw s)), mi_addr (fw_mi (bt_fw s))) | Fault _ => (0, 0) end).
  assert ((messageFlag (fw_uart1 (bt_fw s)), mi_addr (fw_mi (bt_fw s))) = (YES, 1)) as Hsee.
  { change (see (Ok (tt, s)) = (YES, 1)). rewrite <- Hrun. vm_compute. reflexivity. }
  injection Hsee as Hflag Haddr.
  destruct (@refused_message_executed _ started_shape _ _ _ s 0x65 0x01 0 0 0) as (Href & s' & Hrun' & Hsend).
  - exact Hinv.
  - exact Hflag.
  - rewrite Haddr. vm_compute. congruence.
  - apply started_room. lia.
  - vm_compute. split; congruence.
  - vm_compute. split; congruence.
  - vm_compute. split; congruence.
  - vm_compute. split; congruence.
  - rewrite Haddr. vm_compute. congruence.
  - rewrite Haddr in Href, Hrun', Hsend. exists s'. split; [exact Hrun|]. split; [exact Href|].
    split; [exact Hrun'|exact Hsend].
Defined.
